(* ===== verification/_CoqProject ===== *)
-Q . S2P
Prelude.v
Text.v
Memory.v
PageMath.v
HostOS.v
Tlb.v
Pager.v
PagerTree.v
PagerWalk.v
PagerSpec.v
PagerTlb.v
PagerTheorems.v
Region.v
RegionManager.v
RegionSpec.v
RegionTheorems.v
Registers.v
Mappings.v
Heap.v
HeapSpec.v
HeapTheorems.v
Vcpu.v
Print.v
VcpuTheorems.v
Descriptors.v
DescriptorTheorems.v
Vm.v
Handlers.v
Syscall.v
SyscallStubs.v
Hypercall.v
Logging.v
Environ.v
VmSpec.v
SyscallTheorems.v
HypercallTheorems.v
RunTheorems.v
EnvironTheorems.v
Elf.v
ElfTheorems.v
Gdb.v
GdbTheorems.v
Lifecycle.v
LifecycleTheorems.v
Strace.v
StraceTheorems.v
Proxy.v
ProxyTheorems.v
AttachTheorems.v
MemoryCalls.v
FileCalls.v
PrintTheorems.v
GuestCode.v
GuestSpec.v
GuestTheorems.v
TrapTheorems.v
SignalTheorems.v
LoggingTheorems.v
FaultTheorems.v
