(* ===== verification/Prelude.v ===== *)
(** * libelkvm: a verification development

    libelkvm runs an ELF binary inside a KVM virtual machine without a guest
    operating system: the library is a monitor that builds the machine (memory,
    page tables, descriptor tables, registers), loads the binary, runs it, and
    answers its system calls, faults and signals.  This development is a shallow
    embedding of the C++ sources under [src/] and of the theorems that make the
    parts correct.

    ** The parts and where they are modelled

    - This file: machine integers with their wrap-around written out, the state
      and fault monad [M] in which every operation is written, weakest
      preconditions [wp], loops, arithmetic and list lemmas.  An operation
      returns [Ok (result, state)] or [Fail fault]; a fault is a failed assert, a
      throw, an exit, an abort, a null or out-of-range access, or the bound of a
      loop.  [keeps] says that an operation leaves a part of its state alone.
    - [Text]: characters, numbers in a base, [std::ostream] and [std::istream].
    - [Memory]: host memory as bytes; [PageMath]: the page arithmetic at the end
      of [pager.cc]; [HostOS]: the interface to libc's allocator and to KVM's
      memory slots, with the laws the theorems use and an instance.
    - [Tlb], [Pager] ([pager.cc], [pager.h]): the two lookaside buffers behind one
      class, the chunks of guest-physical memory, the four-level page tables.
      [PagerTree], [PagerWalk], [PagerSpec], [PagerTlb]: the invariant of the
      tables, the processor's walk ([mmu]) as the specification, the effect of
      each operation on it, coherence of the lookaside buffer.
    - [Region], [RegionManager] ([region.cc], [region_manager.cc]): regions are
      objects of a store because the source shares them; [RegionSpec] has the
      invariant that the regions partition the chunks.
    - [Mappings], [Heap] ([mapping.cc], [heap.cc]): mappings of regions to guest
      addresses, [brk], [mmap], [munmap], [mremap]; [HeapSpec] has their effects.
    - [Registers], [Vcpu] ([kvm.cc], [vcpu.cc], [stack.cc], [debug.cc]): the
      register file, the ioctls as an interface, the guest stack.
    - [Print] (the [print] and [dump] functions of [pager.cc], [vcpu.cc], [kvm.cc],
      [region.cc], [region_manager.cc], [mapping.cc], [heap.cc]): the text that
      is printed of registers, page tables, regions and mappings.
    - [Descriptors] ([gdt.cc], [idt.cc], [tss.cc]): the descriptor tables as bytes
      of guest memory.
    - [Vm] ([vm.cc], [vm_internals.cc], [signal.cc]): the whole machine, signals,
      resource limits, set-up, parameters of system calls.
    - [Handlers] ([elkvm.h], [syscall_default.cc]): the monitor's handlers and the
      default ones; [Syscall] ([syscall.cc], [syscalls-*.cc]), [SyscallStubs]
      ([syscall-stubs.cc]): the system calls; [Hypercall] (dispatch,
      [interrupt.cc], the main loop of [vm.cc]).
    - [Environ] ([environ.cc]): arguments, environment and auxiliary vector;
      [Elf] ([elfloader.cc] and the rest of [vm.cc]): loading a binary.
    - [Gdb] ([gdbstub.cc]): a machine under the control of a debugger.
    - [Lifecycle] ([kvm.cc], [vm.cc], [elkvm.h]): the options of a monitor,
      opening and closing [/dev/kvm], the machine object and its constructors.
    - [Strace] ([examples/strace/main.cc]), [Proxy] ([examples/proxy/main.cc]): the
      two monitors that come with the library, with their [main].
    - [Logging] ([elkvm-log.h], [syscall.h], [udis86.cc], two functions of
      [syscall.cc]): the records of the log, the measurement of time stamps, the
      printing of code with the disassembler as an interface.
    - [GuestCode] ([share/entry.S], [share/isr.S], [share/signal.S]): the code the
      library puts into the guest, its assembly to the flat binaries, and the part
      of the processor that runs it: decoding from guest memory, [push], [pop],
      jumps, [syscall], [sysretq], [iretq], [retq], the delivery of an exception
      through a gate of the interrupt table.  A [computer] is a machine with the
      selectors of its processor; [pc_run] is its run, in which a [vmcall] is
      answered by [handle_hypercall].

    The components are nested as in the source: the pager's state is a part of
    the region manager's, that of the heap manager's, that of the machine's, and
    [zoom] runs an operation of a part on the whole.  A CPU works on its
    registers and the region manager ([cpu]).

    ** What the theorems show

    - [PagerTheorems]: mapping a page refines the update of the processor's
      translation and keeps every other page; regions of pages; unmapping; the
      search for a kernel page ends; [get_host_p] with the lookaside buffer
      equals the walk; a freed page may stay in the buffer.
    - [RegionTheorems]: boot establishes the invariants; allocation and freeing
      keep the partition of memory, and live regions never overlap.
    - [HeapTheorems]: a new mapping is a fresh region with the asked protection, or an
      assertion fails because its place shows other memory;
      creating and unmapping cancel; the break grows in place.
    - [MemoryCalls]: [mmap] and [brk] from the registers of the guest to its page
      tables.
    - [VcpuTheorems], [DescriptorTheorems]: push and pop, growth of the stack,
      the initial registers and [cr3], descriptors and gates round-trip and the
      selectors the CPU gets point at the descriptors they name.
    - [SyscallTheorems]: the dispatch of a number to its function, unknown
      numbers and missing handlers, and that the host's functions get the guest's
      arguments with every pointer translated.
    - [HypercallTheorems], [RunTheorems]: delivery and queueing of signals, the
      outcome of a hypercall and of a page fault, the main loop as a step
      relation, and that the guest's exit ends it.
    - [EnvironTheorems]: the stack image a program starts from, with numbers, strings and
      ignored entries of the auxiliary vector.
    - [ElfTheorems]: the memory image of a loaded segment and the ways loading it fails.
    - [GdbTheorems]: the hexadecimal encoding and the packets of the remote
      protocol round-trip, and replies are repeated until they are acknowledged.
    - [FileCalls]: which host memory [read] and [write] hand to the host, also when
      a buffer crosses regions; for [write] every run, as a relation on its pieces.
    - [PrintTheorems]: the dump of the page tables, read back from its text, shows every
      table once and exactly the pages the processor translates.
    - [LifecycleTheorems]: initialisation and cleanup balance, what a created
      machine is and which failures end the process instead, and that no run of a guest
      changes its shape.
    - [StraceTheorems]: tracing does not change the run of a guest whose system
      calls have names.
    - [ProxyTheorems], [AttachTheorems]: the map of a process is read as the kernel
      prints it, options are counted right one by one, when a process is
      stopped, and what memory a process gets in the machine.
    - [GuestTheorems]: a [syscall] instruction of the guest runs through the entry
      code, the hypercall and [sysretq] back to the instruction behind it, with the
      result in [rax] and every other general register as it was; which gates of the
      interrupt table reach the stub of their own vector.
    - [TrapTheorems], [FaultTheorems]: a debug trap, and a page fault below the
      stack, from the processor through gate, stub, hypercall and [iretq] back to
      the interrupted instruction; after the fault the stack has grown.
    - [SignalTheorems]: a signal handler is entered from a system call and returns
      through the cleanup code to the caller; a signal that arrives in an exception
      destroys the frame of the processor.
    - [LoggingTheorems]: printing code ends with the text of every instruction, the
      average of time stamps.

    [VmSpec] holds the lemmas on the machine and [GuestSpec] those on code, stack
    and translation that the groups on the guest share.

    ** Loops

    [while_] unfolds a loop at most [2 ^ 64] times in a binary fashion, which no
    run of the code can exceed in practice and which costs nothing to evaluate;
    [wp_while] proves termination from a variant, [while_rounds] relates a loop
    to its rounds.  Theorems that a function returns are proved without the
    fault [Fuel].  [ElfBinary_new] has a depth for binaries that name one another
    as loader: 1 is enough for a static binary, 2 for one with a static loader.
    [args_fuel] is the number of characters of the command line of [proxy]: every
    call of [getopt] but the last consumes one ([options_read]).

    ** What is not modelled

    The sink of [boost::log] and, in debug mode, the messages of most system calls
    (what they dereference is kept where it can fault).  The processor of
    [GuestCode] has the instructions of the three files and [syscall]; a word that
    crosses a page, the checks of privilege and presence of segments and the
    hidden parts of segment registers are left out, so its runs are those in which
    no such check fails.  Other instructions of the guest are hypotheses on its
    registers and memory.  libc, KVM, [ptrace], [/proc], libelf and udis86 are
    interfaces ([HostOS], [FileOS], [KvmOS], [MonitorOS], [LibC], [ElfLib],
    [SocketOS], [KvmDev], [TraceOS], [Disassembler]) whose documented behaviour is
    stated as laws where a theorem needs it.  There is one thread:
    the arrival of a signal is a step between others. *)

From stdpp Require Export base tactics list option gmap.
From Stdlib Require Export ZArith Lia.
Local Open Scope Z_scope.

(** ** Machine integers

    Every C integer is a [Z]; the conversions that a C expression performs
    are written out with the wrap-around functions below. *)

Definition u64 (x : Z) : Z := x mod 2 ^ 64.
Definition u32 (x : Z) : Z := x mod 2 ^ 32.
Definition u16 (x : Z) : Z := x mod 2 ^ 16.
Definition u8 (x : Z) : Z := x mod 2 ^ 8.

(** Conversion to a signed type of [w] bits (two's complement). *)
Definition sN (w x : Z) : Z := (x + 2 ^ (w - 1)) mod 2 ^ w - 2 ^ (w - 1).
Definition s32 (x : Z) : Z := sN 32 x.
Definition s64 (x : Z) : Z := sN 64 x.

(** The C truth value of an integer expression such as [flags & MASK]. *)
Definition ctrue (x : Z) : bool := negb (x =? 0).

Definition is_u64 (x : Z) : Prop := 0 <= x < 2 ^ 64.

(** ** Faults

    How an execution of the C++ code can end without a result.  The library
    is built with [CMAKE_BUILD_TYPE Debug], so [assert] is active. *)

Inductive fault :=
  | Assert            (* a failed assert *)
  | Throw             (* a throw expression (also a bare [throw;]) *)
  | Exit (code : Z)   (* exit(code) *)
  | NullDeref         (* a member or element access through a null pointer *)
  | OutOfRange        (* an element access outside an array or vector *)
  | Aborted           (* abort() *)
  | Fuel.             (* the model's loop bound was reached *)

#[export] Instance fault_eq_dec : EqDecision fault.
Proof. solve_decision. Defined.

Inductive res (A : Type) :=
  | Ok (a : A)
  | Fail (f : fault).
Arguments Ok {A} a.
Arguments Fail {A} f.

(** ** The state and fault monad *)

Definition M (S A : Type) : Type := S -> res (A * S).

Section Monad.
Context {S : Type}.

Definition ret {A} (a : A) : M S A := fun s => Ok (a, s).

Definition bind {A B} (c : M S A) (k : A -> M S B) : M S B :=
  fun s => match c s with
           | Ok (a, s') => k a s'
           | Fail f => Fail f
           end.

Definition get : M S S := fun s => Ok (s, s).
Definition put (s : S) : M S unit := fun _ => Ok (tt, s).
Definition gets {A} (f : S -> A) : M S A := fun s => Ok (f s, s).
Definition modify (f : S -> S) : M S unit := fun s => Ok (tt, f s).
Definition fail {A} (f : fault) : M S A := fun _ => Fail f.
Definition assert_ (b : bool) : M S unit := if b then ret tt else fail Assert.

(** Dereferencing a pointer that may be null. *)
Definition deref {A} (o : option A) : M S A :=
  match o with Some a => ret a | None => fail NullDeref end.

(** Indexing an array or a vector. *)
Definition at_ {A} (l : list A) (i : nat) : M S A :=
  match l !! i with Some a => ret a | None => fail OutOfRange end.
End Monad.

(** Running an operation of a component on the part of a larger state that
    holds the component. *)
Definition zoom {S T A} (g : T -> S) (p : S -> T -> T) (c : M S A) : M T A :=
  fun t => match c (g t) with
           | Ok (a, s') => Ok (a, p s' t)
           | Fail f => Fail f
           end.

Declare Scope elkvm_scope.
Delimit Scope elkvm_scope with elkvm.
Notation "'let!' x ':=' c 'in' k" := (bind c (fun x => k))
  (at level 10, x name, c at level 100, k at level 200) : elkvm_scope.
Notation "'let!' ' p ':=' c 'in' k" := (bind c (fun p => k))
  (at level 10, p strict pattern, c at level 100, k at level 200) : elkvm_scope.
Notation "'do!' c 'in' k" := (bind c (fun _ => k))
  (at level 10, c at level 100, k at level 200) : elkvm_scope.
Open Scope elkvm_scope.

(** ** Weakest preconditions

    [wp F c Q s]: running [c] from [s] either gives a result and a state that
    satisfy [Q], or ends in a fault that [F] allows.  [no_fault] gives total
    correctness, [any_fault] partial correctness. *)

Definition wp {S A} (F : fault -> Prop) (c : M S A) (Q : A -> S -> Prop) (s : S) : Prop :=
  match c s with
  | Ok (a, s') => Q a s'
  | Fail f => F f
  end.

Definition no_fault (f : fault) : Prop := False.
Definition any_fault (f : fault) : Prop := True.
(** The faults the source itself raises: everything but the model's fuel. *)
Definition code_fault (f : fault) : Prop := f <> Fuel.

Section WP.
Context {S : Type}.

Lemma wp_ret {A} F (a : A) Q (s : S) : Q a s -> wp F (ret a) Q s.
Proof. done. Qed.

Lemma wp_bind {A B} F (c : M S A) (k : A -> M S B) Q s :
  wp F c (fun a s' => wp F (k a) Q s') s -> wp F (bind c k) Q s.
Proof. unfold wp, bind. by destruct (c s) as [[a s']|f]. Qed.

Lemma wp_get F Q (s : S) : Q s s -> wp F get Q s.
Proof. done. Qed.

Lemma wp_gets {A} F (f : S -> A) Q s : Q (f s) s -> wp F (gets f) Q s.
Proof. done. Qed.

Lemma wp_put F (s' : S) Q s : Q tt s' -> wp F (put s') Q s.
Proof. done. Qed.

Lemma wp_modify F (f : S -> S) Q s : Q tt (f s) -> wp F (modify f) Q s.
Proof. done. Qed.

Lemma wp_assert F b Q (s : S) :
  (b = true -> Q tt s) -> (b = false -> F Assert) -> wp F (assert_ b) Q s.
Proof. destruct b; unfold wp, assert_; simpl; auto. Qed.

Lemma wp_deref {A} F (o : option A) Q (s : S) :
  (forall a, o = Some a -> Q a s) -> (o = None -> F NullDeref) -> wp F (deref o) Q s.
Proof. destruct o; unfold wp, deref; simpl; auto. Qed.

Lemma wp_at {A} F (l : list A) i Q (s : S) :
  (forall a, l !! i = Some a -> Q a s) -> (l !! i = None -> F OutOfRange) ->
  wp F (at_ l i) Q s.
Proof. unfold wp, at_. destruct (l !! i); simpl; auto. Qed.

Lemma wp_if {A} F (b : bool) (c d : M S A) Q s :
  (b = true -> wp F c Q s) -> (b = false -> wp F d Q s) ->
  wp F (if b then c else d) Q s.
Proof. destruct b; auto. Qed.

Lemma wp_mono {A} F (c : M S A) (Q Q' : A -> S -> Prop) s :
  wp F c Q s -> (forall a s', Q a s' -> Q' a s') -> wp F c Q' s.
Proof. unfold wp. destruct (c s) as [[a s']|f]; auto. Qed.

(** The same, knowing what the operation returned. *)
Lemma wp_mono_eq {A} F (c : M S A) (Q Q' : A -> S -> Prop) s :
  wp F c Q s -> (forall a s', c s = Ok (a, s') -> Q a s' -> Q' a s') -> wp F c Q' s.
Proof. unfold wp. destruct (c s) as [[a s']|f]; auto. Qed.

Lemma wp_weaken_fault {A} (F F' : fault -> Prop) (c : M S A) Q s :
  wp F c Q s -> (forall f, F f -> F' f) -> wp F' c Q s.
Proof. unfold wp. destruct (c s) as [[a s']|f]; auto. Qed.

Lemma wp_total {A} (F : fault -> Prop) (c : M S A) Q s : wp no_fault c Q s -> wp F c Q s.
Proof. intros Hw. eapply wp_weaken_fault; [done|]. by intros f. Qed.

Lemma wp_ok {A} F (c : M S A) Q s a s' : c s = Ok (a, s') -> Q a s' -> wp F c Q s.
Proof. unfold wp. by intros ->. Qed.

Lemma wp_total_inv {A} (c : M S A) Q s :
  wp no_fault c Q s -> exists a s', c s = Ok (a, s') /\ Q a s'.
Proof. unfold wp. destruct (c s) as [[a s']|f]; [eauto | done]. Qed.

Lemma wp_partial_inv {A} F (c : M S A) Q s a s' :
  wp F c Q s -> c s = Ok (a, s') -> Q a s'.
Proof. unfold wp. intros H E. by rewrite E in H. Qed.

Lemma bind_ok_inv {A B} (c : M S A) (k : A -> M S B) s b s2 :
  bind c k s = Ok (b, s2) -> exists a s1, c s = Ok (a, s1) /\ k a s1 = Ok (b, s2).
Proof. unfold bind. destruct (c s) as [[a s1]|f]; [eauto | done]. Qed.

Lemma bind_ok {A B} (c : M S A) (k : A -> M S B) s a s' :
  c s = Ok (a, s') -> bind c k s = k a s'.
Proof. unfold bind. by intros ->. Qed.

Lemma bind_cong {A B} (c : M S A) (k k' : A -> M S B) s :
  (forall a s', c s = Ok (a, s') -> k a s' = k' a s') -> bind c k s = bind c k' s.
Proof. unfold bind. destruct (c s) as [[a s']|f]; auto. Qed.

Lemma bind_fail {A B} (c : M S A) (k : A -> M S B) s e : c s = Fail e -> bind c k s = Fail e.
Proof. unfold bind. by intros ->. Qed.
End WP.

Lemma wp_zoom {S T A} F (g : T -> S) (p : S -> T -> T) (c : M S A) Q t :
  wp F c (fun a s' => Q a (p s' t)) (g t) -> wp F (zoom g p c) Q t.
Proof. unfold wp, zoom. by destruct (c (g t)) as [[a s']|f]. Qed.

(** One syntax-directed step; [wp_go] takes all of them. *)
Ltac wp_step :=
  lazymatch goal with
  | |- wp _ (bind _ _) _ _ => apply wp_bind
  | |- wp _ (ret _) _ _ => apply wp_ret
  | |- wp _ get _ _ => apply wp_get
  | |- wp _ (gets _) _ _ => apply wp_gets
  | |- wp _ (put _) _ _ => apply wp_put
  | |- wp _ (modify _) _ _ => apply wp_modify
  | |- wp _ (assert_ _) _ _ => apply wp_assert; intros ?
  | |- wp _ (deref _) _ _ => apply wp_deref; intros
  | |- wp _ (at_ _ _) _ _ => apply wp_at; intros
  | |- wp _ (zoom _ _ _) _ _ => apply wp_zoom
  | |- wp _ (if ?b then _ else _) _ _ => apply wp_if; intros ?
  end.
Ltac wp_go := repeat (wp_step; cbn beta).

(** ** Arithmetic shared by the components *)

Create HintDb elkvm discriminated.

Lemma u64_small x : 0 <= x < 2 ^ 64 -> u64 x = x.
Proof. intros. unfold u64. by apply Z.mod_small. Qed.

Lemma u64_range x : 0 <= u64 x < 2 ^ 64.
Proof. unfold u64. apply Z.mod_pos_bound. lia. Qed.

Lemma u64_idem x : u64 (u64 x) = u64 x.
Proof. apply u64_small, u64_range. Qed.

Lemma u32_small x : 0 <= x < 2 ^ 32 -> u32 x = x.
Proof. intros. unfold u32. by apply Z.mod_small. Qed.

Lemma u8_range x : 0 <= u8 x < 256.
Proof. unfold u8. apply Z.mod_pos_bound. lia. Qed.

Lemma u8_small x : 0 <= x < 256 -> u8 x = x.
Proof. intros. unfold u8. apply Z.mod_small. lia. Qed.

Lemma s32_small x : - 2 ^ 31 <= x < 2 ^ 31 -> s32 x = x.
Proof. intros. unfold s32, sN. simpl Z.sub. rewrite Z.mod_small; lia. Qed.

Lemma s64_small x : - 2 ^ 63 <= x < 2 ^ 63 -> s64 x = x.
Proof. intros. unfold s64, sN. simpl Z.sub. rewrite Z.mod_small; lia. Qed.

Lemma ctrue_true x : ctrue x = true <-> x <> 0.
Proof. unfold ctrue. destruct (Z.eqb_spec x 0); simpl; naive_solver. Qed.

Lemma ctrue_false x : ctrue x = false <-> x = 0.
Proof. unfold ctrue. destruct (Z.eqb_spec x 0); simpl; naive_solver. Qed.

(** Masking with the bits [j .. k-1]. *)
Lemma land_mask a j k :
  0 <= j <= k -> Z.land a (2 ^ k - 2 ^ j) = a mod 2 ^ k - a mod 2 ^ j.
Proof.
  intros Hjk.
  replace (2 ^ k - 2 ^ j) with (Z.shiftl (Z.ones (k - j)) j).
  2: { rewrite Z.shiftl_mul_pow2, Z.ones_equiv by lia.
       replace (2 ^ k) with (2 ^ (k - j) * 2 ^ j); [lia|].
       rewrite <- Z.pow_add_r by lia. f_equal. lia. }
  replace (Z.land a (Z.shiftl (Z.ones (k - j)) j))
    with (Z.shiftl (Z.land (Z.shiftr a j) (Z.ones (k - j))) j).
  2: { apply Z.bits_inj'. intros n Hn. rewrite Z.land_spec, !Z.shiftl_spec by lia.
       destruct (decide (n < j)) as [Hl|Hl].
       - rewrite !(Z.testbit_neg_r _ (n - j)) by lia. by rewrite andb_false_r.
       - rewrite Z.land_spec, Z.shiftr_spec by lia. do 2 f_equal. lia. }
  rewrite Z.land_ones, Z.shiftr_div_pow2, Z.shiftl_mul_pow2 by lia.
  replace (2 ^ k) with (2 ^ j * 2 ^ (k - j)) by (rewrite <- Z.pow_add_r by lia; f_equal; lia).
  rewrite Z.rem_mul_r by lia. lia.
Qed.

Lemma land_low a k : 0 <= k -> Z.land a (2 ^ k - 1) = a mod 2 ^ k.
Proof. intros. rewrite <- Z.land_ones by lia. rewrite Z.ones_equiv. f_equal. Qed.

(** [x | y] is [x + y] when no bit is set in both. *)
Lemma lor_disjoint x y k :
  0 <= k -> 0 <= y < 2 ^ k -> x mod 2 ^ k = 0 -> Z.lor x y = x + y.
Proof.
  intros Hk Hy Hx. rewrite <- Z.lxor_lor; [symmetry; apply Z.add_nocarry_lxor|];
    apply Z.bits_inj'; intros n Hn; rewrite Z.land_spec, Z.bits_0;
    (destruct (decide (n < k)) as [Hl|Hl];
     [ replace (Z.testbit x n) with false; [done|];
       rewrite <- (Z.mod_pow2_bits_low x k n), Hx by lia; by rewrite Z.bits_0
     | replace (Z.testbit y n) with false; [by rewrite andb_false_r|];
       rewrite <- (Z.mod_small y (2 ^ k)) by done;
       symmetry; apply Z.mod_pow2_bits_high; lia ]).
Qed.

Lemma testbit_land_pow2 a k : 0 <= k -> ctrue (Z.land a (2 ^ k)) = Z.testbit a k.
Proof.
  intros Hk. destruct (Z.testbit a k) eqn:E.
  - apply ctrue_true. intros H. apply (f_equal (fun z => Z.testbit z k)) in H.
    rewrite Z.land_spec, E, Z.pow2_bits_true, Z.bits_0 in H by lia. done.
  - apply ctrue_false. apply Z.bits_inj'. intros n Hn. rewrite Z.land_spec, Z.bits_0.
    rewrite Z.pow2_bits_eqb by lia. destruct (Z.eqb_spec k n) as [<-|]; [by rewrite E|].
    apply andb_false_r.
Qed.

Lemma mod_mod_pow2 a j k : 0 <= j <= k -> (a mod 2 ^ k) mod 2 ^ j = a mod 2 ^ j.
Proof.
  intros. apply Z.mod_mod_divide.
  exists (2 ^ (k - j)). rewrite <- Z.pow_add_r by lia. f_equal. lia.
Qed.

(** Bitwise operations stay inside a word. *)
Lemma lor_u64 a b : is_u64 a -> is_u64 b -> is_u64 (Z.lor a b).
Proof.
  intros Ha Hb. assert (Z.lor a b = u64 (Z.lor a b)) as ->; [|apply u64_range].
  unfold u64. rewrite <- Z.land_ones, Z.land_lor_distr_l, !Z.land_ones by lia.
  rewrite !Z.mod_small by done. done.
Qed.

Lemma land_u64 a b : is_u64 a -> is_u64 (Z.land a b).
Proof.
  intros Ha. assert (Z.land a b = u64 (Z.land a b)) as ->; [|apply u64_range].
  unfold u64. rewrite <- Z.land_ones, <- Z.land_assoc, (Z.land_comm b), Z.land_assoc,
    Z.land_ones by lia.
  rewrite (Z.mod_small a) by done. done.
Qed.

#[export] Hint Resolve u64_range lor_u64 land_u64 : elkvm.

(** ** Lists *)

(** [std::find_if] on a vector: the position of the first match. *)
Fixpoint find_idx {A} (P : A -> bool) (l : list A) : option nat :=
  match l with
  | [] => None
  | x :: l' => if P x then Some 0%nat else S <$> find_idx P l'
  end.

(** [vector::erase] at a valid position. *)
Definition erase {A} (i : nat) (l : list A) : list A := take i l ++ drop (S i) l.

Lemma find_idx_Some {A} (P : A -> bool) l i :
  find_idx P l = Some i ->
  exists x, l !! i = Some x /\ P x = true /\
            forall j y, (j < i)%nat -> l !! j = Some y -> P y = false.
Proof.
  revert i. induction l as [|x l IH]; intros i H; simpl in H; [done|].
  destruct (P x) eqn:E.
  - injection H as <-. exists x. repeat split; [done..|]. intros; lia.
  - destruct (find_idx P l) as [k|]; [|done]. injection H as <-.
    destruct (IH k eq_refl) as (y & Hy & HP & Hall). exists y. repeat split; [done..|].
    intros [|j] z Hj Hz; simpl in Hz; [congruence|]. eapply Hall; [|done]. lia.
Qed.

Lemma find_idx_None {A} (P : A -> bool) l :
  find_idx P l = None <-> Forall (fun x => P x = false) l.
Proof.
  induction l as [|x l IH]; simpl; [split; [constructor|done]|].
  destruct (P x) eqn:E; [split; [done|inversion 1; congruence]|].
  rewrite Forall_cons, <- IH. destruct (find_idx P l); simpl; split; intros H; try done.
  by destruct H.
Qed.

Lemma find_idx_exists {A} (P : A -> bool) l x :
  x ∈ l -> P x = true -> is_Some (find_idx P l).
Proof.
  intros Hx HP. destruct (find_idx P l) eqn:E; [eauto|].
  apply find_idx_None in E. rewrite Forall_forall in E.
  specialize (E x). rewrite E in HP; [done|]. done.
Qed.

Lemma erase_Permutation {A} (l : list A) i x :
  l !! i = Some x -> l ≡ₚ x :: erase i l.
Proof.
  intros H. unfold erase. rewrite <- (take_drop_middle l i x H) at 1.
  symmetry. apply Permutation_middle.
Qed.

Lemma length_erase {A} (l : list A) i :
  (i < length l)%nat -> length (erase i l) = pred (length l).
Proof. intros H. unfold erase. rewrite length_app, length_take, length_drop. lia. Qed.

(** ** Loops

    [while_ body x] repeats [body] until it answers [inr].  The unfolding is
    binary, so that the bound is [2 ^ 64] iterations and still costs nothing
    to evaluate; [wp_while] shows that a loop with a variant below that bound
    never reaches it. *)

Section Loops.
Context {S X A : Type}.
Implicit Types (body : X -> M S (X + A)).

Fixpoint loop (d : nat) body (x : X) : M S (X + A) :=
  match d with
  | O => body x
  | Datatypes.S d' =>
      let! r := loop d' body x in
      match r with
      | inl x' => loop d' body x'
      | inr a => ret (inr a)
      end
  end.

Definition while_ body (x : X) : M S A :=
  let! r := loop 64 body x in
  match r with
  | inl _ => fail Fuel
  | inr a => ret a
  end.

Variables (F : fault -> Prop) (I : X -> S -> Prop) (V : X -> S -> Z) (Q : A -> S -> Prop).

Lemma wp_loop d body x s :
  (forall y t, I y t ->
     wp F (body y) (fun r t' => match r with
                                | inl y' => I y' t' /\ V y' t' < V y t
                                | inr a => Q a t' end) t) ->
  I x s ->
  wp F (loop d body x) (fun r t => match r with
                                   | inl y => I y t /\ V y t <= V x s - 2 ^ Z.of_nat d
                                   | inr a => Q a t end) s.
Proof.
  intros Hbody. revert x s. induction d as [|d IH]; intros x s Hx; cbn [loop].
  - eapply wp_mono; [by apply Hbody|]. intros [y|a] t; [|done]. intros [? ?].
    split; [done|]. simpl. lia.
  - apply wp_bind. eapply wp_mono; [by apply IH|]. intros [y|a] t Hy; [|by apply wp_ret].
    destruct Hy as [Hy HV]. eapply wp_mono; [by apply IH|].
    intros [z|a] t'; [|done]. intros [? ?]. split; [done|].
    rewrite Nat2Z.inj_succ, Z.pow_succ_r by lia. lia.
Qed.

Lemma wp_while body x s :
  (forall y t, I y t ->
     0 <= V y t /\
     wp F (body y) (fun r t' => match r with
                                | inl y' => I y' t' /\ V y' t' < V y t
                                | inr a => Q a t' end) t) ->
  I x s -> V x s < 2 ^ 64 ->
  wp F (while_ body x) Q s.
Proof.
  intros Hbody Hx HV. unfold while_. apply wp_bind.
  eapply wp_mono; [apply wp_loop; [|done]; intros; by apply Hbody|].
  intros [y|a] t; [|intros; by apply wp_ret]. intros [Hy Hle].
  destruct (Hbody y t Hy) as [H0 _]. change (2 ^ Z.of_nat 64) with (2 ^ 64) in Hle. lia.
Qed.
End Loops.

(** The rounds of a loop as a relation: [rounds body k x s y t] when [k] rounds
    that go on lead from [x] and [s] to [y] and [t]. *)
Section Rounds.
Context {S X A : Type}.
Variable body : X -> M S (X + A).

Inductive rounds : nat -> X -> S -> X -> S -> Prop :=
  | rounds_O x s : rounds O x s x s
  | rounds_S k x s y t z u :
      body x s = Ok (inl y, t) -> rounds k y t z u -> rounds (Datatypes.S k) x s z u.

Lemma rounds_trans j k x s y t z u : rounds j x s y t -> rounds k y t z u -> rounds (j + k) x s z u.
Proof. induction 1; intros Hk; [done|]. econstructor; [done|]. auto. Qed.

Lemma rounds_split j k x s z u :
  rounds (j + k) x s z u -> exists y t, rounds j x s y t /\ rounds k y t z u.
Proof.
  revert x s. induction j as [|j IH]; intros x s Hr; [exists x, s; by split; [constructor|]|].
  inversion Hr as [|? ? ? y t ? ? Hb Hr']; subst. destruct (IH y t Hr') as (y' & t' & ? & ?).
  exists y', t'. split; [by econstructor|done].
Qed.

Lemma loop_all d k x s y t :
  rounds k x s y t -> Z.of_nat k = 2 ^ Z.of_nat d -> loop d body x s = Ok (inl y, t).
Proof.
  revert k x s y t. induction d as [|d IH]; intros k x s y t Hr Hk; cbn [loop].
  - assert (k = 1%nat) as -> by (change (2 ^ Z.of_nat 0) with 1 in Hk; lia).
    inversion Hr as [|? ? ? ? ? ? ? Hb Hr']; subst. by inversion Hr'; subst.
  - rewrite Nat2Z.inj_succ, Z.pow_succ_r in Hk by lia.
    replace k with (Z.to_nat (2 ^ Z.of_nat d) + Z.to_nat (2 ^ Z.of_nat d))%nat in Hr by lia.
    apply rounds_split in Hr as (y' & t' & H1 & H2).
    rewrite (bind_ok _ _ _ _ _ (IH _ _ _ _ _ H1 ltac:(lia))). apply (IH _ _ _ _ _ H2). lia.
Qed.

Lemma loop_stop d k x s y t a u :
  rounds k x s y t -> Z.of_nat k < 2 ^ Z.of_nat d -> body y t = Ok (inr a, u) ->
  loop d body x s = Ok (inr a, u).
Proof.
  revert k x s. induction d as [|d IH]; intros k x s Hr Hk Hb; cbn [loop].
  - assert (k = 0%nat) as -> by (change (2 ^ Z.of_nat 0) with 1 in Hk; lia). by inversion Hr; subst.
  - rewrite Nat2Z.inj_succ, Z.pow_succ_r in Hk by lia.
    destruct (Z.lt_ge_cases (Z.of_nat k) (2 ^ Z.of_nat d)) as [Hlt|Hge].
    + by rewrite (bind_ok _ _ _ _ _ (IH k x s Hr Hlt Hb)).
    + replace k with (Z.to_nat (2 ^ Z.of_nat d) + (k - Z.to_nat (2 ^ Z.of_nat d)))%nat in Hr by lia.
      apply rounds_split in Hr as (y' & t' & H1 & H2).
      rewrite (bind_ok _ _ _ _ _ (loop_all d _ _ _ _ _ H1 ltac:(lia))). apply (IH _ _ _ H2); [lia|done].
Qed.

Lemma loop_fault d k x s y t e :
  rounds k x s y t -> Z.of_nat k < 2 ^ Z.of_nat d -> body y t = Fail e -> loop d body x s = Fail e.
Proof.
  revert k x s. induction d as [|d IH]; intros k x s Hr Hk Hb; cbn [loop].
  - assert (k = 0%nat) as -> by (change (2 ^ Z.of_nat 0) with 1 in Hk; lia). by inversion Hr; subst.
  - rewrite Nat2Z.inj_succ, Z.pow_succ_r in Hk by lia.
    destruct (Z.lt_ge_cases (Z.of_nat k) (2 ^ Z.of_nat d)) as [Hlt|Hge].
    + by rewrite (bind_fail _ _ _ _ (IH k x s Hr Hlt Hb)).
    + replace k with (Z.to_nat (2 ^ Z.of_nat d) + (k - Z.to_nat (2 ^ Z.of_nat d)))%nat in Hr by lia.
      apply rounds_split in Hr as (y' & t' & H1 & H2).
      rewrite (bind_ok _ _ _ _ _ (loop_all d _ _ _ _ _ H1 ltac:(lia))). apply (IH _ _ _ H2); [lia|done].
Qed.

Lemma loop_inv d x s r u :
  loop d body x s = Ok (r, u) ->
  match r with
  | inl y => exists k, Z.of_nat k = 2 ^ Z.of_nat d /\ rounds k x s y u
  | inr a => exists k y t, Z.of_nat k < 2 ^ Z.of_nat d /\ rounds k x s y t /\ body y t = Ok (inr a, u)
  end.
Proof.
  revert x s r u. induction d as [|d IH]; intros x s r u; cbn [loop].
  - intros Hb. destruct r as [y|a].
    + exists 1%nat. split; [done|]. econstructor; [done|constructor].
    + exists 0%nat, x, s. split; [done|]. by split; [constructor|].
  - intros Hb. apply bind_ok_inv in Hb as ([x'|a'] & s' & H1 & H2); apply IH in H1.
    + destruct H1 as (j & Hj & Hr). apply IH in H2. rewrite Nat2Z.inj_succ, Z.pow_succ_r by lia. destruct r as [y|a].
      * destruct H2 as (k & Hk & Hr'). exists (j + k)%nat. split; [lia|by eapply rounds_trans].
      * destruct H2 as (k & y & t & Hk & Hr' & Hb). exists (j + k)%nat, y, t. split; [lia|].
        split; [by eapply rounds_trans|done].
    + injection H2 as <- <-. destruct H1 as (k & y & t & Hk & Hr & Hb). exists k, y, t.
      rewrite Nat2Z.inj_succ, Z.pow_succ_r by lia. split; [lia|done].
Qed.

(** A loop returns exactly when some round below the bound ends it. *)
Lemma while_rounds x s a u :
  while_ body x s = Ok (a, u) <->
  exists k y t, Z.of_nat k < 2 ^ 64 /\ rounds k x s y t /\ body y t = Ok (inr a, u).
Proof.
  unfold while_. split.
  - intros Hw. apply bind_ok_inv in Hw as ([y|a'] & t & H1 & H2); [done|]. injection H2 as <- <-.
    exact (loop_inv 64 x s (inr a') t H1).
  - intros (k & y & t & Hk & Hr & Hb). by rewrite (bind_ok _ _ _ _ _ (loop_stop 64 k x s y t a u Hr Hk Hb)).
Qed.

Lemma loop_cong body' d x s :
  (forall k y t, rounds k x s y t -> body y t = body' y t) -> loop d body x s = loop d body' x s.
Proof.
  revert x s. induction d as [|d IH]; intros x s Hb; cbn [loop]; [by apply (Hb O), rounds_O|].
  unfold bind. rewrite <- (IH x s Hb). destruct (loop d body x s) as [[[y|a] t]|f] eqn:E; [|done|done].
  apply IH. intros k z u Hk. destruct (loop_inv d x s (inl y) t E) as (j & _ & Hj).
  by apply (Hb (j + k)%nat), (rounds_trans j k x s y t).
Qed.

(** Loops whose bodies agree on every state that a round can start in agree. *)
Lemma while_cong body' x s :
  (forall k y t, rounds k x s y t -> body y t = body' y t) -> while_ body x s = while_ body' x s.
Proof. intros Hb. unfold while_, bind. by rewrite (loop_cong body' 64 x s Hb). Qed.

Lemma while_fault k x s y t e :
  Z.of_nat k < 2 ^ 64 -> rounds k x s y t -> body y t = Fail e -> while_ body x s = Fail e.
Proof. intros Hk Hr Hb. unfold while_. by rewrite (bind_fail _ _ _ _ (loop_fault 64 k x s y t e Hr Hk Hb)). Qed.
End Rounds.

Lemma rounds_cong {S X A} (body body' : X -> M S (X + A)) k x s y t :
  (forall k y t, rounds body k x s y t -> body y t = body' y t) ->
  rounds body' k x s y t <-> rounds body k x s y t.
Proof.
  revert x s. induction k as [|k IH]; intros x s Hb.
  - split; intros Hr; inversion Hr; subst; constructor.
  - pose proof (Hb O x s (rounds_O _ _ _)) as E.
    assert (forall z u, body x s = Ok (inl z, u) ->
              forall j y t, rounds body j z u y t -> body y t = body' y t) as Hz
      by (intros z u Hz j y' t' Hj; apply (Hb (Datatypes.S j)); by econstructor).
    split; intros Hr; inversion Hr as [|? ? ? z u ? ? H1 H2]; subst.
    + rewrite <- E in H1. econstructor; [exact H1|]. by apply (IH z u (Hz z u H1)).
    + econstructor; [rewrite <- E; exact H1|]. by apply (IH z u (Hz z u H1)).
Qed.

(** A counted loop that may leave early with a value. *)
Fixpoint for_ {S X A} (n : nat) (body : X -> M S (X + A)) (done : X -> M S A) (x : X) : M S A :=
  match n with
  | O => done x
  | Datatypes.S n' =>
      let! r := body x in
      match r with
      | inl x' => for_ n' body done x'
      | inr a => ret a
      end
  end.

Lemma wp_for {S X A} F (I : nat -> X -> S -> Prop) (Q : A -> S -> Prop)
    n (body : X -> M S (X + A)) (fin : X -> M S A) x s :
  (forall i y t, (i < n)%nat -> I i y t ->
     wp F (body y) (fun r t' => match r with
                                | inl y' => I (Datatypes.S i) y' t'
                                | inr a => Q a t' end) t) ->
  (forall y t, I n y t -> wp F (fin y) Q t) ->
  I 0%nat x s -> wp F (for_ n body fin x) Q s.
Proof.
  revert I x s. induction n as [|n IH]; intros I x s Hb Hf HI; cbn [for_]; [by apply Hf|].
  apply wp_bind. eapply wp_mono; [apply (Hb 0%nat); [lia|done]|].
  intros [y|a] t Ht; [|by apply wp_ret].
  apply (IH (fun i => I (Datatypes.S i))); [|done|done]. intros i y' t' Hi. apply Hb. lia.
Qed.

(** ** Operations that keep a part of the state *)

(** [c] never changes what [f] shows of the state. *)
Definition keeps {S A B} (f : S -> B) (c : M S A) : Prop :=
  forall s a s', c s = Ok (a, s') -> f s' = f s.

Create HintDb keeps discriminated.

Section Keeps.
Context {S B : Type} (f : S -> B).

Lemma keeps_ret {A} (a : A) : keeps f (ret a).
Proof. by intros s a' s' [= _ <-]. Qed.

Lemma keeps_get : keeps f get.
Proof. by intros s a s' [= _ <-]. Qed.

Lemma keeps_gets {A} (g : S -> A) : keeps f (gets g).
Proof. by intros s a s' [= _ <-]. Qed.

Lemma keeps_fail {A} e : keeps f (@fail S A e).
Proof. by intros s a s' [=]. Qed.

Lemma keeps_modify (g : S -> S) : (forall s, f (g s) = f s) -> keeps f (modify g).
Proof. intros Hg s a s' [= _ <-]. apply Hg. Qed.

Lemma keeps_assert b : keeps f (assert_ b).
Proof. destruct b; [apply keeps_ret|apply keeps_fail]. Qed.

Lemma keeps_deref {A} (o : option A) : keeps f (deref o).
Proof. destruct o; [apply keeps_ret|apply keeps_fail]. Qed.

Lemma keeps_at {A} (l : list A) i : keeps f (at_ l i).
Proof. unfold at_. destruct (l !! i); [apply keeps_ret|apply keeps_fail]. Qed.

Lemma keeps_bind {A C} (c : M S A) (k : A -> M S C) :
  keeps f c -> (forall a, keeps f (k a)) -> keeps f (bind c k).
Proof.
  intros Hc Hk s b s' E. apply bind_ok_inv in E as (a & s1 & E1 & E2).
  by rewrite (Hk _ _ _ _ E2), (Hc _ _ _ E1).
Qed.

Lemma keeps_zoom {T A} (g : S -> T) (p : T -> S -> S) (c : M T A) :
  (forall t s, f (p t s) = f s) -> keeps f (zoom g p c).
Proof.
  intros Hp s a s' E. unfold zoom in E. destruct (c (g s)) as [[b t]|]; [|done].
  injection E as _ <-. apply Hp.
Qed.

Lemma keeps_loop {X A} (body : X -> M S (X + A)) d : (forall x, keeps f (body x)) -> forall x, keeps f (loop d body x).
Proof.
  intros Hb. induction d as [|d IH]; intros x; cbn [loop]; [apply Hb|].
  apply keeps_bind; [apply IH|]. intros [y|a]; [apply IH|apply keeps_ret].
Qed.

Lemma keeps_while {X A} (body : X -> M S (X + A)) x : (forall x, keeps f (body x)) -> keeps f (while_ body x).
Proof.
  intros Hb. apply keeps_bind; [by apply keeps_loop|]. intros [y|a]; [apply keeps_fail|apply keeps_ret].
Qed.

Lemma keeps_rounds {X A} (body : X -> M S (X + A)) k x s y t :
  (forall x, keeps f (body x)) -> rounds body k x s y t -> f t = f s.
Proof. intros Hb. induction 1 as [|k x s y t z u Hy _ IH]; [done|]. by rewrite IH, (Hb _ _ _ _ Hy). Qed.

Lemma keeps_for {X A} n (body : X -> M S (X + A)) fin x :
  (forall x, keeps f (body x)) -> (forall x, keeps f (fin x)) -> keeps f (for_ n body fin x).
Proof.
  intros Hb Hf. revert x. induction n as [|n IH]; intros x; cbn [for_]; [apply Hf|].
  apply keeps_bind; [apply Hb|]. intros [y|a]; [apply IH|apply keeps_ret].
Qed.
End Keeps.
#[export] Hint Resolve keeps_ret keeps_get keeps_gets keeps_fail keeps_assert keeps_deref keeps_at : keeps.

(** A field that an update leaves alone, up to the length of a list it is stored in. *)
Ltac keeps_frame := intros; cbn; rewrite ?length_insert; done.

(** The operations that the database knows and their compositions. *)
Ltac keeps_step :=
  lazymatch goal with
  | |- forall _, _ => intros ?
  | |- keeps _ (bind _ _) => apply keeps_bind
  | |- keeps _ (zoom _ _ _) => apply keeps_zoom; done
  | |- keeps _ (modify _) => apply keeps_modify; keeps_frame
  | |- keeps _ (while_ _ _) => apply keeps_while
  | |- keeps _ (for_ _ _ _ _) => apply keeps_for
  | |- keeps _ (if ?b then _ else _) => destruct b
  | |- keeps _ (match ?x with _ => _ end) => destruct x
  | |- keeps _ _ => solve [auto with keeps]
  end.
Ltac keeps_go := repeat keeps_step.

(** The same, opening the definitions that the database does not know. *)
Ltac head_of t := lazymatch t with ?g _ => head_of g | _ => t end.
Ltac keeps_open :=
  lazymatch goal with |- keeps _ ?c => let h := head_of c in progress (unfold h; cbv beta) end.
Ltac keeps_all := repeat first [keeps_step | keeps_open].

(** ** Running operations on concrete states *)

Definition result {S A} (r : res (A * S)) : option A :=
  match r with Ok (a, _) => Some a | Fail _ => None end.

Definition after {S A} (c : M S A) (s : S) : S :=
  match c s with Ok (_, s') => s' | Fail _ => s end.

Lemma ok_after {S A} (c : M S A) s a : result (c s) = Some a -> c s = Ok (a, after c s).
Proof. unfold after. destruct (c s) as [[a' s']|f]; simpl; [|done]. by intros [= ->]. Qed.

Lemma run_result {S A} (c : M S A) s a : result (c s) = Some a -> exists s', c s = Ok (a, s').
Proof. intros H. exists (after c s). by apply ok_after. Qed.
