(* ===== verification/Text.v ===== *)
(** * Text: characters, numbers and input streams

    What the sources use of the C and C++ libraries to write and to read text:
    numbers in a base, padding, the insertion operators and manipulators of
    [std::ostream], and the extraction operators, [getline] and [peek] of
    [std::istream].  Characters are bytes. *)

From S2P Require Import Prelude.
From stdpp Require Import strings.
From Stdlib Require Import Ascii.
Local Open Scope Z_scope.

Definition chr (c : ascii) : Z := Z.of_N (N_of_ascii c).
Arguments chr c%_char_scope.
Definition str (s : string) : list Z := map chr (String.list_ascii_of_string s).

(** ** Writing numbers *)

(** A digit in a base up to 16, as [std::hex] and [%x] write it. *)
Definition digit (n : Z) : Z := if n <? 10 then chr "0" + n else chr "a" + (n - 10).

(** The digits of a number below [base ^ fuel], least significant first. *)
Fixpoint digits_rev (base : Z) (fuel : nat) (n : Z) : list Z :=
  match fuel with
  | O => []
  | S k => digit (n mod base) :: (if n / base =? 0 then [] else digits_rev base k (n / base))
  end.

(** 64 digits are enough for 64 bits in any base. *)
Definition number (base n : Z) : list Z := rev (digits_rev base 64 n).
Definition hex_number : Z -> list Z := number 16.
Definition dec_number : Z -> list Z := number 10.

(** [std::setw(w) << std::setfill(c)], and the width of a [printf] conversion. *)
Definition padded (w : nat) (c : Z) (l : list Z) : list Z := replicate (w - length l) c ++ l.

(** ** Reading numbers *)

Definition digit_value (c : Z) : option Z :=
  if (chr "0" <=? c) && (c <=? chr "9") then Some (c - chr "0")
  else if (chr "a" <=? c) && (c <=? chr "f") then Some (c - chr "a" + 10)
  else if (chr "A" <=? c) && (c <=? chr "F") then Some (c - chr "A" + 10)
  else None.

Definition hex_digit (c : Z) : bool := match digit_value c with Some _ => true | None => false end.

Fixpoint span (p : Z -> bool) (l : list Z) : list Z * list Z :=
  match l with
  | c :: l' => if p c then let '(a, b) := span p l' in (c :: a, b) else ([], l)
  | [] => ([], [])
  end.

Definition digits_value (base : Z) (l : list Z) : Z :=
  fold_left (fun a c => a * base + default 0 (digit_value c)) l 0.

Definition isspace (c : Z) : bool := (c =? 32) || ((9 <=? c) && (c <=? 13)).

(** ** [std::istream] *)

(** What is left to read, [eofbit] and [failbit]. *)
Record istream := mkStream { in_left : list Z; in_eof : bool; in_fail : bool }.

Definition good (s : istream) : bool := negb (in_eof s) && negb (in_fail s).

Definition failed (s : istream) : istream := mkStream (in_left s) (in_eof s) true.

Abbreviation IS := (M istream).

(** The sentry of a formatted extraction: skips white space; [false] when the
    extraction is not to take place. *)
Definition sentry : IS bool :=
  let! s := get in
  if negb (good s) then do! put (failed s) in ret false else
  match (span isspace (in_left s)).2 with
  | [] => do! put (mkStream [] true true) in ret false
  | l => do! put (mkStream l false false) in ret true
  end.

(** [>> std::hex >> x] for an unsigned 64-bit [x]: [None] leaves [x] alone. *)
Definition extract_hex : IS (option Z) :=
  let! ok := sentry in
  if negb ok then ret None else
  let! s := get in
  let '(neg, l) := match in_left s with
                   | c :: l' => if c =? chr "-" then (true, l') else if c =? chr "+" then (false, l') else (false, c :: l')
                   | [] => (false, [])
                   end in
  let l := match l with
           | a :: b :: l' => if (a =? chr "0") && ((b =? chr "x") || (b =? chr "X")) then l' else l
           | _ => l
           end in
  let '(ds, l) := span hex_digit l in
  let eof := match l with [] => true | _ => false end in
  let v := digits_value 16 ds in
  match ds with
  | [] => do! put (mkStream l eof true) in ret (Some 0)
  | _ => if 2 ^ 64 <=? v then do! put (mkStream l eof true) in ret (Some (2 ^ 64 - 1))
         else do! put (mkStream l eof false) in ret (Some (if neg then u64 (- v) else v))
  end.

(** [>> c] for a character. *)
Definition extract_char : IS (option Z) :=
  let! ok := sentry in
  if negb ok then ret None else
  let! s := get in
  match in_left s with
  | c :: l => do! put (mkStream l false false) in ret (Some c)
  | [] => ret None
  end.

(** [>> w] for a string that was empty. *)
Definition extract_word : IS (list Z) :=
  let! ok := sentry in
  if negb ok then ret [] else
  let! s := get in
  let '(w, l) := span (fun c => negb (isspace c)) (in_left s) in
  do! put (mkStream l (match l with [] => true | _ => false end) false) in
  ret w.

Definition newline : Z := 10.

(** [getline(buf, n)]: at most [n - 1] characters and the newline after them. *)
Definition getline (n : nat) : IS (list Z) :=
  let! s := get in
  if negb (good s) then do! put (failed s) in ret [] else
  let '(a, l) := span (fun c => negb (c =? newline)) (in_left s) in
  if (n - 1 <? length a)%nat then
    do! put (mkStream (drop (n - 1) (in_left s)) false true) in ret (take (n - 1) a)
  else match l with
       | [] => do! put (mkStream [] true (match a with [] => true | _ => false end)) in ret a
       | _ :: l' => do! put (mkStream l' false false) in ret a
       end.

Definition peek : IS unit :=
  let! s := get in
  if negb (good s) then put (failed s) else
  match in_left s with
  | [] => put (mkStream [] true false)
  | _ => ret tt
  end.

(** ** [std::ostream] *)

(** What was written, the base and the fill character, which stay set, and the
    width, which holds for the next field only. *)
Record ostream := mkOut { out : list Z; out_hex : bool; out_fill : Z; out_width : nat }.

Definition ostream_init : ostream := mkOut [] false 32 0.

(** What is given to [<<]: text, a character, an unsigned number, a pointer and
    the manipulators. *)
Inductive item :=
  | Str (s : string)
  | Chr (c : Z)
  | Num (n : Z)
  | Ptr (p : Z)
  | Hex
  | Dec
  | Setw (n : nat)
  | Setfill (c : Z)
  | Endl.

(** A field fills its width from the left. *)
Definition put_field (l : list Z) (s : ostream) : ostream :=
  mkOut (out s ++ padded (out_width s) (out_fill s) l) (out_hex s) (out_fill s) 0.

(** A pointer is a number in base 16 behind [0x], the null pointer is [0]. *)
Definition pointer (p : Z) : list Z := if p =? 0 then str "0" else str "0x" ++ hex_number p.

Definition put_item (i : item) (s : ostream) : ostream :=
  match i with
  | Str t => put_field (str t) s
  | Chr c => put_field [c] s
  | Num n => put_field (if out_hex s then hex_number n else dec_number n) s
  | Ptr p => put_field (pointer p) s
  | Hex => mkOut (out s) true (out_fill s) (out_width s)
  | Dec => mkOut (out s) false (out_fill s) (out_width s)
  | Setw n => mkOut (out s) (out_hex s) (out_fill s) n
  | Setfill c => mkOut (out s) (out_hex s) c (out_width s)
  | Endl => mkOut (out s ++ [newline]) (out_hex s) (out_fill s) (out_width s)
  end.

Definition put_items (l : list item) (s : ostream) : ostream := fold_left (fun s i => put_item i s) l s.

(** ** Laws *)

Lemma span_all p a l :
  Forall (fun c => p c = true) a -> match l with [] => True | c :: _ => p c = false end ->
  span p (a ++ l) = (a, l).
Proof.
  intros Ha Hl. induction Ha as [|c a Hc _ IH]; cbn [app span].
  - destruct l as [|c l]; cbn [span]; [done|]. by rewrite Hl.
  - by rewrite Hc, IH.
Qed.

Lemma span_length p l : (length (span p l).2 <= length l)%nat.
Proof.
  induction l as [|c l IH]; [done|]. cbn [span]. destruct (p c); [|done].
  destruct (span p l) as [a b]. cbn in *. lia.
Qed.

Lemma digit_value_digit n : 0 <= n < 16 -> digit_value (digit n) = Some n.
Proof.
  intros Hn. assert (forallb (fun k => bool_decide (digit_value (digit (Z.of_nat k)) = Some (Z.of_nat k))) (seq 0 16) = true)
    as Hall by (vm_compute; reflexivity).
  rewrite forallb_forall in Hall. specialize (Hall (Z.to_nat n)).
  rewrite bool_decide_eq_true, Z2Nat.id in Hall by lia. apply Hall, in_seq. lia.
Qed.

Lemma digits_value_snoc base l c :
  digits_value base (l ++ [c]) = digits_value base l * base + default 0 (digit_value c).
Proof. unfold digits_value. by rewrite fold_left_app. Qed.

Lemma digits_rev_value base fuel n :
  2 <= base <= 16 -> 0 <= n < base ^ Z.of_nat fuel -> digits_value base (rev (digits_rev base fuel n)) = n.
Proof.
  intros Hb. revert n. induction fuel as [|k IH]; intros n Hn.
  { change (base ^ Z.of_nat 0) with 1 in Hn. cbn. lia. }
  cbn [digits_rev rev]. rewrite digits_value_snoc.
  pose proof (Z.mod_pos_bound n base ltac:(lia)). rewrite digit_value_digit by lia.
  change (default 0 (Some (n mod base))) with (n mod base).
  pose proof (Z.div_mod n base ltac:(lia)) as Hdm.
  destruct (Z.eqb_spec (n / base) 0) as [E|E].
  { rewrite E in Hdm. change (digits_value base (rev [])) with 0. lia. }
  rewrite IH; [lia|].
  rewrite Nat2Z.inj_succ, Z.pow_succ_r in Hn by lia. split; [apply Z.div_pos; lia|].
  apply Z.div_lt_upper_bound; lia.
Qed.

Lemma number_value base n : 2 <= base <= 16 -> is_u64 n -> digits_value base (number base n) = n.
Proof.
  intros Hb Hn. apply digits_rev_value; [done|]. unfold is_u64 in Hn.
  pose proof (Z.pow_le_mono_l 2 base 64 ltac:(lia)). cbn [Z.of_nat Pos.of_succ_nat Pos.succ]. lia.
Qed.

Lemma number_digits base n : 2 <= base <= 16 -> Forall (fun c => hex_digit c = true) (number base n).
Proof.
  intros Hb. apply Forall_rev. generalize 64%nat as fuel. intros fuel. revert n.
  induction fuel as [|k IH]; intros n; cbn [digits_rev]; constructor.
  - unfold hex_digit. rewrite digit_value_digit; [done|]. pose proof (Z.mod_pos_bound n base ltac:(lia)). lia.
  - destruct (_ =? 0); [constructor|apply IH].
Qed.

Lemma number_cons base n : exists l c, number base n = l ++ [c].
Proof. unfold number. cbn [digits_rev rev]. by eexists _, _. Qed.

Lemma padded_digits w n : Forall (fun c => hex_digit c = true) (padded w (chr "0") (hex_number n)).
Proof. apply Forall_app. split; [by apply Forall_replicate|by apply number_digits]. Qed.

Lemma digits_value_zeros base k l : digits_value base (replicate k (chr "0") ++ l) = digits_value base l.
Proof. induction k as [|k IH]; [done|]. exact IH. Qed.

Lemma padded_value w n : is_u64 n -> digits_value 16 (padded w (chr "0") (hex_number n)) = n.
Proof. intros Hn. unfold padded. by rewrite digits_value_zeros, number_value. Qed.

(** *** Extraction *)

Lemma sentry_word c l :
  isspace c = false -> sentry (mkStream (c :: l) false false) = Ok (true, mkStream (c :: l) false false).
Proof. intros Hc. unfold sentry, bind, get, good. cbn [in_left in_eof in_fail negb andb span]. by rewrite Hc. Qed.

Lemma hex_digit_range c :
  hex_digit c = true <-> 48 <= c <= 57 \/ 97 <= c <= 102 \/ 65 <= c <= 70.
Proof.
  unfold hex_digit, digit_value.
  change (chr "0") with 48. change (chr "9") with 57. change (chr "a") with 97. change (chr "f") with 102.
  change (chr "A") with 65. change (chr "F") with 70.
  repeat case_match; rewrite ?andb_true_iff, ?andb_false_iff, ?Z.leb_le, ?Z.leb_gt in *;
    (split; [intros; (lia || discriminate)|intros; (done || lia)]).
Qed.

(** A number is read up to the first character that is neither digit nor [x]. *)
Lemma extract_hex_digits ds c l :
  ds <> [] -> Forall (fun c => hex_digit c = true) ds -> digits_value 16 ds < 2 ^ 64 ->
  hex_digit c = false -> c <> chr "x" -> c <> chr "X" ->
  extract_hex (mkStream (ds ++ c :: l) false false) =
  Ok (Some (digits_value 16 ds), mkStream (c :: l) false false).
Proof.
  intros Hne Hd Hv Hc Hx HX. destruct ds as [|d ds]; [done|]. clear Hne.
  pose proof (proj1 (hex_digit_range d) (Forall_inv Hd)) as Hr.
  unfold extract_hex. cbn [app].
  erewrite bind_ok by (apply sentry_word; unfold isspace; lia). cbn [negb]. unfold bind at 1, get at 1.
  cbn [in_left]. change (chr "-") with 45. change (chr "+") with 43.
  destruct (Z.eqb_spec d 45); [lia|]. destruct (Z.eqb_spec d 43); [lia|].
  assert (match ds ++ c :: l with
          | b :: l' => if (d =? chr "0") && ((b =? chr "x") || (b =? chr "X")) then l' else d :: ds ++ c :: l
          | [] => d :: ds ++ c :: l
          end = d :: ds ++ c :: l) as ->.
  { destruct ds as [|b ds]; cbn [app].
    - destruct (Z.eqb_spec c (chr "x")); [done|]. destruct (Z.eqb_spec c (chr "X")); [done|]. by rewrite andb_false_r.
    - pose proof (proj1 (hex_digit_range b) (Forall_inv (Forall_inv_tail Hd))) as Hb.
      change (chr "x") with 120. change (chr "X") with 88.
      destruct (Z.eqb_spec b 120); [lia|]. destruct (Z.eqb_spec b 88); [lia|]. by rewrite andb_false_r. }
  change (d :: ds ++ c :: l) with ((d :: ds) ++ c :: l). rewrite span_all by done.
  destruct (Z.leb_spec (2 ^ 64) (digits_value 16 (d :: ds))); [lia|]. done.
Qed.

Lemma extract_char_eq c l :
  isspace c = false -> extract_char (mkStream (c :: l) false false) = Ok (Some c, mkStream l false false).
Proof. intros Hc. unfold extract_char. by erewrite bind_ok by (by apply sentry_word). Qed.

(** A word is read up to the white space behind it. *)
Lemma extract_word_eq w c l :
  w <> [] -> Forall (fun c => isspace c = false) w -> isspace c = true ->
  extract_word (mkStream (w ++ c :: l) false false) = Ok (w, mkStream (c :: l) false false).
Proof.
  intros Hne Hw Hc. destruct w as [|a w]; [done|]. pose proof (Forall_inv Hw) as Ha.
  unfold extract_word. cbn [app]. erewrite bind_ok by (by apply sentry_word). cbn [negb].
  unfold bind at 1, get at 1. cbn [in_left]. change (a :: w ++ c :: l) with ((a :: w) ++ c :: l).
  rewrite span_all; [done| |by rewrite Hc].
  eapply Forall_impl; [exact Hw|]. cbn. intros x ->. done.
Qed.

(** A line that fits is read with its newline. *)
Lemma getline_eq n a l :
  Forall (fun c => c <> newline) a -> (length a < n)%nat ->
  getline n (mkStream (a ++ newline :: l) false false) = Ok (a, mkStream l false false).
Proof.
  intros Ha Hn. unfold getline, bind at 1, get at 1. cbn [in_left good in_eof in_fail negb andb].
  rewrite span_all; [|eapply Forall_impl; [exact Ha|]; cbn; intros x Hx; by apply negb_true_iff, Z.eqb_neq|done].
  destruct (Nat.ltb_spec (n - 1) (length a)); [lia|]. done.
Qed.

Lemma skip_space c l s :
  isspace c = true -> s = mkStream (c :: l) false false ->
  sentry s = sentry (mkStream l false false).
Proof.
  intros Hc ->. unfold sentry, bind, get, good. cbn [in_left in_eof in_fail negb andb span]. rewrite Hc.
  by destruct (span isspace l) as [? [|? ?]].
Qed.
