(* ===== verification/Memory.v ===== *)
(** * Host memory

    The library works on raw host memory: page tables are arrays of 64-bit
    words, guest memory is read and written through host pointers.  A memory
    is a total function from addresses to bytes, which keeps [memset] of the
    16 MB page-table area executable. *)

From S2P Require Import Prelude.
Local Open Scope Z_scope.

Definition mem : Type := Z -> Z.

Definition load8 (m : mem) (a : Z) : Z := u8 (m a).

(** A little-endian load of [n] bytes. *)
Fixpoint load_le (n : nat) (m : mem) (a : Z) : Z :=
  match n with
  | O => 0
  | S n' => load8 m a + 256 * load_le n' m (a + 1)
  end.

Definition load64 (m : mem) (a : Z) : Z := load_le 8 m a.

(** A little-endian store of [w] bytes. *)
Definition store_le (w : Z) (m : mem) (a v : Z) : mem :=
  fun x => if (a <=? x) && (x <? a + w) then u8 (Z.shiftr v (8 * (x - a))) else m x.

Definition store64 : mem -> Z -> Z -> mem := store_le 8.

Definition memset (m : mem) (p v n : Z) : mem :=
  fun x => if (p <=? x) && (x <? p + n) then u8 v else m x.

Definition memcpy (m : mem) (dst src n : Z) : mem :=
  fun x => if (dst <=? x) && (x <? dst + n) then m (src + (x - dst)) else m x.

(** Writing a string or a read buffer. *)
Definition store_bytes (m : mem) (p : Z) (bs : list Z) : mem :=
  fun x => if (p <=? x) && (x <? p + Z.of_nat (length bs))
           then u8 (nth (Z.to_nat (x - p)) bs 0) else m x.

Definition load_bytes (m : mem) (p : Z) (n : nat) : list Z :=
  map (fun i => load8 m (p + Z.of_nat i)) (seq 0 n).

(** ** Lemmas *)

Ltac range_case :=
  repeat match goal with
  | |- context [?a <=? ?b] => destruct (Z.leb_spec a b)
  | |- context [?a <? ?b] => destruct (Z.ltb_spec a b)
  end; simpl; try done; try lia.

Lemma load_le_ext n m m' a :
  (forall x, a <= x < a + Z.of_nat n -> m x = m' x) -> load_le n m a = load_le n m' a.
Proof.
  revert a. induction n as [|n IH]; intros a H; [done|].
  cbn [load_le]. unfold load8. rewrite (H a) by lia.
  rewrite (IH (a + 1)); [done|]. intros; apply H. lia.
Qed.

Lemma load64_ext m m' a :
  (forall x, a <= x < a + 8 -> m x = m' x) -> load64 m a = load64 m' a.
Proof. intros H. apply load_le_ext. intros; apply H. lia. Qed.

Lemma load_le_range n m a : 0 <= load_le n m a < 2 ^ (8 * Z.of_nat n).
Proof.
  revert a. induction n as [|n IH]; intros a; cbn [load_le]; [lia|].
  pose proof (u8_range (m a)). specialize (IH (a + 1)). unfold load8.
  replace (2 ^ (8 * Z.of_nat (S n))) with (256 * 2 ^ (8 * Z.of_nat n)); [lia|].
  change 256 with (2 ^ 8). rewrite <- Z.pow_add_r by lia. f_equal. lia.
Qed.

Lemma load64_range m a : 0 <= load64 m a < 2 ^ 64.
Proof. apply (load_le_range 8). Qed.

(** The bytes of a word, read back, are the word. *)
Lemma load_le_word n m a v :
  (forall i, 0 <= i < Z.of_nat n -> m (a + i) = u8 (Z.shiftr v (8 * i))) ->
  load_le n m a = v mod 2 ^ (8 * Z.of_nat n).
Proof.
  revert a v. induction n as [|n IH]; intros a v H.
  { simpl. by rewrite Z.mod_1_r. }
  cbn [load_le]. unfold load8. rewrite <- (Z.add_0_r a) at 1.
  rewrite H, Z.mul_0_r, Z.shiftr_0_r by lia.
  rewrite (IH (a + 1) (Z.shiftr v 8)).
  2: { intros i Hi. rewrite <- Z.add_assoc, H, Z.shiftr_shiftr by lia.
       f_equal. f_equal. lia. }
  rewrite Z.shiftr_div_pow2 by lia. rewrite (u8_small (u8 v)) by apply u8_range.
  replace (2 ^ (8 * Z.of_nat (S n))) with (2 ^ 8 * 2 ^ (8 * Z.of_nat n)).
  - rewrite Z.rem_mul_r by lia. unfold u8. lia.
  - rewrite <- Z.pow_add_r by lia. f_equal. lia.
Qed.

Lemma load64_store64_same m a v : load64 (store64 m a v) a = u64 v.
Proof.
  unfold load64. rewrite (load_le_word 8 _ a v); [done|].
  intros i Hi. unfold store64, store_le. range_case. do 2 f_equal. lia.
Qed.

Lemma load64_store64_other m a b v :
  b + 8 <= a \/ a + 8 <= b -> load64 (store64 m a v) b = load64 m b.
Proof. intros H. apply load64_ext. intros x Hx. unfold store64, store_le. range_case. Qed.

Lemma load64_memset_zero m p n a :
  p <= a -> a + 8 <= p + n -> load64 (memset m p 0 n) a = 0.
Proof.
  intros H1 H2. unfold load64. rewrite (load_le_word 8 _ a 0); [done|].
  intros i Hi. unfold memset. rewrite Z.shiftr_0_l. range_case.
Qed.

Lemma load64_memset_other m p v n a :
  a + 8 <= p \/ p + n <= a -> load64 (memset m p v n) a = load64 m a.
Proof. intros H. apply load64_ext. intros x Hx. unfold memset. range_case. Qed.

Lemma load8_store_bytes m p bs i :
  (i < length bs)%nat -> load8 (store_bytes m p bs) (p + Z.of_nat i) = u8 (nth i bs 0).
Proof.
  intros Hi. unfold load8, store_bytes. range_case.
  rewrite u8_small by apply u8_range. do 2 f_equal. lia.
Qed.

Lemma store_bytes_other m p bs x :
  x < p \/ p + Z.of_nat (length bs) <= x -> store_bytes m p bs x = m x.
Proof. intros H. unfold store_bytes. range_case. Qed.

Lemma store64_other m a v x : x < a \/ a + 8 <= x -> store64 m a v x = m x.
Proof. intros H. unfold store64, store_le. range_case. Qed.

(** Reading back what was written. *)
Lemma load_store_bytes m p bs :
  load_bytes (store_bytes m p bs) p (length bs) = map u8 bs.
Proof.
  unfold load_bytes. apply list_eq. intros i.
  destruct (decide (i < length bs)%nat) as [Hi|Hi].
  - rewrite !list_lookup_fmap, lookup_seq_lt by lia. simpl.
    rewrite load8_store_bytes by lia.
    destruct (lookup_lt_is_Some_2 bs i Hi) as [b Hb]. rewrite Hb. simpl.
    by rewrite (nth_lookup_Some bs i 0 b Hb).
  - rewrite !lookup_ge_None_2; [done|rewrite length_map; lia|].
    rewrite length_map, length_seq. lia.
Qed.

Lemma load_bytes_ext m m' p n :
  (forall x, p <= x < p + Z.of_nat n -> m' x = m x) -> load_bytes m' p n = load_bytes m p n.
Proof.
  intros Hx. unfold load_bytes. apply map_ext_in. intros i Hi. apply in_seq in Hi. unfold load8.
  by rewrite Hx by lia.
Qed.

(** ** Fields of any width *)

Lemma load_le_store_same n m a v :
  load_le n (store_le (Z.of_nat n) m a v) a = v mod 2 ^ (8 * Z.of_nat n).
Proof.
  apply load_le_word. intros i Hi. unfold store_le. range_case. do 2 f_equal. lia.
Qed.

Lemma load_le_store_other n w m a b v :
  b + Z.of_nat n <= a \/ a + w <= b -> load_le n (store_le w m a v) b = load_le n m b.
Proof. intros H. apply load_le_ext. intros x Hx. unfold store_le. range_case. Qed.

Lemma load8_le m a : load8 m a = load_le 1 m a.
Proof. cbn [load_le]. lia. Qed.

Lemma load8_store_same m a v : load8 (store_le 1 m a v) a = u8 v.
Proof. rewrite load8_le. exact (load_le_store_same 1 m a v). Qed.

Lemma load8_store_other w m a b v : b < a \/ a + w <= b -> load8 (store_le w m a v) b = load8 m b.
Proof. intros H. rewrite !load8_le. apply load_le_store_other. lia. Qed.

(** Memories that agree on a range. *)
Definition agree (m m' : mem) (a n : Z) : Prop := forall x, a <= x < a + n -> m' x = m x.

Lemma agree_load n m m' a b k :
  agree m m' b k -> b <= a -> a + Z.of_nat n <= b + k -> load_le n m' a = load_le n m a.
Proof. intros H ? ?. apply load_le_ext. intros x Hx. apply H. lia. Qed.

Lemma agree_store_le w m a v b k :
  a + w <= b \/ b + k <= a -> agree m (store_le w m a v) b k.
Proof. intros H x Hx. unfold store_le. range_case. Qed.

Lemma agree_trans m1 m2 m3 b k : agree m1 m2 b k -> agree m2 m3 b k -> agree m1 m3 b k.
Proof. intros H1 H2 x Hx. rewrite H2, H1; done. Qed.
