(* ===== verification/PageMath.v ===== *)
(** * Page arithmetic

    The constants of [include/elkvm/pager.h] and the free functions at the end
    of [src/pager.cc]. *)

From S2P Require Import Prelude.
Local Open Scope Z_scope.

Definition ELKVM_PAGER_MEMSIZE : Z := 16 * 1024 * 1024.
Definition ELKVM_SYSTEM_MEMSIZE : Z := 16 * 1024 * 1024.
Definition ELKVM_SYSTEM_MEMGROW : Z := 128 * 1024 * 1024.
Definition KERNEL_SPACE_BOTTOM : Z := 0xFFFF800000000000.

Definition PT_BIT_PRESENT : Z := 0x1.
Definition PT_BIT_WRITEABLE : Z := 0x2.
Definition PT_BIT_USER : Z := 0x4.
(** [1L << 63], converted to [uint64_t] where it is used. *)
Definition PT_BIT_NXE : Z := 0x8000000000000000.

Definition HOST_PAGESIZE : Z := 0x1000.
Definition ELKVM_PAGESIZE : Z := 0x1000.
Definition ELKVM_PAGE_MASK : Z := ELKVM_PAGESIZE - 1.
Definition KVM_MEMORY_SLOTS : Z := 125.

Definition PT_OPT_WRITE : Z := 0x1.
Definition PT_OPT_EXEC : Z := 0x2.

Definition EIO : Z := 5.
Definition ENOMEM : Z := 12.

(** [~(ELKVM_PAGESIZE-1)], an [int] that is converted to [uint64_t]. *)
Definition PAGE_BEGIN_MASK : Z := u64 (Z.lnot (ELKVM_PAGESIZE - 1)).

Definition page_begin (addr : Z) : Z := Z.land addr PAGE_BEGIN_MASK.

Definition page_aligned (addr : Z) : bool := Z.land addr PAGE_BEGIN_MASK =? addr.

Definition next_page (addr : Z) : Z := u64 (Z.land addr PAGE_BEGIN_MASK + ELKVM_PAGESIZE).

Definition pages_from_size (size : Z) : Z :=
  if ctrue (Z.land size ELKVM_PAGE_MASK)
  then s32 (u64 (size / ELKVM_PAGESIZE + 1))
  else s32 (size / ELKVM_PAGESIZE).

Definition page_remain (addr : Z) : Z :=
  s32 (u64 (ELKVM_PAGESIZE - Z.land addr (ELKVM_PAGESIZE - 1))).

Definition offset_in_page (addr : Z) : Z := u32 (Z.land addr (ELKVM_PAGESIZE - 1)).

Definition pagesize_align (size : Z) : Z :=
  if ctrue (Z.land size ELKVM_PAGE_MASK)
  then u64 (Z.land size PAGE_BEGIN_MASK + ELKVM_PAGESIZE)
  else size.

(** ** Lemmas *)

Lemma land_page_mask a : Z.land a ELKVM_PAGE_MASK = a mod 4096.
Proof. apply (land_low a 12). lia. Qed.

Lemma land_pagesize_1 a : Z.land a (ELKVM_PAGESIZE - 1) = a mod 4096.
Proof. apply (land_low a 12). lia. Qed.

Lemma page_begin_eq a : is_u64 a -> page_begin a = a - a mod 4096.
Proof.
  intros Ha. unfold page_begin.
  change PAGE_BEGIN_MASK with (2 ^ 64 - 2 ^ 12). rewrite land_mask by lia.
  rewrite (Z.mod_small a (2 ^ 64)) by done. done.
Qed.

Lemma page_begin_range a : is_u64 a -> is_u64 (page_begin a).
Proof.
  intros Ha. rewrite page_begin_eq by done. unfold is_u64 in *.
  pose proof (Z.mod_pos_bound a 4096). pose proof (Z.mod_le a 4096). lia.
Qed.

Lemma page_begin_mod a : is_u64 a -> page_begin a mod 4096 = 0.
Proof.
  intros Ha. rewrite page_begin_eq by done.
  rewrite (Z.div_mod a 4096) at 1 by lia.
  replace (4096 * (a / 4096) + a mod 4096 - a mod 4096) with (a / 4096 * 4096) by lia.
  by rewrite Z.mod_mul.
Qed.

Lemma page_aligned_iff a : is_u64 a -> page_aligned a = true <-> a mod 4096 = 0.
Proof.
  intros Ha. unfold page_aligned. fold (page_begin a). rewrite Z.eqb_eq, page_begin_eq by done. lia.
Qed.

Lemma next_page_eq a :
  0 <= a < 2 ^ 64 - 4096 -> next_page a = a - a mod 4096 + 4096.
Proof.
  intros Ha. unfold next_page. fold (page_begin a). rewrite page_begin_eq by (unfold is_u64; lia).
  apply u64_small. pose proof (Z.mod_pos_bound a 4096). pose proof (Z.mod_le a 4096). lia.
Qed.

Lemma pagesize_align_eq s :
  0 <= s <= 2 ^ 64 - 4096 -> pagesize_align s = (s + 4095) / 4096 * 4096.
Proof.
  intros Hs. unfold pagesize_align. fold (page_begin s). rewrite land_page_mask.
  rewrite page_begin_eq by (unfold is_u64; lia).
  destruct (ctrue (s mod 4096)) eqn:E.
  - apply ctrue_true in E. unfold ELKVM_PAGESIZE. rewrite u64_small.
    + Z.div_mod_to_equations. lia.
    + Z.div_mod_to_equations. lia.
  - apply ctrue_false in E. Z.div_mod_to_equations. lia.
Qed.

Lemma pages_from_size_eq s :
  0 <= s < 2 ^ 43 - 4096 -> pages_from_size s = (s + 4095) / 4096.
Proof.
  intros Hs. unfold pages_from_size. rewrite land_page_mask. unfold ELKVM_PAGESIZE.
  assert (0 <= s / 4096 < 2 ^ 31 - 1) by (Z.div_mod_to_equations; lia).
  destruct (ctrue (s mod 4096)) eqn:E.
  - apply ctrue_true in E. rewrite u64_small, s32_small by lia. Z.div_mod_to_equations. lia.
  - apply ctrue_false in E. rewrite s32_small by lia. Z.div_mod_to_equations. lia.
Qed.

Lemma page_remain_eq a : page_remain a = 4096 - a mod 4096.
Proof.
  unfold page_remain. rewrite land_pagesize_1. unfold ELKVM_PAGESIZE.
  pose proof (Z.mod_pos_bound a 4096). rewrite u64_small, s32_small by lia. done.
Qed.

Lemma offset_in_page_eq a : offset_in_page a = a mod 4096.
Proof.
  unfold offset_in_page. rewrite land_pagesize_1.
  pose proof (Z.mod_pos_bound a 4096). rewrite u32_small by lia. done.
Qed.
