(* ===== verification/HostOS.v ===== *)
(** * The host operating system

    The calls the memory subsystem makes into libc and the KVM kernel module.
    They are not part of the library's sources: [HostOS] is the interface the
    model is written against, [HostOSLaws] states the documented behaviour the
    theorems rely on, and [bump_os] is an instance that satisfies it. *)

From S2P Require Import Prelude.
Local Open Scope Z_scope.

(** [struct kvm_userspace_memory_region] of [linux/kvm.h]. *)
Record Chunk := mkChunk {
  slot : Z;
  flags : Z;
  guest_phys_addr : Z;
  memory_size : Z;
  userspace_addr : Z;
}.

#[export] Instance Chunk_eq_dec : EqDecision Chunk.
Proof. solve_decision. Defined.

Class HostOS (os : Type) := {
  (** [posix_memalign(&p, align, size)]: the error code and the block. *)
  posix_memalign : os -> Z -> Z -> (Z * Z) * os;
  (** [ioctl(vmfd, KVM_SET_USER_MEMORY_REGION, chunk)]: the result and [errno]. *)
  set_user_memory_region : os -> Z -> Chunk -> (Z * Z) * os;
}.

(** Two address ranges without a common byte. *)
Definition disjoint_range (a n b k : Z) : Prop := a + n <= b \/ b + k <= a.

Class HostOSLaws (os : Type) `{HostOS os} := {
  (** The blocks handed out so far and not given back. *)
  live : os -> list (Z * Z);
  (** A successful [posix_memalign] of a nonempty block is aligned, not null, inside the
      47-bit user address space, and shares no byte with a live block. *)
  posix_memalign_ok o a n p o' :
    0 < n -> posix_memalign o a n = ((0, p), o') ->
    p mod a = 0 /\ 0 < p /\ p + n <= 2 ^ 47 /\
    Forall (fun b => disjoint_range p n b.1 b.2) (live o) /\
    live o' = (p, n) :: live o;
  (** Registering a chunk with KVM does not allocate. *)
  set_user_memory_region_live o fd c e errno o' :
    set_user_memory_region o fd c = ((e, errno), o') -> live o' = live o;
}.

(** A host that hands out fresh page-aligned blocks from the bottom of its heap
    and accepts every KVM region. *)
Record bump_os := mkBump { bump_next : Z; bump_blocks : list (Z * Z) }.

Definition bump_init : bump_os := mkBump 0x10000000 [].

Definition bump_alloc (o : bump_os) (a n : Z) : (Z * Z) * bump_os :=
  let p := (bump_next o + 4095) / 4096 * 4096 in
  if (a =? 4096) && (0 <? n) && (0 <? p) && (p + n <=? 2 ^ 47)
     && forallb (fun b => b.1 + b.2 <=? p) (bump_blocks o)
  then ((0, p), mkBump (p + n) ((p, n) :: bump_blocks o))
  else ((12, 0), o).

#[export] Instance bump_HostOS : HostOS bump_os := {|
  posix_memalign := bump_alloc;
  set_user_memory_region o _ _ := ((0, 0), o);
|}.

#[export] Program Instance bump_HostOSLaws : HostOSLaws bump_os := {| live := bump_blocks |}.
Next Obligation.
  intros o a n p o' Hn H. cbn in H. unfold bump_alloc in H.
  destruct (_ && _) eqn:E in H; [|done]. injection H as <- <-.
  rewrite !andb_true_iff, Z.eqb_eq, !Z.ltb_lt, Z.leb_le in E.
  destruct E as [[[[-> Hn'] Hp] Hle] Hall]. rewrite forallb_forall in Hall.
  split; [apply Z.mod_mul; lia|]. do 2 (split; [lia|]). split; [|done].
  apply Forall_forall. intros b Hb. right.
  specialize (Hall b). rewrite Z.leb_le in Hall. apply Hall. by apply list_elem_of_In.
Qed.
Next Obligation. intros o fd c e errno o' H. cbn in H. by injection H as _ _ <-. Qed.
