(* ===== verification/Tlb.v ===== *)
(** * Translation caches

    The two lookaside buffers of [src/pager.cc] that [get_host_p] can use, the
    interface they share ("There is no interface/inheritance as we want to
    avoid vtable indirections"), and the contract both meet. *)

From S2P Require Import Prelude PageMath.
Local Open Scope Z_scope.

(** ** The interface *)

Class TranslationCache (T : Type) := {
  tc_new : T;
  (** [find]: 0 when the cache has no entry. *)
  tc_find : T -> Z -> Z * T;
  tc_set : T -> Z -> Z -> T;
}.

(** What a cache promises, in terms of the frame it holds for a page.  The
    page at address 0 is excluded: see [tlb_null_page_hit]. *)
Class TranslationCacheLaws (T : Type) `{TranslationCache T} := {
  tc_frame : T -> Z -> option Z;
  tc_ok : T -> Prop;
  tc_ok_new : tc_ok tc_new;
  tc_ok_find t e : tc_ok t -> tc_ok (tc_find t e).2;
  tc_ok_set t e v : tc_ok t -> is_u64 v -> tc_ok (tc_set t e v);
  (** A frame is the base of a page. *)
  tc_ok_frame t p f : tc_ok t -> tc_frame t p = Some f -> is_u64 f /\ f mod 4096 = 0;
  tc_frame_new p : p <> 0 -> tc_frame tc_new p = None;
  tc_frame_find t e p : tc_frame (tc_find t e).2 p = tc_frame t p;
  tc_frame_set_same t e v :
    is_u64 e -> tc_frame (tc_set t e v) (page_begin e) = Some (page_begin v);
  (** Another page keeps its frame or is evicted; it never gets a new one. *)
  tc_frame_set_other t e v p f :
    is_u64 e -> p <> page_begin e -> tc_frame (tc_set t e v) p = Some f -> tc_frame t p = Some f;
  tc_find_val t e :
    tc_ok t -> is_u64 e -> (forall f, tc_frame t (page_begin e) = Some f -> f + 4096 <= 2 ^ 64) ->
    (tc_find t e).1 = match tc_frame t (page_begin e) with
                      | Some f => f + e mod 4096
                      | None => 0
                      end;
}.

Lemma frame_offset f e : f mod 4096 = 0 -> Z.lor f (e mod 4096) = f + e mod 4096.
Proof. intros. apply (lor_disjoint f _ 12); [lia| |done]. apply Z.mod_pos_bound. lia. Qed.

(** ** [MappedTLB]: an unbounded [std::map] *)

Module MappedTLB.
Record t := mk {
  _entries : gmap Z Z;
  _stat_hit : Z;
  _stat_miss : Z;
}.

Definition new : t := mk ∅ 0 0.

Definition find (self : t) (entry : Z) : Z * t :=
  match _entries self !! Z.land entry PAGE_BEGIN_MASK with
  | Some second =>
      (u64 (second + Z.land entry ELKVM_PAGE_MASK),
       mk (_entries self) (u32 (_stat_hit self + 1)) (_stat_miss self))
  | None => (0, mk (_entries self) (_stat_hit self) (u32 (_stat_miss self + 1)))
  end.

Definition set (self : t) (entry value : Z) : t :=
  mk (<[Z.land entry PAGE_BEGIN_MASK := Z.land value PAGE_BEGIN_MASK]> (_entries self))
     (_stat_hit self) (_stat_miss self).
End MappedTLB.

#[export] Instance MappedTLB_cache : TranslationCache MappedTLB.t := {|
  tc_new := MappedTLB.new;
  tc_find := MappedTLB.find;
  tc_set := MappedTLB.set;
|}.

#[export] Program Instance MappedTLB_laws : TranslationCacheLaws MappedTLB.t := {|
  tc_frame self p := MappedTLB._entries self !! p;
  tc_ok self := map_Forall (fun _ f => is_u64 f /\ f mod 4096 = 0) (MappedTLB._entries self);
|}.
Next Obligation. apply map_Forall_empty. Qed.
Next Obligation. intros t e H. cbn. unfold MappedTLB.find. by case_match. Qed.
Next Obligation.
  intros t e v Ht Hv. apply map_Forall_insert_2; [|done].
  split; [by apply page_begin_range|by apply page_begin_mod].
Qed.
Next Obligation. intros t p f Ht Hp. by apply (Ht p f). Qed.
Next Obligation. done. Qed.
Next Obligation. intros t e p. cbn. unfold MappedTLB.find. by case_match. Qed.
Next Obligation. intros t e v He. cbn. by rewrite lookup_insert_eq. Qed.
Next Obligation.
  intros t e v p f He Hp H. cbn in H. rewrite lookup_insert_ne in H; [done|].
  intros <-. by apply Hp.
Qed.
Next Obligation.
  intros t e Ht He Hb. cbn in *. unfold MappedTLB.find. fold (page_begin e).
  destruct (MappedTLB._entries t !! page_begin e) as [f|] eqn:E; [|done]. simpl.
  rewrite land_page_mask. destruct (Ht _ _ E) as [? ?].
  pose proof (Z.mod_pos_bound e 4096). apply u64_small. specialize (Hb f eq_refl).
  unfold is_u64 in *. lia.
Qed.

(** ** [TLB]: a direct-mapped array of 4096 entries *)

Module TLB.
Definition NUM_ENTRIES : Z := 0x1000.
Definition low_mask : Z := 0xFFF000.
Definition low_shift : Z := 12.

(** [_entries] is the array of pairs; a slot that was never written holds
    the zeroes of its initialisation. *)
Record t := mk {
  _entries : gmap Z (Z * Z);
  _stat_hit : Z;
  _stat_miss : Z;
  _stat_evict : Z;
  _stat_enter : Z;
}.

Definition hash (entry : Z) : Z := Z.shiftr (Z.land entry low_mask) low_shift.

Definition new : t := mk ∅ 0 0 0 0.

Definition slot_at (self : t) (h : Z) : Z * Z := default (0, 0) (_entries self !! h).

Definition find (self : t) (entry : Z) : Z * t :=
  let h := hash entry in
  let lookup := slot_at self h in
  if lookup.1 =? Z.land entry PAGE_BEGIN_MASK then
    (Z.lor lookup.2 (Z.land entry ELKVM_PAGE_MASK),
     mk (_entries self) (u32 (_stat_hit self + 1)) (_stat_miss self)
        (_stat_evict self) (_stat_enter self))
  else
    (0, mk (_entries self) (_stat_hit self) (u32 (_stat_miss self + 1))
           (_stat_evict self) (_stat_enter self)).

Definition set (self : t) (entry value : Z) : t :=
  let h := hash entry in
  let tlb_slot := slot_at self h in
  let evict := if negb (tlb_slot.1 =? 0) then u32 (_stat_evict self + 1)
               else _stat_evict self in
  mk (<[h := (Z.land entry PAGE_BEGIN_MASK, Z.land value PAGE_BEGIN_MASK)]> (_entries self))
     (_stat_hit self) (_stat_miss self) evict (u32 (_stat_enter self + 1)).

Lemma hash_eq e : hash e = (e / 4096) mod 4096.
Proof.
  unfold hash. change low_mask with (2 ^ 24 - 2 ^ 12). unfold low_shift.
  rewrite land_mask, Z.shiftr_div_pow2 by lia.
  change (2 ^ 24) with (4096 * 4096). change (2 ^ 12) with 4096.
  rewrite Z.rem_mul_r by lia.
  replace (e mod 4096 + 4096 * ((e / 4096) mod 4096) - e mod 4096)
    with ((e / 4096) mod 4096 * 4096) by lia.
  by rewrite Z.div_mul.
Qed.

Lemma hash_page_begin e : is_u64 e -> hash (page_begin e) = hash e.
Proof.
  intros He. rewrite !hash_eq, page_begin_eq by done. f_equal.
  Z.div_mod_to_equations. lia.
Qed.

Definition frame (self : t) (p : Z) : option Z :=
  let e := slot_at self (hash p) in if e.1 =? p then Some e.2 else None.
End TLB.

#[export] Instance TLB_cache : TranslationCache TLB.t := {|
  tc_new := TLB.new;
  tc_find := TLB.find;
  tc_set := TLB.set;
|}.

#[export] Program Instance TLB_laws : TranslationCacheLaws TLB.t := {|
  tc_frame := TLB.frame;
  tc_ok self := map_Forall (fun _ s => is_u64 s.2 /\ s.2 mod 4096 = 0) (TLB._entries self);
|}.
Next Obligation. apply map_Forall_empty. Qed.
Next Obligation. intros t e H. cbn. unfold TLB.find. by case_match. Qed.
Next Obligation.
  intros t e v Ht Hv. apply map_Forall_insert_2; [|done].
  split; [by apply page_begin_range|by apply page_begin_mod].
Qed.
Next Obligation.
  intros t p f Ht. cbn in *. unfold TLB.frame, TLB.slot_at.
  destruct (TLB._entries t !! TLB.hash p) as [[a b]|] eqn:E; simpl; case_match; try done;
    intros [= <-]; [apply (Ht _ _ E)|]. done.
Qed.
Next Obligation.
  intros p Hp. unfold TLB.frame, TLB.slot_at. cbn [TLB._entries TLB.new tc_new TLB_cache].
  rewrite lookup_empty. apply Z.eqb_neq in Hp. rewrite Z.eqb_sym in Hp.
  cbn -[Z.eqb]. by rewrite Hp.
Qed.
Next Obligation. intros t e p. cbn. unfold TLB.find. by case_match. Qed.
Next Obligation.
  intros t e v He. cbn. unfold TLB.frame, TLB.slot_at, TLB.set.
  rewrite TLB.hash_page_begin by done. cbn [TLB._entries]. rewrite lookup_insert_eq. simpl.
  by rewrite Z.eqb_refl.
Qed.
Next Obligation.
  intros t e v p f He Hp. cbn. unfold TLB.frame, TLB.slot_at, TLB.set. cbn [TLB._entries].
  rewrite lookup_insert. case_decide; [|done]. simpl.
  destruct (Z.eqb_spec (Z.land e PAGE_BEGIN_MASK) p); [|done]. by subst p.
Qed.
Next Obligation.
  intros t e Ht He Hb. cbn in *. unfold TLB.find, TLB.frame in *. fold (page_begin e).
  rewrite TLB.hash_page_begin in * by done.
  destruct (Z.eqb_spec (TLB.slot_at t (TLB.hash e)).1 (page_begin e)); [|done]. simpl.
  rewrite land_page_mask. apply frame_offset. unfold TLB.slot_at.
  destruct (TLB._entries t !! TLB.hash e) as [[a b]|] eqn:E; simpl; [apply (Ht _ _ E)|done].
Qed.
