(* ===== verification/Pager.v ===== *)
(** * The pager: [class PagerX86_64] of [src/pager.cc]

    The pager registers host memory with KVM as guest-physical chunks and
    maintains the four-level x86-64 page tables of the guest, which live in
    the first chunk.  Its state is the object's fields, the host memory that
    holds the tables, the function-static lookaside buffer of [get_host_p] and
    the host operating system.  Host pointers are [Z], with 0 for [NULL]. *)

From S2P Require Import Prelude Memory PageMath HostOS Tlb.
Local Open Scope Z_scope.

Record PagerX86_64 := mkPager {
  _vmfd : Z;
  chunks : list Chunk;
  host_pml4_p : Z;
  host_next_free_tbl_p : Z;
  guest_next_free : Z;
  total_memsz : Z;
  free_slots : list Z;
}.

Record pst (os T : Type) := mkPst {
  p_mem : mem;
  p_tlb : T;
  p_os : os;
  p_pager : PagerX86_64;
}.
Arguments mkPst {os T}.
Arguments p_mem {os T}.
Arguments p_tlb {os T}.
Arguments p_os {os T}.
Arguments p_pager {os T}.

(** [(addr << (63 - off_high)) >> ((63 - off_high) + off_low)] *)
Definition table_offset (addr off_low off_high : Z) : Z :=
  Z.shiftr (u64 (Z.shiftl addr (63 - off_high))) ((63 - off_high) + off_low).

Definition find_table_entry (tbl_base_p addr off_low off_high : Z) : Z :=
  tbl_base_p + 8 * table_offset addr off_low off_high.

Definition ADDR_MASK : Z := 0x000FFFFFFFFFF000.

(** The value [create_entry] leaves in the entry. *)
Definition entry_value (guest_next opts : Z) : Z :=
  let e := page_begin guest_next in
  let e := Z.lor e PT_BIT_USER in
  let e := if ctrue (Z.land opts PT_OPT_WRITE) then Z.lor e PT_BIT_WRITEABLE else e in
  let e := if negb (ctrue (Z.land opts PT_OPT_EXEC)) then Z.lor e PT_BIT_NXE else e in
  Z.lor e PT_BIT_PRESENT.

(** The free functions on chunks. *)
Definition contains_address (c : Chunk) (addr : Z) : bool :=
  (userspace_addr c <=? addr) && (addr <? userspace_addr c + memory_size c).

Definition contains_phys_address (c : Chunk) (addr : Z) : bool :=
  (guest_phys_addr c <=? addr) && (addr <? u64 (guest_phys_addr c + memory_size c)).

Definition find_chunk_for_host_p (cs : list Chunk) (host_mem_p : Z) : option Chunk :=
  find (fun c => contains_address c host_mem_p) cs.

Definition host_to_guest_physical (cs : list Chunk) (host_p : Z) : Z :=
  match find_chunk_for_host_p cs host_p with
  | None => 0
  | Some chunk => u64 (host_p - userspace_addr chunk + guest_phys_addr chunk)
  end.

(** The constructor: [throw] on a file descriptor below 1. *)
Definition PagerX86_64_new (vmfd : Z) : res PagerX86_64 :=
  if vmfd <? 1 then Fail Throw
  else Ok (mkPager vmfd [] 0 0 (2 ^ 64 - 1) 0 []).

Section Pager.
Context {os T : Type} `{HostOS os} `{TranslationCache T}.
Local Abbreviation PM := (M (pst os T)).

Definition upd_pager (f : PagerX86_64 -> PagerX86_64) : PM unit :=
  modify (fun s => mkPst (p_mem s) (p_tlb s) (p_os s) (f (p_pager s))).

Definition upd_mem (f : mem -> mem) : PM unit :=
  modify (fun s => mkPst (f (p_mem s)) (p_tlb s) (p_os s) (p_pager s)).

Definition set_chunks (cs : list Chunk) : PM unit :=
  upd_pager (fun p => mkPager (_vmfd p) cs (host_pml4_p p) (host_next_free_tbl_p p)
                              (guest_next_free p) (total_memsz p) (free_slots p)).

Definition set_free_slots (fs : list Z) : PM unit :=
  upd_pager (fun p => mkPager (_vmfd p) (chunks p) (host_pml4_p p) (host_next_free_tbl_p p)
                              (guest_next_free p) (total_memsz p) fs).

(** *** Chunks *)

(** The new chunk is the last element of [chunks]; the answer is its index.
    [make_shared] never returns null, so the null check after it is dead. *)
Definition alloc_chunk (addr chunk_size flags : Z) : PM nat :=
  let! p := gets p_pager in
  let n := length (chunks p) in
  let chunk_slot := match last (free_slots p) with
                    | Some f => f
                    | None => u32 (Z.of_nat n)
                    end in
  let chunk := mkChunk chunk_slot flags (total_memsz p) chunk_size addr in
  do! upd_pager (fun p => mkPager (_vmfd p) (chunks p ++ [chunk]) (host_pml4_p p)
                                  (host_next_free_tbl_p p) (guest_next_free p)
                                  (u64 (total_memsz p + chunk_size))
                                  (take (pred (length (free_slots p))) (free_slots p))) in
  ret n.

Definition map_chunk_to_kvm (i : nat) : PM Z :=
  let! p := gets p_pager in
  let! chunk := at_ (chunks p) i in
  do! (if memory_size chunk =? 0 then
         do! set_free_slots (free_slots p ++ [slot chunk]) in
         set_chunks (erase i (chunks p))
       else ret tt) in
  do! assert_ (slot chunk <? KVM_MEMORY_SLOTS) in
  let! s := get in
  let '((err, errno), o') := set_user_memory_region (p_os s) (_vmfd (p_pager s)) chunk in
  do! put (mkPst (p_mem s) (p_tlb s) o' (p_pager s)) in
  ret (if ctrue err then - errno else 0).

(** The error code and the value left in [*host_p]. *)
Definition create_mem_chunk (host_p chunk_size : Z) : PM (Z * Z) :=
  if negb (page_aligned chunk_size) then ret (- EIO, host_p) else
  let! s := get in
  let '((err, p), o') := posix_memalign (p_os s) HOST_PAGESIZE chunk_size in
  do! put (mkPst (p_mem s) (p_tlb s) o' (p_pager s)) in
  if ctrue err then ret (err, host_p) else
  let! i := alloc_chunk p chunk_size 0 in
  let! err := map_chunk_to_kvm i in
  ret (err, p).

(** *** Page-table entries *)

Definition load (a : Z) : PM Z := gets (fun s => load64 (p_mem s) a).
Definition store (a v : Z) : PM unit := upd_mem (fun m => store64 m a v).

Definition entry_exists (e : Z) : PM bool :=
  let! v := load e in ret (ctrue (Z.land v 0x1)).

Definition create_entry (host_entry_p guest_next opts : Z) : PM unit :=
  store host_entry_p (entry_value guest_next opts).

Definition create_page_tables : PM Z :=
  let! p := gets p_pager in
  do! assert_ (negb (host_pml4_p p =? 0)) in
  let! c0 := at_ (chunks p) 0 in
  do! assert_ (ELKVM_SYSTEM_MEMSIZE <=? memory_size c0) in
  do! upd_mem (fun m => memset m (host_pml4_p p) 0 ELKVM_SYSTEM_MEMSIZE) in
  do! upd_pager (fun p => mkPager (_vmfd p) (chunks p) (host_pml4_p p)
                                  (host_pml4_p p + HOST_PAGESIZE) (guest_next_free p)
                                  (total_memsz p) (free_slots p)) in
  ret 0.

(** The argument is the base address of the region that holds the tables. *)
Definition set_pml4 (base_address : Z) : PM Z :=
  do! upd_pager (fun p => mkPager (_vmfd p) (chunks p) base_address (host_next_free_tbl_p p)
                                  (guest_next_free p) (total_memsz p) (free_slots p)) in
  let! p := gets p_pager in
  let pml4_guest_physical := host_to_guest_physical (chunks p) (host_pml4_p p) in
  do! upd_pager (fun p => mkPager (_vmfd p) (chunks p) (host_pml4_p p) (host_next_free_tbl_p p)
                                  KERNEL_SPACE_BOTTOM (total_memsz p) (free_slots p)) in
  let! err := create_page_tables in
  do! assert_ (err =? 0) in
  ret (s32 pml4_guest_physical).

Definition create_table (host_entry_p opts : Z) : PM Z :=
  let! p := gets p_pager in
  let guest_next_tbl := host_to_guest_physical (chunks p) (host_next_free_tbl_p p) in
  do! assert_ (negb (guest_next_tbl =? 0)) in
  do! upd_mem (fun m => memset m (host_next_free_tbl_p p) 0 HOST_PAGESIZE) in
  do! upd_pager (fun p => mkPager (_vmfd p) (chunks p) (host_pml4_p p)
                                  (host_next_free_tbl_p p + HOST_PAGESIZE) (guest_next_free p)
                                  (total_memsz p) (free_slots p)) in
  do! create_entry host_entry_p guest_next_tbl opts in
  ret 0.

Definition find_next_table (tbl_entry_p : Z) : PM Z :=
  let! b := entry_exists tbl_entry_p in
  if negb b then ret 0 else
  let! v := load tbl_entry_p in
  let guest_next_tbl := Z.land v ADDR_MASK in
  let! p := gets p_pager in
  let! c0 := at_ (chunks p) 0 in
  ret (u64 (userspace_addr c0 + guest_next_tbl)).

Definition update_entry (entry opts : Z) : PM Z :=
  let! b := entry_exists entry in
  let! err := (if negb b then create_table entry opts else ret 0) in
  if ctrue err then ret err else
  do! (if ctrue (Z.land opts PT_OPT_WRITE) then
         let! v := load entry in store entry (Z.lor v PT_BIT_WRITEABLE)
       else ret tt) in
  do! (if ctrue (Z.land opts PT_OPT_EXEC) then
         let! v := load entry in store entry (Z.land v (u64 (Z.lnot PT_BIT_NXE)))
       else ret tt) in
  ret 0.

(** *** Walks *)

(** The loop over pml4, pdpt and pd: [None] is the early [return NULL]. *)
Fixpoint walk_create_levels (n : nat) (guest_virtual opts table_base addr_low addr_high : Z)
  : PM (option (Z * Z * Z)) :=
  match n with
  | O => ret (Some (table_base, addr_low, addr_high))
  | S n' =>
      let entry := find_table_entry table_base guest_virtual addr_low addr_high in
      let! err := update_entry entry opts in
      if ctrue err then ret None else
      let! next := find_next_table entry in
      walk_create_levels n' guest_virtual opts next (addr_low - 9) (addr_high - 9)
  end.

Definition page_table_walk_create (guest_virtual opts : Z) : PM Z :=
  do! assert_ (negb (guest_virtual =? 0)) in
  let! p := gets p_pager in
  do! assert_ (negb (host_pml4_p p =? 0)) in
  let! r := walk_create_levels 3 guest_virtual opts (host_pml4_p p) 39 47 in
  match r with
  | None => ret 0
  | Some (table_base, addr_low, addr_high) =>
      ret (find_table_entry table_base guest_virtual addr_low addr_high)
  end.

Fixpoint walk_levels (n : nat) (guest_virtual table_base addr_low addr_high : Z)
  : PM (option (Z * Z * Z)) :=
  match n with
  | O => ret (Some (table_base, addr_low, addr_high))
  | S n' =>
      let entry := find_table_entry table_base guest_virtual addr_low addr_high in
      let! b := entry_exists entry in
      if negb b then ret None else
      let! next := find_next_table entry in
      walk_levels n' guest_virtual next (addr_low - 9) (addr_high - 9)
  end.

Definition page_table_walk (guest_virtual : Z) : PM Z :=
  do! assert_ (negb (guest_virtual =? 0)) in
  let! p := gets p_pager in
  do! assert_ (negb (host_pml4_p p =? 0)) in
  let! r := walk_levels 3 guest_virtual (host_pml4_p p) 39 47 in
  match r with
  | None => ret 0
  | Some (table_base, addr_low, addr_high) =>
      let entry := find_table_entry table_base guest_virtual addr_low addr_high in
      let! b := entry_exists entry in
      if negb b then ret 0 else ret entry
  end.

(** *** Mapping and unmapping *)

Definition map_user_page (host_mem_p guest_virtual opts : Z) : PM Z :=
  do! assert_ (negb (guest_virtual =? 0)) in
  let! p := gets p_pager in
  do! assert_ ((host_mem_p <? host_pml4_p p)
               || (host_pml4_p p + ELKVM_SYSTEM_MEMSIZE <=? host_mem_p)) in
  if negb (Z.land host_mem_p (ELKVM_PAGESIZE - 1)
           =? Z.land guest_virtual (ELKVM_PAGESIZE - 1))
  then ret (- EIO) else
  let guest_physical := host_to_guest_physical (chunks p) host_mem_p in
  do! assert_ (negb (guest_physical =? 0)) in
  let! pt_entry := page_table_walk_create guest_virtual opts in
  do! assert_ (negb (pt_entry =? 0)) in
  let! b := entry_exists pt_entry in
  let! v := load pt_entry in
  if b && negb (Z.land v ADDR_MASK =? Z.land guest_physical PAGE_BEGIN_MASK)
  then ret (-1) else
  do! create_entry pt_entry guest_physical opts in
  ret 0.

Definition map_region (start_p start_addr pages opts : Z) : PM Z :=
  for_ (Z.to_nat pages)
    (fun '(current_p, current_addr) =>
       let! err := map_user_page current_p current_addr opts in
       if ctrue err then ret (inr err)
       else ret (inl (current_p + ELKVM_PAGESIZE, u64 (current_addr + ELKVM_PAGESIZE))))
    (fun _ => ret 0)
    (start_p, start_addr).

Definition free_page (guest_virtual : Z) : PM Z :=
  let! pt_entry := page_table_walk guest_virtual in
  if pt_entry =? 0 then ret (-1) else
  do! store pt_entry 0 in
  ret 0.

Definition unmap_region (start_addr pages : Z) : PM Z :=
  for_ (Z.to_nat pages)
    (fun current_addr =>
       let! err := free_page current_addr in
       if ctrue err then ret (inr err)
       else ret (inl (u64 (current_addr + ELKVM_PAGESIZE))))
    (fun _ => ret 0)
    start_addr.

(** The search for a free entry in [map_kernel_page]. *)
Definition kernel_page_step (opts : Z) (x : Z * Z) : PM ((Z * Z) + (Z * Z)) :=
  let '(pt_entry, guest_virtual) := x in
  let! b := entry_exists pt_entry in
  if negb b then ret (inr (pt_entry, guest_virtual)) else
  let pt_entry := pt_entry + 8 in
  let guest_virtual := u64 (guest_virtual + ELKVM_PAGESIZE) in
  if Z.land pt_entry PAGE_BEGIN_MASK =? pt_entry then
    let guest_virtual := u64 (guest_virtual + 0x100000) in
    do! assert_ (negb (guest_virtual =? 0)) in
    let! pt_entry := page_table_walk_create guest_virtual opts in
    ret (inl (pt_entry, guest_virtual))
  else ret (inl (pt_entry, guest_virtual)).

Definition map_kernel_page (host_mem_p opts : Z) : PM Z :=
  let! p := gets p_pager in
  let guest_physical := host_to_guest_physical (chunks p) host_mem_p in
  let guest_virtual := Z.lor (Z.land (guest_next_free p) PAGE_BEGIN_MASK)
                             (Z.land guest_physical (ELKVM_PAGESIZE - 1)) in
  do! assert_ (negb (guest_virtual =? 0)) in
  let! pt_entry := page_table_walk_create guest_virtual opts in
  if pt_entry =? 0 then ret (u64 (- EIO)) else
  let! '(pt_entry, guest_virtual) := while_ (kernel_page_step opts) (pt_entry, guest_virtual) in
  do! create_entry pt_entry guest_physical opts in
  ret guest_virtual.

(** *** Address translation *)

Definition get_host_p (guest_virtual : Z) : PM Z :=
  if guest_virtual =? 0 then ret 0 else
  let! s := get in
  let '(t, tlb') := tc_find (p_tlb s) guest_virtual in
  do! put (mkPst (p_mem s) tlb' (p_os s) (p_pager s)) in
  if ctrue t then ret t else
  let! entry := page_table_walk guest_virtual in
  if entry =? 0 then ret 0 else
  let! v := load entry in
  let guest_physical := Z.lor (Z.land v ADDR_MASK)
                              (Z.land guest_virtual (ELKVM_PAGESIZE - 1)) in
  let! p := gets p_pager in
  match find (fun c => contains_phys_address c guest_physical) (chunks p) with
  | None => ret 0
  | Some chunk =>
      let h := u64 (u64 (guest_physical - guest_phys_addr chunk) + userspace_addr chunk) in
      do! modify (fun s => mkPst (p_mem s) (tc_set (p_tlb s) guest_virtual h)
                                 (p_os s) (p_pager s)) in
      ret h
  end.
End Pager.
