(* ===== verification/PagerTree.v ===== *)
(** * The page-table tree

    The representation invariant of the page tables and what the walks of
    [Pager] do under it.  The tables are the first [N] pages of the area at
    [P = host_pml4_p]; the ghost function [own] gives every table its level
    (4 for the pml4 down to 1 for a page table) and the part of the virtual
    page number it serves. *)

From S2P Require Import Prelude Memory PageMath HostOS Tlb Pager.
Local Open Scope Z_scope.

(** ** Virtual page numbers *)

(** The index of an address in a table of level [l]. *)
Definition idx (l v : Z) : Z := (v / 2 ^ (12 + 9 * (l - 1))) mod 512.

(** The virtual page number bits above level [l]. *)
Definition pre (l v : Z) : Z := (v mod 2 ^ 48) / 2 ^ (12 + 9 * l).

(** The virtual page number: bits 12 to 47 of the address. *)
Definition vpn (v : Z) : Z := (v mod 2 ^ 48) / 4096.

Lemma table_offset_eq v low high :
  0 <= low <= high -> high <= 63 -> 0 <= v ->
  table_offset v low high = (v / 2 ^ low) mod 2 ^ (high - low + 1).
Proof.
  intros Hl Hh Hv. unfold table_offset, u64.
  rewrite Z.shiftr_div_pow2, Z.shiftl_mul_pow2 by lia.
  replace (2 ^ 64) with (2 ^ (high + 1) * 2 ^ (63 - high))
    by (rewrite <- Z.pow_add_r by lia; f_equal; lia).
  rewrite Z.mul_mod_distr_r by (apply Z.pow_nonzero; lia).
  replace (2 ^ (63 - high + low)) with (2 ^ (63 - high) * 2 ^ low)
    by (rewrite <- Z.pow_add_r by lia; f_equal; lia).
  rewrite <- Z.div_div, Z.div_mul by (try apply Z.pow_nonzero; lia).
  replace (2 ^ (high + 1)) with (2 ^ low * 2 ^ (high - low + 1))
    by (rewrite <- Z.pow_add_r by lia; f_equal; lia).
  rewrite Z.rem_mul_r by lia. rewrite Z.mul_comm, Z.div_add by lia.
  rewrite (Z.div_small (v mod 2 ^ low)); [lia|]. apply Z.mod_pos_bound. lia.
Qed.

Lemma idx_range l v : 0 <= idx l v < 512.
Proof. apply Z.mod_pos_bound. lia. Qed.

Lemma idx_offset l v :
  1 <= l <= 4 -> 0 <= v -> table_offset v (3 + 9 * l) (11 + 9 * l) = idx l v.
Proof.
  intros Hl Hv. rewrite table_offset_eq by lia. unfold idx.
  replace (11 + 9 * l - (3 + 9 * l) + 1) with 9 by lia.
  replace (12 + 9 * (l - 1)) with (3 + 9 * l) by lia. done.
Qed.

Lemma pre_top v : pre 4 v = 0.
Proof. unfold pre. apply Z.div_small. apply (Z.mod_pos_bound v (2 ^ 48)). lia. Qed.

Lemma pre_step l v : 2 <= l <= 4 -> pre (l - 1) v = pre l v * 512 + idx l v.
Proof.
  intros Hl. unfold pre, idx. replace (12 + 9 * l) with (12 + 9 * (l - 1) + 9) by lia.
  set (k := 12 + 9 * (l - 1)) in *. assert (21 <= k <= 39) as Hk by lia.
  rewrite Z.pow_add_r, <- Z.div_div by lia. change (2 ^ 9) with 512.
  replace ((v / 2 ^ k) mod 512) with (((v mod 2 ^ 48) / 2 ^ k) mod 512).
  - pose proof (Z.div_mod (v mod 2 ^ 48 / 2 ^ k) 512). lia.
  - replace (2 ^ 48) with (2 ^ k * 2 ^ (48 - k)) by (rewrite <- Z.pow_add_r by lia; f_equal; lia).
    rewrite Z.rem_mul_r by lia. rewrite Z.mul_comm, Z.div_add by lia.
    rewrite (Z.div_small (v mod 2 ^ k)) by (apply Z.mod_pos_bound; lia).
    rewrite Z.add_0_l. change 512 with (2 ^ 9). apply mod_mod_pow2. lia.
Qed.

Lemma vpn_pre_idx v : vpn v = pre 1 v * 512 + idx 1 v.
Proof.
  unfold vpn, pre, idx.
  change (2 ^ (12 + 9 * 1)) with (4096 * 512). change (2 ^ (12 + 9 * (1 - 1))) with 4096.
  rewrite <- Z.div_div by lia.
  replace ((v / 4096) mod 512) with (((v mod 2 ^ 48) / 4096) mod 512).
  - pose proof (Z.div_mod (v mod 2 ^ 48 / 4096) 512). lia.
  - change (2 ^ 48) with (4096 * 2 ^ 36).
    rewrite Z.rem_mul_r by lia. rewrite Z.mul_comm, Z.div_add by lia.
    rewrite (Z.div_small (v mod 4096)) by (apply Z.mod_pos_bound; lia).
    rewrite Z.add_0_l. apply (mod_mod_pow2 _ 9 36). lia.
Qed.

(** ** Entries *)

Definition present (e : Z) : bool := Z.testbit e 0.

Lemma present_eq e : ctrue (Z.land e 0x1) = present e.
Proof. apply (testbit_land_pow2 e 0). lia. Qed.

Lemma addr_mask_page g : 0 <= g < 2 ^ 52 -> Z.land (page_begin g) ADDR_MASK = page_begin g.
Proof.
  intros Hg. assert (is_u64 g) as Hu by (unfold is_u64; lia).
  pose proof (page_begin_mod g Hu) as Hm.
  change ADDR_MASK with (2 ^ 52 - 2 ^ 12). rewrite land_mask by lia.
  change (2 ^ 12) with 4096. rewrite Hm, Z.mod_small; [lia|].
  rewrite page_begin_eq by done.
  pose proof (Z.mod_pos_bound g 4096). pose proof (Z.mod_le g 4096). lia.
Qed.

Lemma entry_value_frame g opts :
  0 <= g < 2 ^ 52 -> Z.land (entry_value g opts) ADDR_MASK = page_begin g.
Proof.
  intros Hg. unfold entry_value.
  destruct (ctrue (Z.land opts PT_OPT_WRITE)), (ctrue (Z.land opts PT_OPT_EXEC)); simpl negb;
    cbv iota; rewrite !Z.land_lor_distr_l, addr_mask_page by done; cbn -[page_begin Z.lor];
    by rewrite !Z.lor_0_r.
Qed.

Lemma entry_value_present g opts : present (entry_value g opts) = true.
Proof. unfold present, entry_value. rewrite Z.lor_spec. apply orb_true_r. Qed.

Lemma entry_value_u64 g opts : is_u64 g -> is_u64 (entry_value g opts).
Proof.
  intros Hg. unfold entry_value.
  assert (is_u64 PT_BIT_USER /\ is_u64 PT_BIT_WRITEABLE /\ is_u64 PT_BIT_NXE
          /\ is_u64 PT_BIT_PRESENT) as (?&?&?&?) by (unfold is_u64; by vm_compute).
  pose proof (page_begin_range g Hg).
  destruct (ctrue (Z.land opts PT_OPT_WRITE)), (ctrue (Z.land opts PT_OPT_EXEC)); simpl negb;
    cbv iota; auto 10 using lor_u64.
Qed.

(** The changes [update_entry] makes keep the frame and the present bit. *)
Lemma set_writeable_frame e :
  Z.land (Z.lor e PT_BIT_WRITEABLE) ADDR_MASK = Z.land e ADDR_MASK.
Proof. rewrite Z.land_lor_distr_l. cbn -[Z.lor Z.land]. apply Z.lor_0_r. Qed.

Lemma clear_nxe_frame e :
  Z.land (Z.land e (u64 (Z.lnot PT_BIT_NXE))) ADDR_MASK = Z.land e ADDR_MASK.
Proof. by rewrite <- Z.land_assoc. Qed.

Lemma set_writeable_present e : present (Z.lor e PT_BIT_WRITEABLE) = present e.
Proof. unfold present. rewrite Z.lor_spec. apply orb_false_r. Qed.

Lemma clear_nxe_present e : present (Z.land e (u64 (Z.lnot PT_BIT_NXE))) = present e.
Proof. unfold present. rewrite Z.land_spec. apply andb_true_r. Qed.

(** ** The invariant *)

(** The address of entry [i] of table [k]. *)
Definition tbl_ent (P k i : Z) : Z := P + 4096 * k + 8 * i.

(** [e'] grants everything [e] grants: the permissions of an inner entry. *)
Definition grants_more (e e' : Z) : Prop :=
  present e' = present e /\ Z.land e' ADDR_MASK = Z.land e ADDR_MASK /\
  (Z.testbit e 1 = true -> Z.testbit e' 1 = true) /\
  (Z.testbit e' 63 = true -> Z.testbit e 63 = true).

#[export] Instance grants_more_preorder : PreOrder grants_more.
Proof. split; [by intros ?|]. intros x y z (?&?&?&?) (?&?&?&?). repeat split; [congruence..|auto|auto]. Qed.

Record tree (m : mem) (P B N : Z) (own : Z -> Z * Z) : Prop := mkTree {
  tr_count : 1 <= N <= 4096;
  tr_root : own 0 = (4, 0);
  tr_level k : 0 <= k < N -> 1 <= (own k).1 <= 4;
  tr_inj j k : 0 <= j < N -> 0 <= k < N -> own j = own k -> j = k;
  tr_parent k : 0 <= k < N -> (own k).1 < 4 ->
    exists j, 0 <= j < N /\ own j = ((own k).1 + 1, (own k).2 / 512);
  tr_present k i : 0 <= k < N -> 1 < (own k).1 -> 0 <= i < 512 ->
    present (load64 m (tbl_ent P k i)) = true ->
    exists j, 0 <= j < N /\ own j = ((own k).1 - 1, (own k).2 * 512 + i) /\
              Z.land (load64 m (tbl_ent P k i)) ADDR_MASK = P - B + 4096 * j;
  tr_absent k i j : 0 <= k < N -> 1 < (own k).1 -> 0 <= i < 512 ->
    present (load64 m (tbl_ent P k i)) = false ->
    0 <= j < N -> own j <> ((own k).1 - 1, (own k).2 * 512 + i);
}.

(** The first chunk holds guest-physical address 0 and the table area. *)
Record geometry (pg : PagerX86_64) (c0 : Chunk) : Prop := mkGeometry {
  ge_first : chunks pg !! 0%nat = Some c0;
  ge_phys : guest_phys_addr c0 = 0;
  ge_base : 0 < userspace_addr c0;
  ge_base_page : userspace_addr c0 mod 4096 = 0;
  ge_top : userspace_addr c0 + memory_size c0 <= 2 ^ 47;
  ge_pml4_page : host_pml4_p pg mod 4096 = 0;
  ge_pml4 : userspace_addr c0 <= host_pml4_p pg;
  ge_area : host_pml4_p pg + ELKVM_SYSTEM_MEMSIZE <= userspace_addr c0 + memory_size c0;
}.

Definition with_next_free (pg : PagerX86_64) (n : Z) : PagerX86_64 :=
  mkPager (_vmfd pg) (chunks pg) (host_pml4_p pg) n (guest_next_free pg)
          (total_memsz pg) (free_slots pg).

Section Tree.
Context {os T : Type}.
Implicit Types s : pst os T.

Record pager_inv s (c0 : Chunk) (N : Z) (own : Z -> Z * Z) : Prop := mkPagerInv {
  pi_geom : geometry (p_pager s) c0;
  pi_next : host_next_free_tbl_p (p_pager s) = host_pml4_p (p_pager s) + 4096 * N;
  pi_tree : tree (p_mem s) (host_pml4_p (p_pager s)) (userspace_addr c0) N own;
}.

(** What an operation that only adds tables and widens permissions does. *)
Record pt_step (c0 : Chunk) (N : Z) (own : Z -> Z * Z) s (N' : Z) (own' : Z -> Z * Z) s' : Prop
  := mkPtStep {
  ps_inv : pager_inv s' c0 N' own';
  ps_count : N <= N';
  ps_own k : 0 <= k < N -> own' k = own k;
  ps_leaf k i : 0 <= k < N -> (own k).1 = 1 -> 0 <= i < 512 ->
    load64 (p_mem s') (tbl_ent (host_pml4_p (p_pager s)) k i) =
    load64 (p_mem s) (tbl_ent (host_pml4_p (p_pager s)) k i);
  ps_inner k i : 0 <= k < N -> 1 < (own k).1 -> 0 <= i < 512 ->
    present (load64 (p_mem s) (tbl_ent (host_pml4_p (p_pager s)) k i)) = true ->
    grants_more (load64 (p_mem s) (tbl_ent (host_pml4_p (p_pager s)) k i))
                (load64 (p_mem s') (tbl_ent (host_pml4_p (p_pager s)) k i));
  ps_new k i : 0 <= k -> N <= k < N' -> (own' k).1 = 1 -> 0 <= i < 512 ->
    present (load64 (p_mem s') (tbl_ent (host_pml4_p (p_pager s)) k i)) = false;
  ps_frame x : x < host_pml4_p (p_pager s) \/
               host_pml4_p (p_pager s) + ELKVM_SYSTEM_MEMSIZE <= x -> p_mem s' x = p_mem s x;
  ps_tlb : p_tlb s' = p_tlb s;
  ps_os : p_os s' = p_os s;
  ps_pager : p_pager s' = with_next_free (p_pager s) (host_pml4_p (p_pager s) + 4096 * N');
}.

Lemma pt_step_refl s c0 N own : pager_inv s c0 N own -> pt_step c0 N own s N own s.
Proof.
  intros Hi. constructor; try done; try lia.
  unfold with_next_free. rewrite <- (pi_next _ _ _ _ Hi). by destruct (p_pager s).
Qed.

Lemma pt_step_trans c0 s1 s2 s3 N1 N2 N3 own1 own2 own3 :
  pt_step c0 N1 own1 s1 N2 own2 s2 -> pt_step c0 N2 own2 s2 N3 own3 s3 ->
  pt_step c0 N1 own1 s1 N3 own3 s3.
Proof.
  intros H1 H2.
  assert (host_pml4_p (p_pager s2) = host_pml4_p (p_pager s1)) as HP
    by (by rewrite (ps_pager _ _ _ _ _ _ _ H1)).
  destruct H1 as [Hi1 Hc1 Ho1 Hl1 Hn1 Hw1 Hf1 Ht1 Hos1 Hp1].
  destruct H2 as [Hi2 Hc2 Ho2 Hl2 Hn2 Hw2 Hf2 Ht2 Hos2 Hp2]. rewrite HP in *.
  constructor; [done|lia|..].
  - intros k Hk. rewrite Ho2, Ho1; [done|lia..].
  - intros k i Hk Hlv Hi. rewrite Hl2, Hl1; [done|lia|done|lia|lia| |lia]. by rewrite Ho1 by lia.
  - intros k i Hk Hlv Hi Hp. pose proof (Hn1 k i Hk Hlv Hi Hp) as G1. etrans; [done|].
    apply Hn2; [lia|by rewrite Ho1 by lia|done|]. destruct G1 as [-> _]. done.
  - intros k i H0 Hk Hlv Hi. destruct (decide (k < N2)) as [Hlt|Hge].
    + rewrite Ho2 in Hlv by lia. rewrite Hl2; [apply Hw1; (done || lia)|lia|done|done].
    + apply Hw2; [done|lia|done|done].
  - intros x Hx. rewrite Hf2, Hf1; done.
  - congruence.
  - congruence.
  - rewrite Hp2, Hp1. done.
Qed.

(** *** Facts that follow from the geometry *)

Lemma tbl_ent_disjoint P k i k' i' :
  0 <= i < 512 -> 0 <= i' < 512 -> (k, i) <> (k', i') ->
  tbl_ent P k i + 8 <= tbl_ent P k' i' \/ tbl_ent P k' i' + 8 <= tbl_ent P k i.
Proof.
  intros Hi Hi' Hne. unfold tbl_ent. assert (k <> k' \/ i <> i') as [?|?]; [|lia..].
  destruct (decide (k = k')) as [->|]; [right|left; done]. intros ->. done.
Qed.

Lemma h2gp_table pg c0 k :
  geometry pg c0 -> 0 <= k < 4096 ->
  host_to_guest_physical (chunks pg) (host_pml4_p pg + 4096 * k) =
  host_pml4_p pg - userspace_addr c0 + 4096 * k.
Proof.
  intros [Hf Hp Hb Hbp Ht Hpp Hpm Ha] Hk. unfold ELKVM_SYSTEM_MEMSIZE in Ha.
  unfold host_to_guest_physical, find_chunk_for_host_p.
  destruct (chunks pg) as [|c cs]; [done|]. injection Hf as ->. simpl.
  unfold contains_address.
  replace (_ && _) with true; [|symmetry; apply andb_true_intro; split; lia].
  rewrite Hp, u64_small; lia.
Qed.

(** *** Storing an inner entry that only grants more *)

Lemma set_entry_step s c0 N own k i e :
  pager_inv s c0 N own -> 0 <= k < N -> 1 < (own k).1 -> 0 <= i < 512 -> is_u64 e ->
  grants_more (load64 (p_mem s) (tbl_ent (host_pml4_p (p_pager s)) k i)) e ->
  pt_step c0 N own s N own
    (mkPst (store64 (p_mem s) (tbl_ent (host_pml4_p (p_pager s)) k i) e)
           (p_tlb s) (p_os s) (p_pager s)).
Proof.
  intros Hinv Hk Hlv Hi He Hg. set (P := host_pml4_p (p_pager s)) in *.
  assert (forall k' i', 0 <= i' < 512 ->
    load64 (store64 (p_mem s) (tbl_ent P k i) e) (tbl_ent P k' i') =
    if decide ((k, i) = (k', i')) then e else load64 (p_mem s) (tbl_ent P k' i')) as Hld.
  { intros k' i' Hi'. case_decide as Hd.
    - injection Hd as <- <-. rewrite load64_store64_same. by apply u64_small.
    - apply load64_store64_other. destruct (tbl_ent_disjoint P k i k' i'); auto. }
  assert (forall k' i', 0 <= i' < 512 ->
    grants_more (load64 (p_mem s) (tbl_ent P k' i'))
      (load64 (store64 (p_mem s) (tbl_ent P k i) e) (tbl_ent P k' i'))) as Hgm.
  { intros k' i' Hi'. rewrite Hld by done. case_decide as Hd; [|done].
    by injection Hd as <- <-. }
  destruct Hinv as [Hge Hnx [Hc Hr Hl Hin Hpa Hpr Hab]]. fold P in Hnx, Hpr, Hab.
  constructor; cbn [p_mem p_tlb p_os p_pager]; try done.
  - constructor; [done|done|]. constructor; try done; cbn [p_mem p_pager]; fold P.
    + intros k' i' Hk' Hl' Hi' Hp. destruct (Hgm k' i' Hi') as (E1 & E2 & _).
      rewrite E2. apply Hpr; try done. congruence.
    + intros k' i' j Hk' Hl' Hi' Hp. destruct (Hgm k' i' Hi') as (E1 & _).
      apply Hab; try done. congruence.
  - intros k' i' Hk' Hl' Hi'. fold P. rewrite Hld by done. case_decide as Hd; [|done].
    injection Hd as <- <-. lia.
  - intros k' i' Hk' Hl' Hi' _. by apply Hgm.
  - intros k' i'. lia.
  - intros x Hx. fold P in Hx. apply store64_other.
    unfold tbl_ent, ELKVM_SYSTEM_MEMSIZE in *. lia.
  - fold P. rewrite <- Hnx. by destruct (p_pager s).
Qed.

(** *** Adding a table below an empty inner entry *)

Section NewTable.
Context (s : pst os T) (c0 : Chunk) (N : Z) (own : Z -> Z * Z) (k i e : Z).
Let P := host_pml4_p (p_pager s).
Let m' := store64 (memset (p_mem s) (P + 4096 * N) 0 HOST_PAGESIZE) (tbl_ent P k i) e.
Let own' (x : Z) : Z * Z :=
  if decide (x = N) then ((own k).1 - 1, (own k).2 * 512 + i) else own x.
Hypothesis Hinv : pager_inv s c0 N own.
Hypothesis Hroom : N < 4096.
Hypothesis Hk : 0 <= k < N.
Hypothesis Hlv : 1 < (own k).1.
Hypothesis Hi : 0 <= i < 512.
Hypothesis He : is_u64 e.
Hypothesis Hfree : present (load64 (p_mem s) (tbl_ent P k i)) = false.
Hypothesis Hpres : present e = true.
Hypothesis Hframe : Z.land e ADDR_MASK = P - userspace_addr c0 + 4096 * N.

Lemma new_table_load k' i' :
  0 <= k' <= N -> 0 <= i' < 512 ->
  load64 m' (tbl_ent P k' i') =
  if decide ((k, i) = (k', i')) then e
  else if decide (k' = N) then 0 else load64 (p_mem s) (tbl_ent P k' i').
Proof.
  intros Hk' Hi'. unfold m'. case_decide as Hd.
  - injection Hd as <- <-. rewrite load64_store64_same. by apply u64_small.
  - rewrite load64_store64_other by (destruct (tbl_ent_disjoint P k i k' i'); auto).
    unfold HOST_PAGESIZE. case_decide as Hd'.
    + subst k'. apply load64_memset_zero; unfold tbl_ent; lia.
    + apply load64_memset_other. unfold tbl_ent. lia.
Qed.

Lemma own'_old x : x < N -> own' x = own x.
Proof. intros. unfold own'. case_decide; [lia|done]. Qed.

Lemma own'_new : own' N = ((own k).1 - 1, (own k).2 * 512 + i).
Proof. unfold own'. by case_decide. Qed.

Lemma new_table_fresh j : 0 <= j < N -> own j <> own' N.
Proof.
  intros Hj. rewrite own'_new. destruct Hinv as [_ _ Ht].
  by apply (tr_absent _ _ _ _ _ Ht k i j).
Qed.

Lemma new_table_present k' i' :
  0 <= k' < N + 1 -> 1 < (own' k').1 -> 0 <= i' < 512 ->
  present (load64 m' (tbl_ent P k' i')) = true ->
  exists j, 0 <= j < N + 1 /\ own' j = ((own' k').1 - 1, (own' k').2 * 512 + i') /\
            Z.land (load64 m' (tbl_ent P k' i')) ADDR_MASK = P - userspace_addr c0 + 4096 * j.
Proof.
  intros Hk' Hl' Hi' Hp. rewrite new_table_load in * by lia. case_decide as Hd.
  - injection Hd as <- <-. exists N. rewrite own'_new, own'_old by lia. split; [lia|done].
  - case_decide as Hd'; [done|]. rewrite own'_old in * by lia.
    destruct Hinv as [_ _ Ht]. fold P in Ht.
    destruct (tr_present _ _ _ _ _ Ht k' i' ltac:(lia) Hl' Hi' Hp) as (j & Hj & Ho & Hf).
    exists j. rewrite own'_old by lia. split; [lia|done].
Qed.

Lemma new_table_absent k' i' j :
  0 <= k' < N + 1 -> 1 < (own' k').1 -> 0 <= i' < 512 ->
  present (load64 m' (tbl_ent P k' i')) = false ->
  0 <= j < N + 1 -> own' j <> ((own' k').1 - 1, (own' k').2 * 512 + i').
Proof.
  intros Hk' Hl' Hi' Hp Hj Heq. rewrite new_table_load in Hp by lia.
  destruct Hinv as [_ _ Ht]. fold P in Ht. case_decide as Hd; [congruence|].
  case_decide as Hd'.
  - subst k'. rewrite own'_new in *. cbn [fst snd] in *. destruct (decide (j = N)) as [->|Hne].
    + rewrite own'_new in Heq. injection Heq. lia.
    + rewrite own'_old in Heq by lia.
      pose proof (tr_level _ _ _ _ _ Ht k Hk) as Hlk.
      assert ((own j).1 < 4) as Hj4 by (rewrite Heq; cbn [fst]; lia).
      destruct (tr_parent _ _ _ _ _ Ht j ltac:(lia) Hj4) as (p & Hp1 & Hp2).
      rewrite Heq in Hp2. cbn [fst snd] in Hp2.
      apply (new_table_fresh p Hp1). rewrite own'_new, Hp2. f_equal; [lia|].
      rewrite Z.div_add_l by lia. rewrite (Z.div_small i' 512) by lia. lia.
  - rewrite (own'_old k') in * by lia. destruct (decide (j = N)) as [->|Hne].
    + rewrite own'_new in Heq. injection Heq as E1 E2. apply Hd.
      assert (k = k') as <-; [|f_equal; lia].
      apply (tr_inj _ _ _ _ _ Ht); [lia|lia|].
      destruct (own k), (own k'); cbn [fst snd] in *. f_equal; lia.
    + rewrite own'_old in Heq by lia.
      by apply (tr_absent _ _ _ _ _ Ht k' i' j ltac:(lia) Hl' Hi' Hp ltac:(lia)).
Qed.

Lemma new_table_tree : tree m' P (userspace_addr c0) (N + 1) own'.
Proof.
  destruct Hinv as [_ _ Ht]. fold P in Ht. pose proof Ht as [Hc Hr Hl Hin Hpa _ _].
  constructor.
  - lia.
  - rewrite own'_old by lia. done.
  - intros x Hx. destruct (decide (x = N)) as [->|].
    + rewrite own'_new. cbn [fst]. specialize (Hl k Hk). lia.
    + rewrite own'_old by lia. apply Hl. lia.
  - intros x y Hx Hy Hxy.
    destruct (decide (x = N)) as [->|], (decide (y = N)) as [->|]; [done|..].
    + rewrite (own'_old y) in Hxy by lia. by destruct (new_table_fresh y ltac:(lia)).
    + rewrite (own'_old x) in Hxy by lia. by destruct (new_table_fresh x ltac:(lia)).
    + rewrite !own'_old in Hxy by lia. apply Hin; [lia..|done].
  - intros x Hx Hlx. destruct (decide (x = N)) as [->|].
    + exists k. rewrite own'_new, own'_old by lia. split; [lia|]. cbn [fst snd].
      rewrite Z.div_add_l by lia. rewrite (Z.div_small i 512) by lia.
      destruct (own k). cbn [fst snd]. f_equal; lia.
    + rewrite own'_old in * by lia. destruct (Hpa x ltac:(lia) Hlx) as (j & Hj & Ho).
      exists j. rewrite own'_old by lia. split; [lia|done].
  - apply new_table_present.
  - apply new_table_absent.
Qed.

Lemma new_table_step :
  pt_step c0 N own s (N + 1) own'
    (mkPst m' (p_tlb s) (p_os s) (with_next_free (p_pager s) (P + 4096 * (N + 1)))).
Proof.
  constructor; cbn [p_mem p_tlb p_os p_pager]; try done; fold P.
  - destruct Hinv as [Hge Hnx _]. constructor; [|done|apply new_table_tree].
    destruct Hge. by constructor.
  - lia.
  - intros x Hx. apply own'_old. lia.
  - intros x y Hx Hlx Hy. rewrite new_table_load by lia.
    case_decide as Hd; [injection Hd as <- <-; lia|]. case_decide; [lia|done].
  - intros x y Hx Hlx Hy Hp. rewrite new_table_load by lia.
    case_decide as Hd; [injection Hd as <- <-; congruence|]. case_decide; [lia|done].
  - intros x y H0 Hx Hlx Hy. rewrite new_table_load by lia.
    case_decide as Hd; [injection Hd as <- <-; lia|]. case_decide; [done|lia].
  - intros x Hx. unfold m'. unfold ELKVM_SYSTEM_MEMSIZE in Hx. rewrite store64_other.
    + unfold memset, HOST_PAGESIZE. range_case.
    + unfold tbl_ent. lia.
Qed.
End NewTable.
End Tree.
