(* ===== verification/PagerWalk.v ===== *)
(** * The walks of the pager and the translation they maintain

    [mmu] is the specification of address translation: the page walk the
    processor performs, from the x86-64 manual and not from the pager.  The
    lemmas relate the walks and updates of [Pager] to it. *)

From S2P Require Import Prelude Memory PageMath HostOS Tlb Pager PagerTree.
Local Open Scope Z_scope.

(** ** The processor's walk *)

(** The leaf entry of a virtual address, which holds the frame, and whether the
    page can be written and executed: every level has to allow both.  [B] is the host
    address of guest-physical 0 and [tbl] the guest-physical address of a
    table of level [n + 1]. *)
Fixpoint mmu_walk (n : nat) (m : mem) (B tbl v : Z) (w x : bool) : option (Z * bool * bool) :=
  let e := load64 m (B + tbl + 8 * idx (Z.of_nat n + 1) v) in
  if negb (Z.testbit e 0) then None else
  let w := w && Z.testbit e 1 in
  let x := x && negb (Z.testbit e 63) in
  match n with
  | O => Some (e, w, x)
  | S n' => mmu_walk n' m B (Z.land e ADDR_MASK) v w x
  end.

Definition mmu (m : mem) (B cr3 v : Z) : option (Z * bool * bool) :=
  mmu_walk 3 m B cr3 v true true.

Definition mmu_leaf (m : mem) (B cr3 v : Z) : option Z := fst ∘ fst <$> mmu m B cr3 v.

(** The leaf entry bounds the permissions. *)
Lemma mmu_walk_bits n m B tbl v w x e w' x' :
  mmu_walk n m B tbl v w x = Some (e, w', x') ->
  (w' = true -> Z.testbit e 1 = true) /\ (x' = true -> Z.testbit e 63 = false).
Proof.
  revert tbl w x. induction n as [|n IH]; intros tbl w x; cbn [mmu_walk];
    (destruct (negb _); [done|]); [|apply IH].
  intros [= <- <- <-]. rewrite !andb_true_iff, negb_true_iff. tauto.
Qed.

(** The translation of one state grants what another grants. *)
Definition le_perm (a b : option (Z * bool * bool)) : Prop :=
  match a, b with
  | None, None => True
  | Some (f, w, x), Some (f', w', x') =>
      f = f' /\ (w = true -> w' = true) /\ (x = true -> x' = true)
  | _, _ => False
  end.

Lemma le_perm_leaf a b :
  le_perm a b -> (fst ∘ fst <$> a : option Z) = fst ∘ fst <$> b.
Proof. destruct a as [[[??]?]|], b as [[[??]?]|]; simpl; naive_solver. Qed.

#[export] Instance le_perm_preorder : PreOrder le_perm.
Proof.
  split; [intros [[[??]?]|]; simpl; naive_solver|].
  intros [[[??]?]|] [[[??]?]|] [[[??]?]|]; simpl; naive_solver.
Qed.

(** ** Tables on the path of an address *)

Section Path.
Context (m : mem) (P B N : Z) (own : Z -> Z * Z) (Ht : tree m P B N own).

(** Table [k] is the table of level [l] on the path of [v]. *)
Definition on_path (l k v : Z) : Prop := 0 <= k < N /\ own k = (l, pre l v).

Lemma on_path_root v : on_path 4 0 v.
Proof.
  split; [pose proof (tr_count _ _ _ _ _ Ht); lia|].
  rewrite pre_top. apply (tr_root _ _ _ _ _ Ht).
Qed.

Lemma on_path_inj l j k v : on_path l j v -> on_path l k v -> j = k.
Proof. intros [Hj Ej] [Hk Ek]. apply (tr_inj _ _ _ _ _ Ht); [done..|congruence]. Qed.

Lemma on_path_down l k v :
  2 <= l <= 4 -> on_path l k v -> present (load64 m (tbl_ent P k (idx l v))) = true ->
  exists j, on_path (l - 1) j v /\
            Z.land (load64 m (tbl_ent P k (idx l v))) ADDR_MASK = P - B + 4096 * j.
Proof.
  intros Hl [Hk Ek] Hp. pose proof (idx_range l v).
  destruct (tr_present _ _ _ _ _ Ht k (idx l v)) as (j & Hj & Ej & Ef);
    [done|rewrite Ek; cbn [fst]; lia|done|done|].
  exists j. split; [|done]. split; [done|].
  rewrite Ej, Ek. cbn [fst snd]. rewrite pre_step by lia. done.
Qed.

Lemma on_path_stop l k v :
  2 <= l <= 4 -> on_path l k v -> present (load64 m (tbl_ent P k (idx l v))) = false ->
  forall j, ~ on_path (l - 1) j v.
Proof.
  intros Hl [Hk Ek] Hp j [Hj Ej]. pose proof (idx_range l v).
  apply (tr_absent _ _ _ _ _ Ht k (idx l v) j); try done; rewrite Ek; cbn [fst snd]; [lia|].
  rewrite Ej, pre_step by lia. done.
Qed.

Lemma on_path_up l j v : 1 <= l <= 3 -> on_path l j v -> exists k, on_path (l + 1) k v.
Proof.
  intros Hl [Hj Ej].
  destruct (tr_parent _ _ _ _ _ Ht j) as (k & Hk & Ek); [done|rewrite Ej; cbn [fst]; lia|].
  exists k. split; [done|]. rewrite Ek, Ej. cbn [fst snd]. f_equal.
  replace l with (l + 1 - 1) at 1 by lia. rewrite pre_step by lia.
  pose proof (idx_range (l + 1) v). rewrite Z.div_add_l by lia.
  rewrite (Z.div_small (idx _ _)) by lia. lia.
Qed.

Lemma on_path_leaf_up l j v :
  1 <= l <= 4 -> on_path 1 j v -> exists k, on_path l k v.
Proof.
  intros Hl H1. assert (l = 1 \/ l = 2 \/ l = 3 \/ l = 4) as Hc by lia.
  destruct (on_path_up 1 j v ltac:(lia) H1) as [k2 H2].
  destruct (on_path_up 2 k2 v ltac:(lia) H2) as [k3 H3].
  destruct (on_path_up 3 k3 v ltac:(lia) H3) as [k4 H4].
  destruct Hc as [->|[->|[->| ->]]]; eauto.
Qed.

(** The processor's walk from a table on the path. *)
Lemma mmu_walk_tbl n k v w x :
  mmu_walk n m B (P - B + 4096 * k) v w x =
  let e := load64 m (tbl_ent P k (idx (Z.of_nat n + 1) v)) in
  if negb (present e) then None else
  match n with
  | O => Some (e, w && Z.testbit e 1, x && negb (Z.testbit e 63))
  | S n' => mmu_walk n' m B (Z.land e ADDR_MASK) v (w && Z.testbit e 1)
                     (x && negb (Z.testbit e 63))
  end.
Proof.
  replace (tbl_ent P k (idx (Z.of_nat n + 1) v))
    with (B + (P - B + 4096 * k) + 8 * idx (Z.of_nat n + 1) v) by (unfold tbl_ent; lia).
  by destruct n.
Qed.

(** Translation succeeds exactly when the path reaches a present leaf. *)
Lemma mmu_walk_leaf n k v w x f :
  (n <= 3)%nat -> on_path (Z.of_nat n + 1) k v ->
  fst ∘ fst <$> mmu_walk n m B (P - B + 4096 * k) v w x = Some f <->
  exists j, on_path 1 j v /\ present (load64 m (tbl_ent P j (idx 1 v))) = true /\
            load64 m (tbl_ent P j (idx 1 v)) = f.
Proof.
  revert k w x. induction n as [|n IH]; intros k w x Hn Hk; rewrite mmu_walk_tbl; cbv zeta.
  - change (Z.of_nat 0 + 1) with 1 in *. split.
    + destruct (present _) eqn:Hp; [|done]. intros [= E]. eauto.
    + intros (j & Hj & Hp & E). rewrite (on_path_inj 1 k j v Hk Hj), Hp. simpl. by f_equal.
  - replace (Z.of_nat (S n) + 1) with (Z.of_nat n + 2) in * by lia.
    destruct (present _) eqn:Hp; cbn [negb].
    + destruct (on_path_down (Z.of_nat n + 2) k v ltac:(lia) Hk Hp) as (j & Hj & ->).
      replace (Z.of_nat n + 2 - 1) with (Z.of_nat n + 1) in Hj by lia. apply IH; [lia|done].
    + split; [done|]. intros (j & Hj & _). exfalso.
      destruct (on_path_leaf_up (Z.of_nat n + 1) j v ltac:(lia) Hj) as [q Hq].
      apply (on_path_stop (Z.of_nat n + 2) k v ltac:(lia) Hk Hp q).
      by replace (Z.of_nat n + 2 - 1) with (Z.of_nat n + 1) by lia.
Qed.

Lemma mmu_leaf_iff v e :
  mmu_leaf m B (P - B) v = Some e <->
  exists j, on_path 1 j v /\ present (load64 m (tbl_ent P j (idx 1 v))) = true /\
            load64 m (tbl_ent P j (idx 1 v)) = e.
Proof.
  unfold mmu_leaf, mmu. replace (P - B) with (P - B + 4096 * 0) by lia.
  apply mmu_walk_leaf; [lia|]. apply on_path_root.
Qed.
End Path.

(** ** What the updates do to the translation *)

Section Updates.
Context {os T : Type}.
Implicit Types s : pst os T.

(** The translation of a state whose first chunk is [c0]. *)
Definition trans (c0 : Chunk) s : Z -> option (Z * bool * bool) :=
  mmu (p_mem s) (userspace_addr c0) (host_pml4_p (p_pager s) - userspace_addr c0).

Definition leaf_of (c0 : Chunk) s : Z -> option Z :=
  mmu_leaf (p_mem s) (userspace_addr c0) (host_pml4_p (p_pager s) - userspace_addr c0).

(** The guest-physical frame of an address. *)
Definition frame_of (c0 : Chunk) s (v : Z) : option Z :=
  (fun e => Z.land e ADDR_MASK) <$> leaf_of c0 s v.

Lemma pt_step_pml4 c0 N own s N' own' s' :
  pt_step c0 N own s N' own' s' -> host_pml4_p (p_pager s') = host_pml4_p (p_pager s).
Proof. intros H. by rewrite (ps_pager _ _ _ _ _ _ _ H). Qed.

Lemma pt_step_path c0 N own s N' own' s' l k v :
  pt_step c0 N own s N' own' s' -> on_path N own l k v -> on_path N' own' l k v.
Proof.
  intros H [Hk Ek]. pose proof (ps_count _ _ _ _ _ _ _ H).
  split; [lia|]. by rewrite (ps_own _ _ _ _ _ _ _ H).
Qed.

Lemma pt_step_walk c0 N own s N' own' s' n k v w x w' x' :
  pager_inv s c0 N own -> pt_step c0 N own s N' own' s' ->
  (n <= 3)%nat -> on_path N own (Z.of_nat n + 1) k v ->
  (w = true -> w' = true) -> (x = true -> x' = true) ->
  let P := host_pml4_p (p_pager s) in let B := userspace_addr c0 in
  le_perm (mmu_walk n (p_mem s) B (P - B + 4096 * k) v w x)
          (mmu_walk n (p_mem s') B (P - B + 4096 * k) v w' x').
Proof.
  intros Hinv Hst Hn Hk Hw Hx P B. destruct Hinv as [_ _ Ht]. fold P B in Ht.
  pose proof (pi_tree _ _ _ _ (ps_inv _ _ _ _ _ _ _ Hst)) as Ht'.
  rewrite (pt_step_pml4 _ _ _ _ _ _ _ Hst) in Ht'. fold P B in Ht'.
  revert k w x w' x' Hk Hw Hx. induction n as [|n IH]; intros k w x w' x' Hk Hw Hx.
  - rewrite !mmu_walk_tbl. cbv zeta. change (Z.of_nat 0 + 1) with 1 in *.
    destruct Hk as [Hk Ek]. pose proof (idx_range 1 v).
    pose proof (ps_leaf _ _ _ _ _ _ _ Hst k (idx 1 v) Hk ltac:(by rewrite Ek) ltac:(done)) as E.
    fold P in E. rewrite E. destruct (present _); simpl; [|done].
    rewrite !andb_true_iff. naive_solver.
  - destruct (present (load64 (p_mem s) (tbl_ent P k (idx (Z.of_nat (S n) + 1) v)))) eqn:Hp.
    + rewrite !mmu_walk_tbl. cbv zeta. rewrite Hp. cbn [negb].
      destruct (on_path_down _ _ _ _ _ Ht (Z.of_nat (S n) + 1) k v ltac:(lia) Hk Hp) as (j & Hj & Ef).
      assert (1 < (own k).1) as Hl by (rewrite (proj2 Hk); cbn [fst]; lia).
      destruct (ps_inner _ _ _ _ _ _ _ Hst k _ (proj1 Hk) Hl
                  (idx_range (Z.of_nat (S n) + 1) v) Hp) as (G1 & G2 & G3 & G4).
      fold P in G1, G2, G3, G4. rewrite G1, Hp, G2. cbn [negb]. rewrite Ef. apply IH; [lia|..].
      * by replace (Z.of_nat (S n) + 1 - 1) with (Z.of_nat n + 1) in Hj by lia.
      * rewrite !andb_true_iff. naive_solver.
      * rewrite !andb_true_iff, !negb_true_iff, <- !not_true_iff_false. naive_solver.
    + rewrite mmu_walk_tbl. cbv zeta. rewrite Hp. cbn [negb].
      pose proof (pt_step_path _ _ _ _ _ _ _ _ _ _ Hst Hk) as Hk'.
      destruct (mmu_walk (S n) (p_mem s') B (P - B + 4096 * k) v w' x') as [[[f ?] ?]|] eqn:E;
        [|done].
      assert (fst ∘ fst <$> mmu_walk (S n) (p_mem s') B (P - B + 4096 * k) v w' x' = Some f)
        as E' by (by rewrite E).
      apply (mmu_walk_leaf _ _ _ _ _ Ht' (S n) k v w' x' f Hn Hk') in E'.
      destruct E' as (j & [Hj Ej] & Hpj & _). destruct (decide (j < N)) as [Hlt|Hge].
      * rewrite (ps_own _ _ _ _ _ _ _ Hst) in Ej by lia.
        destruct (on_path_leaf_up _ _ _ _ _ Ht (Z.of_nat n + 1) j v ltac:(lia)
                    ltac:(split; [lia|done])) as [q Hq].
        apply (on_path_stop _ _ _ _ _ Ht (Z.of_nat (S n) + 1) k v ltac:(lia) Hk Hp q).
        by replace (Z.of_nat (S n) + 1 - 1) with (Z.of_nat n + 1) by lia.
      * pose proof (ps_new _ _ _ _ _ _ _ Hst j (idx 1 v) ltac:(lia) ltac:(lia)
                      ltac:(by rewrite Ej) (idx_range 1 v)) as F. fold P in F. congruence.
Qed.

(** Adding tables and widening inner entries moves no page and takes no
    permission away. *)
Lemma pt_step_trans_le c0 N own s N' own' s' v :
  pager_inv s c0 N own -> pt_step c0 N own s N' own' s' ->
  le_perm (trans c0 s v) (trans c0 s' v).
Proof.
  intros Hinv Hst. unfold trans, mmu. rewrite (pt_step_pml4 _ _ _ _ _ _ _ Hst).
  replace (host_pml4_p (p_pager s) - userspace_addr c0)
    with (host_pml4_p (p_pager s) - userspace_addr c0 + 4096 * 0) by lia.
  eapply pt_step_walk; [done|done|lia| |done|done].
  apply (on_path_root _ _ _ _ _ (pi_tree _ _ _ _ Hinv)).
Qed.

Lemma pt_step_leaf_of c0 N own s N' own' s' v :
  pager_inv s c0 N own -> pt_step c0 N own s N' own' s' ->
  leaf_of c0 s' v = leaf_of c0 s v.
Proof.
  intros Hinv Hst. symmetry. apply le_perm_leaf. by eapply pt_step_trans_le.
Qed.

(** *** Storing a leaf entry *)

Section Leaf.
Context (s : pst os T) (c0 : Chunk) (N : Z) (own : Z -> Z * Z) (k v0 e : Z).
Let P := host_pml4_p (p_pager s).
Let B := userspace_addr c0.
Let s' := mkPst (store64 (p_mem s) (tbl_ent P k (idx 1 v0)) e) (p_tlb s) (p_os s) (p_pager s).
Hypothesis Hinv : pager_inv s c0 N own.
Hypothesis Hk : on_path N own 1 k v0.
Hypothesis He : is_u64 e.

Lemma leaf_load k' i' :
  0 <= i' < 512 ->
  load64 (p_mem s') (tbl_ent P k' i') =
  if decide ((k, idx 1 v0) = (k', i')) then e else load64 (p_mem s) (tbl_ent P k' i').
Proof.
  intros Hi'. cbn [s' p_mem]. pose proof (idx_range 1 v0). case_decide as Hd.
  - injection Hd as <- <-. rewrite load64_store64_same. by apply u64_small.
  - apply load64_store64_other. destruct (tbl_ent_disjoint P k (idx 1 v0) k' i'); auto.
Qed.

Lemma leaf_load_inner k' i' :
  0 <= i' < 512 -> 1 < (own k').1 ->
  load64 (p_mem s') (tbl_ent P k' i') = load64 (p_mem s) (tbl_ent P k' i').
Proof.
  intros Hi' Hl. rewrite leaf_load by done. case_decide as Hd; [|done].
  injection Hd as <- <-. rewrite (proj2 Hk) in Hl. cbn [fst] in Hl. lia.
Qed.

Lemma leaf_inv : pager_inv s' c0 N own.
Proof.
  destruct Hinv as [Hge Hnx [Hc Hr Hl Hin Hpa Hpr Hab]]. fold P in Hnx, Hpr, Hab.
  constructor; [done|done|]. constructor; try done; cbn [p_pager s']; fold P.
  - intros k' i' Hk' Hl' Hi'. rewrite leaf_load_inner by done. by apply Hpr.
  - intros k' i' j Hk' Hl' Hi'. rewrite leaf_load_inner by done. by apply Hab.
Qed.

Lemma leaf_walk n k' v w x :
  (n <= 3)%nat -> on_path N own (Z.of_nat n + 1) k' v -> vpn v <> vpn v0 ->
  mmu_walk n (p_mem s') B (P - B + 4096 * k') v w x =
  mmu_walk n (p_mem s) B (P - B + 4096 * k') v w x.
Proof.
  destruct Hinv as [_ _ Ht]. fold P B in Ht.
  revert k' w x. induction n as [|n IH]; intros k' w x Hn Hk' Hv; rewrite !mmu_walk_tbl; cbv zeta.
  - change (Z.of_nat 0 + 1) with 1 in *. rewrite leaf_load by apply idx_range.
    case_decide as Hd; [|done]. injection Hd as <- Hd. destruct Hv.
    rewrite !vpn_pre_idx, Hd. f_equal. destruct Hk as [_ E], Hk' as [_ E'].
    rewrite E in E'. injection E' as ->. done.
  - rewrite leaf_load_inner by (apply idx_range || (rewrite (proj2 Hk'); cbn [fst]; lia)).
    destruct (present _) eqn:Hp; [|done]. cbn [negb].
    destruct (on_path_down _ _ _ _ _ Ht (Z.of_nat (S n) + 1) k' v ltac:(lia) Hk' Hp) as (j & Hj & ->).
    apply IH; [lia| |done].
    by replace (Z.of_nat (S n) + 1 - 1) with (Z.of_nat n + 1) in Hj by lia.
Qed.

(** Only the page of [v0] is affected. *)
Lemma leaf_trans_other v : vpn v <> vpn v0 -> trans c0 s' v = trans c0 s v.
Proof.
  intros Hv. unfold trans, mmu. cbn [p_pager s']. fold P B.
  replace (P - B) with (P - B + 4096 * 0) by lia. apply leaf_walk; [lia| |done].
  apply (on_path_root _ _ _ _ _ (pi_tree _ _ _ _ Hinv)).
Qed.

Lemma same_vpn_leaf v : vpn v = vpn v0 -> on_path N own 1 k v /\ idx 1 v = idx 1 v0.
Proof.
  intros Hv. rewrite !vpn_pre_idx in Hv.
  pose proof (idx_range 1 v). pose proof (idx_range 1 v0).
  assert (pre 1 v = pre 1 v0 /\ idx 1 v = idx 1 v0) as [E1 E2] by lia.
  split; [|done]. unfold on_path. rewrite E1. done.
Qed.

Lemma leaf_of_same v :
  vpn v = vpn v0 -> leaf_of c0 s' v = if present e then Some e else None.
Proof.
  intros Hv. pose proof leaf_inv as [_ _ Ht']. cbn [p_pager s'] in Ht'. fold P B in Ht'.
  destruct (same_vpn_leaf v Hv) as [Hk' Hi]. apply option_eq. intros f.
  unfold leaf_of. cbn [p_pager s']. fold P B. rewrite (mmu_leaf_iff _ _ _ _ _ Ht').
  assert (load64 (p_mem s') (tbl_ent P k (idx 1 v)) = e) as El.
  { rewrite leaf_load by apply idx_range. rewrite Hi. by rewrite decide_True. }
  split.
  - intros (j & Hj & Hp & Ef). rewrite (on_path_inj _ _ _ _ _ Ht' 1 j k v Hj Hk') in *.
    rewrite El in *. rewrite Hp. by f_equal.
  - destruct (present e) eqn:Hp; [|done]. intros [= <-]. exists k. by rewrite El.
Qed.
End Leaf.
End Updates.
