(* ===== verification/PagerSpec.v ===== *)
(** * The pager: correctness

    What the operations of [Pager] do to the translation of [PagerWalk]:
    [map_user_page], [map_region], [map_kernel_page], [free_page],
    [unmap_region] and [get_host_p], and where the lookaside buffer breaks the
    contract. *)

From S2P Require Import Prelude Memory PageMath HostOS Tlb Pager PagerTree PagerWalk.
Local Open Scope Z_scope.

Section Spec.
Context {os T : Type} `{HostOS os} `{TranslationCache T}.
Implicit Types s : pst os T.

Lemma entry_exists_spec F a s (Q : bool -> pst os T -> Prop) :
  Q (present (load64 (p_mem s) a)) s -> wp F (entry_exists a) Q s.
Proof. intros HQ. unfold entry_exists, load. wp_go. by rewrite present_eq. Qed.

(** *** Inner entries *)

(** A state reached by [update_entry] and what it guarantees of the entry. *)
Definition entry_for (opts e : Z) : Prop :=
  present e = true /\
  (ctrue (Z.land opts PT_OPT_WRITE) = true -> Z.testbit e 1 = true) /\
  (ctrue (Z.land opts PT_OPT_EXEC) = true -> Z.testbit e 63 = false).

Lemma create_table_spec s c0 N own k i opts :
  pager_inv s c0 N own -> N < 4096 -> 0 <= k < N -> 1 < (own k).1 -> 0 <= i < 512 ->
  present (load64 (p_mem s) (tbl_ent (host_pml4_p (p_pager s)) k i)) = false ->
  wp no_fault (create_table (tbl_ent (host_pml4_p (p_pager s)) k i) opts)
    (fun r s' => r = 0 /\ exists own', pt_step c0 N own s (N + 1) own' s' /\
       present (load64 (p_mem s') (tbl_ent (host_pml4_p (p_pager s)) k i)) = true) s.
Proof.
  intros Hinv Hroom Hk Hlv Hi Hfree. set (P := host_pml4_p (p_pager s)) in *.
  pose proof Hinv as [Hge Hnx Ht]. fold P in Hnx.
  pose proof (tr_count _ _ _ _ _ Ht).
  assert (host_to_guest_physical (chunks (p_pager s)) (P + 4096 * N)
          = P - userspace_addr c0 + 4096 * N) as Hg by (apply h2gp_table; [done|lia]).
  pose proof Hge as [_ _ Hb _ Htop Hpp Hpm Ha]. fold P in Hpp, Hpm, Ha.
  unfold ELKVM_SYSTEM_MEMSIZE in Ha.
  set (g := P - userspace_addr c0 + 4096 * N) in *.
  assert (0 < g < 2 ^ 52) as Hgr by lia.
  assert (page_begin g = g) as Hpg.
  { rewrite page_begin_eq by (unfold is_u64; lia).
    pose proof (ge_base_page _ _ Hge). subst g. Z.div_mod_to_equations. lia. }
  unfold create_table. wp_go.
  2: { exfalso. rewrite Hnx, Hg in *. rewrite negb_false_iff, Z.eqb_eq in *. lia. }
  unfold upd_mem, upd_pager, create_entry, store, upd_mem. wp_go. split; [done|].
  cbn [p_mem p_tlb p_os p_pager host_next_free_tbl_p]. rewrite Hnx, Hg.
  eexists. split.
  - pose proof (new_table_step s c0 N own k i (entry_value g opts)) as Hs.
    cbv zeta in Hs. fold P in Hs.
    replace (P + 4096 * N + HOST_PAGESIZE) with (P + 4096 * (N + 1))
      by (unfold HOST_PAGESIZE; lia).
    apply Hs; try done.
    + apply entry_value_u64. unfold is_u64. lia.
    + apply entry_value_present.
    + rewrite entry_value_frame by lia. done.
  - rewrite load64_store64_same, u64_small; [apply entry_value_present|].
    apply entry_value_u64. unfold is_u64. lia.
Qed.

Lemma set_writeable_grants e : grants_more e (Z.lor e PT_BIT_WRITEABLE).
Proof.
  split; [apply set_writeable_present|]. split; [apply set_writeable_frame|].
  rewrite !Z.lor_spec. split; [by intros ->|]. rewrite orb_true_iff. naive_solver.
Qed.

Lemma clear_nxe_grants e : grants_more e (Z.land e (u64 (Z.lnot PT_BIT_NXE))).
Proof.
  split; [apply clear_nxe_present|]. split; [apply clear_nxe_frame|].
  rewrite !Z.land_spec. split; [by intros ->|]. rewrite andb_true_iff. naive_solver.
Qed.

(** The two permission updates at the end of [update_entry]. *)
Lemma widen_spec s c0 N own k i (b : bool) (f : Z -> Z) :
  pager_inv s c0 N own -> 0 <= k < N -> 1 < (own k).1 -> 0 <= i < 512 ->
  (forall e, is_u64 e -> is_u64 (f e)) -> (forall e, grants_more e (f e)) ->
  let a := tbl_ent (host_pml4_p (p_pager s)) k i in
  wp no_fault (if b then let! v := load a in store a (f v) else ret tt)
    (fun _ s' => pt_step c0 N own s N own s' /\
       load64 (p_mem s') a = if b then f (load64 (p_mem s) a) else load64 (p_mem s) a) s.
Proof.
  intros Hinv Hk Hl Hi Hf Hg a. unfold load, store, upd_mem. destruct b; wp_go.
  - split.
    + apply set_entry_step; try done. apply Hf, load64_range.
    + cbn [p_mem]. rewrite load64_store64_same. apply u64_small, Hf, load64_range.
  - split; [by apply pt_step_refl|done].
Qed.

Lemma update_entry_spec s c0 N own k i opts :
  pager_inv s c0 N own -> N < 4096 -> 0 <= k < N -> 1 < (own k).1 -> 0 <= i < 512 ->
  wp no_fault (update_entry (tbl_ent (host_pml4_p (p_pager s)) k i) opts)
    (fun r s' => r = 0 /\ exists N' own', N' <= N + 1 /\ pt_step c0 N own s N' own' s' /\
       (present (load64 (p_mem s) (tbl_ent (host_pml4_p (p_pager s)) k i)) = true -> N' = N) /\
       entry_for opts (load64 (p_mem s') (tbl_ent (host_pml4_p (p_pager s)) k i))) s.
Proof.
  intros Hinv Hroom Hk Hlv Hi. set (a := tbl_ent (host_pml4_p (p_pager s)) k i).
  unfold update_entry. apply wp_bind, entry_exists_spec, wp_bind.
  eapply (wp_mono _ _ (fun r s' => r = 0 /\ exists N' own', N' <= N + 1 /\
            pt_step c0 N own s N' own' s' /\
            (present (load64 (p_mem s) a) = true -> N' = N) /\
            present (load64 (p_mem s') a) = true)).
  { destruct (present (load64 (p_mem s) a)) eqn:Hp; cbn [negb].
    - apply wp_ret. split; [done|]. exists N, own.
      split; [lia|]. split; [by apply pt_step_refl|]. by rewrite Hp.
    - eapply wp_mono; [by eapply create_table_spec|].
      intros r s' (-> & own' & Hs & Hp'). split; [done|]. exists (N + 1), own'. by split; [lia|]. }
  intros r s1 (-> & N1 & own1 & HN1 & Hs1 & Hsame & Hp1). change (ctrue 0) with false. cbv iota.
  pose proof (ps_inv _ _ _ _ _ _ _ Hs1) as Hinv1. pose proof (ps_count _ _ _ _ _ _ _ Hs1).
  assert (1 < (own1 k).1) as Hlv1 by (by rewrite (ps_own _ _ _ _ _ _ _ Hs1)).
  assert (a = tbl_ent (host_pml4_p (p_pager s1)) k i) as Ea1
    by (by rewrite (pt_step_pml4 _ _ _ _ _ _ _ Hs1)).
  apply wp_bind. rewrite Ea1 in Hp1 |- *. eapply wp_mono.
  { eapply (widen_spec s1 c0 N1 own1 k i _ (fun v => Z.lor v PT_BIT_WRITEABLE)); try done; [lia| |].
    - intros e He. apply lor_u64; [done|]. unfold is_u64. by vm_compute.
    - apply set_writeable_grants. }
  cbv beta. intros _ s2 [Hs2 E2]. rewrite <- Ea1 in *.
  assert (a = tbl_ent (host_pml4_p (p_pager s2)) k i) as Ea2
    by (by rewrite (pt_step_pml4 _ _ _ _ _ _ _ Hs2)).
  apply wp_bind. rewrite Ea2 in *. eapply wp_mono.
  { eapply (widen_spec s2 c0 N1 own1 k i _ (fun v => Z.land v (u64 (Z.lnot PT_BIT_NXE)))); try done.
    - by apply ps_inv in Hs2.
    - lia.
    - intros e He. by apply land_u64.
    - apply clear_nxe_grants. }
  cbv beta. intros _ s3 [Hs3 E3]. rewrite <- Ea2 in *. apply wp_ret. split; [done|].
  exists N1, own1. split; [lia|]. split; [by do 2 (eapply pt_step_trans; [done|])|].
  split; [done|]. rewrite E3, E2. split; [|split].
  - destruct (ctrue (Z.land opts PT_OPT_WRITE)), (ctrue (Z.land opts PT_OPT_EXEC));
      rewrite ?clear_nxe_present, ?set_writeable_present; done.
  - intros ->. destruct (ctrue (Z.land opts PT_OPT_EXEC)); rewrite ?Z.land_spec, Z.lor_spec;
      simpl; rewrite orb_true_r; done.
  - intros ->. rewrite Z.land_spec. apply andb_false_r.
Qed.

Lemma find_next_table_spec F s c0 N own k i j :
  pager_inv s c0 N own -> 0 <= j < N ->
  let a := tbl_ent (host_pml4_p (p_pager s)) k i in
  present (load64 (p_mem s) a) = true ->
  Z.land (load64 (p_mem s) a) ADDR_MASK
    = host_pml4_p (p_pager s) - userspace_addr c0 + 4096 * j ->
  wp F (find_next_table a)
    (fun r s' => s' = s /\ r = host_pml4_p (p_pager s) + 4096 * j) s.
Proof.
  intros Hinv Hj a Hp Hf. unfold find_next_table. apply wp_bind, entry_exists_spec.
  rewrite Hp. cbn [negb]. unfold load. wp_go.
  - split; [done|]. destruct Hinv as [[G1 _ G2 _ G3 _ G4 G5] _ Ht].
    pose proof (tr_count _ _ _ _ _ Ht). rewrite G1 in *. simplify_eq.
    rewrite Hf. unfold ELKVM_SYSTEM_MEMSIZE in G5. rewrite u64_small; lia.
  - exfalso. destruct Hinv as [[G1 _ _ _ _ _ _ _] _ _]. congruence.
Qed.

(** *** The walks *)

Lemma find_entry_tbl P k n v :
  (n <= 3)%nat -> 0 <= v ->
  find_table_entry (P + 4096 * k) v (12 + 9 * Z.of_nat n) (20 + 9 * Z.of_nat n)
  = tbl_ent P k (idx (Z.of_nat n + 1) v).
Proof.
  intros Hn Hv. unfold find_table_entry, tbl_ent.
  replace (12 + 9 * Z.of_nat n) with (3 + 9 * (Z.of_nat n + 1)) by lia.
  replace (20 + 9 * Z.of_nat n) with (11 + 9 * (Z.of_nat n + 1)) by lia.
  rewrite idx_offset by lia. done.
Qed.

Lemma find_entry_leaf P k v :
  0 <= v -> find_table_entry (P + 4096 * k) v 12 20 = tbl_ent P k (idx 1 v).
Proof. intros Hv. apply (find_entry_tbl P k 0 v); [lia|done]. Qed.

Lemma walk_levels_spec F n s c0 N own k v :
  pager_inv s c0 N own -> 0 <= v -> (n <= 3)%nat -> on_path N own (Z.of_nat n + 1) k v ->
  wp F (walk_levels n v (host_pml4_p (p_pager s) + 4096 * k)
                    (12 + 9 * Z.of_nat n) (20 + 9 * Z.of_nat n))
    (fun r s' => s' = s /\
       match r with
       | Some (tbl, low, high) =>
           low = 12 /\ high = 20 /\
           exists j, on_path N own 1 j v /\ tbl = host_pml4_p (p_pager s) + 4096 * j
       | None => forall j, ~ on_path N own 1 j v
       end) s.
Proof.
  intros Hinv Hv. revert k. pose proof (pi_tree _ _ _ _ Hinv) as Ht.
  induction n as [|n IH]; intros k Hn Hk; cbn [walk_levels].
  - apply wp_ret. split; [done|]. do 2 (split; [lia|]). by exists k.
  - rewrite find_entry_tbl by done. apply wp_bind, entry_exists_spec.
    destruct (present _) eqn:Hp; cbn [negb].
    + destruct (on_path_down _ _ _ _ _ Ht (Z.of_nat (S n) + 1) k v ltac:(lia) Hk Hp)
        as (j & Hj & Ef).
      apply wp_bind. eapply wp_mono.
      { apply (find_next_table_spec _ s c0 N own k _ j Hinv); [apply Hj|done|done]. }
      intros r s' [-> ->].
      replace (12 + 9 * Z.of_nat (S n) - 9) with (12 + 9 * Z.of_nat n) by lia.
      replace (20 + 9 * Z.of_nat (S n) - 9) with (20 + 9 * Z.of_nat n) by lia.
      apply IH; [lia|]. by replace (Z.of_nat n + 1) with (Z.of_nat (S n) + 1 - 1) by lia.
    + apply wp_ret. split; [done|]. intros j Hj.
      destruct (on_path_leaf_up _ _ _ _ _ Ht (Z.of_nat n + 1) j v ltac:(lia) Hj) as [q Hq].
      apply (on_path_stop _ _ _ _ _ Ht (Z.of_nat (S n) + 1) k v ltac:(lia) Hk Hp q).
      by replace (Z.of_nat (S n) + 1 - 1) with (Z.of_nat n + 1) by lia.
Qed.

Lemma pml4_pos s c0 N own : pager_inv s c0 N own -> 0 < host_pml4_p (p_pager s).
Proof. intros [[]]. lia. Qed.

Lemma tbl_ent_pos s c0 N own k i :
  pager_inv s c0 N own -> 0 <= k -> 0 <= i -> 0 < tbl_ent (host_pml4_p (p_pager s)) k i.
Proof. intros Hi. pose proof (pml4_pos _ _ _ _ Hi). unfold tbl_ent. lia. Qed.

(** [page_table_walk] finds the entry of a mapped page and nothing else. *)
Lemma page_table_walk_spec s c0 N own v :
  pager_inv s c0 N own -> 0 < v ->
  wp no_fault (page_table_walk v)
    (fun r s' => s' = s /\
       ((r = 0 /\ leaf_of c0 s v = None) \/
        (r <> 0 /\ exists j, on_path N own 1 j v /\
           r = tbl_ent (host_pml4_p (p_pager s)) j (idx 1 v) /\
           present (load64 (p_mem s) r) = true /\
           leaf_of c0 s v = Some (load64 (p_mem s) r)))) s.
Proof.
  intros Hinv Hv. pose proof (pi_tree _ _ _ _ Hinv) as Ht. pose proof (pml4_pos _ _ _ _ Hinv).
  unfold page_table_walk. do 2 wp_step; [|by rewrite negb_false_iff, Z.eqb_eq in *; lia].
  do 4 wp_step; [|by rewrite negb_false_iff, Z.eqb_eq in *; lia].
  apply wp_bind. eapply wp_mono.
  { replace (host_pml4_p (p_pager s)) with (host_pml4_p (p_pager s) + 4096 * 0) by lia.
    apply (walk_levels_spec _ 3 s c0 N own 0 v Hinv); [lia|lia|].
    apply (on_path_root _ _ _ _ _ Ht). }
  assert (forall f, leaf_of c0 s v = Some f -> exists j, on_path N own 1 j v) as Hsome.
  { intros f Ef. apply (mmu_leaf_iff _ _ _ _ _ Ht) in Ef as (j & ? & _). eauto. }
  intros [[[tbl low] high]|] s' [-> Hr].
  - destruct Hr as (-> & -> & j & Hj & ->). rewrite find_entry_leaf by lia.
    apply wp_bind, entry_exists_spec. destruct (present _) eqn:Hp; cbn [negb]; apply wp_ret;
      (split; [done|]).
    + right. pose proof (idx_range 1 v). destruct Hj as [Hj0 Hj1].
      pose proof (tbl_ent_pos s c0 N own j (idx 1 v) Hinv). split; [lia|].
      exists j. repeat (split; [done|]). apply (mmu_leaf_iff _ _ _ _ _ Ht).
      exists j. done.
    + left. split; [done|]. apply eq_None_not_Some. intros [f Ef].
      apply (mmu_leaf_iff _ _ _ _ _ Ht) in Ef as (j' & Hj' & Hp' & _).
      rewrite (on_path_inj _ _ _ _ _ Ht 1 j' j v Hj' Hj) in Hp'. congruence.
  - apply wp_ret. split; [done|]. left. split; [done|].
    apply eq_None_not_Some. intros [f Ef]. destruct (Hsome f Ef) as [j Hj]. by apply (Hr j).
Qed.

Lemma entry_for_grants opts e e' : entry_for opts e -> grants_more e e' -> entry_for opts e'.
Proof.
  intros (E1 & E2 & E3) (G1 & _ & G3 & G4). split; [congruence|]. split; [auto|].
  intros Ho. specialize (E3 Ho). destruct (Z.testbit e' 63); [|done]. by rewrite G4 in E3.
Qed.

(** Every inner entry of [v] from level [l] down allows what [opts] asks. *)
Definition wide s (N : Z) (own : Z -> Z * Z) (opts l v : Z) : Prop :=
  forall l' k, 2 <= l' <= l -> on_path N own l' k v ->
    entry_for opts (load64 (p_mem s) (tbl_ent (host_pml4_p (p_pager s)) k (idx l' v))).

(** The inner entries of an address with a page table are present. *)
Lemma on_path_entry s c0 N own n k v q :
  pager_inv s c0 N own -> (0 < n <= 3)%nat -> on_path N own (Z.of_nat n + 1) k v ->
  on_path N own 1 q v ->
  present (load64 (p_mem s) (tbl_ent (host_pml4_p (p_pager s)) k (idx (Z.of_nat n + 1) v))) = true.
Proof.
  intros [_ _ Ht] Hn Hk Hq. destruct (present _) eqn:Hp; [done|]. exfalso.
  destruct (on_path_leaf_up _ _ _ _ _ Ht (Z.of_nat n) q v ltac:(lia) Hq) as [q' Hq'].
  apply (on_path_stop _ _ _ _ _ Ht (Z.of_nat n + 1) k v ltac:(lia) Hk Hp q').
  by replace (Z.of_nat n + 1 - 1) with (Z.of_nat n) by lia.
Qed.

Lemma walk_create_levels_spec n s c0 N own k v opts :
  pager_inv s c0 N own -> 0 <= v -> (n <= 3)%nat -> on_path N own (Z.of_nat n + 1) k v ->
  N + Z.of_nat n <= 4096 ->
  wp no_fault (walk_create_levels n v opts (host_pml4_p (p_pager s) + 4096 * k)
                                  (12 + 9 * Z.of_nat n) (20 + 9 * Z.of_nat n))
    (fun r s' => exists N' own' j, N' <= N + Z.of_nat n /\ pt_step c0 N own s N' own' s' /\
       ((exists q, on_path N own 1 q v) -> N' = N) /\
       r = Some (host_pml4_p (p_pager s) + 4096 * j, 12, 20) /\
       on_path N' own' 1 j v /\ wide s' N' own' opts (Z.of_nat n + 1) v) s.
Proof.
  intros Hinv Hv. revert s N own k Hinv.
  induction n as [|n IH]; intros s N own k Hinv Hn Hk Hroom; cbn [walk_create_levels].
  - apply wp_ret. exists N, own, k. split; [lia|]. split; [by apply pt_step_refl|].
    split; [done|]. split; [f_equal; f_equal; f_equal; lia|]. split; [done|].
    intros l' k' Hl'. lia.
  - rewrite find_entry_tbl by done. apply wp_bind. eapply wp_mono.
    { apply (update_entry_spec s c0 N own k); [done|lia|apply Hk| |apply idx_range].
      rewrite (proj2 Hk). cbn [fst]. lia. }
    intros r s1 (-> & N1 & own1 & HN1 & Hs1 & Hsame & Hfor). change (ctrue 0) with false. cbv iota.
    pose proof (ps_inv _ _ _ _ _ _ _ Hs1) as Hinv1.
    pose proof (pt_step_path _ _ _ _ _ _ _ _ _ _ Hs1 Hk) as Hk1.
    pose proof (pi_tree _ _ _ _ Hinv1) as Ht1.
    rewrite <- (pt_step_pml4 _ _ _ _ _ _ _ Hs1) in *.
    destruct (on_path_down _ _ _ _ _ Ht1 (Z.of_nat (S n) + 1) k v ltac:(lia) Hk1 (proj1 Hfor))
      as (j & Hj & Ef).
    apply wp_bind. eapply wp_mono.
    { apply (find_next_table_spec _ s1 c0 N1 own1 k _ j Hinv1); [apply Hj|apply Hfor|done]. }
    intros r s' [-> ->].
    replace (12 + 9 * Z.of_nat (S n) - 9) with (12 + 9 * Z.of_nat n) by lia.
    replace (20 + 9 * Z.of_nat (S n) - 9) with (20 + 9 * Z.of_nat n) by lia.
    eapply wp_mono.
    { apply (IH s1 N1 own1 j Hinv1); [lia| |lia].
      by replace (Z.of_nat n + 1) with (Z.of_nat (S n) + 1 - 1) by lia. }
    intros r s2 (N2 & own2 & q & HN2 & Hs2 & Hsame2 & -> & Hq & Hw). exists N2, own2, q.
    split; [lia|]. split; [by eapply pt_step_trans|]. split.
    { intros [q0 Hq0]. rewrite Hsame2; [apply Hsame|].
      - rewrite (pt_step_pml4 _ _ _ _ _ _ _ Hs1).
        apply (on_path_entry s c0 N own (S n) k v q0); [done|lia|done|done].
      - exists q0. by eapply pt_step_path. }
    split; [done|]. split; [done|].
    intros l' k' Hl' Hk'. destruct (decide (l' = Z.of_nat (S n) + 1)) as [->|];
      [|apply Hw; [lia|done]].
    pose proof (pt_step_path _ _ _ _ _ _ _ _ _ _ Hs2 Hk1) as Hk2.
    pose proof (pi_tree _ _ _ _ (ps_inv _ _ _ _ _ _ _ Hs2)) as Ht2.
    rewrite (on_path_inj _ _ _ _ _ Ht2 _ _ _ _ Hk' Hk2).
    rewrite (pt_step_pml4 _ _ _ _ _ _ _ Hs2). eapply entry_for_grants; [apply Hfor|].
    apply (ps_inner _ _ _ _ _ _ _ Hs2); [apply Hk1| |apply idx_range|apply Hfor].
    rewrite (proj2 Hk1). cbn [fst]. lia.
Qed.

Lemma page_table_walk_create_spec s c0 N own v opts :
  pager_inv s c0 N own -> 0 < v -> N + 3 <= 4096 ->
  wp no_fault (page_table_walk_create v opts)
    (fun r s' => exists N' own' j, N' <= N + 3 /\ pt_step c0 N own s N' own' s' /\
       ((exists q, on_path N own 1 q v) -> N' = N) /\
       on_path N' own' 1 j v /\ wide s' N' own' opts 4 v /\
       r = tbl_ent (host_pml4_p (p_pager s)) j (idx 1 v) /\ 0 < r) s.
Proof.
  intros Hinv Hv Hroom. pose proof (pml4_pos _ _ _ _ Hinv).
  unfold page_table_walk_create. do 2 wp_step; [|by rewrite negb_false_iff, Z.eqb_eq in *; lia].
  do 4 wp_step; [|by rewrite negb_false_iff, Z.eqb_eq in *; lia].
  apply wp_bind. eapply wp_mono.
  { replace (host_pml4_p (p_pager s)) with (host_pml4_p (p_pager s) + 4096 * 0) by lia.
    apply (walk_create_levels_spec 3 s c0 N own 0 v opts Hinv); [lia|lia| |lia].
    apply (on_path_root _ _ _ _ _ (pi_tree _ _ _ _ Hinv)). }
  intros r s' (N' & own' & j & HN & Hs & Hsame & -> & Hj & Hw). apply wp_ret.
  exists N', own', j. rewrite find_entry_leaf by lia. pose proof (idx_range 1 v).
  repeat (split; [done|]). destruct Hj. apply (tbl_ent_pos _ _ _ _ _ _ Hinv); lia.
Qed.

(** *** The leaf *)

Lemma entry_value_bits g opts :
  is_u64 g ->
  Z.testbit (entry_value g opts) 1 = ctrue (Z.land opts PT_OPT_WRITE) /\
  Z.testbit (entry_value g opts) 63 = negb (ctrue (Z.land opts PT_OPT_EXEC)) || Z.testbit g 63.
Proof.
  intros Hg. unfold entry_value.
  assert (Z.testbit (page_begin g) 1 = false) as E1.
  { unfold page_begin. rewrite Z.land_spec. by rewrite andb_false_r. }
  assert (Z.testbit (page_begin g) 63 = Z.testbit g 63) as E63.
  { unfold page_begin. rewrite Z.land_spec. by rewrite andb_true_r. }
  destruct (ctrue (Z.land opts PT_OPT_WRITE)), (ctrue (Z.land opts PT_OPT_EXEC)); simpl negb;
    cbv iota; rewrite !Z.lor_spec, E1, E63; cbn; rewrite ?orb_true_r, ?orb_false_r; done.
Qed.

(** The translation of a page whose inner entries are wide enough. *)
Lemma wide_walk s c0 N own n k v opts w x e j :
  pager_inv s c0 N own -> (n <= 3)%nat -> on_path N own (Z.of_nat n + 1) k v ->
  wide s N own opts (Z.of_nat n + 1) v -> on_path N own 1 j v ->
  e = load64 (p_mem s) (tbl_ent (host_pml4_p (p_pager s)) j (idx 1 v)) -> present e = true ->
  (Z.testbit e 1 = true -> w = true /\ ctrue (Z.land opts PT_OPT_WRITE) = true) ->
  (Z.testbit e 63 = false -> x = true /\ ctrue (Z.land opts PT_OPT_EXEC) = true) ->
  let P := host_pml4_p (p_pager s) in let B := userspace_addr c0 in
  mmu_walk n (p_mem s) B (P - B + 4096 * k) v w x =
  Some (e, Z.testbit e 1, negb (Z.testbit e 63)).
Proof.
  intros Hinv Hn Hk Hw Hj He Hp Hew Hex P B. pose proof (pi_tree _ _ _ _ Hinv) as Ht.
  fold P B in Ht. revert k w x Hn Hk Hw Hew Hex.
  induction n as [|n IH]; intros k w x Hn Hk Hw Hew Hex; rewrite mmu_walk_tbl; cbv zeta.
  - change (Z.of_nat 0 + 1) with 1 in *. rewrite (on_path_inj _ _ _ _ _ Ht 1 k j v Hk Hj).
    fold P in He. rewrite <- He, Hp. cbn [negb]. f_equal. f_equal; [f_equal|].
    + destruct (Z.testbit e 1); [|apply andb_false_r]. by destruct Hew as [-> _].
    + destruct (Z.testbit e 63); [apply andb_false_r|]. by destruct Hex as [-> _].
  - destruct (Hw (Z.of_nat (S n) + 1) k ltac:(lia) Hk) as (W1 & W2 & W3).
    fold P in W1, W2, W3. rewrite W1. cbn [negb].
    destruct (on_path_down _ _ _ _ _ Ht (Z.of_nat (S n) + 1) k v ltac:(lia) Hk W1)
      as (q & Hq & ->).
    apply IH; [lia| | |..].
    + by replace (Z.of_nat (S n) + 1 - 1) with (Z.of_nat n + 1) in Hq by lia.
    + intros l' k' Hl'. apply Hw. lia.
    + intros E. destruct (Hew E) as [-> Ho]. by rewrite W2.
    + intros E. destruct (Hex E) as [-> Ho]. by rewrite W3.
Qed.

(** *** [map_user_page] *)

(** What an operation on the tables leaves alone. *)
Record outside s s' : Prop := mkOutside {
  out_mem x : x < host_pml4_p (p_pager s) \/
              host_pml4_p (p_pager s) + ELKVM_SYSTEM_MEMSIZE <= x -> p_mem s' x = p_mem s x;
  out_tlb : p_tlb s' = p_tlb s;
  out_os : p_os s' = p_os s;
  out_pager : exists n, p_pager s' = with_next_free (p_pager s) n;
}.

Lemma outside_refl s : outside s s.
Proof.
  constructor; try done. exists (host_next_free_tbl_p (p_pager s)). by destruct (p_pager s).
Qed.

Lemma outside_trans s1 s2 s3 : outside s1 s2 -> outside s2 s3 -> outside s1 s3.
Proof.
  intros [m1 t1 o1 [n1 p1]] [m2 t2 o2 [n2 p2]].
  assert (host_pml4_p (p_pager s2) = host_pml4_p (p_pager s1)) as E by (by rewrite p1).
  rewrite E in m2. constructor; [|congruence..|].
  - intros x Hx. by rewrite m2, m1.
  - exists n2. rewrite p2, p1. done.
Qed.

Lemma outside_chunks s s' :
  outside s s' -> chunks (p_pager s') = chunks (p_pager s) /\
                     host_pml4_p (p_pager s') = host_pml4_p (p_pager s).
Proof. intros [_ _ _ [n ->]]. done. Qed.

Lemma pt_step_outside c0 N own s N' own' s' : pt_step c0 N own s N' own' s' -> outside s s'.
Proof. intros []. constructor; eauto. Qed.

Lemma leaf_outside s c0 N own k v e :
  pager_inv s c0 N own -> on_path N own 1 k v ->
  outside s (mkPst (store64 (p_mem s) (tbl_ent (host_pml4_p (p_pager s)) k (idx 1 v)) e)
                      (p_tlb s) (p_os s) (p_pager s)).
Proof.
  intros [_ _ Ht] [Hk _]. pose proof (idx_range 1 v). pose proof (tr_count _ _ _ _ _ Ht).
  constructor; try done; cbn [p_mem p_pager].
  - intros x Hx. unfold ELKVM_SYSTEM_MEMSIZE in Hx. apply store64_other. unfold tbl_ent. lia.
  - apply (outside_refl s).
Qed.

(** The tables of a state, without the ghost ownership. *)
Definition tables_ok s (c0 : Chunk) (N : Z) : Prop := exists own, pager_inv s c0 N own.

(** An address already has a page table. *)
Definition has_table s (c0 : Chunk) (N : Z) (v : Z) : Prop :=
  exists own, pager_inv s c0 N own /\ exists q, on_path N own 1 q v.

(** The page of [gv] is mapped to the frame of [g] with the permissions [opts]. *)
Definition mapped s (c0 : Chunk) (gv g opts : Z) : Prop :=
  trans c0 s gv = Some (entry_value g opts, ctrue (Z.land opts PT_OPT_WRITE),
                        ctrue (Z.land opts PT_OPT_EXEC)).

Lemma leaf_mapped s c0 N own k gv g opts :
  pager_inv s c0 N own -> on_path N own 1 k gv -> wide s N own opts 4 gv -> 0 <= g < 2 ^ 52 ->
  mapped (mkPst (store64 (p_mem s) (tbl_ent (host_pml4_p (p_pager s)) k (idx 1 gv))
                         (entry_value g opts)) (p_tlb s) (p_os s) (p_pager s)) c0 gv g opts.
Proof.
  intros Hinv Hk Hw Hg. set (e := entry_value g opts).
  assert (is_u64 g) as Hgu by (unfold is_u64; lia).
  assert (is_u64 e) as He by (by apply entry_value_u64).
  set (s' := mkPst _ _ _ _). pose proof (leaf_inv s c0 N own k gv e Hinv Hk He) as Hinv'.
  cbv zeta in Hinv'. fold s' in Hinv'.
  destruct (entry_value_bits g opts Hgu) as [Ew Ex]. fold e in Ew, Ex.
  assert (Z.testbit g 63 = false) as Hg63.
  { rewrite Z.testbit_false, Z.div_small by lia. done. }
  rewrite Hg63, orb_false_r in Ex.
  unfold mapped, trans, mmu. replace (host_pml4_p (p_pager s') - userspace_addr c0)
    with (host_pml4_p (p_pager s') - userspace_addr c0 + 4096 * 0) by lia.
  rewrite (wide_walk s' c0 N own 3 0 gv opts true true e k).
  - by rewrite Ew, Ex, negb_involutive.
  - done.
  - lia.
  - apply (on_path_root _ _ _ _ _ (pi_tree _ _ _ _ Hinv)).
  - intros l' k' Hl' Hk'. cbn [p_pager s'].
    pose proof (leaf_load_inner s c0 N own k gv e) as L. cbv zeta in L. fold s' in L.
    rewrite L; [by apply Hw|try done..|apply idx_range|].
    rewrite (proj2 Hk'). cbn [fst]. lia.
  - done.
  - cbn [p_mem p_pager s']. rewrite load64_store64_same. symmetry. by apply u64_small.
  - apply entry_value_present.
  - rewrite Ew. done.
  - rewrite Ex. rewrite negb_false_iff. done.
Qed.

(** The effect of one [map_user_page]: the page is mapped, unless it already
    is mapped to another frame; nothing else moves or loses a permission. *)
Record map_effect s (c0 : Chunk) (gv g opts r : Z) s' : Prop := mkMapEffect {
  me_outside : outside s s';
  me_others v : vpn v <> vpn gv -> le_perm (trans c0 s v) (trans c0 s' v);
  me_page : match frame_of c0 s gv with
            | Some f => if f =? page_begin g then r = 0 /\ mapped s' c0 gv g opts
                        else r = -1 /\ le_perm (trans c0 s gv) (trans c0 s' gv)
            | None => r = 0 /\ mapped s' c0 gv g opts
            end;
}.

Lemma leaf_trans_le s c0 N own s1 N1 own1 k gv e v :
  pager_inv s c0 N own -> pt_step c0 N own s N1 own1 s1 -> on_path N1 own1 1 k gv -> is_u64 e ->
  vpn v <> vpn gv ->
  le_perm (trans c0 s v)
    (trans c0 (mkPst (store64 (p_mem s1) (tbl_ent (host_pml4_p (p_pager s1)) k (idx 1 gv)) e)
                     (p_tlb s1) (p_os s1) (p_pager s1)) v).
Proof.
  intros Hinv Hs Hk He Hv. pose proof (ps_inv _ _ _ _ _ _ _ Hs) as Hinv1.
  rewrite (leaf_trans_other s1 c0 N1 own1 k gv e) by done. by eapply pt_step_trans_le.
Qed.

(** The frame the walk finds in the leaf of [gv]. *)
Lemma leaf_of_path s c0 N own k gv :
  pager_inv s c0 N own -> on_path N own 1 k gv ->
  let e := load64 (p_mem s) (tbl_ent (host_pml4_p (p_pager s)) k (idx 1 gv)) in
  leaf_of c0 s gv = if present e then Some e else None.
Proof.
  intros [_ _ Ht] Hk e. apply option_eq. intros f. unfold leaf_of.
  rewrite (mmu_leaf_iff _ _ _ _ _ Ht). split.
  - intros (j & Hj & Hp & Ef). rewrite (on_path_inj _ _ _ _ _ Ht 1 j k gv Hj Hk) in *.
    fold e in Hp, Ef. rewrite Hp. by f_equal.
  - destruct (present e) eqn:Hp; [|done]. intros [= <-]. by exists k.
Qed.

Lemma map_user_page_lemma s c0 N own hp gv opts g :
  pager_inv s c0 N own -> N + 3 <= 4096 -> 0 < gv ->
  hp < host_pml4_p (p_pager s) \/ host_pml4_p (p_pager s) + ELKVM_SYSTEM_MEMSIZE <= hp ->
  hp mod 4096 = gv mod 4096 ->
  g = host_to_guest_physical (chunks (p_pager s)) hp -> 0 < g < 2 ^ 52 ->
  wp no_fault (map_user_page hp gv opts)
    (fun r s' => map_effect s c0 gv g opts r s' /\
       exists N' own', N' <= N + 3 /\ pager_inv s' c0 N' own' /\
         ((exists q, on_path N own 1 q gv) -> N' = N) /\
         (exists q, on_path N' own' 1 q gv) /\
         (forall l k v, on_path N own l k v -> on_path N' own' l k v)) s.
Proof.
  intros Hinv Hroom Hgv Hhp Hoff -> Hg. unfold map_user_page.
  do 2 wp_step; [|by rewrite negb_false_iff, Z.eqb_eq in *; lia]. do 4 wp_step.
  2: { rewrite orb_false_iff, Z.ltb_ge, Z.leb_gt in *. lia. }
  rewrite !land_pagesize_1. replace (hp mod 4096 =? gv mod 4096) with true
    by (symmetry; by apply Z.eqb_eq). cbn [negb].
  do 2 wp_step; [|by rewrite negb_false_iff, Z.eqb_eq in *; lia].
  set (g := host_to_guest_physical _ hp) in *. clear Hoff.
  apply wp_bind. eapply wp_mono; [by eapply page_table_walk_create_spec|].
  intros r s1 (N1 & own1 & j & HN & Hs1 & Hsame & Hj & Hw & -> & Hpos).
  rewrite <- (pt_step_pml4 _ _ _ _ _ _ _ Hs1) in *.
  do 2 wp_step; [|by rewrite negb_false_iff, Z.eqb_eq in *; lia].
  apply wp_bind, entry_exists_spec. unfold load at 1. do 2 wp_step.
  set (e := load64 (p_mem s1) _) in *. fold (page_begin g).
  pose proof (ps_inv _ _ _ _ _ _ _ Hs1) as Hinv1.
  pose proof (leaf_of_path s1 c0 N1 own1 j gv Hinv1 Hj) as Ef. cbv zeta in Ef. fold e in Ef.
  rewrite (pt_step_leaf_of c0 N own s N1 own1 s1 gv Hinv Hs1) in Ef.
  pose proof (fun v => pt_step_trans_le c0 N own s N1 own1 s1 v Hinv Hs1) as Hle.
  pose proof (fun l k v => pt_step_path c0 N own s N1 own1 s1 l k v Hs1) as Hpath.
  assert (is_u64 (entry_value g opts)) as Hu by (apply entry_value_u64; unfold is_u64; lia).
  destruct (present e && negb (Z.land e ADDR_MASK =? page_begin g)) eqn:Hcase.
  - apply andb_true_iff in Hcase as [Hp Hne]. apply wp_ret. split; [|by eauto 10].
    constructor; [by eapply pt_step_outside|auto|]. unfold frame_of. rewrite Ef, Hp. simpl.
    apply negb_true_iff in Hne. rewrite Hne. done.
  - unfold create_entry, store, upd_mem. do 3 wp_step. split.
    + constructor.
      * eapply outside_trans; [by eapply pt_step_outside|by eapply leaf_outside].
      * intros v Hv. by eapply leaf_trans_le.
      * pose proof (leaf_mapped s1 c0 N1 own1 j gv g opts Hinv1 Hj Hw ltac:(lia)) as Hm.
        unfold frame_of. rewrite Ef. destruct (present e); [|done]. cbn [andb] in Hcase. simpl.
        apply negb_false_iff in Hcase. by rewrite Hcase.
    + exists N1, own1. split; [done|]. split; [by apply leaf_inv|]. by eauto.
Qed.

(** A page offset that differs between the two addresses is an I/O error,
    and nothing is changed. *)
Lemma map_user_page_misaligned s hp gv opts :
  gv <> 0 ->
  hp < host_pml4_p (p_pager s) \/ host_pml4_p (p_pager s) + ELKVM_SYSTEM_MEMSIZE <= hp ->
  hp mod 4096 <> gv mod 4096 -> map_user_page hp gv opts s = Ok (- EIO, s).
Proof.
  intros Hgv Hhp Hoff. unfold map_user_page, bind, assert_, ret, gets.
  replace (gv =? 0) with false by (symmetry; by apply Z.eqb_neq). cbn [negb].
  replace (_ || _) with true by (symmetry; apply orb_true_iff; rewrite Z.ltb_lt, Z.leb_le; lia).
  rewrite !land_pagesize_1.
  replace (_ =? _) with false by (symmetry; by apply Z.eqb_neq). done.
Qed.

Lemma mapped_stable s s' c0 gv g opts :
  0 <= g < 2 ^ 52 -> mapped s c0 gv g opts -> le_perm (trans c0 s gv) (trans c0 s' gv) ->
  mapped s' c0 gv g opts.
Proof.
  intros Hg Hm. unfold mapped in *. rewrite Hm.
  destruct (trans c0 s' gv) as [[[e w] x]|] eqn:E; [|done]. intros (<- & Hw & Hx).
  destruct (mmu_walk_bits _ _ _ _ _ _ _ _ _ _ E) as [Bw Bx].
  destruct (entry_value_bits g opts ltac:(unfold is_u64; lia)) as [Ew Ex].
  replace (Z.testbit g 63) with false in Ex
    by (symmetry; rewrite Z.testbit_false, Z.div_small by lia; done).
  rewrite Ew in Bw. rewrite Ex, orb_false_r, negb_false_iff in Bx.
  f_equal. f_equal; [f_equal|]; apply eq_true_iff_eq; naive_solver.
Qed.

(** Translation only looks at the virtual page number. *)
Lemma idx_vpn l v : 1 <= l <= 4 -> idx l v = (vpn v / 2 ^ (9 * (l - 1))) mod 512.
Proof.
  intros Hl. unfold idx, vpn. set (k := 9 * (l - 1)).
  assert (0 <= k <= 27) as Hk by lia. change 4096 with (2 ^ 12).
  rewrite Z.pow_add_r, <- Z.div_div by lia.
  change (2 ^ 48) with (2 ^ 12 * 2 ^ 36). rewrite Z.rem_mul_r by lia.
  rewrite (Z.mul_comm (2 ^ 12) (_ mod _)), Z.div_add by lia.
  rewrite (Z.div_small (v mod 2 ^ 12)) by (apply Z.mod_pos_bound; lia). rewrite Z.add_0_l.
  set (q := v / 2 ^ 12). replace (2 ^ 36) with (2 ^ k * 2 ^ (36 - k))
    by (rewrite <- Z.pow_add_r by lia; f_equal; lia).
  rewrite Z.rem_mul_r by lia. rewrite (Z.mul_comm (2 ^ k) (_ mod _)), Z.div_add by lia.
  rewrite (Z.div_small (q mod 2 ^ k)) by (apply Z.mod_pos_bound; lia). rewrite Z.add_0_l.
  symmetry. apply (mod_mod_pow2 _ 9 (36 - k)). lia.
Qed.

Lemma mmu_walk_vpn n m B tbl v v' w x :
  (n <= 3)%nat -> vpn v = vpn v' -> mmu_walk n m B tbl v w x = mmu_walk n m B tbl v' w x.
Proof.
  intros Hn Hv. revert tbl w x. induction n as [|n IH]; intros tbl w x; cbn [mmu_walk];
    rewrite !idx_vpn, Hv by lia; [done|]. destruct (negb _); [done|]. apply IH. lia.
Qed.

Lemma trans_vpn c0 s v v' : vpn v = vpn v' -> trans c0 s v = trans c0 s v'.
Proof. intros. apply mmu_walk_vpn; [lia|done]. Qed.

Lemma leaf_of_trans c0 s v : leaf_of c0 s v = fst ∘ fst <$> trans c0 s v.
Proof. done. Qed.

(** *** [free_page] and [unmap_region] *)

Lemma free_page_lemma s c0 N own gv :
  pager_inv s c0 N own -> 0 < gv ->
  wp no_fault (free_page gv)
    (fun r s' => pager_inv s' c0 N own /\ outside s s' /\
       match trans c0 s gv with
       | None => r = -1 /\ s' = s
       | Some _ => r = 0 /\ (forall v, trans c0 s' v = if decide (vpn v = vpn gv) then None
                                                        else trans c0 s v)
       end) s.
Proof.
  intros Hinv Hgv. unfold free_page. apply wp_bind.
  eapply wp_mono; [by eapply page_table_walk_spec|].
  intros r s' [-> Hr]. rewrite leaf_of_trans in Hr. destruct Hr as [[-> Hn]|(Hr0 & j & Hj & -> & Hp & Hf)].
  - change (0 =? 0) with true. cbv iota. apply wp_ret. split; [done|].
    split; [apply outside_refl|]. by destruct (trans c0 s gv).
  - destruct (trans c0 s gv) as [t|]; [|done]. apply Z.eqb_neq in Hr0. rewrite Hr0.
    unfold store, upd_mem. wp_go. split; [by apply leaf_inv|].
    split; [by eapply leaf_outside|]. split; [done|]. intros v. case_decide as Hv.
    + pose proof (leaf_of_same s c0 N own j gv 0 Hinv Hj ltac:(done) v Hv) as E.
      rewrite leaf_of_trans in E. cbv zeta in E. by destruct (trans c0 _ v).
    + by apply leaf_trans_other with (N := N) (own := own).
Qed.

Lemma vpn_page gv i :
  0 <= gv -> 0 <= i -> gv + 4096 * i < 2 ^ 48 -> vpn (gv + 4096 * i) = gv / 4096 + i.
Proof.
  intros. unfold vpn. rewrite Z.mod_small by lia.
  rewrite (Z.mul_comm 4096 i), Z.div_add by lia. done.
Qed.

(** The pages of a region before page [n] contain [v]. *)
Definition in_pages (gv n v : Z) : bool :=
  (gv / 4096 <=? vpn v) && (vpn v <? gv / 4096 + n).

Lemma unmap_region_lemma s c0 N own gv pages :
  pager_inv s c0 N own -> 0 < gv -> 0 <= pages -> gv + 4096 * pages <= 2 ^ 48 ->
  wp no_fault (unmap_region gv pages)
    (fun r s' => pager_inv s' c0 N own /\ outside s s' /\
       exists n, 0 <= n <= pages /\
         (forall i, 0 <= i < n -> is_Some (trans c0 s (gv + 4096 * i))) /\
         (forall v, trans c0 s' v = if in_pages gv n v then None else trans c0 s v) /\
         ((r = 0 /\ n = pages) \/
          (r = -1 /\ n < pages /\ trans c0 s (gv + 4096 * n) = None))) s.
Proof.
  intros Hinv Hgv Hp Htop. unfold unmap_region.
  apply (wp_for _ (fun i a t => a = gv + 4096 * Z.of_nat i /\ pager_inv t c0 N own /\ outside s t /\
    (forall j, 0 <= j < Z.of_nat i -> is_Some (trans c0 s (gv + 4096 * j))) /\
    (forall v, trans c0 t v = if in_pages gv (Z.of_nat i) v then None else trans c0 s v))).
  - intros i a t Hi (-> & Hit & Ho & Hall & Ht). apply wp_bind.
    eapply wp_mono; [eapply free_page_lemma; [done|lia]|].
    intros r t' (Hi' & Ho' & Hr). rewrite Ht in Hr. unfold in_pages in Hr at 1.
    rewrite vpn_page in Hr by lia. replace (_ && _) with false in Hr
      by (symmetry; apply andb_false_iff; right; apply Z.ltb_ge; lia).
    destruct (trans c0 s (gv + 4096 * Z.of_nat i)) as [q|] eqn:Eq.
    + destruct Hr as [-> Hr]. change (ctrue 0) with false. cbv iota. apply wp_ret.
      rewrite u64_small by (unfold ELKVM_PAGESIZE; lia).
      split; [unfold ELKVM_PAGESIZE; lia|]. split; [done|].
      split; [by eapply outside_trans|]. split.
      * intros j Hj. destruct (decide (j = Z.of_nat i)) as [->|]; [by rewrite Eq|]. apply Hall. lia.
      * intros v. rewrite Hr, Ht. unfold in_pages. case_decide; range_case.
    + destruct Hr as [-> ->]. change (ctrue (-1)) with true. cbv iota. apply wp_ret.
      split; [done|]. split; [done|]. exists (Z.of_nat i). split; [lia|]. split; [done|].
      split; [done|]. right. split; [done|]. split; [lia|done].
  - intros a t (-> & Hit & Ho & Hall & Ht). rewrite Z2Nat.id in * by lia. apply wp_ret.
    split; [done|]. split; [done|]. exists pages. split; [lia|]. auto.
  - split; [lia|]. split; [done|]. split; [apply outside_refl|]. split; [intros; lia|].
    intros v. unfold in_pages. range_case.
Qed.

(** *** [map_region] *)

(** The number of page tables that the first [n] pages need. *)
Definition areas (gv n : Z) : Z :=
  if n =? 0 then 0 else (gv + 4096 * (n - 1)) / 2 ^ 21 - gv / 2 ^ 21 + 1.

Lemma areas_step gv n :
  0 <= gv -> 0 <= n ->
  (0 < n /\ (gv + 4096 * n) / 2 ^ 21 = (gv + 4096 * (n - 1)) / 2 ^ 21
   /\ areas gv (n + 1) = areas gv n) \/
  areas gv n + 1 <= areas gv (n + 1).
Proof.
  intros Hg Hn. unfold areas. replace (n + 1 =? 0) with false by (symmetry; apply Z.eqb_neq; lia).
  replace (n + 1 - 1) with n by lia.
  pose proof (Z.div_le_mono (gv + 4096 * (n - 1)) (gv + 4096 * n) (2 ^ 21)).
  destruct (Z.eqb_spec n 0) as [->|].
  - right. replace (gv + 4096 * 0) with gv by lia. lia.
  - destruct (decide ((gv + 4096 * n) / 2 ^ 21 = (gv + 4096 * (n - 1)) / 2 ^ 21)) as [E|];
      [left|right]; lia.
Qed.

Lemma areas_mono gv n k : 0 <= gv -> 0 <= n <= k -> areas gv n <= areas gv k.
Proof.
  intros Hg [Hn Hk]. unfold areas.
  pose proof (Z.div_le_mono (gv + 4096 * (n - 1)) (gv + 4096 * (k - 1)) (2 ^ 21)).
  pose proof (Z.div_le_mono gv (gv + 4096 * (k - 1)) (2 ^ 21)).
  destruct (Z.eqb_spec n 0), (Z.eqb_spec k 0); lia.
Qed.

Lemma pre1_eq v : 0 <= v < 2 ^ 48 -> pre 1 v = v / 2 ^ 21.
Proof. intros. unfold pre. by rewrite Z.mod_small. Qed.

Section MapRegion.
Context (s : pst os T) (c0 : Chunk) (N hp gv pages opts : Z).
Let g (i : Z) : Z := host_to_guest_physical (chunks (p_pager s)) (hp + 4096 * i).
Let P := host_pml4_p (p_pager s).
(** Every page of the region is backed by guest memory outside the tables. *)
Definition pages_backed : Prop :=
  forall i, 0 <= i < pages ->
    (hp + 4096 * i < P \/ P + ELKVM_SYSTEM_MEMSIZE <= hp + 4096 * i) /\ 0 < g i < 2 ^ 52.
(** Page [i] is free or already mapped to its own frame. *)
Definition page_open (i : Z) : Prop := forall f, frame_of c0 s (gv + 4096 * i) = Some f -> f = page_begin (g i).
Definition region_backed : Prop :=
  forall i, 0 <= i < pages ->
    (hp + 4096 * i < P \/ P + ELKVM_SYSTEM_MEMSIZE <= hp + 4096 * i) /\
    0 < g i < 2 ^ 52 /\
    (forall f, frame_of c0 s (gv + 4096 * i) = Some f -> f = page_begin (g i)).
Hypothesis Hback : pages_backed.
Hypothesis Hgv : 0 < gv.
Hypothesis Hpages : 0 <= pages.
Hypothesis Htop : gv + 4096 * pages <= 2 ^ 48.
Hypothesis Hoff : hp mod 4096 = gv mod 4096.
Hypothesis Hroom : N + 3 * (areas gv pages + 1) <= 4096.

Definition region_inv (i : nat) (x : Z * Z) (t : pst os T) : Prop :=
  let n := Z.of_nat i in
  x = (hp + 4096 * n, gv + 4096 * n) /\ outside s t /\
  (exists Nt own, Nt <= N + 3 * areas gv n /\ pager_inv t c0 Nt own /\
     (0 < n -> exists q, on_path Nt own 1 q (gv + 4096 * (n - 1)))) /\
  (forall j, 0 <= j < n -> page_open j /\ mapped t c0 (gv + 4096 * j) (g j) opts) /\
  (forall v, in_pages gv n v = false -> le_perm (trans c0 s v) (trans c0 t v)).

Lemma map_region_tables i Nt own :
  Z.of_nat i < pages -> Nt <= N + 3 * areas gv (Z.of_nat i) ->
  (0 < Z.of_nat i -> exists q, on_path Nt own 1 q (gv + 4096 * (Z.of_nat i - 1))) ->
  Nt + 3 <= 4096 /\
  forall N', N' <= Nt + 3 ->
    ((exists q, on_path Nt own 1 q (gv + 4096 * Z.of_nat i)) -> N' = Nt) ->
    N' <= N + 3 * areas gv (Z.of_nat i + 1).
Proof.
  intros Hi HN Hq. pose proof (areas_mono gv (Z.of_nat i) pages ltac:(lia) ltac:(lia)).
  split; [lia|]. intros N' Hn1 Hn2.
  destruct (areas_step gv (Z.of_nat i) ltac:(lia) ltac:(lia)) as [(Hpos & E & ->)|]; [|lia].
  rewrite Hn2; [done|]. destruct (Hq Hpos) as (q & Hq1 & Hq2). exists q. split; [done|].
  rewrite Hq2, !pre1_eq by lia. by rewrite E.
Qed.

Lemma map_region_step i x t :
  (i < Z.to_nat pages)%nat -> region_inv i x t ->
  wp no_fault (map_user_page x.1 x.2 opts)
    (fun r t' => (r = 0 /\ region_inv (S i) (x.1 + ELKVM_PAGESIZE, u64 (x.2 + ELKVM_PAGESIZE)) t') \/
                 (r = -1 /\ ~ page_open (Z.of_nat i))) t.
Proof.
  intros Hi (-> & Ho & (Nt & own & HN & Hinv & Hq) & Hm & Hle). cbn [fst snd].
  set (n := Z.of_nat i) in *. destruct (outside_chunks _ _ Ho) as [Ec Ep].
  destruct (Hback n ltac:(lia)) as (Hout & Hgn).
  destruct (map_region_tables i Nt own ltac:(lia) HN Hq) as [Hr Hbound].
  assert (in_pages gv n (gv + 4096 * n) = false) as Hnot.
  { unfold in_pages. rewrite vpn_page by lia. range_case. }
  eapply wp_mono.
  { eapply (map_user_page_lemma t c0 Nt own _ _ opts (g n)); [done|done|lia| | |by rewrite Ec|done].
    - by rewrite Ep.
    - rewrite !(Z.mul_comm 4096), !Z.mod_add by lia. done. }
  intros r t' [[Eo Eoth Epg] (N' & own' & HN' & Hinv' & Hsame & Hq' & Hpath)].
  assert ((r = 0 /\ page_open n /\ mapped t' c0 (gv + 4096 * n) (g n) opts) \/ (r = -1 /\ ~ page_open n))
    as [(-> & Hop & Hmn)|?]; [|left|by right].
  { assert (frame_of c0 t (gv + 4096 * n) = frame_of c0 s (gv + 4096 * n)) as Ef.
    { unfold frame_of. f_equal. symmetry. by apply le_perm_leaf, Hle. }
    unfold page_open. rewrite Ef in Epg. destruct (frame_of c0 s (gv + 4096 * n)) as [f|]; [|left; naive_solver].
    destruct (Z.eqb_spec f (page_begin (g n))) as [Ef0|Hne].
    - left. destruct Epg as [-> Hmp]. split; [done|]. split; [by intros ? [= <-]|done].
    - right. split; [apply Epg|]. intros Hop. by apply Hne, Hop. }
  split; [done|]. unfold region_inv. replace (Z.of_nat (S i)) with (n + 1) by lia.
  split; [unfold ELKVM_PAGESIZE; rewrite u64_small by lia; f_equal; lia|].
  split; [by eapply outside_trans|]. split.
  { exists N', own'. split; [by apply Hbound|]. split; [done|]. intros _.
    by replace (n + 1 - 1) with n by lia. }
  split.
  - intros j Hj. destruct (decide (j = n)) as [->|]; [done|].
    destruct (Hback j ltac:(lia)) as (_ & Hgj). split; [apply Hm; lia|].
    eapply mapped_stable; [fold (g j); lia|apply Hm; lia|]. apply Eoth. rewrite !vpn_page; lia.
  - intros v Hv. etrans; [apply Hle|apply Eoth]; unfold in_pages in *.
    + revert Hv. range_case.
    + revert Hv. rewrite vpn_page by lia. range_case.
Qed.

(** [map_region] maps all pages, or stops at one that shows other memory. *)
Lemma map_region_outcome :
  tables_ok s c0 N ->
  wp no_fault (map_region hp gv pages opts)
    (fun r s' =>
       (r = 0 /\ (forall j, 0 <= j < pages -> page_open j) /\ outside s s' /\
        (exists N', N' <= N + 3 * areas gv pages /\ tables_ok s' c0 N') /\
        (forall j, 0 <= j < pages -> mapped s' c0 (gv + 4096 * j) (g j) opts) /\
        (forall v, in_pages gv pages v = false -> le_perm (trans c0 s v) (trans c0 s' v))) \/
       (r = -1 /\ exists j, 0 <= j < pages /\ ~ page_open j)) s.
Proof.
  intros [own Hinv]. unfold map_region. apply (wp_for _ region_inv).
  - intros i [a b] t Hi HI. apply wp_bind. eapply wp_mono; [by apply (map_region_step i (a, b))|].
    intros r t' [[-> HI']|[-> Ht]]; [change (ctrue 0) with false|change (ctrue (-1)) with true]; apply wp_ret; [done|].
    right. split; [done|]. exists (Z.of_nat i). split; [lia|done].
  - intros x t (_ & Ho & (Nt & own' & HN & Hi & _) & Hm & Hle). rewrite Z2Nat.id in * by lia.
    apply wp_ret. left. split; [done|]. split; [intros j Hj; by apply Hm|]. split; [done|]. split.
    { exists Nt. split; [done|]. by exists own'. }
    split; [intros j Hj; by apply Hm|done].
  - split; [f_equal; lia|]. split; [apply outside_refl|]. split.
    { exists N, own. split; [unfold areas; simpl; lia|]. split; [done|]. lia. }
    split; [intros; lia|]. done.
Qed.

(** A last page that is not guest memory, or belongs to the tables, fails an assertion. *)
Lemma map_region_unbacked :
  tables_ok s c0 N -> (forall j, 0 <= j < pages -> page_open j) -> gv + 4096 * (pages + 1) <= 2 ^ 48 ->
  P <= hp + 4096 * pages < P + ELKVM_SYSTEM_MEMSIZE \/ g pages = 0 ->
  wp (fun f => f = Assert) (map_region hp gv (pages + 1) opts) (fun _ _ => False) s.
Proof.
  intros [own Hinv] Hopen Htop' Hlast. unfold map_region.
  apply (wp_for _ (fun i x t => Z.of_nat i <= pages /\ region_inv i x t)).
  - intros i [a b] t Hi [Hle HI]. apply wp_bind. destruct (decide (Z.of_nat i = pages)) as [E|Hne].
    + destruct HI as (Ex & Ho & _). destruct (outside_chunks _ _ Ho) as [Ec Ep]. injection Ex as -> ->. rewrite E.
      unfold map_user_page. apply wp_bind, wp_assert; [intros _|done]. apply wp_bind, wp_gets.
      rewrite Ec, Ep. fold (g pages) P. apply wp_bind, wp_assert; [intros Hout|done].
      replace (negb _) with false.
      2: { rewrite !land_pagesize_1. rewrite !(Z.mul_comm 4096), !Z.mod_add by lia. rewrite Hoff. by rewrite Z.eqb_refl. }
      apply wp_bind, wp_assert; [|done]. destruct Hlast as [Hl|Hl]; [lia|]. by rewrite Hl.
    + apply wp_total. eapply wp_mono; [apply (map_region_step i (a, b)); [lia|done]|].
      intros r t' [[-> HI']|[-> Ht]]; [change (ctrue 0) with false|]; [|by destruct Ht; apply Hopen; lia].
      apply wp_ret. split; [lia|done].
  - intros x t [Hle _]. lia.
  - split; [lia|]. split; [f_equal; lia|]. split; [apply outside_refl|]. split.
    { exists N, own. split; [unfold areas; simpl; lia|]. split; [done|]. lia. }
    split; [intros; lia|]. done.
Qed.
End MapRegion.

Lemma map_region_lemma s c0 N hp gv pages opts :
  let g i := host_to_guest_physical (chunks (p_pager s)) (hp + 4096 * i) in
  region_backed s c0 hp gv pages -> 0 < gv -> 0 <= pages -> gv + 4096 * pages <= 2 ^ 48 ->
  hp mod 4096 = gv mod 4096 -> N + 3 * (areas gv pages + 1) <= 4096 -> tables_ok s c0 N ->
  wp no_fault (map_region hp gv pages opts)
    (fun r s' => r = 0 /\ outside s s' /\
       (exists N', N' <= N + 3 * areas gv pages /\ tables_ok s' c0 N') /\
       (forall j, 0 <= j < pages -> mapped s' c0 (gv + 4096 * j) (g j) opts) /\
       (forall v, in_pages gv pages v = false -> le_perm (trans c0 s v) (trans c0 s' v))) s.
Proof.
  intros g Hb Hgv Hp Htop Hoff Hroom Ht.
  eapply wp_mono; [apply (map_region_outcome s c0 N hp gv pages opts); try done|].
  - intros i Hi. destruct (Hb i Hi) as (? & ? & _). done.
  - cbv beta. intros r s' [(-> & _ & Hd)|(_ & j & Hj & Hno)]; [done|]. destruct Hno. intros f. by apply Hb.
Qed.

(** *** [map_kernel_page] *)

Lemma pre_of_pre1 l v : 1 <= l <= 4 -> pre l v = pre 1 v / 2 ^ (9 * (l - 1)).
Proof.
  intros Hl. unfold pre. rewrite Z.div_div by lia. f_equal.
  rewrite <- Z.pow_add_r by lia. f_equal. lia.
Qed.

Lemma idx_of_pre1 l v : 2 <= l <= 4 -> idx l v = (pre 1 v / 2 ^ (9 * (l - 2))) mod 512.
Proof.
  intros Hl. rewrite idx_vpn by lia. f_equal.
  replace (pre 1 v) with (vpn v / 512).
  - rewrite Z.div_div by lia. f_equal. change 512 with (2 ^ 9).
    rewrite <- Z.pow_add_r by lia. f_equal. lia.
  - rewrite vpn_pre_idx, Z.div_add_l by lia. pose proof (idx_range 1 v).
    rewrite (Z.div_small (idx 1 v)) by lia. lia.
Qed.

(** The following pages that share the page table. *)
Lemma same_table v i :
  0 <= i -> idx 1 v + i < 512 ->
  pre 1 (v + 4096 * i) = pre 1 v /\ idx 1 (v + 4096 * i) = idx 1 v + i /\
  vpn (v + 4096 * i) = vpn v + i.
Proof.
  intros Hi Hlt. pose proof (idx_range 1 v). pose proof (vpn_pre_idx v) as Ev.
  assert (vpn (v + 4096 * i) = vpn v + i) as E.
  { assert (0 <= v mod 2 ^ 48 < 2 ^ 48) by (apply Z.mod_pos_bound; lia).
    assert (pre 1 v < 2 ^ 27) by (unfold pre; apply Z.div_lt_upper_bound; lia).
    unfold vpn in *. rewrite <- Z.add_mod_idemp_l by lia.
    assert (v mod 2 ^ 48 < 4096 * (v mod 2 ^ 48 / 4096 + 1)) by (Z.div_mod_to_equations; lia).
    rewrite Z.mod_small by lia.
    rewrite (Z.mul_comm 4096 i), Z.div_add by lia. done. }
  pose proof (vpn_pre_idx (v + 4096 * i)). pose proof (idx_range 1 (v + 4096 * i)). lia.
Qed.

Lemma on_path_same N own l k v v' :
  1 <= l <= 4 -> pre 1 v' = pre 1 v -> on_path N own l k v -> on_path N own l k v'.
Proof. intros Hl E [Hk Ek]. split; [done|]. by rewrite Ek, !(pre_of_pre1 l), E by lia. Qed.

Lemma wide_same s N own opts v v' :
  pre 1 v' = pre 1 v -> wide s N own opts 4 v -> wide s N own opts 4 v'.
Proof.
  intros E Hw l k Hl Hk. rewrite idx_of_pre1, E, <- idx_of_pre1 by lia.
  apply Hw; [lia|]. apply (on_path_same N own l k v' v); [lia|done|done].
Qed.

Section KernelPage.
Context (s : pst os T) (c0 : Chunk) (N hp opts k : Z).
Let g := host_to_guest_physical (chunks (p_pager s)) hp.
Definition kernel_base : Z := page_begin (guest_next_free (p_pager s)) + g mod 4096.
Hypothesis Hroom : N + 3 <= 4096.
Hypothesis Hnext : is_u64 (guest_next_free (p_pager s)).
Hypothesis Hg : 0 <= g < 2 ^ 52.
Hypothesis Hbase : 0 < kernel_base.
Hypothesis Hk0 : 0 <= k.
Hypothesis Hk : idx 1 kernel_base + k < 512.
Hypothesis Htop : kernel_base + 4096 * k < 2 ^ 64.
(** Page [k] is the first free page from [kernel_base]. *)
Hypothesis Hfree : trans c0 s (kernel_base + 4096 * k) = None.
Hypothesis Hused : forall i, 0 <= i < k -> is_Some (trans c0 s (kernel_base + 4096 * i)).

Definition kernel_inv (j : Z) (s1 : pst os T) (x : Z * Z) (t : pst os T) : Prop :=
  t = s1 /\ exists i, 0 <= i <= k /\
    x = (tbl_ent (host_pml4_p (p_pager s1)) j (idx 1 kernel_base + i), kernel_base + 4096 * i).

Lemma kernel_page_search N1 own1 j s1 :
  pager_inv s1 c0 N1 own1 -> on_path N1 own1 1 j kernel_base ->
  (forall v, leaf_of c0 s1 v = leaf_of c0 s v) ->
  wp no_fault (while_ (kernel_page_step opts)
                (tbl_ent (host_pml4_p (p_pager s1)) j (idx 1 kernel_base), kernel_base))
    (fun r t => t = s1 /\
       r = (tbl_ent (host_pml4_p (p_pager s1)) j (idx 1 (kernel_base + 4096 * k)),
            kernel_base + 4096 * k)) s1.
Proof.
  intros Hinv Hj Hleaf. pose proof (pi_geom _ _ _ _ Hinv) as Hge. pose proof (idx_range 1 kernel_base).
  destruct (same_table kernel_base k Hk0 Hk) as (_ & Ek & _).
  apply (wp_while _ (kernel_inv j s1)
           (fun x _ => kernel_base + 4096 * k - x.2 + 1)); cbn [snd].
  - intros [pe gv] t (-> & i & Hi & [= -> ->]). cbn [snd]. split; [lia|].
    unfold kernel_page_step. destruct (same_table kernel_base i ltac:(lia) ltac:(lia)) as (Ep & Ei & _).
    rewrite <- Ei. assert (on_path N1 own1 1 j (kernel_base + 4096 * i)) as Hji
      by (by apply (on_path_same _ _ _ _ kernel_base); [lia|..]).
    pose proof (leaf_of_path s1 c0 N1 own1 j _ Hinv Hji) as El. cbv zeta in El.
    rewrite Hleaf, leaf_of_trans in El.
    apply wp_bind, entry_exists_spec. destruct (present _) eqn:Hp; cbn [negb].
    + assert (i <> k) as Hne by (intros ->; by rewrite Hfree in El).
      assert (0 <= j < N1) as Hj1 by apply Hj. clear El Hp.
      assert (idx 1 (kernel_base + 4096 * i) < 511) as Hlt by lia.
      replace (Z.land _ PAGE_BEGIN_MASK =? _) with false.
      * apply wp_ret. unfold ELKVM_PAGESIZE. rewrite u64_small by lia. cbn [snd].
        split; [|lia]. split; [done|]. exists (i + 1). split; [lia|].
        rewrite Ei. unfold tbl_ent. f_equal; lia.
      * symmetry. apply Z.eqb_neq. fold (page_begin (tbl_ent (host_pml4_p (p_pager s1)) j
          (idx 1 (kernel_base + 4096 * i)) + 8)). intros E.
        pose proof (tr_count _ _ _ _ _ (pi_tree _ _ _ _ Hinv)).
        destruct Hge as [_ _ G1 _ G2 G3 G4 G5]. unfold ELKVM_SYSTEM_MEMSIZE in G5.
        rewrite page_begin_eq in E by (unfold is_u64, tbl_ent; lia).
        unfold tbl_ent in E. Z.div_mod_to_equations. lia.
    + destruct (decide (i = k)) as [->|Hne]; [by apply wp_ret|]. exfalso.
      destruct (Hused i ltac:(lia)) as [q Hq]. rewrite Hq in El. done.
  - split; [done|]. exists 0. split; [lia|]. f_equal; [f_equal|]; lia.
  - cbn [snd]. lia.
Qed.

Lemma map_kernel_page_lemma :
  tables_ok s c0 N ->
  wp no_fault (map_kernel_page hp opts)
    (fun r s' => r = kernel_base + 4096 * k /\ mapped s' c0 r g opts /\ outside s s' /\
       (exists N', N' <= N + 3 /\ tables_ok s' c0 N') /\
       (forall v, vpn v <> vpn r -> le_perm (trans c0 s v) (trans c0 s' v))) s.
Proof.
  intros [own Hinv]. unfold map_kernel_page. do 2 wp_step. fold g.
  rewrite land_pagesize_1. fold (page_begin (guest_next_free (p_pager s))).
  rewrite frame_offset by (by apply page_begin_mod). fold kernel_base.
  do 2 wp_step; [|by rewrite negb_false_iff, Z.eqb_eq in *; lia].
  apply wp_bind. eapply wp_mono; [by eapply page_table_walk_create_spec|].
  intros r s1 (N1 & own1 & j & HN & Hs1 & _ & Hj & Hw & -> & Hpos).
  rewrite <- (pt_step_pml4 _ _ _ _ _ _ _ Hs1) in *.
  replace (tbl_ent _ _ _ =? 0) with false by (symmetry; apply Z.eqb_neq; lia).
  pose proof (ps_inv _ _ _ _ _ _ _ Hs1) as Hinv1. apply wp_bind.
  eapply wp_mono; [apply (kernel_page_search N1 own1 j s1); [done|done|]|].
  { intros v. by eapply pt_step_leaf_of. }
  intros r t [-> ->]. unfold create_entry, store, upd_mem. wp_go.
  destruct (same_table kernel_base k Hk0 Hk) as (Ep & Ei & _).
  assert (on_path N1 own1 1 j (kernel_base + 4096 * k)) as Hjk
    by (by apply (on_path_same _ _ _ _ kernel_base); [lia|..]).
  assert (is_u64 (entry_value g opts)) by (apply entry_value_u64; unfold is_u64; lia).
  split; [done|]. split; [|split; [|split]].
  - eapply leaf_mapped; [done..| |done]. by apply (wide_same _ _ _ _ kernel_base).
  - eapply outside_trans; [by eapply pt_step_outside|by eapply leaf_outside].
  - exists N1. split; [done|]. exists own1. by apply leaf_inv.
  - intros v Hv. by eapply leaf_trans_le.
Qed.
End KernelPage.
End Spec.
