(* ===== verification/PagerTlb.v ===== *)
(** * Address translation through the lookaside buffer

    [get_host_p] gives the host address behind a guest-virtual one.  It is
    correct as long as the lookaside buffer agrees with the page tables;
    mapping pages keeps that agreement, unmapping a cached page breaks it, and
    the array implementation answers for page 0 before anything was cached. *)

From S2P Require Import Prelude Memory PageMath HostOS Tlb Pager PagerTree PagerWalk PagerSpec.
Local Open Scope Z_scope.

(** Chunks are whole pages of guest-physical and of host memory. *)
Record chunk_ok (c : Chunk) : Prop := mkChunkOk {
  co_phys : 0 <= guest_phys_addr c /\ guest_phys_addr c mod 4096 = 0;
  co_size : 0 <= memory_size c /\ memory_size c mod 4096 = 0;
  co_user : 0 < userspace_addr c /\ userspace_addr c mod 4096 = 0;
  co_phys_top : guest_phys_addr c + memory_size c <= 2 ^ 52;
  co_user_top : userspace_addr c + memory_size c <= 2 ^ 47;
}.

Lemma contains_phys_page c f o :
  chunk_ok c -> 0 <= f -> f mod 4096 = 0 -> 0 <= o < 4096 ->
  contains_phys_address c (f + o) = contains_phys_address c f.
Proof.
  intros [Hp Hs _ Ht _] Hf Hfm Ho. unfold contains_phys_address. rewrite u64_small by lia.
  assert (exists a b d, guest_phys_addr c = 4096 * a /\ memory_size c = 4096 * b /\ f = 4096 * d)
    as (a & b & d & -> & -> & ->).
  { exists (guest_phys_addr c / 4096), (memory_size c / 4096), (f / 4096).
    Z.div_mod_to_equations. lia. }
  f_equal; range_case.
Qed.

Lemma addr_mask_frame e : 0 <= Z.land e ADDR_MASK < 2 ^ 52 /\ Z.land e ADDR_MASK mod 4096 = 0.
Proof.
  change ADDR_MASK with (2 ^ 52 - 2 ^ 12). rewrite land_mask by lia.
  rewrite <- (mod_mod_pow2 e 12 52) by lia. set (x := e mod 2 ^ 52).
  assert (0 <= x < 2 ^ 52) by (apply Z.mod_pos_bound; lia).
  change (2 ^ 12) with 4096. Z.div_mod_to_equations. lia.
Qed.

Lemma vpn_page_begin v : is_u64 v -> vpn (page_begin v) = vpn v.
Proof.
  intros Hv. rewrite page_begin_eq by done. unfold vpn.
  change (2 ^ 48) with (4096 * 2 ^ 36). rewrite !Z.rem_mul_r by lia.
  rewrite !(Z.mul_comm 4096 (_ mod _)), !Z.div_add by lia.
  rewrite !(Z.div_small (_ mod 4096)) by (apply Z.mod_pos_bound; lia).
  replace ((v - v mod 4096) / 4096) with (v / 4096); [done|].
  Z.div_mod_to_equations. lia.
Qed.

Section GetHost.
Context {os T : Type} `{HostOS os} `{TranslationCacheLaws T}.
Implicit Types s : pst os T.

(** The specification: the processor's translation, then the chunk that
    holds the guest-physical address. *)
Definition host_of (c0 : Chunk) s (v : Z) : option Z :=
  match frame_of c0 s v with
  | None => None
  | Some f =>
      let gp := f + v mod 4096 in
      (fun c => gp - guest_phys_addr c + userspace_addr c) <$>
        find (fun c => contains_phys_address c gp) (chunks (p_pager s))
  end.

(** The lookaside buffer agrees with the page tables. *)
Definition coherent (c0 : Chunk) s : Prop :=
  tc_ok (p_tlb s) /\
  forall v f, is_u64 v -> page_begin v <> 0 ->
    tc_frame (p_tlb s) (page_begin v) = Some f -> host_of c0 s v = Some (f + v mod 4096).

Lemma find_page cs f o :
  Forall chunk_ok cs -> 0 <= f -> f mod 4096 = 0 -> 0 <= o < 4096 ->
  find (fun c => contains_phys_address c (f + o)) cs = find (fun c => contains_phys_address c f) cs.
Proof.
  intros Hcs Hf Hm Ho. induction Hcs as [|c cs Hc Hcs IH]; [done|]. simpl.
  rewrite contains_phys_page by done. by rewrite IH.
Qed.

Lemma find_chunk cs gp c :
  Forall chunk_ok cs -> find (fun c => contains_phys_address c gp) cs = Some c ->
  chunk_ok c /\ guest_phys_addr c <= gp < guest_phys_addr c + memory_size c.
Proof.
  intros Hcs Hf. apply find_some in Hf as [Hin Hc]. rewrite Forall_forall in Hcs.
  pose proof (Hcs c ltac:(by apply list_elem_of_In)) as Hok. split; [done|].
  unfold contains_phys_address in Hc. rewrite andb_true_iff, Z.leb_le, Z.ltb_lt in Hc.
  rewrite u64_small in Hc; [done|]. destruct Hok. lia.
Qed.

(** Two addresses of one page have their host addresses in one page. *)
Lemma host_of_page c0 s v w h :
  Forall chunk_ok (chunks (p_pager s)) -> vpn v = vpn w ->
  host_of c0 s v = Some h -> host_of c0 s w = Some (h - v mod 4096 + w mod 4096).
Proof.
  intros Hcs Hv. unfold host_of, frame_of. rewrite !leaf_of_trans, (trans_vpn c0 s v w Hv).
  destruct (trans c0 s w) as [[[e ?] ?]|]; [|done]. simpl.
  destruct (addr_mask_frame e) as [Hr Hm].
  rewrite !find_page by (done || lia || (apply Z.mod_pos_bound; lia)).
  destruct (find _ _) as [c|]; [|done]. simpl. intros [= <-]. f_equal. lia.
Qed.

Lemma host_of_bounds c0 s v h :
  Forall chunk_ok (chunks (p_pager s)) -> is_u64 v -> host_of c0 s v = Some h ->
  0 < h < 2 ^ 47 /\ h mod 4096 = v mod 4096.
Proof.
  intros Hcs Hv. unfold host_of, frame_of.
  destruct (leaf_of c0 s v) as [e|]; [|done]. simpl.
  destruct (addr_mask_frame e) as [Hr Hm].
  destruct (find _ _) as [c|] eqn:E; [|done]. simpl. intros [= <-].
  destruct (find_chunk _ _ _ Hcs E) as [[] Hin]. pose proof (Z.mod_pos_bound v 4096).
  split; [lia|]. Z.div_mod_to_equations. lia.
Qed.

(** Agreement survives a lookup and the insertion of a right translation. *)
Lemma coherent_set c0 s v h :
  Forall chunk_ok (chunks (p_pager s)) -> is_u64 v -> coherent c0 s -> host_of c0 s v = Some h ->
  coherent c0 (mkPst (p_mem s) (tc_set (p_tlb s) v h) (p_os s) (p_pager s)).
Proof.
  intros Hcs Hv [Hok Hc] Hh. destruct (host_of_bounds _ _ _ _ Hcs Hv Hh) as [Hb Hm].
  assert (is_u64 h) as Hhu by (unfold is_u64; lia).
  split; [by apply tc_ok_set|]. intros w f Hw Hp0 Hf. cbn [p_tlb] in Hf.
  change (host_of c0 s w = Some (f + w mod 4096)).
  destruct (decide (page_begin w = page_begin v)) as [E|E].
  - rewrite E, tc_frame_set_same in Hf by done. injection Hf as <-.
    rewrite (host_of_page c0 s v w h Hcs); [|by rewrite <- vpn_page_begin, <- E, vpn_page_begin|done].
    rewrite page_begin_eq by done. f_equal. lia.
  - apply Hc; [done..|]. by apply (tc_frame_set_other _ v h).
Qed.

Lemma coherent_find c0 s v :
  coherent c0 s -> coherent c0 (mkPst (p_mem s) (tc_find (p_tlb s) v).2 (p_os s) (p_pager s)).
Proof.
  intros [Hok Hc]. split; [by apply tc_ok_find|]. intros w f Hw Hp0. cbn [p_tlb].
  rewrite tc_frame_find. by apply Hc.
Qed.

(** Operations that keep every frame keep the agreement. *)
Lemma coherent_mono c0 s s' :
  coherent c0 s -> p_tlb s' = p_tlb s -> chunks (p_pager s') = chunks (p_pager s) ->
  (forall v f, frame_of c0 s v = Some f -> frame_of c0 s' v = Some f) -> coherent c0 s'.
Proof.
  intros [Hok Hc] Et Ec Hf. split; [by rewrite Et|]. intros v f Hv Hp. rewrite Et. intros Hl.
  specialize (Hc v f Hv Hp Hl). unfold host_of in *. rewrite Ec.
  destruct (frame_of c0 s v) as [q|] eqn:E; [|done]. by rewrite (Hf v q E).
Qed.

Lemma get_host_p_lemma s c0 N own v :
  pager_inv s c0 N own -> Forall chunk_ok (chunks (p_pager s)) -> coherent c0 s ->
  is_u64 v -> page_begin v <> 0 ->
  wp no_fault (get_host_p v)
    (fun r s' => r = default 0 (host_of c0 s v) /\ coherent c0 s' /\
       p_mem s' = p_mem s /\ p_pager s' = p_pager s /\ p_os s' = p_os s) s.
Proof.
  intros Hinv Hcs Hco Hv Hp. assert (v <> 0) as Hv0 by (intros ->; by apply Hp).
  unfold get_host_p. apply Z.eqb_neq in Hv0 as Hv0'. rewrite Hv0'. apply wp_bind, wp_get.
  destruct (tc_find (p_tlb s) v) as [t tlb'] eqn:Ef. apply wp_bind, wp_put.
  pose proof (coherent_find c0 s v Hco) as Hco1. rewrite Ef in Hco1. cbn [snd] in Hco1.
  assert (forall f, tc_frame (p_tlb s) (page_begin v) = Some f ->
            host_of c0 s v = Some (f + v mod 4096)) as Hhit by (intros f; by apply Hco).
  assert (t = match tc_frame (p_tlb s) (page_begin v) with
              | Some f => f + v mod 4096 | None => 0 end) as Et.
  { rewrite <- tc_find_val; [by rewrite Ef|by apply Hco|done|]. intros f Hf.
    destruct (host_of_bounds _ _ _ _ Hcs Hv (Hhit f Hf)). destruct Hco as [Hok _].
    destruct (tc_ok_frame _ _ _ Hok Hf). pose proof (Z.mod_pos_bound v 4096). lia. }
  destruct (tc_frame (p_tlb s) (page_begin v)) as [f|].
  { destruct (host_of_bounds _ _ _ _ Hcs Hv (Hhit f eq_refl)) as [Hb _].
    rewrite Et. replace (ctrue _) with true by (symmetry; apply ctrue_true; lia).
    apply wp_ret. by rewrite (Hhit f eq_refl). }
  rewrite Et. change (ctrue 0) with false. cbv iota. clear Ef Et Hhit.
  set (s1 := mkPst (p_mem s) tlb' (p_os s) (p_pager s)) in *.
  assert (pager_inv s1 c0 N own) as Hinv1 by (destruct Hinv; by constructor).
  change (host_of c0 s v) with (host_of c0 s1 v).
  apply wp_bind. eapply wp_mono.
  { eapply page_table_walk_spec; [done|]. unfold is_u64 in Hv. lia. }
  intros r s' [-> Hr]. destruct Hr as [[-> Hn]|(Hr0 & j & Hj & Er & Hpr & Hl)].
  { change (0 =? 0) with true. cbv iota. apply wp_ret. unfold host_of, frame_of. by rewrite Hn. }
  apply Z.eqb_neq in Hr0. rewrite Hr0. unfold load. do 4 wp_step.
  rewrite land_pagesize_1. set (e := load64 _ r) in *. destruct (addr_mask_frame e) as [He Hem].
  rewrite frame_offset by done. cbn [p_pager s1].
  assert (host_of c0 s1 v = (fun c => Z.land e ADDR_MASK + v mod 4096 - guest_phys_addr c
            + userspace_addr c) <$> find (fun c => contains_phys_address c
              (Z.land e ADDR_MASK + v mod 4096)) (chunks (p_pager s))) as Eh.
  { unfold host_of, frame_of. by rewrite Hl. }
  destruct (find _ _) as [c|] eqn:Efd; [|apply wp_ret; by rewrite Eh].
  destruct (find_chunk _ _ _ Hcs Efd) as [Hck Hin]. simpl in Eh.
  pose proof (host_of_bounds _ _ _ _ Hcs Hv Eh) as [Hb _].
  assert (u64 (u64 (Z.land e ADDR_MASK + v mod 4096 - guest_phys_addr c) + userspace_addr c)
          = Z.land e ADDR_MASK + v mod 4096 - guest_phys_addr c + userspace_addr c) as ->.
  { destruct Hck. rewrite (u64_small (_ - _)) by lia. apply u64_small. lia. }
  wp_go. rewrite Eh. split; [done|]. split; [|done]. by apply (coherent_set c0 s1 v).
Qed.
End GetHost.

(** ** Writes to guest memory

    A write outside the table area changes neither the translation nor the
    agreement of the lookaside buffer. *)

Section UserWrite.
Context {os T : Type}.
Implicit Types s : pst os T.

(** Two states with the same tables. *)
Definition same_tables s s' : Prop :=
  p_pager s' = p_pager s /\
  forall x, host_pml4_p (p_pager s) <= x < host_pml4_p (p_pager s) + ELKVM_SYSTEM_MEMSIZE ->
            p_mem s' x = p_mem s x.

Lemma same_tables_load s s' k i :
  same_tables s s' -> 0 <= k < 4096 -> 0 <= i < 512 ->
  load64 (p_mem s') (tbl_ent (host_pml4_p (p_pager s)) k i)
  = load64 (p_mem s) (tbl_ent (host_pml4_p (p_pager s)) k i).
Proof.
  intros [_ Hm] Hk Hi. apply load64_ext. intros x Hx. apply Hm. unfold tbl_ent in Hx.
  unfold ELKVM_SYSTEM_MEMSIZE. lia.
Qed.

Lemma same_tables_inv s s' c0 N own : same_tables s s' -> pager_inv s c0 N own -> pager_inv s' c0 N own.
Proof.
  intros Hs [Hg Hn Ht]. pose proof Hs as [Ep _]. constructor; rewrite ?Ep; try done.
  destruct Ht as [T1 T2 T3 T4 T5 T6 T7]. constructor; try done; intros k i.
  - intros Hk Hl Hi. rewrite (same_tables_load s s') by (done || lia). auto.
  - intros j Hk Hl Hi. rewrite (same_tables_load s s') by (done || lia). auto.
Qed.

Lemma same_tables_walk s s' c0 N own n k v w x :
  same_tables s s' -> pager_inv s c0 N own -> (n <= 3)%nat -> on_path N own (Z.of_nat n + 1) k v ->
  let P := host_pml4_p (p_pager s) in let B := userspace_addr c0 in
  mmu_walk n (p_mem s') B (P - B + 4096 * k) v w x = mmu_walk n (p_mem s) B (P - B + 4096 * k) v w x.
Proof.
  intros Hs [_ _ Ht] Hn Hk. cbv zeta. revert k w x Hk.
  induction n as [|n IH]; intros k w x Hk; rewrite !mmu_walk_tbl; cbv zeta;
    rewrite (same_tables_load s s') by (done || apply idx_range || (destruct Hk, Ht; lia)); [done|].
  destruct (present _) eqn:Hp; [|done]. cbn [negb].
  destruct (on_path_down _ _ _ _ _ Ht (Z.of_nat (S n) + 1) k v ltac:(lia) Hk Hp) as (j & Hj & ->).
  apply IH; [lia|]. by replace (Z.of_nat (S n) + 1 - 1) with (Z.of_nat n + 1) in Hj by lia.
Qed.

Lemma same_tables_trans s s' c0 N own v :
  same_tables s s' -> pager_inv s c0 N own -> trans c0 s' v = trans c0 s v.
Proof.
  intros Hs Hi. unfold trans, mmu. rewrite (proj1 Hs).
  replace (host_pml4_p (p_pager s) - userspace_addr c0)
    with (host_pml4_p (p_pager s) - userspace_addr c0 + 4096 * 0) by lia.
  eapply same_tables_walk; [done|done|lia|]. apply (on_path_root _ _ _ _ _ (pi_tree _ _ _ _ Hi)).
Qed.

Lemma same_tables_host s s' c0 N own v :
  same_tables s s' -> pager_inv s c0 N own -> host_of c0 s' v = host_of c0 s v.
Proof.
  intros Hs Hi. unfold host_of, frame_of. rewrite !leaf_of_trans, (same_tables_trans s s' c0 N own v Hs Hi).
  by rewrite (proj1 Hs).
Qed.

Lemma same_tables_coherent `{TranslationCacheLaws T} s s' c0 N own :
  same_tables s s' -> pager_inv s c0 N own -> p_tlb s' = p_tlb s -> coherent c0 s -> coherent c0 s'.
Proof.
  intros Hs Hi Et [Hok Hc]. split; [by rewrite Et|]. intros v f Hv Hp. rewrite Et.
  rewrite (same_tables_host s s' c0 N own v Hs Hi). auto.
Qed.

Lemma store64_same_tables s hp v :
  hp + 8 <= host_pml4_p (p_pager s) \/ host_pml4_p (p_pager s) + ELKVM_SYSTEM_MEMSIZE <= hp ->
  same_tables s (mkPst (store64 (p_mem s) hp v) (p_tlb s) (p_os s) (p_pager s)).
Proof. intros Hhp. split; [done|]. intros x Hx. cbn [p_mem]. apply store64_other. lia. Qed.
End UserWrite.
