(* ===== verification/PagerTheorems.v ===== *)
(** * The pager: theorems

    The properties of the pager, proved from the lemmas of [PagerSpec] and
    [PagerTlb], each with a witness at a small concrete state. *)

From S2P Require Import Prelude Memory PageMath HostOS Tlb Pager PagerTree PagerWalk PagerSpec PagerTlb.
Local Open Scope Z_scope.

(** ** The layout of guest-physical memory *)

(** Chunks follow each other from guest-physical address [off]. *)
Fixpoint layout (off : Z) (cs : list Chunk) : Prop :=
  match cs with
  | [] => True
  | c :: cs' => guest_phys_addr c = off /\ chunk_ok c /\ 0 < memory_size c /\
                layout (off + memory_size c) cs'
  end.

Definition layout_end (off : Z) (cs : list Chunk) : Z :=
  fold_left (fun a c => a + memory_size c) cs off.

Lemma layout_app off cs c :
  layout off (cs ++ [c]) <->
  layout off cs /\ guest_phys_addr c = layout_end off cs /\ chunk_ok c /\ 0 < memory_size c.
Proof.
  revert off. induction cs as [|d cs IH]; intros off; simpl; [naive_solver|].
  rewrite IH. unfold layout_end. simpl. naive_solver.
Qed.

Lemma layout_end_mod off cs : layout off cs -> off mod 4096 = 0 -> layout_end off cs mod 4096 = 0.
Proof.
  revert off. induction cs as [|c cs IH]; intros off Hl Ho; [done|].
  destruct Hl as (_ & Hc & _ & Hl). apply (IH _ Hl). destruct Hc as [_ [_ Hs] _ _ _].
  by rewrite Z.add_mod, Ho, Hs by lia.
Qed.

Lemma layout_chunk_ok off cs : layout off cs -> Forall chunk_ok cs.
Proof. revert off. induction cs as [|c cs IH]; intros off; [constructor|]. simpl. naive_solver. Qed.

Lemma layout_lower off cs c : layout off cs -> c ∈ cs -> off <= guest_phys_addr c.
Proof.
  revert off. induction cs as [|d cs IH]; intros off Hl Hc; [by apply not_elem_of_nil in Hc|].
  destruct Hl as (<- & _ & Hs & Hl). apply elem_of_cons in Hc as [->|Hc]; [lia|].
  specialize (IH _ Hl Hc). lia.
Qed.

(** A guest-physical address belongs to at most one chunk, so that looking a
    chunk up by host address and by guest-physical address agree. *)
Lemma layout_find off cs c gp :
  layout off cs -> c ∈ cs -> guest_phys_addr c <= gp < guest_phys_addr c + memory_size c ->
  find (fun d => contains_phys_address d gp) cs = Some c.
Proof.
  revert off. induction cs as [|d cs IH]; intros off Hl Hc Hgp; [by apply not_elem_of_nil in Hc|].
  destruct Hl as (<- & Hd & Hs & Hl). simpl. unfold contains_phys_address at 1.
  rewrite u64_small by (destruct Hd; lia). apply elem_of_cons in Hc as [->|Hc].
  - replace (_ && _) with true; [done|]. symmetry. range_case.
  - pose proof (layout_lower _ _ _ Hl Hc).
    replace (_ && _) with false; [by eapply IH|]. symmetry. range_case.
Qed.

(** The chunks of a pager tile guest-physical memory from 0. *)
Definition chunks_ok (pg : PagerX86_64) : Prop :=
  layout 0 (chunks pg) /\ total_memsz pg = layout_end 0 (chunks pg) /\ total_memsz pg <= 2 ^ 52.

(** A small machine: one chunk with the tables at its start. *)
Definition demo_chunk : Chunk := mkChunk 0 0 0 0x8000000 0x10000000.
Definition demo_pager : PagerX86_64 :=
  mkPager 3 [demo_chunk] 0x10000000 0x10001000 KERNEL_SPACE_BOTTOM 0x8000000 [].
Definition demo (T : Type) `{TranslationCache T} : pst bump_os T :=
  mkPst (fun _ => 0) tc_new bump_init demo_pager.

Section Boot.
Context {os T : Type} `{HostOS os} `{TranslationCache T}.
Implicit Types s : pst os T.

(** A zeroed pml4 alone is a page-table tree that maps nothing. *)
Lemma empty_tree m P B :
  (forall i, 0 <= i < 512 -> load64 m (tbl_ent P 0 i) = 0) -> tree m P B 1 (fun _ => (4, 0)).
Proof.
  intros Hz. constructor; cbn [fst snd].
  - lia.
  - done.
  - lia.
  - lia.
  - lia.
  - intros k i Hk Hl Hi. assert (k = 0) as -> by lia. by rewrite Hz.
  - intros k i j _ _ _ _ _. by injection 1.
Qed.

Lemma empty_trans s c0 N own v :
  pager_inv s c0 N own ->
  (forall i, 0 <= i < 512 -> load64 (p_mem s) (tbl_ent (host_pml4_p (p_pager s)) 0 i) = 0) ->
  trans c0 s v = None.
Proof.
  intros Hinv Hz. unfold trans, mmu. cbn [mmu_walk].
  replace (userspace_addr c0 + _ + _) with (tbl_ent (host_pml4_p (p_pager s)) 0 (idx 4 v))
    by (unfold tbl_ent; change (Z.of_nat 3 + 1) with 4; lia).
  by rewrite Hz by apply idx_range.
Qed.

Lemma set_pml4_lemma s c0 base :
  geometry (mkPager (_vmfd (p_pager s)) (chunks (p_pager s)) base 0 0 0 []) c0 ->
  ELKVM_SYSTEM_MEMSIZE <= memory_size c0 ->
  wp no_fault (set_pml4 base)
    (fun r s' => r = s32 (base - userspace_addr c0) /\
       pager_inv s' c0 1 (fun _ => (4, 0)) /\ (forall v, trans c0 s' v = None) /\
       host_pml4_p (p_pager s') = base /\ guest_next_free (p_pager s') = KERNEL_SPACE_BOTTOM /\
       chunks (p_pager s') = chunks (p_pager s) /\ p_os s' = p_os s) s.
Proof.
  intros Hge Hsz. pose proof Hge as [Hf Hp Hb Hbp Ht Hpp Hpm Ha].
  cbn [chunks host_pml4_p] in Hf, Hpp, Hpm, Ha.
  unfold set_pml4, create_page_tables, upd_pager, upd_mem. wp_go;
    cbn [p_pager host_pml4_p chunks] in *.
  - pose proof (h2gp_table _ c0 0 Hge ltac:(lia)) as Hg. cbn [host_pml4_p chunks] in Hg.
    replace (base + 4096 * 0) with base in Hg by lia. rewrite Hg.
    assert (forall i, 0 <= i < 512 ->
      load64 (memset (p_mem s) base 0 ELKVM_SYSTEM_MEMSIZE) (tbl_ent base 0 i) = 0) as Hz.
    { intros i Hi. unfold ELKVM_SYSTEM_MEMSIZE. apply load64_memset_zero; unfold tbl_ent; lia. }
    split; [f_equal; lia|]. match goal with |- pager_inv ?t _ _ _ /\ _ =>
      assert (pager_inv t c0 1 (fun _ => (4, 0))) as Hi end.
    { constructor; cbn [p_pager p_mem host_pml4_p host_next_free_tbl_p].
      - by constructor.
      - unfold HOST_PAGESIZE. lia.
      - by apply empty_tree. }
    split; [done|]. split; [|done]. intros v. by eapply empty_trans.
  - done.
  - rewrite Z.leb_gt in *. simplify_eq. lia.
  - congruence.
  - rewrite negb_false_iff, Z.eqb_eq in *. lia.
Qed.
End Boot.

Lemma demo_inv T `{TranslationCache T} : pager_inv (demo T) demo_chunk 1 (fun _ => (4, 0)).
Proof.
  constructor.
  - constructor; try done; by vm_compute.
  - done.
  - by apply empty_tree.
Qed.

Lemma demo_trans T `{TranslationCache T} v : trans demo_chunk (demo T) v = None.
Proof. eapply empty_trans; [apply demo_inv|done]. Qed.

Lemma demo_chunk_ok : Forall chunk_ok [demo_chunk].
Proof. constructor; [|constructor]. constructor; by vm_compute. Qed.

Lemma demo_layout : layout 0 [demo_chunk].
Proof. repeat split; by vm_compute. Qed.

(** ** Properties *)

(** [set_pml4] builds, from any memory, an empty page-table tree in the
    region it is given: the invariant holds, no address is translated, the
    kernel area starts at [KERNEL_SPACE_BOTTOM], and the result is the
    guest-physical address of the pml4 (truncated to [int]). *)
Theorem set_pml4_boots {os T} `{HostOS os} `{TranslationCache T} (s : pst os T) c0 base :
  geometry (mkPager (_vmfd (p_pager s)) (chunks (p_pager s)) base 0 0 0 []) c0 ->
  ELKVM_SYSTEM_MEMSIZE <= memory_size c0 ->
  exists s', set_pml4 base s = Ok (s32 (base - userspace_addr c0), s') /\
    tables_ok s' c0 1 /\ (forall v, trans c0 s' v = None) /\
    host_pml4_p (p_pager s') = base /\ guest_next_free (p_pager s') = KERNEL_SPACE_BOTTOM.
Proof.
  intros Hge Hsz. destruct (wp_total_inv _ _ _ (set_pml4_lemma s c0 base Hge Hsz))
    as (r & s' & E & -> & Hi & Ht & Hb & Hn & _).
  exists s'. split; [done|]. split; [by eexists|]. done.
Qed.

Lemma set_pml4_boots_witness :
  exists s', set_pml4 0x10000000 (demo TLB.t) = Ok (0, s') /\
    tables_ok s' demo_chunk 1 /\ (forall v, trans demo_chunk s' v = None) /\
    host_pml4_p (p_pager s') = 0x10000000 /\
    guest_next_free (p_pager s') = KERNEL_SPACE_BOTTOM.
Proof.
  apply (set_pml4_boots (demo TLB.t) demo_chunk 0x10000000);
    [constructor; try reflexivity; vm_compute; (reflexivity || intros; discriminate)
    |vm_compute; intros; discriminate].
Defined.

(** The slot of the next chunk: the last slot that was given back, or the number of chunks. *)
Definition next_slot (pg : PagerX86_64) : Z := default (Z.of_nat (length (chunks pg))) (last (free_slots pg)).

(** The pager with a chunk of [sz] bytes at the host address [p] behind the others. *)
Definition with_chunk (pg : PagerX86_64) (p sz : Z) : PagerX86_64 :=
  mkPager (_vmfd pg) (chunks pg ++ [mkChunk (next_slot pg) 0 (total_memsz pg) sz p]) (host_pml4_p pg)
    (host_next_free_tbl_p pg) (guest_next_free pg) (total_memsz pg + sz)
    (take (pred (length (free_slots pg))) (free_slots pg)).

Lemma with_chunk_ok pg p sz :
  chunks_ok pg -> 0 < sz -> sz mod 4096 = 0 -> 0 < p -> p mod 4096 = 0 -> p + sz <= 2 ^ 47 -> 0 <= total_memsz pg ->
  total_memsz pg + sz <= 2 ^ 52 -> chunks_ok (with_chunk pg p sz).
Proof.
  intros (Hl & Ht & Hb) Hsz Hm Hp Hpm Hpt Ht0 Htop. unfold chunks_ok, with_chunk. cbn [chunks total_memsz].
  pose proof (layout_end_mod 0 (chunks pg) Hl eq_refl) as Hlm. rewrite <- Ht in Hlm. split; [|split; [|done]].
  - apply layout_app. cbn [guest_phys_addr memory_size]. split_and!; [done|done| |done].
    constructor; cbn [guest_phys_addr memory_size userspace_addr]; try lia; split; (done || lia).
  - unfold layout_end in *. rewrite fold_left_app, Ht. done.
Qed.

(** C8. Adding guest memory, in every case.  For a size of at least a byte with which
    guest-physical memory stays within 52 bits, [create_mem_chunk] refuses a size that is not a multiple of
    the page size with [-EIO] and changes nothing; it returns the error of a failed
    allocation and leaves the pager alone; it fails its assertion when the slot of the chunk, the last
    one given back or else the number of chunks, is not below the number of slots
    of KVM; and otherwise the new chunk is the last, at the end of guest-physical memory,
    is handed to KVM, whose error is returned negated, the slot is no longer free,
    and the chunks still tile guest-physical memory from 0, whatever KVM
    answers.  Memory and lookaside buffer are never touched. *)
Theorem create_mem_chunk_correct {os T} `{HostOSLaws os} `{TranslationCache T}
    (s : pst os T) p0 sz :
  let pg := p_pager s in
  chunks_ok pg -> Z.of_nat (length (chunks pg)) < 2 ^ 32 -> 0 < sz -> 0 <= total_memsz pg -> total_memsz pg + sz <= 2 ^ 52 ->
  let '((e, p), o1) := posix_memalign (p_os s) HOST_PAGESIZE sz in
  let c := mkChunk (next_slot pg) 0 (total_memsz pg) sz p in
  let '((k, errno), o2) := set_user_memory_region o1 (_vmfd pg) c in
  create_mem_chunk p0 sz s =
    (if negb (sz mod 4096 =? 0) then Ok ((- EIO, p0), s)
     else if negb (e =? 0) then Ok ((e, p0), mkPst (p_mem s) (p_tlb s) o1 pg)
     else if KVM_MEMORY_SLOTS <=? next_slot pg then Fail Assert
     else Ok ((if k =? 0 then 0 else - errno, p), mkPst (p_mem s) (p_tlb s) o2 (with_chunk pg p sz))) /\
  (sz mod 4096 = 0 -> e = 0 -> chunks_ok (with_chunk pg p sz)).
Proof.
  intros pg Hok Hlen Hsz Ht0 Htop. destruct (posix_memalign (p_os s) HOST_PAGESIZE sz) as [[e p] o1] eqn:Em.
  intros c. destruct (set_user_memory_region o1 (_vmfd pg) c) as [[k errno] o2] eqn:Ek. split.
  2: { intros Hm ->. destruct (posix_memalign_ok _ _ _ _ _ Hsz Em) as (Hpa & Hp0 & Hptop & _).
       unfold HOST_PAGESIZE in Hpa. apply with_chunk_ok; done || lia. }
  unfold create_mem_chunk.
  assert (page_aligned sz = (sz mod 4096 =? 0)) as ->.
  { apply eq_bool_prop_intro. rewrite !Is_true_true, Z.eqb_eq. apply page_aligned_iff. unfold is_u64. lia. }
  destruct (Z.eqb_spec (sz mod 4096) 0) as [Hm|Hm]; cbn [negb]; [|done].
  unfold bind at 1, get at 1. rewrite Em. unfold bind at 1, put at 1. unfold ctrue at 1.
  destruct (Z.eqb_spec e 0) as [->|He]; cbn [negb]; [|done].
  assert (alloc_chunk p sz 0 (mkPst (p_mem s) (p_tlb s) o1 pg)
          = Ok (length (chunks pg), mkPst (p_mem s) (p_tlb s) o1 (with_chunk pg p sz))) as Ea.
  { unfold alloc_chunk, upd_pager, bind, gets, modify, ret, with_chunk, next_slot. cbn [p_pager p_mem p_tlb p_os].
    rewrite u64_small, u32_small by lia. by destruct (last (free_slots pg)). }
  fold pg. rewrite (bind_ok _ _ _ _ _ Ea). unfold map_chunk_to_kvm.
  do 3 (unfold bind at 1). unfold gets at 1, at_. cbn [p_pager with_chunk chunks].
  rewrite lookup_app_r, Nat.sub_diag by lia. cbn [lookup list_lookup]. unfold ret at 1. cbn [memory_size slot].
  replace (sz =? 0) with false by (symmetry; lia). unfold bind at 1, ret at 1. unfold bind at 1, assert_.
  rewrite Z.leb_antisym. destruct (next_slot pg <? KVM_MEMORY_SLOTS); cbn [negb]; [|done].
  unfold ret at 1. unfold bind at 1, get at 1. cbn [p_os p_pager p_mem p_tlb _vmfd with_chunk].
  change (set_user_memory_region o1 (_vmfd pg) _) with (set_user_memory_region o1 (_vmfd pg) c). rewrite Ek.
  unfold bind, put, ret, ctrue. by destruct (k =? 0).
Qed.

Lemma create_mem_chunk_correct_witness :
  create_mem_chunk 0 0x2000 (demo TLB.t) =
    Ok ((0, 0x10000000), mkPst (p_mem (demo TLB.t)) (p_tlb (demo TLB.t)) (p_os (after (create_mem_chunk 0 0x2000) (demo TLB.t)))
                           (with_chunk demo_pager 0x10000000 0x2000)) /\
  chunks_ok (with_chunk demo_pager 0x10000000 0x2000) /\
  chunks (with_chunk demo_pager 0x10000000 0x2000) = [demo_chunk; mkChunk 1 0 0x8000000 0x2000 0x10000000].
Proof.
  destruct (create_mem_chunk_correct (demo TLB.t) 0 0x2000) as [E Hc];
    [split; [apply demo_layout|split; [reflexivity|by vm_compute]]|by vm_compute|lia|by vm_compute|by vm_compute|].
  split; [|split; [exact (Hc eq_refl eq_refl)|reflexivity]]. rewrite E. reflexivity.
Defined.

(** C1. Mapping one page.  From a well-formed page-table tree with room for
    three more tables, [map_user_page] always returns: 0, with the page mapped
    to the frame of the host page with exactly the requested permissions, when
    the page was free or already mapped to that frame; -1, without touching
    it, when it is mapped to another frame.  The tree stays well-formed, no
    other page moves or loses a permission, and no memory outside the table
    area is written. *)
Theorem map_user_page_correct {os T} `{HostOS os} `{TranslationCache T}
    (s : pst os T) c0 N hp gv opts g :
  tables_ok s c0 N -> N + 3 <= 4096 -> 0 < gv ->
  hp < host_pml4_p (p_pager s) \/ host_pml4_p (p_pager s) + ELKVM_SYSTEM_MEMSIZE <= hp ->
  hp mod 4096 = gv mod 4096 ->
  g = host_to_guest_physical (chunks (p_pager s)) hp -> 0 < g < 2 ^ 52 ->
  exists r s', map_user_page hp gv opts s = Ok (r, s') /\
    map_effect s c0 gv g opts r s' /\
    exists N', N' <= N + 3 /\ tables_ok s' c0 N'.
Proof.
  intros [own Hinv] Hroom Hgv Hhp Hoff Eg Hg.
  destruct (wp_total_inv _ _ _ (map_user_page_lemma s c0 N own hp gv opts g
    Hinv Hroom Hgv Hhp Hoff Eg Hg)) as (r & s' & E & Hm & N' & own' & HN & Hi & _).
  exists r, s'. split; [done|]. split; [done|]. exists N'. split; [done|]. by exists own'.
Qed.

Lemma map_user_page_correct_witness :
  exists r s', map_user_page 0x11000042 0x400042 3 (demo TLB.t) = Ok (r, s') /\
    map_effect (demo TLB.t) demo_chunk 0x400042 0x1000042 3 r s' /\
    exists N', N' <= 1 + 3 /\ tables_ok s' demo_chunk N'.
Proof.
  apply (map_user_page_correct (demo TLB.t) demo_chunk 1 0x11000042 0x400042 3 0x1000042);
    [eexists; apply demo_inv|lia|lia|right; vm_compute; intros; discriminate|reflexivity
    |reflexivity|lia].
Defined.

(** Host and guest addresses with different page offsets are refused with
    [-EIO] and nothing is changed. *)
Theorem map_user_page_offset_mismatch {os T} `{HostOS os} `{TranslationCache T}
    (s : pst os T) hp gv opts :
  gv <> 0 ->
  hp < host_pml4_p (p_pager s) \/ host_pml4_p (p_pager s) + ELKVM_SYSTEM_MEMSIZE <= hp ->
  hp mod 4096 <> gv mod 4096 -> map_user_page hp gv opts s = Ok (- EIO, s).
Proof. apply map_user_page_misaligned. Qed.

Lemma map_user_page_offset_mismatch_witness :
  map_user_page 0x11000042 0x400043 3 (demo TLB.t) = Ok (- EIO, demo TLB.t).
Proof.
  apply (map_user_page_offset_mismatch (demo TLB.t));
    [lia|right; vm_compute; intros; discriminate|vm_compute; intros; discriminate].
Defined.

(** C2. Mapping a region.  If every page of the region is backed by guest
    memory outside the tables and is free (or already mapped to its frame), host and guest address have the
    same page offset and there is room for three tables per 2 MB area,
    [map_region] returns 0 with every page mapped to its own frame with exactly
    the requested permissions; pages outside the region are not moved and lose
    no permission; at most three tables per 2 MB area are added. *)
Theorem map_region_correct {os T} `{HostOS os} `{TranslationCache T}
    (s : pst os T) c0 N hp gv pages opts :
  tables_ok s c0 N -> region_backed s c0 hp gv pages ->
  0 < gv -> 0 <= pages -> gv + 4096 * pages <= 2 ^ 48 -> hp mod 4096 = gv mod 4096 ->
  N + 3 * (areas gv pages + 1) <= 4096 ->
  exists s', map_region hp gv pages opts s = Ok (0, s') /\ outside s s' /\
    (exists N', N' <= N + 3 * areas gv pages /\ tables_ok s' c0 N') /\
    (forall j, 0 <= j < pages ->
       mapped s' c0 (gv + 4096 * j)
              (host_to_guest_physical (chunks (p_pager s)) (hp + 4096 * j)) opts) /\
    (forall v, in_pages gv pages v = false -> le_perm (trans c0 s v) (trans c0 s' v)).
Proof.
  intros Ht Hb Hgv Hp Htop Hoff Hroom.
  destruct (wp_total_inv _ _ _ (map_region_lemma s c0 N hp gv pages opts Hb Hgv Hp Htop Hoff Hroom Ht))
    as (r & s' & E & -> & Ho & HN & Hm & Hle).
  exists s'. done.
Qed.

Lemma map_region_correct_witness :
  exists s', map_region 0x11000000 0x1ff000 3 1 (demo TLB.t) = Ok (0, s') /\ outside (demo TLB.t) s' /\
    (exists N', N' <= 1 + 3 * areas 0x1ff000 3 /\ tables_ok s' demo_chunk N') /\
    (forall j, 0 <= j < 3 ->
       mapped s' demo_chunk (0x1ff000 + 4096 * j)
              (host_to_guest_physical (chunks demo_pager) (0x11000000 + 4096 * j)) 1) /\
    (forall v, in_pages 0x1ff000 3 v = false ->
       le_perm (trans demo_chunk (demo TLB.t) v) (trans demo_chunk s' v)).
Proof.
  apply (map_region_correct (demo TLB.t) demo_chunk 1 0x11000000 0x1ff000 3 1);
    [eexists; apply demo_inv| |lia|lia|lia|reflexivity|vm_compute; intros; discriminate].
  intros i Hi. assert (i = 0 \/ i = 1 \/ i = 2) as [->|[->| ->]] by lia;
    (split; [right; vm_compute; intros; discriminate|]); (split; [by vm_compute|]);
    intros f; unfold frame_of; rewrite leaf_of_trans, demo_trans; discriminate.
Defined.

(** C3. Unmapping a region.  [unmap_region] removes exactly the leading mapped
    pages: it returns 0 when all pages were mapped, and otherwise -1 at the
    first page that is not.  Every other translation, the tree and all memory
    outside the tables are unchanged. *)
Theorem unmap_region_correct {os T} `{HostOS os} `{TranslationCache T}
    (s : pst os T) c0 N gv pages :
  tables_ok s c0 N -> 0 < gv -> 0 <= pages -> gv + 4096 * pages <= 2 ^ 48 ->
  exists r s' n, unmap_region gv pages s = Ok (r, s') /\ tables_ok s' c0 N /\ outside s s' /\
    0 <= n <= pages /\
    (forall i, 0 <= i < n -> is_Some (trans c0 s (gv + 4096 * i))) /\
    (forall v, trans c0 s' v = if in_pages gv n v then None else trans c0 s v) /\
    ((r = 0 /\ n = pages) \/ (r = -1 /\ n < pages /\ trans c0 s (gv + 4096 * n) = None)).
Proof.
  intros [own Hinv] Hgv Hp Htop.
  destruct (wp_total_inv _ _ _ (unmap_region_lemma s c0 N own gv pages Hinv Hgv Hp Htop))
    as (r & s' & E & Hi & Ho & n & Hn).
  exists r, s', n. split; [done|]. split; [by exists own|]. done.
Qed.

Lemma unmap_region_correct_witness :
  exists r s' n, unmap_region 0x400000 2 (demo TLB.t) = Ok (r, s') /\
    tables_ok s' demo_chunk 1 /\ outside (demo TLB.t) s' /\ 0 <= n <= 2 /\
    (forall i, 0 <= i < n -> is_Some (trans demo_chunk (demo TLB.t) (0x400000 + 4096 * i))) /\
    (forall v, trans demo_chunk s' v =
               if in_pages 0x400000 n v then None else trans demo_chunk (demo TLB.t) v) /\
    ((r = 0 /\ n = 2) \/
     (r = -1 /\ n < 2 /\ trans demo_chunk (demo TLB.t) (0x400000 + 4096 * n) = None)).
Proof.
  apply (unmap_region_correct (demo TLB.t) demo_chunk 1 0x400000 2);
    [eexists; apply demo_inv|lia..].
Defined.

(** C5. Mapping a page into the kernel area.  When page [k] is the first free
    page from the start of the kernel area (in the first page table) and there is room for three tables,
    [map_kernel_page] terminates, returns the address of that page with the
    host page's offset, and leaves it mapped with exactly the requested
    permissions; nothing else moves. *)
Theorem map_kernel_page_correct {os T} `{HostOS os} `{TranslationCache T}
    (s : pst os T) c0 N hp opts k :
  let base := kernel_base s hp in
  let g := host_to_guest_physical (chunks (p_pager s)) hp in
  tables_ok s c0 N -> N + 3 <= 4096 -> is_u64 (guest_next_free (p_pager s)) ->
  0 <= g < 2 ^ 52 -> 0 < base -> 0 <= k -> idx 1 base + k < 512 -> base + 4096 * k < 2 ^ 64 ->
  trans c0 s (base + 4096 * k) = None ->
  (forall i, 0 <= i < k -> is_Some (trans c0 s (base + 4096 * i))) ->
  exists s', map_kernel_page hp opts s = Ok (base + 4096 * k, s') /\
    mapped s' c0 (base + 4096 * k) g opts /\ outside s s' /\
    (exists N', N' <= N + 3 /\ tables_ok s' c0 N') /\
    (forall v, vpn v <> vpn (base + 4096 * k) -> le_perm (trans c0 s v) (trans c0 s' v)).
Proof.
  intros base g Ht Hroom Hn Hg Hb Hk0 Hk Htop Hfree Hused.
  destruct (wp_total_inv _ _ _ (map_kernel_page_lemma s c0 N hp opts k Hroom Hn Hg Hb Hk0 Hk Htop
    Hfree Hused Ht)) as (r & s' & E & -> & Hm & Ho & HN & Hle).
  exists s'. done.
Qed.

Lemma map_kernel_page_correct_witness :
  exists s', map_kernel_page 0x11000010 2 (demo TLB.t) = Ok (0xFFFF800000000010, s') /\
    mapped s' demo_chunk 0xFFFF800000000010 0x1000010 2 /\ outside (demo TLB.t) s' /\
    (exists N', N' <= 1 + 3 /\ tables_ok s' demo_chunk N') /\
    (forall v, vpn v <> vpn 0xFFFF800000000010 ->
       le_perm (trans demo_chunk (demo TLB.t) v) (trans demo_chunk s' v)).
Proof.
  apply (map_kernel_page_correct (demo TLB.t) demo_chunk 1 0x11000010 2 0);
    [eexists; apply demo_inv|lia|by vm_compute|by vm_compute|by vm_compute|lia|by vm_compute
    |by vm_compute|apply demo_trans|lia].
Defined.

(** C4. Address translation.  While the lookaside buffer agrees with the page
    tables, [get_host_p] of an address outside page 0 is the processor's
    translation followed by the chunk lookup, 0 when there is none; the tables
    are unchanged and the buffer still agrees.  This holds for either
    lookaside buffer of the source. *)
Theorem get_host_p_correct {os T} `{HostOS os} `{TranslationCacheLaws T}
    (s : pst os T) c0 N v :
  tables_ok s c0 N -> Forall chunk_ok (chunks (p_pager s)) -> coherent c0 s ->
  is_u64 v -> page_begin v <> 0 ->
  exists s', get_host_p v s = Ok (default 0 (host_of c0 s v), s') /\ coherent c0 s' /\
    p_mem s' = p_mem s /\ p_pager s' = p_pager s.
Proof.
  intros [own Hinv] Hcs Hco Hv Hp.
  destruct (wp_total_inv _ _ _ (get_host_p_lemma s c0 N own v Hinv Hcs Hco Hv Hp))
    as (r & s' & E & -> & Hc & Hm & Hpg & _).
  by exists s'.
Qed.

(** A fresh lookaside buffer agrees with every page table. *)
Lemma coherent_fresh {os T} `{HostOS os} `{TranslationCacheLaws T} (s : pst os T) c0 :
  p_tlb s = tc_new -> coherent c0 s.
Proof.
  intros E. unfold coherent. rewrite E. split; [apply tc_ok_new|].
  intros v f Hv Hp. by rewrite tc_frame_new.
Qed.

Lemma get_host_p_correct_witness :
  exists s', get_host_p 0x400042 (demo TLB.t) = Ok (0, s') /\ coherent demo_chunk s' /\
    p_mem s' = p_mem (demo TLB.t) /\ p_pager s' = p_pager (demo TLB.t).
Proof.
  apply (get_host_p_correct (demo TLB.t) demo_chunk 1 0x400042);
    [eexists; apply demo_inv|apply demo_chunk_ok|by apply coherent_fresh|by vm_compute|].
  vm_compute. discriminate.
Defined.

Lemma map_effect_frames {os T} (s s' : pst os T) c0 gv g opts r v f :
  0 <= g < 2 ^ 52 -> map_effect s c0 gv g opts r s' ->
  frame_of c0 s v = Some f -> frame_of c0 s' v = Some f.
Proof.
  intros Hg [_ Hoth Hpg] Hf. destruct (decide (vpn v = vpn gv)) as [E|E].
  - unfold frame_of in *. rewrite leaf_of_trans in Hf |- *. rewrite !(trans_vpn _ _ v gv E) in *.
    rewrite leaf_of_trans in Hpg. rewrite Hf in Hpg.
    destruct (Z.eqb_spec f (page_begin g)) as [->|].
    + destruct Hpg as [_ Hm]. unfold mapped in Hm. rewrite Hm. simpl. by rewrite entry_value_frame.
    + destruct Hpg as [_ Hle]. rewrite <- (le_perm_leaf _ _ Hle). done.
  - specialize (Hoth v E). unfold frame_of in *. rewrite !leaf_of_trans in *.
    by rewrite <- (le_perm_leaf _ _ Hoth).
Qed.

Lemma map_effect_coherent {os T} `{HostOS os} `{TranslationCacheLaws T} (s s' : pst os T)
    c0 gv g opts r :
  0 <= g < 2 ^ 52 -> coherent c0 s -> map_effect s c0 gv g opts r s' -> coherent c0 s'.
Proof.
  intros Hg Hco Hm. pose proof (me_outside _ _ _ _ _ _ _ Hm) as Ho.
  destruct (outside_chunks _ _ Ho). eapply coherent_mono; [done|apply Ho|done|].
  intros v f. by eapply map_effect_frames.
Qed.

(** The host address of a page mapped from it. *)
Lemma mapped_host_of {os T} `{HostOS os} `{TranslationCacheLaws T} (s : pst os T) c0 hp gv opts :
  layout 0 (chunks (p_pager s)) -> is_u64 gv -> hp mod 4096 = gv mod 4096 ->
  let g := host_to_guest_physical (chunks (p_pager s)) hp in
  0 < g < 2 ^ 52 -> mapped s c0 gv g opts -> host_of c0 s gv = Some hp.
Proof.
  intros Hl Hgv Hoff g Hg Hm. unfold host_of, frame_of. rewrite leaf_of_trans, Hm. simpl.
  rewrite entry_value_frame, page_begin_eq by (unfold is_u64; lia).
  subst g. unfold host_to_guest_physical, find_chunk_for_host_p in *.
  destruct (find _ (chunks (p_pager s))) as [c|] eqn:E; [|lia].
  apply find_some in E as [Hin Hc]. unfold contains_address in Hc.
  rewrite andb_true_iff, Z.leb_le, Z.ltb_lt in Hc. apply list_elem_of_In in Hin.
  pose proof (layout_chunk_ok _ _ Hl) as Hok. rewrite Forall_forall in Hok.
  specialize (Hok c Hin). destruct Hok as [G1 G2 G3 G4 G5].
  rewrite u64_small in * by lia.
  assert ((hp - userspace_addr c + guest_phys_addr c) mod 4096 = gv mod 4096) as Em
    by (Z.div_mod_to_equations; lia).
  rewrite Em. rewrite (layout_find 0 _ c); [simpl; f_equal; lia|done|done|].
  split; lia.
Qed.

(** Mapping and translating are inverse: after a successful
    [map_user_page hp gv], [get_host_p gv] returns [hp], whatever the lookaside
    buffer held, as long as it agreed with the tables before. *)
Theorem map_then_get_host_p {os T} `{HostOS os} `{TranslationCacheLaws T}
    (s s1 : pst os T) c0 N hp gv opts :
  tables_ok s c0 N -> N + 3 <= 4096 -> layout 0 (chunks (p_pager s)) -> coherent c0 s ->
  is_u64 gv -> page_begin gv <> 0 ->
  hp < host_pml4_p (p_pager s) \/ host_pml4_p (p_pager s) + ELKVM_SYSTEM_MEMSIZE <= hp ->
  0 < host_to_guest_physical (chunks (p_pager s)) hp < 2 ^ 52 ->
  map_user_page hp gv opts s = Ok (0, s1) ->
  exists s2, get_host_p gv s1 = Ok (hp, s2) /\ coherent c0 s2.
Proof.
  intros [own Hinv] Hroom Hl Hco Hgv Hp Hhp Hg E.
  assert (0 < gv) as Hpos.
  { assert (gv <> 0) by (intros ->; by apply Hp). unfold is_u64 in Hgv. lia. }
  assert (hp mod 4096 = gv mod 4096) as Hoff.
  { destruct (decide (hp mod 4096 = gv mod 4096)) as [|Hne]; [done|].
    rewrite (map_user_page_misaligned s) in E; [done|lia|done|done]. }
  pose proof (map_user_page_lemma s c0 N own hp gv opts _ Hinv Hroom Hpos Hhp Hoff eq_refl Hg) as Hw.
  destruct (wp_partial_inv _ _ _ _ _ _ Hw E) as (Hm & N' & own' & _ & Hinv' & _).
  assert (coherent c0 s1) as Hco1 by (eapply map_effect_coherent; [|exact Hco|exact Hm]; lia).
  destruct (outside_chunks _ _ (me_outside _ _ _ _ _ _ _ Hm)) as [Ec _].
  assert (host_of c0 s1 gv = Some hp) as Hh.
  { apply (mapped_host_of s1 c0 hp gv opts); rewrite ?Ec; try done.
    destruct Hm as [_ _ Hpg]. destruct (frame_of c0 s gv) as [f|]; [|apply Hpg].
    destruct (f =? _); [apply Hpg|]. by destruct Hpg. }
  pose proof (layout_chunk_ok _ _ Hl) as Hok. rewrite <- Ec in Hok.
  destruct (wp_total_inv _ _ _ (get_host_p_lemma s1 c0 N' own' gv Hinv' Hok Hco1 Hgv Hp))
    as (r & s2 & E2 & -> & Hc2 & _).
  exists s2. by rewrite Hh in E2.
Qed.

Lemma map_then_get_host_p_witness :
  let s1 := after (map_user_page 0x11000042 0x400042 3) (demo TLB.t) in
  exists s2, get_host_p 0x400042 s1 = Ok (0x11000042, s2) /\ coherent demo_chunk s2.
Proof.
  apply (map_then_get_host_p (demo TLB.t) _ demo_chunk 1 0x11000042 0x400042 3);
    [eexists; apply demo_inv|lia|apply demo_layout|by apply coherent_fresh|by vm_compute
    |vm_compute; discriminate|right; vm_compute; discriminate|by vm_compute|].
  apply ok_after. vm_compute. reflexivity.
Defined.

(** The lookaside buffer is not invalidated: a page that was translated
    once and then unmapped with [free_page] is still translated to its old
    host address, although the page tables no longer map it. *)
Theorem tlb_stale_after_free :
  exists s1 s2 s3 s4 : pst bump_os TLB.t,
    map_user_page 0x11000042 0x400042 3 (demo TLB.t) = Ok (0, s1) /\
    get_host_p 0x400042 s1 = Ok (0x11000042, s2) /\
    free_page 0x400042 s2 = Ok (0, s3) /\
    trans demo_chunk s3 0x400042 = None /\
    get_host_p 0x400042 s3 = Ok (0x11000042, s4).
Proof.
  do 4 eexists. split; [apply ok_after; vm_compute; reflexivity|].
  split; [apply ok_after; vm_compute; reflexivity|].
  split; [apply ok_after; vm_compute; reflexivity|].
  split; [vm_compute; reflexivity|apply ok_after; vm_compute; reflexivity].
Qed.

(** The array lookaside buffer answers for page 0 before anything was
    entered: a guest pointer below 4096 is returned as if it were a host
    pointer.  The [std::map] variant reports it as unmapped. *)
Theorem tlb_null_page_hit :
  (exists s, get_host_p 0x43 (demo TLB.t) = Ok (0x43, s)) /\
  (exists s, get_host_p 0x43 (demo MappedTLB.t) = Ok (0, s)) /\
  trans demo_chunk (demo TLB.t) 0x43 = None.
Proof.
  split; [eexists; apply ok_after; vm_compute; reflexivity|].
  split; [eexists; apply ok_after; vm_compute; reflexivity|vm_compute; reflexivity].
Qed.
