(* ===== verification/Region.v ===== *)
(** * Memory regions: [class Region] of [src/region.cc]

    A region is a piece of host memory that backs guest memory.  Regions are
    shared objects ([std::shared_ptr<Region>]) that are changed in place, so
    the model keeps them in a store and passes their identities around. *)

From stdpp Require Export strings.
From S2P Require Import Prelude PageMath.
Local Open Scope Z_scope.

Record Region := mkRegion {
  host_p : Z;
  addr : Z;
  rsize : Z;
  free : bool;
  name : string;
}.

#[export] Instance Region_eq_dec : EqDecision Region.
Proof. solve_decision. Defined.

Definition anon : string := "anon region".

(** The constructor. *)
Definition Region_new (chunk_p size : Z) (title : string) : Region :=
  mkRegion chunk_p 0 size true title.

(** ** Accessors *)

Definition base_address (r : Region) : Z := host_p r.
Definition guest_address (r : Region) : Z := addr r.
Definition is_free (r : Region) : bool := free r.
Definition size (r : Region) : Z := rsize r.
Definition set_free (r : Region) : Region := mkRegion (host_p r) 0 (rsize r) true (name r).
Definition set_guest_addr (a : Z) (r : Region) : Region :=
  mkRegion (host_p r) a (rsize r) (free r) (name r).
Definition set_used (r : Region) : Region :=
  mkRegion (host_p r) (addr r) (rsize r) false (name r).

(** [contains_address] for a host pointer and for a guest address: the sum of
    the latter is a 64-bit sum. *)
Definition contains_host (r : Region) (p : Z) : bool :=
  (host_p r <=? p) && (p <? host_p r + rsize r).
Definition contains_guest (r : Region) (g : Z) : bool :=
  (addr r <=? g) && (g <? u64 (addr r + rsize r)).

(** The assertion looks at the region's own base, not at the argument. *)
Definition offset_in_region (r : Region) (guest_addr : Z) : res Z :=
  if contains_guest r (addr r) then Ok (s64 (guest_addr - addr r)) else Fail Assert.

Definition space_after_address (r : Region) (p : Z) : res Z :=
  if contains_host r p then Ok (u64 (host_p r + rsize r - p)) else Fail Assert.

Definition last_valid_address (r : Region) : Z := host_p r + rsize r.
Definition last_valid_guest_address (r : Region) : Z := u64 (addr r + rsize r - 1).

(** [operator==]: names do not matter. *)
Definition region_eqb (r1 r2 : Region) : bool :=
  (base_address r1 =? base_address r2) && (guest_address r1 =? guest_address r2)
  && (size r1 =? size r2) && Bool.eqb (is_free r1) (is_free r2).

(** ** The store *)

Definition rid : Type := nat.
Record rstore := mkStore { objs : gmap rid Region; next_rid : rid }.

Definition lookup_region (i : rid) : M rstore Region :=
  let! s := get in deref (objs s !! i).

Definition update_region (i : rid) (r : Region) : M rstore unit :=
  modify (fun s => mkStore (<[i := r]> (objs s)) (next_rid s)).

(** [std::make_shared<Region>(...)]. *)
Definition make_region (r : Region) : M rstore rid :=
  let! s := get in
  do! put (mkStore (<[next_rid s := r]> (objs s)) (S (next_rid s))) in
  ret (next_rid s).

(** Cut [sz] bytes, rounded up to pages, off the front; the object keeps the
    rest and the new region is returned. *)
Definition slice_begin (i : rid) (sz : Z) (purpose : string) : M rstore rid :=
  let! self := lookup_region i in
  do! assert_ (0 <? sz) in
  do! assert_ (pagesize_align sz <? rsize self) in
  let r := Region_new (host_p self) (pagesize_align sz) purpose in
  let! j := make_region r in
  let self' := mkRegion (host_p self + size r)
                        (if negb (addr self =? 0) then u64 (addr self + size r) else addr self)
                        (u64 (rsize self - size r)) (free self) (name self) in
  do! update_region i self' in
  do! assert_ (0 <? rsize self') in
  do! assert_ (0 <? size r) in
  ret j.

(** Cut the bytes [off .. off + len) out of the middle: the object keeps the
    front; the region behind the hole and the hole itself are returned. *)
Definition slice_center (i : rid) (off len : Z) : M rstore (rid * rid) :=
  let! self := lookup_region i in
  do! assert_ (contains_host self (host_p self + off + len)) in
  do! assert_ (0 <? off) in
  do! assert_ (u32 off <=? rsize self) in
  let r := set_guest_addr (u64 (addr self + off))
             (Region_new (host_p self + off + len) (u64 (rsize self - off - len)) anon) in
  let! j := make_region r in
  do! update_region i (mkRegion (host_p self) (addr self) (u64 off) (free self) (name self)) in
  let! k := make_region (Region_new (host_p self + off) len anon) in
  ret (j, k).

(** ** Lemmas *)

(** A region is a nonempty sequence of whole pages. *)
Record region_ok (r : Region) : Prop := mkRegionOk {
  ro_base : 0 < host_p r /\ host_p r mod 4096 = 0;
  ro_size : 0 < rsize r /\ rsize r mod 4096 = 0;
  ro_top : host_p r + rsize r <= 2 ^ 47;
}.

(** The bytes of host memory a region covers. *)
Definition covers (r : Region) (a : Z) : Prop := host_p r <= a < host_p r + rsize r.

Lemma contains_host_covers r a : contains_host r a = true <-> covers r a.
Proof. unfold contains_host, covers. rewrite andb_true_iff, Z.leb_le, Z.ltb_lt. done. Qed.

(** Every identity below [next_rid] and no other is in use. *)
Definition store_ok (s : rstore) : Prop := forall i, is_Some (objs s !! i) -> (i < next_rid s)%nat.

Lemma store_fresh s : store_ok s -> objs s !! next_rid s = None.
Proof.
  intros Hs. destruct (objs s !! next_rid s) eqn:E; [|done].
  pose proof (Hs (next_rid s) (mk_is_Some _ _ E)). lia.
Qed.

Lemma pagesize_align_bounds sz :
  0 < sz <= 2 ^ 47 ->
  sz <= pagesize_align sz < sz + 4096 /\ pagesize_align sz mod 4096 = 0.
Proof.
  intros Hs. rewrite pagesize_align_eq by lia. split.
  - Z.div_mod_to_equations. lia.
  - apply Z.mod_mul. lia.
Qed.

(** What [slice_begin] does: the two regions are exactly the old one. *)
Lemma slice_begin_spec s i self sz purpose :
  store_ok s -> objs s !! i = Some self -> region_ok self -> 0 < sz <= 2 ^ 47 ->
  pagesize_align sz < rsize self -> addr self + rsize self < 2 ^ 64 -> 0 <= addr self ->
  let a := pagesize_align sz in
  let r := Region_new (host_p self) a purpose in
  let rest := mkRegion (host_p self + a) (if addr self =? 0 then 0 else addr self + a)
                       (rsize self - a) (free self) (name self) in
  slice_begin i sz purpose s =
    Ok (next_rid s, mkStore (<[i := rest]> (<[next_rid s := r]> (objs s))) (S (next_rid s))) /\
  region_ok r /\ region_ok rest /\ sz <= a /\
  (forall x, covers self x <-> covers r x \/ covers rest x) /\
  (forall x, covers r x -> covers rest x -> False).
Proof.
  intros Hs Hi [Hb Hz Ht] Hsz Hlt Hg Hg0 a r rest.
  destruct (pagesize_align_bounds sz ltac:(lia)) as [Ha Ham]. fold a in Ha, Ham.
  split.
  - unfold slice_begin, lookup_region, bind, get, deref. rewrite Hi. unfold ret, assert_ at 1.
    replace (0 <? sz) with true by (symmetry; apply Z.ltb_lt; lia). unfold assert_ at 1, ret.
    replace (_ <? rsize self) with true by (symmetry; by apply Z.ltb_lt).
    unfold make_region, bind, get, put, ret, update_region, modify, assert_. cbn [rsize size Region_new].
    fold a. rewrite (u64_small (rsize self - a)) by lia.
    replace (0 <? rsize self - a) with true by (symmetry; apply Z.ltb_lt; unfold a; lia).
    replace (0 <? a) with true by (symmetry; apply Z.ltb_lt; lia). unfold ret.
    do 4 f_equal. unfold rest. destruct (Z.eqb_spec (addr self) 0) as [->|]; cbn [negb]; [done|].
    rewrite u64_small by lia. done.
  - unfold covers. split; [constructor; cbn; lia|]. split; [constructor; cbn; [..|lia]|].
    + split; [lia|]. rewrite Z.add_mod, Ham by lia. rewrite (proj2 Hb). done.
    + split; [unfold a; lia|]. rewrite Zminus_mod, Ham, (proj2 Hz). done.
    + cbn. split; [lia|]. split; intros; lia.
Qed.

(** What [slice_center] does to host memory: front, hole and tail are exactly
    the old region. *)
Lemma slice_center_spec s i self off len :
  store_ok s -> objs s !! i = Some self -> region_ok self ->
  0 < off -> 0 <= len -> off + len < rsize self -> 0 <= addr self ->
  let front := mkRegion (host_p self) (addr self) off (free self) (name self) in
  let tail := mkRegion (host_p self + off + len) (u64 (addr self + off))
                       (rsize self - off - len) true anon in
  let hole := Region_new (host_p self + off) len anon in
  slice_center i off len s =
    Ok ((next_rid s, S (next_rid s)),
        mkStore (<[S (next_rid s) := hole]> (<[i := front]> (<[next_rid s := tail]> (objs s))))
                (S (S (next_rid s)))) /\
  (forall x, covers self x <-> covers front x \/ covers hole x \/ covers tail x) /\
  (forall x, (covers front x -> ~ covers hole x) /\ (covers front x -> ~ covers tail x) /\
             (covers hole x -> ~ covers tail x)).
Proof.
  intros Hs Hi [Hb Hz Ht] Hoff Hlen Hlt Hg0 front tail hole. split.
  - unfold slice_center, lookup_region, bind, get, deref. rewrite Hi. unfold ret, assert_.
    replace (contains_host _ _) with true
      by (symmetry; apply contains_host_covers; unfold covers; lia).
    replace (0 <? off) with true by (symmetry; apply Z.ltb_lt; lia).
    replace (u32 off <=? rsize self) with true
      by (symmetry; apply Z.leb_le; unfold u32; pose proof (Z.mod_le off (2 ^ 32)); lia).
    unfold make_region, bind, get, put, ret, update_region, modify. cbn [objs next_rid].
    rewrite (u64_small off), (u64_small (rsize self - off - len)) by lia.
    unfold set_guest_addr, Region_new. cbn [host_p rsize free name]. done.
  - unfold covers. cbn. split; intros x; lia.
Qed.
