(* ===== verification/RegionManager.v ===== *)
(** * The region manager: [class RegionManager] of [src/region_manager.cc]

    All guest memory is cut into regions; a region is allocated or sits in one
    of 17 free lists by size.  The manager owns the pager. *)

From S2P Require Import Prelude Memory PageMath HostOS Tlb Pager Region.
Local Open Scope Z_scope.

Definition n_freelists : nat := 17.

Record rm (os T : Type) := mkRM {
  allocated_regions : list rid;
  freelists : list (list rid);
  rm_store : rstore;
  rm_pager : pst os T;
}.
Arguments mkRM {os T}.
Arguments allocated_regions {os T}.
Arguments freelists {os T}.
Arguments rm_store {os T}.
Arguments rm_pager {os T}.

Definition get_freelist_idx (size : Z) : nat :=
  if size <=? 0x1000 then 0%nat
  else if size <=? 0x2000 then 1%nat
  else if size <=? 0x4000 then 2%nat
  else if size <=? 0x8000 then 3%nat
  else if size <=? 0x10000 then 4%nat
  else if size <=? 0x20000 then 5%nat
  else if size <=? 0x40000 then 6%nat
  else if size <=? 0x80000 then 7%nat
  else if size <=? 0x100000 then 8%nat
  else if size <=? 0x200000 then 9%nat
  else if size <=? 0x400000 then 10%nat
  else if size <=? 0x800000 then 11%nat
  else if size <=? 0x1000000 then 12%nat
  else if size <=? 0x2000000 then 13%nat
  else if size <=? 0x4000000 then 14%nat
  else if size <=? 0x8000000 then 15%nat
  else 16%nat.

Section RegionManager.
Context {os T : Type} `{HostOS os} `{TranslationCache T}.
Local Abbreviation RM := (M (rm os T)).

Definition on_store {A} (c : M rstore A) : RM A :=
  zoom rm_store (fun st m => mkRM (allocated_regions m) (freelists m) st (rm_pager m)) c.

Definition on_pager {A} (c : M (pst os T) A) : RM A :=
  zoom rm_pager (fun p m => mkRM (allocated_regions m) (freelists m) (rm_store m) p) c.

Definition set_lists (al : list rid) (fl : list (list rid)) : RM unit :=
  modify (fun m => mkRM al fl (rm_store m) (rm_pager m)).

(** A predicate on the object behind an element of a list of regions. *)
Definition is_region (m : rm os T) (P : Region -> bool) (i : rid) : bool :=
  match objs (rm_store m) !! i with Some r => P r | None => false end.

Definition find_region (P : Region -> bool) : RM (option rid) :=
  gets (fun m => List.find (is_region m P) (allocated_regions m)).

Definition find_region_host (p : Z) : RM (option rid) :=
  find_region (fun a => contains_host a p).
Definition find_region_guest (g : Z) : RM (option rid) :=
  find_region (fun a => contains_guest a g).

(** First fit in the free list of the size, then in the larger ones. *)
Fixpoint find_free_from (n : nat) (list_idx : nat) (sz : Z) : RM (option rid) :=
  match n with
  | O => ret None
  | S n' =>
      let! m := get in
      let! l := at_ (freelists m) list_idx in
      match find_idx (is_region m (fun a => sz <=? size a)) l with
      | Some k =>
          let! r := at_ l k in
          do! set_lists (allocated_regions m) (<[list_idx := erase k l]> (freelists m)) in
          ret (Some r)
      | None => find_free_from n' (S list_idx) sz
      end
  end.

Definition find_free_region (sz : Z) : RM (option rid) :=
  let list_idx := get_freelist_idx sz in
  find_free_from (n_freelists - list_idx) list_idx sz.

(** [freelists[idx].push_back(r)]; the index is always in range. *)
Definition push_free (idx : nat) (r : rid) : RM unit :=
  let! m := get in
  let! l := at_ (freelists m) idx in
  set_lists (allocated_regions m) (<[idx := l ++ [r]]> (freelists m)).

Definition add_free_region (r : rid) : RM unit :=
  let! reg := on_store (lookup_region r) in
  push_free (get_freelist_idx (size reg)) r.

Definition add_chunk (sz : Z) (purpose : string) : RM Z :=
  let grow_size := if ELKVM_SYSTEM_MEMGROW <? sz then pagesize_align sz
                   else ELKVM_SYSTEM_MEMGROW in
  let! '(err, chunk_p) := on_pager (create_mem_chunk 0 grow_size) in
  if ctrue err then ret err else
  let idx := get_freelist_idx grow_size in
  let! r := on_store (make_region (Region_new chunk_p grow_size purpose)) in
  do! push_free idx r in
  ret 0.

Definition use_region (r : rid) : RM unit :=
  let! reg := on_store (lookup_region r) in
  do! assert_ (is_free reg) in
  do! on_store (update_region r (set_used reg)) in
  let! m := get in
  set_lists (allocated_regions m ++ [r]) (freelists m).

Definition allocate_region (sz : Z) (purpose : string) : RM rid :=
  let! r := find_free_region sz in
  let! r := match r with
            | Some r => ret r
            | None =>
                let! err := add_chunk sz purpose in
                do! assert_ (err =? 0) in
                let! r := find_free_region sz in
                match r with
                | Some r => ret r
                | None => fail Assert
                end
            end in
  let! reg := on_store (lookup_region r) in
  let! r := (if pagesize_align sz <? size reg then
               let! new_region := on_store (slice_begin r sz purpose) in
               do! add_free_region r in
               ret new_region
             else ret r) in
  do! use_region r in
  let! reg := on_store (lookup_region r) in
  do! assert_ (sz <=? size reg) in
  ret r.

(** The two overloads of [free_region]. *)
Definition free_region (r : rid) : RM unit :=
  let! m := get in
  match find_idx (fun i => bool_decide (i = r)) (allocated_regions m) with
  | None => fail Assert
  | Some k =>
      do! set_lists (erase k (allocated_regions m)) (freelists m) in
      let! reg := on_store (lookup_region r) in
      do! on_store (update_region r (set_free reg)) in
      push_free (get_freelist_idx (size reg)) r
  end.

Definition free_region_at (p sz : Z) : RM unit :=
  let! m := get in
  match find_idx (is_region m (fun a => contains_host a p)) (allocated_regions m) with
  | None => fail Assert
  | Some k =>
      let! r := at_ (allocated_regions m) k in
      let! reg := on_store (lookup_region r) in
      do! assert_ (contains_host reg p) in
      do! assert_ (size reg =? sz) in
      do! on_store (update_region r (set_free reg)) in
      do! push_free (get_freelist_idx sz) r in
      let! m := get in
      set_lists (erase k (allocated_regions m)) (freelists m)
  end.

Definition host_address_mapped (p : Z) : RM bool :=
  gets (fun m => existsb (is_region m (fun a => contains_host a p)) (allocated_regions m)).

Definition same_region (p1 p2 : Z) : RM bool :=
  let! r := find_region_host p1 in
  let! r := deref r in
  let! reg := on_store (lookup_region r) in
  ret (contains_host reg p2).

(** The constructor's body, after the pager's constructor. *)
Definition RegionManager_init : RM unit :=
  let! r := allocate_region ELKVM_PAGER_MEMSIZE "ELKVM Pager Memory" in
  let! reg := on_store (lookup_region r) in
  let! _pml4 := on_pager (set_pml4 (base_address reg)) in
  ret tt.

Definition RegionManager_new (vmfd : Z) (m : mem) (t : T) (o : os) : res (unit * rm os T) :=
  match PagerX86_64_new vmfd with
  | Fail f => Fail f
  | Ok pg => RegionManager_init
               (mkRM [] (replicate n_freelists []) (mkStore ∅ 0%nat) (mkPst m t o pg))
  end.
End RegionManager.

(** ** The size classes *)

Lemma get_freelist_idx_range sz : (get_freelist_idx sz < n_freelists)%nat.
Proof. unfold get_freelist_idx, n_freelists. repeat case_match; lia. Qed.

(** The free lists are powers of two, from one page to 128 MB and above. *)
Lemma get_freelist_idx_spec sz k :
  (k < 16)%nat -> (get_freelist_idx sz <= k)%nat <-> sz <= 4096 * 2 ^ Z.of_nat k.
Proof.
  intros Hk. unfold get_freelist_idx.
  do 16 (destruct k as [|k]; [simpl Z.of_nat; repeat case_match;
    rewrite ?Z.leb_le, ?Z.leb_gt in *; lia|]). lia.
Qed.

Lemma get_freelist_idx_mono a b : a <= b -> (get_freelist_idx a <= get_freelist_idx b)%nat.
Proof.
  intros Hab. destruct (decide (get_freelist_idx b < 16)%nat) as [Hlt|Hge].
  - apply get_freelist_idx_spec; [done|]. etrans; [done|]. by apply get_freelist_idx_spec.
  - pose proof (get_freelist_idx_range a). unfold n_freelists in *. lia.
Qed.
