(* ===== verification/RegionSpec.v ===== *)
(** * The region manager: correctness

    The invariant of the region manager (every byte of guest memory belongs to
    exactly one region, every free region is in the list of its size class)
    and that every operation keeps it; allocation gives a region of the right
    size that overlaps no other. *)

From S2P Require Import Prelude Memory PageMath HostOS Tlb Pager Region RegionManager.
Local Open Scope Z_scope.

(** ** A set of regions that tiles a set of addresses *)

Definition reg_is (st : rstore) (P : Region -> Prop) (i : rid) : Prop :=
  exists r, objs st !! i = Some r /\ P r.

Record heap_ok (st : rstore) (own : list rid) (mem : Z -> Prop) : Prop := mkHeapOk {
  ho_store : store_ok st;
  ho_nodup : NoDup own;
  ho_region i : i ∈ own -> reg_is st region_ok i;
  ho_disj i j x : i ∈ own -> j ∈ own ->
    reg_is st (fun r => covers r x) i -> reg_is st (fun r => covers r x) j -> i = j;
  ho_cover x : (exists i, i ∈ own /\ reg_is st (fun r => covers r x) i) <-> mem x;
}.

Lemma heap_ok_perm st own own' mem : own ≡ₚ own' -> heap_ok st own mem -> heap_ok st own' mem.
Proof.
  intros Hp [H1 H2 H3 H4 H5]. constructor; [done|by rewrite <- Hp|..].
  - intros i. rewrite <- Hp. apply H3.
  - intros i j x. rewrite <- Hp. apply H4.
  - intros x. rewrite <- H5. by setoid_rewrite Hp.
Qed.

Lemma heap_ok_mem st own mem mem' :
  (forall x, mem x <-> mem' x) -> heap_ok st own mem -> heap_ok st own mem'.
Proof. intros Hm []. constructor; try done. intros x. by rewrite <- Hm. Qed.

Lemma reg_is_insert_ne st P i j r n :
  j <> i -> reg_is (mkStore (<[i := r]> (objs st)) n) P j <-> reg_is st P j.
Proof. intros Hne. unfold reg_is. cbn [objs]. by rewrite lookup_insert_ne. Qed.

Lemma reg_is_insert_eq st P i r n : reg_is (mkStore (<[i := r]> (objs st)) n) P i <-> P r.
Proof.
  unfold reg_is. cbn [objs]. rewrite lookup_insert_eq. split; [naive_solver|eauto].
Qed.

(** Changing what is not the extent of a region. *)
Lemma reg_is_update st P i j r r' n :
  objs st !! i = Some r -> (P r <-> P r') ->
  reg_is (mkStore (<[i := r']> (objs st)) n) P j <-> reg_is st P j.
Proof.
  intros Hi HP. destruct (decide (j = i)) as [->|Hne]; [|by apply reg_is_insert_ne].
  rewrite reg_is_insert_eq, <- HP. unfold reg_is. rewrite Hi. naive_solver.
Qed.

Lemma store_ok_update st i r : store_ok st -> is_Some (objs st !! i) ->
  store_ok (mkStore (<[i := r]> (objs st)) (next_rid st)).
Proof.
  intros Hs Hi j. cbn [objs next_rid]. rewrite lookup_insert. case_decide as Hd; [|apply Hs].
  subst j. intros _. by apply Hs.
Qed.

Lemma store_ok_new st r : store_ok st ->
  store_ok (mkStore (<[next_rid st := r]> (objs st)) (S (next_rid st))).
Proof.
  intros Hs j. cbn [objs next_rid]. rewrite lookup_insert. case_decide as Hd; [lia|].
  intros Hj. specialize (Hs j Hj). lia.
Qed.

Lemma heap_ok_update st own mem i r r' :
  objs st !! i = Some r -> host_p r' = host_p r -> rsize r' = rsize r ->
  heap_ok st own mem -> heap_ok (mkStore (<[i := r']> (objs st)) (next_rid st)) own mem.
Proof.
  intros Hi Hh Hz [H1 H2 H3 H4 H5].
  assert (region_ok r <-> region_ok r') as Hok.
  { split; intros []; constructor; rewrite ?Hh, ?Hz in *; done. }
  assert (forall x, covers r x <-> covers r' x) as Hc by (intros; unfold covers; by rewrite Hh, Hz).
  constructor; [by apply store_ok_update|done|..].
  - intros j Hj. rewrite reg_is_update by done. auto.
  - intros j k x Hj Hk. rewrite !(reg_is_update st) by done. by apply H4.
  - intros x. rewrite <- H5. by setoid_rewrite (reg_is_update st).
Qed.

(** Adding a region outside the memory covered so far. *)
Lemma heap_ok_new st own mem r :
  heap_ok st own mem -> region_ok r -> (forall x, covers r x -> ~ mem x) ->
  heap_ok (mkStore (<[next_rid st := r]> (objs st)) (S (next_rid st)))
          (next_rid st :: own) (fun x => covers r x \/ mem x).
Proof.
  intros [H1 H2 H3 H4 H5] Hr Hd. set (n := next_rid st).
  assert (n ∉ own) as Hn.
  { intros Hn. destruct (H3 n Hn) as (q & Hq & _). pose proof (store_fresh st H1). subst n. congruence. }
  assert (forall P i, i ∈ own -> reg_is (mkStore (<[n := r]> (objs st)) (S n)) P i <-> reg_is st P i)
    as Hold by (intros P i Hi; apply reg_is_insert_ne; by intros ->).
  constructor.
  - by apply store_ok_new.
  - by constructor.
  - intros i Hi. apply elem_of_cons in Hi as [->|Hi]; [by apply reg_is_insert_eq|].
    apply Hold; auto.
  - intros i j x Hi Hj Ci Cj.
    apply elem_of_cons in Hi as [->|Hi]; apply elem_of_cons in Hj as [->|Hj]; [done|..].
    + apply reg_is_insert_eq in Ci. apply Hold in Cj; [|done].
      destruct (Hd x Ci). apply H5. eauto.
    + apply reg_is_insert_eq in Cj. apply Hold in Ci; [|done].
      destruct (Hd x Cj). apply H5. eauto.
    + apply Hold in Ci; [|done]. apply Hold in Cj; [|done]. by apply (H4 i j x).
  - intros x. rewrite <- H5. split.
    + intros (i & Hi & Ci). apply elem_of_cons in Hi as [->|Hi].
      * left. by apply reg_is_insert_eq in Ci.
      * right. exists i. split; [done|]. by apply Hold in Ci.
    + intros [Hc|(i & Hi & Ci)].
      * exists n. split; [left|]. by apply reg_is_insert_eq.
      * exists i. split; [by right|]. by apply Hold.
Qed.

(** Giving up the memory of one region. *)
Lemma heap_ok_drop st own mem i r :
  heap_ok st (i :: own) mem -> objs st !! i = Some r ->
  heap_ok st own (fun x => mem x /\ ~ covers r x).
Proof.
  intros [H1 H2 H3 H4 H5] Hi. apply NoDup_cons in H2 as [Hn H2]. constructor; [done|done|..].
  - intros j Hj. apply H3. by right.
  - intros j k x Hj Hk. apply H4; by right.
  - intros x. rewrite <- H5. split.
    + intros (j & Hj & Cj). split; [exists j; split; [by right|done]|]. intros Hc.
      apply Hn. assert (i = j) as ->; [|done].
      apply (H4 i j x); [by left|by right| |done]. by exists r.
    + intros [(j & Hj & Cj) Hc]. apply elem_of_cons in Hj as [->|Hj]; [|eauto].
      destruct Hc. destruct Cj as (r' & E & Cr). by simplify_eq.
Qed.

(** Cutting a region in two. *)
Lemma heap_ok_slice st own mem i self r rest :
  heap_ok st (i :: own) mem -> objs st !! i = Some self -> region_ok r -> region_ok rest ->
  (forall x, covers self x <-> covers r x \/ covers rest x) ->
  (forall x, covers r x -> covers rest x -> False) ->
  heap_ok (mkStore (<[i := rest]> (<[next_rid st := r]> (objs st))) (S (next_rid st)))
          (next_rid st :: i :: own) mem.
Proof.
  intros Hh Hi Hr Hrest Hc Hd.
  assert (is_Some (objs st !! i)) as His by (by rewrite Hi).
  assert (i <> next_rid st) as Hne.
  { pose proof (ho_store _ _ _ Hh i His). lia. }
  assert (heap_ok (mkStore (<[i := rest]> (objs st)) (next_rid st)) (i :: own)
            (fun x => mem x /\ ~ covers r x)) as Hh1.
  { pose proof (heap_ok_drop _ _ _ _ _ Hh Hi) as [D1 D2 D3 D4 D5].
    pose proof (ho_nodup _ _ _ Hh) as Hnd. apply NoDup_cons in Hnd as [Hni Hnd].
    assert (forall P j, j ∈ own ->
              reg_is (mkStore (<[i := rest]> (objs st)) (next_rid st)) P j <-> reg_is st P j) as Hold
      by (intros P j Hj; apply reg_is_insert_ne; by intros ->).
    assert (forall x, covers self x -> mem x) as Hsm.
    { intros x Hx. apply (ho_cover _ _ _ Hh). exists i. split; [by left|by exists self]. }
    constructor; [by apply store_ok_update|by constructor|..].
    - intros j Hj. apply elem_of_cons in Hj as [->|Hj]; [by apply reg_is_insert_eq|].
      apply Hold; auto.
    - intros j k x Hj Hk Cj Ck.
      apply elem_of_cons in Hj as [->|Hj]; apply elem_of_cons in Hk as [->|Hk]; [done|..].
      + apply reg_is_insert_eq in Cj. apply Hold in Ck; [|done].
        destruct (proj1 (D5 x)) as [_ Hx]; [eauto|]. destruct Hx. apply Hc. by right.
      + apply reg_is_insert_eq in Ck. apply Hold in Cj; [|done].
        destruct (proj1 (D5 x)) as [_ Hx]; [eauto|]. destruct Hx. apply Hc. by right.
      + apply Hold in Cj; [|done]. apply Hold in Ck; [|done]. by apply (D4 j k x).
    - intros x. split.
      + intros (j & Hj & Cj). apply elem_of_cons in Hj as [->|Hj].
        * apply reg_is_insert_eq in Cj. split; [apply Hsm, Hc; by right|]. intros Hx. by apply (Hd x).
        * apply Hold in Cj; [|done]. destruct (proj1 (D5 x)) as [Hm Hx]; [eauto|].
          split; [done|]. intros Hrx. apply Hx, Hc. by left.
      + intros [Hm Hx]. apply (ho_cover _ _ _ Hh) in Hm as (j & Hj & Cj).
        apply elem_of_cons in Hj as [->|Hj].
        * exists i. split; [by left|]. apply reg_is_insert_eq.
          destruct Cj as (q & Eq & Cq). rewrite Hi in Eq. simplify_eq.
          apply Hc in Cq as [|]; [done|done].
        * exists j. split; [by right|]. by apply Hold. }
  rewrite insert_insert_ne by done.
  pose proof (heap_ok_new _ _ _ r Hh1 Hr) as Hn. cbn [next_rid objs] in Hn.
  eapply heap_ok_mem; [|apply Hn].
  - intros x. cbn. split; [intros [Hx|[Hx _]]|]; [|done|].
    + apply (ho_cover _ _ _ Hh). exists i. split; [by left|]. exists self. split; [done|].
      apply Hc. by left.
    + intros Hx. destruct (contains_host r x) eqn:E; [left; by apply contains_host_covers|].
      right. split; [done|]. rewrite <- contains_host_covers. congruence.
  - intros x Hx [_ Hnx]. done.
Qed.

(** ** Free lists *)

Lemma concat_insert {A} (fl : list (list A)) k l l' :
  fl !! k = Some l -> concat (<[k := l']> fl) ++ l ≡ₚ concat fl ++ l'.
Proof.
  intros Hk. assert (k < length fl)%nat by (by eapply lookup_lt_Some).
  rewrite insert_take_drop by done. rewrite <- (take_drop_middle fl k l Hk) at 3.
  rewrite !concat_app. simpl. rewrite <- !app_assoc.
  apply Permutation_app_head. rewrite (Permutation_app_comm l'), (Permutation_app_comm l).
  rewrite <- !app_assoc. by rewrite (Permutation_app_comm l' l).
Qed.

Lemma concat_erase {A} (fl : list (list A)) k l j x :
  fl !! k = Some l -> l !! j = Some x -> concat fl ≡ₚ x :: concat (<[k := erase j l]> fl).
Proof.
  intros Hk Hj. pose proof (concat_insert fl k l (erase j l) Hk) as Hp.
  apply (Permutation_app_inv_r (erase j l)). rewrite <- Hp.
  rewrite (erase_Permutation l j x Hj) at 2. simpl. symmetry. apply Permutation_middle.
Qed.

Lemma concat_push {A} (fl : list (list A)) k l x :
  fl !! k = Some l -> concat (<[k := l ++ [x]]> fl) ≡ₚ x :: concat fl.
Proof.
  intros Hk. pose proof (concat_insert fl k l (l ++ [x]) Hk) as Hp.
  apply (Permutation_app_inv_r l). rewrite Hp. simpl. rewrite app_assoc, Permutation_app_comm.
  simpl. by rewrite (Permutation_app_comm _ l).
Qed.

Lemma Forall_reg_insert st (P : Region -> Prop) (l : list rid) i r n :
  i ∉ l -> Forall (reg_is st P) l -> Forall (reg_is (mkStore (<[i := r]> (objs st)) n) P) l.
Proof.
  intros Hi Hl. rewrite Forall_forall in *. intros j Hj. apply reg_is_insert_ne; [|auto].
  by intros ->.
Qed.

(** ** The invariant *)

Section Inv.
Context {os T : Type} `{HostOSLaws os} `{TranslationCache T}.
Implicit Types m : rm os T.

(** The addresses of guest memory. *)
Definition chunk_mem m (x : Z) : Prop :=
  exists c, c ∈ chunks (p_pager (rm_pager m)) /\ contains_address c x = true.

Definition free_in (k : nat) (r : Region) : Prop :=
  free r = true /\ addr r = 0 /\ get_freelist_idx (rsize r) = k.

(** [held] are the regions an operation has taken out of the lists. *)
Record rm_inv (held : list rid) m : Prop := mkRmInv {
  ri_lists : length (freelists m) = n_freelists;
  ri_heap : heap_ok (rm_store m) (held ++ allocated_regions m ++ concat (freelists m)) (chunk_mem m);
  ri_used : Forall (reg_is (rm_store m) (fun r => free r = false)) (allocated_regions m);
  ri_free k l : freelists m !! k = Some l -> Forall (reg_is (rm_store m) (free_in k)) l;
  ri_held : Forall (reg_is (rm_store m) (fun r => free r = true /\ addr r = 0)) held;
  ri_live x : chunk_mem m x ->
    exists b, b ∈ live (p_os (rm_pager m)) /\ b.1 <= x < b.1 + b.2;
}.

Lemma freelist_at m held k :
  rm_inv held m -> (k < n_freelists)%nat -> exists l, freelists m !! k = Some l.
Proof. intros Hi Hk. apply lookup_lt_is_Some. by rewrite (ri_lists _ _ Hi). Qed.

Lemma find_free_from_spec n k sz m :
  (n + k = n_freelists)%nat -> rm_inv [] m ->
  wp no_fault (find_free_from n k sz)
    (fun r m' => match r with
       | None => m' = m /\ forall k' l, (k <= k')%nat -> freelists m !! k' = Some l ->
                   Forall (reg_is (rm_store m) (fun a => rsize a < sz)) l
       | Some i => rm_inv [i] m' /\ rm_store m' = rm_store m /\ rm_pager m' = rm_pager m /\
                   allocated_regions m' = allocated_regions m /\ i ∈ concat (freelists m) /\
                   reg_is (rm_store m) (fun a => sz <= rsize a) i
       end) m.
Proof.
  intros Hn Hinv. revert k Hn. induction n as [|n IH]; intros k Hn; cbn [find_free_from].
  { apply wp_ret. split; [done|]. intros k' l Hk Hl. apply lookup_lt_Some in Hl.
    rewrite (ri_lists _ _ Hinv) in Hl. lia. }
  destruct (freelist_at m [] k Hinv ltac:(lia)) as [l Hl]. apply wp_bind, wp_get, wp_bind, wp_at.
  2: { intros E. by rewrite Hl in E. }
  intros l' E. rewrite Hl in E. injection E as <-.
  pose proof (ri_free _ _ Hinv k l Hl) as Hf. rewrite Forall_forall in Hf.
  destruct (find_idx _ l) as [j|] eqn:Ej.
  - apply find_idx_Some in Ej as (x & Hx & Px & _). apply wp_bind, wp_at.
    2: { intros E. by rewrite Hx in E. }
    intros x' E. rewrite Hx in E. injection E as <-. unfold set_lists. wp_go.
    pose proof (concat_erase _ _ _ _ _ Hl Hx) as Hp.
    destruct Hinv as [I1 I2 I3 I4 I5 I6]. split; [|do 3 (split; [done|]); split; [rewrite Hp; by left|]].
    + constructor; cbn [freelists rm_store allocated_regions rm_pager]; try done.
      * by rewrite length_insert.
      * eapply heap_ok_perm; [|done]. simpl. rewrite Hp. by rewrite <- Permutation_middle.
      * intros k' l' Hk'. apply list_lookup_insert_Some in Hk' as [(<- & <- & _)|[_ Hk']]; [|eauto].
        apply Forall_forall. intros y Hy. apply Hf. apply (erase_Permutation l j x) in Hx.
        rewrite Hx. by right.
      * constructor; [|done]. destruct (Hf x) as (r & Hr & (? & ? & _)); [|by exists r].
        by eapply list_elem_of_lookup_2.
    + unfold is_region in Px. cbn. destruct (objs (rm_store m) !! x) as [r|] eqn:E; [|done].
      exists r. split; [done|]. by apply Z.leb_le in Px.
  - apply find_idx_None in Ej. eapply wp_mono; [apply (IH (S k)); lia|].
    intros [i|] m'; [done|]. intros [-> Hall]. split; [done|]. intros k' l' Hk' Hl'.
    destruct (decide (k' = k)) as [->|]; [|apply (Hall k' l'); [lia|done]].
    rewrite Hl in Hl'. injection Hl' as <-. apply Forall_forall. intros y Hy.
    rewrite Forall_forall in Ej. specialize (Ej y Hy). destruct (Hf y Hy) as (r & Hr & _).
    exists r. split; [done|]. unfold is_region in Ej. rewrite Hr in Ej. by apply Z.leb_gt in Ej.
Qed.

Lemma push_free_spec held m i k :
  rm_inv (i :: held) m -> reg_is (rm_store m) (free_in k) i -> (k < n_freelists)%nat ->
  wp no_fault (push_free k i)
    (fun _ m' => rm_inv held m' /\ rm_store m' = rm_store m /\ rm_pager m' = rm_pager m /\
       allocated_regions m' = allocated_regions m /\
       exists l, freelists m !! k = Some l /\ freelists m' = <[k := l ++ [i]]> (freelists m)) m.
Proof.
  intros Hinv Hi Hk. destruct (freelist_at m _ k Hinv Hk) as [l Hl].
  unfold push_free. apply wp_bind, wp_get, wp_bind, wp_at.
  2: { intros E. by rewrite Hl in E. }
  intros l' E. rewrite Hl in E. injection E as <-. unfold set_lists. wp_go.
  destruct Hinv as [I1 I2 I3 I4 I5 I6]. split; [|by eauto 10].
  constructor; cbn [freelists rm_store allocated_regions rm_pager]; try done.
  - by rewrite length_insert.
  - eapply heap_ok_perm; [|done]. rewrite (concat_push _ _ _ _ Hl). simpl.
    rewrite <- Permutation_middle. by rewrite <- Permutation_middle.
  - intros k' l' Hk'. apply list_lookup_insert_Some in Hk' as [(<- & <- & _)|[_ Hk']]; [|eauto].
    apply Forall_app. split; [eauto|]. by constructor.
  - by inversion I5.
Qed.

Lemma own_in m held i :
  rm_inv held m -> i ∈ held ++ allocated_regions m ++ concat (freelists m) ->
  exists r, objs (rm_store m) !! i = Some r /\ region_ok r.
Proof. intros Hi Hin. apply (ho_region _ _ _ (ri_heap _ _ Hi) i Hin). Qed.

Lemma lookup_region_spec F m i r (Q : Region -> rm os T -> Prop) :
  objs (rm_store m) !! i = Some r -> Q r m -> wp F (on_store (lookup_region i)) Q m.
Proof.
  intros Hi HQ. unfold on_store, lookup_region. apply wp_zoom, wp_bind, wp_get.
  rewrite Hi. apply wp_ret. by destruct m.
Qed.

Lemma add_free_region_spec held m i :
  rm_inv (i :: held) m ->
  wp no_fault (add_free_region i)
    (fun _ m' => rm_inv held m' /\ rm_store m' = rm_store m /\ rm_pager m' = rm_pager m /\
       allocated_regions m' = allocated_regions m) m.
Proof.
  intros Hinv. destruct (own_in m _ i Hinv) as (r & Hr & Hok); [by left|].
  pose proof (ri_held _ _ Hinv) as Hh. inversion Hh as [|? ? (r' & Hr' & Hf & Ha) _]; subst.
  rewrite Hr in Hr'. injection Hr' as <-.
  unfold add_free_region. apply wp_bind. eapply lookup_region_spec; [done|].
  eapply wp_mono; [apply (push_free_spec held m i); [done| |apply get_freelist_idx_range]|].
  - exists r. split; [done|]. done.
  - cbv beta. intros _ m' (? & ? & ? & ? & _). done.
Qed.

(** *** Taking a region into use *)

Lemma own_nodup m held i :
  rm_inv (i :: held) m ->
  i ∉ held /\ i ∉ allocated_regions m /\ (forall k l, freelists m !! k = Some l -> i ∉ l).
Proof.
  intros Hi. pose proof (ho_nodup _ _ _ (ri_heap _ _ Hi)) as Hn. simpl in Hn.
  apply NoDup_cons in Hn as [Hn _]. rewrite !not_elem_of_app in Hn. destruct Hn as (? & ? & Hc).
  split; [done|]. split; [done|]. intros k l Hl Hin. apply Hc.
  apply list_elem_of_In, in_concat. exists l. rewrite <- !list_elem_of_In.
  split; [by eapply list_elem_of_lookup_2|done].
Qed.

Lemma use_region_spec held m i r :
  rm_inv (i :: held) m -> objs (rm_store m) !! i = Some r ->
  wp no_fault (use_region i)
    (fun _ m' => rm_inv held m' /\ allocated_regions m' = allocated_regions m ++ [i] /\
       rm_pager m' = rm_pager m /\ freelists m' = freelists m /\
       objs (rm_store m') = <[i := set_used r]> (objs (rm_store m))) m.
Proof.
  intros Hinv Hr. destruct (own_nodup m held i Hinv) as (N1 & N2 & N3).
  pose proof (ri_held _ _ Hinv) as Hh. inversion Hh as [|? ? (r' & Hr' & Hf & Ha) Hh']; subst.
  rewrite Hr in Hr'. injection Hr' as <-.
  unfold use_region. apply wp_bind. eapply lookup_region_spec; [done|].
  unfold is_free, on_store, update_region, set_lists. rewrite Hf. wp_go; [|done].
  cbn [freelists rm_store allocated_regions rm_pager objs].
  destruct Hinv as [I1 I2 I3 I4 I5 I6]. split; [|done].
  constructor; cbn [freelists rm_store allocated_regions rm_pager]; try done.
  - eapply heap_ok_perm; [|by eapply heap_ok_update]. simpl.
    rewrite <- !app_assoc. simpl. rewrite <- Permutation_middle. by rewrite <- Permutation_middle.
  - apply Forall_app. split; [by apply Forall_reg_insert|]. constructor; [|constructor].
    by apply reg_is_insert_eq.
  - intros k l Hl. apply Forall_reg_insert; eauto.
  - by apply Forall_reg_insert.
Qed.

Lemma slice_begin_rm held m i self sz purpose :
  rm_inv (i :: held) m -> objs (rm_store m) !! i = Some self -> 0 < sz <= 2 ^ 47 ->
  pagesize_align sz < rsize self ->
  wp no_fault (on_store (slice_begin i sz purpose))
    (fun j m' => rm_inv (j :: i :: held) m' /\ allocated_regions m' = allocated_regions m /\
       rm_pager m' = rm_pager m /\ freelists m' = freelists m /\
       (forall q, q ∈ allocated_regions m -> objs (rm_store m') !! q = objs (rm_store m) !! q) /\
       objs (rm_store m') !! j = Some (Region_new (host_p self) (pagesize_align sz) purpose)) m.
Proof.
  intros Hinv Hi Hsz Hlt. destruct (own_nodup m held i Hinv) as (N1 & N2 & N3).
  destruct (own_in m _ i Hinv) as (r' & Hr' & Hok); [by left|].
  rewrite Hi in Hr'. injection Hr' as <-.
  pose proof (ri_held _ _ Hinv) as Hh. inversion Hh as [|? ? (r' & Hr' & Hf & Ha) Hh']; subst.
  rewrite Hi in Hr'. injection Hr' as <-.
  pose proof (ho_store _ _ _ (ri_heap _ _ Hinv)) as Hst.
  destruct (slice_begin_spec (rm_store m) i self sz purpose) as (E & Hr1 & Hr2 & Hge & Hc & Hd);
    try done; [rewrite Ha; destruct Hok; lia|lia|].
  set (r := Region_new _ _ _) in *. set (rest := mkRegion _ _ _ _ _) in *.
  set (n := next_rid (rm_store m)) in *.
  assert (forall j, is_Some (objs (rm_store m) !! j) -> j <> n) as Hfresh.
  { intros j Hj ->. specialize (Hst n Hj). subst n. lia. }
  assert (i <> n) as Hne by (apply Hfresh; by rewrite Hi).
  assert (forall P (l : list rid), i ∉ l -> Forall (reg_is (rm_store m) P) l ->
    Forall (reg_is (mkStore (<[i := rest]> (<[n := r]> (objs (rm_store m)))) (S n)) P) l) as Hkeep.
  { intros P l Hil Hl.
    pose proof (Forall_reg_insert (mkStore (<[n := r]> (objs (rm_store m))) (S n)) P l i rest (S n))
      as G. cbn [objs] in G. apply G; [done|]. clear G. apply Forall_reg_insert; [|done]. intros Hn. rewrite Forall_forall in Hl.
    destruct (Hl n Hn) as (q & Hq & _). by apply (Hfresh n); [rewrite Hq|]. }
  unfold on_store. apply wp_zoom. eapply wp_ok; [exact E|].
  destruct Hinv as [I1 I2 I3 I4 I5 I6]. split; [|].
  - constructor; cbn [freelists rm_store allocated_regions rm_pager]; try done.
    + simpl. by eapply heap_ok_slice.
    + by apply Hkeep.
    + intros k l Hl. apply Hkeep; eauto.
    + constructor; [|constructor; [|by apply Hkeep]].
      * exists r. cbn [objs]. by rewrite lookup_insert_ne, lookup_insert_eq.
      * exists rest. cbn [objs]. rewrite lookup_insert_eq. split; [done|].
        cbn. rewrite Ha. done.
  - cbn [freelists rm_store allocated_regions rm_pager objs]. do 3 (split; [done|]).
    split; [|by rewrite lookup_insert_ne, lookup_insert_eq].
    intros q Hq. rewrite !lookup_insert_ne; [done| |by intros ->].
    rewrite Forall_forall in I3. destruct (I3 q Hq) as (rq & Hrq & _).
    intros <-. by apply (Hfresh n); [rewrite Hrq|].
Qed.

(** *** Growing guest memory *)

Lemma create_mem_chunk_ok p0 sz (s s' : pst os T) p :
  0 < sz < 2 ^ 64 -> create_mem_chunk p0 sz s = Ok ((0, p), s') ->
  region_ok (Region_new p sz anon) /\
  Forall (fun b => disjoint_range p sz b.1 b.2) (live (p_os s)) /\
  live (p_os s') = (p, sz) :: live (p_os s) /\
  exists c, chunks (p_pager s') = chunks (p_pager s) ++ [c] /\
            userspace_addr c = p /\ memory_size c = sz /\
            guest_phys_addr c = total_memsz (p_pager s).
Proof.
  intros Hsz E. unfold create_mem_chunk in E.
  destruct (page_aligned sz) eqn:Ha; cbn [negb] in E; [|by unfold EIO in E].
  apply page_aligned_iff in Ha; [|unfold is_u64; lia].
  apply bind_ok_inv in E as (s0 & s1 & [= <- <-] & E).
  destruct (posix_memalign (p_os s) HOST_PAGESIZE sz) as [[e q] o'] eqn:Em.
  apply bind_ok_inv in E as (? & s2 & [= <- <-] & E).
  destruct (ctrue e) eqn:He.
  { injection E as -> ->. done. }
  apply ctrue_false in He as ->.
  destruct (posix_memalign_ok _ _ _ _ _ (proj1 Hsz) Em) as (Hq & Hq0 & Hqt & Hd & Hlv).
  assert (wp any_fault (let! i := alloc_chunk q sz 0 in let! err := map_chunk_to_kvm i in ret (err, q))
    (fun r t => r.2 = q /\ live (p_os t) = live o' /\
       exists c, chunks (p_pager t) = chunks (p_pager s) ++ [c] /\
            userspace_addr c = q /\ memory_size c = sz /\
            guest_phys_addr c = total_memsz (p_pager s))
    (mkPst (p_mem s) (p_tlb s) o' (p_pager s))) as Hw.
  { unfold alloc_chunk, map_chunk_to_kvm, upd_pager. do 11 wp_step; [|done].
    cbn [p_pager chunks] in *. rewrite lookup_app_r, Nat.sub_diag in * by lia. simplify_eq/=.
    replace (sz =? 0) with false by (symmetry; apply Z.eqb_neq; lia). cbv iota.
    do 4 wp_step; [|done]. do 2 wp_step. cbn [p_os p_pager _vmfd].
    destruct (set_user_memory_region _ _ _) as [[e' errno] o''] eqn:Ek. wp_go.
    apply set_user_memory_region_live in Ek. split; [done|]. split; [done|]. by eexists. }
  destruct (wp_partial_inv _ _ _ _ _ _ Hw E) as (Ep & Hl & Hc). cbn [snd] in Ep. subst q.
  unfold HOST_PAGESIZE in Hq. split; [constructor; cbn; lia|]. split; [done|].
  split; [congruence|done].
Qed.

(** A fresh chunk becomes one region that no list holds yet. *)
Lemma add_chunk_inv m s1 p grow purpose c :
  rm_inv [] m -> region_ok (Region_new p grow anon) ->
  Forall (fun b => disjoint_range p grow b.1 b.2) (live (p_os (rm_pager m))) ->
  live (p_os s1) = (p, grow) :: live (p_os (rm_pager m)) ->
  chunks (p_pager s1) = chunks (p_pager (rm_pager m)) ++ [c] ->
  userspace_addr c = p -> memory_size c = grow ->
  let n := next_rid (rm_store m) in
  let st := mkStore (<[n := Region_new p grow purpose]> (objs (rm_store m))) (S n) in
  rm_inv [n] (mkRM (allocated_regions m) (freelists m) st s1).
Proof.
  intros Hinv Hrok Hd Hlv Hc Hcu Hcs n st. set (r := Region_new p grow purpose) in *.
  set (m1 := mkRM _ _ _ _).
  destruct Hinv as [I1 I2 I3 I4 I5 I6].
  assert (region_ok r) as Hr by (by destruct Hrok; constructor).
  assert (forall x, chunk_mem m1 x <-> covers r x \/ chunk_mem m x) as Hcm.
  { intros x. unfold chunk_mem. cbn [rm_pager m1]. rewrite Hc. split.
    - intros (d & Hin & Hx). apply elem_of_app in Hin as [Hin|Hin]; [by right; eauto|].
      apply list_elem_of_singleton in Hin as ->. left. unfold contains_address in Hx.
      rewrite andb_true_iff, Z.leb_le, Z.ltb_lt in Hx. unfold covers. cbn. lia.
    - intros [Hx|(d & Hin & Hx)]; [exists c|exists d]; rewrite elem_of_app.
      + split; [right; by left|]. unfold covers in Hx. cbn in Hx. unfold contains_address.
        rewrite andb_true_iff, Z.leb_le, Z.ltb_lt. lia.
      + auto. }
  assert (forall x, covers r x -> ~ chunk_mem m x) as Hnew.
  { intros x Hx Hm. destruct (I6 x Hm) as (b & Hb & Hbx). rewrite Forall_forall in Hd.
    specialize (Hd b Hb). unfold covers in Hx. cbn in Hx. unfold disjoint_range in Hd. lia. }
  pose proof (heap_ok_new _ _ _ r I2 Hr Hnew) as Hh.
  pose proof (store_fresh _ (ho_store _ _ _ I2)) as Hfr.
  assert (forall P (l : list rid), Forall (reg_is (rm_store m) P) l -> Forall (reg_is st P) l) as Hk.
  { intros P l Hl. apply Forall_reg_insert; [|done]. intros Hn. rewrite Forall_forall in Hl.
    destruct (Hl n Hn) as (q & Hq & _). subst n. congruence. }
  constructor; cbn [freelists rm_store allocated_regions rm_pager m1]; try done; eauto.
  - eapply heap_ok_mem; [|exact Hh]. intros x. by rewrite Hcm.
  - constructor; [|done]. exists r. split; [apply lookup_insert_eq|done].
  - intros x. rewrite Hcm, Hlv. intros [Hx|Hx].
    + exists (p, grow). split; [by left|]. exact Hx.
    + destruct (I6 x Hx) as (b & Hb & Hbx). exists b. split; [by right|done].
Qed.

Lemma add_chunk_ok sz purpose m m' :
  0 < sz <= 2 ^ 47 -> rm_inv [] m -> add_chunk sz purpose m = Ok (0, m') ->
  rm_inv [] m' /\ allocated_regions m' = allocated_regions m /\
  objs (rm_store m) ⊆ objs (rm_store m') /\
  (exists c, chunks (p_pager (rm_pager m')) = chunks (p_pager (rm_pager m)) ++ [c] /\
     region_ok (Region_new (userspace_addr c) (memory_size c) anon) /\ sz <= memory_size c /\
     guest_phys_addr c = total_memsz (p_pager (rm_pager m))) /\
  exists k l i, (get_freelist_idx sz <= k)%nat /\ freelists m' !! k = Some l /\ i ∈ l /\
                reg_is (rm_store m') (fun r => sz <= rsize r) i.
Proof.
  intros Hsz Hinv E. unfold add_chunk in E.
  set (grow := if ELKVM_SYSTEM_MEMGROW <? sz then _ else _) in E.
  assert (sz <= grow < 2 ^ 64) as Hgr.
  { subst grow. destruct (Z.ltb_spec ELKVM_SYSTEM_MEMGROW sz); [|unfold ELKVM_SYSTEM_MEMGROW in *; lia].
    destruct (pagesize_align_bounds sz); lia. }
  apply bind_ok_inv in E as ([err p] & m1 & Ec & E). unfold on_pager, zoom in Ec.
  destruct (create_mem_chunk 0 grow (rm_pager m)) as [[[err' p'] s1]|] eqn:Ecm; [|done].
  injection Ec as -> -> <-. destruct (ctrue err) eqn:He.
  { injection E as -> <-. done. }
  apply ctrue_false in He as ->.
  destruct (create_mem_chunk_ok 0 grow (rm_pager m) s1 p ltac:(lia) Ecm) as (Hrok & Hd & Hlv & c & Hc & Hcu & Hcs & Hcg).
  set (r := Region_new p grow purpose) in E. set (n := next_rid (rm_store m)).
  set (st := mkStore (<[n := r]> (objs (rm_store m))) (S n)).
  set (m1 := mkRM (allocated_regions m) (freelists m) st s1).
  assert (rm_inv [n] m1) as Hinv1 by (by eapply add_chunk_inv).
  apply bind_ok_inv in E as (i & m2 & Em & E). injection Em as <- <-. fold n st m1 in E.
  apply bind_ok_inv in E as ([] & m3 & Ep & [= <-]).
  assert (reg_is (rm_store m1) (free_in (get_freelist_idx grow)) n) as Hfi.
  { exists r. split; [apply lookup_insert_eq|]. done. }
  pose proof (push_free_spec [] m1 n _ Hinv1 Hfi (get_freelist_idx_range _)) as Hw.
  destruct (wp_partial_inv _ _ _ _ _ _ Hw Ep) as (Hi3 & Es & Epg & Ea & l & Hl & Ef).
  split; [done|]. split; [done|]. split.
  { rewrite Es. apply insert_subseteq. apply (store_fresh _ (ho_store _ _ _ (ri_heap _ _ Hinv))). }
  split.
  { exists c. rewrite Epg. cbn [rm_pager m1]. rewrite Hcu, Hcs. split; [done|]. split; [done|].
    split; [lia|done]. }
  exists (get_freelist_idx grow), (l ++ [n]), n. split; [apply get_freelist_idx_mono; lia|].
  rewrite Ef, list_lookup_insert_eq by (by eapply lookup_lt_Some). split; [done|].
  split; [apply elem_of_app; right; by left|]. rewrite Es. exists r. split; [apply lookup_insert_eq|].
  cbn. lia.
Qed.

(** *** Allocation *)

(** What [allocate_region] promises of its result. *)
Record allocated m sz (i : rid) m' : Prop := mkAllocated {
  al_inv : rm_inv [] m';
  al_list : allocated_regions m' = allocated_regions m ++ [i];
  al_new : i ∉ allocated_regions m;
  al_region : reg_is (rm_store m')
                (fun r => rsize r = pagesize_align sz /\ free r = false /\ addr r = 0) i;
  al_pager : rm_pager m' = rm_pager m \/
             exists m2 purpose, add_chunk sz purpose m = Ok (0, m2) /\ rm_pager m' = rm_pager m2;
  al_keep q : q ∈ allocated_regions m -> objs (rm_store m') !! q = objs (rm_store m) !! q;
}.

Lemma use_fresh m m1 sz i r :
  rm_inv [i] m1 -> objs (rm_store m1) !! i = Some r -> rsize r = pagesize_align sz ->
  sz <= pagesize_align sz -> allocated_regions m1 = allocated_regions m ->
  (rm_pager m1 = rm_pager m \/
   exists m2 purpose, add_chunk sz purpose m = Ok (0, m2) /\ rm_pager m1 = rm_pager m2) ->
  (forall q, q ∈ allocated_regions m -> objs (rm_store m1) !! q = objs (rm_store m) !! q) ->
  wp no_fault (do! use_region i in
               let! reg := on_store (lookup_region i) in
               do! assert_ (sz <=? size reg) in
               ret i)
    (fun j m' => allocated m sz j m' /\ rm_pager m' = rm_pager m1) m1.
Proof.
  intros Hinv Hi Hz Hle Ha Hpg Hk. destruct (own_nodup m1 [] i Hinv) as (_ & Hn & _).
  pose proof (ri_held _ _ Hinv) as Hh. inversion Hh as [|? ? (r' & Hr' & Hf & Had) _]; subst.
  rewrite Hi in Hr'. injection Hr' as <-.
  apply wp_bind. eapply wp_mono; [by eapply use_region_spec|].
  intros [] m2 (Hi2 & Ha2 & Hp2 & _ & Ho). apply wp_bind.
  assert (objs (rm_store m2) !! i = Some (set_used r)) as Hi' by (rewrite Ho; apply lookup_insert_eq).
  eapply lookup_region_spec; [done|]. do 2 wp_step.
  2: { exfalso. cbn in *. rewrite Z.leb_gt in *. lia. }
  apply wp_ret. split; [|done]. constructor; [done|congruence|by rewrite <- Ha| | |].
  - exists (set_used r). split; [done|]. done.
  - by rewrite Hp2.
  - intros q Hq. rewrite Ho, lookup_insert_ne; [by apply Hk|]. intros <-. rewrite Ha in Hn. done.
Qed.

Lemma take_region m m1 sz i reg purpose :
  0 < sz <= 2 ^ 47 -> rm_inv [i] m1 -> objs (rm_store m1) !! i = Some reg -> sz <= rsize reg ->
  allocated_regions m1 = allocated_regions m ->
  (rm_pager m1 = rm_pager m \/
   exists m2 purpose, add_chunk sz purpose m = Ok (0, m2) /\ rm_pager m1 = rm_pager m2) ->
  (forall q, q ∈ allocated_regions m -> objs (rm_store m1) !! q = objs (rm_store m) !! q) ->
  wp no_fault
    (let! reg := on_store (lookup_region i) in
     let! r := (if pagesize_align sz <? size reg then
                  let! new_region := on_store (slice_begin i sz purpose) in
                  do! add_free_region i in
                  ret new_region
                else ret i) in
     do! use_region r in
     let! reg := on_store (lookup_region r) in
     do! assert_ (sz <=? size reg) in
     ret r)
    (fun j m' => allocated m sz j m' /\ rm_pager m' = rm_pager m1) m1.
Proof.
  intros Hsz Hinv Hi Hge Ha Hpg Hk. destruct (pagesize_align_bounds sz Hsz) as [Hal Hal4].
  apply wp_bind. eapply lookup_region_spec; [done|]. apply wp_bind. unfold size at 1.
  destruct (Z.ltb_spec (pagesize_align sz) (rsize reg)) as [Hlt|Hnlt].
  - apply wp_bind. eapply wp_mono; [by eapply slice_begin_rm|].
    intros j m2 (Hi2 & Ha2 & Hp2 & _ & Hk2 & Hj). apply wp_bind.
    assert (rm_inv [i; j] m2) as Hi2'.
    { destruct Hi2 as [I1 I2 I3 I4 I5 I6]. constructor; try done.
      - eapply heap_ok_perm; [|done]. simpl. apply perm_swap.
      - inversion_clear I5 as [|? ? ? I5']. inversion_clear I5'. by repeat constructor. }
    eapply wp_mono; [by apply add_free_region_spec|].
    intros [] m3 (Hi3 & Es & Hp3 & Ha3). apply wp_ret.
    rewrite <- Hp2, <- Hp3. eapply use_fresh; [done|by rewrite Es|done|lia|congruence|by rewrite Hp3, Hp2|].
    intros q Hq. rewrite Es, Hk2 by (by rewrite Ha). by apply Hk.
  - apply wp_ret. eapply use_fresh; [done|done| |lia|done|done|done].
    destruct (own_in m1 _ i Hinv) as (r' & Hr' & Hok); [by left|].
    rewrite Hi in Hr'. injection Hr' as <-. destruct Hok as [_ [_ Hm] _].
    Z.div_mod_to_equations. lia.
Qed.

Lemma find_free_region_spec sz m :
  rm_inv [] m ->
  wp no_fault (find_free_region sz)
    (fun r m' => match r with
       | None => m' = m /\ forall k l, (get_freelist_idx sz <= k)%nat -> freelists m !! k = Some l ->
                   Forall (reg_is (rm_store m) (fun a => rsize a < sz)) l
       | Some i => rm_inv [i] m' /\ rm_store m' = rm_store m /\ rm_pager m' = rm_pager m /\
                   allocated_regions m' = allocated_regions m /\ i ∈ concat (freelists m) /\
                   reg_is (rm_store m) (fun a => sz <= rsize a) i
       end) m.
Proof.
  intros Hi. pose proof (get_freelist_idx_range sz). unfold find_free_region.
  apply find_free_from_spec; [lia|done].
Qed.

(** A free region of the lists is large enough for [sz] bytes. *)
Definition fits m sz : Prop := exists i, i ∈ concat (freelists m) /\ reg_is (rm_store m) (fun r => sz <= rsize r) i.

(** The search from the list of a size on misses no free region. *)
Lemma not_fits m sz :
  rm_inv [] m ->
  (forall k l, (get_freelist_idx sz <= k)%nat -> freelists m !! k = Some l ->
     Forall (reg_is (rm_store m) (fun a => rsize a < sz)) l) ->
  ~ fits m sz.
Proof.
  intros Hi Hall (i & Hin & r & Hr & Hge). apply list_elem_of_In, in_concat in Hin as (l & Hl & Hil).
  apply list_elem_of_In, list_elem_of_lookup in Hl as [k Hk]. apply list_elem_of_In in Hil.
  pose proof (ri_free _ _ Hi k l Hk) as Hf. rewrite Forall_forall in Hf. destruct (Hf i Hil) as (r1 & Hr1 & _ & _ & Ek).
  rewrite Hr in Hr1. injection Hr1 as <-.
  specialize (Hall k l ltac:(rewrite <- Ek; apply get_freelist_idx_mono; lia) Hk). rewrite Forall_forall in Hall.
  destruct (Hall i Hil) as (r2 & Hr2 & Hlt). rewrite Hr in Hr2. injection Hr2 as <-. lia.
Qed.

Lemma find_free_fits m sz i k l :
  freelists m !! k = Some l -> i ∈ l -> reg_is (rm_store m) (fun a => sz <= rsize a) i -> fits m sz.
Proof.
  intros Hk Hi Hr. exists i. split; [|done]. apply list_elem_of_In, in_concat. exists l.
  split; apply list_elem_of_In; [by eapply list_elem_of_lookup_2|done].
Qed.

(** Only a refused chunk can make allocation fail. *)
Definition no_chunk m sz purpose (f : fault) : Prop :=
  forall m', add_chunk sz purpose m <> Ok (0, m').

(** Where the memory comes from: free memory if there is enough of it in one piece,
    and a new chunk only otherwise. *)
Definition allocated_from m sz purpose m' : Prop :=
  (fits m sz /\ rm_pager m' = rm_pager m) \/
  (~ fits m sz /\ exists m2, add_chunk sz purpose m = Ok (0, m2) /\ rm_pager m' = rm_pager m2).

Lemma allocate_region_outcome m sz purpose :
  0 < sz <= 2 ^ 47 -> rm_inv [] m ->
  wp (fun f => ~ fits m sz /\ no_chunk m sz purpose f) (allocate_region sz purpose)
     (fun i m' => allocated m sz i m' /\ allocated_from m sz purpose m') m.
Proof.
  intros Hsz Hinv. unfold allocate_region. apply wp_bind.
  eapply wp_mono; [apply wp_total; by apply find_free_region_spec|].
  intros [i|] m1.
  - intros (Hi & Es & Ep & Ha & Hin & r & Hr & Hge). apply wp_bind, wp_ret.
    apply wp_total. eapply wp_mono; [eapply (take_region m); try done; [by rewrite Es|by left|]|].
    + intros q _. by rewrite Es.
    + cbv beta. intros j m' [Hal Hp]. split; [done|]. left. rewrite Hp, Ep. split; [|done].
      exists i. split; [done|]. by exists r.
  - intros [-> Hnone]. apply (not_fits _ _ Hinv) in Hnone. apply wp_bind, wp_bind.
    destruct (add_chunk sz purpose m) as [[err m2]|f] eqn:Ec.
    2: { unfold wp. rewrite Ec. split; [done|]. intros m' E. congruence. }
    eapply wp_ok; [exact Ec|]. do 2 wp_step.
    2: { split; [done|]. intros m' E. rewrite Ec in E. injection E as -> _. done. }
    assert (err = 0) as -> by (by apply Z.eqb_eq).
    destruct (add_chunk_ok _ _ _ _ Hsz Hinv Ec) as (Hi2 & Ha2 & Hsub & _ & k & l & i & Hk & Hl & Hil & Hbig).
    apply wp_bind. eapply wp_mono;
      [apply wp_total; by apply find_free_region_spec|].
    intros [j|] m3.
    + intros (Hi3 & Es & Ep & Ha3 & _ & r & Hr & Hge). apply wp_ret.
      apply wp_total. eapply wp_mono; [eapply (take_region m); try done; [by rewrite Es|congruence|right; eauto|]|].
      * intros q Hq. rewrite Es. pose proof (ri_used _ _ Hinv) as Hu. rewrite Forall_forall in Hu.
        destruct (Hu q Hq) as (rq & Hrq & _). rewrite Hrq. by eapply lookup_weaken.
      * cbv beta. intros j' m' [Hal Hp]. split; [done|]. right. split; [done|]. exists m2. by rewrite Hp, Ep.
    + intros [_ Hall]. exfalso. apply (not_fits _ _ Hi2 Hall). by eapply find_free_fits.
Qed.

Lemma allocate_region_spec m sz purpose :
  0 < sz <= 2 ^ 47 -> rm_inv [] m ->
  wp (no_chunk m sz purpose) (allocate_region sz purpose) (fun i m' => allocated m sz i m') m.
Proof.
  intros Hsz Hinv. pose proof (allocate_region_outcome m sz purpose Hsz Hinv) as Hw. unfold wp in *.
  destruct (allocate_region sz purpose m) as [[i m']|f]; tauto.
Qed.

(** *** Giving a region back *)

Lemma set_free_inv m i r k :
  rm_inv [] m -> allocated_regions m !! k = Some i -> objs (rm_store m) !! i = Some r ->
  rm_inv [i] (mkRM (erase k (allocated_regions m)) (freelists m)
                   (mkStore (<[i := set_free r]> (objs (rm_store m))) (next_rid (rm_store m)))
                   (rm_pager m)).
Proof.
  intros [I1 I2 I3 I4 I5 I6] Hk Hr. pose proof (erase_Permutation _ _ _ Hk) as Hp.
  pose proof (ho_nodup _ _ _ I2) as Hn. simpl in Hn. rewrite Hp in Hn. simpl in Hn.
  apply NoDup_cons in Hn as [Hn _]. rewrite not_elem_of_app in Hn. destruct Hn as [Hne Hnf].
  constructor; cbn [freelists rm_store allocated_regions rm_pager]; try done.
  - eapply heap_ok_perm; [|by eapply heap_ok_update].
    by apply (Permutation_app_tail (concat (freelists m))) in Hp.
  - apply Forall_reg_insert; [done|]. rewrite Hp in I3. by inversion I3.
  - intros k' l Hl. apply Forall_reg_insert; [|eauto]. intros Hin. apply Hnf.
    apply list_elem_of_In, in_concat. exists l. rewrite <- !list_elem_of_In.
    split; [by eapply list_elem_of_lookup_2|done].
  - constructor; [|done]. by apply reg_is_insert_eq.
Qed.

Record freed m (i : rid) m' : Prop := mkFreed {
  fr_inv : rm_inv [] m';
  fr_list : allocated_regions m ≡ₚ i :: allocated_regions m';
  fr_free r : objs (rm_store m) !! i = Some r ->
    exists l, freelists m' !! get_freelist_idx (rsize r) = Some (l ++ [i]) /\
              objs (rm_store m') !! i = Some (set_free r);
  fr_pager : rm_pager m' = rm_pager m;
  fr_keep q : q <> i -> objs (rm_store m') !! q = objs (rm_store m) !! q;
}.

Lemma free_region_spec m i :
  rm_inv [] m -> i ∈ allocated_regions m ->
  wp no_fault (free_region i) (fun _ m' => freed m i m') m.
Proof.
  intros Hinv Hin. unfold free_region. apply wp_bind, wp_get.
  destruct (find_idx_exists (fun j => bool_decide (j = i)) _ i Hin) as [k Ek];
    [by apply bool_decide_eq_true|]. rewrite Ek.
  apply find_idx_Some in Ek as (j & Hj & Pj & _). apply bool_decide_eq_true in Pj as ->.
  destruct (own_in m [] i Hinv) as (r & Hr & Hok); [simpl; apply elem_of_app; by left|].
  pose proof (set_free_inv m i r k Hinv Hj Hr) as Hinv'. set (m1 := mkRM _ _ _ _) in Hinv'.
  unfold set_lists. do 3 wp_step. eapply lookup_region_spec; [exact Hr|].
  unfold on_store, update_region. do 3 wp_step. cbn [rm_store allocated_regions freelists rm_pager].
  fold m1. eapply wp_mono.
  { eapply (push_free_spec [] m1 i); [done| |apply get_freelist_idx_range].
    exists (set_free r). split; [apply lookup_insert_eq|done]. }
  cbv beta. intros _ m2 (Hi2 & Es & Ep & Ea & l & Hl & Ef). constructor; [done|..].
  - rewrite Ea. by apply erase_Permutation.
  - intros r' Hr'. rewrite Hr in Hr'. injection Hr' as <-. exists l. unfold size in *.
    rewrite Ef, Es. split; [|apply lookup_insert_eq].
    apply list_lookup_insert_eq. by eapply lookup_lt_Some.
  - done.
  - intros q Hq. rewrite Es. by apply lookup_insert_ne.
Qed.

(** *** The constructor *)

Lemma rm_init_inv (mm : mem) (t : T) (o : os) vmfd :
  rm_inv [] (mkRM [] (replicate n_freelists []) (mkStore ∅ 0%nat)
                  (mkPst mm t o (mkPager vmfd [] 0 0 (2 ^ 64 - 1) 0 []))).
Proof.
  assert (concat (replicate n_freelists (@nil rid)) = []) as E by done.
  constructor; cbn [freelists rm_store allocated_regions rm_pager]; try done.
  - rewrite E. constructor.
    + intros i [r Hr]. done.
    + constructor.
    + intros i Hi. by apply not_elem_of_nil in Hi.
    + intros i j x Hi. by apply not_elem_of_nil in Hi.
    + intros x. split; [intros (i & Hi & _); by apply not_elem_of_nil in Hi|].
      intros (c & Hc & _). by apply not_elem_of_nil in Hc.
  - intros k l Hl. apply lookup_replicate in Hl as [-> _]. constructor.
  - intros x (c & Hc & _). by apply not_elem_of_nil in Hc.
Qed.
End Inv.
