(* ===== verification/RegionTheorems.v ===== *)
(** * Regions: theorems

    The properties of regions and of the region manager, with witnesses on a
    machine that was booted by the constructor. *)

From S2P Require Import Prelude Memory PageMath HostOS Tlb Pager PagerTree PagerWalk PagerSpec PagerTheorems Region RegionManager RegionSpec.
Local Open Scope Z_scope.

Section Free.
Context {os T : Type} `{HostOSLaws os} `{TranslationCache T}.
Implicit Types m : rm os T.

Lemma free_region_at_spec m p sz :
  rm_inv [] m ->
  wp any_fault (free_region_at p sz)
    (fun _ m' => exists i, i ∈ allocated_regions m /\ freed m i m' /\
       reg_is (rm_store m) (fun r => covers r p /\ rsize r = sz) i) m.
Proof.
  intros Hinv. unfold free_region_at. apply wp_bind, wp_get.
  destruct (find_idx _ _) as [k|] eqn:Ek; [|done].
  apply find_idx_Some in Ek as (i & Hi & Pi & _). apply wp_bind, wp_at; [|done].
  intros i' E. rewrite Hi in E. injection E as <-.
  assert (i ∈ allocated_regions m) as Hin by (by eapply list_elem_of_lookup_2).
  destruct (own_in m [] i Hinv) as (r & Hr & Hok); [simpl; apply elem_of_app; by left|].
  apply wp_bind. eapply lookup_region_spec; [done|]. do 2 wp_step; [|done]. do 2 wp_step; [|done].
  unfold size in *. rewrite Z.eqb_eq in *. subst sz.
  pose proof (set_free_inv m i r k Hinv Hi Hr) as Hinv1. set (m1 := mkRM _ _ _ _) in Hinv1.
  assert (reg_is (rm_store m1) (free_in (get_freelist_idx (rsize r))) i) as Hfi.
  { exists (set_free r). split; [apply lookup_insert_eq|done]. }
  pose proof (push_free_spec [] m1 i _ Hinv1 Hfi (get_freelist_idx_range _)) as Hw.
  apply wp_total_inv in Hw as ([] & m2 & E & Hi2 & Es & Ep & Ea & l & Hl & Ef).
  unfold on_store, update_region, push_free, set_lists. do 8 wp_step; [|done].
  do 4 wp_step. exists i. split; [done|].
  cbn [rm_store allocated_regions freelists rm_pager] in *. simplify_eq.
  split; [|exists r; split; [done|]; split; [by apply contains_host_covers|done]].
  match goal with |- freed _ _ ?t => assert (t = m2) as -> end.
  { destruct m2 as [a2 f2 s2 p2]. cbn in *. simplify_eq. done. }
  constructor; [done| | |done|].
  - rewrite Ea. by apply erase_Permutation.
  - intros r' Hr'. rewrite Hr in Hr'. injection Hr' as <-. eexists. rewrite Ef, Es.
    split; [|apply lookup_insert_eq]. apply list_lookup_insert_eq. by eapply lookup_lt_Some.
  - intros q Hq. rewrite Es. by apply lookup_insert_ne.
Qed.

(** *** The region manager as a state machine *)

Inductive rm_step : rm os T -> rm os T -> Prop :=
  | step_allocate m sz purpose i m' :
      0 < sz <= 2 ^ 47 -> allocate_region sz purpose m = Ok (i, m') -> rm_step m m'
  | step_free m i m' : free_region i m = Ok (tt, m') -> rm_step m m'
  | step_free_at m p sz m' : free_region_at p sz m = Ok (tt, m') -> rm_step m m'.

Lemma free_region_ok_in m i m' : free_region i m = Ok (tt, m') -> i ∈ allocated_regions m.
Proof.
  unfold free_region. intros E. apply bind_ok_inv in E as (m0 & m1 & [= <- <-] & E).
  destruct (find_idx _ _) as [k|] eqn:Ek; [|done].
  apply find_idx_Some in Ek as (j & Hj & Pj & _). apply bool_decide_eq_true in Pj as ->.
  by eapply list_elem_of_lookup_2.
Qed.

Lemma rm_step_inv m m' : rm_inv [] m -> rm_step m m' -> rm_inv [] m'.
Proof.
  intros Hinv Hs. destruct Hs as [m sz purpose i m' Hsz E|m i m' E|m p sz m' E].
  - by destruct (wp_partial_inv _ _ _ _ _ _ (allocate_region_spec m sz purpose Hsz Hinv) E).
  - pose proof (free_region_ok_in _ _ _ E) as Hin.
    by destruct (wp_partial_inv _ _ _ _ _ _ (free_region_spec m i Hinv Hin) E).
  - destruct (wp_partial_inv _ _ _ _ _ _ (free_region_at_spec m p sz Hinv) E)
      as (i & _ & Hf & _). apply Hf.
Qed.

Lemma rm_steps_inv m m' : rm_inv [] m -> rtc rm_step m m' -> rm_inv [] m'.
Proof. intros Hi Hs. induction Hs; [done|]. eauto using rm_step_inv. Qed.

(** *** The constructor *)

Definition rm_boot (vmfd : Z) (mm : mem) (t : T) (o : os) : rm os T :=
  mkRM [] (replicate n_freelists []) (mkStore ∅ 0%nat)
       (mkPst mm t o (mkPager vmfd [] 0 0 (2 ^ 64 - 1) 0 [])).

(** The region of the page tables lies in the first chunk. *)
Lemma boot_geometry (m m' : rm os T) c i r :
  rm_inv [] m' -> i ∈ allocated_regions m' -> objs (rm_store m') !! i = Some r ->
  rsize r = ELKVM_PAGER_MEMSIZE -> chunks (p_pager (rm_pager m')) = [c] ->
  region_ok (Region_new (userspace_addr c) (memory_size c) anon) -> guest_phys_addr c = 0 ->
  geometry (mkPager (_vmfd (p_pager (rm_pager m'))) (chunks (p_pager (rm_pager m')))
                    (host_p r) 0 0 0 []) c.
Proof.
  intros Hinv Hin Hr Hz Hc [Cb Cs Ct] Hg. cbn in Cb, Cs, Ct.
  destruct (own_in m' [] i Hinv) as (r' & Hr' & [Rb Rs Rt]); [simpl; apply elem_of_app; by left|].
  rewrite Hr in Hr'. injection Hr' as <-.
  assert (forall x, covers r x -> userspace_addr c <= x < userspace_addr c + memory_size c) as Hcov.
  { intros x Hx. destruct (proj1 (ho_cover _ _ _ (ri_heap _ _ Hinv) x)) as (d & Hd & Hdx).
    - exists i. split; [simpl; apply elem_of_app; by left|]. by exists r.
    - rewrite Hc in Hd. apply list_elem_of_singleton in Hd as ->. unfold contains_address in Hdx.
      rewrite andb_true_iff, Z.leb_le, Z.ltb_lt in Hdx. done. }
  unfold covers in Hcov. rewrite Hz in Hcov. unfold ELKVM_PAGER_MEMSIZE in *.
  pose proof (Hcov (host_p r)). pose proof (Hcov (host_p r + 16 * 1024 * 1024 - 1)).
  constructor; cbn; try lia; [by rewrite Hc|]. unfold ELKVM_SYSTEM_MEMSIZE. lia.
Qed.

Lemma boot_spec vmfd mm t o :
  0 < vmfd ->
  wp (no_chunk (rm_boot vmfd mm t o) ELKVM_PAGER_MEMSIZE "ELKVM Pager Memory") RegionManager_init
    (fun _ m' => rm_inv [] m' /\ exists c, chunks (p_pager (rm_pager m')) = [c] /\
       tables_ok (rm_pager m') c 1 /\ (forall v, trans c (rm_pager m') v = None))
    (rm_boot vmfd mm t o).
Proof.
  intros Hfd. pose proof (rm_init_inv mm t o vmfd) as Hinv. fold (rm_boot vmfd mm t o) in Hinv.
  unfold RegionManager_init. apply wp_bind.
  eapply wp_mono; [apply allocate_region_spec; [unfold ELKVM_PAGER_MEMSIZE; lia|done]|].
  intros i m1 Ha. pose proof Ha as [I1 Al _ (r & Hr & Hz & _ & _) Hp _].
  change (pagesize_align ELKVM_PAGER_MEMSIZE) with ELKVM_PAGER_MEMSIZE in Hz.
  apply wp_total, wp_bind. eapply lookup_region_spec; [done|].
  assert (i ∈ allocated_regions m1) as Hin by (rewrite Al; by left).
  assert (exists c, chunks (p_pager (rm_pager m1)) = [c] /\ guest_phys_addr c = 0 /\
            region_ok (Region_new (userspace_addr c) (memory_size c) anon)
            /\ ELKVM_PAGER_MEMSIZE <= memory_size c) as (c & Hc & Hg & Hok & Hcs).
  { destruct Hp as [Hp|(m2 & purpose & Ec & Hp)].
    - exfalso. destruct (own_in m1 [] i I1) as (r' & Hr' & Hrok);
        [simpl; apply elem_of_app; by left|]. rewrite Hr in Hr'. injection Hr' as <-.
      destruct (proj1 (ho_cover _ _ _ (ri_heap _ _ I1) (host_p r))) as (d & Hd & _).
      + exists i. split; [simpl; apply elem_of_app; by left|]. exists r. split; [done|].
        destruct Hrok. unfold covers. lia.
      + rewrite Hp in Hd. by apply not_elem_of_nil in Hd.
    - destruct (add_chunk_ok ELKVM_PAGER_MEMSIZE purpose _ m2 ltac:(unfold ELKVM_PAGER_MEMSIZE; lia) Hinv Ec)
        as (_ & _ & _ & (c & Hc & Hok & Hcs & Hg) & _).
      exists c. rewrite Hp, Hc, Hg. done. }
  unfold on_pager. apply wp_bind, wp_zoom. eapply wp_mono.
  { apply (set_pml4_lemma (rm_pager m1) c (base_address r)); [|done].
    by eapply boot_geometry. }
  cbv beta. intros pml4 s2 (_ & Hpi & Ht & _ & _ & Hc2 & Ho2). apply wp_ret. split.
  - destruct I1 as [J1 J2 J3 J4 J5 J6]. constructor; try done; cbn [rm_pager rm_store freelists allocated_regions].
    + eapply heap_ok_mem; [|done]. intros x. unfold chunk_mem. cbn [rm_pager]. by rewrite Hc2.
    + intros x. unfold chunk_mem. cbn [rm_pager]. rewrite Hc2, Ho2. apply J6.
  - exists c. cbn [rm_pager]. rewrite Hc2. split; [done|]. split; [by eexists|done].
Qed.
End Free.

(** An empty region manager on a host that still has all its memory. *)
Definition demo_rm : rm bump_os TLB.t := rm_boot 3 (fun _ => 0) TLB.new bump_init.

Lemma demo_rm_inv : rm_inv [] demo_rm.
Proof. apply rm_init_inv. Qed.

(** ** Properties *)

(** C9. The constructor.  Unless the host refuses the first chunk of memory,
    [RegionManager] on a valid file descriptor ends with every byte of guest
    memory in exactly one region and with an empty page-table tree inside the
    first chunk. *)
Theorem region_manager_boots {os T} `{HostOSLaws os} `{TranslationCache T} vmfd mm t (o : os) m1 :
  0 < vmfd ->
  add_chunk ELKVM_PAGER_MEMSIZE "ELKVM Pager Memory" (rm_boot vmfd mm t o) = Ok (0, m1) ->
  exists (m : rm os T) c, RegionManager_new vmfd mm t o = Ok (tt, m) /\ rm_inv [] m /\
    chunks (p_pager (rm_pager m)) = [c] /\ tables_ok (rm_pager m) c 1 /\
    (forall v, trans c (rm_pager m) v = None).
Proof.
  intros Hfd Hc. pose proof (boot_spec vmfd mm t o Hfd) as Hw. unfold wp in Hw.
  unfold RegionManager_new, PagerX86_64_new.
  replace (vmfd <? 1) with false by (symmetry; apply Z.ltb_ge; lia). fold (rm_boot vmfd mm t o).
  destruct (RegionManager_init (rm_boot vmfd mm t o)) as [[[] m]|f]; [|by destruct (Hw m1)].
  destruct Hw as (Hi & c & Hcs & Ht & Hv). by exists m, c.
Qed.

Lemma region_manager_boots_witness :
  exists (m : rm bump_os TLB.t) c,
    RegionManager_new 3 (fun _ => 0) TLB.new bump_init = Ok (tt, m) /\ rm_inv [] m /\
    chunks (p_pager (rm_pager m)) = [c] /\ tables_ok (rm_pager m) c 1 /\
    (forall v, trans c (rm_pager m) v = None).
Proof.
  eapply (region_manager_boots 3 (fun _ => 0) TLB.new bump_init); [lia|].
  apply ok_after. vm_compute. reflexivity.
Defined.

(** C10. Allocation.  [allocate_region] of [sz] bytes, at most [2 ^ 47], either returns a region
    that was not allocated before, of exactly [sz] rounded up to pages, marked
    used and without a guest address, leaving every allocated region untouched
    and the partition of guest memory intact; or aborts because no free region
    was large enough and no chunk could be added.  A chunk is added only when no free region
    was large enough: otherwise the memory of the machine is the same as before. *)
Theorem allocate_region_correct {os T} `{HostOSLaws os} `{TranslationCache T} (m : rm os T) sz purpose :
  0 < sz <= 2 ^ 47 -> rm_inv [] m ->
  match allocate_region sz purpose m with
  | Ok (i, m') => allocated m sz i m' /\
      (fits m sz -> rm_pager m' = rm_pager m) /\
      (~ fits m sz -> exists m2, add_chunk sz purpose m = Ok (0, m2) /\ rm_pager m' = rm_pager m2)
  | Fail _ => ~ fits m sz /\ forall m', add_chunk sz purpose m <> Ok (0, m')
  end.
Proof.
  intros Hsz Hi. pose proof (allocate_region_outcome m sz purpose Hsz Hi) as Hw. unfold wp in Hw.
  destruct (allocate_region sz purpose m) as [[i m']|f]; [|exact Hw].
  destruct Hw as [Ha [[Hf Hp]|[Hf Hp]]]; by split.
Qed.

Lemma allocate_region_correct_witness :
  exists i m', allocate_region 0x1801 "stack" demo_rm = Ok (i, m') /\ allocated demo_rm 0x1801 i m' /\
               exists m2, add_chunk 0x1801 "stack" demo_rm = Ok (0, m2) /\ rm_pager m' = rm_pager m2.
Proof.
  pose proof (allocate_region_correct demo_rm 0x1801 "stack" ltac:(lia) demo_rm_inv) as W.
  assert (allocate_region 0x1801 "stack" demo_rm
          = Ok (1%nat, after (allocate_region 0x1801 "stack") demo_rm)) as E
    by (apply ok_after; vm_compute; reflexivity).
  rewrite E in W. destruct W as (Ha & _ & Hc). do 2 eexists. split; [exact E|]. split; [exact Ha|]. apply Hc.
  intros (i & Hi & _). apply list_elem_of_In in Hi. vm_compute in Hi. exact Hi.
Defined.

(** Giving a region back.  [free_region] of an allocated region always
    succeeds: the region leaves the allocated list, is marked free without a
    guest address at the end of the free list of its size, and guest memory is
    still partitioned; a region that is not allocated is refused by the
    assertion. *)
Theorem free_region_correct {os T} `{HostOSLaws os} `{TranslationCache T} (m : rm os T) i :
  rm_inv [] m ->
  match free_region i m with
  | Ok (_, m') => i ∈ allocated_regions m /\ freed m i m'
  | Fail f => f = Assert /\ i ∉ allocated_regions m
  end.
Proof.
  intros Hi. destruct (decide (i ∈ allocated_regions m)) as [Hin|Hn].
  - pose proof (free_region_spec m i Hi Hin) as Hw. unfold wp in Hw.
    by destruct (free_region i m) as [[[] m']|f].
  - unfold free_region, bind, get.
    destruct (find_idx _ _) as [k|] eqn:Ek; [|done]. destruct Hn.
    apply find_idx_Some in Ek as (j & Hj & Pj & _). apply bool_decide_eq_true in Pj as ->.
    by eapply list_elem_of_lookup_2.
Qed.

Lemma free_region_correct_witness :
  exists m m', result (allocate_region 0x1801 "stack" demo_rm) = Some 1%nat /\
    allocate_region 0x1801 "stack" demo_rm = Ok (1%nat, m) /\
    free_region 1%nat m = Ok (tt, m') /\ freed m 1%nat m'.
Proof.
  set (m := after (allocate_region 0x1801 "stack") demo_rm).
  assert (allocate_region 0x1801 "stack" demo_rm = Ok (1%nat, m)) as E
    by (apply ok_after; vm_compute; reflexivity).
  pose proof (allocate_region_spec demo_rm 0x1801 "stack" ltac:(lia) demo_rm_inv) as Ha.
  apply (wp_partial_inv _ _ _ _ _ _) with (2 := E) in Ha.
  pose proof (free_region_correct m 1%nat (al_inv _ _ _ _ Ha)) as W.
  assert (free_region 1%nat m = Ok (tt, after (free_region 1%nat) m)) as E'
    by (apply ok_after; vm_compute; reflexivity).
  rewrite E' in W. exists m, (after (free_region 1%nat) m).
  split; [by rewrite E|]. split; [exact E|]. split; [exact E'|exact (proj2 W)].
Defined.

(** C11. In every state that allocations and frees can reach from a sound one,
    two different regions, allocated or free, never share a byte, and the
    bytes of the regions are exactly the bytes of guest memory: nothing is
    lost and nothing is handed out twice. *)
Theorem regions_partition_memory {os T} `{HostOSLaws os} `{TranslationCache T} (m0 m : rm os T) :
  rm_inv [] m0 -> rtc rm_step m0 m ->
  let own := allocated_regions m ++ concat (freelists m) in
  NoDup own /\
  (forall i j ri rj x, i ∈ own -> j ∈ own -> objs (rm_store m) !! i = Some ri ->
     objs (rm_store m) !! j = Some rj -> covers ri x -> covers rj x -> i = j) /\
  (forall x, (exists i r, i ∈ own /\ objs (rm_store m) !! i = Some r /\ covers r x) <-> chunk_mem m x).
Proof.
  intros Hi Hs own. pose proof (rm_steps_inv _ _ Hi Hs) as Hm.
  destruct (ri_heap _ _ Hm) as [_ Hn _ Hd Hc]. split; [done|]. split.
  - intros i j ri rj x Hin Hjn Ei Ej Ci Cj. apply (Hd i j x Hin Hjn); by eexists.
  - intros x. rewrite <- Hc. unfold reg_is, own. naive_solver.
Qed.

Lemma regions_partition_memory_witness :
  let m := after (allocate_region 0x5000 "heap") demo_rm in
  NoDup (allocated_regions m ++ concat (freelists m)).
Proof.
  intros m. apply (regions_partition_memory demo_rm m demo_rm_inv).
  apply rtc_once. apply (step_allocate demo_rm 0x5000 "heap" 1%nat); [lia|].
  apply ok_after. vm_compute. reflexivity.
Defined.

(** [slice_center] gives the region behind the hole the guest address of
    the hole: the source adds the offset but not the length that was cut out,
    so that the last [len] bytes of the guest range have no region and the
    first [len] bytes behind the hole are found [len] bytes too far in host
    memory. *)
Theorem slice_center_guest_address s i self off len :
  store_ok s -> objs s !! i = Some self -> region_ok self ->
  0 < off -> 0 < len -> off + len < rsize self -> 0 <= addr self -> addr self + rsize self < 2 ^ 64 ->
  exists j k s' tail, slice_center i off len s = Ok ((j, k), s') /\ objs s' !! j = Some tail /\
    host_p tail = host_p self + off + len /\
    guest_address tail = guest_address self + off /\
    guest_address tail <> guest_address self + off + len.
Proof.
  intros Hs Hi Hok Hoff Hlen Hlt Hg Htop.
  destruct (slice_center_spec s i self off len Hs Hi Hok Hoff ltac:(lia) Hlt Hg) as (E & _).
  do 4 eexists. split; [exact E|]. cbn [objs].
  pose proof (Hs i ltac:(by eexists)) as Hlt'.
  rewrite !lookup_insert_ne by lia. rewrite lookup_insert_eq. split; [done|].
  unfold guest_address. cbn [host_p addr]. rewrite u64_small by lia. lia.
Qed.

Lemma slice_center_guest_address_witness :
  let self := mkRegion 0x10000000 0x400000 0x4000 false "code" in
  let s := mkStore {[ 0%nat := self ]} 1%nat in
  exists j k s' tail, slice_center 0%nat 0x1000 0x1000 s = Ok ((j, k), s') /\ objs s' !! j = Some tail /\
    host_p tail = 0x10000000 + 0x1000 + 0x1000 /\ guest_address tail = 0x401000 /\
    guest_address tail <> 0x402000.
Proof.
  intros self s. apply (slice_center_guest_address s 0%nat self 0x1000 0x1000);
    [|reflexivity|constructor; by vm_compute|lia|lia|by vm_compute|by vm_compute|by vm_compute].
  intros j [r Hj]. cbn in *. apply lookup_singleton_Some in Hj as [<- _]. lia.
Defined.

(** [offset_in_region] does not check its argument: the assertion tests
    the region's own base address, so that an address outside a nonempty
    region is answered too, with the (possibly negative) distance. *)
Theorem offset_in_region_unchecked r g :
  0 <= addr r -> 0 < rsize r -> addr r + rsize r < 2 ^ 63 -> 0 <= g < 2 ^ 63 ->
  offset_in_region r g = Ok (g - addr r).
Proof.
  intros Ha Hz Ht Hg. unfold offset_in_region, contains_guest. rewrite u64_small by lia.
  replace (_ && _) with true by (symmetry; apply andb_true_iff; rewrite Z.leb_le, Z.ltb_lt; lia).
  f_equal. unfold s64, sN. simpl Z.sub. rewrite Z.mod_small; lia.
Qed.

Lemma offset_in_region_unchecked_witness :
  let r := mkRegion 0x10000000 0x400000 0x1000 false anon in
  contains_guest r 0x3ff000 = false /\ offset_in_region r 0x3ff000 = Ok (-0x1000).
Proof.
  intros r. split; [reflexivity|].
  apply (offset_in_region_unchecked r 0x3ff000); vm_compute; intuition discriminate.
Defined.
