(* ===== verification/Registers.v ===== *)
(** * Registers: [regs.h], [class Segment] of [vcpu.h], and the register file of
    [class KVM::VCPU] in [src/kvm.cc]

    The user-space copies of the register structures of [linux/kvm.h] and the
    two overloaded pairs [get_reg] / [set_reg] that select a field by name. *)

From S2P Require Import Prelude.
Local Open Scope Z_scope.

Inductive Reg_t :=
  | rax | rbx | rcx | rdx
  | rsi | rdi | rsp | rbp
  | r8 | r9 | r10 | r11
  | r12 | r13 | r14 | r15
  | rip | rflags
  | cr0 | cr2 | cr3 | cr4 | cr8
  | efer
  | apic_base.

Inductive Seg_t :=
  | cs | ds | es | fs | gs | ss
  | tr | ldt
  | gdt | idt.

#[export] Instance Reg_t_eq_dec : EqDecision Reg_t.
Proof. solve_decision. Defined.
#[export] Instance Seg_t_eq_dec : EqDecision Seg_t.
Proof. solve_decision. Defined.

(** [class Segment]: every attribute is a [CURRENT_ABI::paramtype], 64 bits. *)
Record Segment := mkSegment {
  _selector : Z; _base : Z; _limit : Z; _type : Z; _present : Z; _dpl : Z;
  _db : Z; _s : Z; _l : Z; _g : Z; _avl : Z;
}.

(** The two-argument constructor, for descriptor tables. *)
Definition Segment_dtable (base limit : Z) : Segment :=
  mkSegment 0 base limit 0 0 0 0 0 0 0 0.

Definition set_base (b : Z) (s : Segment) : Segment :=
  mkSegment (_selector s) b (_limit s) (_type s) (_present s) (_dpl s) (_db s) (_s s) (_l s)
            (_g s) (_avl s).
Definition set_selector (sel : Z) (s : Segment) : Segment :=
  mkSegment sel (_base s) (_limit s) (_type s) (_present s) (_dpl s) (_db s) (_s s) (_l s)
            (_g s) (_avl s).

(** ** The structures of [linux/kvm.h] *)

Record kvm_segment := mkKSeg {
  sg_base : Z;      (* __u64 *)
  sg_limit : Z;     (* __u32 *)
  sg_selector : Z;  (* __u16 *)
  sg_type : Z; sg_present : Z; sg_dpl : Z; sg_db : Z; sg_s : Z; sg_l : Z; sg_g : Z; sg_avl : Z; (* __u8 *)
}.

Record kvm_dtable := mkKDt { dt_base : Z (* __u64 *); dt_limit : Z (* __u16 *) }.

Record kvm_regs := mkRegs {
  k_rax : Z; k_rbx : Z; k_rcx : Z; k_rdx : Z; k_rsi : Z; k_rdi : Z; k_rsp : Z; k_rbp : Z; k_r8 : Z; k_r9 : Z; k_r10 : Z; k_r11 : Z; k_r12 : Z; k_r13 : Z; k_r14 : Z; k_r15 : Z; k_rip : Z; k_rflags : Z;
}.

Record kvm_sregs := mkSregs {
  k_cs : kvm_segment; k_ds : kvm_segment; k_es : kvm_segment; k_fs : kvm_segment; k_gs : kvm_segment; k_ss : kvm_segment; k_tr : kvm_segment; k_ldt : kvm_segment;
  k_gdt : kvm_dtable; k_idt : kvm_dtable;
  k_cr0 : Z; k_cr2 : Z; k_cr3 : Z; k_cr4 : Z; k_cr8 : Z; k_efer : Z; k_apic_base : Z;
  interrupt_bitmap : list Z;
}.

(** Assignments to one field. *)
Definition w_rax (s : kvm_regs) (v : Z) : kvm_regs := mkRegs v (k_rbx s) (k_rcx s) (k_rdx s)
    (k_rsi s) (k_rdi s) (k_rsp s) (k_rbp s) (k_r8 s) (k_r9 s) (k_r10 s) (k_r11 s) (k_r12 s)
    (k_r13 s) (k_r14 s) (k_r15 s) (k_rip s) (k_rflags s).
Definition w_rbx (s : kvm_regs) (v : Z) : kvm_regs := mkRegs (k_rax s) v (k_rcx s) (k_rdx s)
    (k_rsi s) (k_rdi s) (k_rsp s) (k_rbp s) (k_r8 s) (k_r9 s) (k_r10 s) (k_r11 s) (k_r12 s)
    (k_r13 s) (k_r14 s) (k_r15 s) (k_rip s) (k_rflags s).
Definition w_rcx (s : kvm_regs) (v : Z) : kvm_regs := mkRegs (k_rax s) (k_rbx s) v (k_rdx s)
    (k_rsi s) (k_rdi s) (k_rsp s) (k_rbp s) (k_r8 s) (k_r9 s) (k_r10 s) (k_r11 s) (k_r12 s)
    (k_r13 s) (k_r14 s) (k_r15 s) (k_rip s) (k_rflags s).
Definition w_rdx (s : kvm_regs) (v : Z) : kvm_regs := mkRegs (k_rax s) (k_rbx s) (k_rcx s) v
    (k_rsi s) (k_rdi s) (k_rsp s) (k_rbp s) (k_r8 s) (k_r9 s) (k_r10 s) (k_r11 s) (k_r12 s)
    (k_r13 s) (k_r14 s) (k_r15 s) (k_rip s) (k_rflags s).
Definition w_rsi (s : kvm_regs) (v : Z) : kvm_regs := mkRegs (k_rax s) (k_rbx s) (k_rcx s)
    (k_rdx s) v (k_rdi s) (k_rsp s) (k_rbp s) (k_r8 s) (k_r9 s) (k_r10 s) (k_r11 s) (k_r12 s)
    (k_r13 s) (k_r14 s) (k_r15 s) (k_rip s) (k_rflags s).
Definition w_rdi (s : kvm_regs) (v : Z) : kvm_regs := mkRegs (k_rax s) (k_rbx s) (k_rcx s)
    (k_rdx s) (k_rsi s) v (k_rsp s) (k_rbp s) (k_r8 s) (k_r9 s) (k_r10 s) (k_r11 s) (k_r12 s)
    (k_r13 s) (k_r14 s) (k_r15 s) (k_rip s) (k_rflags s).
Definition w_rsp (s : kvm_regs) (v : Z) : kvm_regs := mkRegs (k_rax s) (k_rbx s) (k_rcx s)
    (k_rdx s) (k_rsi s) (k_rdi s) v (k_rbp s) (k_r8 s) (k_r9 s) (k_r10 s) (k_r11 s) (k_r12 s)
    (k_r13 s) (k_r14 s) (k_r15 s) (k_rip s) (k_rflags s).
Definition w_rbp (s : kvm_regs) (v : Z) : kvm_regs := mkRegs (k_rax s) (k_rbx s) (k_rcx s)
    (k_rdx s) (k_rsi s) (k_rdi s) (k_rsp s) v (k_r8 s) (k_r9 s) (k_r10 s) (k_r11 s) (k_r12 s)
    (k_r13 s) (k_r14 s) (k_r15 s) (k_rip s) (k_rflags s).
Definition w_r8 (s : kvm_regs) (v : Z) : kvm_regs := mkRegs (k_rax s) (k_rbx s) (k_rcx s) (k_rdx
    s) (k_rsi s) (k_rdi s) (k_rsp s) (k_rbp s) v (k_r9 s) (k_r10 s) (k_r11 s) (k_r12 s) (k_r13
    s) (k_r14 s) (k_r15 s) (k_rip s) (k_rflags s).
Definition w_r9 (s : kvm_regs) (v : Z) : kvm_regs := mkRegs (k_rax s) (k_rbx s) (k_rcx s) (k_rdx
    s) (k_rsi s) (k_rdi s) (k_rsp s) (k_rbp s) (k_r8 s) v (k_r10 s) (k_r11 s) (k_r12 s) (k_r13
    s) (k_r14 s) (k_r15 s) (k_rip s) (k_rflags s).
Definition w_r10 (s : kvm_regs) (v : Z) : kvm_regs := mkRegs (k_rax s) (k_rbx s) (k_rcx s)
    (k_rdx s) (k_rsi s) (k_rdi s) (k_rsp s) (k_rbp s) (k_r8 s) (k_r9 s) v (k_r11 s) (k_r12 s)
    (k_r13 s) (k_r14 s) (k_r15 s) (k_rip s) (k_rflags s).
Definition w_r11 (s : kvm_regs) (v : Z) : kvm_regs := mkRegs (k_rax s) (k_rbx s) (k_rcx s)
    (k_rdx s) (k_rsi s) (k_rdi s) (k_rsp s) (k_rbp s) (k_r8 s) (k_r9 s) (k_r10 s) v (k_r12 s)
    (k_r13 s) (k_r14 s) (k_r15 s) (k_rip s) (k_rflags s).
Definition w_r12 (s : kvm_regs) (v : Z) : kvm_regs := mkRegs (k_rax s) (k_rbx s) (k_rcx s)
    (k_rdx s) (k_rsi s) (k_rdi s) (k_rsp s) (k_rbp s) (k_r8 s) (k_r9 s) (k_r10 s) (k_r11 s) v
    (k_r13 s) (k_r14 s) (k_r15 s) (k_rip s) (k_rflags s).
Definition w_r13 (s : kvm_regs) (v : Z) : kvm_regs := mkRegs (k_rax s) (k_rbx s) (k_rcx s)
    (k_rdx s) (k_rsi s) (k_rdi s) (k_rsp s) (k_rbp s) (k_r8 s) (k_r9 s) (k_r10 s) (k_r11 s)
    (k_r12 s) v (k_r14 s) (k_r15 s) (k_rip s) (k_rflags s).
Definition w_r14 (s : kvm_regs) (v : Z) : kvm_regs := mkRegs (k_rax s) (k_rbx s) (k_rcx s)
    (k_rdx s) (k_rsi s) (k_rdi s) (k_rsp s) (k_rbp s) (k_r8 s) (k_r9 s) (k_r10 s) (k_r11 s)
    (k_r12 s) (k_r13 s) v (k_r15 s) (k_rip s) (k_rflags s).
Definition w_r15 (s : kvm_regs) (v : Z) : kvm_regs := mkRegs (k_rax s) (k_rbx s) (k_rcx s)
    (k_rdx s) (k_rsi s) (k_rdi s) (k_rsp s) (k_rbp s) (k_r8 s) (k_r9 s) (k_r10 s) (k_r11 s)
    (k_r12 s) (k_r13 s) (k_r14 s) v (k_rip s) (k_rflags s).
Definition w_rip (s : kvm_regs) (v : Z) : kvm_regs := mkRegs (k_rax s) (k_rbx s) (k_rcx s)
    (k_rdx s) (k_rsi s) (k_rdi s) (k_rsp s) (k_rbp s) (k_r8 s) (k_r9 s) (k_r10 s) (k_r11 s)
    (k_r12 s) (k_r13 s) (k_r14 s) (k_r15 s) v (k_rflags s).
Definition w_rflags (s : kvm_regs) (v : Z) : kvm_regs := mkRegs (k_rax s) (k_rbx s) (k_rcx s)
    (k_rdx s) (k_rsi s) (k_rdi s) (k_rsp s) (k_rbp s) (k_r8 s) (k_r9 s) (k_r10 s) (k_r11 s)
    (k_r12 s) (k_r13 s) (k_r14 s) (k_r15 s) (k_rip s) v.
Definition w_cs (s : kvm_sregs) (v : kvm_segment) : kvm_sregs := mkSregs v (k_ds s) (k_es s)
    (k_fs s) (k_gs s) (k_ss s) (k_tr s) (k_ldt s) (k_gdt s) (k_idt s) (k_cr0 s) (k_cr2 s) (k_cr3
    s) (k_cr4 s) (k_cr8 s) (k_efer s) (k_apic_base s) (interrupt_bitmap s).
Definition w_ds (s : kvm_sregs) (v : kvm_segment) : kvm_sregs := mkSregs (k_cs s) v (k_es s)
    (k_fs s) (k_gs s) (k_ss s) (k_tr s) (k_ldt s) (k_gdt s) (k_idt s) (k_cr0 s) (k_cr2 s) (k_cr3
    s) (k_cr4 s) (k_cr8 s) (k_efer s) (k_apic_base s) (interrupt_bitmap s).
Definition w_es (s : kvm_sregs) (v : kvm_segment) : kvm_sregs := mkSregs (k_cs s) (k_ds s) v
    (k_fs s) (k_gs s) (k_ss s) (k_tr s) (k_ldt s) (k_gdt s) (k_idt s) (k_cr0 s) (k_cr2 s) (k_cr3
    s) (k_cr4 s) (k_cr8 s) (k_efer s) (k_apic_base s) (interrupt_bitmap s).
Definition w_fs (s : kvm_sregs) (v : kvm_segment) : kvm_sregs := mkSregs (k_cs s) (k_ds s) (k_es
    s) v (k_gs s) (k_ss s) (k_tr s) (k_ldt s) (k_gdt s) (k_idt s) (k_cr0 s) (k_cr2 s) (k_cr3 s)
    (k_cr4 s) (k_cr8 s) (k_efer s) (k_apic_base s) (interrupt_bitmap s).
Definition w_gs (s : kvm_sregs) (v : kvm_segment) : kvm_sregs := mkSregs (k_cs s) (k_ds s) (k_es
    s) (k_fs s) v (k_ss s) (k_tr s) (k_ldt s) (k_gdt s) (k_idt s) (k_cr0 s) (k_cr2 s) (k_cr3 s)
    (k_cr4 s) (k_cr8 s) (k_efer s) (k_apic_base s) (interrupt_bitmap s).
Definition w_ss (s : kvm_sregs) (v : kvm_segment) : kvm_sregs := mkSregs (k_cs s) (k_ds s) (k_es
    s) (k_fs s) (k_gs s) v (k_tr s) (k_ldt s) (k_gdt s) (k_idt s) (k_cr0 s) (k_cr2 s) (k_cr3 s)
    (k_cr4 s) (k_cr8 s) (k_efer s) (k_apic_base s) (interrupt_bitmap s).
Definition w_tr (s : kvm_sregs) (v : kvm_segment) : kvm_sregs := mkSregs (k_cs s) (k_ds s) (k_es
    s) (k_fs s) (k_gs s) (k_ss s) v (k_ldt s) (k_gdt s) (k_idt s) (k_cr0 s) (k_cr2 s) (k_cr3 s)
    (k_cr4 s) (k_cr8 s) (k_efer s) (k_apic_base s) (interrupt_bitmap s).
Definition w_ldt (s : kvm_sregs) (v : kvm_segment) : kvm_sregs := mkSregs (k_cs s) (k_ds s)
    (k_es s) (k_fs s) (k_gs s) (k_ss s) (k_tr s) v (k_gdt s) (k_idt s) (k_cr0 s) (k_cr2 s)
    (k_cr3 s) (k_cr4 s) (k_cr8 s) (k_efer s) (k_apic_base s) (interrupt_bitmap s).
Definition w_gdt (s : kvm_sregs) (v : kvm_dtable) : kvm_sregs := mkSregs (k_cs s) (k_ds s) (k_es
    s) (k_fs s) (k_gs s) (k_ss s) (k_tr s) (k_ldt s) v (k_idt s) (k_cr0 s) (k_cr2 s) (k_cr3 s)
    (k_cr4 s) (k_cr8 s) (k_efer s) (k_apic_base s) (interrupt_bitmap s).
Definition w_idt (s : kvm_sregs) (v : kvm_dtable) : kvm_sregs := mkSregs (k_cs s) (k_ds s) (k_es
    s) (k_fs s) (k_gs s) (k_ss s) (k_tr s) (k_ldt s) (k_gdt s) v (k_cr0 s) (k_cr2 s) (k_cr3 s)
    (k_cr4 s) (k_cr8 s) (k_efer s) (k_apic_base s) (interrupt_bitmap s).
Definition w_cr0 (s : kvm_sregs) (v : Z) : kvm_sregs := mkSregs (k_cs s) (k_ds s) (k_es s) (k_fs
    s) (k_gs s) (k_ss s) (k_tr s) (k_ldt s) (k_gdt s) (k_idt s) v (k_cr2 s) (k_cr3 s) (k_cr4 s)
    (k_cr8 s) (k_efer s) (k_apic_base s) (interrupt_bitmap s).
Definition w_cr2 (s : kvm_sregs) (v : Z) : kvm_sregs := mkSregs (k_cs s) (k_ds s) (k_es s) (k_fs
    s) (k_gs s) (k_ss s) (k_tr s) (k_ldt s) (k_gdt s) (k_idt s) (k_cr0 s) v (k_cr3 s) (k_cr4 s)
    (k_cr8 s) (k_efer s) (k_apic_base s) (interrupt_bitmap s).
Definition w_cr3 (s : kvm_sregs) (v : Z) : kvm_sregs := mkSregs (k_cs s) (k_ds s) (k_es s) (k_fs
    s) (k_gs s) (k_ss s) (k_tr s) (k_ldt s) (k_gdt s) (k_idt s) (k_cr0 s) (k_cr2 s) v (k_cr4 s)
    (k_cr8 s) (k_efer s) (k_apic_base s) (interrupt_bitmap s).
Definition w_cr4 (s : kvm_sregs) (v : Z) : kvm_sregs := mkSregs (k_cs s) (k_ds s) (k_es s) (k_fs
    s) (k_gs s) (k_ss s) (k_tr s) (k_ldt s) (k_gdt s) (k_idt s) (k_cr0 s) (k_cr2 s) (k_cr3 s) v
    (k_cr8 s) (k_efer s) (k_apic_base s) (interrupt_bitmap s).
Definition w_cr8 (s : kvm_sregs) (v : Z) : kvm_sregs := mkSregs (k_cs s) (k_ds s) (k_es s) (k_fs
    s) (k_gs s) (k_ss s) (k_tr s) (k_ldt s) (k_gdt s) (k_idt s) (k_cr0 s) (k_cr2 s) (k_cr3 s)
    (k_cr4 s) v (k_efer s) (k_apic_base s) (interrupt_bitmap s).
Definition w_efer (s : kvm_sregs) (v : Z) : kvm_sregs := mkSregs (k_cs s) (k_ds s) (k_es s)
    (k_fs s) (k_gs s) (k_ss s) (k_tr s) (k_ldt s) (k_gdt s) (k_idt s) (k_cr0 s) (k_cr2 s) (k_cr3
    s) (k_cr4 s) (k_cr8 s) v (k_apic_base s) (interrupt_bitmap s).
Definition w_apic_base (s : kvm_sregs) (v : Z) : kvm_sregs := mkSregs (k_cs s) (k_ds s) (k_es s)
    (k_fs s) (k_gs s) (k_ss s) (k_tr s) (k_ldt s) (k_gdt s) (k_idt s) (k_cr0 s) (k_cr2 s) (k_cr3
    s) (k_cr4 s) (k_cr8 s) (k_efer s) v (interrupt_bitmap s).

(** ** [class KVM::VCPU] *)

(** What the library reads of [struct kvm_run]: the exit reason and the first
    word of the union behind it, which is [hw.hardware_exit_reason] as well as
    [fail_entry.hardware_entry_failure_reason]. *)
Record kvm_run := mkRun { run_exit_reason : Z; run_union : Z }.

Record KVM_VCPU := mkKvmVcpu {
  kv_fd : Z;
  kv_regs : kvm_regs;
  kv_sregs : kvm_sregs;
  kv_run : kvm_run;      (* the mapped run structure *)
  kv_debug : Z;          (* debug.control *)
}.

Definition kvm_get_reg (s : KVM_VCPU) (reg : Reg_t) : Z :=
  match reg with
  | rax => k_rax (kv_regs s)
  | rbx => k_rbx (kv_regs s)
  | rcx => k_rcx (kv_regs s)
  | rdx => k_rdx (kv_regs s)
  | rsi => k_rsi (kv_regs s)
  | rdi => k_rdi (kv_regs s)
  | rsp => k_rsp (kv_regs s)
  | rbp => k_rbp (kv_regs s)
  | r8 => k_r8 (kv_regs s)
  | r9 => k_r9 (kv_regs s)
  | r10 => k_r10 (kv_regs s)
  | r11 => k_r11 (kv_regs s)
  | r12 => k_r12 (kv_regs s)
  | r13 => k_r13 (kv_regs s)
  | r14 => k_r14 (kv_regs s)
  | r15 => k_r15 (kv_regs s)
  | rip => k_rip (kv_regs s)
  | rflags => k_rflags (kv_regs s)
  | cr0 => k_cr0 (kv_sregs s)
  | cr2 => k_cr2 (kv_sregs s)
  | cr3 => k_cr3 (kv_sregs s)
  | cr4 => k_cr4 (kv_sregs s)
  | cr8 => k_cr8 (kv_sregs s)
  | efer => k_efer (kv_sregs s)
  | apic_base => k_apic_base (kv_sregs s)
  end.

Definition with_regs (s : KVM_VCPU) (f : kvm_regs) : KVM_VCPU := mkKvmVcpu (kv_fd s) f (kv_sregs s) (kv_run s) (kv_debug s).
Definition with_sregs (s : KVM_VCPU) (f : kvm_sregs) : KVM_VCPU := mkKvmVcpu (kv_fd s) (kv_regs s) f (kv_run s) (kv_debug s).
Definition with_run (s : KVM_VCPU) (f : kvm_run) : KVM_VCPU :=
  mkKvmVcpu (kv_fd s) (kv_regs s) (kv_sregs s) f (kv_debug s).
Definition with_debug (s : KVM_VCPU) (f : Z) : KVM_VCPU :=
  mkKvmVcpu (kv_fd s) (kv_regs s) (kv_sregs s) (kv_run s) f.

Definition kvm_set_reg (s : KVM_VCPU) (reg : Reg_t) (val : Z) : KVM_VCPU :=
  match reg with
  | rax => with_regs s (w_rax (kv_regs s) val)
  | rbx => with_regs s (w_rbx (kv_regs s) val)
  | rcx => with_regs s (w_rcx (kv_regs s) val)
  | rdx => with_regs s (w_rdx (kv_regs s) val)
  | rsi => with_regs s (w_rsi (kv_regs s) val)
  | rdi => with_regs s (w_rdi (kv_regs s) val)
  | rsp => with_regs s (w_rsp (kv_regs s) val)
  | rbp => with_regs s (w_rbp (kv_regs s) val)
  | r8 => with_regs s (w_r8 (kv_regs s) val)
  | r9 => with_regs s (w_r9 (kv_regs s) val)
  | r10 => with_regs s (w_r10 (kv_regs s) val)
  | r11 => with_regs s (w_r11 (kv_regs s) val)
  | r12 => with_regs s (w_r12 (kv_regs s) val)
  | r13 => with_regs s (w_r13 (kv_regs s) val)
  | r14 => with_regs s (w_r14 (kv_regs s) val)
  | r15 => with_regs s (w_r15 (kv_regs s) val)
  | rip => with_regs s (w_rip (kv_regs s) val)
  | rflags => with_regs s (w_rflags (kv_regs s) val)
  | cr0 => with_sregs s (w_cr0 (kv_sregs s) val)
  | cr2 => with_sregs s (w_cr2 (kv_sregs s) val)
  | cr3 => with_sregs s (w_cr3 (kv_sregs s) val)
  | cr4 => with_sregs s (w_cr4 (kv_sregs s) val)
  | cr8 => with_sregs s (w_cr8 (kv_sregs s) val)
  | efer => with_sregs s (w_efer (kv_sregs s) val)
  | apic_base => with_sregs s (w_apic_base (kv_sregs s) val)
  end.

(** The private overloads that convert between a [Segment] and the fields of
    [linux/kvm.h]; the assignments truncate. *)
Definition seg_of_dtable (p : kvm_dtable) : Segment := Segment_dtable (dt_base p) (dt_limit p).
Definition seg_of_segment (p : kvm_segment) : Segment :=
  mkSegment (sg_selector p) (sg_base p) (sg_limit p) (sg_type p) (sg_present p) (sg_dpl p)
            (sg_db p) (sg_s p) (sg_l p) (sg_g p) (sg_avl p).
Definition dtable_of_seg (g : Segment) : kvm_dtable := mkKDt (u64 (_base g)) (u16 (_limit g)).
Definition segment_of_seg (g : Segment) : kvm_segment :=
  mkKSeg (u64 (_base g)) (u32 (_limit g)) (u16 (_selector g)) (u8 (_type g)) (u8 (_present g))
         (u8 (_dpl g)) (u8 (_db g)) (u8 (_s g)) (u8 (_l g)) (u8 (_g g)) (u8 (_avl g)).

Definition kvm_get_seg (s : KVM_VCPU) (t : Seg_t) : Segment :=
  match t with
  | cs => seg_of_segment (k_cs (kv_sregs s))
  | ds => seg_of_segment (k_ds (kv_sregs s))
  | es => seg_of_segment (k_es (kv_sregs s))
  | fs => seg_of_segment (k_fs (kv_sregs s))
  | gs => seg_of_segment (k_gs (kv_sregs s))
  | ss => seg_of_segment (k_ss (kv_sregs s))
  | tr => seg_of_segment (k_tr (kv_sregs s))
  | ldt => seg_of_segment (k_ldt (kv_sregs s))
  | gdt => seg_of_dtable (k_gdt (kv_sregs s))
  | idt => seg_of_dtable (k_idt (kv_sregs s))
  end.

Definition kvm_set_seg (s : KVM_VCPU) (t : Seg_t) (g : Segment) : KVM_VCPU :=
  match t with
  | cs => with_sregs s (w_cs (kv_sregs s) (segment_of_seg g))
  | ds => with_sregs s (w_ds (kv_sregs s) (segment_of_seg g))
  | es => with_sregs s (w_es (kv_sregs s) (segment_of_seg g))
  | fs => with_sregs s (w_fs (kv_sregs s) (segment_of_seg g))
  | gs => with_sregs s (w_gs (kv_sregs s) (segment_of_seg g))
  | ss => with_sregs s (w_ss (kv_sregs s) (segment_of_seg g))
  | tr => with_sregs s (w_tr (kv_sregs s) (segment_of_seg g))
  | ldt => with_sregs s (w_ldt (kv_sregs s) (segment_of_seg g))
  | gdt => with_sregs s (w_gdt (kv_sregs s) (dtable_of_seg g))
  | idt => with_sregs s (w_idt (kv_sregs s) (dtable_of_seg g))
  end.

(** The structures after [memset(.., 0, ..)]. *)
Definition zero_segment : kvm_segment := mkKSeg 0 0 0 0 0 0 0 0 0 0 0.
Definition zero_regs : kvm_regs := mkRegs 0 0 0 0 0 0 0 0 0 0 0 0 0 0 0 0 0 0.
Definition zero_sregs : kvm_sregs :=
  mkSregs zero_segment zero_segment zero_segment zero_segment zero_segment zero_segment
          zero_segment zero_segment (mkKDt 0 0) (mkKDt 0 0) 0 0 0 0 0 0 0 [0; 0; 0; 0].

(** ** Theorems *)

(** What the kernel structure can hold of a segment: everything for a code or
    data segment, base and a 16-bit limit for a descriptor table. *)
Definition stored_seg (t : Seg_t) (g : Segment) : Segment :=
  match t with
  | gdt | idt => seg_of_dtable (dtable_of_seg g)
  | _ => seg_of_segment (segment_of_seg g)
  end.

Lemma get_set_reg s r r' v :
  kvm_get_reg (kvm_set_reg s r v) r' = if decide (r = r') then v else kvm_get_reg s r'.
Proof. destruct r, r'; reflexivity. Qed.

Lemma get_set_seg s t t' g :
  kvm_get_seg (kvm_set_seg s t g) t' = if decide (t = t') then stored_seg t g else kvm_get_seg s t'.
Proof. destruct t, t'; reflexivity. Qed.

Lemma get_reg_set_seg s t g r : kvm_get_reg (kvm_set_seg s t g) r = kvm_get_reg s r.
Proof. destruct t, r; reflexivity. Qed.

Lemma get_seg_set_reg s r v t : kvm_get_seg (kvm_set_reg s r v) t = kvm_get_seg s t.
Proof. destruct t, r; reflexivity. Qed.

(** The register file is a faithful store: a register that was set reads
    back the value, every other register and every segment keeps theirs; a
    segment that was set reads back what the kernel structure can hold of it
    and leaves every other segment and every register alone. *)
Theorem register_file_laws s r r' v t t' g :
  kvm_get_reg (kvm_set_reg s r v) r' = (if decide (r = r') then v else kvm_get_reg s r') /\
  kvm_get_seg (kvm_set_reg s r v) t = kvm_get_seg s t /\
  kvm_get_seg (kvm_set_seg s t g) t' = (if decide (t = t') then stored_seg t g else kvm_get_seg s t') /\
  kvm_get_reg (kvm_set_seg s t g) r = kvm_get_reg s r.
Proof. auto using get_set_reg, get_seg_set_reg, get_set_seg, get_reg_set_seg. Qed.
