(* ===== verification/Mappings.v ===== *)
(** * Memory mappings: [class Mapping] of [src/mapping.cc]

    A mapping is a range of guest-virtual addresses backed by the front of a
    region.  Mappings are values that live in vectors, regions are shared
    objects; a method is a function on the mapping's value in the monad of the
    region manager, and answers the new value of the object where the source
    changes it. *)

From S2P Require Import Prelude Memory PageMath HostOS Tlb Pager Region RegionManager.
Local Open Scope Z_scope.

Definition PROT_READ : Z := 1.
Definition PROT_WRITE : Z := 2.
Definition PROT_EXEC : Z := 4.
Definition MAP_FIXED : Z := 0x10.
Definition MAP_ANONYMOUS : Z := 0x20.
Definition SEEK_SET : Z := 0.
Definition SEEK_CUR : Z := 1.

(** The file operations of the host that [fill] uses. *)
Class FileOS (os : Type) := {
  f_lseek : os -> Z -> Z -> Z -> Z * os;
  (** [read(fd, buf, n)]: the result and the bytes that were read. *)
  f_read : os -> Z -> Z -> (Z * list Z) * os;
}.

Module Mapping.
Record t := mk {
  host_p : Z;
  addr : Z;
  length_ : Z;
  mapped_pages : Z;
  prot : Z;
  flags : Z;
  fd : Z;
  offset : Z;
  region : rid;
}.

Definition anonymous (m : t) : bool := ctrue (Z.land (flags m) MAP_ANONYMOUS).
Definition readable (m : t) : bool := ctrue (Z.land (prot m) PROT_READ).
Definition executable (m : t) : bool := ctrue (Z.land (prot m) PROT_EXEC).
Definition writeable (m : t) : bool := ctrue (Z.land (prot m) PROT_WRITE).

Definition base_address (m : t) : Z := host_p m.
Definition guest_address (m : t) : Z := addr m.
Definition get_length (m : t) : Z := length_ m.
Definition get_pages (m : t) : Z := mapped_pages m.
Definition get_region (m : t) : rid := region m.

Definition contains_host (m : t) (p : Z) : bool :=
  (host_p m <=? p) && (p <? host_p m + length_ m).
Definition contains_guest (m : t) (a : Z) : bool :=
  (addr m <=? a) && (a <? u64 (addr m + length_ m)).

Definition with_extent (m : t) (a l p : Z) : t :=
  mk (host_p m) a l p (prot m) (flags m) (fd m) (offset m) (region m).

Definition all_unmapped (m : t) : bool := mapped_pages m =? 0.
Definition set_unmapped (m : t) : t := with_extent m (addr m) 0 0.
Definition pages_unmapped (m : t) (pages : Z) : t :=
  with_extent m (addr m) (length_ m) (u32 (mapped_pages m - pages)).
Definition mprotect (m : t) (pr : Z) : t :=
  mk (host_p m) (addr m) (length_ m) (mapped_pages m) pr (flags m) (fd m) (offset m) (region m).

(** [operator==]: readability and the region are not compared. *)
Definition eqb (m1 m2 : t) : bool :=
  (base_address m1 =? base_address m2) && (guest_address m1 =? guest_address m2)
  && (get_length m1 =? get_length m2) && (get_pages m1 =? get_pages m2)
  && Bool.eqb (anonymous m1) (anonymous m2) && Bool.eqb (writeable m1) (writeable m2)
  && Bool.eqb (executable m1) (executable m2)
  && (fd m1 =? fd m2) && (offset m1 =? offset m2).

(** [struct region_mapping]: what the monitor's callbacks see and change. *)
Record region_mapping := mkRM {
  rmap_host_p : Z;
  rmap_guest_virt : Z;
  rmap_length : Z;
  rmap_mapped_pages : Z;
  rmap_prot : Z;
  rmap_flags : Z;
  rmap_fd : Z;
  rmap_offset : Z;
}.

Definition c_mapping (m : t) : region_mapping :=
  mkRM (host_p m) (addr m) (length_ m) (mapped_pages m) (prot m) (flags m) (fd m) (offset m).

Definition diff (m : t) (c : region_mapping) : res Z :=
  if negb (host_p m =? rmap_host_p c) then Fail Assert
  else Ok (if negb (host_p m =? rmap_host_p c) || negb (addr m =? rmap_guest_virt c)
              || negb (length_ m =? rmap_length c) || negb (prot m =? rmap_prot c)
           then 1 else 0).

Section Ops.
Context {os T : Type} `{HostOS os} `{FileOS os} `{TranslationCache T}.
Local Abbreviation RM := (M (rm os T)).

Definition region_of (m : t) : RM Region := on_store (lookup_region (region m)).

Definition set_region_addr (r : rid) (a : Z) : RM unit :=
  let! reg := on_store (lookup_region r) in
  on_store (update_region r (set_guest_addr a reg)).

(** The constructor. *)
Definition new (r : rid) (guest_addr l pr f fdes off : Z) : RM t :=
  let! reg := on_store (lookup_region r) in
  do! assert_ (l <=? size reg) in
  let hp := Region.base_address reg in
  let a := if guest_addr =? 0 then u64 hp else guest_addr in
  do! set_region_addr r a in
  do! assert_ (negb (is_free reg)) in
  ret (mk hp a l (u32 (pages_from_size l)) pr f fdes off r).

Definition fits_address (m : t) (a : Z) : RM bool :=
  let! reg := region_of m in
  ret ((Region.guest_address reg <=? a) && (a <? u64 (Region.guest_address reg + size reg))).

(** The new end address, and the object. *)
Definition grow_to_fill (m : t) : RM (Z * t) :=
  let! reg := region_of m in
  let m' := with_extent m (Region.guest_address reg) (size reg) (u32 (pages_from_size (size reg))) in
  ret (u64 (addr m' + length_ m'), m').

Definition grow (m : t) (sz : Z) : RM (Z * t) :=
  if sz <=? length_ m then ret (length_ m, m) else
  let! reg := region_of m in
  let l := if size reg <=? sz then size reg else sz in
  ret (l, with_extent m (addr m) l (u32 (pages_from_size l))).

Definition set_length (m : t) (len : Z) : RM t :=
  do! assert_ (len <=? length_ m) in
  let! reg := region_of m in
  do! assert_ (len <=? size reg) in
  ret (with_extent m (addr m) len (u32 (pages_from_size len))).

(** Give the first [off] bytes up: the new region holds them. *)
Definition move_guest_address (m : t) (off : Z) : RM (rid * t) :=
  do! assert_ (0 <? off) in
  do! assert_ (u32 off <? u32 (length_ m)) in
  let! reg := region_of m in
  do! assert_ (length_ m <=? size reg) in
  let l := u64 (length_ m - off) in
  let m' := mk (host_p m + off) (u64 (addr m + off)) l (u32 (pages_from_size l))
               (prot m) (flags m) (fd m) (offset m) (region m) in
  let! r := on_store (slice_begin (region m) off anon) in
  let! reg := region_of m in
  do! assert_ (l <=? size reg) in
  ret (r, m').

(** *** Reading the file behind a mapping *)

Definition on_os {A} (f : os -> A * os) : RM A :=
  on_pager (let! s := get in
            let '(a, o) := f (p_os s) in
            do! put (mkPst (p_mem s) (p_tlb s) o (p_pager s)) in
            ret a).

(** One round of the read loop: [inr] when the loop ends. *)
Definition fill_step (m : t) (x : Z * Z) : RM ((Z * Z) + (Z * Z)) :=
  let '(buf, total) := x in
  if negb (total <=? length_ m) then ret (inr (buf, total)) else
  let! '(bytes, data) := on_os (fun o => f_read o (fd m) (u64 (length_ m - total))) in
  do! on_pager (upd_mem (fun mm => store_bytes mm buf data)) in
  if 0 <? bytes then ret (inl (buf + bytes, u64 (total + bytes)))
  else ret (inr (buf, total)).

Definition fill (m : t) : RM Z :=
  do! assert_ (0 <? fd m) in
  let! pos := on_os (fun o => f_lseek o (fd m) 0 SEEK_CUR) in
  do! assert_ (0 <=? pos) in
  let! err := on_os (fun o => f_lseek o (fd m) (offset m) SEEK_SET) in
  do! assert_ (0 <=? s32 err) in
  let! '(buf, total) := while_ (fill_step m) (host_p m, 0) in
  let rem := s64 (length_ m - total) in
  do! (if 0 <? rem then on_pager (upd_mem (fun mm => memset mm buf 0 rem)) else ret tt) in
  let! err := on_os (fun o => f_lseek o (fd m) pos SEEK_SET) in
  do! assert_ (0 <=? s32 err) in
  ret (s32 err).

Definition with_file (m : t) (fl filedes o : Z) : t :=
  mk (host_p m) (addr m) (length_ m) (mapped_pages m) (prot m) fl filedes o (region m).

Definition modify (m : t) (pr fl filedes o : Z) : RM t :=
  let m := with_extent m (addr m) (length_ m) (u32 (pages_from_size (length_ m))) in
  let m := if negb (pr =? prot m) then mprotect m pr else m in
  let! m := (if negb (flags m =? fl) then
               let! m := (if anonymous m && negb (ctrue (Z.land fl MAP_ANONYMOUS)) then
                            let m := with_file m fl filedes o in
                            do! fill m in ret m
                          else ret m) in
               ret (with_file m fl (fd m) (offset m))
             else ret m) in
  let! m := (if negb (fd m =? filedes) then
               let m := with_file m (flags m) filedes o in
               do! (if negb (anonymous m) then do! fill m in ret tt else ret tt) in
               ret m
             else ret m) in
  if negb (offset m =? o) then
    let m := with_file m (flags m) (fd m) o in
    do! (if negb (anonymous m) then do! fill m in ret tt else ret tt) in
    ret m
  else ret m.

Definition sync_back (m : t) (c : region_mapping) : RM t :=
  let m' := mk (rmap_host_p c) (rmap_guest_virt c) (rmap_length c)
               (u32 (pages_from_size (rmap_length c))) (rmap_prot c)
               (flags m) (fd m) (offset m) (region m) in
  do! set_region_addr (region m) (rmap_guest_virt c) in
  if negb (flags m =? rmap_flags c) || negb (fd m =? rmap_fd c) || negb (offset m =? rmap_offset c)
  then
    let m' := with_file m' (rmap_flags c) (rmap_fd c) (rmap_offset c) in
    do! fill m' in
    ret m'
  else ret m'.
End Ops.
End Mapping.
