(* ===== verification/Heap.v ===== *)
(** * The heap: [class HeapManager] of [src/heap.cc]

    The manager keeps one vector of mappings for the program break and one for
    [mmap].  A [Mapping &] is a reference to a slot of one of the vectors: the
    model passes the slot, so that what a reference denotes after an [erase] is
    what the vector holds there.  (A [push_back] that reallocates would leave
    such a reference dangling; the slot is what it denotes as long as the
    storage does not move.) *)

From stdpp Require Export pretty.
From S2P Require Import Prelude Memory PageMath HostOS Tlb Pager Region RegionManager Mappings.
Local Open Scope Z_scope.

Definition MREMAP_FIXED : Z := 2.

Inductive mref := Brk (i : nat) | Mmap (i : nat).

Record hm (os T : Type) := mkHM {
  mappings_for_brk : list Mapping.t;
  mappings_for_mmap : list Mapping.t;
  curbrk : Z;
  hm_rm : rm os T;
}.
Arguments mkHM {os T}.
Arguments mappings_for_brk {os T}.
Arguments mappings_for_mmap {os T}.
Arguments curbrk {os T}.
Arguments hm_rm {os T}.

Module HeapManager.
Section Heap.
Context {os T : Type} `{HostOS os} `{FileOS os} `{TranslationCache T}.
Local Abbreviation HM := (M (hm os T)).

Definition on_rm {A} (c : M (rm os T) A) : HM A :=
  zoom hm_rm (fun r h => mkHM (mappings_for_brk h) (mappings_for_mmap h) (curbrk h) r) c.

Definition set_brk_list (l : list Mapping.t) : HM unit :=
  modify (fun h => mkHM l (mappings_for_mmap h) (curbrk h) (hm_rm h)).
Definition set_mmap_list (l : list Mapping.t) : HM unit :=
  modify (fun h => mkHM (mappings_for_brk h) l (curbrk h) (hm_rm h)).
Definition set_curbrk (b : Z) : HM unit :=
  modify (fun h => mkHM (mappings_for_brk h) (mappings_for_mmap h) b (hm_rm h)).

Definition load_ref (r : mref) : HM Mapping.t :=
  let! h := get in
  match r with
  | Brk i => at_ (mappings_for_brk h) i
  | Mmap i => at_ (mappings_for_mmap h) i
  end.

Definition store_ref (r : mref) (m : Mapping.t) : HM unit :=
  let! h := get in
  match r with
  | Brk i => set_brk_list (<[i := m]> (mappings_for_brk h))
  | Mmap i => set_mmap_list (<[i := m]> (mappings_for_mmap h))
  end.

(** [mappings_for_brk.back()]. *)
Definition brk_back : HM mref :=
  let! h := get in
  match length (mappings_for_brk h) with
  | O => fail OutOfRange
  | S n => ret (Brk n)
  end.

Definition brk_contains_address (addr : Z) : HM bool :=
  let! h := get in
  let! front := at_ (mappings_for_brk h) 0 in
  ret ((Mapping.guest_address front <=? addr) && (addr <? curbrk h)).

Definition find_in (l : list Mapping.t) (P : Mapping.t -> bool) : option nat := find_idx P l.

Definition contains_address (addr : Z) : HM bool :=
  let! b := brk_contains_address addr in
  if negb b then
    let! h := get in
    ret (match find_in (mappings_for_mmap h) (fun m => Mapping.contains_guest m addr) with
         | Some _ => false   (* it == end() is false *)
         | None => true
         end)
  else ret true.

Definition find_ref (P : Mapping.t -> bool) : HM mref :=
  let! h := get in
  match find_in (mappings_for_brk h) P with
  | Some i => ret (Brk i)
  | None => match find_in (mappings_for_mmap h) P with
            | Some i => ret (Mmap i)
            | None => fail Assert
            end
  end.

Definition find_mapping (addr : Z) : HM mref := find_ref (fun m => Mapping.contains_guest m addr).
Definition find_mapping_host (p : Z) : HM mref := find_ref (fun m => Mapping.contains_host m p).

Definition address_mapped (addr : Z) : HM bool :=
  let! h := get in
  ret (match find_in (mappings_for_brk h) (fun m => Mapping.contains_guest m addr) with
       | Some _ => true
       | None => match find_in (mappings_for_mmap h) (fun m => Mapping.contains_guest m addr) with
                 | Some _ => true
                 | None => false
                 end
       end).

Definition free_mapping (m : Mapping.t) : HM unit :=
  let! h := get in
  match find_in (mappings_for_brk h) (fun x => Mapping.eqb x m) with
  | Some i => set_brk_list (erase i (mappings_for_brk h))
  | None => match find_in (mappings_for_mmap h) (fun x => Mapping.eqb x m) with
            | Some i => set_mmap_list (erase i (mappings_for_mmap h))
            | None => fail Assert
            end
  end.

(** *** Page tables of a mapping *)

Definition pt_opts (m : Mapping.t) : Z :=
  Z.lor (if Mapping.writeable m then PT_OPT_WRITE else 0)
        (if Mapping.executable m then PT_OPT_EXEC else 0).

(** [map] on an object: the result and the object. *)
Definition map_val (m : Mapping.t) : HM (Z * Mapping.t) :=
  if negb (Mapping.readable m) && negb (Mapping.writeable m) && negb (Mapping.executable m) then
    let! _err := on_rm (on_pager (unmap_region (Mapping.guest_address m) (Mapping.get_pages m))) in
    ret (0, Mapping.set_unmapped m)
  else
    let! h := get in
    do! (match find_in (mappings_for_mmap h) (fun x => Mapping.eqb x m) with
         | None => set_mmap_list (mappings_for_mmap h ++ [m])
         | Some _ => ret tt
         end) in
    let! reg := on_rm (Mapping.region_of m) in
    do! assert_ (Mapping.base_address m =? base_address reg) in
    let! err := on_rm (on_pager (map_region (Mapping.base_address m) (Mapping.guest_address m)
                                            (Mapping.get_pages m) (pt_opts m))) in
    do! (if is_free reg then on_rm (use_region (Mapping.region m)) else ret tt) in
    do! assert_ (err =? 0) in
    ret (err, m).

Definition map (r : mref) : HM Z :=
  let! m := load_ref r in
  let! '(err, m') := map_val m in
  do! store_ref r m' in
  ret err.

(** [unmap(m, unmap_addr, pages)]: the number of pages that stay mapped. *)
Definition unmap_at (r : mref) (unmap_addr pages : Z) : HM Z :=
  let! m := load_ref r in
  do! assert_ (Mapping.contains_guest m unmap_addr) in
  do! assert_ (pages <=? Mapping.get_pages m) in
  do! assert_ (Mapping.contains_guest m
                 (u64 (unmap_addr + u32 (u32 (pages - 1) * ELKVM_PAGESIZE)))) in
  let! err := on_rm (on_pager (unmap_region unmap_addr pages)) in
  do! assert_ (err =? 0) in
  let m' := Mapping.pages_unmapped m pages in
  do! store_ref r m' in
  let pages_left := Mapping.get_pages m' in
  do! (if pages_left =? 0 then
         do! on_rm (free_region (Mapping.get_region m')) in
         free_mapping m'
       else ret tt) in
  ret (s32 pages_left).

Definition unmap (r : mref) : HM Z :=
  let! m := load_ref r in
  unmap_at r (Mapping.guest_address m) (Mapping.get_pages m).

(** *** Creating mappings *)

Definition create_mapping (addr len prot flags fd off : Z) (r : option rid) : HM mref :=
  let len := pagesize_align len in
  let! r := match r with
            | Some r => ret r
            | None => on_rm (allocate_region len (String.append "mapping with fd: " (pretty fd)))
            end in
  let! m := on_rm (Mapping.new r addr len prot flags fd off) in
  let! h := get in
  let ref := Mmap (length (mappings_for_mmap h)) in
  do! set_mmap_list (mappings_for_mmap h ++ [m]) in
  let! err := map ref in
  do! assert_ (err =? 0) in
  let! m := load_ref ref in
  let! reg := on_rm (Mapping.region_of m) in
  do! assert_ (negb (is_free reg)) in
  let! fr := on_rm (find_region_host (Mapping.base_address m)) in
  do! assert_ (match fr with Some _ => true | None => false end) in
  ret ref.

(** *** Cutting mappings *)

Definition slice_region (r : mref) (off len : Z) : HM unit :=
  let! m := load_ref r in
  let! '(first, second) := on_rm (on_store (slice_center (Mapping.region m) off len)) in
  do! on_rm (use_region first) in
  on_rm (add_free_region second).

Definition heap_slice_begin (r : mref) (len : Z) : HM unit :=
  let! m := load_ref r in
  let pages := u32 (pages_from_size len) in
  let! _n := unmap_at r (Mapping.guest_address m) pages in
  let! m := load_ref r in
  let! '(reg, m') := on_rm (Mapping.move_guest_address m (s64 len)) in
  do! store_ref r m' in
  on_rm (add_free_region reg).

Definition heap_slice_center (r : mref) (off len : Z) : HM unit :=
  let! m := load_ref r in
  do! assert_ (Mapping.contains_host m (Mapping.base_address m + off + len)) in
  do! assert_ (0 <=? off) in
  do! assert_ (off <? s64 (Mapping.get_length m)) in
  let! reg := on_rm (Mapping.region_of m) in
  do! assert_ (Mapping.get_length m <=? size reg) in
  let pages := u32 (pages_from_size len) in
  let! _n := unmap_at r (u64 (Mapping.guest_address m + off)) pages in
  do! slice_region r off len in
  let slice_sz := u64 (off + len) in
  let! m := load_ref r in
  let mapping_sz := Mapping.get_length m in
  let! m' := on_rm (Mapping.set_length m off) in
  do! store_ref r m' in
  if slice_sz <? mapping_sz then
    let rem := u64 (mapping_sz - off - len) in
    let! reg := on_rm (find_region_host (Mapping.base_address m' + off + len)) in
    let! _ref := create_mapping (u64 (Mapping.guest_address m' + slice_sz)) rem (Mapping.prot m')
                   (Mapping.flags m') (Mapping.fd m') (s64 (Mapping.offset m' + slice_sz)) reg in
    ret tt
  else ret tt.

Definition heap_slice_end (r : mref) (slice_base : Z) : HM unit :=
  let! m := load_ref r in
  do! assert_ (Mapping.contains_guest m slice_base) in
  let rest := u64 (Mapping.guest_address m + Mapping.get_length m - slice_base) in
  let! _n := unmap_at r slice_base (u32 (pages_from_size rest)) in
  let! m := load_ref r in
  let rest := u64 (Mapping.guest_address m + Mapping.get_length m - slice_base) in
  do! assert_ (rest <? Mapping.get_length m) in
  let! m' := on_rm (Mapping.set_length m (u64 (Mapping.get_length m - rest))) in
  store_ref r m'.

Definition slice (r : mref) (slice_base len : Z) : HM unit :=
  let! m := load_ref r in
  do! assert_ (Mapping.contains_guest m slice_base) in
  let addr := Mapping.guest_address m in
  if slice_base =? addr then heap_slice_begin r len else
  do! assert_ (addr <=? slice_base) in
  let off := s64 (slice_base - addr) in
  if Mapping.contains_guest m (u64 (slice_base + len)) then heap_slice_center r off len
  else heap_slice_end r slice_base.

Definition get_mapping (addr len prot flags fd off : Z) : HM mref :=
  let len := pagesize_align len in
  if negb (addr =? 0) && ctrue (Z.land flags MAP_FIXED) then
    let! h := get in
    match find_in (mappings_for_mmap h)
            (fun m => (Mapping.guest_address m =? addr) && (Mapping.get_length m =? len)) with
    | None =>
        do! (match find_in (mappings_for_mmap h) (fun m => Mapping.contains_guest m addr) with
             | Some i => slice (Mmap i) addr len
             | None => ret tt
             end) in
        create_mapping addr len prot flags fd off None
    | Some i =>
        let! m := load_ref (Mmap i) in
        let! m' := on_rm (Mapping.modify m prot flags fd off) in
        do! store_ref (Mmap i) m' in
        let! _err := map (Mmap i) in
        let! m := load_ref (Mmap i) in
        let! reg := on_rm (Mapping.region_of m) in
        do! assert_ (negb (is_free reg)) in
        let! fr := on_rm (find_region_host (Mapping.base_address m)) in
        do! assert_ (match fr with Some _ => true | None => false end) in
        ret (Mmap i)
    end
  else create_mapping 0 len prot flags fd off None.

(** *** The program break *)

Definition free_unused_step (brk : Z) (_ : unit) : HM (unit + unit) :=
  let! b := brk_back in
  let! m := load_ref b in
  if brk <=? Mapping.guest_address m then
    let! err := unmap b in
    do! assert_ (err =? 0) in
    ret (inl tt)
  else ret (inr tt).

Definition free_unused_mappings (brk : Z) : HM unit := while_ (free_unused_step brk) tt.

Definition shrink (newbrk : Z) : HM Z :=
  do! free_unused_mappings newbrk in
  let slice_base := if negb (page_aligned newbrk) then next_page newbrk else newbrk in
  let! b := brk_back in
  let! m := load_ref b in
  let top := u64 (Mapping.guest_address m + Mapping.get_length m) in
  if top =? slice_base then ret 0 else
  do! assert_ (slice_base <? top) in
  let len := u64 (top - slice_base) in
  do! slice b slice_base len in
  ret 0.

Definition grow (newbrk : Z) : HM Z :=
  let! h := get in
  do! assert_ (curbrk h <? newbrk) in
  let sz := u64 (newbrk - curbrk h) in
  let! r := on_rm (allocate_region sz anon) in
  let! m := on_rm (Mapping.new r (curbrk h) sz (Z.lor PROT_READ PROT_WRITE) MAP_ANONYMOUS 0 0) in
  let! h := get in
  do! set_brk_list (mappings_for_brk h ++ [m]) in
  let! '(err, _m) := map_val m in
  ret err.

Definition brk (newbrk : Z) : HM Z :=
  let! h := get in
  if newbrk <? curbrk h then
    let! err := shrink newbrk in
    if ctrue err then ret err else
    do! set_curbrk newbrk in
    ret 0
  else
    let! b := brk_back in
    let! m := load_ref b in
    let! fits := on_rm (Mapping.fits_address m (u64 (newbrk - 1))) in
    if negb fits then
      let! '(fill_end, m') := on_rm (Mapping.grow_to_fill m) in
      do! store_ref b m' in
      do! set_curbrk fill_end in
      let! _err := map b in
      let! err := grow newbrk in
      if ctrue err then ret err else
      do! set_curbrk newbrk in
      ret 0
    else
      let sz := Mapping.get_length m in
      let growsz := u64 (newbrk - curbrk h) in
      let! '(newsz, m') := on_rm (Mapping.grow m (u64 (sz + growsz))) in
      do! store_ref b m' in
      do! assert_ (newsz =? u64 (sz + growsz)) in
      let! _err := map b in
      do! set_curbrk newbrk in
      ret 0.

Definition init (data : rid) (sz : Z) : HM Z :=
  let! reg := on_rm (on_store (lookup_region data)) in
  let! m := on_rm (Mapping.new data (guest_address reg) sz (Z.lor PROT_READ PROT_WRITE)
                               MAP_ANONYMOUS 0 0) in
  let! h := get in
  do! set_brk_list (mappings_for_brk h ++ [m]) in
  let! reg := on_rm (on_store (lookup_region data)) in
  let b := next_page (u64 (guest_address reg + sz)) in
  do! set_curbrk b in
  do! assert_ (contains_guest reg (u64 (b - 1))) in
  ret 0.

(** *** [mremap] *)

Definition unmap_to_new_size (r : mref) (new_size : Z) : HM unit :=
  let! m := load_ref r in
  let diff := u64 (Mapping.get_length m - new_size) in
  let unmap_addr := u64 (Mapping.guest_address m + new_size) in
  let! _n := unmap_at r unmap_addr (u32 (pages_from_size diff)) in
  ret tt.

Definition create_resized_mapping (r : mref) (new_size : Z) : HM Z :=
  let! m := load_ref r in
  let! nref := get_mapping 0 new_size (Mapping.prot m) (Mapping.flags m) (Mapping.fd m)
                           (Mapping.offset m) in
  let! n := load_ref nref in
  let! m := load_ref r in
  do! on_rm (on_pager (upd_mem (fun mm => memcpy mm (Mapping.base_address n) (Mapping.base_address m)
                                                 (Mapping.get_length m)))) in
  let! _err := map nref in
  let! n := load_ref nref in
  let addr := Mapping.guest_address n in
  let! _n := unmap r in
  ret addr.

Definition remap (r : mref) (new_size flags : Z) : HM Z :=
  do! assert_ (negb (ctrue (Z.land flags MREMAP_FIXED))) in
  let! m := load_ref r in
  if new_size <? Mapping.get_length m then
    do! unmap_to_new_size r new_size in
    let! m := load_ref r in
    ret (Mapping.guest_address m)
  else
    let! fits := on_rm (Mapping.fits_address m (u64 (Mapping.guest_address m + new_size - 1))) in
    if fits then
      let! '(_n, m') := on_rm (Mapping.grow m new_size) in
      do! store_ref r m' in
      ret (Mapping.guest_address m')
    else create_resized_mapping r new_size.
End Heap.
End HeapManager.
