(* ===== verification/HeapSpec.v ===== *)
(** * Heap and mappings: correctness

    How the region manager, the pager and the mappings fit together: the
    invariant of a running machine's memory, that allocation keeps it, and what
    creating a mapping does to the translation. *)

From S2P Require Import Prelude Memory PageMath HostOS Tlb Pager PagerTree PagerWalk PagerSpec PagerTlb PagerTheorems Region RegionManager RegionSpec RegionTheorems Mappings Heap.
Local Open Scope Z_scope.

Section Machine.
Context {os T : Type} `{HostOSLaws os} `{FileOS os} `{TranslationCache T}.
Implicit Types m : rm os T.

(** The memory of a machine: regions partition the chunks, the chunks tile
    guest-physical memory, and the page tables fill an allocated region at the
    start of the first chunk. *)
Record mem_inv m (c0 : Chunk) (N : Z) : Prop := mkMemInv {
  mi_rm : rm_inv [] m;
  mi_tables : tables_ok (rm_pager m) c0 N;
  mi_chunks : chunks_ok (p_pager (rm_pager m));
  mi_total : 0 <= total_memsz (p_pager (rm_pager m)) <= 2 ^ 51;
  mi_pml4 : host_pml4_p (p_pager (rm_pager m)) = userspace_addr c0;
  mi_region : exists t, t ∈ allocated_regions m /\
    reg_is (rm_store m) (fun r => host_p r = userspace_addr c0 /\
                                  rsize r = ELKVM_SYSTEM_MEMSIZE) t;
}.

(** *** What adding a chunk leaves alone *)

Lemma create_mem_chunk_keeps p0 sz (s s' : pst os T) p :
  0 < sz < 2 ^ 64 -> create_mem_chunk p0 sz s = Ok ((0, p), s') ->
  p_mem s' = p_mem s /\ p_tlb s' = p_tlb s /\
  host_pml4_p (p_pager s') = host_pml4_p (p_pager s) /\
  host_next_free_tbl_p (p_pager s') = host_next_free_tbl_p (p_pager s) /\
  guest_next_free (p_pager s') = guest_next_free (p_pager s) /\
  total_memsz (p_pager s') = u64 (total_memsz (p_pager s) + sz).
Proof.
  intros Hsz E.
  assert (wp any_fault (create_mem_chunk p0 sz)
    (fun r s' => r.1 = 0 -> p_mem s' = p_mem s /\ p_tlb s' = p_tlb s /\
       host_pml4_p (p_pager s') = host_pml4_p (p_pager s) /\
       host_next_free_tbl_p (p_pager s') = host_next_free_tbl_p (p_pager s) /\
       guest_next_free (p_pager s') = guest_next_free (p_pager s) /\
       total_memsz (p_pager s') = u64 (total_memsz (p_pager s) + sz)) s) as Hw.
  { unfold create_mem_chunk. apply wp_if; intros _; [by apply wp_ret|]. do 2 wp_step.
    destruct (posix_memalign _ _ _) as [[e q] o']. do 2 wp_step.
    destruct (ctrue e) eqn:He; [apply wp_ret; intros E'; cbn in E'; by subst e|].
    unfold alloc_chunk, map_chunk_to_kvm, upd_pager. do 11 wp_step; [|done].
    cbn [p_pager chunks] in *. rewrite lookup_app_r, Nat.sub_diag in * by lia. simplify_eq/=.
    replace (sz =? 0) with false by (symmetry; apply Z.eqb_neq; lia). cbv iota.
    do 4 wp_step; [|done]. do 2 wp_step. cbn [p_os p_pager _vmfd].
    destruct (set_user_memory_region _ _ _) as [[e' errno] o'']. wp_go. done. }
  by apply (wp_partial_inv _ _ _ _ _ _ Hw E).
Qed.

Lemma tables_ok_chunk (s s' : pst os T) c0 N c :
  tables_ok s c0 N -> p_mem s' = p_mem s ->
  host_pml4_p (p_pager s') = host_pml4_p (p_pager s) ->
  host_next_free_tbl_p (p_pager s') = host_next_free_tbl_p (p_pager s) ->
  chunks (p_pager s') = chunks (p_pager s) ++ [c] -> tables_ok s' c0 N.
Proof.
  intros [own [[G1 G2 G3 G4 G5 G6 G7 G8] Hn Ht]] Em Ep En Ec. exists own.
  constructor; [|by rewrite En, Ep|by rewrite Em, Ep].
  constructor; rewrite ?Ep; try done. rewrite Ec. apply lookup_app_l_Some. done.
Qed.

(** *** Allocation keeps the memory of the machine sound *)

(** How much memory is asked of the host for a region. *)
Definition grow_size (sz : Z) : Z := if ELKVM_SYSTEM_MEMGROW <? sz then pagesize_align sz else ELKVM_SYSTEM_MEMGROW.

Lemma grow_size_bounds sz : 0 < sz <= 2 ^ 47 -> 0 < grow_size sz <= 2 ^ 47 + 4096.
Proof.
  intros Hsz. unfold grow_size. destruct (Z.ltb_spec ELKVM_SYSTEM_MEMGROW sz); [|by vm_compute].
  destruct (pagesize_align_bounds sz); lia.
Qed.

(** Growing the memory is one new chunk for the pager. *)
Lemma add_chunk_pager m sz purpose m2 :
  add_chunk sz purpose m = Ok (0, m2) ->
  exists p, create_mem_chunk 0 (grow_size sz) (rm_pager m) = Ok ((0, p), rm_pager m2).
Proof.
  intros E. unfold add_chunk in E. fold (grow_size sz) in E.
  apply bind_ok_inv in E as ([err p] & m1 & Ec & E). unfold on_pager, zoom in Ec.
  destruct (create_mem_chunk 0 (grow_size sz) (rm_pager m)) as [[[err' p'] s1]|] eqn:Ecm; [|done].
  injection Ec as -> -> <-. destruct (ctrue err) eqn:He; [by injection E as -> <-|].
  apply ctrue_false in He as ->. exists p.
  apply bind_ok_inv in E as (i & m3 & [= <- <-] & E).
  apply bind_ok_inv in E as ([] & m4 & Ep & [= <-]). unfold push_free, bind, get, at_ in Ep.
  cbn [freelists] in Ep. destruct (freelists m !! _); [|done]. by injection Ep as <-.
Qed.

Lemma add_chunk_mem m sz purpose m2 c0 N :
  0 < sz <= 2 ^ 47 -> mem_inv m c0 N -> add_chunk sz purpose m = Ok (0, m2) ->
  tables_ok (rm_pager m2) c0 N /\ chunks_ok (p_pager (rm_pager m2)) /\
  total_memsz (p_pager (rm_pager m)) <= total_memsz (p_pager (rm_pager m2))
    <= total_memsz (p_pager (rm_pager m)) + 2 ^ 48 /\
  p_mem (rm_pager m2) = p_mem (rm_pager m) /\ p_tlb (rm_pager m2) = p_tlb (rm_pager m) /\
  host_pml4_p (p_pager (rm_pager m2)) = host_pml4_p (p_pager (rm_pager m)).
Proof.
  intros Hsz [Hrm Ht Hc Htot Hp _] E. pose proof (grow_size_bounds sz Hsz) as Hgr.
  destruct (add_chunk_pager m sz purpose m2 E) as [p Ecm].
  destruct (create_mem_chunk_ok 0 (grow_size sz) (rm_pager m) _ p ltac:(lia) Ecm) as (Hrok & _ & _ & c & Hcs & Hcu & Hcz & Hcg).
  destruct (create_mem_chunk_keeps 0 (grow_size sz) (rm_pager m) _ p ltac:(lia) Ecm) as (Em & Etl & Epm & Enf & _ & Etot).
  rewrite u64_small in Etot by lia. destruct Hc as (Hl & Hle & Hb).
  split; [by eapply tables_ok_chunk|]. split; [|by rewrite Etot; split; [lia|]].
  split; [|split].
  - rewrite Hcs. apply layout_app. split; [done|]. rewrite Hcg, Hcz. split; [done|].
    split; [|lia]. pose proof (layout_end_mod 0 _ Hl eq_refl) as Hlm. rewrite <- Hle in Hlm.
    destruct Hrok as [[? ?] [? ?] ?]. cbn in *.
    constructor; rewrite ?Hcg, ?Hcz, ?Hcu; try lia; split; (done || lia).
  - rewrite Etot, Hcs, Hle. unfold layout_end. rewrite fold_left_app. simpl. by rewrite Hcz.
  - lia.
Qed.

Lemma allocated_mem m sz i m' c0 N :
  0 < sz <= 2 ^ 47 -> mem_inv m c0 N -> total_memsz (p_pager (rm_pager m)) + 2 ^ 48 <= 2 ^ 51 ->
  allocated m sz i m' ->
  mem_inv m' c0 N /\ p_mem (rm_pager m') = p_mem (rm_pager m) /\
  p_tlb (rm_pager m') = p_tlb (rm_pager m) /\
  host_pml4_p (p_pager (rm_pager m')) = host_pml4_p (p_pager (rm_pager m)).
Proof.
  intros Hsz Hm Htot [Ai Al An Ar Ap Ak].
  destruct (mi_region _ _ _ Hm) as (t & Ht & rt & Hrt & Ht1).
  assert (exists t, t ∈ allocated_regions m' /\
    reg_is (rm_store m') (fun r => host_p r = userspace_addr c0 /\
                                   rsize r = ELKVM_SYSTEM_MEMSIZE) t) as Hreg.
  { exists t. split; [rewrite Al; apply elem_of_app; by left|]. exists rt. by rewrite Ak. }
  destruct Ap as [Ep|(m2 & purpose & Ec & Ep)].
  - split; [|by rewrite Ep]. destruct Hm. constructor; rewrite ?Ep; done.
  - destruct (add_chunk_mem m sz purpose m2 c0 N Hsz Hm Ec) as (T1 & T2 & T3 & T4 & T5 & T6).
    split; [|by rewrite Ep]. destruct Hm as [_ _ _ Q1 Q2 _].
    constructor; rewrite ?Ep; try done; [lia|congruence].
Qed.

(** Allocation adds at most a chunk to the pager's, behind the others. *)
Lemma allocated_chunks m sz i m' :
  0 < sz <= 2 ^ 47 -> allocated m sz i m' ->
  exists l, chunks (p_pager (rm_pager m')) = chunks (p_pager (rm_pager m)) ++ l.
Proof.
  intros Hsz [_ _ _ _ [Ep|(m2 & purpose & Ec & Ep)] _]; [exists []; by rewrite Ep, app_nil_r|].
  destruct (add_chunk_pager m sz purpose m2 Ec) as [p E]. pose proof (grow_size_bounds sz Hsz).
  destruct (create_mem_chunk_ok 0 (grow_size sz) (rm_pager m) _ p ltac:(lia) E) as (_ & _ & _ & c & Hcs & _).
  exists [c]. by rewrite Ep.
Qed.

(** *** Guest-physical addresses of a region *)

Lemma region_h2gp m c0 N i r x :
  mem_inv m c0 N -> i ∈ allocated_regions m -> objs (rm_store m) !! i = Some r -> covers r x ->
  rsize r <> ELKVM_SYSTEM_MEMSIZE \/ host_p r <> userspace_addr c0 ->
  (x < host_pml4_p (p_pager (rm_pager m)) \/
   host_pml4_p (p_pager (rm_pager m)) + ELKVM_SYSTEM_MEMSIZE <= x) /\
  0 < host_to_guest_physical (chunks (p_pager (rm_pager m))) x < 2 ^ 52.
Proof.
  intros [Hrm Ht Hc Htot Hp (t & Hti & rt & Hrt & Ht1 & Ht2)] Hi Hr Hx Hne.
  assert (i <> t) as Hit. { intros ->. rewrite Hr in Hrt. injection Hrt as <-. lia. }
  pose proof (ri_heap _ _ Hrm) as Hh. simpl in Hh.
  assert (~ covers rt x) as Hnx.
  { intros Hcx. apply Hit. apply (ho_disj _ _ _ Hh i t x); [apply elem_of_app; by left..| |];
      by eexists. }
  unfold covers in Hnx. rewrite Ht1, Ht2 in Hnx. rewrite Hp. split; [lia|].
  destruct (proj1 (ho_cover _ _ _ Hh x)) as (c & Hcin & Hcx).
  { exists i. split; [apply elem_of_app; by left|]. by eexists. }
  unfold host_to_guest_physical, find_chunk_for_host_p.
  destruct (find _ _) as [d|] eqn:Ed.
  2: { exfalso. apply (find_none _ _) with (x := c) in Ed; [by rewrite Hcx in Ed|].
       by apply list_elem_of_In. }
  apply find_some in Ed as [Hd Hdx]. apply list_elem_of_In in Hd.
  destruct Hc as (Hl & _ & _). pose proof (layout_chunk_ok _ _ Hl) as Hok.
  rewrite Forall_forall in Hok. specialize (Hok d Hd). destruct Hok as [D1 D2 D3 D4 D5].
  unfold Pager.contains_address in Hdx. rewrite andb_true_iff, Z.leb_le, Z.ltb_lt in Hdx.
  rewrite u64_small by lia. split; [|lia].
  (* only the first byte of the first chunk has guest-physical address 0 *)
  assert (x - userspace_addr d + guest_phys_addr d <> 0) as Hnz; [|lia].
  intros E0. assert (x = userspace_addr d /\ guest_phys_addr d = 0) as [-> E1] by lia.
  destruct Ht as [own [[G1 _ _ _ _ _ _ _] _ _]].
  destruct (chunks (p_pager (rm_pager m))) as [|c1 cs]; [done|]. injection G1 as ->.
  apply elem_of_cons in Hd as [->|Hd]; [unfold ELKVM_SYSTEM_MEMSIZE in *; lia|].
  destruct Hl as (_ & _ & Hs & Hl). pose proof (layout_lower _ _ _ Hl Hd). lia.
Qed.

(** *** Giving a region its guest address *)

Definition with_addr m (i : rid) (r : Region) (a : Z) : rm os T :=
  mkRM (allocated_regions m) (freelists m)
       (mkStore (<[i := set_guest_addr a r]> (objs (rm_store m))) (next_rid (rm_store m)))
       (rm_pager m).

Lemma with_addr_inv m c0 N i r a :
  mem_inv m c0 N -> i ∈ allocated_regions m -> objs (rm_store m) !! i = Some r ->
  mem_inv (with_addr m i r a) c0 N.
Proof.
  intros [[I1 I2 I3 I4 I5 I6] Ht Hc Htot Hp (t & Hti & Htr)] Hi Hr.
  pose proof (ho_nodup _ _ _ I2) as Hn. simpl in Hn. apply NoDup_app in Hn as (_ & Hd & _).
  constructor; cbn [with_addr rm_pager allocated_regions rm_store]; try done.
  - constructor; cbn [with_addr rm_pager allocated_regions rm_store freelists]; try done.
    + by eapply heap_ok_update.
    + apply Forall_forall. intros j Hj. rewrite Forall_forall in I3.
      apply (reg_is_update _ _ i j r); [done|done|auto].
    + intros k l Hl. apply Forall_reg_insert; [|eauto]. intros Hil. apply (Hd i Hi).
      apply list_elem_of_In, in_concat. exists l. rewrite <- !list_elem_of_In.
      split; [by eapply list_elem_of_lookup_2|done].
  - exists t. split; [done|]. by apply (reg_is_update _ _ i t r).
Qed.

Lemma set_region_addr_spec F m i r a (Q : unit -> rm os T -> Prop) :
  objs (rm_store m) !! i = Some r -> Q tt (with_addr m i r a) ->
  wp F (Mapping.set_region_addr i a) Q m.
Proof.
  intros Hr HQ. unfold Mapping.set_region_addr. apply wp_bind. eapply lookup_region_spec; [done|].
  unfold on_store, update_region. wp_go. done.
Qed.

(** *** The page tables of a fresh mapping *)

(** The pages of a range are all unmapped. *)
Definition range_free (c0 : Chunk) (s : pst os T) (a pages : Z) : Prop :=
  forall j, 0 <= j < pages -> trans c0 s (a + 4096 * j) = None.

(** The pages of a range are unmapped or already show the memory at [hp]. *)
Definition range_ok m (c0 : Chunk) (a hp pages : Z) : Prop :=
  forall j, 0 <= j < pages -> forall f, frame_of c0 (rm_pager m) (a + 4096 * j) = Some f ->
    f = page_begin (host_to_guest_physical (chunks (p_pager (rm_pager m))) (hp + 4096 * j)).

Lemma range_free_ok m c0 a hp pages : range_free c0 (rm_pager m) a pages -> range_ok m c0 a hp pages.
Proof. intros Hf j Hj f. unfold frame_of. rewrite leaf_of_trans, Hf by done. done. Qed.

(** What a mapping of a used region promises after [map]. *)
Definition backed m (c0 : Chunk) (mp : Mapping.t) : Prop :=
  forall j, 0 <= j < Mapping.get_pages mp ->
    mapped (rm_pager m) c0 (Mapping.guest_address mp + 4096 * j)
      (host_to_guest_physical (chunks (p_pager (rm_pager m)))
                              (Mapping.base_address mp + 4096 * j))
      (HeapManager.pt_opts mp).

(** A pager operation that only touches the table area keeps the machine sound. *)
Lemma mem_inv_pager m c0 N N' s' :
  mem_inv m c0 N -> outside (rm_pager m) s' -> tables_ok s' c0 N' ->
  mem_inv (mkRM (allocated_regions m) (freelists m) (rm_store m) s') c0 N'.
Proof.
  intros [[I1 I2 I3 I4 I5 I6] M2 M3 M4 M5 M6] Ho Ht.
  destruct (outside_chunks _ _ Ho) as [Ec Ep]. destruct Ho as [O1 O2 O3 [n O4]].
  constructor; cbn [rm_store allocated_regions freelists rm_pager]; try done.
  - constructor; cbn [rm_store allocated_regions freelists rm_pager]; try done.
    + eapply heap_ok_mem; [|done]. intros x. unfold chunk_mem. cbn [rm_pager]. by rewrite Ec.
    + intros x. unfold chunk_mem. cbn [rm_pager]. rewrite Ec, O3. apply I6.
  - by rewrite O4.
  - by rewrite O4.
  - by rewrite Ep.
Qed.

Lemma map_region_mem_outcome m c0 N i r a pages opts :
  mem_inv m c0 N -> i ∈ allocated_regions m -> objs (rm_store m) !! i = Some r ->
  rsize r <> ELKVM_SYSTEM_MEMSIZE \/ host_p r <> userspace_addr c0 ->
  0 < a -> a mod 4096 = 0 -> a + 4096 * pages <= 2 ^ 48 -> 0 <= pages -> 4096 * pages <= rsize r ->
  N + 3 * (areas a pages + 1) <= 4096 ->
  wp no_fault (on_pager (map_region (host_p r) a pages opts))
    (fun err m' => rm_store m' = rm_store m /\
       allocated_regions m' = allocated_regions m /\ freelists m' = freelists m /\
       ((err = 0 /\ range_ok m c0 a (host_p r) pages /\
         outside (rm_pager m) (rm_pager m') /\
         (exists N', N' <= N + 3 * areas a pages /\ mem_inv m' c0 N') /\
         (forall j, 0 <= j < pages ->
            mapped (rm_pager m') c0 (a + 4096 * j)
                   (host_to_guest_physical (chunks (p_pager (rm_pager m))) (host_p r + 4096 * j)) opts) /\
         (forall v, in_pages a pages v = false ->
            le_perm (trans c0 (rm_pager m) v) (trans c0 (rm_pager m') v))) \/
        (err = -1 /\ ~ range_ok m c0 a (host_p r) pages))) m.
Proof.
  intros Hm Hi Hr Hne Ha Ham Htop Hp Hsz Hroom.
  destruct (own_in m [] i (mi_rm _ _ _ Hm)) as (r' & Hr' & [[B1 B2] [Z1 Z2] Bt]);
    [simpl; apply elem_of_app; by left|]. rewrite Hr in Hr'. injection Hr' as <-.
  unfold on_pager. apply wp_zoom. eapply wp_mono.
  { eapply (map_region_outcome (rm_pager m) c0 N (host_p r) a pages opts); [|done|done|done|by rewrite B2|done|apply Hm].
    intros j Hj. destruct (region_h2gp m c0 N i r (host_p r + 4096 * j)) as [R1 R2]; try done. unfold covers. lia. }
  cbv beta. intros err s' Hout. cbn [rm_store allocated_regions freelists rm_pager]. do 3 (split; [done|]).
  destruct Hout as [(-> & Hop & Ho & (N' & HN & Ht) & Hmap & Hle)|(-> & j & Hj & Hno)].
  - left. split; [done|]. split; [intros j Hj; by apply Hop|]. split; [done|]. split; [|done].
    exists N'. split; [done|]. by eapply mem_inv_pager.
  - right. split; [done|]. intros Hok. exact (Hno (Hok j Hj)).
Qed.

Lemma map_region_mem m c0 N i r a pages opts :
  mem_inv m c0 N -> i ∈ allocated_regions m -> objs (rm_store m) !! i = Some r ->
  rsize r <> ELKVM_SYSTEM_MEMSIZE \/ host_p r <> userspace_addr c0 ->
  0 < a -> a mod 4096 = 0 -> a + 4096 * pages <= 2 ^ 48 -> 0 <= pages -> 4096 * pages <= rsize r ->
  range_ok m c0 a (host_p r) pages -> N + 3 * (areas a pages + 1) <= 4096 ->
  wp no_fault (on_pager (map_region (host_p r) a pages opts))
    (fun err m' => err = 0 /\ rm_store m' = rm_store m /\
       allocated_regions m' = allocated_regions m /\ freelists m' = freelists m /\
       outside (rm_pager m) (rm_pager m') /\
       (exists N', N' <= N + 3 * areas a pages /\ mem_inv m' c0 N') /\
       (forall j, 0 <= j < pages ->
          mapped (rm_pager m') c0 (a + 4096 * j)
                 (host_to_guest_physical (chunks (p_pager (rm_pager m))) (host_p r + 4096 * j)) opts) /\
       (forall v, in_pages a pages v = false ->
          le_perm (trans c0 (rm_pager m) v) (trans c0 (rm_pager m') v))) m.
Proof.
  intros Hm Hi Hr Hne Ha Ham Htop Hp Hsz Hfree Hroom.
  eapply wp_mono; [by apply (map_region_mem_outcome m c0 N i r a pages opts)|]. cbv beta.
  intros err m' (? & ? & ? & [(-> & _ & ?)|(_ & Hno)]); [done|by destruct Hno].
Qed.

(** *** Creating a mapping *)

Lemma mapping_new_spec m i r addr l pr f fdes off :
  objs (rm_store m) !! i = Some r -> free r = false -> l <= rsize r ->
  0 <= l < 2 ^ 43 - 4096 -> l mod 4096 = 0 ->
  let a := if addr =? 0 then u64 (host_p r) else addr in
  wp no_fault (Mapping.new i addr l pr f fdes off)
    (fun mp m' => m' = with_addr m i r a /\
       mp = Mapping.mk (host_p r) a l (l / 4096) pr f fdes off i) m.
Proof.
  intros Hr Hf Hl Hlr Hlm a. unfold Mapping.new. apply wp_bind. eapply lookup_region_spec; [done|].
  do 2 wp_step; [|unfold Region.size in *; rewrite Z.leb_gt in *; lia].
  apply wp_bind. eapply set_region_addr_spec; [done|]. unfold is_free. rewrite Hf. wp_go; [|done].
  split; [done|]. rewrite pages_from_size_eq by lia.
  replace ((l + 4095) / 4096) with (l / 4096) by (Z.div_mod_to_equations; lia).
  rewrite u32_small; [done|]. Z.div_mod_to_equations. lia.
Qed.

Lemma mapping_eqb_refl mp : Mapping.eqb mp mp = true.
Proof. unfold Mapping.eqb. rewrite !Z.eqb_refl, !eqb_reflx. done. Qed.

(** The [mmap] vector after [map] of an object. *)
Definition mmap_with (l : list Mapping.t) (mp : Mapping.t) : list Mapping.t :=
  match find_idx (fun x => Mapping.eqb x mp) l with Some _ => l | None => l ++ [mp] end.

Lemma mmap_with_in l mp : mp ∈ l -> mmap_with l mp = l.
Proof.
  intros Hin. unfold mmap_with.
  by destruct (find_idx_exists (fun x => Mapping.eqb x mp) _ mp Hin (mapping_eqb_refl mp)) as [k ->].
Qed.

Lemma push_absent_spec F (h : hm os T) mp :
  wp F (match HeapManager.find_in (mappings_for_mmap h) (fun x => Mapping.eqb x mp) with
        | None => HeapManager.set_mmap_list (mappings_for_mmap h ++ [mp])
        | Some _ => ret tt
        end)
    (fun _ h' => h' = mkHM (mappings_for_brk h) (mmap_with (mappings_for_mmap h) mp) (curbrk h) (hm_rm h)) h.
Proof.
  unfold HeapManager.find_in, mmap_with. destruct (find_idx _ _); [|done]. by destruct h.
Qed.

(** Mapping an object whose region is in use: it succeeds exactly when no page of the place
    shows other memory, and fails its assertion otherwise. *)
Lemma map_val_outcome (h : hm os T) c0 N mp r :
  mem_inv (hm_rm h) c0 N ->
  Mapping.region mp ∈ allocated_regions (hm_rm h) ->
  objs (rm_store (hm_rm h)) !! Mapping.region mp = Some r ->
  Mapping.host_p mp = host_p r -> free r = false ->
  rsize r <> ELKVM_SYSTEM_MEMSIZE \/ host_p r <> userspace_addr c0 ->
  Mapping.readable mp || Mapping.writeable mp || Mapping.executable mp = true ->
  let a := Mapping.addr mp in let pages := Mapping.mapped_pages mp in
  0 < a -> a mod 4096 = 0 -> a + 4096 * pages <= 2 ^ 48 -> 0 <= pages -> 4096 * pages <= rsize r ->
  N + 3 * (areas a pages + 1) <= 4096 ->
  wp (fun f => f = Assert /\ ~ range_ok (hm_rm h) c0 a (host_p r) pages) (HeapManager.map_val mp)
    (fun x h' => range_ok (hm_rm h) c0 a (host_p r) pages /\
       x = (0, mp) /\ mappings_for_mmap h' = mmap_with (mappings_for_mmap h) mp /\
       mappings_for_brk h' = mappings_for_brk h /\ curbrk h' = curbrk h /\
       rm_store (hm_rm h') = rm_store (hm_rm h) /\
       allocated_regions (hm_rm h') = allocated_regions (hm_rm h) /\
       outside (rm_pager (hm_rm h)) (rm_pager (hm_rm h')) /\
       (exists N', N' <= N + 3 * areas a pages /\ mem_inv (hm_rm h') c0 N') /\
       backed (hm_rm h') c0 mp /\
       (forall v, in_pages a pages v = false ->
          le_perm (trans c0 (rm_pager (hm_rm h)) v) (trans c0 (rm_pager (hm_rm h')) v))) h.
Proof.
  intros Hm Hi Hr Hh Hf Hne Hprot a pages Ha Ham Htop Hp Hsz Hroom.
  unfold HeapManager.map_val.
  replace (negb _ && negb _ && negb _) with false.
  2: { destruct (Mapping.readable mp), (Mapping.writeable mp), (Mapping.executable mp); done. }
  do 3 wp_step. eapply wp_mono.
  { apply (push_absent_spec _ h mp). }
  cbv beta. intros _ h1 ->. wp_step. unfold HeapManager.on_rm. wp_step. unfold Mapping.region_of.
  eapply lookup_region_spec; [done|]. do 2 wp_step.
  2: { exfalso. unfold Mapping.base_address, base_address in *. rewrite Hh, Z.eqb_refl in *. done. }
  wp_step. wp_step. unfold Mapping.base_address. rewrite Hh. cbn [hm_rm]. eapply wp_mono.
  { apply wp_total. eapply (map_region_mem_outcome (hm_rm h) c0 N (Mapping.region mp) r); done. }
  cbv beta. intros err m' (Es & Ea & Ef & [(-> & Hok & Ho & HN & Hmap & Hle)|(-> & Hno)]);
    unfold is_free; rewrite Hf; wp_go; try done.
  cbn [mappings_for_mmap mappings_for_brk curbrk hm_rm].
  do 8 (split; [done|]). split; [done|]. split; [|done].
  intros j Hj. unfold Mapping.base_address. rewrite Hh.
  destruct (outside_chunks _ _ Ho) as [-> _]. by apply Hmap.
Qed.

Lemma map_val_spec (h : hm os T) c0 N mp r :
  mem_inv (hm_rm h) c0 N ->
  Mapping.region mp ∈ allocated_regions (hm_rm h) ->
  objs (rm_store (hm_rm h)) !! Mapping.region mp = Some r ->
  Mapping.host_p mp = host_p r -> free r = false ->
  rsize r <> ELKVM_SYSTEM_MEMSIZE \/ host_p r <> userspace_addr c0 ->
  Mapping.readable mp || Mapping.writeable mp || Mapping.executable mp = true ->
  let a := Mapping.addr mp in let pages := Mapping.mapped_pages mp in
  0 < a -> a mod 4096 = 0 -> a + 4096 * pages <= 2 ^ 48 -> 0 <= pages -> 4096 * pages <= rsize r ->
  range_ok (hm_rm h) c0 a (host_p r) pages -> N + 3 * (areas a pages + 1) <= 4096 ->
  wp no_fault (HeapManager.map_val mp)
    (fun x h' => x = (0, mp) /\ mappings_for_mmap h' = mmap_with (mappings_for_mmap h) mp /\
       mappings_for_brk h' = mappings_for_brk h /\ curbrk h' = curbrk h /\
       rm_store (hm_rm h') = rm_store (hm_rm h) /\
       allocated_regions (hm_rm h') = allocated_regions (hm_rm h) /\
       outside (rm_pager (hm_rm h)) (rm_pager (hm_rm h')) /\
       (exists N', N' <= N + 3 * areas a pages /\ mem_inv (hm_rm h') c0 N') /\
       backed (hm_rm h') c0 mp /\
       (forall v, in_pages a pages v = false ->
          le_perm (trans c0 (rm_pager (hm_rm h)) v) (trans c0 (rm_pager (hm_rm h')) v))) h.
Proof.
  intros Hm Hi Hr Hh Hf Hne Hprot a pages Ha Ham Htop Hp Hsz Hok Hroom.
  pose proof (map_val_outcome h c0 N mp r Hm Hi Hr Hh Hf Hne Hprot Ha Ham Htop Hp Hsz Hroom) as Hw. unfold wp in *.
  destruct (HeapManager.map_val mp h) as [[x h']|f]; [apply Hw|]. by destruct Hw as [_ []].
Qed.

(** A region that was not allocated before is not the region of the tables. *)
Lemma new_not_tables m m' c0 N i r :
  mem_inv m c0 N -> rm_inv [] m' -> i ∉ allocated_regions m ->
  allocated_regions m' = allocated_regions m ++ [i] ->
  (forall q, q ∈ allocated_regions m -> objs (rm_store m') !! q = objs (rm_store m) !! q) ->
  objs (rm_store m') !! i = Some r -> host_p r <> userspace_addr c0.
Proof.
  intros Hm Ai An Al Ak Hr E. destruct (mi_region _ _ _ Hm) as (t & Ht & rt & Hrt & E1 & E2).
  apply An. assert (i = t) as ->; [|done].
  assert (i ∈ allocated_regions m') as Hi by (rewrite Al; apply elem_of_app; right; by left).
  assert (t ∈ allocated_regions m') as Ht' by (rewrite Al; apply elem_of_app; by left).
  destruct (own_in m' [] i Ai) as (r' & Hr' & Hok); [simpl; apply elem_of_app; by left|].
  rewrite Hr in Hr'. injection Hr' as <-.
  apply (ho_disj _ _ _ (ri_heap _ _ Ai) i t (userspace_addr c0)).
  1,2: simpl; apply elem_of_app; by left.
  - exists r. split; [done|]. destruct Hok as [_ [? _] _]. unfold covers. lia.
  - exists rt. split; [by rewrite Ak|]. unfold covers. rewrite E1, E2. unfold ELKVM_SYSTEM_MEMSIZE. lia.
Qed.

Lemma find_region_host_spec F m i r p (Q : option rid -> rm os T -> Prop) :
  i ∈ allocated_regions m -> objs (rm_store m) !! i = Some r -> covers r p ->
  (forall j, Q (Some j) m) -> wp F (find_region_host p) Q m.
Proof.
  intros Hi Hr Hc HQ. unfold find_region_host, find_region. apply wp_gets.
  destruct (List.find _ _) as [j|] eqn:E; [done|]. exfalso.
  apply (find_none _ _) with (x := i) in E; [|by apply list_elem_of_In].
  unfold is_region in E. rewrite Hr in E. apply contains_host_covers in Hc. congruence.
Qed.

(** Where a new mapping goes: a requested address is page-aligned and the pages end within 48
    bits; without one the guest address is the host address of the region. *)
Definition addr_ok (addr len : Z) : Prop :=
  addr = 0 \/ (0 < addr /\ addr mod 4096 = 0 /\ addr + len <= 2 ^ 48).

Definition place_of (addr : Z) (r : Region) : Z := if addr =? 0 then host_p r else addr.

Lemma areas_le a n : 0 <= a -> 0 <= n -> areas a n <= n / 512 + 2.
Proof.
  intros Ha Hn. unfold areas. destruct (Z.eqb_spec n 0) as [->|]; [done|].
  change (2 ^ 21) with (4096 * 512). rewrite <- !Z.div_div by lia.
  rewrite (Z.mul_comm 4096 (n - 1)), Z.div_add by lia. Z.div_mod_to_equations. lia.
Qed.

Lemma place_bounds m' addr i r :
  addr_ok addr (rsize r) -> rm_inv [] m' -> i ∈ allocated_regions m' -> objs (rm_store m') !! i = Some r ->
  let a := place_of addr r in
  (if addr =? 0 then u64 (host_p r) else addr) = a /\ 0 < a /\ a mod 4096 = 0 /\ a + rsize r <= 2 ^ 48.
Proof.
  intros Hp Ai Hi Hr a. destruct (own_in m' [] i Ai) as (r' & Hr' & [[B1 B2] [Z1 Z2] Bt]);
    [simpl; apply elem_of_app; by left|].
  rewrite Hr in Hr'. injection Hr' as <-. subst a. unfold place_of, addr_ok in *.
  destruct (Z.eqb_spec addr 0) as [|Hne]; [rewrite u64_small by lia; repeat split; done || lia|].
  destruct Hp as [|(? & ? & ?)]; done.
Qed.

Lemma load_last F (h : hm os T) l mp (Q : Mapping.t -> hm os T -> Prop) :
  mappings_for_mmap h = l ++ [mp] -> Q mp h -> wp F (HeapManager.load_ref (Mmap (length l))) Q h.
Proof.
  intros E HQ. unfold HeapManager.load_ref. apply wp_bind, wp_get. unfold at_.
  by rewrite E, lookup_app_r, Nat.sub_diag.
Qed.

(** [map] of the slot that was pushed last. *)
Lemma map_last F (h : hm os T) l mp (Q : Z -> hm os T -> Prop) :
  mappings_for_mmap h = l ++ [mp] ->
  wp F (HeapManager.map_val mp)
    (fun r h' => r.2 = mp /\ mappings_for_mmap h' = l ++ [mp] /\ Q r.1 h') h ->
  wp F (HeapManager.map (Mmap (length l))) Q h.
Proof.
  intros E Hw. unfold HeapManager.map. apply wp_bind, (load_last _ _ _ _ _ E).
  assert ((l ++ [mp]) !! length l = Some mp) as Hat by (by rewrite lookup_app_r, Nat.sub_diag).
  apply wp_bind. eapply wp_mono; [exact Hw|].
  cbv beta. intros [err mp'] h' (E2 & E' & HQ). cbn in E2. subst mp'. unfold HeapManager.store_ref, HeapManager.set_mmap_list.
  wp_go. rewrite E', list_insert_id by done. rewrite <- E'. by destruct h'.
Qed.

(** What [create_mapping] promises: a new slot at the end of the [mmap] vector
    holds a mapping of a freshly allocated region, every page of it is
    translated to the region's memory with the requested permissions, and no
    other page loses its translation. *)
Record created (h : hm os T) (c0 : Chunk) (N addr len pr f fdes off : Z) (ref : mref)
    (h' : hm os T) : Prop := mkCreated {
  cr_ref : ref = Mmap (length (mappings_for_mmap h));
  cr_brk : mappings_for_brk h' = mappings_for_brk h /\ curbrk h' = curbrk h;
  cr_mapping : exists i r a,
    (i ∉ allocated_regions (hm_rm h)) /\
    allocated_regions (hm_rm h') = allocated_regions (hm_rm h) ++ [i] /\
    objs (rm_store (hm_rm h')) !! i = Some r /\
    rsize r = pagesize_align len /\ free r = false /\ Region.addr r = a /\
    a = (if addr =? 0 then host_p r else addr) /\
    (let mp := Mapping.mk (host_p r) a (rsize r) (rsize r / 4096) pr f fdes off i in
     mappings_for_mmap h' = mappings_for_mmap h ++ [mp] /\ backed (hm_rm h') c0 mp) /\
    (forall v, in_pages a (rsize r / 4096) v = false ->
       le_perm (trans c0 (rm_pager (hm_rm h)) v) (trans c0 (rm_pager (hm_rm h')) v));
  cr_keep q : q ∈ allocated_regions (hm_rm h) ->
    objs (rm_store (hm_rm h')) !! q = objs (rm_store (hm_rm h)) !! q;
  cr_inv : exists N', N' <= N + 3 * (pagesize_align len / 4096 / 512 + 2) /\
                      mem_inv (hm_rm h') c0 N';
}.

Definition requested_prot (pr : Z) : bool :=
  ctrue (Z.land pr PROT_READ) || ctrue (Z.land pr PROT_WRITE) || ctrue (Z.land pr PROT_EXEC).

Lemma create_mapping_outcome (h : hm os T) c0 N addr len pr f fdes off i m1 r :
  let L := pagesize_align len in
  mem_inv (hm_rm h) c0 N -> 0 < len <= 2 ^ 40 -> requested_prot pr = true ->
  total_memsz (p_pager (rm_pager (hm_rm h))) + 2 ^ 48 <= 2 ^ 51 ->
  addr_ok addr L -> N + 3 * (L / 4096 / 512 + 3) <= 4096 ->
  allocate_region L (String.append "mapping with fd: " (pretty fdes)) (hm_rm h) = Ok (i, m1) ->
  objs (rm_store m1) !! i = Some r ->
  wp (fun e => e = Assert /\ ~ range_ok m1 c0 (place_of addr r) (host_p r) (L / 4096))
    (HeapManager.create_mapping addr len pr f fdes off None)
    (fun ref h' => created h c0 N addr len pr f fdes off ref h' /\
                   range_ok m1 c0 (place_of addr r) (host_p r) (L / 4096)) h.
Proof.
  intros L Hm Hlen Hprot Htot Hplace Hroom Eal Hr. destruct (pagesize_align_bounds len ltac:(lia)) as [Hal Hal4].
  fold L in Hal, Hal4. assert (pagesize_align L = L) as HL.
  { rewrite pagesize_align_eq by lia. Z.div_mod_to_equations. lia. }
  unfold HeapManager.create_mapping. fold L. apply wp_bind.
  eapply wp_ok; [unfold HeapManager.on_rm at 1, zoom; rewrite Eal; reflexivity|].
  pose proof (wp_partial_inv _ _ _ _ _ _ (allocate_region_spec (hm_rm h) L _ ltac:(lia) (mi_rm _ _ _ Hm)) Eal) as Ha.
  pose proof Ha as [Ai Al An (r' & Hr' & Rz & Rf & _) _ Ak]. rewrite HL in Rz.
  rewrite Hr in Hr'. injection Hr' as <-.
  destruct (allocated_mem _ L i m1 c0 N ltac:(lia) Hm Htot Ha) as (Hm1 & Em & _ & Ep).
  assert (trans c0 (rm_pager m1) = trans c0 (rm_pager (hm_rm h))) as Et
    by (unfold trans; by rewrite Em, Ep).
  assert (i ∈ allocated_regions m1) as Hi by (rewrite Al; apply elem_of_app; right; by left).
  destruct (place_bounds m1 addr i r) as (Epl & A1 & A2 & A3); [by rewrite Rz|done..|].
  set (a := place_of addr r) in *.
  apply wp_bind. unfold HeapManager.on_rm at 1. apply wp_zoom. cbn [hm_rm].
  eapply wp_mono; [apply wp_total, (mapping_new_spec m1 i r addr L pr f fdes off); (done || lia)|].
  cbv beta. intros mp m2 [-> Emp]. rewrite Epl in *. do 3 wp_step.
  unfold HeapManager.set_mmap_list. do 2 wp_step. cbn [mappings_for_mmap mappings_for_brk curbrk hm_rm].
  set (h2 := mkHM _ _ _ _). assert (objs (rm_store (hm_rm h2)) !! i = Some (set_guest_addr a r)) as Hr2
    by (apply lookup_insert_eq).
  apply map_last with (l := mappings_for_mmap h) (mp := mp); [done|].
  assert (L / 4096 * 4096 = L) as HL4 by (Z.div_mod_to_equations; lia).
  assert (areas a (L / 4096) <= L / 4096 / 512 + 2) as Har
    by (apply areas_le; [lia|Z.div_mod_to_equations; lia]).
  eapply wp_mono.
  { eapply wp_weaken_fault; [eapply (map_val_outcome h2 c0 N mp (set_guest_addr a r))|]; subst mp;
      cbn [h2 hm_rm mappings_for_mmap Mapping.region Mapping.host_p Mapping.addr Mapping.mapped_pages set_guest_addr
           host_p rsize free]; try done; try lia.
    - by apply with_addr_inv.
    - right. by eapply (new_not_tables (hm_rm h) m1). }
  cbv beta. intros [err mp'] h' (Hok & [= -> ->] & E1 & E2 & E3 & E4 & E5 & Ho & (N' & HN & Hm') & Hb & Hle).
  assert (range_ok m1 c0 a (host_p r) (L / 4096)) as Hok1 by (subst mp; exact Hok). clear Hok.
  rewrite mmap_with_in in E1 by (apply elem_of_app; right; by left).
  cbn [snd fst]. split; [done|]. split; [done|].
  apply wp_total. do 2 wp_step; [|done]. apply wp_bind. eapply load_last; [exact E1|]. apply wp_bind.
  unfold HeapManager.on_rm, Mapping.region_of. apply wp_zoom. subst mp. cbn [Mapping.region].
  eapply lookup_region_spec; [by rewrite E4|]. unfold is_free. cbn [set_guest_addr free]. rewrite Rf.
  do 2 wp_step; [|done]. apply wp_bind, wp_zoom. cbn [hm_rm].
  destruct (own_in m1 [] i Ai) as (r' & Hr' & Hok); [simpl; apply elem_of_app; by left|].
  rewrite Hr in Hr'. injection Hr' as <-.
  eapply (find_region_host_spec _ _ i (set_guest_addr a r)); [by rewrite E5|by rewrite E4| |].
  { unfold covers, Mapping.base_address. cbn. destruct Hok as [_ [? _] _]. lia. }
  intros j. cbn [hm_rm]. do 2 wp_step; [|done]. apply wp_ret.
  cbn [h2 hm_rm mappings_for_mmap mappings_for_brk curbrk with_addr rm_pager rm_store
       allocated_regions objs] in *.
  split; [|done]. constructor; cbn [hm_rm mappings_for_mmap mappings_for_brk curbrk]; [done|done| | |].
  - exists i, (set_guest_addr a r), a. cbn [set_guest_addr rsize host_p free Region.addr].
    rewrite E4, E5, Rz. split; [done|]. split; [done|]. split; [exact Hr2|].
    do 4 (split; [done|]). split; [done|].
    by rewrite Et in Hle.
  - intros q Hq. rewrite E4. cbn [objs]. rewrite lookup_insert_ne by (by intros ->). by apply Ak.
  - exists N'. split; [|done]. cbn [Mapping.addr Mapping.mapped_pages] in HN. fold L. lia.
Qed.

(** A mapping that was returned was created. *)
Lemma create_mapping_returned (h h1 : hm os T) c0 N addr len pr f fdes off ref :
  mem_inv (hm_rm h) c0 N -> 0 < len <= 2 ^ 40 -> requested_prot pr = true ->
  total_memsz (p_pager (rm_pager (hm_rm h))) + 2 ^ 48 <= 2 ^ 51 ->
  addr_ok addr (pagesize_align len) -> N + 3 * (pagesize_align len / 4096 / 512 + 3) <= 4096 ->
  HeapManager.create_mapping addr len pr f fdes off None h = Ok (ref, h1) ->
  created h c0 N addr len pr f fdes off ref h1.
Proof.
  intros Hm Hl Hp Ht Hpl Hr E. pose proof E as E'. unfold HeapManager.create_mapping in E'.
  apply bind_ok_inv in E' as (i & m' & Ea & _). unfold HeapManager.on_rm, zoom in Ea.
  destruct (allocate_region _ _ (hm_rm h)) as [[i' m1]|] eqn:Eal; [|done]. clear Ea.
  destruct (pagesize_align_bounds len ltac:(lia)) as [Hal _].
  pose proof (wp_partial_inv _ _ _ _ _ _ (allocate_region_spec (hm_rm h) (pagesize_align len) _ ltac:(lia) (mi_rm _ _ _ Hm)) Eal)
    as [_ _ _ (r & Ho & _) _ _].
  by destruct (wp_partial_inv _ _ _ _ _ _ (create_mapping_outcome h c0 N addr len pr f fdes off i' m1 r Hm Hl Hp Ht Hpl Hr Eal Ho) E).
Qed.

(** *** Removing a mapping *)

Lemma freed_mem m c0 N i m' :
  mem_inv m c0 N -> freed m i m' -> i ∈ allocated_regions m ->
  reg_is (rm_store m) (fun r => host_p r <> userspace_addr c0) i -> mem_inv m' c0 N.
Proof.
  intros [_ M2 M3 M4 M5 (t & Ht & rt & Hrt & Ht1)] [F1 F2 _ F4 F5] Hi (r & Hr & Hne).
  constructor; rewrite ?F4; try done. exists t.
  assert (t <> i) as Hti. { intros ->. rewrite Hr in Hrt. injection Hrt as <-. by destruct Ht1. }
  split; [|exists rt; by rewrite F5]. rewrite F2 in Ht. by apply elem_of_cons in Ht as [?|?].
Qed.

(** A mapping whose pages are all translated and whose region it fills. *)
Record live_mapping m (c0 : Chunk) (mp : Mapping.t) : Prop := mkLive {
  lv_region : Mapping.region mp ∈ allocated_regions m;
  lv_tables : reg_is (rm_store m) (fun r => host_p r <> userspace_addr c0) (Mapping.region mp);
  lv_addr : 0 < Mapping.addr mp /\ Mapping.addr mp mod 4096 = 0;
  lv_len : Mapping.length_ mp = 4096 * Mapping.mapped_pages mp;
  lv_pages : 0 < Mapping.mapped_pages mp <= 2 ^ 20;
  lv_top : Mapping.addr mp + Mapping.length_ mp <= 2 ^ 48;
  lv_mapped j : 0 <= j < Mapping.mapped_pages mp ->
                is_Some (trans c0 (rm_pager m) (Mapping.addr mp + 4096 * j));
}.

(** [free_mapping] of an object without pages finds its slot. *)
Lemma find_unmapped (l : list Mapping.t) k mp mp' :
  l !! k = Some mp -> Forall (fun x => 0 < Mapping.mapped_pages x) l ->
  Mapping.mapped_pages mp' = 0 ->
  find_idx (fun x => Mapping.eqb x mp') (<[k := mp']> l) = Some k.
Proof.
  intros Hk Hall Hz. destruct (find_idx _ _) as [j|] eqn:E.
  - apply find_idx_Some in E as (x & Hx & Px & Hmin). f_equal.
    destruct (decide (j = k)) as [|Hne]; [done|]. exfalso.
    rewrite list_lookup_insert_ne in Hx by done. rewrite Forall_lookup in Hall.
    specialize (Hall j x Hx). unfold Mapping.eqb, Mapping.get_pages in Px. rewrite Hz in Px.
    rewrite !andb_true_iff, !Z.eqb_eq in Px. lia.
  - exfalso. apply find_idx_None in E. rewrite Forall_lookup in E.
    specialize (E k mp'). rewrite mapping_eqb_refl in E. cut (true = false); [done|]. apply E.
    apply list_lookup_insert_eq. by eapply lookup_lt_Some.
Qed.

Lemma find_no_unmapped (l : list Mapping.t) mp' :
  Forall (fun x => 0 < Mapping.mapped_pages x) l -> Mapping.mapped_pages mp' = 0 ->
  find_idx (fun x => Mapping.eqb x mp') l = None.
Proof.
  intros Hall Hz. apply find_idx_None. eapply Forall_impl; [done|]. cbv beta. intros x Hx.
  unfold Mapping.eqb, Mapping.get_pages. rewrite Hz.
  replace (Mapping.mapped_pages x =? 0) with false by (symmetry; apply Z.eqb_neq; lia).
  by rewrite andb_false_r.
Qed.

(** What [unmap] of the slot [k] of the [mmap] vector promises. *)
Record removed (h : hm os T) (c0 : Chunk) (N : Z) (k : nat) (mp : Mapping.t) (h' : hm os T) : Prop :=
  mkRemoved {
  rv_mmap : mappings_for_mmap h' = erase k (mappings_for_mmap h);
  rv_brk : mappings_for_brk h' = mappings_for_brk h /\ curbrk h' = curbrk h;
  rv_alloc : allocated_regions (hm_rm h) ≡ₚ Mapping.region mp :: allocated_regions (hm_rm h');
  rv_trans v : trans c0 (rm_pager (hm_rm h')) v =
               if in_pages (Mapping.addr mp) (Mapping.mapped_pages mp) v then None
               else trans c0 (rm_pager (hm_rm h)) v;
  rv_inv : mem_inv (hm_rm h') c0 N;
}.

Lemma unmap_lemma (h : hm os T) c0 N k mp :
  mem_inv (hm_rm h) c0 N -> mappings_for_mmap h !! k = Some mp -> live_mapping (hm_rm h) c0 mp ->
  Forall (fun x => 0 < Mapping.mapped_pages x) (mappings_for_brk h) ->
  Forall (fun x => 0 < Mapping.mapped_pages x) (mappings_for_mmap h) ->
  wp no_fault (HeapManager.unmap (Mmap k)) (fun r h' => r = 0 /\ removed h c0 N k mp h') h.
Proof.
  intros Hm Hk [L1 L2 [L3 L3'] L4 L5 L6 L7] Hb Hmm.
  assert (forall F Q, Q mp h -> wp F (HeapManager.load_ref (Mmap k)) Q h) as Hload.
  { intros F Q HQ. unfold HeapManager.load_ref, at_. apply wp_bind, wp_get. by rewrite Hk. }
  unfold HeapManager.unmap, HeapManager.unmap_at. do 2 apply wp_bind, Hload.
  unfold Mapping.contains_guest, Mapping.guest_address, Mapping.get_pages, ELKVM_PAGESIZE.
  rewrite !(u64_small (_ + Mapping.length_ mp)) by lia.
  rewrite (u32_small (_ - 1)), u32_small, u64_small by lia.
  do 2 wp_step. 2: { rewrite andb_false_iff, Z.leb_gt, Z.ltb_ge in *. lia. }
  do 2 wp_step. 2: { rewrite Z.leb_gt in *. lia. }
  do 2 wp_step. 2: { rewrite andb_false_iff, Z.leb_gt, Z.ltb_ge in *. lia. }
  unfold HeapManager.on_rm at 1, on_pager at 1. apply wp_bind, wp_zoom, wp_zoom.
  destruct (mi_tables _ _ _ Hm) as [own Hown].
  eapply wp_mono; [apply (unmap_region_lemma _ c0 N own); (done || lia)|].
  cbv beta. intros err s' (Hi & Ho & n & Hn & _ & Ht & [[-> ->]|(_ & Hlt & Hnone)]).
  2: { destruct (L7 n) as [? E]; [lia|]. congruence. }
  do 2 wp_step; [|done]. unfold HeapManager.store_ref, HeapManager.set_mmap_list. do 4 wp_step.
  cbn [mappings_for_mmap mappings_for_brk curbrk hm_rm]. unfold Mapping.pages_unmapped at 1.
  rewrite Z.sub_diag. cbn [Mapping.with_extent Mapping.mapped_pages].
  change (u32 0 =? 0) with true. cbv iota. set (mp' := Mapping.pages_unmapped mp _).
  assert (Mapping.mapped_pages mp' = 0) as Hz.
  { unfold mp', Mapping.pages_unmapped. by rewrite Z.sub_diag. }
  assert (mem_inv (mkRM (allocated_regions (hm_rm h)) (freelists (hm_rm h)) (rm_store (hm_rm h)) s') c0 N)
    as Hm1 by (eapply mem_inv_pager; [done|done|by eexists]).
  unfold HeapManager.on_rm. apply wp_bind, wp_bind, wp_zoom.
  eapply wp_mono; [apply free_region_spec; [apply Hm1|exact L1]|].
  cbv beta. cbn [hm_rm mappings_for_mmap mappings_for_brk curbrk]. intros _ m' Hf.
  unfold HeapManager.free_mapping, HeapManager.find_in. do 2 wp_step.
  cbn [mappings_for_mmap mappings_for_brk].
  rewrite find_no_unmapped, (find_unmapped _ k mp mp') by done.
  unfold HeapManager.set_mmap_list. do 2 wp_step.
  split; [by rewrite Hz|]. pose proof (freed_mem _ _ _ _ _ Hm1 Hf L1 L2) as Hm2.
  destruct Hf as [F1 F2 _ F4 F5].
  constructor; cbn [hm_rm mappings_for_mmap mappings_for_brk curbrk]; try done.
  - unfold erase. by rewrite take_insert_ge, drop_insert_lt by lia.
  - intros v. by rewrite F4.
Qed.

(** *** Growing the program break inside its last region *)

(** An operation on the regions that changes nothing. *)
Lemma on_rm_read {A} F (c : M (rm os T) A) (h : hm os T) (Q : A -> hm os T -> Prop) :
  wp F c (fun a m => m = hm_rm h /\ Q a h) (hm_rm h) -> wp F (HeapManager.on_rm c) Q h.
Proof.
  intros Hw. unfold HeapManager.on_rm. apply wp_zoom. eapply wp_mono; [exact Hw|].
  cbv beta. intros a m [-> HQ]. by destruct h.
Qed.

(** The last mapping of the break, grown by [d] bytes. *)
Definition grown (mp : Mapping.t) (d : Z) : Mapping.t :=
  Mapping.with_extent mp (Mapping.addr mp) (Mapping.length_ mp + d)
                      ((Mapping.length_ mp + d + 4095) / 4096).

(** A mapping of the break and its region. *)
Record brk_mapping m (c0 : Chunk) (mp : Mapping.t) (r : Region) : Prop := mkBrkMapping {
  bm_alloc : Mapping.region mp ∈ allocated_regions m;
  bm_region : objs (rm_store m) !! Mapping.region mp = Some r;
  bm_host : Mapping.host_p mp = host_p r /\ host_p r <> userspace_addr c0;
  bm_used : free r = false;
  bm_addr : Region.addr r = Mapping.addr mp /\ 0 < Mapping.addr mp /\ Mapping.addr mp mod 4096 = 0;
  bm_prot : requested_prot (Mapping.prot mp) = true;
  bm_top : Mapping.addr mp + rsize r <= 2 ^ 48 /\ rsize r < 2 ^ 43 - 4096;
  bm_len : 0 <= Mapping.length_ mp;
  bm_pages : Mapping.mapped_pages mp = (Mapping.length_ mp + 4095) / 4096;
}.

Lemma grow_spec F m mp r d (Q : Z * Mapping.t -> rm os T -> Prop) :
  objs (rm_store m) !! Mapping.region mp = Some r -> rsize r < 2 ^ 43 - 4096 ->
  0 <= Mapping.length_ mp -> 0 <= d -> Mapping.length_ mp + d <= rsize r ->
  Mapping.mapped_pages mp = (Mapping.length_ mp + 4095) / 4096 ->
  Q (Mapping.length_ mp + d, grown mp d) m ->
  wp F (Mapping.grow mp (Mapping.length_ mp + d)) Q m.
Proof.
  intros Hr Hsz Hl Hd Hle Hp HQ. unfold Mapping.grow. destruct (Z.leb_spec (Mapping.length_ mp + d) (Mapping.length_ mp)).
  - assert (d = 0) as -> by lia. apply wp_ret. unfold grown in HQ. rewrite Z.add_0_r, <- Hp in HQ.
    by destruct mp.
  - apply wp_bind. unfold Mapping.region_of. eapply lookup_region_spec; [done|]. apply wp_ret.
    unfold Region.size. replace (if _ <=? _ then _ else _) with (Mapping.length_ mp + d).
    2: { destruct (Z.leb_spec (rsize r) (Mapping.length_ mp + d)); lia. }
    rewrite pages_from_size_eq by lia. rewrite u32_small; [done|]. Z.div_mod_to_equations. lia.
Qed.

Record brk_grown (h : hm os T) (c0 : Chunk) (N newbrk : Z) (l : list Mapping.t) (mp : Mapping.t)
    (h' : hm os T) : Prop := mkBrkGrown {
  bg_brk : curbrk h' = newbrk;
  bg_list : mappings_for_brk h' = l ++ [grown mp (newbrk - curbrk h)];
  bg_mmap : mappings_for_mmap h' = mmap_with (mappings_for_mmap h) (grown mp (newbrk - curbrk h));
  bg_regions : rm_store (hm_rm h') = rm_store (hm_rm h) /\
               allocated_regions (hm_rm h') = allocated_regions (hm_rm h);
  bg_backed : backed (hm_rm h') c0 (grown mp (newbrk - curbrk h));
  bg_others v : in_pages (Mapping.addr mp) ((Mapping.length_ mp + (newbrk - curbrk h) + 4095) / 4096) v = false ->
    le_perm (trans c0 (rm_pager (hm_rm h)) v) (trans c0 (rm_pager (hm_rm h')) v);
  bg_inv : exists N', mem_inv (hm_rm h') c0 N';
}.

Lemma brk_in_place (h : hm os T) c0 N newbrk l mp r :
  mem_inv (hm_rm h) c0 N -> mappings_for_brk h = l ++ [mp] -> brk_mapping (hm_rm h) c0 mp r ->
  Mapping.addr mp < curbrk h <= newbrk -> newbrk <= Mapping.addr mp + rsize r ->
  (let pages := (Mapping.length_ mp + (newbrk - curbrk h) + 4095) / 4096 in
   Mapping.length_ mp + (newbrk - curbrk h) <= rsize r /\
   range_ok (hm_rm h) c0 (Mapping.addr mp) (host_p r) pages /\ N + 3 * (pages / 512 + 3) <= 4096) ->
  wp no_fault (HeapManager.brk newbrk)
    (fun e h' => e = 0 /\ brk_grown h c0 N newbrk l mp h') h.
Proof.
  intros Hm El [B1 B2 [B3 B3'] B4 (B5 & B5' & B5'') B6 [B7 B7'] B8 B9] Hb Hfit (Hlen & Hok & Hroom).
  set (d := newbrk - curbrk h) in *. set (pages := (_ + d + 4095) / 4096) in *.
  assert (forall F Q, Q mp h -> wp F (HeapManager.load_ref (Brk (length l))) Q h) as Hload.
  { intros F Q HQ. unfold HeapManager.load_ref, at_. apply wp_bind, wp_get.
    by rewrite El, lookup_app_r, Nat.sub_diag. }
  unfold HeapManager.brk. do 2 wp_step.
  replace (newbrk <? curbrk h) with false by (symmetry; apply Z.ltb_ge; lia).
  apply wp_bind. unfold HeapManager.brk_back. do 2 wp_step.
  rewrite El, length_app, Nat.add_1_r. wp_step. apply wp_bind, Hload.
  apply wp_bind, on_rm_read. unfold Mapping.fits_address, Mapping.region_of. apply wp_bind.
  eapply lookup_region_spec; [done|]. apply wp_ret. split; [done|].
  unfold Region.guest_address, Region.size. rewrite B5, !u64_small by lia.
  replace (_ && _) with true by (symmetry; apply andb_true_iff; rewrite Z.leb_le, Z.ltb_lt; lia).
  cbn [negb]. cbv iota. unfold Mapping.get_length. fold d. rewrite (u64_small d), (u64_small (_ + d)) by lia.
  apply wp_bind, on_rm_read. eapply grow_spec; try done; [lia|]. split; [done|].
  unfold HeapManager.store_ref, HeapManager.set_brk_list. do 4 wp_step. rewrite El, insert_app_r_alt, Nat.sub_diag by lia.
  cbn [list_insert insert]. do 2 wp_step. 2: { rewrite Z.eqb_refl in *. done. }
  cbn [mappings_for_brk mappings_for_mmap curbrk hm_rm].
  set (mp' := grown mp d). set (h1 := mkHM _ _ _ _).
  unfold HeapManager.map, HeapManager.load_ref. do 3 apply wp_bind. apply wp_get.
  assert ((l ++ [mp']) !! length l = Some mp') as Hat by (by rewrite lookup_app_r, Nat.sub_diag).
  unfold at_. cbn [h1 mappings_for_brk]. rewrite Hat. wp_step. apply wp_bind.
  assert (areas (Mapping.addr mp) pages <= pages / 512 + 2) as Har
    by (apply areas_le; [lia|subst pages; Z.div_mod_to_equations; lia]).
  destruct (own_in _ [] (Mapping.region mp) (mi_rm _ _ _ Hm)) as (r' & Hr' & [_ [Z1 Z2] _]);
    [simpl; apply elem_of_app; by left|]. rewrite B2 in Hr'. injection Hr' as <-.
  assert (4096 * pages <= rsize r) as Hpg by (subst pages; Z.div_mod_to_equations; lia).
  eapply wp_mono.
  { apply (map_val_spec h1 c0 N mp' r); cbn [mp' grown Mapping.with_extent Mapping.region
      Mapping.addr Mapping.mapped_pages Mapping.host_p h1 hm_rm]; fold pages; try done; try lia.
    subst pages. Z.div_mod_to_equations. lia. }
  cbv beta. intros [err mp2] h' ([= -> ->] & E1 & E2 & E3 & E4 & E5 & Ho & (N' & HN & Hm') & Hbk & Hle).
  unfold HeapManager.store_ref, HeapManager.set_brk_list, HeapManager.set_curbrk. wp_go.
  split; [done|]. cbn [h1 hm_rm mappings_for_brk mappings_for_mmap curbrk] in *.
  constructor; cbn [mappings_for_brk mappings_for_mmap curbrk hm_rm]; try done.
  - rewrite E2. by apply list_insert_id.
  - by exists N'.
Qed.

(** When the mapping of the break reached to the old break, all addresses up to the new one
    are translated. *)
Lemma brk_translated (h : hm os T) c0 N newbrk l mp r (h' : hm os T) x :
  brk_mapping (hm_rm h) c0 mp r -> Mapping.addr mp < curbrk h <= newbrk -> newbrk <= Mapping.addr mp + rsize r ->
  brk_grown h c0 N newbrk l mp h' -> curbrk h <= Mapping.addr mp + Mapping.length_ mp ->
  Mapping.addr mp <= x < newbrk -> is_Some (trans c0 (rm_pager (hm_rm h')) x).
Proof.
  intros Hb Hc Hn Hg Hreach Hx. pose proof (bm_addr _ _ _ _ Hb) as (_ & Ha & Ham). pose proof (bm_top _ _ _ _ Hb) as [Ht _].
  set (j := (x - Mapping.addr mp) / 4096).
  assert (0 <= j < Mapping.get_pages (grown mp (newbrk - curbrk h))) as Hj.
  { unfold j, Mapping.get_pages, grown. cbn. Z.div_mod_to_equations. lia. }
  pose proof (bg_backed _ _ _ _ _ _ _ Hg j Hj) as Hm. unfold mapped in Hm.
  rewrite (trans_vpn c0 (rm_pager (hm_rm h')) x (Mapping.guest_address (grown mp (newbrk - curbrk h)) + 4096 * j)).
  - rewrite Hm. by eexists.
  - unfold Mapping.guest_address, grown. cbn [Mapping.with_extent Mapping.addr]. unfold vpn, j.
    rewrite !Z.mod_small by (Z.div_mod_to_equations; lia). Z.div_mod_to_equations. lia.
Qed.

(** A mapping that [create_mapping] just made is live. *)
Lemma created_live (h h' : hm os T) c0 N N' addr len i r a pr f fdes off :
  mem_inv (hm_rm h) c0 N -> addr_ok addr (pagesize_align len) ->
  0 < len <= 2 ^ 32 - 4096 ->
  i ∉ allocated_regions (hm_rm h) ->
  allocated_regions (hm_rm h') = allocated_regions (hm_rm h) ++ [i] ->
  objs (rm_store (hm_rm h')) !! i = Some r -> rsize r = pagesize_align len ->
  a = (if addr =? 0 then host_p r else addr) ->
  backed (hm_rm h') c0 (Mapping.mk (host_p r) a (rsize r) (rsize r / 4096) pr f fdes off i) ->
  mem_inv (hm_rm h') c0 N' ->
  (forall q, q ∈ allocated_regions (hm_rm h) ->
     objs (rm_store (hm_rm h')) !! q = objs (rm_store (hm_rm h)) !! q) ->
  live_mapping (hm_rm h') c0 (Mapping.mk (host_p r) a (rsize r) (rsize r / 4096) pr f fdes off i).
Proof.
  intros Hm Hpl Hl Hn Hal Hr Hz Ha Hb Hm' Hk.
  destruct (pagesize_align_bounds len ltac:(lia)) as [Hs1 Hs2]. rewrite <- Hz in *.
  assert (i ∈ allocated_regions (hm_rm h')) as Hi by (rewrite Hal; apply elem_of_app; right; by left).
  destruct (own_in _ [] i (mi_rm _ _ _ Hm')) as (r' & Hr' & [[B1 B2] [Z1 Z2] Bt]);
    [simpl; apply elem_of_app; by left|]. rewrite Hr in Hr'. injection Hr' as <-.
  assert (4096 * (rsize r / 4096) = rsize r) as E by (Z.div_mod_to_equations; lia).
  constructor; cbn [Mapping.region Mapping.addr Mapping.length_ Mapping.mapped_pages]; try done.
  - exists r. split; [done|]. eapply (new_not_tables (hm_rm h) (hm_rm h')); try done. apply Hm'.
  - subst a. destruct (Z.eqb_spec addr 0); [done|]. by destruct Hpl as [|(? & ? & _)].
  - Z.div_mod_to_equations. lia.
  - subst a. destruct (Z.eqb_spec addr 0); [lia|]. destruct Hpl as [|(_ & _ & ?)]; [done|]. lia.
  - intros j Hj. specialize (Hb j Hj). unfold mapped in Hb. cbn in Hb. eauto.
Qed.
End Machine.
