(* ===== verification/HeapTheorems.v ===== *)
(** * Heap and mappings: theorems

    The properties of [HeapManager] and [Mapping], with witnesses on a machine
    that was booted by the constructors. *)

From S2P Require Import Prelude Memory PageMath HostOS Tlb Pager PagerTree PagerWalk PagerSpec PagerTlb PagerTheorems Region RegionManager RegionSpec RegionTheorems Mappings Heap HeapSpec.
Local Open Scope Z_scope.

(** A host whose files are empty. *)
#[export] Instance bump_FileOS : FileOS bump_os := {|
  f_lseek o _ _ _ := (0, o);
  f_read o _ _ := ((0, []), o);
|}.

(** A machine right after boot. *)
Definition machine : rm bump_os TLB.t := after RegionManager_init demo_rm.
Definition heap0 : hm bump_os TLB.t := mkHM [] [] 0 machine.

Lemma machine_boot : RegionManager_init demo_rm = Ok (tt, machine).
Proof. apply ok_after. vm_compute. reflexivity. Qed.

Lemma machine_spec :
  rm_inv [] machine /\ tables_ok (rm_pager machine) demo_chunk 1 /\
  (forall v, trans demo_chunk (rm_pager machine) v = None).
Proof.
  pose proof (boot_spec 3 (fun _ => 0) TLB.new bump_init ltac:(lia)) as Hw.
  apply (wp_partial_inv _ _ _ _ _ _) with (2 := machine_boot) in Hw.
  destruct Hw as (Hi & c & Hc & Ht & Hv).
  assert (chunks (p_pager (rm_pager machine)) = [demo_chunk]) as E by (vm_compute; reflexivity).
  rewrite E in Hc. injection Hc as <-. exact (conj Hi (conj Ht Hv)).
Qed.

Lemma machine_mem : mem_inv machine demo_chunk 1.
Proof.
  destruct machine_spec as (Hi & Ht & Hv). constructor.
  - exact Hi.
  - exact Ht.
  - assert (chunks (p_pager (rm_pager machine)) = [demo_chunk]) as E by (vm_compute; reflexivity).
    unfold chunks_ok. rewrite E. split; [exact demo_layout|].
    split; [vm_compute; reflexivity|vm_compute; discriminate].
  - vm_compute. split; discriminate.
  - vm_compute. reflexivity.
  - exists 1%nat. split; [vm_compute; apply list_elem_of_singleton; reflexivity|].
    exists (mkRegion 0x10000000 0 ELKVM_SYSTEM_MEMSIZE false "ELKVM Pager Memory").
    split; [vm_compute; reflexivity|]. split; reflexivity.
Qed.

(** A machine whose guest has a page of its own at [0x400000], like the image of a program. *)
Definition text_region : Region := mkRegion 0x11000000 0 0x1000 false "text".
Definition text_rm : rm bump_os TLB.t := after (allocate_region 0x1000 "text") machine.
Definition busy : rm bump_os TLB.t := after (on_pager (map_region (host_p text_region) 0x400000 1 PT_OPT_EXEC)) text_rm.
Definition heap1 : hm bump_os TLB.t := mkHM [] [] 0 busy.

Lemma busy_mem :
  (exists N, N <= 4 /\ mem_inv busy demo_chunk N) /\ is_Some (trans demo_chunk (rm_pager busy) 0x400000) /\
  (forall v, vpn v <> vpn 0x400000 -> trans demo_chunk (rm_pager busy) v = None).
Proof.
  assert (allocate_region 0x1000 "text" machine = Ok (2%nat, text_rm)) as E by (apply ok_after; vm_compute; reflexivity).
  pose proof (wp_partial_inv _ _ _ _ _ _ (allocate_region_spec machine 0x1000 "text" ltac:(lia) (proj1 machine_spec)) E) as Ha.
  destruct (allocated_mem machine 0x1000 2%nat text_rm demo_chunk 1) as (Hm & Em & _ & Ep);
    [lia|exact machine_mem|vm_compute; discriminate|exact Ha|].
  assert (forall v, trans demo_chunk (rm_pager text_rm) v = None) as Ht
    by (intros v; unfold trans; rewrite Em, Ep; apply machine_spec).
  assert (2%nat ∈ allocated_regions text_rm) as Hin
    by (rewrite (al_list _ _ _ _ Ha); apply elem_of_app; right; by left).
  pose proof (map_region_mem text_rm demo_chunk 1 2%nat text_region 0x400000 1 PT_OPT_EXEC Hm Hin
    ltac:(vm_compute; reflexivity) ltac:(right; discriminate) ltac:(lia) eq_refl ltac:(lia) ltac:(lia) ltac:(cbn; lia)
    ltac:(apply range_free_ok; intros j _; apply Ht) ltac:(vm_compute; discriminate)) as Hw.
  apply wp_total_inv in Hw as (err & m2 & E2 & -> & _ & _ & _ & _ & (N' & HN & Hm2) & Hmap & Hle).
  assert (busy = m2) as -> by (unfold busy, after; by rewrite E2). split; [|split].
  - exists N'. split; [exact HN|exact Hm2].
  - specialize (Hmap 0 ltac:(lia)). unfold mapped in Hmap. change (0x400000 + 4096 * 0) with 0x400000 in Hmap.
    rewrite Hmap. by eexists.
  - intros v Hv. assert (in_pages 0x400000 1 v = false) as Hp.
    { unfold in_pages. change (vpn 0x400000) with 0x400 in Hv. change (0x400000 / 4096) with 0x400. lia. }
    specialize (Hle v Hp). rewrite Ht in Hle. destruct (trans demo_chunk (rm_pager m2) v); [by destruct Hle|done].
Qed.

(** The next mapping of the guest gets the host memory behind the page. *)
Definition next_region : Region := mkRegion 0x11001000 0 0x3000 false "mapping with fd: -1".

(** ** Properties *)

(** C12. [create_mapping] is [mmap].  For 1 byte to [2 ^ 40] bytes with some protection, at address 0 or at a
    page-aligned address within 48 bits, on a sound machine that has room for the tables of the
    mapping and less than [2 ^ 51 - 2 ^ 48] bytes of memory:  if no region can be allocated, it fails in
    the same way.  Otherwise its place is the requested address, or for address 0 the guest address
    that equals the host address of the new region.  If no page of the place shows other
    memory already, it returns a new slot of the mmap vector whose mapping owns
    the freshly allocated region of exactly the requested pages; each of its pages is
    translated by the page tables to its part of that region with the requested write and
    execute permissions, no other page loses its translation, and the memory of the machine
    stays sound.  If some page of the place shows other memory, it fails its assertion, which for
    address 0 no caller can foresee. *)
Theorem create_mapping_correct {os T} `{HostOSLaws os} `{FileOS os} `{TranslationCache T}
    (h : hm os T) c0 N addr len prot flags fd off :
  let L := pagesize_align len in
  let create := HeapManager.create_mapping addr len prot flags fd off None in
  mem_inv (hm_rm h) c0 N -> 0 < len <= 2 ^ 40 -> requested_prot prot = true ->
  total_memsz (p_pager (rm_pager (hm_rm h))) + 2 ^ 48 <= 2 ^ 51 ->
  addr_ok addr L -> N + 3 * (L / 4096 / 512 + 3) <= 4096 ->
  match allocate_region L (String.append "mapping with fd: " (pretty fd)) (hm_rm h) with
  | Fail e => create h = Fail e
  | Ok (i, m1) => exists r, objs (rm_store m1) !! i = Some r /\
      let open_ := range_ok m1 c0 (if addr =? 0 then host_p r else addr) (host_p r) (L / 4096) in
      (open_ -> exists ref h', create h = Ok (ref, h') /\ created h c0 N addr len prot flags fd off ref h') /\
      (~ open_ -> create h = Fail Assert)
  end.
Proof.
  intros L create Hm Hl Hp Ht Hpl Hr. destruct (allocate_region _ _ _) as [[i m1]|e] eqn:Ea.
  - destruct (pagesize_align_bounds len ltac:(lia)) as [Hal _]. fold L in Hal.
    pose proof (wp_partial_inv _ _ _ _ _ _ (allocate_region_spec (hm_rm h) L _ ltac:(lia) (mi_rm _ _ _ Hm)) Ea) as [_ _ _ (r & Ho & _) _ _].
    exists r. split; [done|]. cbv zeta. fold (place_of addr r).
    pose proof (create_mapping_outcome h c0 N addr len prot flags fd off i m1 r Hm Hl Hp Ht Hpl Hr Ea Ho) as Hw.
    unfold wp in Hw. fold create in Hw. destruct (create h) as [[ref h']|f].
    + destruct Hw as [Hc Hok]. split; [intros _; by exists ref, h'|by intros []].
    + destruct Hw as [-> Hno]. split; [by intros ?|done].
  - unfold create, HeapManager.create_mapping. fold L. apply bind_fail. unfold HeapManager.on_rm, zoom. by rewrite Ea.
Qed.

Lemma heap1_alloc :
  allocate_region 0x3000 "mapping with fd: -1" busy
    = Ok (3%nat, after (allocate_region 0x3000 "mapping with fd: -1") busy).
Proof. apply ok_after. vm_compute. reflexivity. Qed.

Lemma heap1_region : objs (rm_store (after (allocate_region 0x3000 "mapping with fd: -1") busy)) !! 3%nat = Some next_region.
Proof. vm_compute. reflexivity. Qed.

Lemma heap1_open N :
  mem_inv busy demo_chunk N ->
  range_ok (after (allocate_region 0x3000 "mapping with fd: -1") busy) demo_chunk 0x11001000 0x11001000 3.
Proof.
  intros Hm. apply range_free_ok. intros j Hj.
  pose proof (wp_partial_inv _ _ _ _ _ _ (allocate_region_spec busy 0x3000 _ ltac:(lia) (mi_rm _ _ _ Hm)) heap1_alloc) as Ha.
  destruct (allocated_mem busy 0x3000 3%nat _ demo_chunk N ltac:(lia) Hm ltac:(vm_compute; discriminate) Ha) as (_ & Em & _ & Ep).
  destruct busy_mem as (_ & _ & Hv). set (v := 0x11001000 + 4096 * j).
  assert (vpn v <> vpn 0x400000) as Hne
    by (unfold v; assert (j = 0 \/ j = 1 \/ j = 2) as [->|[->| ->]] by lia; vm_compute; discriminate).
  rewrite <- (Hv v Hne). unfold trans. rewrite Em, Ep. reflexivity.
Qed.

(** On a machine whose guest has its image mapped: a mapping without an address succeeds,
    one over the image does not. *)
Lemma create_mapping_correct_witness :
  exists N, N <= 4 /\
    (exists ref h', HeapManager.create_mapping 0 0x2801 3 0x22 (-1) 0 None heap1 = Ok (ref, h') /\
                    created heap1 demo_chunk N 0 0x2801 3 0x22 (-1) 0 ref h') /\
    HeapManager.create_mapping 0x3ff000 0x2801 3 0x22 (-1) 0 None heap1 = Fail Assert.
Proof.
  destruct busy_mem as ((N & HN & Hm) & _). exists N. split; [exact HN|].
  assert (N + 3 * (0x3000 / 4096 / 512 + 3) <= 4096) as Hroom by (change (0x3000 / 4096 / 512) with 0; lia). split.
  - pose proof (create_mapping_correct heap1 demo_chunk N 0 0x2801 3 0x22 (-1) 0 Hm ltac:(lia) eq_refl
      ltac:(vm_compute; discriminate) (or_introl eq_refl) Hroom) as W.
    change (pagesize_align 0x2801) with 0x3000 in W.
    change (String.append "mapping with fd: " (pretty (-1))) with "mapping with fd: -1"%string in W.
    change (hm_rm heap1) with busy in W. rewrite heap1_alloc in W. destruct W as (r & Hr & Hok & _).
    apply (eq_trans (eq_sym heap1_region)) in Hr. injection Hr as <-. apply Hok. exact (heap1_open N Hm).
  - pose proof (create_mapping_correct heap1 demo_chunk N 0x3ff000 0x2801 3 0x22 (-1) 0 Hm ltac:(lia) eq_refl
      ltac:(vm_compute; discriminate) ltac:(right; vm_compute; intuition discriminate) Hroom) as W.
    change (pagesize_align 0x2801) with 0x3000 in W.
    change (String.append "mapping with fd: " (pretty (-1))) with "mapping with fd: -1"%string in W.
    change (hm_rm heap1) with busy in W. rewrite heap1_alloc in W. destruct W as (r & Hr & _ & Hno).
    apply (eq_trans (eq_sym heap1_region)) in Hr. injection Hr as <-. apply Hno. intros Hok.
    specialize (Hok 1 ltac:(change (0x3000 / 4096) with 3; lia) 0x1000000 ltac:(vm_compute; reflexivity)).
    vm_compute in Hok. discriminate.
Defined.

(** C13. [mmap] then [munmap].  When [create_mapping] of less than 4 GB with some protection, at address 0 or at a page-aligned
    address within 48 bits, has returned on a sound machine with room for the tables of the
    mapping, less than [2 ^ 51 - 2 ^ 48] bytes of memory and no empty mapping, unmapping the slot it returned
    succeeds, takes every page of the mapping out of the page tables, puts both
    vectors and the set of allocated regions back to what they were, and keeps
    the memory of the machine sound. *)
Theorem create_then_unmap {os T} `{HostOSLaws os} `{FileOS os} `{TranslationCache T}
    (h h1 : hm os T) c0 N addr len prot flags fd off ref :
  mem_inv (hm_rm h) c0 N -> 0 < len <= 2 ^ 32 - 4096 -> requested_prot prot = true ->
  total_memsz (p_pager (rm_pager (hm_rm h))) + 2 ^ 48 <= 2 ^ 51 ->
  addr_ok addr (pagesize_align len) ->
  N + 3 * (pagesize_align len / 4096 / 512 + 3) <= 4096 ->
  Forall (fun x => 0 < Mapping.mapped_pages x) (mappings_for_brk h ++ mappings_for_mmap h) ->
  HeapManager.create_mapping addr len prot flags fd off None h = Ok (ref, h1) ->
  exists h2, HeapManager.unmap ref h1 = Ok (0, h2) /\
    mappings_for_mmap h2 = mappings_for_mmap h /\ mappings_for_brk h2 = mappings_for_brk h /\
    allocated_regions (hm_rm h2) ≡ₚ allocated_regions (hm_rm h) /\
    (exists N', mem_inv (hm_rm h2) c0 N') /\
    (forall mp v, mappings_for_mmap h1 = mappings_for_mmap h ++ [mp] ->
       in_pages (Mapping.addr mp) (Mapping.mapped_pages mp) v = true ->
       trans c0 (rm_pager (hm_rm h2)) v = None).
Proof.
  intros Hm Hl Hp Ht Hpl Hr Hall E.
  destruct (create_mapping_returned h h1 c0 N addr len prot flags fd off ref Hm ltac:(lia) Hp Ht Hpl Hr E)
    as [-> [Cb _] (i & r & a & C1 & C2 & C3 & C4 & C5 & C6 & C7 & [C8 C9] & C10) Ck (N' & _ & Cm)].
  set (mp := Mapping.mk _ _ _ _ _ _ _ _ _) in *. rewrite Forall_app in Hall. destruct Hall as [Hb Hmm].
  pose proof (created_live h h1 c0 N N' addr len i r a prot flags fd off Hm Hpl Hl C1 C2 C3 C4 C7 C9 Cm Ck) as Hlive.
  fold mp in Hlive. set (k := length (mappings_for_mmap h)).
  assert (mappings_for_mmap h1 !! k = Some mp) as Hk by (rewrite C8; subst k; by rewrite lookup_app_r, Nat.sub_diag).
  pose proof (unmap_lemma h1 c0 N' k mp Cm Hk Hlive) as Hu. rewrite Cb, C8 in Hu.
  apply wp_total_inv in Hu as (e & h2 & E2 & -> & [R1 [R2 _] R3 R4 R5]).
  - exists h2. split; [exact E2|]. split; [|split; [congruence|split; [|split; [by exists N'|]]]].
    + rewrite R1, C8. subst k. unfold erase. rewrite take_app_length, drop_ge, app_nil_r; [done|].
      rewrite length_app. simpl. lia.
    + rewrite C2 in R3. change (Mapping.region mp) with i in R3.
      rewrite (Permutation_app_comm _ [i]) in R3. by apply Permutation_cons_inv in R3.
    + intros mp' v E' Hin. rewrite C8 in E'. apply app_inv_head in E' as [= <-]. by rewrite R4, Hin.
  - done.
  - apply Forall_app. split; [done|]. constructor; [|done]. apply Hlive.
Qed.

Lemma create_then_unmap_witness :
  exists h1 h2, HeapManager.create_mapping 0 0x2801 3 0x22 (-1) 0 None heap1 = Ok (Mmap 0, h1) /\
    HeapManager.unmap (Mmap 0) h1 = Ok (0, h2) /\
    mappings_for_mmap h2 = [] /\ mappings_for_brk h2 = [] /\
    allocated_regions (hm_rm h2) ≡ₚ allocated_regions busy.
Proof.
  destruct (run_result (HeapManager.create_mapping 0 0x2801 3 0x22 (-1) 0 None) heap1 (Mmap 0))
    as [h1 E]; [vm_compute; reflexivity|].
  destruct busy_mem as ((N & HN & Hm) & _).
  destruct (create_then_unmap heap1 h1 demo_chunk N 0 0x2801 3 0x22 (-1) 0 (Mmap 0))
    as (h2 & E2 & Hmm & Hb & Ha & _).
  - exact Hm.
  - lia.
  - reflexivity.
  - vm_compute. discriminate.
  - left. reflexivity.
  - change (pagesize_align 0x2801 / 4096 / 512) with 0. lia.
  - constructor.
  - exact E.
  - exists h1, h2. exact (conj E (conj E2 (conj Hmm (conj Hb Ha)))).
Defined.

(** A heap whose break lives in a region of eight pages at [0x600000], with two
    pages in use. *)
Definition data_rm : rm bump_os TLB.t := after (allocate_region 0x8000 "data") machine.
Definition data_region : Region := mkRegion 0x11000000 0 0x8000 false "data".
Definition data_mapping : Mapping.t := Mapping.mk 0x11000000 0x600000 0x2000 2 3 0x20 0 0 2%nat.
Definition data_heap : hm bump_os TLB.t :=
  mkHM [data_mapping] [] 0x602000 (with_addr data_rm 2%nat data_region 0x600000).

Lemma data_allocated : allocated machine 0x8000 2%nat data_rm.
Proof.
  assert (allocate_region 0x8000 "data" machine = Ok (2%nat, data_rm)) as E
    by (apply ok_after; vm_compute; reflexivity).
  pose proof (allocate_region_spec machine 0x8000 "data" ltac:(lia) (proj1 machine_spec)) as Hw.
  exact (wp_partial_inv _ _ _ _ _ _ Hw E).
Qed.

Lemma data_object : objs (rm_store data_rm) !! 2%nat = Some data_region.
Proof. vm_compute. reflexivity. Qed.

Lemma data_in : 2%nat ∈ allocated_regions data_rm.
Proof. rewrite (al_list _ _ _ _ data_allocated). apply elem_of_app. right. by left. Qed.

Lemma data_heap_mem :
  mem_inv (hm_rm data_heap) demo_chunk 1 /\
  forall v, trans demo_chunk (rm_pager (hm_rm data_heap)) v = None.
Proof.
  destruct (allocated_mem machine 0x8000 2%nat data_rm demo_chunk 1) as (Hm & Em & _ & Ep).
  - lia.
  - exact machine_mem.
  - vm_compute. discriminate.
  - exact data_allocated.
  - split; [exact (with_addr_inv _ _ _ _ _ 0x600000 Hm data_in data_object)|].
    intros v. cbn [data_heap hm_rm with_addr rm_pager]. unfold trans. rewrite Em, Ep. apply machine_spec.
Qed.

(** Growing the break in place.  When the new break lies in the region of
    the last break mapping and the mapping grown by the difference still fits,
    [brk] returns 0, the break is the new one, the mapping has grown by exactly
    the difference and each of its pages is translated to its part of the
    region, and no other page loses its translation. *)
Theorem brk_grows_in_place {os T} `{HostOSLaws os} `{FileOS os} `{TranslationCache T}
    (h : hm os T) c0 N newbrk l mp r :
  mem_inv (hm_rm h) c0 N -> mappings_for_brk h = l ++ [mp] -> brk_mapping (hm_rm h) c0 mp r ->
  Mapping.addr mp < curbrk h <= newbrk -> newbrk <= Mapping.addr mp + rsize r ->
  (let pages := (Mapping.length_ mp + (newbrk - curbrk h) + 4095) / 4096 in
   Mapping.length_ mp + (newbrk - curbrk h) <= rsize r /\
   range_ok (hm_rm h) c0 (Mapping.addr mp) (host_p r) pages /\ N + 3 * (pages / 512 + 3) <= 4096) ->
  exists h', HeapManager.brk newbrk h = Ok (0, h') /\ brk_grown h c0 N newbrk l mp h'.
Proof.
  intros Hm Hl Hb Hc Hn Hp.
  destruct (wp_total_inv _ _ _ (brk_in_place h c0 N newbrk l mp r Hm Hl Hb Hc Hn Hp))
    as (e & h' & E & -> & Hg). by exists h'.
Qed.

Lemma brk_grows_in_place_witness :
  exists h', HeapManager.brk 0x604801 data_heap = Ok (0, h') /\
             brk_grown data_heap demo_chunk 1 0x604801 [] data_mapping h'.
Proof.
  destruct data_heap_mem as [Hm Ht].
  apply (brk_grows_in_place data_heap demo_chunk 1 0x604801 [] data_mapping
           (set_guest_addr 0x600000 data_region) Hm).
  - reflexivity.
  - constructor; cbn; try (lia || done). exact data_in.
  - cbn. lia.
  - cbn. lia.
  - split; [cbn; lia|]. split; [|vm_compute; discriminate]. apply range_free_ok. intros j _. apply Ht.
Defined.

(** The mmap half of [contains_address] answers the opposite of its name:
    for an address outside the break it is true exactly when no mmap mapping
    contains the address. *)
Theorem contains_address_inverted {os T} (h : hm os T) front addr :
  mappings_for_brk h !! 0%nat = Some front ->
  (Mapping.guest_address front <=? addr) && (addr <? curbrk h) = false ->
  HeapManager.contains_address addr h
    = Ok (negb (existsb (fun m => Mapping.contains_guest m addr) (mappings_for_mmap h)), h).
Proof.
  intros Hf Hb. unfold HeapManager.contains_address, HeapManager.brk_contains_address, bind, get, at_.
  rewrite Hf. cbn [ret]. unfold ret. rewrite Hb. cbn [negb]. do 3 f_equal.
  unfold HeapManager.find_in. induction (mappings_for_mmap h) as [|m l IH]; [done|].
  simpl. destruct (Mapping.contains_guest m addr); [done|]. cbn [orb]. etransitivity; [|exact IH].
  by destruct (find_idx _ l).
Qed.

Lemma contains_address_inverted_witness :
  HeapManager.contains_address 0x90000000 data_heap = Ok (true, data_heap).
Proof.
  apply (contains_address_inverted data_heap data_mapping 0x90000000); reflexivity.
Defined.

(** [init] sets the break to the page after the initial data while the
    mapping ends at the data, so the first growth in place maps too little:
    with [0x1234] bytes of data in a region of four pages at [0x600000], a
    [brk] to [0x603800] returns 0 although the page of [0x603000] stays
    untranslated. *)
Theorem brk_after_init_undermaps :
  exists h', (do! HeapManager.init 2%nat 0x1234 in HeapManager.brk 0x603800)
               (mkHM [] [] 0 (with_addr data_rm 2%nat data_region 0x600000)) = Ok (0, h') /\
    curbrk h' = 0x603800 /\
    trans demo_chunk (rm_pager (hm_rm h')) 0x603000 = None.
Proof.
  set (h := mkHM _ _ _ _). set (c := bind _ _).
  exists (after c h). split; [apply ok_after|split]; vm_compute; reflexivity.
Qed.

(** Growing the break pushes a copy of its mapping into the mmap vector and
    shrinking does not take it out: after [brk] up to [0x609800] and back to
    [0x604800], [address_mapped] still claims [0x608000], which the page tables
    no longer translate. *)
Theorem brk_shrink_leaves_stale_mapping :
  exists h', (do! HeapManager.init 2%nat 0x1234 in do! HeapManager.brk 0x609800 in
              do! HeapManager.brk 0x604800 in HeapManager.address_mapped 0x608000)
               (mkHM [] [] 0 (with_addr data_rm 2%nat data_region 0x600000)) = Ok (true, h') /\
    curbrk h' = 0x604800 /\
    trans demo_chunk (rm_pager (hm_rm h')) 0x608000 = None.
Proof.
  set (h := mkHM _ _ _ _). set (c := bind _ _).
  exists (after c h). split; [apply ok_after|split]; vm_compute; reflexivity.
Qed.
