(* ===== verification/Vcpu.v ===== *)
(** * Virtual CPUs: [src/kvm.cc], [src/vcpu.cc], [src/stack.cc], [src/debug.cc]

    [KvmOS] is the interface to the KVM module for one virtual CPU.  A CPU works
    on its own registers and stack and, through the region manager, on the
    memory of the machine: [cpu] is that pair.  What is printed of a CPU is in [Print]. *)

From S2P Require Import Prelude Memory PageMath HostOS Tlb Pager Region RegionManager Registers.
Local Open Scope Z_scope.

Definition EINTR : Z := 4.
Definition EAGAIN : Z := 11.
Definition ENOMEM : Z := 12.

Definition KVM_EXIT_UNKNOWN : Z := 0.
Definition KVM_EXIT_EXCEPTION : Z := 1.
Definition KVM_EXIT_HYPERCALL : Z := 3.
Definition KVM_EXIT_DEBUG : Z := 4.
Definition KVM_EXIT_MMIO : Z := 6.
Definition KVM_EXIT_SHUTDOWN : Z := 8.
Definition KVM_EXIT_FAIL_ENTRY : Z := 9.
Definition KVM_EXIT_WATCHDOG : Z := 21.

Definition KVM_GUESTDBG_ENABLE : Z := 1.
Definition KVM_GUESTDBG_SINGLESTEP : Z := 2.
Definition KVM_GUESTDBG_USE_SW_BP : Z := 0x10000.

(** The ioctls on a virtual machine and on a virtual CPU.  An ioctl that fails
    answers the result and [errno]; running the guest may change its memory. *)
Class KvmOS (os : Type) := {
  io_create_vcpu : os -> Z -> Z -> Z * os;
  io_mmap_run : os -> Z -> (Z * kvm_run) * os;
  io_get_regs : os -> Z -> kvm_regs -> (Z * Z * kvm_regs) * os;
  io_set_regs : os -> Z -> kvm_regs -> (Z * Z) * os;
  io_get_sregs : os -> Z -> kvm_sregs -> (Z * Z * kvm_sregs) * os;
  io_set_sregs : os -> Z -> kvm_sregs -> (Z * Z) * os;
  io_get_msr : os -> Z -> Z -> (Z * Z) * os;
  io_set_msr : os -> Z -> Z -> Z -> Z * os;
  io_set_guest_debug : os -> Z -> Z -> Z * os;
  io_run : os -> Z -> mem -> ((Z * Z * kvm_run) * mem) * os;
}.

(** ** The state *)

Module Stack.
Record t := mk {
  stack_regions : list rid;
  kernel_stack : option rid;
  base : Z;
}.
End Stack.

(** [class VCPU]. *)
Record VCPU := mkVcpu {
  is_singlestepping : bool;
  _kvm_vcpu : KVM_VCPU;
  stack : Stack.t;
}.

Record cpu (os T : Type) := mkCpu { c_vcpu : VCPU; c_rm : rm os T }.
Arguments mkCpu {os T}.
Arguments c_vcpu {os T}.
Arguments c_rm {os T}.

Definition LINUX_64_STACK_BASE : Z := 0x800000000000.
Definition ELKVM_STACK_GROW : Z := 0x200000.

Definition VCPU_CR0_FLAG_PAGING : Z := 0x80000000.
Definition VCPU_CR0_FLAG_CACHE_DISABLE : Z := 0x40000000.
Definition VCPU_CR0_FLAG_NOT_WRITE_THROUGH : Z := 0x20000000.
Definition VCPU_CR0_FLAG_PROTECTED : Z := 0x1.
Definition VCPU_CR4_FLAG_OSFXSR : Z := 0x200.
Definition VCPU_CR4_FLAG_PAE : Z := 0x20.
Definition VCPU_EFER_FLAG_SCE : Z := 0x1.
Definition VCPU_EFER_FLAG_LME : Z := 0x100.
Definition VCPU_EFER_FLAG_NXE : Z := 0x800.
Definition VCPU_MSR_STAR : Z := 0xC0000081.
Definition VCPU_MSR_LSTAR : Z := 0xC0000082.

(** [Elkvm::VCPU::hypercall_exit]. *)
Definition hypercall_exit : Z := 1.

Section Cpu.
Context {os T : Type} `{HostOS os} `{KvmOS os} `{TranslationCache T}.
Local Abbreviation RM := (M (rm os T)).
Local Abbreviation CPU := (M (cpu os T)).

Definition rm_io {A} (f : os -> A * os) : RM A :=
  on_pager (let! s := get in
            let '(a, o) := f (p_os s) in
            do! put (mkPst (p_mem s) (p_tlb s) o (p_pager s)) in
            ret a).

Definition on_cpu_rm {A} (c : RM A) : CPU A :=
  zoom c_rm (fun r s => mkCpu (c_vcpu s) r) c.

Definition set_vcpu (v : VCPU) : CPU unit := modify (fun s => mkCpu v (c_rm s)).
Definition set_kvm (k : KVM_VCPU) : CPU unit :=
  modify (fun s => mkCpu (mkVcpu (is_singlestepping (c_vcpu s)) k (stack (c_vcpu s))) (c_rm s)).
Definition set_stack (t : Stack.t) : CPU unit :=
  modify (fun s => mkCpu (mkVcpu (is_singlestepping (c_vcpu s)) (_kvm_vcpu (c_vcpu s)) t) (c_rm s)).
Definition kvm : CPU KVM_VCPU := gets (fun s => _kvm_vcpu (c_vcpu s)).
Definition the_stack : CPU Stack.t := gets (fun s => stack (c_vcpu s)).

(** ** [class KVM::VCPU] *)

(** The constructor; a failed [mmap] returns [MAP_FAILED], which is not null. *)
Definition KVM_VCPU_new (vmfd num : Z) : RM KVM_VCPU :=
  let! fd := rm_io (fun o => io_create_vcpu o vmfd num) in
  do! assert_ (0 <? fd) in
  let! '(run_struct, r) := rm_io (fun o => io_mmap_run o fd) in
  do! assert_ (negb (run_struct =? 0)) in
  ret (mkKvmVcpu fd zero_regs zero_sregs r 0).

Definition get_regs : CPU Z :=
  let! k := kvm in
  let! '(err, errno, r) := on_cpu_rm (rm_io (fun o => io_get_regs o (kv_fd k) (kv_regs k))) in
  do! set_kvm (with_regs k r) in
  if ctrue err then ret (- errno) else ret 0.

Definition get_sregs : CPU Z :=
  let! k := kvm in
  let! '(err, errno, r) := on_cpu_rm (rm_io (fun o => io_get_sregs o (kv_fd k) (kv_sregs k))) in
  do! set_kvm (with_sregs k r) in
  if ctrue err then ret (- errno) else ret 0.

Definition set_regs : CPU Z :=
  let! k := kvm in
  let! '(err, errno) := on_cpu_rm (rm_io (fun o => io_set_regs o (kv_fd k) (kv_regs k))) in
  if ctrue err then ret (- errno) else ret 0.

Definition set_sregs : CPU Z :=
  let! k := kvm in
  let! '(err, errno) := on_cpu_rm (rm_io (fun o => io_set_sregs o (kv_fd k) (kv_sregs k))) in
  if ctrue err then ret (- errno) else ret 0.

Definition get_msr (idx : Z) : CPU Z :=
  let! k := kvm in
  let! '(err, data) := on_cpu_rm (rm_io (fun o => io_get_msr o (kv_fd k) idx)) in
  do! assert_ (0 <=? err) in
  ret data.

Definition set_msr (idx data : Z) : CPU unit :=
  let! k := kvm in
  let! err := on_cpu_rm (rm_io (fun o => io_set_msr o (kv_fd k) idx data)) in
  assert_ (0 <=? err).

Definition get_interrupt_bitmap (idx : nat) : CPU Z :=
  let! k := kvm in at_ (interrupt_bitmap (kv_sregs k)) idx.

Definition get_reg (r : Reg_t) : CPU Z := let! k := kvm in ret (kvm_get_reg k r).
Definition set_reg (r : Reg_t) (v : Z) : CPU unit := let! k := kvm in set_kvm (kvm_set_reg k r v).
Definition get_seg (t : Seg_t) : CPU Segment := let! k := kvm in ret (kvm_get_seg k t).
Definition set_seg (t : Seg_t) (g : Segment) : CPU unit :=
  let! k := kvm in set_kvm (kvm_set_seg k t g).

(** [KVM::VCPU::run]: a failure other than [EAGAIN] ends the run. *)
Definition kvm_run_ : CPU Z :=
  let! k := kvm in
  let! '(err, errno, r) := on_cpu_rm (on_pager (
    let! s := get in
    let '((e, m), o) := io_run (p_os s) (kv_fd k) (p_mem s) in
    do! put (mkPst m (p_tlb s) o (p_pager s)) in
    ret e)) in
  do! set_kvm (with_run k r) in
  if ctrue err && (errno =? EINTR) then ret (- EINTR)
  else if ctrue err && negb (errno =? EAGAIN) then ret (-1)
  else if run_exit_reason r =? KVM_EXIT_HYPERCALL then ret hypercall_exit
  else ret 0.

Definition exit_reason : CPU Z := let! k := kvm in ret (run_exit_reason (kv_run k)).

(** *** Debugging control: [src/debug.cc] *)

Definition set_debug : CPU Z :=
  let! k := kvm in on_cpu_rm (rm_io (fun o => io_set_guest_debug o (kv_fd k) (kv_debug k))).

Definition kvm_control (f : Z -> Z) : CPU Z :=
  let! k := kvm in
  do! set_kvm (with_debug k (f (kv_debug k))) in
  set_debug.

Definition set_singlestepping (b : bool) : CPU unit :=
  modify (fun s => mkCpu (mkVcpu b (_kvm_vcpu (c_vcpu s)) (stack (c_vcpu s))) (c_rm s)).

Definition enable_debug : CPU Z := kvm_control (fun c => Z.lor c KVM_GUESTDBG_ENABLE).
Definition singlestep : CPU Z :=
  do! set_singlestepping true in
  kvm_control (fun c => Z.lor c (Z.lor KVM_GUESTDBG_ENABLE KVM_GUESTDBG_SINGLESTEP)).
Definition singlestep_off : CPU Z :=
  do! set_singlestepping false in
  kvm_control (fun c => Z.land c (u32 (Z.lnot KVM_GUESTDBG_SINGLESTEP))).
Definition enable_software_breakpoints : CPU Z :=
  kvm_control (fun c => Z.lor c (Z.lor KVM_GUESTDBG_ENABLE KVM_GUESTDBG_USE_SW_BP)).

(** ** [class Stack] *)

Definition set_guest_addr_of (r : rid) (a : Z) : RM unit :=
  let! reg := on_store (lookup_region r) in
  on_store (update_region r (set_guest_addr a reg)).

(** [expand] on a stack value; [allocate_region] never answers null. *)
Definition expand_stack (st : Stack.t) : RM (Z * Stack.t) :=
  let base := u64 (Stack.base st - ELKVM_STACK_GROW) in
  let st := Stack.mk (Stack.stack_regions st) (Stack.kernel_stack st) base in
  let! r := allocate_region ELKVM_STACK_GROW "ELKVM stack" in
  let! reg := on_store (lookup_region r) in
  let! err := on_pager (map_region (base_address reg) base (ELKVM_STACK_GROW / ELKVM_PAGESIZE)
                                   PT_OPT_WRITE) in
  if ctrue err then ret (err, st) else
  do! set_guest_addr_of r base in
  ret (0, Stack.mk (Stack.stack_regions st ++ [r]) (Stack.kernel_stack st) base).

Definition Stack_new : RM Stack.t :=
  let st := Stack.mk [] None LINUX_64_STACK_BASE in
  let! '(err, st) := expand_stack st in
  do! assert_ (err =? 0) in
  let! k := allocate_region ELKVM_PAGESIZE "kernel stack" in
  let! reg := on_store (lookup_region k) in
  let! kstack_addr := on_pager (map_kernel_page (base_address reg) PT_OPT_WRITE) in
  do! assert_ (negb (kstack_addr =? 0)) in
  do! set_guest_addr_of k kstack_addr in
  ret (Stack.mk (Stack.stack_regions st) (Some k) (Stack.base st)).

Definition expand : CPU Z :=
  let! st := the_stack in
  let! '(err, st) := on_cpu_rm (expand_stack st) in
  do! set_stack st in
  ret err.

Definition store_q (hp v : Z) : CPU unit :=
  on_cpu_rm (on_pager (upd_mem (fun m => store64 m hp v))).

Definition pushq (rsp val : Z) : CPU Z :=
  let! hp := on_cpu_rm (on_pager (get_host_p rsp)) in
  if hp =? 0 then
    let! err := expand in
    if ctrue err then ret err else
    let! hp := on_cpu_rm (on_pager (get_host_p rsp)) in
    do! assert_ (negb (hp =? 0)) in
    do! store_q hp val in
    ret 0
  else
    do! store_q hp val in
    ret 0.

Definition popq (rsp : Z) : CPU Z :=
  let! hp := on_cpu_rm (on_pager (get_host_p rsp)) in
  do! assert_ (negb (hp =? 0)) in
  gets (fun s => load64 (p_mem (rm_pager (c_rm s))) hp).

Definition kernel_base : CPU Z :=
  let! st := the_stack in
  let! k := deref (Stack.kernel_stack st) in
  let! reg := on_cpu_rm (on_store (lookup_region k)) in
  ret (guest_address reg).

Definition user_base : CPU Z := let! st := the_stack in ret (Stack.base st).

Definition is_stack_expansion (pfla : Z) : CPU bool :=
  let! st := the_stack in
  match last (Stack.stack_regions st) with
  | None => fail OutOfRange
  | Some r =>
      let! reg := on_cpu_rm (on_store (lookup_region r)) in
      let stack_top := page_begin (guest_address reg) in
      if stack_top <? pfla then ret false else
      let aligned_pfla := page_begin pfla in
      let pages := u64 (pages_from_size (u64 (stack_top - aligned_pfla))) in
      ret (pages <? 200)
  end.

Definition grow_stack (pfla : Z) : CPU bool :=
  let! b := is_stack_expansion pfla in
  if b then
    let! err := expand in
    do! assert_ (err =? 0) in
    ret true
  else ret false.

(** ** [class VCPU] *)

Definition pop : CPU Z :=
  let! sp := get_reg rsp in
  let! val := popq sp in
  do! set_reg rsp (u64 (sp + 8)) in
  ret val.

Definition push (val : Z) : CPU unit :=
  let! sp := get_reg rsp in
  let sp := u64 (sp - 8) in
  do! set_reg rsp sp in
  let! _err := pushq sp val in
  ret tt.

Definition init_rsp : CPU unit := let! b := user_base in set_reg rsp b.

Definition set_entry_point (ip : Z) : CPU unit :=
  do! set_reg rip ip in
  let! _err := set_regs in
  ret tt.

Definition handle_stack_expansion : CPU Z :=
  let! _err := expand in
  ret 1.

Definition initialize_regs : CPU unit :=
  do! set_reg rflags 0x2 in
  do! set_reg cr0 (Z.lor (Z.lor (Z.lor VCPU_CR0_FLAG_PAGING VCPU_CR0_FLAG_CACHE_DISABLE)
                                VCPU_CR0_FLAG_NOT_WRITE_THROUGH) VCPU_CR0_FLAG_PROTECTED) in
  do! set_reg cr2 0 in
  do! set_reg cr3 0 in
  do! set_reg cr4 (Z.lor VCPU_CR4_FLAG_OSFXSR VCPU_CR4_FLAG_PAE) in
  do! set_reg cr8 0 in
  do! set_reg efer (Z.lor (Z.lor VCPU_EFER_FLAG_NXE VCPU_EFER_FLAG_LME) VCPU_EFER_FLAG_SCE) in
  do! set_reg apic_base 0xfee00900 in
  do! set_seg cs (mkSegment 0x13 0x0 0xFFFFFFFF 0xb 0x1 0x3 0x0 0x1 0x1 0x1 0x0) in
  do! set_seg ds (mkSegment 0x18 0x0 0xFFFFFFF 0x3 0x1 0x0 0x0 0x1 0x1 0x1 0x0) in
  do! set_seg es (mkSegment 0x0 0x0 0xFFFFF 0x3 0x1 0x0 0x0 0x1 0x0 0x0 0x0) in
  do! set_seg fs (mkSegment 0x0 0x0 0xFFFFF 0x3 0x1 0x0 0x0 0x1 0x0 0x0 0x0) in
  do! set_seg gs (mkSegment 0x0 0x10000 0xFFFFF 0x3 0x1 0x0 0x0 0x1 0x0 0x0 0x0) in
  do! set_seg tr (mkSegment 0x0 0x0 0xFFFF 0xb 0x1 0x0 0x0 0x0 0x1 0x0 0x0) in
  do! set_seg ldt (mkSegment 0x0 0x0 0xFFFF 0x2 0x1 0x0 0x0 0x0 0x0 0x0 0x0) in
  set_seg ss (mkSegment 0xb 0x0 0xFFFFFFFF 0x3 0x1 0x3 0x0 0x1 0x1 0x1 0x0).

(** The constructor: the KVM CPU and the stack, then the registers. *)
Definition VCPU_new (vmfd cpu_num : Z) : RM VCPU :=
  let! k := KVM_VCPU_new vmfd cpu_num in
  let! st := Stack_new in
  let! r := get in
  match (do! initialize_regs in init_rsp) (mkCpu (mkVcpu false k st) r) with
  | Ok (_, s) => do! put (c_rm s) in ret (c_vcpu s)
  | Fail f => fail f
  end.

(** [handle_vm_exit]: every exit it knows of stops the machine. *)
Definition handle_vm_exit : CPU bool :=
  let! reason := exit_reason in
  if reason =? KVM_EXIT_SHUTDOWN then
    let! _e := get_regs in
    let! _e := get_sregs in
    ret false
  else ret false.
End Cpu.
