(* ===== verification/Print.v ===== *)
(** * What the library prints of its state

    The functions of [src/pager.cc], [src/vcpu.cc], [src/kvm.cc],
    [src/region.cc], [src/region_manager.cc], [src/mapping.cc] and [src/heap.cc]
    that write registers, tables, regions and mappings.  Text is a list of
    bytes.  [std::cout] and [std::cerr] are two streams with their own base and
    fill character, which one printer leaves behind for the next; a function
    that uses [printf] answers the text. *)

From stdpp Require Import strings.
From Stdlib Require Import Ascii.
From S2P Require Import Prelude Text Memory PageMath HostOS Tlb Pager Region RegionManager Registers Mappings Heap Vcpu.
Local Open Scope Z_scope.

(** ** Streams *)

Inductive sink := Cout | Cerr.

Record streams := mkStreams { st_cout : ostream; st_cerr : ostream }.

Abbreviation OUT := (M streams).

(** [os << a << b << ...]. *)
Definition emit (os : sink) (l : list item) : OUT unit :=
  modify (fun s => match os with
                   | Cout => mkStreams (put_items l (st_cout s)) (st_cerr s)
                   | Cerr => mkStreams (st_cout s) (put_items l (st_cerr s))
                   end).

Fixpoint emit_all {A} (f : A -> OUT unit) (l : list A) : OUT unit :=
  match l with
  | [] => ret tt
  | a :: l' => do! f a in emit_all f l'
  end.

(** ** Virtual CPUs *)

Definition PRINT_REGISTER (name : string) (reg : Z) : list item :=
  [Str " "; Str name; Str ": "; Hex; Setw 16; Setfill (chr "0"); Num reg].

(** The flags that are set, always on [std::cerr]. *)
Definition print_flags (flags : Z) : OUT unit :=
  let flag n t := if ctrue (Z.land (Z.shiftr flags n) 0x1) then Str t else Str "" in
  emit Cerr [Str " ["; flag 16 "RF "; flag 11 "OF "; flag 10 "DF "; flag 9 "IF "; flag 8 "TF ";
             flag 7 "SF "; flag 6 "ZF "; flag 4 "AF "; flag 2 "PF "; flag 0 "CF"; Str "]"; Endl].

(** [print] of a segment and of a descriptor table. *)
Definition print_segment (os : sink) (name : string) (seg : Segment) : OUT unit :=
  emit os [Str " "; Str name; Hex;
           Str "       "; Setw 4; Setfill (chr "0"); Num (_selector seg);
           Str "      "; Setw 16; Setfill (chr "0"); Num (_base seg);
           Str "  "; Setw 8; Setfill (chr "0"); Num (_limit seg);
           Str "  "; Setw 2; Setfill (chr "0"); Num (u32 (_type seg));
           Str "    "; Num (u32 (_present seg)); Str " "; Num (u32 (_dpl seg));
           Str "   "; Num (u32 (_db seg)); Str "  "; Num (u32 (_s seg));
           Str " "; Num (u32 (_l seg)); Str " "; Num (u32 (_g seg));
           Str " "; Num (u32 (_avl seg)); Endl].

Definition print_dtable (os : sink) (name : string) (dtable : kvm_dtable) : OUT unit :=
  emit os [Str " "; Str name; Hex;
           Str "                 "; Setw 16; Setfill (chr "0"); Num (dt_base dtable);
           Str "  "; Setw 8; Setfill (chr "0"); Num (dt_limit dtable); Endl].

Definition KVM_NR_INTERRUPTS : Z := 256.

(** The registers, three in a line. *)
Definition register_lines (k : KVM_VCPU) : list (list item) :=
  let line l := concat (map (fun '(name, r) => PRINT_REGISTER name (kvm_get_reg k r)) l) ++ [Endl] in
  [line [("rax", rax); ("  rbx", rbx); ("  rcx", rcx)];
   line [("rdx", rdx); ("  rsi", rsi); ("  rdi", rdi)];
   line [("rbp", rbp); ("   r8", r8); ("   r9", r9)];
   line [("r10", r10); ("  r11", r11); ("  r12", r12)];
   line [("r13", r13); ("  r14", r14); ("  r15", r15)];
   line [("cr0", cr0); ("  cr2", cr2); ("  cr3", cr3)];
   line [("cr4", cr4); ("  cr8", cr8)]]%string.

(** [print] of a virtual CPU. *)
Definition print_vcpu (os : sink) (k : KVM_VCPU) : OUT unit :=
  let reg name r := PRINT_REGISTER name (kvm_get_reg k r) in
  let seg '(name, t) := print_segment os name (kvm_get_seg k t) in
  do! emit os [Endl; Str " Registers:"; Endl; Str " ----------"; Endl] in
  do! emit os (reg "rip"%string rip ++ reg "  rsp"%string rsp ++ reg "  flags"%string rflags ++ [Endl]) in
  do! print_flags (kvm_get_reg k rflags) in
  do! emit_all (emit os) (register_lines k) in
  do! emit os [Endl; Str " Segment registers:"; Endl; Str " ------------------"; Endl;
               Str " register  selector  base              limit     type  p dpl db s l g avl"; Endl] in
  do! emit_all seg [("cs ", cs); ("ss ", ss); ("ds ", ds); ("es ", es); ("fs ", fs); ("gs ", gs);
                    ("tr ", tr); ("ldt", ldt); ("gdt", gdt); ("idt", idt)]%string in
  do! emit os [Endl; Str " APIC:"; Endl; Str " -----"; Endl] in
  do! emit os (reg "efer"%string efer ++ reg "  apic base"%string apic_base ++ [Endl]) in
  do! emit os [Endl; Str " Interrupt bitmap:"; Endl; Str " -----------------"; Endl] in
  do! emit_all (fun i => let! w := at_ (interrupt_bitmap (kv_sregs k)) i in
                         emit os [Str " "; Setw 16; Setfill (chr "0"); Num w])
               (seq 0 (Z.to_nat ((KVM_NR_INTERRUPTS + 63) / 64))) in
  emit os [Endl].

(** [kvm_vcpu_dump_msr], with the value that was read. *)
Definition kvm_vcpu_dump_msr (msr value : Z) : OUT unit :=
  emit Cerr [Str " MSR: 0x"; Hex; Num msr; Str ": 0x"; Num value; Endl].

(** The part [mmio] of [struct kvm_run]; the bytes of [data] and [is_write] are [__u8]. *)
Record kvm_run_mmio := mkMmio { mmio_phys_addr : Z; mmio_data : list Z; mmio_len : Z; mmio_is_write : Z }.

(** The bytes and the flag are inserted as characters. *)
Definition print_mmio (os : sink) (r : kvm_run_mmio) : OUT unit :=
  do! emit os [Str "phys_addr: 0x"; Hex; Num (mmio_phys_addr r)] in
  do! emit_all (fun '(i, label) => let! c := at_ (mmio_data r) i in emit os [Str label; Chr c])
    [(0%nat, " data[0]: "); (1%nat, " data[1]: "); (2%nat, " data[2]: "); (3%nat, " data[3]: ");
     (4%nat, " data[4]: "); (5%nat, " data[5]: "); (6%nat, " data[6]: "); (7%nat, " data[7]: ")]%string in
  emit os [Str " len: "; Num (mmio_len r); Str " write: "; Chr (mmio_is_write r); Endl].

(** The two readings of the first word of the union in [struct kvm_run]. *)
Definition hardware_exit_reason (k : KVM_VCPU) : Z := run_union (kv_run k).
Definition hardware_entry_failure_reason (k : KVM_VCPU) : Z := run_union (kv_run k).

(** ** Memory *)

(** [print] of a memory slot. *)
Definition print_chunk (os : sink) (r : Chunk) : OUT unit :=
  emit os [Str "KVM REGION: userspace_addr: 0x"; Hex; Num (userspace_addr r);
           Str " guest physical address: 0x"; Num (guest_phys_addr r);
           Str " size: 0x"; Num (memory_size r); Str " slot: "; Dec; Num (slot r); Endl].

Definition print_region (os : sink) (r : Region) : OUT unit :=
  do! (if is_free r then emit os [Str "FREE "] else ret tt) in
  emit os [Hex; Str "REGION["; Setw 36; Str (name r); Str "] guest address: ";
           Setw 19; Ptr (guest_address r); Str " host_p: "; Ptr (base_address r);
           Str " size: 0x"; Num (Region.size r);
           Str " last guest address: 0x"; Num (u64 (guest_address r + Region.size r - 1)); Endl].

(** The two lines of the heading go to the log. *)
Definition dump_regions (store : rstore) (allocated : list rid) : OUT unit :=
  do! emit_all (fun i => match lookup_region i store with
                         | Ok (r, _) => print_region Cout r
                         | Fail f => fail f
                         end) allocated in
  emit Cout [Endl; Endl].

(** [print] of a mapping; the descriptor is an [int] in base 16. *)
Definition print_mapping (os : sink) (m : Mapping.t) : OUT unit :=
  do! emit os [if Mapping.anonymous m then Str "ANONYMOUS " else Str "          "] in
  do! emit os [Str "MAPPING: 0x"; Hex; Num (Mapping.guest_address m);
               Str " ("; Ptr (Mapping.base_address m); Str ") length: 0x"; Num (Mapping.get_length m);
               Str " last address: "; Num (u64 (Mapping.guest_address m + Mapping.get_length m));
               Str " pages mapped: 0x"; Num (Mapping.get_pages m)] in
  do! (if negb (Mapping.anonymous m) then emit os [Str " fd: "; Num (u32 (Mapping.fd m))] else ret tt) in
  do! emit os [Str " protection: "] in
  do! (if Mapping.readable m then emit os [Str "R"] else ret tt) in
  do! (if Mapping.writeable m then emit os [Str "W"] else ret tt) in
  do! (if Mapping.executable m then emit os [Str "X"] else ret tt) in
  emit os [Endl].

Definition dump_mappings {os T} (h : hm os T) : OUT unit :=
  do! emit Cout [Str "DUMPING ALL MAPPINGS:"; Endl; Str "===================="; Endl] in
  do! emit_all (print_mapping Cout) (mappings_for_brk h) in
  do! emit_all (print_mapping Cout) (mappings_for_mmap h) in
  emit Cout [Endl; Endl].

(** ** Page tables *)

Definition line (s : string) : list Z := str s ++ [newline].
Definition tab : Z := 9.

(** [%3lu] and the like. *)
Definition dec_field (w : nat) (n : Z) : list Z := padded w 32 (dec_number n).

(** [%p] of [printf]. *)
Definition printf_pointer (p : Z) : list Z := if p =? 0 then str "(nil)" else str "0x" ++ hex_number p.

Definition dump_page_fault_info (pfla err_code host_p : Z) : list Z :=
  let err_code := u32 err_code in
  line " Page Fault:" ++ line " -------------------" ++
  str " PFLA: 0x" ++ padded 16 (chr "0") (hex_number pfla) ++
  str ", expected host address: " ++ printf_pointer host_p ++ [newline] ++
  str " Offsets: PML4: " ++ dec_field 3 (Z.land (Z.shiftr pfla 39) 0x1FF) ++
  str " PDPT: " ++ dec_field 3 (Z.land (Z.shiftr pfla 30) 0x1FF) ++
  str " PD: " ++ dec_field 3 (Z.land (Z.shiftr pfla 21) 0x1FF) ++
  str " PT: " ++ dec_field 3 (Z.land (Z.shiftr pfla 12) 0x1FF) ++
  str " Page: " ++ dec_field 4 (Z.land pfla (ELKVM_PAGESIZE - 1)) ++ [newline] ++
  [newline] ++ line " Page Fault Error Code:" ++ line " ----------------------" ++
  str " P: " ++ hex_number (Z.land err_code 0x1) ++
  str " R/W: " ++ hex_number (Z.land (Z.shiftr err_code 1) 0x1) ++
  str " U/S: " ++ hex_number (Z.land (Z.shiftr err_code 2) 0x1) ++
  str " RSV: " ++ hex_number (Z.land (Z.shiftr err_code 3) 0x1) ++
  str " I/D: " ++ hex_number (Z.land (Z.shiftr err_code 4) 0x1) ++ [newline].

Definition table_name (level : nat) : string :=
  match level with
  | 1 => "Page Table"
  | 2 => "Page Directory"
  | 3 => "Page Directory Pointer Table"
  | 4 => "PML4"
  | _ => "Invalid Level"
  end%nat%string.

(** The row of entry [i]. *)
Definition dump_row (i : nat) (entry : Z) : list Z :=
  str " " ++ dec_field 3 (Z.of_nat i) ++ str "    " ++ hex_number (Z.land entry 0x1) ++
  str " " ++ hex_number (Z.shiftr (Z.land entry 0x2) 1) ++
  str "  " ++ hex_number (Z.shiftr (Z.land entry 0x4) 2) ++
  str "   " ++ hex_number (Z.shiftr (Z.land entry 0x8) 3) ++
  str " " ++ hex_number (Z.shiftr (Z.land entry 0x10) 4) ++
  str " " ++ hex_number (Z.shiftr (Z.land entry 0x20) 5) ++
  str "   " ++ hex_number (Z.land (Z.shiftr entry 6) 0x7) ++
  str "    " ++ hex_number (Z.land (Z.shiftr entry 9) 0x7) ++ [tab] ++
  padded 11 (chr "0") (hex_number (Z.land entry 0xFFFFFFFFFF000)) ++ [tab] ++
  hex_number (Z.shiftr entry 63) ++ [newline].

Definition table_head (level : nat) (host_p guest_physical : Z) : list Z :=
  str (table_name level) ++ str " with host base " ++ pointer host_p ++ str " (0x" ++
  hex_number guest_physical ++ line ")" ++
  str " Offset P W Us WTC C A 6-8 9-11" ++ [tab] ++ str "Next" ++ [tab; tab] ++ line "NXE".

Section Dump.
Context {os T : Type}.
Local Abbreviation PM := (M (pst os T)).

(** The loop over the entries, from entry [i]: the rows and the array
    [present]. *)
Fixpoint dump_entries (n i : nat) (host_p : Z) : PM (list Z * list Z) :=
  match n with
  | O => ret ([], [])
  | S n' =>
      let! entry := load (host_p + 8 * Z.of_nat i) in
      if ctrue (Z.land entry 0x1) then
        let entry_guest_physical := Z.land entry 0xFFFFFFFFFF000 in
        let! p := gets p_pager in
        let! c0 := at_ (chunks p) 0 in
        do! assert_ (negb (entry_guest_physical =? 0)) in
        let! '(rows, present) := dump_entries n' (S i) host_p in
        ret (dump_row i entry ++ rows, (entry_guest_physical + userspace_addr c0) :: present)
      else dump_entries n' (S i) host_p
  end.

Fixpoint print_each (f : Z -> PM (list Z)) (l : list Z) : PM (list Z) :=
  match l with
  | [] => ret []
  | a :: l' => let! x := f a in let! y := print_each f l' in ret (x ++ y)
  end.

Fixpoint dump_table (level : nat) (host_p : Z) : PM (list Z) :=
  let! p := gets p_pager in
  do! assert_ (negb (match chunks p with [] => true | _ => false end)) in
  match level with
  | O => ret []
  | S below =>
      let guest_physical := host_to_guest_physical (chunks p) host_p in
      let! '(rows, present) := dump_entries 512 0 host_p in
      let! tables := (if (1 <? level)%nat then print_each (dump_table below) present else ret []) in
      ret (table_head level host_p guest_physical ++ rows ++ line " --------" ++ [newline] ++ tables)
  end.

Definition dump_page_tables : PM (list Z) :=
  let! p := gets p_pager in
  let! tables := dump_table 4 (host_pml4_p p) in
  ret (line " Page Tables:" ++ line " ------------" ++ tables ++ line " ------------").
End Dump.
