(* ===== verification/VcpuTheorems.v ===== *)
(** * Virtual CPUs: theorems

    The guest stack as the host sees it, its growth, and the initial machine
    state. *)

From S2P Require Import Prelude Memory PageMath HostOS Tlb Pager PagerTree PagerWalk PagerSpec PagerTlb PagerTheorems Region RegionManager RegionSpec RegionTheorems Registers Mappings Heap HeapSpec HeapTheorems Vcpu.
Local Open Scope Z_scope.

(** A KVM module whose CPUs keep the registers they are given and stop with a
    hypercall each time they run. *)
#[export] Instance bump_KvmOS : KvmOS bump_os := {|
  io_create_vcpu o _ _ := (5, o);
  io_mmap_run o _ := ((0x7000, mkRun 0 0), o);
  io_get_regs o _ r := ((0, 0, r), o);
  io_set_regs o _ _ := ((0, 0), o);
  io_get_sregs o _ r := ((0, 0, r), o);
  io_set_sregs o _ _ := ((0, 0), o);
  io_get_msr o _ _ := ((1, 0), o);
  io_set_msr o _ _ _ := (1, o);
  io_set_guest_debug o _ _ := (0, o);
  io_run o _ m := (((0, 0, mkRun KVM_EXIT_HYPERCALL 0), m), o);
|}.

Section CpuSpec.
Context {os T : Type} `{HostOSLaws os} `{KvmOS os} `{TranslationCacheLaws T}.
Implicit Types s : cpu os T.

Definition paging s : pst os T := rm_pager (c_rm s).

(** The state of a CPU whose memory is sound and whose lookaside buffer agrees
    with the page tables. *)
Record cpu_ok s (c0 : Chunk) (N : Z) : Prop := mkCpuOk {
  co_tables : tables_ok (paging s) c0 N;
  co_chunks : Forall chunk_ok (chunks (p_pager (paging s)));
  co_tlb : coherent c0 (paging s);
}.

Lemma get_reg_spec F s r (Q : Z -> cpu os T -> Prop) :
  Q (kvm_get_reg (_kvm_vcpu (c_vcpu s)) r) s -> wp F (get_reg r) Q s.
Proof. done. Qed.

(** The state with one register changed. *)
Definition with_reg s (r : Reg_t) (v : Z) : cpu os T :=
  mkCpu (mkVcpu (is_singlestepping (c_vcpu s)) (kvm_set_reg (_kvm_vcpu (c_vcpu s)) r v)
                (stack (c_vcpu s))) (c_rm s).

Lemma set_reg_spec F s r v (Q : unit -> cpu os T -> Prop) :
  Q tt (with_reg s r v) -> wp F (set_reg r v) Q s.
Proof. done. Qed.

Definition with_seg s (t : Seg_t) (g : Segment) : cpu os T :=
  mkCpu (mkVcpu (is_singlestepping (c_vcpu s)) (kvm_set_seg (_kvm_vcpu (c_vcpu s)) t g)
                (stack (c_vcpu s))) (c_rm s).

Lemma set_seg_spec F s t g (Q : unit -> cpu os T -> Prop) :
  Q tt (with_seg s t g) -> wp F (set_seg t g) Q s.
Proof. done. Qed.

(** A register of a CPU. *)
Definition reg s (r : Reg_t) : Z := kvm_get_reg (_kvm_vcpu (c_vcpu s)) r.

Lemma reg_with_reg s r v r' : reg (with_reg s r v) r' = if decide (r = r') then v else reg s r'.
Proof. apply get_set_reg. Qed.

Lemma reg_with_seg s t g r : reg (with_seg s t g) r = reg s r.
Proof. apply get_reg_set_seg. Qed.

(** The memory manager with another content of memory and lookaside buffer. *)
Definition rm_mem_tlb (r : rm os T) (m : mem) (t : T) : rm os T :=
  mkRM (allocated_regions r) (freelists r) (rm_store r) (mkPst m t (p_os (rm_pager r)) (p_pager (rm_pager r))).

(** Translating an address of a CPU's memory: only the lookaside buffer moves. *)
Lemma cpu_get_host_p s c0 N v (Q : Z -> cpu os T -> Prop) :
  cpu_ok s c0 N -> is_u64 v -> page_begin v <> 0 ->
  (forall t, let s' := mkCpu (c_vcpu s) (rm_mem_tlb (c_rm s) (p_mem (paging s)) t) in
     cpu_ok s' c0 N -> (forall w, host_of c0 (paging s') w = host_of c0 (paging s) w) ->
     Q (default 0 (host_of c0 (paging s) v)) s') ->
  wp no_fault (on_cpu_rm (on_pager (get_host_p v))) Q s.
Proof.
  intros [[own Hi] Hc Ht] Hv Hp HQ. unfold on_cpu_rm, on_pager. apply wp_zoom, wp_zoom.
  eapply wp_mono; [apply (get_host_p_lemma _ c0 N own v Hi Hc Ht Hv Hp)|].
  cbv beta. intros r s' (-> & Hco & Em & Ep & Eo).
  assert (same_tables (paging s) s') as Hst by (split; [done|]; intros x _; by rewrite Em).
  assert (s' = mkPst (p_mem (paging s)) (p_tlb s') (p_os (paging s)) (p_pager (paging s))) as Es.
  { destruct s'. cbn in *. congruence. }
  rewrite Es in Hst, Hco |- *. apply (HQ (p_tlb s')).
  - constructor; cbn; [exists own; by eapply (same_tables_inv (paging s))|done|done].
  - intros w. by eapply same_tables_host.
Qed.

(** Writing guest memory outside the tables. *)
Lemma cpu_upd_mem s c0 N (f : mem -> mem) (Q : unit -> cpu os T -> Prop) :
  cpu_ok s c0 N ->
  (forall x, host_pml4_p (p_pager (paging s)) <= x < host_pml4_p (p_pager (paging s)) + ELKVM_SYSTEM_MEMSIZE ->
     f (p_mem (paging s)) x = p_mem (paging s) x) ->
  (let s' := mkCpu (c_vcpu s) (rm_mem_tlb (c_rm s) (f (p_mem (paging s))) (p_tlb (paging s))) in
     cpu_ok s' c0 N -> (forall w, host_of c0 (paging s') w = host_of c0 (paging s) w) -> Q tt s') ->
  wp no_fault (on_cpu_rm (on_pager (upd_mem f))) Q s.
Proof.
  intros [[own Hi] Hc Ht] Hf HQ. unfold on_cpu_rm, on_pager, upd_mem.
  apply wp_zoom, wp_zoom. apply wp_modify.
  assert (same_tables (paging s) (mkPst (f (p_mem (paging s))) (p_tlb (paging s)) (p_os (paging s))
            (p_pager (paging s)))) as Hst by (split; done).
  apply HQ; cbn; try done.
  - constructor; cbn; [exists own; by eapply (same_tables_inv (paging s))|done|by eapply (same_tables_coherent (paging s))].
  - intros w. by eapply (same_tables_host (paging s)).
Qed.

(** A word of guest memory at [v] that the stack operations may use. *)
Record stack_word s (c0 : Chunk) (v hp : Z) : Prop := mkStackWord {
  sw_addr : is_u64 v /\ page_begin v <> 0;
  sw_host : host_of c0 (paging s) v = Some hp;
  sw_user : hp + 8 <= host_pml4_p (p_pager (paging s)) \/
            host_pml4_p (p_pager (paging s)) + ELKVM_SYSTEM_MEMSIZE <= hp;
}.

Lemma stack_word_nonzero s c0 N v hp : cpu_ok s c0 N -> stack_word s c0 v hp -> 0 < hp.
Proof.
  intros [_ Hc _] [[Hv _] Hh _]. by destruct (host_of_bounds _ _ _ _ Hc Hv Hh) as [[? _] _].
Qed.

Lemma push_lemma s c0 N hp val :
  cpu_ok s c0 N -> let sp := u64 (kvm_get_reg (_kvm_vcpu (c_vcpu s)) rsp - 8) in
  stack_word s c0 sp hp ->
  wp no_fault (push val)
    (fun _ s' => cpu_ok s' c0 N /\ (forall w, host_of c0 (paging s') w = host_of c0 (paging s) w) /\
       exists t, s' = mkCpu (c_vcpu (with_reg s rsp sp))
                            (rm_mem_tlb (c_rm s) (store64 (p_mem (paging s)) hp val) t)) s.
Proof.
  intros Hok sp Hw. pose proof (stack_word_nonzero _ _ _ _ _ Hok Hw) as Hnz.
  destruct Hw as [[Hv Hp] Hh Hu]. unfold push. apply wp_bind, get_reg_spec. fold sp.
  apply wp_bind, set_reg_spec. unfold pushq. do 2 apply wp_bind.
  apply (cpu_get_host_p (with_reg s rsp sp) c0 N); [by destruct Hok|done|done|].
  change (paging (with_reg s rsp sp)) with (paging s). intros t s1 Hok1 Eh. rewrite Hh.
  cbn [default id]. replace (hp =? 0) with false by (symmetry; apply Z.eqb_neq; lia).
  apply wp_bind. unfold store_q. eapply (cpu_upd_mem s1); [done| |].
  { intros x Hx. apply store64_other. change (p_pager (paging s1)) with (p_pager (paging s)) in Hx. lia. }
  intros s2 Hok2 Eh2. do 2 apply wp_ret. split; [done|]. split; [intros w; by rewrite Eh2, Eh|].
  by exists t.
Qed.

Lemma pop_lemma s c0 N hp :
  cpu_ok s c0 N -> let sp := kvm_get_reg (_kvm_vcpu (c_vcpu s)) rsp in
  stack_word s c0 sp hp ->
  wp no_fault pop
    (fun val s' => val = load64 (p_mem (paging s)) hp /\ cpu_ok s' c0 N /\
       (forall w, host_of c0 (paging s') w = host_of c0 (paging s) w) /\
       exists t, s' = mkCpu (c_vcpu (with_reg s rsp (u64 (sp + 8))))
                            (rm_mem_tlb (c_rm s) (p_mem (paging s)) t)) s.
Proof.
  intros Hok sp Hw. pose proof (stack_word_nonzero _ _ _ _ _ Hok Hw) as Hnz.
  destruct Hw as [[Hv Hp] Hh Hu]. unfold pop. apply wp_bind, get_reg_spec. fold sp.
  unfold popq. do 2 apply wp_bind. apply (cpu_get_host_p s c0 N); [done..|].
  intros t s1 Hok1 Eh. rewrite Hh. cbn [default id].
  replace (hp =? 0) with false by (symmetry; apply Z.eqb_neq; lia). do 2 wp_step; [|done]. apply wp_gets.
  apply wp_bind, set_reg_spec, wp_ret.
  split; [done|]. split; [by destruct Hok1|]. split; [done|]. by exists t.
Qed.

(** *** The initial registers *)

Lemma initialize_regs_spec s :
  wp no_fault initialize_regs
    (fun _ s' => c_rm s' = c_rm s /\ reg s' cr0 = 0xE0000001 /\ reg s' cr3 = 0 /\
                 reg s' cr4 = 0x220 /\ reg s' efer = 0x901 /\ stack (c_vcpu s') = stack (c_vcpu s)) s.
Proof.
  unfold initialize_regs. do 8 apply wp_bind, set_reg_spec. do 7 apply wp_bind, set_seg_spec.
  apply set_seg_spec.
  split; [reflexivity|]. rewrite !reg_with_seg.
  repeat split; repeat (rewrite reg_with_reg; case_decide; [reflexivity|]); congruence.
Qed.

(** *** Growing the stack *)

(** What [expand] promises: one more region of 2 MB below the old base, every
    page of it writeable and not executable, nothing else unmapped; memory
    outside the tables and the lookaside buffer are as before, and chunks are only added. *)
Record expanded (m : rm os T) (c0 : Chunk) (N : Z) (st : Stack.t) (m' : rm os T) (st' : Stack.t)
  : Prop := mkExpanded {
  ex_base : Stack.base st' = Stack.base st - ELKVM_STACK_GROW;
  ex_kernel : Stack.kernel_stack st' = Stack.kernel_stack st;
  ex_region : exists i r, Stack.stack_regions st' = Stack.stack_regions st ++ [i] /\
    (i ∉ allocated_regions m) /\ allocated_regions m' = allocated_regions m ++ [i] /\
    objs (rm_store m') !! i = Some r /\ Region.addr r = Stack.base st' /\
    rsize r = ELKVM_STACK_GROW /\ free r = false /\
    (forall j, 0 <= j < 512 ->
       mapped (rm_pager m') c0 (Stack.base st' + 4096 * j)
         (host_to_guest_physical (chunks (p_pager (rm_pager m'))) (host_p r + 4096 * j)) PT_OPT_WRITE);
  ex_others v : in_pages (Stack.base st') 512 v = false ->
    le_perm (trans c0 (rm_pager m) v) (trans c0 (rm_pager m') v);
  ex_inv : exists N', N' <= N + 9 /\ mem_inv m' c0 N';
  ex_mem x : x < host_pml4_p (p_pager (rm_pager m)) \/
             host_pml4_p (p_pager (rm_pager m)) + ELKVM_SYSTEM_MEMSIZE <= x ->
             p_mem (rm_pager m') x = p_mem (rm_pager m) x;
  ex_tlb : p_tlb (rm_pager m') = p_tlb (rm_pager m);
  ex_pml4 : host_pml4_p (p_pager (rm_pager m')) = host_pml4_p (p_pager (rm_pager m));
  ex_chunks : exists l, chunks (p_pager (rm_pager m')) = chunks (p_pager (rm_pager m)) ++ l;
}.

Lemma expand_stack_lemma (m : rm os T) c0 N st :
  mem_inv m c0 N -> total_memsz (p_pager (rm_pager m)) + 2 ^ 48 <= 2 ^ 51 -> N + 12 <= 4096 ->
  Stack.base st mod 4096 = 0 -> ELKVM_STACK_GROW < Stack.base st <= 2 ^ 48 ->
  range_free c0 (rm_pager m) (Stack.base st - ELKVM_STACK_GROW) 512 ->
  wp (no_chunk m ELKVM_STACK_GROW "ELKVM stack") (expand_stack st)
    (fun r m' => r.1 = 0 /\ expanded m c0 N st m' r.2) m.
Proof.
  intros Hm Htot Hroom Hb4 Hb Hfree. unfold expand_stack. unfold ELKVM_STACK_GROW in Hb.
  set (b := Stack.base st - ELKVM_STACK_GROW) in *.
  assert (b = Stack.base st - 0x200000) as Eb by done. rewrite u64_small by lia. fold b.
  apply wp_bind. eapply wp_mono; [apply allocate_region_spec; [by vm_compute|apply Hm]|].
  intros i m1 Ha. pose proof Ha as [Ai Al An (r & Hr & Rz & Rf & _) _ Ak].
  change (pagesize_align ELKVM_STACK_GROW) with 0x200000 in Rz.
  destruct (allocated_mem m ELKVM_STACK_GROW i m1 c0 N ltac:(by vm_compute) Hm Htot Ha)
    as (Hm1 & Em & Etl & Ep).
  destruct (allocated_chunks m ELKVM_STACK_GROW i m1 ltac:(by vm_compute) Ha) as [l Ecs].
  assert (trans c0 (rm_pager m1) = trans c0 (rm_pager m)) as Et by (unfold trans; by rewrite Em, Ep).
  assert (i ∈ allocated_regions m1) as Hi by (rewrite Al; apply elem_of_app; right; by left).
  apply wp_total, wp_bind. eapply lookup_region_spec; [done|].
  change (ELKVM_STACK_GROW / ELKVM_PAGESIZE) with 512.
  assert (areas b 512 <= 3) as Har by (apply (areas_le b 512); lia).
  apply wp_bind. eapply wp_mono.
  { apply (map_region_mem m1 c0 N i r b 512 PT_OPT_WRITE); try done; try lia.
    - right. by eapply (new_not_tables m m1).
    - Z.div_mod_to_equations. lia.
    - apply range_free_ok. unfold range_free in *. by rewrite Et. }
  cbv beta. intros err m2 (-> & E1 & E2 & E3 & Ho & (N' & HN & Hm2) & Hmap & Hle).
  change (ctrue 0) with false. cbv iota. apply wp_bind.
  eapply (set_region_addr_spec no_fault m2 i r); [by rewrite E1|]. apply wp_ret. split; [done|].
  destruct (outside_chunks _ _ Ho) as [Ec Ep2]. rewrite Et in Hle.
  constructor; cbn [fst snd Stack.base Stack.kernel_stack Stack.stack_regions with_addr rm_pager
    rm_store allocated_regions objs]; try done.
  - exists i, (set_guest_addr b r). rewrite E2. split; [done|]. split; [done|]. split; [done|].
    split; [apply lookup_insert_eq|]. do 3 (split; [done|]). intros j Hj. rewrite Ec. by apply Hmap.
  - exists N'. split; [lia|]. apply (with_addr_inv m2 c0 N' i r b); [done|by rewrite E2|by rewrite E1].
  - intros x Hx. rewrite <- Em. apply Ho. by rewrite Ep.
  - rewrite <- Etl. apply Ho.
  - by rewrite Ep2.
  - exists l. by rewrite Ec.
Qed.
End CpuSpec.

(** ** Properties *)

(** C40. What the host pushes on the guest's stack it pops again: with the word
    below the stack pointer mapped to user memory, [push val] then [pop]
    returns [val] truncated to 64 bits, leaves every register and the stack as
    they were, and changes no byte of memory but the pushed word. *)
Theorem push_pop_roundtrip {os T} `{HostOSLaws os} `{KvmOS os} `{TranslationCacheLaws T}
    (s : cpu os T) c0 N hp val :
  cpu_ok s c0 N -> is_u64 (kvm_get_reg (_kvm_vcpu (c_vcpu s)) rsp) ->
  stack_word s c0 (u64 (kvm_get_reg (_kvm_vcpu (c_vcpu s)) rsp - 8)) hp ->
  exists s', (do! push val in pop) s = Ok (u64 val, s') /\ cpu_ok s' c0 N /\
    c_vcpu s' = c_vcpu s /\ p_mem (paging s') = store64 (p_mem (paging s)) hp val.
Proof.
  intros Hok Hsp Hw. set (sp := kvm_get_reg _ rsp) in *.
  assert (wp no_fault (do! push val in pop)
    (fun r s' => r = u64 val /\ cpu_ok s' c0 N /\ c_vcpu s' = c_vcpu s /\
       p_mem (paging s') = store64 (p_mem (paging s)) hp val) s) as Hwp.
  { apply wp_bind. eapply wp_mono; [by apply (push_lemma s c0 N hp val)|].
    cbv beta. intros _ s1 (Hok1 & Eh & t1 & ->). fold sp. set (s1 := mkCpu _ _) in *.
    assert (kvm_get_reg (_kvm_vcpu (c_vcpu s1)) rsp = u64 (sp - 8)) as Er by done.
    eapply wp_mono.
    { apply (pop_lemma s1 c0 N hp); [done|]. rewrite Er. destruct Hw as [Ha Hh Hu].
      constructor; [done|by rewrite Eh|done]. }
    cbv beta. rewrite Er. intros v s2 (-> & Hok2 & _ & t2 & ->).
    split; [apply load64_store64_same|]. split; [done|]. split; [|done].
    cbn [c_vcpu with_reg is_singlestepping stack _kvm_vcpu s1].
    replace (u64 (u64 (sp - 8) + 8)) with sp.
    2: { unfold u64. rewrite Zplus_mod_idemp_l. replace (sp - 8 + 8) with sp by lia.
         rewrite Z.mod_small; done. }
    subst sp. destruct (c_vcpu s) as [b [fd [] sr r d] t]. done. }
  destruct (wp_total_inv _ _ _ Hwp) as (r & s' & E & -> & HQ). by exists s'.
Qed.

(** A CPU whose stack pointer is in a mapped page. *)
Definition push_pager : pst bump_os TLB.t := after (map_user_page 0x11000000 0x400000 1) (demo TLB.t).
Definition push_cpu : cpu bump_os TLB.t :=
  mkCpu (mkVcpu false (kvm_set_reg (mkKvmVcpu 5 zero_regs zero_sregs (mkRun 0 0) 0) rsp 0x400010)
                (Stack.mk [] None LINUX_64_STACK_BASE))
        (mkRM [] [] (mkStore ∅ 0%nat) push_pager).

Lemma push_cpu_ok : exists N, cpu_ok push_cpu demo_chunk N.
Proof.
  assert (map_user_page 0x11000000 0x400000 1 (demo TLB.t) = Ok (0, push_pager)) as E
    by (apply ok_after; vm_compute; reflexivity).
  assert (wp no_fault (map_user_page 0x11000000 0x400000 1)
    (fun r s' => map_effect (demo TLB.t) demo_chunk 0x400000 0x1000000 1 r s' /\
                 exists N' own', pager_inv s' demo_chunk N' own') (demo TLB.t)) as Hw.
  { eapply wp_mono.
    - apply (map_user_page_lemma (demo TLB.t) demo_chunk 1 (fun _ => (4, 0)) 0x11000000 0x400000 1
               0x1000000 (demo_inv TLB.t)); [lia|lia|right; vm_compute; discriminate
        |reflexivity|vm_compute; reflexivity|lia].
    - cbv beta. intros r s' (Hm & N' & own' & _ & Hi & _). eauto. }
  destruct (wp_partial_inv _ _ _ _ _ _ Hw E) as (Hm & N' & own' & Hi).
  exists N'. constructor.
  - exists own'. exact Hi.
  - destruct (outside_chunks _ _ (me_outside _ _ _ _ _ _ _ Hm)) as [Ec _].
    unfold paging. cbn [push_cpu c_rm rm_pager]. rewrite Ec. exact demo_chunk_ok.
  - apply (map_effect_coherent (demo TLB.t) push_pager demo_chunk 0x400000 0x1000000 1 0);
      [lia|by apply coherent_fresh|exact Hm].
Qed.

Lemma push_pop_roundtrip_witness :
  exists s', (do! push (2 ^ 64 + 42) in pop) push_cpu = Ok (42, s') /\
    c_vcpu s' = c_vcpu push_cpu /\
    p_mem (paging s') = store64 (p_mem (paging push_cpu)) 0x11000008 (2 ^ 64 + 42).
Proof.
  destruct push_cpu_ok as [N Hok].
  destruct (push_pop_roundtrip push_cpu demo_chunk N 0x11000008 (2 ^ 64 + 42) Hok)
    as (s' & E & _ & Ev & Em).
  - by vm_compute.
  - constructor; [split; [by vm_compute|vm_compute; discriminate]|vm_compute; reflexivity|].
    right. vm_compute. discriminate.
  - exists s'. exact (conj E (conj Ev Em)).
Defined.

(** Growing the stack.  Unless the host refuses more memory, [expand] on a
    sound machine whose next 2 MB below the stack are unmapped returns 0,
    moves the base down by exactly 2 MB and backs every page of the new part
    with a fresh region, writeable and not executable; no other page loses its
    translation. *)
Theorem stack_expand_correct {os T} `{HostOSLaws os} `{TranslationCache T}
    (m m1 : rm os T) c0 N st :
  mem_inv m c0 N -> total_memsz (p_pager (rm_pager m)) + 2 ^ 48 <= 2 ^ 51 -> N + 12 <= 4096 ->
  Stack.base st mod 4096 = 0 -> ELKVM_STACK_GROW < Stack.base st <= 2 ^ 48 ->
  range_free c0 (rm_pager m) (Stack.base st - ELKVM_STACK_GROW) 512 ->
  add_chunk ELKVM_STACK_GROW "ELKVM stack" m = Ok (0, m1) ->
  exists m' st', expand_stack st m = Ok ((0, st'), m') /\ expanded m c0 N st m' st'.
Proof.
  intros Hm Ht Hr Hb4 Hb Hf Hc.
  pose proof (expand_stack_lemma m c0 N st Hm Ht Hr Hb4 Hb Hf) as Hw. unfold wp in Hw.
  destruct (expand_stack st m) as [[[e st'] m']|f]; [|by destruct (Hw m1)].
  destruct Hw as [Ee Hx]. cbn in Ee, Hx. subst e. by exists m', st'.
Qed.

Lemma stack_expand_correct_witness :
  exists m' st', expand_stack (Stack.mk [] None LINUX_64_STACK_BASE) machine = Ok ((0, st'), m') /\
    expanded machine demo_chunk 1 (Stack.mk [] None LINUX_64_STACK_BASE) m' st'.
Proof.
  eapply (stack_expand_correct machine _ demo_chunk 1).
  - exact machine_mem.
  - vm_compute. discriminate.
  - lia.
  - reflexivity.
  - vm_compute. split; [reflexivity|discriminate].
  - intros j _. apply machine_spec.
  - apply ok_after. vm_compute. reflexivity.
Defined.

(** The initial control registers.  [initialize_regs] puts the CPU in long
    mode with paging, system calls and no-execute enabled, and the page-table
    root it loads into [cr3], 0, is the guest-physical address of the tables
    the region manager built: the processor's walk from [cr3] is the
    translation the pager maintains. *)
Theorem cr3_is_the_table_root {os T} `{HostOSLaws os} `{KvmOS os} `{TranslationCache T}
    (s : cpu os T) c0 N :
  mem_inv (c_rm s) c0 N ->
  exists s', initialize_regs s = Ok (tt, s') /\ c_rm s' = c_rm s /\
    Z.testbit (reg s' cr0) 0 = true /\ Z.testbit (reg s' cr0) 31 = true /\   (* PE, PG *)
    Z.testbit (reg s' cr4) 5 = true /\                                       (* PAE *)
    Z.testbit (reg s' efer) 8 = true /\ Z.testbit (reg s' efer) 0 = true /\  (* LME, SCE *)
    Z.testbit (reg s' efer) 11 = true /\                                     (* NXE *)
    (forall v, mmu (p_mem (rm_pager (c_rm s'))) (userspace_addr c0) (reg s' cr3) v
               = trans c0 (rm_pager (c_rm s')) v).
Proof.
  intros Hm. destruct (wp_total_inv _ _ _ (initialize_regs_spec s)) as ([] & s' & E & Er & R0 & R3 & R4 & Re & _).
  exists s'. split; [exact E|]. split; [exact Er|]. rewrite R0, R3, R4, Re.
  do 6 (split; [reflexivity|]). intros v. unfold trans.
  rewrite Er, (mi_pml4 _ _ _ Hm), Z.sub_diag. reflexivity.
Qed.

Definition boot_cpu : cpu bump_os TLB.t := mkCpu (c_vcpu push_cpu) machine.

Lemma cr3_is_the_table_root_witness :
  exists s', initialize_regs boot_cpu = Ok (tt, s') /\ c_rm s' = c_rm boot_cpu /\
    forall v, mmu (p_mem (rm_pager (c_rm s'))) (userspace_addr demo_chunk)
                  (reg s' cr3) v
              = trans demo_chunk (rm_pager (c_rm s')) v.
Proof.
  destruct (cr3_is_the_table_root boot_cpu demo_chunk 1) as (s' & E & Er & _ & _ & _ & _ & _ & _ & Hv).
  - exact machine_mem.
  - exists s'. exact (conj E (conj Er Hv)).
Defined.

(** The stack pointer a new CPU gets is the base of its stack, which
    [expand] keeps at the lowest mapped address and not at the top: the word
    that the first push writes lies outside the 512 pages that the constructor
    mapped from there. *)
Theorem initial_rsp_is_stack_bottom {os T} `{HostOSLaws os} `{KvmOS os} `{TranslationCache T}
    (s : cpu os T) :
  let b := Stack.base (stack (c_vcpu s)) in
  8 <= b < 2 ^ 48 ->
  exists s', (do! initialize_regs in init_rsp) s = Ok (tt, s') /\
    reg s' rsp = b /\ stack (c_vcpu s') = stack (c_vcpu s) /\
    (b mod 4096 = 0 -> in_pages b 512 (reg s' rsp - 8) = false).
Proof.
  intros b Hb. assert (wp no_fault (do! initialize_regs in init_rsp)
    (fun _ s' => reg s' rsp = b /\ stack (c_vcpu s') = stack (c_vcpu s)) s) as Hw.
  { apply wp_bind. eapply wp_mono; [apply initialize_regs_spec|]. cbv beta.
    intros _ s1 (_ & _ & _ & _ & _ & Es). unfold init_rsp, user_base, the_stack.
    do 4 wp_step. apply set_reg_spec. rewrite reg_with_reg, Es. done. }
  destruct (wp_total_inv _ _ _ Hw) as ([] & s' & E & Er & Es). exists s'.
  split; [exact E|]. split; [exact Er|]. split; [exact Es|]. intros Hm. rewrite Er.
  unfold in_pages, vpn. rewrite Z.mod_small by lia. apply andb_false_iff. left. apply Z.leb_gt.
  Z.div_mod_to_equations. lia.
Qed.

Lemma initial_rsp_is_stack_bottom_witness :
  exists s', (do! initialize_regs in init_rsp) boot_cpu = Ok (tt, s') /\
    reg s' rsp = LINUX_64_STACK_BASE.
Proof.
  destruct (initial_rsp_is_stack_bottom boot_cpu) as (s' & E & Er & _).
  - vm_compute. split; [discriminate|reflexivity].
  - exists s'. exact (conj E Er).
Defined.

(** [is_stack_expansion] computes a distance in pages that is truncated to
    32 bits: with the stack at its initial place, an address 16 TB below it is
    taken for a growth of the stack. *)
Theorem is_stack_expansion_truncates :
  let st := Stack.mk [2%nat] None 0x7fffffe00000 in
  let m := mkRM (allocated_regions machine) (freelists machine)
                (mkStore (<[2%nat := mkRegion 0x11000000 0x7fffffe00000 0x200000 false "ELKVM stack"]>
                            (objs (rm_store machine))) 3%nat) (rm_pager machine) in
  result (is_stack_expansion (0x7fffffe00000 - 2 ^ 44) (mkCpu (mkVcpu false (_kvm_vcpu (c_vcpu push_cpu)) st) m))
    = Some true.
Proof. vm_compute. reflexivity. Qed.
