(* ===== verification/Descriptors.v ===== *)
(** * Descriptor tables: [src/gdt.cc], [src/idt.cc], [src/tss.cc]

    The tables the processor reads: what the setup functions write to guest
    memory, byte by byte, and the registers they load. *)

From S2P Require Import Prelude Memory PageMath HostOS Tlb Pager Region RegionManager Registers Vcpu.
Local Open Scope Z_scope.

Definition EINVAL : Z := 22.

(** ** [gdt.h] *)

Definition GDT_SEGMENT_WRITEABLE : Z := 2.
Definition GDT_SEGMENT_READABLE : Z := 2.
Definition GDT_SEGMENT_DIRECTION_BIT : Z := 4.
Definition GDT_SEGMENT_EXECUTABLE : Z := 8.
Definition GDT_SEGMENT_BIT : Z := 16.
Definition GDT_SEGMENT_PRIVILEDGE_USER : Z := 96.
Definition GDT_SEGMENT_PRESENT : Z := 128.
Definition GDT_SEGMENT_LONG : Z := 2.
Definition GDT_SEGMENT_PAGE_GRANULARITY : Z := 8.
Definition GDT_NUM_ENTRIES : Z := 8.

(** [struct elkvm_gdt_segment_descriptor]. *)
Record gdt_descriptor := mkGdt {
  limit1 : Z; base1 : Z; base2 : Z; access : Z; limit2_flags : Z; base3 : Z;
}.

Definition sizeof_gdt_descriptor : Z := 8.

Definition load_gdt (m : mem) (p : Z) : gdt_descriptor :=
  mkGdt (load_le 2 m p) (load_le 2 m (p + 2)) (load8 m (p + 4)) (load8 m (p + 5))
        (load8 m (p + 6)) (load8 m (p + 7)).

Definition gdt_base (e : gdt_descriptor) : Z :=
  Z.lor (Z.lor (base1 e) (Z.shiftl (base2 e) 16)) (u32 (Z.shiftl (base3 e) 24)).
Definition gdt_limit (e : gdt_descriptor) : Z :=
  Z.lor (limit1 e) (Z.shiftl (Z.land (limit2_flags e) 0xF) 16).
Definition gdt_flags (e : gdt_descriptor) : Z := Z.shiftr (limit2_flags e) 4.

(** The error code and the memory. *)
Definition elkvm_gdt_create_segment_descriptor (m : mem) (entry base limit acc flags : Z) : Z * mem :=
  if ctrue (Z.land base 0xFFF00000) then (- EINVAL, m) else
  let m := store_le 2 m (entry + 2) (Z.land base 0xFFFF) in
  let m := store_le 1 m (entry + 4) (Z.land (Z.shiftr base 16) 0xFF) in
  let m := store_le 1 m (entry + 7) (Z.shiftr base 24) in
  let m := store_le 2 m entry (Z.land limit 0xFFFF) in
  let m := store_le 1 m (entry + 6) (Z.lor (Z.land (Z.shiftr limit 16) 0xF) (Z.shiftl flags 4)) in
  let m := store_le 1 m (entry + 5) acc in
  (0, m).

(** The entries that [elkvm_gdt_setup] fills one after the other.  The error
    code of each call is ignored. *)
Definition create_descriptor (m : mem) (entry base limit acc flags : Z) : mem :=
  (elkvm_gdt_create_segment_descriptor m entry base limit acc flags).2.

Definition lor_all (l : list Z) : Z := fold_left Z.lor l 0.

(** The null entry and the three user segments. *)
Definition gdt_user_entries (m : mem) (p : Z) : mem :=
  let m := memset m p 0 sizeof_gdt_descriptor in
  let m := create_descriptor m (p + 8) 0 0xFFFFFFFF
             (lor_all [GDT_SEGMENT_PRESENT; GDT_SEGMENT_WRITEABLE; GDT_SEGMENT_BIT;
                       GDT_SEGMENT_PRIVILEDGE_USER])
             (lor_all [GDT_SEGMENT_PAGE_GRANULARITY; GDT_SEGMENT_LONG]) in
  let m := create_descriptor m (p + 16) 0 0xFFFFFFFF
             (lor_all [GDT_SEGMENT_READABLE; GDT_SEGMENT_EXECUTABLE; GDT_SEGMENT_BIT;
                       GDT_SEGMENT_PRESENT; GDT_SEGMENT_PRIVILEDGE_USER; GDT_SEGMENT_DIRECTION_BIT])
             (lor_all [GDT_SEGMENT_PAGE_GRANULARITY; GDT_SEGMENT_LONG]) in
  create_descriptor m (p + 24) 0 0xFFFFFFFF
    (lor_all [GDT_SEGMENT_WRITEABLE; GDT_SEGMENT_BIT; GDT_SEGMENT_PRESENT])
    (lor_all [GDT_SEGMENT_PAGE_GRANULARITY; GDT_SEGMENT_LONG]).

Definition sizeof_tss64 : Z := 104.

(** The task-state segment, which takes two entries. *)
Definition gdt_tss_entries (m : mem) (p tss : Z) : mem :=
  let m := create_descriptor m (p + 32) (Z.land tss 0xFFFFFFFF) sizeof_tss64
             (Z.lor 0x9 GDT_SEGMENT_PRESENT) GDT_SEGMENT_LONG in
  store64 m (p + 40) (Z.shiftr tss 32).

(** The two kernel segments. *)
Definition gdt_kernel_entries (m : mem) (p : Z) : mem :=
  let m := create_descriptor m (p + 48) 0 0xFFFFFFFF
             (lor_all [GDT_SEGMENT_READABLE; GDT_SEGMENT_EXECUTABLE; GDT_SEGMENT_BIT;
                       GDT_SEGMENT_PRESENT; GDT_SEGMENT_DIRECTION_BIT])
             (lor_all [GDT_SEGMENT_PAGE_GRANULARITY; GDT_SEGMENT_LONG]) in
  create_descriptor m (p + 56) 0 0xFFFFFFFF
    (lor_all [GDT_SEGMENT_WRITEABLE; GDT_SEGMENT_BIT; GDT_SEGMENT_PRESENT])
    (lor_all [GDT_SEGMENT_PAGE_GRANULARITY; GDT_SEGMENT_LONG]).

Definition ss_selector : Z := 8.
Definition tr_selector : Z := 32.
Definition kernel_cs_selector : Z := 48.

(** The value of the [STAR] register. *)
Definition star_value : Z :=
  let syscall_star := kernel_cs_selector in
  let sysret_star := Z.lor (ss_selector - 8) 3 in
  Z.lor (u64 (Z.shiftl sysret_star 48)) (u64 (Z.shiftl syscall_star 32)).

(** ** [tss.h]: the fields of the packed structures that are written *)

Definition tss64_write (m : mem) (p kstack : Z) : mem :=
  let m := memset m p 0 sizeof_tss64 in
  let m := store64 m (p + 36) (u64 (kstack + ELKVM_PAGESIZE)) in    (* ist1 *)
  let m := store64 m (p + 4) 0xFFFFFFFFFFFFFFFF in                  (* rsp0 *)
  store64 m (p + 20) 0x00007FFFFFFFFFFF.                            (* rsp2 *)

Definition sizeof_tss32 : Z := 104.

Definition elkvm_tss_setup32 (m : mem) (tss kernel_data_selector : Z) : Z * mem :=
  let m := memset m tss 0 sizeof_tss32 in
  let m := store_le 2 m (tss + 8) kernel_data_selector in           (* ss0 *)
  let m := store_le 4 m (tss + 4) 0x1042 in                         (* esp0 *)
  (0, m).

(** ** [idt.h] *)

Definition IT_TRAP_GATE : Z := 0xF.
Definition IT_LONG_IDT : Z := 8.
Definition INTERRUPT_ENTRY_PRESENT : Z := 128.
Definition sizeof_idt_entry : Z := 16.

(** [struct kvm_idt_entry]. *)
Record idt_entry := mkIdt {
  offset1 : Z; idt_selector : Z; idx_ : Z; idt_flags : Z; offset2 : Z; offset3 : Z; reserved_ : Z;
}.

Definition load_idt (m : mem) (p : Z) : idt_entry :=
  mkIdt (load_le 2 m p) (load_le 2 m (p + 2)) (load8 m (p + 4)) (load8 m (p + 5))
        (load_le 2 m (p + 6)) (load_le 4 m (p + 8)) (load_le 4 m (p + 12)).

Definition idt_entry_offset (e : idt_entry) : Z :=
  Z.lor (Z.lor (offset1 e) (Z.shiftl (offset2 e) 16)) (u64 (Z.shiftl (offset3 e) 32)).

(** One round of the loop that fills the table. *)
Definition idt_write_entry (m : mem) (table handler i : Z) : mem :=
  let offset := u64 (handler + i * 9) in
  let e := table + i * sizeof_idt_entry in
  let m := store_le 2 m e (Z.land offset 0xFFFF) in
  let m := store_le 2 m (e + 6) (Z.land (Z.shiftr offset 16) 0xFFFF) in
  let m := store_le 4 m (e + 8) (Z.shiftr offset 32) in
  let m := store_le 2 m (e + 2) 0x0030 in
  let m := store_le 1 m (e + 4) 0x1 in
  let m := store_le 1 m (e + 5) (Z.lor (Z.lor INTERRUPT_ENTRY_PRESENT IT_TRAP_GATE) IT_LONG_IDT) in
  store_le 4 m (e + 12) 0x0.

Fixpoint idt_fill (n : nat) (m : mem) (table handler : Z) : mem :=
  match n with
  | O => m
  | S n' => idt_write_entry (idt_fill n' m table handler) table handler (Z.of_nat n')
  end.

Section Setup.
Context {os T : Type} `{HostOS os} `{KvmOS os} `{TranslationCache T}.
Local Abbreviation CPU := (M (cpu os T)).

Definition on_mem (f : mem -> mem) : CPU unit := on_cpu_rm (on_pager (upd_mem f)).

Definition map_kernel_region (r : rid) (opts : Z) : CPU Z :=
  let! reg := on_cpu_rm (on_store (lookup_region r)) in
  let! guest_virtual := on_cpu_rm (on_pager (map_kernel_page (base_address reg) opts)) in
  do! assert_ (negb (guest_virtual =? 0)) in
  do! on_cpu_rm (set_guest_addr_of r guest_virtual) in
  ret guest_virtual.

Definition elkvm_tss_setup64 (r : rid) : CPU Z :=
  let! _gv := map_kernel_region r 0 in
  let! reg := on_cpu_rm (on_store (lookup_region r)) in
  let! kstack := kernel_base in
  do! on_mem (fun m => tss64_write m (base_address reg) kstack) in
  ret 0.

(** [None] is the null pointer. *)
Definition elkvm_gdt_setup : CPU (option rid) :=
  let! gdt_region := on_cpu_rm (allocate_region (GDT_NUM_ENTRIES * sizeof_gdt_descriptor) "ELKVM GDT") in
  let! gdt_addr := map_kernel_region gdt_region 0 in
  let! reg := on_cpu_rm (on_store (lookup_region gdt_region)) in
  let p := base_address reg in
  do! on_mem (fun m => gdt_user_entries m p) in
  let! tss_region := on_cpu_rm (allocate_region sizeof_tss64 "ELKVM TSS") in
  let! err := elkvm_tss_setup64 tss_region in
  if ctrue err then ret None else
  let! tss := on_cpu_rm (on_store (lookup_region tss_region)) in
  do! on_mem (fun m => gdt_tss_entries m p (guest_address tss)) in
  do! on_mem (fun m => gdt_kernel_entries m p) in
  do! set_msr VCPU_MSR_STAR star_value in
  let! err := get_sregs in
  if ctrue err then ret None else
  do! set_seg gdt (Segment_dtable gdt_addr (GDT_NUM_ENTRIES * 8 - 1)) in
  do! set_seg tr (mkSegment tr_selector (guest_address tss) sizeof_tss64 0xb 0x1 0x0 0x0 0x0 0x1 0x0 0x0) in
  let! err := set_sregs in
  if ctrue err then ret None else ret (Some gdt_region).

(** [handler] is the guest address of the region of the default handler. *)
Definition elkvm_idt_setup (handler : Z) : CPU Z :=
  let! idt_region := on_cpu_rm (allocate_region (256 * sizeof_idt_entry) anon) in
  let! reg := on_cpu_rm (on_store (lookup_region idt_region)) in
  do! on_mem (fun m => idt_fill 48 m (base_address reg) handler) in
  let! guest_virtual := map_kernel_region idt_region 0 in
  do! set_seg idt (Segment_dtable guest_virtual 0xFFF) in
  set_sregs.
End Setup.
