(* ===== verification/DescriptorTheorems.v ===== *)
(** * Descriptor tables: theorems

    What is written can be read back with the accessors of the headers, and the
    selectors the components use agree with each other. *)

From S2P Require Import Prelude Memory PageMath HostOS Tlb Pager Region RegionManager RegionTheorems HeapTheorems Registers Vcpu VcpuTheorems Descriptors.
Local Open Scope Z_scope.

(** Reading a field past the stores that do not touch it. *)
Ltac field_step :=
  first [ rewrite load8_store_same
        | rewrite (load_le_store_same 2)
        | rewrite (load_le_store_same 4)
        | rewrite load8_store_other by lia
        | rewrite load_le_store_other by lia ].

Lemma gdt_bytes m p base limit acc flags :
  0 <= base < 2 ^ 20 -> 0 <= limit < 2 ^ 32 -> 0 <= acc < 256 -> 0 <= flags < 256 ->
  load_gdt (create_descriptor m p base limit acc flags) p
  = mkGdt (limit mod 2 ^ 16) (base mod 2 ^ 16) (base / 2 ^ 16) acc
          (limit / 2 ^ 16 mod 16 + 16 * (flags mod 16)) 0.
Proof.
  intros Hb Hl Ha Hf. unfold create_descriptor, elkvm_gdt_create_segment_descriptor, load_gdt.
  replace (ctrue (Z.land base 0xFFF00000)) with false.
  2: { symmetry. apply ctrue_false. change 0xFFF00000 with (2 ^ 32 - 2 ^ 20).
       rewrite land_mask by lia. rewrite !Z.mod_small by lia. lia. }
  assert (forall x, Z.land x 0xFFFF = x mod 2 ^ 16) as L16 by (intros; apply (land_low _ 16); lia).
  assert (forall x, Z.land x 0xFF = x mod 2 ^ 8) as L8 by (intros; apply (land_low _ 8); lia).
  assert (forall x, Z.land x 0xF = x mod 2 ^ 4) as L4 by (intros; apply (land_low _ 4); lia).
  cbn [snd]. rewrite !L16, L8, L4, !Z.shiftr_div_pow2, Z.shiftl_mul_pow2 by lia.
  f_equal; repeat field_step.
  - change (8 * Z.of_nat 2) with 16. by rewrite Z.mod_mod by lia.
  - change (8 * Z.of_nat 2) with 16. by rewrite Z.mod_mod by lia.
  - rewrite (Z.mod_small (base / 2 ^ 16)), u8_small; [done|..]; Z.div_mod_to_equations; lia.
  - by apply u8_small.
  - rewrite Z.lor_comm, (lor_disjoint _ _ 4); [|lia|apply Z.mod_pos_bound; lia|apply Z.mod_mul; lia].
    unfold u8. Z.div_mod_to_equations. lia.
  - rewrite u8_small by (Z.div_mod_to_equations; lia). apply Z.div_small. lia.
Qed.

Lemma create_descriptor_agree m entry base limit acc flags b k :
  entry + 8 <= b \/ b + k <= entry -> agree m (create_descriptor m entry base limit acc flags) b k.
Proof.
  intros Hd. unfold create_descriptor, elkvm_gdt_create_segment_descriptor.
  destruct (ctrue _); cbn [snd]; [by intros x Hx|].
  repeat (eapply agree_trans; [|apply agree_store_le; lia]). by intros x Hx.
Qed.

Lemma load_gdt_agree m m' p : agree m m' p 8 -> load_gdt m' p = load_gdt m p.
Proof.
  intros Ha. unfold load_gdt. rewrite !load8_le.
  f_equal; apply (agree_load _ _ _ _ p 8); (done || lia).
Qed.

(** The fields of the accessors, put together. *)
Lemma gdt_fields base limit acc flags :
  0 <= base < 2 ^ 20 -> 0 <= limit < 2 ^ 32 ->
  let e := mkGdt (limit mod 2 ^ 16) (base mod 2 ^ 16) (base / 2 ^ 16) acc
                 (limit / 2 ^ 16 mod 16 + 16 * (flags mod 16)) 0 in
  gdt_base e = base /\ gdt_limit e = limit mod 2 ^ 20 /\ gdt_flags e = flags mod 16.
Proof.
  intros Hb Hl. cbn [gdt_base gdt_limit gdt_flags base1 base2 base3 limit1 limit2_flags].
  unfold gdt_base, gdt_limit, gdt_flags. cbn [base1 base2 base3 limit1 limit2_flags].
  change 0xF with (2 ^ 4 - 1). rewrite land_low, !Z.shiftl_mul_pow2, Z.shiftr_div_pow2 by lia.
  change (u32 (0 * 2 ^ 24)) with 0. rewrite Z.lor_0_r.
  rewrite !(Z.lor_comm (_ mod 2 ^ 16)), !(lor_disjoint _ _ 16)
    by (lia || (apply Z.mod_pos_bound; lia) || (apply Z.mod_mul; lia)).
  split; [Z.div_mod_to_equations; lia|]. change (2 ^ 4) with 16. split; Z.div_mod_to_equations; lia.
Qed.

(** ** Properties *)

(** C16. Segment descriptors.  For a base below 1 MB the entry that
    [elkvm_gdt_create_segment_descriptor] writes reads back, with the accessors
    of [gdt.h], the base, the limit modulo 2^20, the flags modulo 16 and the
    access byte, and no byte outside the entry changes; for any other base the
    function returns [-EINVAL] and writes nothing. *)
Theorem gdt_descriptor_roundtrip m p base limit acc flags :
  0 <= base < 2 ^ 32 -> 0 <= limit < 2 ^ 32 -> 0 <= acc < 256 -> 0 <= flags < 256 ->
  let '(err, m') := elkvm_gdt_create_segment_descriptor m p base limit acc flags in
  if base <? 2 ^ 20 then
    err = 0 /\ gdt_base (load_gdt m' p) = base /\ gdt_limit (load_gdt m' p) = limit mod 2 ^ 20 /\
    gdt_flags (load_gdt m' p) = flags mod 16 /\ access (load_gdt m' p) = acc /\
    (forall b k, p + 8 <= b \/ b + k <= p -> agree m m' b k)
  else err = - EINVAL /\ m' = m.
Proof.
  intros Hb Hl Ha Hf.
  assert (elkvm_gdt_create_segment_descriptor m p base limit acc flags
    = (if base <? 2 ^ 20 then 0 else - EINVAL, create_descriptor m p base limit acc flags)) as E.
  { unfold create_descriptor, elkvm_gdt_create_segment_descriptor.
    change 0xFFF00000 with (2 ^ 32 - 2 ^ 20). rewrite land_mask, (Z.mod_small base (2 ^ 32)) by lia.
    destruct (Z.ltb_spec base (2 ^ 20)).
    - rewrite Z.mod_small, Z.sub_diag by lia. done.
    - replace (ctrue _) with true; [done|]. symmetry. apply ctrue_true.
      Z.div_mod_to_equations. lia. }
  rewrite E. destruct (Z.ltb_spec base (2 ^ 20)).
  - rewrite gdt_bytes by lia. destruct (gdt_fields base limit acc flags ltac:(lia) Hl) as (-> & -> & ->).
    repeat split. intros b k Hd. by apply create_descriptor_agree.
  - split; [done|]. unfold create_descriptor, elkvm_gdt_create_segment_descriptor in *.
    by destruct (ctrue _).
Qed.

Lemma gdt_descriptor_roundtrip_witness :
  let '(err, m') := elkvm_gdt_create_segment_descriptor (fun _ => 0) 0x1000 0x12345 0xABCDE 0x92 0xA in
  err = 0 /\ gdt_base (load_gdt m' 0x1000) = 0x12345 /\ gdt_limit (load_gdt m' 0x1000) = 0xABCDE /\
  gdt_flags (load_gdt m' 0x1000) = 0xA.
Proof.
  pose proof (gdt_descriptor_roundtrip (fun _ => 0) 0x1000 0x12345 0xABCDE 0x92 0xA
    ltac:(lia) ltac:(lia) ltac:(lia) ltac:(lia)) as W.
  destruct (elkvm_gdt_create_segment_descriptor _ _ _ _ _ _) as [err m'].
  change (0x12345 <? 2 ^ 20) with true in W. cbv iota in W.
  destruct W as (W1 & W2 & W3 & W4 & _). exact (conj W1 (conj W2 (conj W3 W4))).
Defined.

(** The table that [elkvm_gdt_setup] leaves in memory. *)
Definition gdt_image (m : mem) (p tss : Z) : mem :=
  gdt_kernel_entries (gdt_tss_entries (gdt_user_entries m p) p tss) p.

(** Reading an entry of the image: skip the later writes, read the own one. *)
Ltac gdt_skip :=
  etransitivity;
  [apply load_gdt_agree;
   first [apply create_descriptor_agree; lia | apply agree_store_le; lia]|].
Ltac gdt_read := repeat gdt_skip; apply gdt_bytes; by vm_compute.

(** The selectors agree.  In the table that the setup leaves in memory the
    selectors that the [STAR] register gives to [syscall] and [sysret] name the
    right segments: [syscall] loads a present, executable segment of privilege
    0, which is also the one every interrupt gate names, and [sysret] loads a
    code and a stack segment of privilege 3, the ones in the initial [cs] and
    [ss] of a CPU. *)
Theorem gdt_selectors_consistent m p tss :
  let m' := gdt_image m p tss in
  let syscall_cs := Z.land (Z.shiftr star_value 32) 0xFFFF in
  let sysret := Z.shiftr star_value 48 in
  syscall_cs = idt_selector (load_idt (idt_write_entry m' 0 0 0) 0) /\
  access (load_gdt m' (p + syscall_cs)) = 0x9E /\
  sysret + 16 = 0x13 /\ access (load_gdt m' (p + (0x13 - 3))) = 0xFE /\
  sysret + 8 = 0xb /\ access (load_gdt m' (p + (0xb - 3))) = 0xF2 /\
  gdt_flags (load_gdt m' (p + syscall_cs)) = 0xA /\ gdt_flags (load_gdt m' (p + (0x13 - 3))) = 0xA /\
  load_gdt m' p = mkGdt 0 0 0 0 0 0.
Proof.
  cbv zeta. change (Z.land (Z.shiftr star_value 32) 0xFFFF) with 48.
  change (Z.shiftr star_value 48) with 3. change (0x13 - 3) with 16. change (0xb - 3) with 8.
  assert (load_gdt (gdt_image m p tss) (p + 48) = mkGdt 0xFFFF 0 0 0x9E 0xAF 0) as ->
    by (unfold gdt_image, gdt_kernel_entries; gdt_read).
  assert (load_gdt (gdt_image m p tss) (p + 16) = mkGdt 0xFFFF 0 0 0xFE 0xAF 0) as ->
    by (unfold gdt_image, gdt_kernel_entries, gdt_tss_entries, gdt_user_entries; gdt_read).
  assert (load_gdt (gdt_image m p tss) (p + 8) = mkGdt 0xFFFF 0 0 0xF2 0xAF 0) as ->
    by (unfold gdt_image, gdt_kernel_entries, gdt_tss_entries, gdt_user_entries; gdt_read).
  assert (load_gdt (gdt_image m p tss) p = mkGdt 0 0 0 0 0 0) as ->.
  { unfold gdt_image, gdt_kernel_entries, gdt_tss_entries, gdt_user_entries. repeat gdt_skip.
    unfold load_gdt. rewrite !load8_le. f_equal.
    all: rewrite (load_le_word _ _ _ 0);
      [done|intros i Hi; unfold memset, sizeof_gdt_descriptor; rewrite Z.shiftr_0_l; range_case]. }
  split; [|done]. reflexivity.
Qed.

(** *** The interrupt table *)

Lemma idt_write_agree m table handler i b k :
  table + 16 * i + 16 <= b \/ b + k <= table + 16 * i ->
  agree m (idt_write_entry m table handler i) b k.
Proof.
  intros Hd. unfold idt_write_entry, sizeof_idt_entry.
  repeat (eapply agree_trans; [|apply agree_store_le; lia]). by intros x Hx.
Qed.

Lemma idt_bytes m table handler i :
  let off := u64 (handler + i * 9) in
  load_idt (idt_write_entry m table handler i) (table + 16 * i)
  = mkIdt (off mod 2 ^ 16) kernel_cs_selector 1 0x8F (off / 2 ^ 16 mod 2 ^ 16) (off / 2 ^ 32) 0.
Proof.
  intros off. unfold load_idt, idt_write_entry, sizeof_idt_entry. fold off.
  rewrite (Z.mul_comm i 16). pose proof (u64_range (handler + i * 9)) as Hr. fold off in Hr.
  assert (forall x, Z.land x 0xFFFF = x mod 2 ^ 16) as L16 by (intros; apply (land_low _ 16); lia).
  rewrite !L16, !Z.shiftr_div_pow2 by lia. f_equal; repeat field_step; try done.
  - change (8 * Z.of_nat 2) with 16. by rewrite Z.mod_mod by lia.
  - change (8 * Z.of_nat 2) with 16. by rewrite Z.mod_mod by lia.
  - change (8 * Z.of_nat 4) with 32. apply Z.mod_small. Z.div_mod_to_equations. lia.
Qed.

Lemma idt_offset off :
  0 <= off < 2 ^ 64 ->
  idt_entry_offset (mkIdt (off mod 2 ^ 16) 48 1 0x8F (off / 2 ^ 16 mod 2 ^ 16) (off / 2 ^ 32) 0) = off.
Proof.
  intros Hr. unfold idt_entry_offset. cbn [offset1 offset2 offset3].
  rewrite !Z.shiftl_mul_pow2 by lia. rewrite u64_small by (Z.div_mod_to_equations; lia).
  rewrite (Z.lor_comm (off mod 2 ^ 16)), (lor_disjoint (_ * 2 ^ 16) (off mod 2 ^ 16) 16)
    by (lia || (apply Z.mod_pos_bound; lia) || (apply Z.mod_mul; lia)).
  rewrite Z.lor_comm, (lor_disjoint _ _ 32); [Z.div_mod_to_equations; lia|lia| |apply Z.mod_mul; lia].
  pose proof (Z.mod_pos_bound off (2 ^ 16) ltac:(lia)).
  pose proof (Z.mod_pos_bound (off / 2 ^ 16) (2 ^ 16) ltac:(lia)). lia.
Qed.

Lemma idt_fill_entry n m table handler i :
  0 <= i < Z.of_nat n ->
  load_idt (idt_fill n m table handler) (table + 16 * i)
  = load_idt (idt_write_entry m table handler i) (table + 16 * i).
Proof.
  induction n as [|n IH]; intros Hi; [lia|]. cbn [idt_fill].
  destruct (decide (i = Z.of_nat n)) as [->|Hne]; [by rewrite !idt_bytes|].
  rewrite <- IH by lia. unfold load_idt. rewrite !load8_le.
  f_equal; apply (agree_load _ _ _ _ (table + 16 * i) 16); try lia; apply idt_write_agree; lia.
Qed.

Lemma idt_fill_agree n m table handler b k :
  table + 16 * Z.of_nat n <= b \/ b + k <= table -> agree m (idt_fill n m table handler) b k.
Proof.
  induction n as [|n IH]; intros Hd; [by intros x Hx|]. cbn [idt_fill].
  eapply agree_trans; [apply IH; lia|]. apply idt_write_agree. lia.
Qed.

(** The interrupt table.  After the loop of [elkvm_idt_setup] every gate
    [i] below 48 points at the [i]-th nine-byte stub of the handler, in the
    kernel code segment, as a present trap gate on the interrupt stack, and
    nothing outside the 48 gates was written. *)
Theorem idt_gates_point_at_stubs m table handler i :
  0 <= i < 48 ->
  let m' := idt_fill 48 m table handler in
  let e := load_idt m' (table + 16 * i) in
  idt_entry_offset e = u64 (handler + 9 * i) /\ idt_selector e = kernel_cs_selector /\
  idt_flags e = 0x8F /\ idx_ e = 1 /\
  (forall b k, table + 768 <= b \/ b + k <= table -> agree m m' b k).
Proof.
  intros Hi. cbv zeta. rewrite idt_fill_entry, idt_bytes by lia. rewrite (Z.mul_comm i 9).
  split; [apply idt_offset; apply u64_range|]. do 3 (split; [done|]).
  intros b k Hd. apply idt_fill_agree. lia.
Qed.

Lemma idt_gates_point_at_stubs_witness :
  let e := load_idt (idt_fill 48 (fun _ => 0) 0x1000 0xFFFF800000003000) (0x1000 + 16 * 14) in
  idt_entry_offset e = 0xFFFF80000000307E /\ idt_selector e = kernel_cs_selector.
Proof.
  destruct (idt_gates_point_at_stubs (fun _ => 0) 0x1000 0xFFFF800000003000 14 ltac:(lia))
    as (W1 & W2 & _).
  exact (conj W1 W2).
Defined.
