(* ===== verification/Vm.v ===== *)
(** * The virtual machine: [class VM] of [src/vm_internals.cc] and [src/vm.cc],
    signals of [src/signal.cc]

    The state of a machine, how its parts are reached from it, resource limits,
    signals and the loading of flat binaries.  [MonitorOS] is what these parts
    use of the host besides the calls of the other components. *)

From S2P Require Import Prelude Memory PageMath HostOS Tlb Pager Region RegionManager Registers Mappings Heap Vcpu Descriptors.
Local Open Scope Z_scope.

Class MonitorOS (os : Type) := {
  errno : os -> Z;
  io_open : os -> string -> Z * os;
  (** [fstat]: the result and [st_size]. *)
  io_fstat_size : os -> Z -> (Z * Z) * os;
  io_close : os -> Z -> os;
  io_free : os -> Z -> os;
  io_sigaction : os -> Z -> Z * os;
  io_getrlimit : os -> Z -> (Z * (Z * Z)) * os;
}.

Definition _NSIG : Z := 65.
Definition SIGRTMIN : Z := 34.
Definition RLIMIT_NLIMITS : nat := 16.
Definition sizeof_sigaction : nat := 152.
Definition sizeof_rlimit : nat := 16.

(** [struct elkvm_flat]. *)
Record elkvm_flat := mkFlat { flat_region : option rid; flat_size : Z }.

(** [class VM], with the two static variables of [signal.cc]. *)
Record vm (os T : Type) := mkVM {
  cpus : list VCPU;
  _debug : bool;
  v_hm : hm os T;
  v_vmfd : Z;
  _rlimits : list (Z * Z);
  sigs : list (list Z);              (* one [struct sigaction] per signal *)
  sighandler_cleanup : elkvm_flat;
  pending_signals : list Z;          (* an array of 32 *)
  num_pending_signals : Z;
}.
Arguments mkVM {os T}.
Arguments cpus {os T}.
Arguments _debug {os T}.
Arguments v_hm {os T}.
Arguments v_vmfd {os T}.
Arguments _rlimits {os T}.
Arguments sigs {os T}.
Arguments sighandler_cleanup {os T}.
Arguments pending_signals {os T}.
Arguments num_pending_signals {os T}.

Section Vm.
Context {os T : Type} `{HostOS os} `{FileOS os} `{KvmOS os} `{MonitorOS os} `{TranslationCache T}.
Local Abbreviation VMM := (M (vm os T)).

(** ** Reaching the parts *)

Definition with_cpus (s : vm os T) (c : list VCPU) : vm os T :=
  mkVM c (_debug s) (v_hm s) (v_vmfd s) (_rlimits s) (sigs s) (sighandler_cleanup s)
       (pending_signals s) (num_pending_signals s).
Definition with_hm (s : vm os T) (h : hm os T) : vm os T :=
  mkVM (cpus s) (_debug s) h (v_vmfd s) (_rlimits s) (sigs s) (sighandler_cleanup s)
       (pending_signals s) (num_pending_signals s).
Definition with_rlimits (s : vm os T) (l : list (Z * Z)) : vm os T :=
  mkVM (cpus s) (_debug s) (v_hm s) (v_vmfd s) l (sigs s) (sighandler_cleanup s)
       (pending_signals s) (num_pending_signals s).
Definition with_sigs (s : vm os T) (l : list (list Z)) : vm os T :=
  mkVM (cpus s) (_debug s) (v_hm s) (v_vmfd s) (_rlimits s) l (sighandler_cleanup s)
       (pending_signals s) (num_pending_signals s).
Definition with_cleanup (s : vm os T) (f : elkvm_flat) : vm os T :=
  mkVM (cpus s) (_debug s) (v_hm s) (v_vmfd s) (_rlimits s) (sigs s) f
       (pending_signals s) (num_pending_signals s).
Definition with_pending (s : vm os T) (l : list Z) (n : Z) : vm os T :=
  mkVM (cpus s) (_debug s) (v_hm s) (v_vmfd s) (_rlimits s) (sigs s) (sighandler_cleanup s) l n.

Definition heap {A} (c : M (hm os T) A) : VMM A := zoom v_hm (fun h s => with_hm s h) c.
Definition region_manager {A} (c : M (rm os T) A) : VMM A := heap (HeapManager.on_rm c).
Definition pager {A} (c : M (pst os T) A) : VMM A := region_manager (on_pager c).
Definition os_io {A} (f : os -> A * os) : VMM A := region_manager (rm_io f).
Definition os_get {A} (f : os -> A) : VMM A :=
  gets (fun s => f (p_os (rm_pager (hm_rm (v_hm s))))).

(** [cpus.at(num)]. *)
Definition on_cpu {A} (num : nat) (c : M (cpu os T) A) : VMM A :=
  fun s => match cpus s !! num with
           | None => Fail OutOfRange
           | Some v =>
               match c (mkCpu v (hm_rm (v_hm s))) with
               | Ok (a, s') =>
                   let h := v_hm s in
                   Ok (a, with_cpus (with_hm s (mkHM (mappings_for_brk h) (mappings_for_mmap h)
                                                     (curbrk h) (c_rm s')))
                                    (<[num := c_vcpu s']> (cpus s)))
               | Fail f => Fail f
               end
           end.

(** An element of an array at a signed or computed index. *)
Definition at_z {S A} (l : list A) (i : Z) : M S A :=
  if i <? 0 then fail OutOfRange else at_ l (Z.to_nat i).

Definition host_p_ (g : Z) : VMM Z := pager (get_host_p g).
Definition debug_mode : VMM bool := gets _debug.
Definition memory : VMM mem := gets (fun s => p_mem (rm_pager (hm_rm (v_hm s)))).
Definition set_memory (f : mem -> mem) : VMM unit := pager (upd_mem f).

Definition VM_address_mapped (addr : Z) : VMM bool := heap (HeapManager.address_mapped addr).

Definition VM_find_mapping (addr : Z) : VMM mref :=
  let! b := heap (HeapManager.contains_address addr) in
  if b then heap (HeapManager.find_mapping addr) else fail Assert.

(** ** CPUs *)

Definition add_cpu : VMM Z :=
  let! s := get in
  let! v := region_manager (VCPU_new (v_vmfd s) (Z.of_nat (length (cpus s)))) in
  let n := length (cpus s) in
  do! modify (fun s => with_cpus s (cpus s ++ [v])) in
  let! _e := on_cpu n set_regs in
  let! _e := on_cpu n set_sregs in
  ret 0.

Fixpoint create_vcpus (n : nat) : VMM Z :=
  match n with
  | O => ret 0
  | S n' => let! err := add_cpu in if ctrue err then ret err else create_vcpus n'
  end.

(** ** Resource limits *)

(** The constructor of [rlimit]. *)
Fixpoint rlimit_new (n : nat) : VMM (list (Z * Z)) :=
  match n with
  | O => ret []
  | S n' =>
      let! l := rlimit_new n' in
      let! '(err, v) := os_io (fun o => io_getrlimit o (Z.of_nat n')) in
      do! assert_ (err =? 0) in
      ret (l ++ [v])
  end.

Definition rlimit_in_range (i : Z) : bool := (0 <=? i) && (i <? Z.of_nat RLIMIT_NLIMITS).

Definition get_rlimit (i : Z) : VMM (Z * Z) :=
  do! assert_ (rlimit_in_range i) in
  let! s := get in at_z (_rlimits s) i.

Definition set_rlimit (i : Z) (v : Z * Z) : VMM unit :=
  do! assert_ (rlimit_in_range i) in
  modify (fun s => with_rlimits s (<[Z.to_nat i := v]> (_rlimits s))).

(** ** Flat binaries *)

(** The read loop: [buf] moves behind what was read. *)
Definition flat_read_step (fd : Z) (buf : Z) : VMM (Z + unit) :=
  let! '(bytes, data) := os_io (fun o => f_read o fd ELKVM_PAGESIZE) in
  do! set_memory (fun m => store_bytes m buf data) in
  if 0 <? bytes then ret (inl (buf + bytes)) else ret (inr tt).

(** The error code and the loaded binary. *)
Definition load_flat (path : string) (kernel : bool) : VMM (Z * option elkvm_flat) :=
  let! fd := os_io (fun o => io_open o path) in
  if fd <? 0 then let! e := os_get errno in ret (- e, None) else
  let! '(err, st_size) := os_io (fun o => io_fstat_size o fd) in
  if ctrue err then
    do! os_io (fun o => (tt, io_close o fd)) in
    let! e := os_get errno in ret (- e, None)
  else
  let! r := region_manager (allocate_region (u64 st_size) path) in
  let! reg := region_manager (on_store (lookup_region r)) in
  let! ok := (if kernel then
    let! a := pager (map_kernel_page (base_address reg) PT_OPT_EXEC) in
    if a =? 0 then
      do! os_io (fun o => (tt, io_close o fd)) in ret false
    else
      do! region_manager (set_guest_addr_of r a) in ret true
  else
    do! region_manager (set_guest_addr_of r 0x1000) in
    let! err := pager (map_user_page (base_address reg) 0x1000 PT_OPT_EXEC) in
    do! assert_ (err =? 0) in ret true) in
  if negb ok then ret (- ENOMEM, None) else
  do! while_ (flat_read_step fd) (base_address reg) in
  do! os_io (fun o => (tt, io_close o fd)) in
  ret (0, Some (mkFlat (Some r) (u64 st_size))).

(** ** Memory *)

Definition update_chunk (num : nat) (c : Chunk) : VMM unit :=
  pager (modify (fun s => mkPst (p_mem s) (p_tlb s) (p_os s)
    (mkPager (_vmfd (p_pager s)) (<[num := c]> (chunks (p_pager s))) (host_pml4_p (p_pager s))
             (host_next_free_tbl_p (p_pager s)) (guest_next_free (p_pager s))
             (total_memsz (p_pager s)) (free_slots (p_pager s))))).

Definition chunk_remap (num : nat) (newsize : Z) : VMM Z :=
  let! s := get in
  let! c := at_ (chunks (p_pager (rm_pager (hm_rm (v_hm s))))) num in
  let c0 := mkChunk (slot c) (HostOS.flags c) (guest_phys_addr c) 0 (userspace_addr c) in
  do! update_chunk num c0 in
  let! '(err, _e) := os_io (fun o => set_user_memory_region o (v_vmfd s) c0) in
  do! assert_ (err =? 0) in
  do! os_io (fun o => (tt, io_free o (userspace_addr c))) in
  let! '(err, p) := os_io (fun o => posix_memalign o ELKVM_PAGESIZE newsize) in
  let c1 := mkChunk (slot c) (HostOS.flags c) (guest_phys_addr c) newsize p in
  do! update_chunk num c1 in
  do! assert_ (err =? 0) in
  let! '(err, _e) := os_io (fun o => set_user_memory_region o (v_vmfd s) c1) in
  do! assert_ (err =? 0) in
  ret 0.

(** ** Signals: [src/signal.cc] *)

(** The handler that the host runs; the array has room for 32 signals. *)
Definition elkvm_signal_handler (signum : Z) : VMM unit :=
  let! s := get in
  let! _old := at_z (pending_signals s) (num_pending_signals s) in
  modify (fun s => with_pending s (<[Z.to_nat (num_pending_signals s) := signum]> (pending_signals s))
                                  (s32 (num_pending_signals s + 1))).

(** The signal number that the guest's libc meant. *)
Definition adjust_signum (signum : Z) : Z :=
  if (32 <=? signum) && (signum <=? 64) then Z.rem signum 32 + SIGRTMIN else signum.

(** [act] and [oldact] are host pointers, 0 when null. *)
Definition signal_register (signum act oldact : Z) : VMM Z :=
  do! assert_ (signum <? _NSIG) in
  let signum := adjust_signum signum in
  do! (if negb (oldact =? 0) then
         let! s := get in
         let! sa := at_z (sigs s) (u32 signum) in
         set_memory (fun m => store_bytes m oldact sa)
       else ret tt) in
  do! (if negb (act =? 0) then
         let! s := get in
         let! _sa := at_z (sigs s) (u32 signum) in
         let! m := memory in
         do! modify (fun s => with_sigs s (<[Z.to_nat (u32 signum) := load_bytes m act sizeof_sigaction]>
                                             (sigs s))) in
         let! err := os_io (fun o => io_sigaction o signum) in
         assert_ (err =? 0)
       else ret tt) in
  ret 0.

(** [sa_handler] is the first word of the structure. *)
Definition sa_handler (sa : list Z) : Z :=
  load64 (store_bytes (fun _ => 0) 0 sa) 0.

Definition signal_deliver : VMM Z :=
  let! s := get in
  if num_pending_signals s <=? 0 then ret 0 else
  let n := num_pending_signals s - 1 in
  do! modify (fun s => with_pending s (pending_signals s) n) in
  let! signum := at_z (pending_signals s) n in
  let! a := on_cpu 0 (get_reg rax) in
  do! on_cpu 0 (push a) in
  let! r := deref (flat_region (sighandler_cleanup s)) in
  let! reg := region_manager (on_store (lookup_region r)) in
  do! on_cpu 0 (push (guest_address reg)) in
  let! sa := at_z (sigs s) (u32 signum) in
  do! on_cpu 0 (push (sa_handler sa)) in
  do! on_cpu 0 (set_reg rdi (u64 signum)) in
  ret 0.

(** ** The proxy operating system: [src/vm.cc] *)

Section Setup.
Variable RES_PATH : string.

Definition create_idt : VMM Z :=
  let! '(err, flat) := load_flat (String.append RES_PATH "/isr") true in
  if ctrue err then ret err else
  let! flat := deref flat in
  let! r := deref (flat_region flat) in
  let! reg := region_manager (on_store (lookup_region r)) in
  on_cpu 0 (elkvm_idt_setup (guest_address reg)).

Definition create_sysenter : VMM Z :=
  let! '(err, flat) := load_flat (String.append RES_PATH "/entry") true in
  if ctrue err then ret err else
  let! flat := deref flat in
  let! r := deref (flat_region flat) in
  let! reg := region_manager (on_store (lookup_region r)) in
  do! on_cpu 0 (set_msr VCPU_MSR_LSTAR (guest_address reg)) in
  ret 0.

Definition create_sighandler : VMM Z :=
  let! '(err, flat) := load_flat (String.append RES_PATH "/signal") false in
  match flat with
  | Some f => do! modify (fun s => with_cleanup s f) in ret err
  | None => ret err
  end.

Definition setup_proxy_os : VMM Z :=
  let! gdt := on_cpu 0 elkvm_gdt_setup in
  do! assert_ (match gdt with Some _ => true | None => false end) in
  let! err := create_idt in
  do! assert_ (err =? 0) in
  let! err := create_sysenter in
  do! assert_ (err =? 0) in
  let! err := create_sighandler in
  do! assert_ (err =? 0) in
  ret 0.
End Setup.

(** The constructor of [VM]: the region manager and the limits. *)
Definition VM_new (vmfd : Z) (debug : Z) (m : mem) (t : T) (o : os) : res (unit * vm os T) :=
  match RegionManager_new vmfd m t o with
  | Fail f => Fail f
  | Ok (_, r) =>
      (let! l := rlimit_new RLIMIT_NLIMITS in
       modify (fun s => with_rlimits s l))
        (mkVM [] (debug =? 1) (mkHM [] [] 0 r) vmfd [] (replicate (Z.to_nat _NSIG) (replicate sizeof_sigaction 0))
              (mkFlat None 0) (replicate 32 0) 0)
  end.

(** [create_virtual_hardware]: a machine with its CPUs. *)
Definition create_virtual_hardware (ncpus : nat) : VMM unit :=
  let! err := create_vcpus ncpus in
  assert_ (err =? 0).

(** [elkvm_vm_create_raw] after the machine object was made. *)
Definition elkvm_vm_create_raw (RES_PATH : string) (ncpus : nat) : VMM unit :=
  do! create_virtual_hardware ncpus in
  let! err := setup_proxy_os RES_PATH in
  assert_ (err =? 0).

Definition elkvm_emulate_vmcall : VMM unit :=
  let! ip := on_cpu 0 (get_reg rip) in
  on_cpu 0 (set_reg rip (u64 (ip + 3))).

(** ** System call parameters *)

Definition get_parameter (pos : nat) : VMM Z :=
  do! assert_ (pos <=? 6)%nat in
  match pos with
  | 0%nat => on_cpu 0 (get_reg rax)
  | 1%nat => on_cpu 0 (get_reg rdi)
  | 2%nat => on_cpu 0 (get_reg rsi)
  | 3%nat => on_cpu 0 (get_reg rdx)
  | 4%nat => on_cpu 0 (get_reg r10)
  | 5%nat => on_cpu 0 (get_reg r8)
  | 6%nat => on_cpu 0 (get_reg r9)
  | _ => ret (2 ^ 64 - 1)
  end.

Definition set_syscall_return (value : Z) : VMM unit := on_cpu 0 (set_reg rax (u64 value)).

(** The overloads of [unpack_syscall] with one to six arguments. *)
Definition unpack_syscall1 : VMM Z := get_parameter 1.
Definition unpack_syscall2 : VMM (Z * Z) :=
  let! a := get_parameter 1 in let! b := get_parameter 2 in ret (a, b).
Definition unpack_syscall3 : VMM (Z * Z * Z) :=
  let! '(a, b) := unpack_syscall2 in let! c := get_parameter 3 in ret (a, b, c).
Definition unpack_syscall4 : VMM (Z * Z * Z * Z) :=
  let! '(a, b, c) := unpack_syscall3 in let! d := get_parameter 4 in ret (a, b, c, d).
Definition unpack_syscall5 : VMM (Z * Z * Z * Z * Z) :=
  let! '(a, b, c, d) := unpack_syscall4 in let! e := get_parameter 5 in ret (a, b, c, d, e).
Definition unpack_syscall6 : VMM (Z * Z * Z * Z * Z * Z) :=
  let! '(a, b, c, d, e) := unpack_syscall5 in let! f := get_parameter 6 in ret (a, b, c, d, e, f).
End Vm.
