(* ===== verification/Handlers.v ===== *)
(** * The monitor's system call handlers

    [struct elkvm_handlers] and [struct hypercall_handlers] of
    [include/elkvm/elkvm.h], the functions a monitor may supply, and the default
    ones of [src/syscall_default.cc], which pass the call on to the host.  A
    handler runs on the memory of the process and the state of the host; it is
    absent when its pointer is [NULL].  [LibC] stands for the C library. *)

From S2P Require Import Prelude Memory Mappings.
From stdpp Require Import strings.
Local Open Scope Z_scope.

(** What a handler does to memory and host, with its result. *)
Abbreviation handler os A := (M (mem * os) A).

(** [struct elkvm_handlers].  [V] is the state of the machine that the debug
    callback gets. *)
Record elkvm_handlers (os V : Type) := mkHandlers {
  h_read : option (Z -> Z -> Z -> handler os Z);
  h_write : option (Z -> Z -> Z -> handler os Z);
  h_open : option (Z -> Z -> Z -> handler os Z);
  h_close : option (Z -> handler os Z);
  h_stat : option (Z -> Z -> handler os Z);
  h_fstat : option (Z -> Z -> handler os Z);
  h_lstat : option (Z -> Z -> handler os Z);
  h_poll : option (Z -> Z -> Z -> handler os Z);
  h_lseek : option (Z -> Z -> Z -> handler os Z);
  h_mmap_before : option (Mapping.region_mapping -> handler os (Z * Mapping.region_mapping));
  h_mmap_after : option (Mapping.region_mapping -> handler os (Z * Mapping.region_mapping));
  h_mprotect : option (Z -> Z -> Z -> handler os Z);
  h_munmap : option (Mapping.region_mapping -> handler os (Z * Mapping.region_mapping));
  h_sigaction : option (Z -> Z -> Z -> handler os Z);
  h_sigprocmask : option (Z -> Z -> Z -> handler os Z);
  h_ioctl : option (Z -> Z -> Z -> handler os Z);
  h_readv : option (Z -> list (Z * Z) -> Z -> handler os Z);
  h_writev : option (Z -> list (Z * Z) -> Z -> handler os Z);
  h_access : option (Z -> Z -> handler os Z);
  h_pipe : option (Z -> handler os Z);
  h_dup : option (Z -> handler os Z);
  h_nanosleep : option (Z -> Z -> handler os Z);
  h_getpid : option (handler os Z);
  h_socket : option (Z -> Z -> Z -> handler os Z);
  h_accept : option (Z -> Z -> Z -> handler os Z);
  h_bind : option (Z -> Z -> Z -> handler os Z);
  h_listen : option (Z -> Z -> handler os Z);
  h_getsockname : option (Z -> Z -> Z -> handler os Z);
  h_setsockopt : option (Z -> Z -> Z -> Z -> Z -> handler os Z);
  h_getuid : option (handler os Z);
  h_getgid : option (handler os Z);
  h_geteuid : option (handler os Z);
  h_getegid : option (handler os Z);
  h_uname : option (Z -> handler os Z);
  h_fcntl : option (Z -> Z -> Z -> handler os Z);
  h_truncate : option (Z -> Z -> handler os Z);
  h_ftruncate : option (Z -> Z -> handler os Z);
  h_getdents : option (Z -> Z -> Z -> handler os Z);
  h_getcwd : option (Z -> Z -> handler os Z);
  h_chdir : option (Z -> handler os Z);
  h_fchdir : option (Z -> handler os Z);
  h_mkdir : option (Z -> Z -> handler os Z);
  h_unlink : option (Z -> handler os Z);
  h_readlink : option (Z -> Z -> Z -> handler os Z);
  h_gettimeofday : option (Z -> Z -> handler os Z);
  h_getrusage : option (Z -> Z -> handler os Z);
  h_times : option (Z -> handler os Z);
  h_statfs : option (Z -> Z -> handler os Z);
  h_fstatfs : option (Z -> Z -> handler os Z);
  h_setrlimit : option (Z -> Z -> handler os Z);
  h_gettid : option (handler os Z);
  h_time : option (Z -> handler os Z);
  h_futex : option (Z -> Z -> Z -> Z -> Z -> Z -> handler os Z);
  h_epoll_create : option (Z -> handler os Z);
  h_set_tid_address : option (Z -> handler os Z);
  h_epoll_ctl : option (Z -> Z -> Z -> Z -> handler os Z);
  h_epoll_wait : option (Z -> Z -> Z -> Z -> handler os Z);
  h_clock_gettime : option (Z -> Z -> handler os Z);
  h_clock_getres : option (Z -> Z -> handler os Z);
  h_exit_group : option (Z -> handler os unit);
  h_tgkill : option (Z -> Z -> Z -> handler os Z);
  h_openat : option (Z -> Z -> Z -> handler os Z);
  h_set_robust_list : option (Z -> Z -> handler os Z);
  h_bp_callback : option (M V Z);
}.
Arguments h_read {os V}.
Arguments h_write {os V}.
Arguments h_open {os V}.
Arguments h_close {os V}.
Arguments h_stat {os V}.
Arguments h_fstat {os V}.
Arguments h_lstat {os V}.
Arguments h_poll {os V}.
Arguments h_lseek {os V}.
Arguments h_mmap_before {os V}.
Arguments h_mmap_after {os V}.
Arguments h_mprotect {os V}.
Arguments h_munmap {os V}.
Arguments h_sigaction {os V}.
Arguments h_sigprocmask {os V}.
Arguments h_ioctl {os V}.
Arguments h_readv {os V}.
Arguments h_writev {os V}.
Arguments h_access {os V}.
Arguments h_pipe {os V}.
Arguments h_dup {os V}.
Arguments h_nanosleep {os V}.
Arguments h_getpid {os V}.
Arguments h_socket {os V}.
Arguments h_accept {os V}.
Arguments h_bind {os V}.
Arguments h_listen {os V}.
Arguments h_getsockname {os V}.
Arguments h_setsockopt {os V}.
Arguments h_getuid {os V}.
Arguments h_getgid {os V}.
Arguments h_geteuid {os V}.
Arguments h_getegid {os V}.
Arguments h_uname {os V}.
Arguments h_fcntl {os V}.
Arguments h_truncate {os V}.
Arguments h_ftruncate {os V}.
Arguments h_getdents {os V}.
Arguments h_getcwd {os V}.
Arguments h_chdir {os V}.
Arguments h_fchdir {os V}.
Arguments h_mkdir {os V}.
Arguments h_unlink {os V}.
Arguments h_readlink {os V}.
Arguments h_gettimeofday {os V}.
Arguments h_getrusage {os V}.
Arguments h_times {os V}.
Arguments h_statfs {os V}.
Arguments h_fstatfs {os V}.
Arguments h_setrlimit {os V}.
Arguments h_gettid {os V}.
Arguments h_time {os V}.
Arguments h_futex {os V}.
Arguments h_epoll_create {os V}.
Arguments h_set_tid_address {os V}.
Arguments h_epoll_ctl {os V}.
Arguments h_epoll_wait {os V}.
Arguments h_clock_gettime {os V}.
Arguments h_clock_getres {os V}.
Arguments h_exit_group {os V}.
Arguments h_tgkill {os V}.
Arguments h_openat {os V}.
Arguments h_set_robust_list {os V}.
Arguments h_bp_callback {os V}.

(** [struct hypercall_handlers]. *)
Record hypercall_handlers (V : Type) := mkHyp {
  pre_handler : option (Z -> M V Z);
  post_handler : option (Z -> M V Z);
}.
Arguments mkHyp {V}.
Arguments pre_handler {V}.
Arguments post_handler {V}.

Definition hypercall_null {V} : hypercall_handlers V := mkHyp None None.

(** The C library functions that the default handlers call; [SYS_x] names the
    raw [syscall(__NR_x, ...)]. *)
Class LibC (os : Type) := {
  libc : string -> list Z -> handler os Z;
  libc_iov : string -> Z -> list (Z * Z) -> Z -> handler os Z;
}.

Definition F_GETLK : Z := 5.
Definition F_SETLK : Z := 6.
Definition F_SETLKW : Z := 7.
Definition F_SETOWN_EX : Z := 15.
Definition F_GETOWN_EX : Z := 16.

(** The commands whose third argument is a pointer. *)
Definition fcntl_takes_pointer (cmd : Z) : bool :=
  (cmd =? F_GETOWN_EX) || (cmd =? F_SETOWN_EX) || (cmd =? F_GETLK) || (cmd =? F_SETLK)
  || (cmd =? F_SETLKW).

Section Default.
Context {os : Type} `{LibC os}.

Definition pass_read (fd buf count : Z) : handler os Z := libc "read" [fd; buf; count].
Definition pass_write (fd buf count : Z) : handler os Z := libc "write" [fd; buf; count].
Definition pass_open (pathname flags mode : Z) : handler os Z := libc "open" [pathname; flags; mode].
Definition pass_close (fd : Z) : handler os Z := libc "close" [fd].
Definition pass_stat (path buf : Z) : handler os Z := libc "stat" [path; buf].
Definition pass_fstat (fd buf : Z) : handler os Z := libc "fstat" [fd; buf].
Definition pass_lstat (path buf : Z) : handler os Z := libc "lstat" [path; buf].
Definition pass_lseek (fd offset whence : Z) : handler os Z := libc "lseek" [fd; offset; whence].
Definition pass_munmap (mapping : Mapping.region_mapping) : handler os (Z * Mapping.region_mapping) :=
  let! r := libc "munmap" [Mapping.rmap_host_p mapping; Mapping.rmap_length mapping] in ret (r, mapping).
Definition allow_sigaction (signum act oldact : Z) : handler os Z := ret 1.
Definition pass_sigprocmask (how set old : Z) : handler os Z := libc "sigprocmask" [how; set; old].
Definition pass_ioctl (fd request argp : Z) : handler os Z := libc "ioctl" [fd; request; argp].
Definition pass_readv (fd : Z) (iov : list (Z * Z)) (iovcnt : Z) : handler os Z := libc_iov "readv" fd iov iovcnt.
Definition pass_writev (fd : Z) (iov : list (Z * Z)) (iovcnt : Z) : handler os Z := libc_iov "writev" fd iov iovcnt.
Definition pass_access (pathname mode : Z) : handler os Z := libc "access" [pathname; mode].
Definition pass_pipe (pipefds : Z) : handler os Z := libc "pipe" [pipefds].
Definition pass_dup (oldfd : Z) : handler os Z := libc "dup" [oldfd].
Definition pass_nanosleep (req rem : Z) : handler os Z := libc "nanosleep" [req; rem].
Definition pass_getpid : handler os Z := libc "getpid" [].
Definition pass_socket (domain type protocol : Z) : handler os Z := libc "socket" [domain; type; protocol].
Definition pass_accept (sock addr len : Z) : handler os Z := libc "accept" [sock; addr; len].
Definition pass_bind (sock addr addrlen : Z) : handler os Z := libc "bind" [sock; addr; addrlen].
Definition pass_listen (sock backlog : Z) : handler os Z := libc "listen" [sock; backlog].
Definition pass_getsockname (sock addr addrlen : Z) : handler os Z := libc "getsockname" [sock; addr; addrlen].
Definition pass_setsockopt (sock lvl optname optval optlen : Z) : handler os Z := libc "setsockopt" [sock; lvl; optname; optval; optlen].
Definition pass_getuid : handler os Z := libc "getuid" [].
Definition pass_getgid : handler os Z := libc "getgid" [].
Definition pass_geteuid : handler os Z := libc "geteuid" [].
Definition pass_getegid : handler os Z := libc "getegid" [].
Definition pass_uname (buf : Z) : handler os Z := libc "uname" [buf].
(** The variadic argument is read as an [int] unless the command takes a pointer. *)
Definition pass_fcntl (fd cmd arg : Z) : handler os Z :=
  if fcntl_takes_pointer cmd then libc "fcntl" [fd; cmd; arg]
  else libc "fcntl" [fd; cmd; s32 arg].
Definition pass_truncate (path length : Z) : handler os Z := libc "truncate" [path; length].
Definition pass_ftruncate (fd length : Z) : handler os Z := libc "ftruncate" [fd; length].
Definition pass_getdents (fd dirp count : Z) : handler os Z := libc "SYS_getdents" [fd; dirp; count].
Definition pass_getcwd (buf size : Z) : handler os Z := libc "getcwd" [buf; size].
Definition pass_chdir (path : Z) : handler os Z := libc "chdir" [path].
Definition pass_fchdir (fd : Z) : handler os Z := libc "fchdir" [fd].
Definition pass_mkdir (pathname mode : Z) : handler os Z := libc "mkdir" [pathname; mode].
Definition pass_unlink (pathname : Z) : handler os Z := libc "unlink" [pathname].
Definition pass_readlink (path buf bufsiz : Z) : handler os Z := libc "readlink" [path; buf; bufsiz].
Definition pass_gettimeofday (tv tz : Z) : handler os Z := libc "gettimeofday" [tv; tz].
Definition pass_getrusage (who usage : Z) : handler os Z := libc "getrusage" [who; usage].
Definition pass_statfs (path buf : Z) : handler os Z := libc "statfs" [path; buf].
Definition pass_fstatfs (fd buf : Z) : handler os Z := libc "fstatfs" [fd; buf].
Definition pass_setrlimit (resource rlim : Z) : handler os Z := libc "setrlimit" [resource; rlim].
Definition pass_gettid : handler os Z := libc "SYS_gettid" [].
Definition pass_time (t : Z) : handler os Z := libc "time" [t].
Definition pass_futex (uaddr op val timeout uaddr2 val3 : Z) : handler os Z := libc "SYS_futex" [uaddr; op; val; timeout; uaddr2; val3].
Definition pass_epoll_create (size : Z) : handler os Z := libc "epoll_create" [size].
Definition pass_set_tid_address (tidptr : Z) : handler os Z := libc "SYS_set_tid_address" [tidptr].
Definition pass_epoll_ctl (epfd op fd event : Z) : handler os Z := libc "epoll_ctl" [epfd; op; fd; event].
Definition pass_epoll_wait (epfd events max timeout : Z) : handler os Z := libc "epoll_wait" [epfd; events; max; timeout].
Definition pass_clock_gettime (clk_id tp : Z) : handler os Z := libc "clock_gettime" [clk_id; tp].
Definition pass_clock_getres (clk_id res : Z) : handler os Z := libc "clock_getres" [clk_id; res].
Definition pass_exit_group (status : Z) : handler os unit := fail (Exit status).
Definition pass_tgkill (tgid tid sig : Z) : handler os Z := libc "SYS_tgkill" [tgid; tid; sig].
Definition pass_openat (dirfd pathname flags : Z) : handler os Z := libc "openat" [dirfd; pathname; flags].
Definition pass_set_robust_list (head len : Z) : handler os Z := libc "SYS_set_robust_list" [head; len].

Definition default_handlers {V} : elkvm_handlers os V := {|
  h_read := Some pass_read;
  h_write := Some pass_write;
  h_open := Some pass_open;
  h_close := Some pass_close;
  h_stat := Some pass_stat;
  h_fstat := Some pass_fstat;
  h_lstat := Some pass_lstat;
  h_poll := None;
  h_lseek := Some pass_lseek;
  h_mmap_before := None;
  h_mmap_after := None;
  h_mprotect := None;
  h_munmap := Some pass_munmap;
  h_sigaction := Some allow_sigaction;
  h_sigprocmask := Some pass_sigprocmask;
  h_ioctl := Some pass_ioctl;
  h_readv := Some pass_readv;
  h_writev := Some pass_writev;
  h_access := Some pass_access;
  h_pipe := Some pass_pipe;
  h_dup := Some pass_dup;
  h_nanosleep := Some pass_nanosleep;
  h_getpid := Some pass_getpid;
  h_socket := Some pass_socket;
  h_accept := Some pass_accept;
  h_bind := Some pass_bind;
  h_listen := Some pass_listen;
  h_getsockname := Some pass_getsockname;
  h_setsockopt := Some pass_setsockopt;
  h_getuid := Some pass_getuid;
  h_getgid := Some pass_getgid;
  h_geteuid := Some pass_geteuid;
  h_getegid := Some pass_getegid;
  h_uname := Some pass_uname;
  h_fcntl := Some pass_fcntl;
  h_truncate := Some pass_truncate;
  h_ftruncate := Some pass_ftruncate;
  h_getdents := Some pass_getdents;
  h_getcwd := Some pass_getcwd;
  h_chdir := Some pass_chdir;
  h_fchdir := Some pass_fchdir;
  h_mkdir := Some pass_mkdir;
  h_unlink := Some pass_unlink;
  h_readlink := Some pass_readlink;
  h_gettimeofday := Some pass_gettimeofday;
  h_getrusage := Some pass_getrusage;
  h_times := None;
  h_statfs := Some pass_statfs;
  h_fstatfs := Some pass_fstatfs;
  h_setrlimit := Some pass_setrlimit;
  h_gettid := Some pass_gettid;
  h_time := Some pass_time;
  h_futex := Some pass_futex;
  h_epoll_create := Some pass_epoll_create;
  h_set_tid_address := Some pass_set_tid_address;
  h_epoll_ctl := Some pass_epoll_ctl;
  h_epoll_wait := Some pass_epoll_wait;
  h_clock_gettime := Some pass_clock_gettime;
  h_clock_getres := Some pass_clock_getres;
  h_exit_group := Some pass_exit_group;
  h_tgkill := Some pass_tgkill;
  h_openat := Some pass_openat;
  h_set_robust_list := Some pass_set_robust_list;
  h_bp_callback := None;
|}.
End Default.
