(* ===== verification/Syscall.v ===== *)
(** * The implemented system calls: [src/syscall.cc] and [src/syscalls-*.cc]

    One definition per [elkvm_do_*] function.  Each unpacks its arguments from
    the registers of CPU 0, translates guest pointers to host pointers, converts
    the integers to the types of the handler and calls it.  Log output is not
    modelled; where debug mode does more than print, [debug_mode] is tested. *)

From S2P Require Import Prelude Memory PageMath HostOS Tlb Pager Region RegionManager Registers Mappings Heap Vcpu Descriptors Vm Handlers.
Local Open Scope Z_scope.

Definition ENOSYS : Z := 38.
Definition EFAULT : Z := 14.
Definition RUSAGE_SELF : Z := 0.
Definition ARCH_SET_GS : Z := 0x1001.
Definition ARCH_SET_FS : Z := 0x1002.
Definition ARCH_GET_FS : Z := 0x1003.
Definition ARCH_GET_GS : Z := 0x1004.

Section Syscalls.
Context {os T : Type} `{HostOS os} `{FileOS os} `{KvmOS os} `{MonitorOS os} `{TranslationCache T}.
Local Abbreviation VMM := (M (vm os T)).
(** The monitor's handlers, [syscall_handlers] of the machine. *)
Variable hs : elkvm_handlers os (vm os T).

(** Running a handler on memory and host. *)
Definition host {A} (c : handler os A) : VMM A :=
  pager (zoom (fun s => (p_mem s, p_os s)) (fun mo s => mkPst mo.1 (p_tlb s) mo.2 (p_pager s)) c).

Definition of_res {A} (r : res A) : VMM A :=
  match r with Ok a => ret a | Fail f => fail f end.

(** The check that most calls start with. *)
Definition with_handler {X} (h : option X) (k : X -> VMM Z) : VMM Z :=
  match h with
  | None => ret (- ENOSYS)
  | Some f => k f
  end.

(** A pointer argument that may be null. *)
Definition host_or_null (p : Z) : VMM Z := if p =? 0 then ret 0 else host_p_ p.
(** A pointer argument with [assert(p != 0x0)]. *)
Definition host_nonnull (p : Z) : VMM Z := do! assert_ (negb (p =? 0)) in host_p_ p.

Definition neg_errno : VMM Z := let! e := os_get errno in ret (- e).

(** [std::string(p)] of a null pointer throws. *)
Definition std_string (p : Z) : VMM unit := if p =? 0 then fail Throw else ret tt.

(** ** Files *)

(** One round of the loop over the regions of a buffer; the state is the guest
    address, the bytes left and the bytes read, and [inr] leaves the loop, with
    [Some] for a return from the function. *)
Definition read_step (read : Z -> Z -> Z -> handler os Z) (fd buf_p bend : Z) (x : Z * Z * Z)
  : VMM ((Z * Z * Z) + (option Z * Z * Z)) :=
  let '(mark_p, current_count, result) := x in
  let! host_begin_mark := host_p_ mark_p in
  let! r := region_manager (find_region_host host_begin_mark) in
  let! r := deref r in
  let! region := region_manager (on_store (lookup_region r)) in
  do! (if negb (mark_p =? buf_p) then assert_ (host_begin_mark =? base_address region) else ret tt) in
  let host_end_mark := last_valid_address region in
  do! assert_ (host_begin_mark <? host_end_mark) in
  let newcount := host_end_mark - host_begin_mark in
  let newcount := if current_count <? newcount then current_count else newcount in
  let! in_result := host (read (s32 fd) host_begin_mark (u64 newcount)) in
  if in_result <? 0 then
    let! e := os_get errno in ret (inr (Some e, current_count, result))
  else if in_result <? newcount then
    ret (inr (Some (result + in_result), current_count, result))
  else
    let current_count := current_count - in_result in
    let result := result + in_result in
    let! same := region_manager (same_region host_begin_mark bend) in
    if same then ret (inr (None, current_count, result))
    else ret (inl (u64 (mark_p + in_result), current_count, result)).

Definition elkvm_do_read : VMM Z :=
  with_handler (h_read hs) (fun read =>
  let! '(fd, buf_p, count) := unpack_syscall3 in
  let! buf := host_nonnull buf_p in
  let bend_p := u64 (buf_p + count - 1) in
  let! bend := host_p_ bend_p in
  let! same := region_manager (same_region buf bend) in
  if negb same then
    let! mapped := region_manager (host_address_mapped bend) in
    do! assert_ mapped in
    let! '(early, current_count, result) := while_ (read_step read fd buf_p bend) (buf_p, s64 count, 0) in
    match early with
    | Some v => ret v
    | None => do! assert_ (current_count =? 0) in ret result
    end
  else host (read (s32 fd) buf count)).

(** One round of the loop that writes up to the end of a region; the state is
    the host address, the bytes left, the bytes written and the region.  The
    arithmetic on pointers, [size_t] and [ssize_t] is that of 64 bits. *)
Definition write_step (write : Z -> Z -> Z -> handler os Z) (fd : Z) (x : Z * Z * Z * rid)
  : VMM ((Z * Z * Z * rid) + (option Z * (Z * Z * Z * rid))) :=
  let '(current_buf, remaining_count, total, r) := x in
  let! reg := region_manager (on_store (lookup_region r)) in
  if contains_host reg (u64 (current_buf + remaining_count - 1)) then ret (inr (None, x)) else
  let! space := of_res (space_after_address reg current_buf) in
  let! result := host (write (s32 fd) current_buf space) in
  if result <? 0 then let! e := neg_errno in ret (inr (Some e, x)) else
  let current_buf := u64 (current_buf + result) in
  let! r := region_manager (find_region_host current_buf) in
  let! r := deref r in
  ret (inl (current_buf, u64 (remaining_count - result), s64 (total + result), r)).

Definition elkvm_do_write : VMM Z :=
  with_handler (h_write hs) (fun write =>
  let! '(fd, buf_p, count) := unpack_syscall3 in
  let! buf := host_nonnull buf_p in
  let! r := region_manager (find_region_host buf) in
  do! assert_ (match r with Some _ => true | None => false end) in
  let! r := deref r in
  let! '(early, x) := while_ (write_step write fd) (buf, count, 0, r) in
  match early with
  | Some v => ret v
  | None =>
      let '(current_buf, remaining_count, total, r) := x in
      let! reg := region_manager (on_store (lookup_region r)) in
      do! assert_ (contains_host reg (u64 (buf + count - 1))) in
      let! result := host (write (s32 fd) current_buf remaining_count) in
      if result <? 0 then neg_errno else ret (s64 (total + result))
  end).

Definition elkvm_do_close : VMM Z :=
  with_handler (h_close hs) (fun close =>
  let! fd := unpack_syscall1 in
  host (close (s32 fd))).

Definition elkvm_do_stat : VMM Z :=
  with_handler (h_stat hs) (fun stat =>
  let! '(path_p, buf_p) := unpack_syscall2 in
  let! path := host_nonnull path_p in
  let! buf := host_nonnull buf_p in
  host (stat path buf)).

Definition elkvm_do_fstat : VMM Z :=
  with_handler (h_fstat hs) (fun fstat =>
  let! '(fd, buf_p) := unpack_syscall2 in
  let! buf := host_nonnull buf_p in
  host (fstat (s32 fd) buf)).

Definition elkvm_do_lstat : VMM Z :=
  with_handler (h_lstat hs) (fun lstat =>
  let! '(path_p, buf_p) := unpack_syscall2 in
  let! path := host_nonnull path_p in
  let! buf := host_nonnull buf_p in
  host (lstat path buf)).

Definition elkvm_do_lseek : VMM Z :=
  with_handler (h_lseek hs) (fun lseek =>
  let! '(fd, off, whence) := unpack_syscall3 in
  host (lseek (s32 fd) (s64 off) (s32 whence))).

Definition elkvm_do_open : VMM Z :=
  with_handler (h_open hs) (fun open =>
  let! '(pathname_p, flags, mode) := unpack_syscall3 in
  let! pathname := host_nonnull pathname_p in
  host (open pathname (s32 flags) (u32 mode))).

Definition elkvm_do_openat : VMM Z :=
  with_handler (h_openat hs) (fun openat =>
  let! '(dirfd, pathname_p, flags) := unpack_syscall3 in
  let! pathname := host_or_null pathname_p in
  let! res := host (openat (s32 dirfd) pathname (s32 flags)) in
  let! d := debug_mode in
  do! (if d then std_string pathname else ret tt) in
  if res <? 0 then neg_errno else ret res).

Definition elkvm_do_statfs : VMM Z :=
  with_handler (h_statfs hs) (fun statfs =>
  let! '(path_p, buf_p) := unpack_syscall2 in
  let! path := host_or_null path_p in
  let! buf := host_or_null buf_p in
  let! res := host (statfs path buf) in
  let! d := debug_mode in
  do! (if d then std_string path else ret tt) in
  if s32 res =? 0 then ret 0 else neg_errno).

Definition elkvm_do_fstatfs : VMM Z :=
  with_handler (h_fstatfs hs) (fun fstatfs =>
  let! '(fd, buf_p) := unpack_syscall2 in
  let! buf := host_or_null buf_p in
  host (fstatfs (s32 fd) buf)).

Definition elkvm_do_ioctl : VMM Z :=
  with_handler (h_ioctl hs) (fun ioctl =>
  let! '(fd, request, argp_p) := unpack_syscall3 in
  let! argp := host_p_ argp_p in
  let! result := host (ioctl (s32 fd) request argp) in
  if result <? 0 then neg_errno else ret result).

(** One round of the loop of [elkvm_get_host_iov]; the counter is an [unsigned]. *)
Definition host_iov_step (guest_iov iovcnt : Z) (x : Z * list (Z * Z))
  : VMM ((Z * list (Z * Z)) + list (Z * Z)) :=
  let '(i, iov) := x in
  if negb (i <? iovcnt) then ret (inr iov) else
  let! m := memory in
  let iov_base := load64 m (guest_iov + 16 * i) in
  let iov_len := load64 m (guest_iov + 16 * i + 8) in
  do! assert_ (negb (iov_base =? 0)) in
  let! b := host_p_ iov_base in
  ret (inl (u32 (i + 1), iov ++ [(b, iov_len)])).

Definition elkvm_get_host_iov (iov_p iovcnt : Z) : VMM (list (Z * Z)) :=
  let! guest_iov := host_nonnull iov_p in
  while_ (host_iov_step guest_iov iovcnt) (0, []).

Definition elkvm_do_readv : VMM Z :=
  with_handler (h_readv hs) (fun readv =>
  let! '(fd, iov_p, iovcnt) := unpack_syscall3 in
  let! host_iov := elkvm_get_host_iov iov_p iovcnt in
  host (readv (s32 fd) host_iov (s32 iovcnt))).

Definition elkvm_do_writev : VMM Z :=
  with_handler (h_writev hs) (fun writev =>
  let! '(fd, iov_p, iovcnt) := unpack_syscall3 in
  let! host_iov := elkvm_get_host_iov iov_p iovcnt in
  host (writev (s32 fd) host_iov (s32 iovcnt))).

Definition elkvm_do_access : VMM Z :=
  with_handler (h_access hs) (fun access =>
  let! '(path_p, mode) := unpack_syscall2 in
  let! pathname := host_nonnull path_p in
  if pathname =? 0 then ret (- EFAULT) else
  let! result := host (access pathname (s32 mode)) in
  if ctrue result then neg_errno else ret 0).

Definition elkvm_do_pipe : VMM Z :=
  with_handler (h_pipe hs) (fun pipe =>
  let! pipefd_p := unpack_syscall1 in
  let! pipefd := host_p_ pipefd_p in
  do! assert_ (negb (pipefd =? 0)) in
  let! result := host (pipe pipefd) in
  if ctrue result then neg_errno else ret 0).

(** The result of the handler is dropped. *)
Definition elkvm_do_dup : VMM Z :=
  with_handler (h_dup hs) (fun dup =>
  let! oldfd := unpack_syscall1 in
  let! _result := host (dup (s32 oldfd)) in
  neg_errno).

Definition elkvm_do_fcntl : VMM Z :=
  with_handler (h_fcntl hs) (fun fcntl =>
  let! '(fd, cmd, arg_p) := unpack_syscall3 in
  if fcntl_takes_pointer cmd then
    let! arg := host_p_ arg_p in
    host (fcntl (s32 fd) (s32 cmd) arg)
  else host (fcntl (s32 fd) (s32 cmd) arg_p)).

Definition elkvm_do_truncate : VMM Z :=
  with_handler (h_truncate hs) (fun truncate =>
  let! '(path_p, len) := unpack_syscall2 in
  let! path := host_p_ path_p in
  host (truncate path (s64 len))).

Definition elkvm_do_ftruncate : VMM Z :=
  with_handler (h_ftruncate hs) (fun ftruncate =>
  let! '(fd, len) := unpack_syscall2 in
  host (ftruncate (s32 fd) (s64 len))).

Definition elkvm_do_getdents : VMM Z :=
  with_handler (h_getdents hs) (fun getdents =>
  let! '(fd, dirp_p, count) := unpack_syscall3 in
  let! dirp := host_or_null dirp_p in
  let! res := host (getdents (u32 fd) dirp (u32 count)) in
  if res <? 0 then neg_errno else ret res).

(** The handler answers a pointer; the error is returned with a positive sign. *)
Definition elkvm_do_getcwd : VMM Z :=
  with_handler (h_getcwd hs) (fun getcwd =>
  let! '(buf_p, size) := unpack_syscall2 in
  let! buf := host_p_ buf_p in
  let! result := host (getcwd buf size) in
  if result =? 0 then os_get errno else ret 0).

Definition elkvm_do_chdir : VMM Z :=
  let! path := unpack_syscall1 in
  let! local_path := host_or_null path in
  let! chdir := deref (h_chdir hs) in
  host (chdir local_path).

Definition elkvm_do_fchdir : VMM Z :=
  let! path := unpack_syscall1 in
  let! fchdir := deref (h_fchdir hs) in
  host (fchdir (s32 path)).

Definition elkvm_do_mkdir : VMM Z :=
  with_handler (h_mkdir hs) (fun mkdir =>
  let! '(pathname_p, mode) := unpack_syscall2 in
  let! pathname := host_nonnull pathname_p in
  host (mkdir pathname (u32 mode))).

Definition elkvm_do_unlink : VMM Z :=
  with_handler (h_unlink hs) (fun unlink =>
  let! pathname_p := unpack_syscall1 in
  let! pathname := host_nonnull pathname_p in
  host (unlink pathname)).

Definition elkvm_do_readlink : VMM Z :=
  with_handler (h_readlink hs) (fun readlink =>
  let! '(path_p, buf_p, bufsiz) := unpack_syscall3 in
  let! path := host_p_ path_p in
  let! buf := host_p_ buf_p in
  host (readlink path buf bufsiz)).

(** ** Memory *)

Definition mmap_before_call (before : Mapping.region_mapping -> handler os (Z * Mapping.region_mapping))
    (mapping : mref) : VMM Z :=
  let! m := heap (HeapManager.load_ref mapping) in
  let! '(result, cm) := host (before (Mapping.c_mapping m)) in
  let! remap := of_res (Mapping.diff m cm) in
  do! (if ctrue remap then
         let! err := heap (HeapManager.unmap mapping) in assert_ (err =? 0)
       else ret tt) in
  let! m := heap (HeapManager.load_ref mapping) in
  let! m := region_manager (Mapping.sync_back m cm) in
  do! heap (HeapManager.store_ref mapping m) in
  do! (if ctrue remap then
         let! err := heap (HeapManager.map mapping) in assert_ (err =? 0)
       else ret tt) in
  ret result.

Definition elkvm_do_mmap : VMM Z :=
  let! '(addr, length, prot, flags, fd, off) := unpack_syscall6 in
  let! mapping := heap (HeapManager.get_mapping addr length (s32 prot) (s32 flags) (s32 fd) (s64 off)) in
  let! result := match h_mmap_before hs with
                 | Some before => mmap_before_call before mapping
                 | None => ret 0
                 end in
  let! m := heap (HeapManager.load_ref mapping) in
  do! (if negb (Mapping.anonymous m) then
         let! _err := region_manager (Mapping.fill m) in ret tt
       else ret tt) in
  let! result := match h_mmap_after hs with
                 | Some mmap_after => let! '(result, _cm) := host (mmap_after (Mapping.c_mapping m)) in ret result
                 | None => ret result
                 end in
  if result <? 0 then neg_errno else
  let! m := heap (HeapManager.load_ref mapping) in
  ret (Mapping.guest_address m).

Definition elkvm_do_munmap : VMM Z :=
  let! '(addr_p, length) := unpack_syscall2 in
  let! addr := host_or_null addr_p in
  let! mapping := heap (HeapManager.find_mapping_host addr) in
  let! _pages_left := heap (HeapManager.unmap_at mapping addr_p (u32 (pages_from_size length))) in
  ret 0.

Definition elkvm_do_brk : VMM Z :=
  let! user_brk_req := unpack_syscall1 in
  let get_brk := gets (fun s => curbrk (v_hm s)) in
  if user_brk_req =? 0 then get_brk else
  let! err := heap (HeapManager.brk user_brk_req) in
  if ctrue err then ret err else get_brk.

Definition elkvm_do_mremap : VMM Z :=
  let! '(old_address_p, old_size, new_size, flags, new_address_p) := unpack_syscall5 in
  let! old_address := host_or_null old_address_p in
  let! _new_address := host_or_null new_address_p in
  let! mapping := heap (HeapManager.find_mapping_host old_address) in
  heap (HeapManager.remap mapping new_size (s32 flags)).

Definition slice_and_recreate (mapping : mref) (addr len prot : Z) : VMM unit :=
  let! m := heap (HeapManager.load_ref mapping) in
  do! heap (HeapManager.slice mapping addr len) in
  let! _r := heap (HeapManager.create_mapping addr len prot (Mapping.flags m) (Mapping.fd m)
                                              (Mapping.offset m) None) in
  ret tt.

Definition elkvm_do_mprotect : VMM Z :=
  let! '(addr, len, prot) := unpack_syscall3 in
  do! assert_ (page_aligned addr) in
  let! b := heap (HeapManager.address_mapped addr) in
  if negb b then ret (- EINVAL) else
  let! mapping := heap (HeapManager.find_mapping addr) in
  let! m := heap (HeapManager.load_ref mapping) in
  do! assert_ (len <=? Mapping.get_length m) in
  if negb (Mapping.get_length m =? len) then
    do! slice_and_recreate mapping addr len (s32 prot) in
    ret 0
  else
    do! heap (HeapManager.store_ref mapping (Mapping.mprotect m (s32 prot))) in
    heap (HeapManager.map mapping).

(** ** Processes, time and limits *)

Definition elkvm_do_nanosleep : VMM Z :=
  with_handler (h_nanosleep hs) (fun nanosleep =>
  let! '(req_p, rem_p) := unpack_syscall2 in
  let! req := host_or_null req_p in
  let! rem := host_or_null rem_p in
  host (nanosleep req rem)).

Definition elkvm_do_getpid : VMM Z := with_handler (h_getpid hs) host.
Definition elkvm_do_getuid : VMM Z := with_handler (h_getuid hs) host.
Definition elkvm_do_getgid : VMM Z := with_handler (h_getgid hs) host.
Definition elkvm_do_geteuid : VMM Z := with_handler (h_geteuid hs) host.
Definition elkvm_do_getegid : VMM Z := with_handler (h_getegid hs) host.
Definition elkvm_do_gettid : VMM Z := with_handler (h_gettid hs) host.

Definition elkvm_do_uname : VMM Z :=
  with_handler (h_uname hs) (fun uname =>
  let! bufp := unpack_syscall1 in
  let! buf := host_nonnull bufp in
  do! assert_ (negb (buf =? 0)) in
  host (uname buf)).

(** [UNIMPLEMENTED_SYSCALL] ends the process. *)
Definition UNIMPLEMENTED_SYSCALL : VMM Z := fail (Exit 1).

Definition elkvm_do_gettimeofday : VMM Z :=
  match h_gettimeofday hs with
  | None => UNIMPLEMENTED_SYSCALL
  | Some gettimeofday =>
      let! '(tv_p, tz_p) := unpack_syscall2 in
      let! tv := host_or_null tv_p in
      let! tz := host_or_null tz_p in
      host (gettimeofday tv tz)
  end.

Definition elkvm_do_getrusage : VMM Z :=
  with_handler (h_getrusage hs) (fun getrusage =>
  let! '(who, usage_p) := unpack_syscall2 in
  do! assert_ (negb (usage_p =? 0)) in
  do! assert_ (who =? RUSAGE_SELF) in
  let! usage := host_p_ usage_p in
  host (getrusage (s32 who) usage)).

Definition elkvm_do_times : VMM Z :=
  with_handler (h_times hs) (fun times =>
  let! buf_p := unpack_syscall1 in
  let! buf := host_nonnull buf_p in
  do! assert_ (negb (buf =? 0)) in
  let! result := host (times buf) in
  if result =? -1 then neg_errno else ret result).

Definition elkvm_do_time : VMM Z :=
  with_handler (h_time hs) (fun time =>
  let! time_p := unpack_syscall1 in
  let! t := host_or_null time_p in
  host (time t)).

Definition elkvm_do_clock_gettime : VMM Z :=
  with_handler (h_clock_gettime hs) (fun clock_gettime =>
  let! '(clk_id, tp_p) := unpack_syscall2 in
  let! tp := host_nonnull tp_p in
  do! assert_ (negb (tp =? 0)) in
  host (clock_gettime (s32 clk_id) tp)).

Definition elkvm_do_clock_getres : VMM Z :=
  with_handler (h_clock_getres hs) (fun clock_getres =>
  let! '(clk_id, res_p) := unpack_syscall2 in
  let! res := host_nonnull res_p in
  do! assert_ (negb (res =? 0)) in
  host (clock_getres (s32 clk_id) res)).

(** [*host_addr = base] for the [ARCH_GET_*] codes. *)
Definition put_segment_base (host_addr : Z) (seg : Seg_t) : VMM unit :=
  let! g := on_cpu 0 (get_seg seg) in
  set_memory (fun m => store64 m host_addr (Registers._base g)).

Definition set_segment_base (seg : Seg_t) (user_addr : Z) : VMM unit :=
  let! g := on_cpu 0 (get_seg seg) in
  on_cpu 0 (set_seg seg (set_base user_addr g)).

Definition elkvm_do_arch_prctl : VMM Z :=
  let! err := on_cpu 0 get_sregs in
  if ctrue err then ret err else
  let! '(code, user_addr) := unpack_syscall2 in
  let! host_addr := host_nonnull user_addr in
  do! assert_ (negb (host_addr =? 0)) in
  let set_sregs := on_cpu 0 set_sregs in
  if code =? ARCH_SET_FS then do! set_segment_base fs user_addr in set_sregs
  else if code =? ARCH_GET_FS then do! put_segment_base host_addr fs in set_sregs
  else if code =? ARCH_SET_GS then do! set_segment_base gs user_addr in set_sregs
  else if code =? ARCH_GET_GS then do! put_segment_base host_addr gs in set_sregs
  else ret (- EINVAL).

Definition elkvm_do_futex : VMM Z :=
  with_handler (h_futex hs) (fun futex =>
  let! '(uaddr_p, op, val, timeout_p, uaddr2_p, val3) := unpack_syscall6 in
  let! uaddr := host_or_null uaddr_p in
  let! timeout := host_or_null timeout_p in
  let! uaddr2 := host_or_null uaddr2_p in
  let! result := host (futex uaddr (s32 op) (s32 val) timeout uaddr2 (s32 val3)) in
  if ctrue result then neg_errno else ret result).

Definition elkvm_do_tgkill : VMM Z :=
  with_handler (h_tgkill hs) (fun tgkill =>
  let! '(tgid, tid, sig) := unpack_syscall3 in
  host (tgkill (s32 tgid) (s32 tid) (s32 sig))).

Definition elkvm_do_exit_group : VMM Z :=
  let! status := unpack_syscall1 in
  let! exit_group := deref (h_exit_group hs) in
  do! host (exit_group (s32 status)) in
  ret (- ENOSYS).

Definition elkvm_do_set_tid_address : VMM Z :=
  with_handler (h_set_tid_address hs) (fun set_tid_address =>
  let! tidptr_p := unpack_syscall1 in
  let! tidptr := host_nonnull tidptr_p in
  do! assert_ (negb (tidptr =? 0)) in
  host (set_tid_address tidptr)).

Definition elkvm_do_set_robust_list : VMM Z :=
  with_handler (h_set_robust_list hs) (fun set_robust_list =>
  let! '(head_p, len) := unpack_syscall2 in
  let! head := host_nonnull head_p in
  host (set_robust_list head len)).

(** [memcpy] of a [struct rlimit] to the guest. *)
Definition elkvm_do_getrlimit : VMM Z :=
  let! '(resource, rlim_p) := unpack_syscall2 in
  let! rlim := host_nonnull rlim_p in
  let! '(cur, max) := get_rlimit (s32 resource) in
  do! set_memory (fun m => store64 (store64 m rlim cur) (rlim + 8) max) in
  ret 0.

Definition elkvm_do_setrlimit : VMM Z :=
  with_handler (h_setrlimit hs) (fun setrlimit =>
  let! '(resource, rlim_p) := unpack_syscall2 in
  let! rlim := host_nonnull rlim_p in
  let! err := host (setrlimit (s32 resource) rlim) in
  let err := s32 err in
  do! (if err =? 0 then
         let! m := memory in
         set_rlimit (s32 resource) (load64 m rlim, load64 m (rlim + 8))
       else ret tt) in
  ret err).

(** ** Signals *)

Definition elkvm_do_sigaction : VMM Z :=
  with_handler (h_sigaction hs) (fun sigaction =>
  let! '(signum, act_p, oldact_p) := unpack_syscall3 in
  let! act := host_or_null act_p in
  let! oldact := host_or_null oldact_p in
  let! allowed := host (sigaction (s32 signum) act oldact) in
  if ctrue allowed then signal_register (s32 signum) act oldact else ret 0).

Definition elkvm_do_sigprocmask : VMM Z :=
  with_handler (h_sigprocmask hs) (fun sigprocmask =>
  let! '(how, set_p, oldset_p) := unpack_syscall3 in
  let! set := host_or_null set_p in
  let! oldset := host_or_null oldset_p in
  host (sigprocmask (s32 how) set oldset)).

(** ** Sockets and event polls *)

Definition elkvm_do_socket : VMM Z :=
  let! '(domain, type, protocol) := unpack_syscall3 in
  let! socket := deref (h_socket hs) in
  host (socket (s32 domain) (s32 type) (s32 protocol)).

Definition elkvm_do_accept : VMM Z :=
  let! '(sock, addr, len) := unpack_syscall3 in
  let! local_addr := host_or_null addr in
  let! local_len := host_or_null len in
  let! accept := deref (h_accept hs) in
  host (accept (s32 sock) local_addr local_len).

Definition elkvm_do_bind : VMM Z :=
  let! '(sock, addr, addrlen) := unpack_syscall3 in
  let! local_addr := host_or_null addr in
  let! bind_ := deref (h_bind hs) in
  host (bind_ (s32 sock) local_addr (u32 addrlen)).

Definition elkvm_do_listen : VMM Z :=
  let! '(sock, backlog) := unpack_syscall2 in
  let! listen := deref (h_listen hs) in
  host (listen (s32 sock) (s32 backlog)).

Definition elkvm_do_getsockname : VMM Z :=
  let! '(sock, addr, len) := unpack_syscall3 in
  let! local_addr := host_or_null addr in
  let! local_len := host_or_null len in
  let! getsockname := deref (h_getsockname hs) in
  host (getsockname (s32 sock) local_addr local_len).

Definition elkvm_do_setsockopt : VMM Z :=
  let! '(sock, lvl, optname, optval, optlen) := unpack_syscall5 in
  let! local_optval := host_or_null optval in
  let! setsockopt := deref (h_setsockopt hs) in
  host (setsockopt (s32 sock) (s32 lvl) (s32 optname) local_optval (u32 optlen)).

Definition elkvm_do_epoll_create : VMM Z :=
  let! size := unpack_syscall1 in
  let! epoll_create := deref (h_epoll_create hs) in
  host (epoll_create (s32 size)).

Definition elkvm_do_epoll_wait : VMM Z :=
  let! '(epfd, events, maxev, timeout) := unpack_syscall4 in
  let! local_events := host_or_null events in
  let! epoll_wait := deref (h_epoll_wait hs) in
  host (epoll_wait (s32 epfd) local_events (s32 maxev) (s32 timeout)).

Definition elkvm_do_epoll_ctl : VMM Z :=
  let! '(epfd, op, fd, event) := unpack_syscall4 in
  let! local_event := host_or_null event in
  let! epoll_ctl := deref (h_epoll_ctl hs) in
  host (epoll_ctl (s32 epfd) (s32 op) (s32 fd) local_event).
End Syscalls.
