(* ===== verification/SyscallStubs.v ===== *)
(** * The system calls without an implementation

    [src/syscall-stubs.cc] and the stubs of [src/syscalls-socket.cc]: each of
    them is in the system call table and ends the process. *)

From S2P Require Import Prelude Memory PageMath HostOS Tlb Pager Region RegionManager Registers Mappings Heap Vcpu Descriptors Vm Handlers Syscall.
Local Open Scope Z_scope.

Section Stubs.
Context {os T : Type}.
Local Abbreviation VMM := (M (vm os T)).

Definition elkvm_do_poll : VMM Z := UNIMPLEMENTED_SYSCALL.
Definition elkvm_do_sigreturn : VMM Z := UNIMPLEMENTED_SYSCALL.
Definition elkvm_do_pread64 : VMM Z := UNIMPLEMENTED_SYSCALL.
Definition elkvm_do_pwrite64 : VMM Z := UNIMPLEMENTED_SYSCALL.
Definition elkvm_do_select : VMM Z := UNIMPLEMENTED_SYSCALL.
Definition elkvm_do_sched_yield : VMM Z := UNIMPLEMENTED_SYSCALL.
Definition elkvm_do_msync : VMM Z := UNIMPLEMENTED_SYSCALL.
Definition elkvm_do_mincore : VMM Z := UNIMPLEMENTED_SYSCALL.
Definition elkvm_do_madvise : VMM Z := UNIMPLEMENTED_SYSCALL.
Definition elkvm_do_shmget : VMM Z := UNIMPLEMENTED_SYSCALL.
Definition elkvm_do_shmat : VMM Z := UNIMPLEMENTED_SYSCALL.
Definition elkvm_do_shmctl : VMM Z := UNIMPLEMENTED_SYSCALL.
Definition elkvm_do_dup2 : VMM Z := UNIMPLEMENTED_SYSCALL.
Definition elkvm_do_pause : VMM Z := UNIMPLEMENTED_SYSCALL.
Definition elkvm_do_getitimer : VMM Z := UNIMPLEMENTED_SYSCALL.
Definition elkvm_do_alarm : VMM Z := UNIMPLEMENTED_SYSCALL.
Definition elkvm_do_setitimer : VMM Z := UNIMPLEMENTED_SYSCALL.
Definition elkvm_do_clone : VMM Z := UNIMPLEMENTED_SYSCALL.
Definition elkvm_do_fork : VMM Z := UNIMPLEMENTED_SYSCALL.
Definition elkvm_do_vfork : VMM Z := UNIMPLEMENTED_SYSCALL.
Definition elkvm_do_execve : VMM Z := UNIMPLEMENTED_SYSCALL.
Definition elkvm_do_exit : VMM Z := UNIMPLEMENTED_SYSCALL.
Definition elkvm_do_wait4 : VMM Z := UNIMPLEMENTED_SYSCALL.
Definition elkvm_do_kill : VMM Z := UNIMPLEMENTED_SYSCALL.
Definition elkvm_do_semget : VMM Z := UNIMPLEMENTED_SYSCALL.
Definition elkvm_do_semop : VMM Z := UNIMPLEMENTED_SYSCALL.
Definition elkvm_do_semctl : VMM Z := UNIMPLEMENTED_SYSCALL.
Definition elkvm_do_shmdt : VMM Z := UNIMPLEMENTED_SYSCALL.
Definition elkvm_do_msgget : VMM Z := UNIMPLEMENTED_SYSCALL.
Definition elkvm_do_msgsnd : VMM Z := UNIMPLEMENTED_SYSCALL.
Definition elkvm_do_msgrcv : VMM Z := UNIMPLEMENTED_SYSCALL.
Definition elkvm_do_msgctl : VMM Z := UNIMPLEMENTED_SYSCALL.
Definition elkvm_do_flock : VMM Z := UNIMPLEMENTED_SYSCALL.
Definition elkvm_do_fsync : VMM Z := UNIMPLEMENTED_SYSCALL.
Definition elkvm_do_fdatasync : VMM Z := UNIMPLEMENTED_SYSCALL.
Definition elkvm_do_rename : VMM Z := UNIMPLEMENTED_SYSCALL.
Definition elkvm_do_rmdir : VMM Z := UNIMPLEMENTED_SYSCALL.
Definition elkvm_do_creat : VMM Z := UNIMPLEMENTED_SYSCALL.
Definition elkvm_do_link : VMM Z := UNIMPLEMENTED_SYSCALL.
Definition elkvm_do_symlink : VMM Z := UNIMPLEMENTED_SYSCALL.
Definition elkvm_do_chmod : VMM Z := UNIMPLEMENTED_SYSCALL.
Definition elkvm_do_fchmod : VMM Z := UNIMPLEMENTED_SYSCALL.
Definition elkvm_do_chown : VMM Z := UNIMPLEMENTED_SYSCALL.
Definition elkvm_do_fchown : VMM Z := UNIMPLEMENTED_SYSCALL.
Definition elkvm_do_lchown : VMM Z := UNIMPLEMENTED_SYSCALL.
Definition elkvm_do_umask : VMM Z := UNIMPLEMENTED_SYSCALL.
Definition elkvm_do_sysinfo : VMM Z := UNIMPLEMENTED_SYSCALL.
Definition elkvm_do_ptrace : VMM Z := UNIMPLEMENTED_SYSCALL.
Definition elkvm_do_syslog : VMM Z := UNIMPLEMENTED_SYSCALL.
Definition elkvm_do_setuid : VMM Z := UNIMPLEMENTED_SYSCALL.
Definition elkvm_do_setgid : VMM Z := UNIMPLEMENTED_SYSCALL.
Definition elkvm_do_setpgid : VMM Z := UNIMPLEMENTED_SYSCALL.
Definition elkvm_do_getppid : VMM Z := UNIMPLEMENTED_SYSCALL.
Definition elkvm_do_getpgrp : VMM Z := UNIMPLEMENTED_SYSCALL.
Definition elkvm_do_setsid : VMM Z := UNIMPLEMENTED_SYSCALL.
Definition elkvm_do_setreuid : VMM Z := UNIMPLEMENTED_SYSCALL.
Definition elkvm_do_setregid : VMM Z := UNIMPLEMENTED_SYSCALL.
Definition elkvm_do_getgroups : VMM Z := UNIMPLEMENTED_SYSCALL.
Definition elkvm_do_setgroups : VMM Z := UNIMPLEMENTED_SYSCALL.
Definition elkvm_do_setresuid : VMM Z := UNIMPLEMENTED_SYSCALL.
Definition elkvm_do_getresuid : VMM Z := UNIMPLEMENTED_SYSCALL.
Definition elkvm_do_setresgid : VMM Z := UNIMPLEMENTED_SYSCALL.
Definition elkvm_do_getresgid : VMM Z := UNIMPLEMENTED_SYSCALL.
Definition elkvm_do_getpgid : VMM Z := UNIMPLEMENTED_SYSCALL.
Definition elkvm_do_setfsuid : VMM Z := UNIMPLEMENTED_SYSCALL.
Definition elkvm_do_setfsgid : VMM Z := UNIMPLEMENTED_SYSCALL.
Definition elkvm_do_getsid : VMM Z := UNIMPLEMENTED_SYSCALL.
Definition elkvm_do_capget : VMM Z := UNIMPLEMENTED_SYSCALL.
Definition elkvm_do_capset : VMM Z := UNIMPLEMENTED_SYSCALL.
Definition elkvm_do_rt_sigpending : VMM Z := UNIMPLEMENTED_SYSCALL.
Definition elkvm_do_rt_sigtimedwait : VMM Z := UNIMPLEMENTED_SYSCALL.
Definition elkvm_do_rt_sigqueueinfo : VMM Z := UNIMPLEMENTED_SYSCALL.
Definition elkvm_do_rt_sigsuspend : VMM Z := UNIMPLEMENTED_SYSCALL.
Definition elkvm_do_sigaltstack : VMM Z := UNIMPLEMENTED_SYSCALL.
Definition elkvm_do_utime : VMM Z := UNIMPLEMENTED_SYSCALL.
Definition elkvm_do_mknod : VMM Z := UNIMPLEMENTED_SYSCALL.
Definition elkvm_do_uselib : VMM Z := UNIMPLEMENTED_SYSCALL.
Definition elkvm_do_personality : VMM Z := UNIMPLEMENTED_SYSCALL.
Definition elkvm_do_ustat : VMM Z := UNIMPLEMENTED_SYSCALL.
Definition elkvm_do_sysfs : VMM Z := UNIMPLEMENTED_SYSCALL.
Definition elkvm_do_getpriority : VMM Z := UNIMPLEMENTED_SYSCALL.
Definition elkvm_do_setpriority : VMM Z := UNIMPLEMENTED_SYSCALL.
Definition elkvm_do_sched_setparam : VMM Z := UNIMPLEMENTED_SYSCALL.
Definition elkvm_do_sched_getparam : VMM Z := UNIMPLEMENTED_SYSCALL.
Definition elkvm_do_sched_setscheduler : VMM Z := UNIMPLEMENTED_SYSCALL.
Definition elkvm_do_sched_getscheduler : VMM Z := UNIMPLEMENTED_SYSCALL.
Definition elkvm_do_sched_get_priority_max : VMM Z := UNIMPLEMENTED_SYSCALL.
Definition elkvm_do_sched_get_priority_min : VMM Z := UNIMPLEMENTED_SYSCALL.
Definition elkvm_do_sched_rr_get_interval : VMM Z := UNIMPLEMENTED_SYSCALL.
Definition elkvm_do_mlock : VMM Z := UNIMPLEMENTED_SYSCALL.
Definition elkvm_do_munlock : VMM Z := UNIMPLEMENTED_SYSCALL.
Definition elkvm_do_mlockall : VMM Z := UNIMPLEMENTED_SYSCALL.
Definition elkvm_do_munlockall : VMM Z := UNIMPLEMENTED_SYSCALL.
Definition elkvm_do_vhangup : VMM Z := UNIMPLEMENTED_SYSCALL.
Definition elkvm_do_modify_ldt : VMM Z := UNIMPLEMENTED_SYSCALL.
Definition elkvm_do_pivot_root : VMM Z := UNIMPLEMENTED_SYSCALL.
Definition elkvm_do_sysctl : VMM Z := UNIMPLEMENTED_SYSCALL.
Definition elkvm_do_prctl : VMM Z := UNIMPLEMENTED_SYSCALL.
Definition elkvm_do_adjtimex : VMM Z := UNIMPLEMENTED_SYSCALL.
Definition elkvm_do_chroot : VMM Z := UNIMPLEMENTED_SYSCALL.
Definition elkvm_do_sync : VMM Z := UNIMPLEMENTED_SYSCALL.
Definition elkvm_do_acct : VMM Z := UNIMPLEMENTED_SYSCALL.
Definition elkvm_do_settimeofday : VMM Z := UNIMPLEMENTED_SYSCALL.
Definition elkvm_do_mount : VMM Z := UNIMPLEMENTED_SYSCALL.
Definition elkvm_do_umount2 : VMM Z := UNIMPLEMENTED_SYSCALL.
Definition elkvm_do_swapon : VMM Z := UNIMPLEMENTED_SYSCALL.
Definition elkvm_do_swapoff : VMM Z := UNIMPLEMENTED_SYSCALL.
Definition elkvm_do_reboot : VMM Z := UNIMPLEMENTED_SYSCALL.
Definition elkvm_do_sethostname : VMM Z := UNIMPLEMENTED_SYSCALL.
Definition elkvm_do_setdomainname : VMM Z := UNIMPLEMENTED_SYSCALL.
Definition elkvm_do_iopl : VMM Z := UNIMPLEMENTED_SYSCALL.
Definition elkvm_do_ioperm : VMM Z := UNIMPLEMENTED_SYSCALL.
Definition elkvm_do_create_module : VMM Z := UNIMPLEMENTED_SYSCALL.
Definition elkvm_do_init_module : VMM Z := UNIMPLEMENTED_SYSCALL.
Definition elkvm_do_delete_module : VMM Z := UNIMPLEMENTED_SYSCALL.
Definition elkvm_do_get_kernel_syms : VMM Z := UNIMPLEMENTED_SYSCALL.
Definition elkvm_do_query_module : VMM Z := UNIMPLEMENTED_SYSCALL.
Definition elkvm_do_quotactl : VMM Z := UNIMPLEMENTED_SYSCALL.
Definition elkvm_do_nfsservctl : VMM Z := UNIMPLEMENTED_SYSCALL.
Definition elkvm_do_getpmsg : VMM Z := UNIMPLEMENTED_SYSCALL.
Definition elkvm_do_putpmsg : VMM Z := UNIMPLEMENTED_SYSCALL.
Definition elkvm_do_afs_syscall : VMM Z := UNIMPLEMENTED_SYSCALL.
Definition elkvm_do_tuxcall : VMM Z := UNIMPLEMENTED_SYSCALL.
Definition elkvm_do_security : VMM Z := UNIMPLEMENTED_SYSCALL.
Definition elkvm_do_readahead : VMM Z := UNIMPLEMENTED_SYSCALL.
Definition elkvm_do_setxattr : VMM Z := UNIMPLEMENTED_SYSCALL.
Definition elkvm_do_lsetxattr : VMM Z := UNIMPLEMENTED_SYSCALL.
Definition elkvm_do_fsetxattr : VMM Z := UNIMPLEMENTED_SYSCALL.
Definition elkvm_do_getxattr : VMM Z := UNIMPLEMENTED_SYSCALL.
Definition elkvm_do_lgetxattr : VMM Z := UNIMPLEMENTED_SYSCALL.
Definition elkvm_do_fgetxattr : VMM Z := UNIMPLEMENTED_SYSCALL.
Definition elkvm_do_listxattr : VMM Z := UNIMPLEMENTED_SYSCALL.
Definition elkvm_do_llistxattr : VMM Z := UNIMPLEMENTED_SYSCALL.
Definition elkvm_do_flistxattr : VMM Z := UNIMPLEMENTED_SYSCALL.
Definition elkvm_do_removexattr : VMM Z := UNIMPLEMENTED_SYSCALL.
Definition elkvm_do_lremovexattr : VMM Z := UNIMPLEMENTED_SYSCALL.
Definition elkvm_do_fremovexattr : VMM Z := UNIMPLEMENTED_SYSCALL.
Definition elkvm_do_tkill : VMM Z := UNIMPLEMENTED_SYSCALL.
Definition elkvm_do_sched_setaffinity : VMM Z := UNIMPLEMENTED_SYSCALL.
Definition elkvm_do_sched_getaffinity : VMM Z := UNIMPLEMENTED_SYSCALL.
Definition elkvm_do_set_thread_area : VMM Z := UNIMPLEMENTED_SYSCALL.
Definition elkvm_do_io_setup : VMM Z := UNIMPLEMENTED_SYSCALL.
Definition elkvm_do_io_destroy : VMM Z := UNIMPLEMENTED_SYSCALL.
Definition elkvm_do_getevents : VMM Z := UNIMPLEMENTED_SYSCALL.
Definition elkvm_do_submit : VMM Z := UNIMPLEMENTED_SYSCALL.
Definition elkvm_do_cancel : VMM Z := UNIMPLEMENTED_SYSCALL.
Definition elkvm_do_get_thread_area : VMM Z := UNIMPLEMENTED_SYSCALL.
Definition elkvm_do_lookup_dcookie : VMM Z := UNIMPLEMENTED_SYSCALL.
Definition elkvm_do_epoll_ctl_old : VMM Z := UNIMPLEMENTED_SYSCALL.
Definition elkvm_do_epoll_wait_old : VMM Z := UNIMPLEMENTED_SYSCALL.
Definition elkvm_do_remap_file_pages : VMM Z := UNIMPLEMENTED_SYSCALL.
Definition elkvm_do_getdents64 : VMM Z := UNIMPLEMENTED_SYSCALL.
Definition elkvm_do_restart_syscall : VMM Z := UNIMPLEMENTED_SYSCALL.
Definition elkvm_do_semtimedop : VMM Z := UNIMPLEMENTED_SYSCALL.
Definition elkvm_do_fadive64 : VMM Z := UNIMPLEMENTED_SYSCALL.
Definition elkvm_do_timer_create : VMM Z := UNIMPLEMENTED_SYSCALL.
Definition elkvm_do_timer_settime : VMM Z := UNIMPLEMENTED_SYSCALL.
Definition elkvm_do_timer_gettime : VMM Z := UNIMPLEMENTED_SYSCALL.
Definition elkvm_do_timer_getoverrun : VMM Z := UNIMPLEMENTED_SYSCALL.
Definition elkvm_do_timer_delete : VMM Z := UNIMPLEMENTED_SYSCALL.
Definition elkvm_do_clock_settime : VMM Z := UNIMPLEMENTED_SYSCALL.
Definition elkvm_do_clock_nanosleep : VMM Z := UNIMPLEMENTED_SYSCALL.
Definition elkvm_do_utimes : VMM Z := UNIMPLEMENTED_SYSCALL.
Definition elkvm_do_vserver : VMM Z := UNIMPLEMENTED_SYSCALL.
Definition elkvm_do_mbind : VMM Z := UNIMPLEMENTED_SYSCALL.
Definition elkvm_do_mpolicy : VMM Z := UNIMPLEMENTED_SYSCALL.
Definition elkvm_do_get_mempolicy : VMM Z := UNIMPLEMENTED_SYSCALL.
Definition elkvm_do_mq_open : VMM Z := UNIMPLEMENTED_SYSCALL.
Definition elkvm_do_mq_unlink : VMM Z := UNIMPLEMENTED_SYSCALL.
Definition elkvm_do_mq_timedsend : VMM Z := UNIMPLEMENTED_SYSCALL.
Definition elkvm_do_mq_timedreceive : VMM Z := UNIMPLEMENTED_SYSCALL.
Definition elkvm_do_mq_notify : VMM Z := UNIMPLEMENTED_SYSCALL.
Definition elkvm_do_getsetattr : VMM Z := UNIMPLEMENTED_SYSCALL.
Definition elkvm_do_kexec_load : VMM Z := UNIMPLEMENTED_SYSCALL.
Definition elkvm_do_waitid : VMM Z := UNIMPLEMENTED_SYSCALL.
Definition elkvm_do_add_key : VMM Z := UNIMPLEMENTED_SYSCALL.
Definition elkvm_do_request_key : VMM Z := UNIMPLEMENTED_SYSCALL.
Definition elkvm_do_keyctl : VMM Z := UNIMPLEMENTED_SYSCALL.
Definition elkvm_do_ioprio_set : VMM Z := UNIMPLEMENTED_SYSCALL.
Definition elkvm_do_ioprio_get : VMM Z := UNIMPLEMENTED_SYSCALL.
Definition elkvm_do_inotify_init : VMM Z := UNIMPLEMENTED_SYSCALL.
Definition elkvm_do_inotify_add_watch : VMM Z := UNIMPLEMENTED_SYSCALL.
Definition elkvm_do_inotify_rm_watch : VMM Z := UNIMPLEMENTED_SYSCALL.
Definition elkvm_do_migrate_pages : VMM Z := UNIMPLEMENTED_SYSCALL.
Definition elkvm_do_mkdirat : VMM Z := UNIMPLEMENTED_SYSCALL.
Definition elkvm_do_mknodat : VMM Z := UNIMPLEMENTED_SYSCALL.
Definition elkvm_do_fchownat : VMM Z := UNIMPLEMENTED_SYSCALL.
Definition elkvm_do_futimesat : VMM Z := UNIMPLEMENTED_SYSCALL.
Definition elkvm_do_newfstatat : VMM Z := UNIMPLEMENTED_SYSCALL.
Definition elkvm_do_unlinkat : VMM Z := UNIMPLEMENTED_SYSCALL.
Definition elkvm_do_renameat : VMM Z := UNIMPLEMENTED_SYSCALL.
Definition elkvm_do_linkat : VMM Z := UNIMPLEMENTED_SYSCALL.
Definition elkvm_do_symlinkat : VMM Z := UNIMPLEMENTED_SYSCALL.
Definition elkvm_do_readlinkat : VMM Z := UNIMPLEMENTED_SYSCALL.
Definition elkvm_do_fchmodat : VMM Z := UNIMPLEMENTED_SYSCALL.
Definition elkvm_do_faccessat : VMM Z := UNIMPLEMENTED_SYSCALL.
Definition elkvm_do_pselect6 : VMM Z := UNIMPLEMENTED_SYSCALL.
Definition elkvm_do_ppoll : VMM Z := UNIMPLEMENTED_SYSCALL.
Definition elkvm_do_unshare : VMM Z := UNIMPLEMENTED_SYSCALL.
Definition elkvm_do_get_robust_list : VMM Z := UNIMPLEMENTED_SYSCALL.
Definition elkvm_do_sendfile : VMM Z := UNIMPLEMENTED_SYSCALL.
Definition elkvm_do_connect : VMM Z := UNIMPLEMENTED_SYSCALL.
Definition elkvm_do_sendto : VMM Z := UNIMPLEMENTED_SYSCALL.
Definition elkvm_do_recvfrom : VMM Z := UNIMPLEMENTED_SYSCALL.
Definition elkvm_do_sendmsg : VMM Z := UNIMPLEMENTED_SYSCALL.
Definition elkvm_do_recvmsg : VMM Z := UNIMPLEMENTED_SYSCALL.
Definition elkvm_do_shutdown : VMM Z := UNIMPLEMENTED_SYSCALL.
Definition elkvm_do_getpeername : VMM Z := UNIMPLEMENTED_SYSCALL.
Definition elkvm_do_socketpair : VMM Z := UNIMPLEMENTED_SYSCALL.
Definition elkvm_do_getsockopt : VMM Z := UNIMPLEMENTED_SYSCALL.
End Stubs.
