(* ===== verification/Hypercall.v ===== *)
(** * Hypercalls, interrupts and the main loop

    [src/syscall.cc]: the system call table, [handle_syscall] and
    [handle_hypercall]; [src/interrupt.cc]; [VM::run] of [src/vm.cc]; the
    printing functions that look at guest memory.  [have_udis86] is the build
    option [HAVE_LIBUDIS86]. *)

From S2P Require Import Prelude Text Memory PageMath HostOS Tlb Pager Region RegionManager Registers Mappings Heap Vcpu Print Descriptors Vm Handlers Syscall SyscallStubs.
From stdpp Require Import strings.
Local Open Scope Z_scope.

Definition ELKVM_HYPERCALL_SYSCALL : Z := 1.
Definition ELKVM_HYPERCALL_INTERRUPT : Z := 2.
Definition ELKVM_HYPERCALL_EXIT : Z := 0x42.
Definition NUM_SYSCALLS : Z := 313.
Definition NR_exit_group : Z := 231.
Definition EXIT_FAILURE : Z := 1.

Module Interrupt.
Definition success : Z := 0.
Definition failure : Z := 1.
Definition debug_trap : Z := 0x01.
Definition stack_segment_fault : Z := 0x0c.
Definition general_protection_fault : Z := 0x0d.
Definition page_fault : Z := 0x0e.
End Interrupt.

Section Hypercalls.
Context {os T : Type} `{HostOS os} `{FileOS os} `{KvmOS os} `{MonitorOS os} `{TranslationCache T}.
Local Abbreviation VMM := (M (vm os T)).
Variable hs : elkvm_handlers os (vm os T).
Variable hyp : hypercall_handlers (vm os T).
Variable have_udis86 : bool.

(** ** The system call table *)

Definition elkvm_syscalls_low : list (option (VMM Z * string)) := [
  Some (elkvm_do_read hs, "READ");
  Some (elkvm_do_write hs, "WRITE");
  Some (elkvm_do_open hs, "OPEN");
  Some (elkvm_do_close hs, "CLOSE");
  Some (elkvm_do_stat hs, "STAT");
  Some (elkvm_do_fstat hs, "FSTAT");
  Some (elkvm_do_lstat hs, "LSTAT");
  Some (elkvm_do_poll, "POLL");
  Some (elkvm_do_lseek hs, "LSEEK");
  Some (elkvm_do_mmap hs, "MMAP");
  Some (elkvm_do_mprotect, "MPROTECT");
  Some (elkvm_do_munmap, "MUNMAP");
  Some (elkvm_do_brk, "BRK");
  Some (elkvm_do_sigaction hs, "SIGACTION");
  Some (elkvm_do_sigprocmask hs, "SIGPROCMASK");
  Some (elkvm_do_sigreturn, "SIGRETURN");
  Some (elkvm_do_ioctl hs, "IOCTL");
  Some (elkvm_do_pread64, "PREAD64");
  Some (elkvm_do_pwrite64, "PWRITE64");
  Some (elkvm_do_readv hs, "READV");
  Some (elkvm_do_writev hs, "WRITEV");
  Some (elkvm_do_access hs, "ACCESS");
  Some (elkvm_do_pipe hs, "PIPE");
  Some (elkvm_do_select, "SELECT");
  Some (elkvm_do_sched_yield, "SCHED YIELD");
  Some (elkvm_do_mremap, "MREMAP");
  Some (elkvm_do_msync, "MSYNC");
  Some (elkvm_do_mincore, "MINCORE");
  Some (elkvm_do_madvise, "MADVISE");
  Some (elkvm_do_shmget, "SHMGET");
  Some (elkvm_do_shmat, "SHMAT");
  Some (elkvm_do_shmctl, "SHMCTL");
  Some (elkvm_do_dup hs, "DUP");
  Some (elkvm_do_dup2, "DUP2");
  Some (elkvm_do_pause, "PAUSE");
  Some (elkvm_do_nanosleep hs, "NANOSLEEP");
  Some (elkvm_do_getitimer, "GETITIMER");
  Some (elkvm_do_alarm, "ALARM");
  Some (elkvm_do_setitimer, "SETITIMER");
  Some (elkvm_do_getpid hs, "GETPID");
  Some (elkvm_do_sendfile, "SENDFILE");
  Some (elkvm_do_socket hs, "SOCKET");
  Some (elkvm_do_connect, "CONNECT");
  Some (elkvm_do_accept hs, "ACCEPT");
  Some (elkvm_do_sendto, "SENDTO");
  Some (elkvm_do_recvfrom, "RECVFROM");
  Some (elkvm_do_sendmsg, "SENDMSG");
  Some (elkvm_do_recvmsg, "RECVMSG");
  Some (elkvm_do_shutdown, "SHUTDOWN");
  Some (elkvm_do_bind hs, "BIND");
  Some (elkvm_do_listen hs, "LISTEN");
  Some (elkvm_do_getsockname hs, "GETSOCKNAME");
  Some (elkvm_do_getpeername, "GETPEERNAME");
  Some (elkvm_do_socketpair, "SOCKETPAIR");
  Some (elkvm_do_setsockopt hs, "SETSOCKOPT");
  Some (elkvm_do_getsockopt, "GETSOCKOPT");
  Some (elkvm_do_clone, "CLONE");
  Some (elkvm_do_fork, "FORK");
  Some (elkvm_do_vfork, "VFORK");
  Some (elkvm_do_execve, "EXECVE");
  Some (elkvm_do_exit, "EXIT");
  Some (elkvm_do_wait4, "WAIT4");
  Some (elkvm_do_kill, "KILL");
  Some (elkvm_do_uname hs, "UNAME");
  Some (elkvm_do_semget, "SEMGET");
  Some (elkvm_do_semop, "SEMOP");
  Some (elkvm_do_semctl, "SEMCTL");
  Some (elkvm_do_shmdt, "SHMDT");
  Some (elkvm_do_msgget, "MSGGET");
  Some (elkvm_do_msgsnd, "MSGSND");
  Some (elkvm_do_msgrcv, "MSGRCV");
  Some (elkvm_do_msgctl, "MSGCTL");
  Some (elkvm_do_fcntl hs, "FCNTL");
  Some (elkvm_do_flock, "FLOCK");
  Some (elkvm_do_fsync, "FSYNC");
  Some (elkvm_do_fdatasync, "FDATASYNC");
  Some (elkvm_do_truncate hs, "TRUNCATE");
  Some (elkvm_do_ftruncate hs, "FTRUNCATE");
  Some (elkvm_do_getdents hs, "GETDENTS");
  Some (elkvm_do_getcwd hs, "GETCWD");
  Some (elkvm_do_chdir hs, "CHDIR");
  Some (elkvm_do_fchdir hs, "FCHDIR");
  Some (elkvm_do_rename, "RENAME");
  Some (elkvm_do_mkdir hs, "MKDIR");
  Some (elkvm_do_rmdir, "RMDIR");
  Some (elkvm_do_creat, "CREAT");
  Some (elkvm_do_link, "LINK");
  Some (elkvm_do_unlink hs, "UNLINK");
  Some (elkvm_do_symlink, "SYMLINK");
  Some (elkvm_do_readlink hs, "READLINK");
  Some (elkvm_do_chmod, "CHMOD");
  Some (elkvm_do_fchmod, "FCHMOD");
  Some (elkvm_do_chown, "CHOWN");
  Some (elkvm_do_fchown, "FCHOWN");
  Some (elkvm_do_lchown, "LCHOWN");
  Some (elkvm_do_umask, "UMASK");
  Some (elkvm_do_gettimeofday hs, "GETTIMEOFDAY");
  Some (elkvm_do_getrlimit, "GETRLIMIT");
  Some (elkvm_do_getrusage hs, "GETRUSAGE");
  Some (elkvm_do_sysinfo, "SYSINFO");
  Some (elkvm_do_times hs, "TIMES");
  Some (elkvm_do_ptrace, "PTRACE");
  Some (elkvm_do_getuid hs, "GETUID");
  Some (elkvm_do_syslog, "SYSLOG");
  Some (elkvm_do_getgid hs, "GETGID");
  Some (elkvm_do_setuid, "SETUID");
  Some (elkvm_do_setgid, "SETGID");
  Some (elkvm_do_geteuid hs, "GETEUID");
  Some (elkvm_do_getegid hs, "GETEGID");
  Some (elkvm_do_setpgid, "GETPGID");
  Some (elkvm_do_getppid, "GETPPID");
  Some (elkvm_do_getpgrp, "GETPGRP");
  Some (elkvm_do_setsid, "SETSID");
  Some (elkvm_do_setreuid, "SETREUID");
  Some (elkvm_do_setregid, "SETREGID");
  Some (elkvm_do_getgroups, "GETGROUPS");
  Some (elkvm_do_setgroups, "SETGROUPS");
  Some (elkvm_do_setresuid, "SETRESUID");
  Some (elkvm_do_getresuid, "GETRESUID");
  Some (elkvm_do_setresgid, "SETRESGID");
  Some (elkvm_do_getresgid, "GETRESGID");
  Some (elkvm_do_getpgid, "GETPGID");
  Some (elkvm_do_setfsuid, "SETFSUID");
  Some (elkvm_do_setfsgid, "SETFSGID");
  Some (elkvm_do_getsid, "GETSID");
  Some (elkvm_do_capget, "CAPGET");
  Some (elkvm_do_capset, "CAPSET");
  Some (elkvm_do_rt_sigpending, "RT SIGPENDING");
  Some (elkvm_do_rt_sigtimedwait, "RT SIGTIMEDWAIT");
  Some (elkvm_do_rt_sigqueueinfo, "RT SIGQUEUEINFO");
  Some (elkvm_do_rt_sigsuspend, "RT SIGSUSPEND");
  Some (elkvm_do_sigaltstack, "SIGALTSTACK");
  Some (elkvm_do_utime, "UTIME");
  Some (elkvm_do_mknod, "MKNOD");
  Some (elkvm_do_uselib, "USELIB");
  Some (elkvm_do_personality, "PERSONALITY");
  Some (elkvm_do_ustat, "USTAT");
  Some (elkvm_do_statfs hs, "STATFS");
  Some (elkvm_do_fstatfs hs, "FSTATFS");
  Some (elkvm_do_sysfs, "SYSFS")
].

Definition elkvm_syscalls_high : list (option (VMM Z * string)) := [
  Some (elkvm_do_getpriority, "GETPRIORITY");
  Some (elkvm_do_setpriority, "SETPRIORITY");
  Some (elkvm_do_sched_setparam, "SCHED SETPARAM");
  Some (elkvm_do_sched_getparam, "SCHED GETPARAM");
  Some (elkvm_do_sched_setscheduler, "SCHED SETSCHEDULER");
  Some (elkvm_do_sched_getscheduler, "SCHED GETSCHEDULER");
  Some (elkvm_do_sched_get_priority_max, "SCHED GET PRIORITY MAX");
  Some (elkvm_do_sched_get_priority_min, "SCHED GET PRIORITY MIN");
  Some (elkvm_do_sched_rr_get_interval, "SCHED RR GET INTERVAL");
  Some (elkvm_do_mlock, "MLOCK");
  Some (elkvm_do_munlock, "MUNLOCK");
  Some (elkvm_do_mlockall, "MLOCKALL");
  Some (elkvm_do_munlockall, "MUNLOCKALL");
  Some (elkvm_do_vhangup, "VHANGUP");
  Some (elkvm_do_modify_ldt, "MODIFY LDT");
  Some (elkvm_do_pivot_root, "PIVOT ROOT");
  Some (elkvm_do_sysctl, " SYSCTL");
  Some (elkvm_do_prctl, "PRCTL");
  Some (elkvm_do_arch_prctl, "ARCH PRCTL");
  Some (elkvm_do_adjtimex, "ADJTIMEX");
  Some (elkvm_do_setrlimit hs, "SETRLIMIT");
  Some (elkvm_do_chroot, "CHROOT");
  Some (elkvm_do_sync, "SYNC");
  Some (elkvm_do_acct, "ACCT");
  Some (elkvm_do_settimeofday, "SETTIMEOFDAY");
  Some (elkvm_do_mount, "MOUNT");
  Some (elkvm_do_umount2, "UMOUNT2");
  Some (elkvm_do_swapon, "SWAPON");
  Some (elkvm_do_swapoff, "SWAPOFF");
  Some (elkvm_do_reboot, "REBOOT");
  Some (elkvm_do_sethostname, "SETHOSTNAME");
  Some (elkvm_do_setdomainname, "SETDOMAINNAME");
  Some (elkvm_do_iopl, "IOPL");
  Some (elkvm_do_ioperm, "IOPERM");
  Some (elkvm_do_create_module, "CREATE MODULE");
  Some (elkvm_do_init_module, "INIT MODULE");
  Some (elkvm_do_delete_module, "DELETE MODULE");
  Some (elkvm_do_get_kernel_syms, "GET KERNEL SYMS");
  Some (elkvm_do_query_module, "QUERY MODULE");
  Some (elkvm_do_quotactl, "QUOTACTL");
  Some (elkvm_do_nfsservctl, "NFSSERVCTL");
  Some (elkvm_do_getpmsg, "GETPMSG");
  Some (elkvm_do_putpmsg, "PUTPMSG");
  Some (elkvm_do_afs_syscall, "AFS SYSCALL");
  Some (elkvm_do_tuxcall, "TUXCALL");
  Some (elkvm_do_security, "SECURITY");
  Some (elkvm_do_gettid hs, "GETTID");
  Some (elkvm_do_readahead, "READAHEAD");
  Some (elkvm_do_setxattr, "SETXATTR");
  Some (elkvm_do_lsetxattr, "LETSETXATTR");
  Some (elkvm_do_fsetxattr, "FSETXATTR");
  Some (elkvm_do_getxattr, "GETXATTR");
  Some (elkvm_do_lgetxattr, "LGETXATTR");
  Some (elkvm_do_fgetxattr, "FGETXATTR");
  Some (elkvm_do_listxattr, "LISTXATTR");
  Some (elkvm_do_llistxattr, "LLISTXATTR");
  Some (elkvm_do_flistxattr, "FLISTXATTR");
  Some (elkvm_do_removexattr, "REMOVEXATTR");
  Some (elkvm_do_lremovexattr, "LREMOVEXATTR");
  Some (elkvm_do_fremovexattr, "FREMOVEXATTR");
  Some (elkvm_do_tkill, "TKILL");
  Some (elkvm_do_time hs, "TIME");
  Some (elkvm_do_futex hs, "FUTEX");
  Some (elkvm_do_sched_setaffinity, "SCHED SETAFFINITY");
  Some (elkvm_do_sched_getaffinity, "SCHED GETAFFINITY");
  Some (elkvm_do_set_thread_area, "SET THREAD AREA");
  Some (elkvm_do_io_setup, "IO SETUP");
  Some (elkvm_do_io_destroy, "IO DESTROY");
  Some (elkvm_do_getevents, "IO GETEVENTS");
  Some (elkvm_do_submit, "IO SUBMIT");
  Some (elkvm_do_cancel, "IO CANCEL");
  Some (elkvm_do_get_thread_area, "GET THREAD AREA");
  Some (elkvm_do_lookup_dcookie, "LOOKUP DCOOKIE");
  Some (elkvm_do_epoll_create hs, "EPOLL CREATE");
  Some (elkvm_do_epoll_ctl_old, "EPOLL CTL OLD");
  Some (elkvm_do_epoll_wait_old, "EPOLL WAIT OLD");
  Some (elkvm_do_remap_file_pages, "REMAP FILE PAGES");
  Some (elkvm_do_getdents64, "GETDENTS64");
  Some (elkvm_do_set_tid_address hs, "SET TID ADDRESS");
  Some (elkvm_do_restart_syscall, "RESTART SYSCALL");
  Some (elkvm_do_semtimedop, "SEMTIMEDOP");
  Some (elkvm_do_fadive64, "FADVISE64");
  Some (elkvm_do_timer_create, "TIMER CREATE");
  Some (elkvm_do_timer_settime, "TIMER SETTIME");
  Some (elkvm_do_timer_gettime, "TIMER GETTIME");
  Some (elkvm_do_timer_getoverrun, "TIMER GETOVERRUN");
  Some (elkvm_do_timer_delete, "TIMER DELETE");
  Some (elkvm_do_clock_settime, "CLOCK SETTIME");
  Some (elkvm_do_clock_gettime hs, "CLOCK GETTIME");
  Some (elkvm_do_clock_getres hs, "CLOCK GETRES");
  Some (elkvm_do_clock_nanosleep, "CLOCK NANOSLEEP");
  Some (elkvm_do_exit_group hs, "EXIT GROUP");
  Some (elkvm_do_epoll_wait hs, "EPOLL WAIT");
  Some (elkvm_do_epoll_ctl hs, "EPOLL CTL");
  Some (elkvm_do_tgkill hs, "TGKILL");
  Some (elkvm_do_utimes, "UTIMES");
  Some (elkvm_do_vserver, "VSERVER");
  Some (elkvm_do_mbind, "MBIND");
  Some (elkvm_do_mpolicy, "SET MPOLICY");
  Some (elkvm_do_get_mempolicy, "GET MEMPOLICY");
  Some (elkvm_do_mq_open, "MQ OPEN");
  Some (elkvm_do_mq_unlink, "MQ UNLINK");
  Some (elkvm_do_mq_timedsend, "MQ TIMEDSEND");
  Some (elkvm_do_mq_timedreceive, "MQ TIMEDRECEIVE");
  Some (elkvm_do_mq_notify, "MQ NOTIFY");
  Some (elkvm_do_getsetattr, "MQ GETSETATTR");
  Some (elkvm_do_kexec_load, "KEXEC LOAD");
  Some (elkvm_do_waitid, "WAITID");
  Some (elkvm_do_add_key, "ADD KEY");
  Some (elkvm_do_request_key, "REQUEST KEY");
  Some (elkvm_do_keyctl, "KEYCTL");
  Some (elkvm_do_ioprio_set, "IOPRIO SET");
  Some (elkvm_do_ioprio_get, "IOPRIO GET");
  Some (elkvm_do_inotify_init, "INOTIFY INIT");
  Some (elkvm_do_inotify_add_watch, "INOTIFY ADD WATCH");
  Some (elkvm_do_inotify_rm_watch, "INOTIFY RM WATCH");
  Some (elkvm_do_migrate_pages, "MIGRATE PAGES");
  Some (elkvm_do_openat hs, "OPENAT");
  Some (elkvm_do_mkdirat, "MKDIRAT");
  Some (elkvm_do_mknodat, "MKNODAT");
  Some (elkvm_do_fchownat, "FCHOWNAT");
  Some (elkvm_do_futimesat, "FUTIMESAT");
  Some (elkvm_do_newfstatat, "NEWFSTATAT");
  Some (elkvm_do_unlinkat, "UNLINKAT");
  Some (elkvm_do_renameat, "RENAMEAT");
  Some (elkvm_do_linkat, "LINKAT");
  Some (elkvm_do_symlinkat, "SYMLINKAT");
  Some (elkvm_do_readlinkat, "READLINKAT");
  Some (elkvm_do_fchmodat, "FCHMODAT");
  Some (elkvm_do_faccessat, "FACCESSAT");
  Some (elkvm_do_pselect6, "PSELECT6");
  Some (elkvm_do_ppoll, "PPOLL");
  Some (elkvm_do_unshare, "UNSHARE");
  Some (elkvm_do_set_robust_list hs, "SET ROBUST LIST");
  Some (elkvm_do_get_robust_list, "GET ROBUST LIST")
].

(** The designated initialisers leave the entries from 275 on null. *)
Definition elkvm_syscalls : list (option (VMM Z * string)) :=
  elkvm_syscalls_low ++ elkvm_syscalls_high ++ replicate 38 None.

Definition handle_syscall : VMM Z :=
  let! syscall_num := get_parameter 0 in
  let! d := debug_mode in
  do! (if d then let! _e := at_z elkvm_syscalls syscall_num in ret tt else ret tt) in
  if NUM_SYSCALLS <? syscall_num then
    do! set_syscall_return (- ENOSYS) in ret 0
  else
    let! e := at_z elkvm_syscalls syscall_num in
    let! '(func, _name) := deref e in
    let! result := func in
    if syscall_num =? NR_exit_group then ret ELKVM_HYPERCALL_EXIT else
    do! set_syscall_return result in
    ret 0.

(** ** Printing *)

(** The rows of [print_memory]: the addresses and two words. *)
Fixpoint memory_rows (n : nat) (m : mem) (host_p addr : Z) : list item :=
  match n with
  | O => []
  | S n' =>
      [Hex; Str " "; Ptr host_p; Str " 0x"; Num addr;
       Chr tab; Str "0x"; Setw 16; Setfill 48; Num (load64 m host_p);
       Chr tab; Str "0x"; Setw 16; Setfill 48; Num (load64 m (host_p + 8)); Endl]
      ++ memory_rows n' m (host_p + 16) (u64 (addr + 0x10))
  end.

(** [print_memory] of [src/debug.cc]: what it hands to the stream. *)
Definition print_memory (addr : Z) (size : nat) : VMM (list item) :=
  do! assert_ (negb (addr =? 0)) in
  let! host_p := host_p_ addr in
  do! assert_ (negb (host_p =? 0)) in
  let! m := memory in
  ret ([Str " Host Address"; Chr tab; Str "Guest Address"; Chr tab; Chr tab; Str "Value"; Chr tab; Chr tab; Chr tab;
        Str "Value"; Endl] ++ memory_rows size m host_p addr).

Definition print_stack : VMM (list item) :=
  let! sp := on_cpu 0 (get_reg rsp) in
  do! assert_ (negb (sp =? 0)) in
  let! rows := print_memory sp 16 in
  ret ([Endl; Str " Stack:"; Endl; Str " ------"; Endl] ++ rows).

Definition print_code (addr : Z) : VMM unit :=
  if have_udis86 then
    let! host_p := host_p_ addr in
    assert_ (negb (host_p =? 0))
  else ret tt.

Definition print_info : VMM unit :=
  let! reason := on_cpu 0 exit_reason in
  let! ip := on_cpu 0 (get_reg rip) in
  let! v := on_cpu 0 (gets c_vcpu) in
  if (reason =? KVM_EXIT_MMIO) || (reason =? KVM_EXIT_SHUTDOWN) then
    let! _text := print_stack in print_code ip
  else if is_singlestepping v && (reason =? hypercall_exit) then print_code ip
  else ret tt.

(** ** Interrupts *)

Definition handle_stack_segment_fault (code : Z) : VMM Z := ret Interrupt.failure.
Definition handle_general_protection_fault (code : Z) : VMM Z := ret Interrupt.failure.

Definition handle_debug_trap (code : Z) : VMM Z :=
  do! on_cpu 0 (push code) in
  ret Interrupt.success.

Definition handle_segfault (pfla : Z) : VMM Z :=
  if pfla <=? 0x1000 then fail (Exit EXIT_FAILURE) else ret Interrupt.failure.

(** In the last branch the tables are printed when the address is mapped. *)
Definition handle_page_fault (code : Z) : VMM Z :=
  let! err := on_cpu 0 get_sregs in
  do! assert_ (err =? 0) in
  let! pfla := on_cpu 0 (get_reg cr2) in
  let! _e := handle_segfault pfla in
  let! expanded := on_cpu 0 handle_stack_expansion in
  if ctrue expanded then ret Interrupt.success else
  let! hp := host_p_ pfla in
  let! _text := (if negb (hp =? 0) then pager dump_page_tables else ret []) in
  ret Interrupt.failure.

(** What [handle_interrupt] does in debug mode, besides printing. *)
Definition interrupt_debug : VMM unit :=
  let! _err := on_cpu 0 get_sregs in
  let! _text := print_stack in
  let! stack_p := on_cpu 0 (get_reg rsp) in
  let! host_p := host_p_ stack_p in
  do! assert_ (negb (host_p =? 0)) in
  let! m := memory in
  print_code (load64 m (host_p + 8)).

Definition handle_interrupt : VMM Z :=
  let! interrupt_vector := on_cpu 0 pop in
  let! d := debug_mode in
  do! (if d then interrupt_debug else ret tt) in
  let! err_code := on_cpu 0 pop in
  if interrupt_vector =? Interrupt.debug_trap then handle_debug_trap err_code
  else if interrupt_vector =? Interrupt.stack_segment_fault then handle_stack_segment_fault err_code
  else if interrupt_vector =? Interrupt.general_protection_fault then handle_general_protection_fault err_code
  else if interrupt_vector =? Interrupt.page_fault then handle_page_fault err_code
  else ret Interrupt.failure.

(** ** Hypercalls *)

(** The result is an [unsigned]. *)
Definition get_hypercall_type : VMM Z := let! v := on_cpu 0 pop in ret (u32 v).

Definition run_hook (h : option (Z -> VMM Z)) (call : Z) : VMM unit :=
  match h with
  | Some f => let! _r := f (s32 call) in ret tt
  | None => ret tt
  end.

(** What follows a hypercall that was handled. *)
Definition finish_hypercall (call : Z) : VMM Z :=
  do! run_hook (post_handler hyp) call in
  do! elkvm_emulate_vmcall in
  let! err := signal_deliver in
  do! assert_ (err =? 0) in
  ret 0.

Definition handle_hypercall : VMM Z :=
  let! call := get_hypercall_type in
  do! run_hook (pre_handler hyp) call in
  if call =? ELKVM_HYPERCALL_SYSCALL then
    let! err := handle_syscall in
    if ctrue err then ret err else finish_hypercall call
  else if call =? ELKVM_HYPERCALL_INTERRUPT then
    let! err := handle_interrupt in
    if ctrue err then ret err else finish_hypercall call
  else ret 1.

(** [elkvm_handle_debug] of [src/debug.cc]. *)
Definition elkvm_handle_debug : VMM Z :=
  match h_bp_callback hs with
  | Some bp_callback => bp_callback
  | None => ret 0
  end.

(** ** The main loop *)

(** One round: [inr] when the loop ends, with the result of [run]. *)
Definition run_step (_ : unit) : VMM (unit + Z) :=
  let! err := on_cpu 0 set_regs in
  if ctrue err then ret (inr err) else
  let! reason := on_cpu 0 kvm_run_ in
  if reason <? 0 then ret (inr reason) else
  let! err := on_cpu 0 get_regs in
  if ctrue err then ret (inr err) else
  do! print_info in
  if reason =? hypercall_exit then
    let! err := handle_hypercall in
    ret (if ctrue err then inr 0 else inl tt)
  else
    let! running := on_cpu 0 handle_vm_exit in
    ret (if running then inl tt else inr 0).

Definition run : VMM Z := while_ run_step tt.
End Hypercalls.
