(* ===== verification/Logging.v ===== *)
(** * Logging and disassembly: [elkvm-log.h], the log functions of [syscall.h] and
    [src/syscall.cc], [src/udis86.cc]

    A record of the log is what one [DBG()] statement streams into a fresh
    stream.  The disassembler is an interface: a decoder over an input buffer
    that answers how many bytes it took, zero at the end of the buffer. *)

From stdpp Require Import strings.
From Stdlib Require Import Ascii.
From S2P Require Import Prelude Text Memory PageMath HostOS Tlb Pager Region RegionManager Registers Mappings Heap Vcpu Print Descriptors Vm Handlers Syscall SyscallStubs Hypercall.
Local Open Scope Z_scope.

(** ** Records *)

(** An escape sequence that sets a colour. *)
Definition escape (code : string) : string := String (ascii_of_nat 27) code.

Definition LOG_RED : string := escape "[31;1m".
Definition LOG_GREEN : string := escape "[32m".
Definition LOG_YELLOW : string := escape "[33m".
Definition LOG_BLUE : string := escape "[34;1m".
Definition LOG_MAGENTA : string := escape "[35;1m".
Definition LOG_CYAN : string := escape "[36m".
Definition LOG_RESET : string := escape "[0m".

Definition LOG_GUEST_HOST (guest host : Z) : list item := [Ptr guest; Str " ("; Ptr host; Str ")"].
Definition LOG_DEC_HEX (val : Z) : list item := [Dec; Num val; Str " ("; Hex; Str "0x"; Num val; Str ")"].

(** The start of every record, with the name of the function. *)
Definition MY_LOG_PREFIX (func : string) : list item :=
  [Str LOG_YELLOW; Str "("; Setw 24; Str func; Str ") "; Str LOG_RESET].
Definition DBG (func : string) : list item := MY_LOG_PREFIX func.
Definition INFO (func : string) : list item := MY_LOG_PREFIX func.
Definition ERROR (func : string) : list item := MY_LOG_PREFIX func ++ [Str LOG_RED].

Definition record_text (r : list item) : list Z := out (put_items r ostream_init).

(** A signed number. *)
Definition Int (n : Z) : list item := if n <? 0 then [Chr (chr "-"); Num (- n)] else [Num n].

(** ** Results of system calls *)

Definition errno_record (errno : Z) (msg : string) : list item :=
  DBG "dbg_log_result" ++ [Chr tab; Str "errno: "; Dec; Num errno; Str " msg: "; Str msg].

(** [dbg_log_result<int>]. *)
Definition dbg_log_result_int (errno : Z) (strerror : Z -> string) (res : Z) : list (list item) :=
  [DBG "dbg_log_result" ++ [Chr tab; Str "result: "; Dec] ++ Int res] ++
  (if res <? 0 then [errno_record errno (strerror errno)] else []).

(** [dbg_log_result<char *>]: the string is streamed before the pointer is
    compared with null; streaming a null pointer is a fault. *)
Definition dbg_log_result_str (errno : Z) (strerror : Z -> string) (r : option string) : res (list (list item)) :=
  match r with
  | None => Fail NullDeref
  | Some t => Ok [DBG "dbg_log_result" ++ [Chr tab; Str "result: "; Str t]]
  end.

(** [dbg_log_result] of any other, unsigned, type. *)
Definition dbg_log_result (res : Z) : list (list item) :=
  [DBG "dbg_log_result" ++ [Chr tab; Str "result: "; Num res]].

Definition dbg_log_read (debug : bool) (fd buf_p buf parcount count result : Z) : list (list item) :=
  if debug then
    [DBG "dbg_log_read" ++ [Str "READ from fd: "] ++ Int fd ++ [Str " with size "] ++ LOG_DEC_HEX parcount ++
     [Str " of "] ++ LOG_DEC_HEX count ++ [Str " buf @ "] ++ LOG_GUEST_HOST buf_p buf] ++
    dbg_log_result result
  else [].

(** ** The arguments of [mmap] *)

Definition PROT_NONE : Z := 0x0.
Definition MAP_SHARED : Z := 0x01.
Definition MAP_PRIVATE : Z := 0x02.
Definition MAP_32BIT : Z := 0x40.
Definition MAP_GROWSDOWN : Z := 0x100.
Definition MAP_DENYWRITE : Z := 0x800.
Definition MAP_LOCKED : Z := 0x2000.
Definition MAP_NORESERVE : Z := 0x4000.
Definition MAP_POPULATE : Z := 0x8000.
Definition MAP_NONBLOCK : Z := 0x10000.
Definition MAP_STACK : Z := 0x20000.

(** The names of the bits that are set. *)
Definition named (x : Z) (names : list (Z * string)) : list item :=
  map (fun '(bit, t) => if ctrue (Z.land x bit) then Str t else Str "") names.

Definition log_mmap_args (addr length prot flags fd off : Z) : list (list item) :=
  let cyan l := DBG "log_mmap_args" ++ [Str LOG_CYAN] ++ l ++ [Str LOG_RESET] in
  [cyan [Str "address "; Hex; Num addr; Str " length "; Num length];
   cyan ([Str "protection: ("; Hex; Num prot; Str ") "] ++
         named prot [(PROT_NONE, "PROT_NONE "); (PROT_WRITE, "PROT_WRITE "); (PROT_READ, "PROT_READ ");
                     (PROT_EXEC, "PROT_EXEC ")]);
   cyan ([Str "flags: ("; Hex; Num flags; Str ") "] ++
         named flags [(MAP_SHARED, "MAP_SHARED "); (MAP_PRIVATE, "MAP_PRIVATE "); (MAP_ANONYMOUS, "MAP_ANONYMOUS ");
                      (MAP_32BIT, "MAP_32BIT "); (MAP_DENYWRITE, "MAP_DENYWRITE "); (MAP_FIXED, "MAP_FIXED ");
                      (MAP_GROWSDOWN, "MAP_GROWSDOWN "); (MAP_LOCKED, "MAP_LOCKED "); (MAP_NONBLOCK, "MAP_NONBLOCK ");
                      (MAP_NORESERVE, "MAP_NORESERVE "); (MAP_POPULATE, "MAP_POPULATE "); (MAP_STACK, "MAP_STACK ")]);
   cyan [Str "fd "; Num fd; Str " offset "; Num off]].

(** ** Time stamps *)

(** [rdtsc]: two halves in two registers. *)
Definition rdtsc (lo hi : Z) : Z := Z.lor lo (u64 (Z.shiftl hi 32)).

(** [TSC_SAMPLE_DATA]: the statics of a place that is measured. *)
Record tsc := mkTsc { _tsc : list Z; _tsc_idx : Z; _tsc_counter : Z }.
Definition TSC_SAMPLE_DATA (sample_size : nat) : tsc := mkTsc (replicate sample_size 0) 0 0.

(** [TSC_END] after [TSC_START]: the sample is stored; a full array is averaged
    in a record and reused. *)
Definition TSC_END (func : string) (t1 t2 : Z) : M tsc (option (list item)) :=
  let! s := get in
  let count := Z.of_nat (length (_tsc s)) in
  let! _old := at_z (_tsc s) (_tsc_idx s) in
  let l := <[Z.to_nat (_tsc_idx s) := u64 (t2 - t1)]> (_tsc s) in
  let idx := s32 (_tsc_idx s + 1) in
  if idx =? count then
    let counter := s32 (_tsc_counter s + 1) in
    let sum := fold_left (fun a x => u64 (a + x)) l 0 in
    do! put (mkTsc l 0 counter) in
    ret (Some (INFO func ++ [Str "["] ++ Int counter ++ [Str "] "] ++ Int count ++
               [Str " timestamps: "; Dec; Num (sum / count); Str " cycles per call."]))
  else
    do! put (mkTsc l idx (_tsc_counter s)) in
    ret None.

(** ** The disassembler *)

Inductive ud_syntax := UD_SYN_INTEL | UD_SYN_ATT.

(** What [udis86.h] offers over a state: [ud_disassemble] answers the number of
    bytes of the next instruction, 0 at the end of the input. *)
Class Disassembler (U : Type) := {
  ud_init : U;
  ud_set_mode : U -> Z -> U;
  ud_set_syntax : U -> ud_syntax -> U;
  ud_set_input_buffer : U -> mem -> Z -> nat -> U;
  ud_disassemble : U -> Z * U;
  ud_insn_asm : U -> string;
}.

(** Documented behaviour: the buffer that is set is the input, and the answer of
    [ud_disassemble] is the number of bytes it has taken from the input. *)
Class DisassemblerLaws (U : Type) `{Disassembler U} := {
  ud_left : U -> Z;
  ud_left_range u : 0 <= ud_left u;
  ud_left_input u m p n : ud_left (ud_set_input_buffer u m p n) = Z.of_nat n;
  ud_left_step u : 0 <= (ud_disassemble u).1 /\ ud_left (ud_disassemble u).2 = ud_left u - (ud_disassemble u).1;
}.

Section UDis.
Context {U : Type} `{Disassembler U}.

Definition bits : Z := 64.
Definition disassembly_size : nat := 40.

(** The constructor of [class UDis] and its operations, with [HAVE_LIBUDIS86]. *)
Definition UDis_new (m : mem) (ptr : Z) : U :=
  let u := ud_set_syntax (ud_set_mode ud_init bits) UD_SYN_INTEL in
  ud_set_input_buffer u m ptr disassembly_size.
Definition disassemble : M U Z :=
  let! u := get in
  let '(n, u') := ud_disassemble u in
  do! put u' in
  ret n.
Definition next_insn : M U string := gets ud_insn_asm.

(** One round of the loop of [print_code]. *)
Definition code_step (acc : list item) : M U (list item + list item) :=
  let! n := disassemble in
  if ctrue n then let! t := next_insn in ret (inl (acc ++ [Str " "; Str t; Endl]))
  else ret (inr acc).

Definition code_lines : M U (list item) := while_ code_step [].
End UDis.

Section PrintCode.
Context {os T : Type} `{HostOS os} `{FileOS os} `{KvmOS os} `{MonitorOS os} `{TranslationCache T}.
Context {U : Type} `{Disassembler U}.
Variable have_udis86 : bool.

(** [print_code]: what it hands to the stream. *)
Definition print_code_text (addr : Z) : M (vm os T) (list item) :=
  if have_udis86 then
    let! host_p := host_p_ addr in
    do! assert_ (negb (host_p =? 0)) in
    let! m := memory in
    match code_lines (U := U) (UDis_new m host_p) with
    | Ok (lines, _) =>
        ret ([Chr newline; Str " Code (from 0x"; Hex; Num addr; Str "):"; Chr newline;
              Str " ------------------------------"; Chr newline] ++ lines ++ [Endl])
    | Fail e => fail e
    end
  else ret [Str "Printing code needs libudis86"; Chr newline; Chr newline].

(** The overload for a CPU prints from its instruction pointer. *)
Definition print_code_cpu : M (vm os T) (list item) :=
  let! ip := on_cpu 0 (get_reg rip) in
  print_code_text ip.
End PrintCode.
