(* ===== verification/Environ.v ===== *)
(** * The environment of the guest program: [src/environ.cc]

    [class EnvRegion] and [class Environment]: the strings of the arguments, the
    environment and the auxiliary vector are copied to a region, their
    addresses are pushed on the stack of the CPU.  Strings are lists of bytes
    without the terminating zero.  [create_and_setup_environment] is the one of
    [src/vm.cc]. *)

From S2P Require Import Prelude Memory PageMath HostOS Tlb Pager Region RegionManager Registers Mappings Heap Vcpu.
Local Open Scope Z_scope.

Definition AT_NULL : Z := 0.
Definition AT_IGNORE : Z := 1.
Definition AT_EXECFD : Z := 2.
Definition AT_PHDR : Z := 3.
Definition AT_PHENT : Z := 4.
Definition AT_PHNUM : Z := 5.
Definition AT_PAGESZ : Z := 6.
Definition AT_BASE : Z := 7.
Definition AT_FLAGS : Z := 8.
Definition AT_ENTRY : Z := 9.
Definition AT_NOTELF : Z := 10.
Definition AT_UID : Z := 11.
Definition AT_EUID : Z := 12.
Definition AT_GID : Z := 13.
Definition AT_EGID : Z := 14.
Definition AT_HWCAP : Z := 16.
Definition AT_CLKTCK : Z := 17.
Definition AT_SECURE : Z := 23.
Definition AT_SYSINFO_EHDR : Z := 33.

(** [struct Elf_auxv] of [include/elkvm/elfloader.h]: what the loader knows of
    a dynamically linked binary. *)
Record Elf_auxv := mkElfAuxv {
  at_phdr : Z;
  at_phent : Z;
  at_phnum : Z;
  at_entry : Z;
  at_base : Z;
  valid : bool;
}.

(** [class EnvRegion]. *)
Record EnvRegion := mkEnvRegion { _region : rid; _offset : Z }.

(** [class Environment]; an entry of the auxiliary vector is its type and value. *)
Record Environment := mkEnv {
  e_region : EnvRegion;
  _auxv : list (Z * Z);
  _env : list (list Z);
  _argv : list (list Z);
  _argc : Z;
}.

Definition itypes : list Z :=
  [AT_NULL; AT_IGNORE; AT_EXECFD; AT_PHDR; AT_PHENT; AT_PHNUM; AT_PAGESZ; AT_FLAGS; AT_ENTRY;
   AT_NOTELF; AT_UID; AT_EUID; AT_GID; AT_EGID; AT_HWCAP; AT_CLKTCK; AT_SECURE; AT_BASE].

Definition treat_as_int_type (type : Z) : bool := existsb (Z.eqb (s32 type)) itypes.
Definition ignored_type (type : Z) : bool := existsb (Z.eqb (s32 type)) [AT_SYSINFO_EHDR].

(** One entry of [fix_auxv_dynamic_values]: the bit it sets and the new value. *)
Definition fix_auxv_entry (b : Elf_auxv) (a : Z * Z) : Z * (Z * Z) :=
  let '(t, v) := a in
  if t =? AT_PHDR then (0x1, (t, at_phdr b))
  else if t =? AT_PHENT then (0x2, (t, at_phent b))
  else if t =? AT_PHNUM then (0x4, (t, at_phnum b))
  else if t =? AT_ENTRY then (0x8, (t, at_entry b))
  else if t =? AT_BASE then (0x10, (t, at_base b))
  else (0, (t, v)).

Section Environ.
Context {os T : Type} `{HostOS os} `{KvmOS os} `{TranslationCache T}.
Local Abbreviation CPU := (M (cpu os T)).

Definition cpu_memory : CPU mem := gets (fun s => p_mem (rm_pager (c_rm s))).
Definition env_lookup (r : rid) : CPU Region := on_cpu_rm (on_store (lookup_region r)).

(** ** Reading the process's own arguments *)

(** The C string at a host address; a null pointer throws. *)
Definition cstr_step (x : Z * list Z) : CPU ((Z * list Z) + list Z) :=
  let '(p, acc) := x in
  let! m := cpu_memory in
  let b := load8 m p in
  if b =? 0 then ret (inr acc) else ret (inl (p + 1, acc ++ [b])).

Definition read_cstr (p : Z) : CPU (list Z) :=
  if p =? 0 then fail Throw else while_ cstr_step (p, []).

(** [fill_argv]: the loop over [i < _argc]. *)
Fixpoint fill_argv (n : nat) (argv : Z) : CPU (list (list Z)) :=
  match n with
  | O => ret []
  | S n' =>
      let! m := cpu_memory in
      let! s := read_cstr (load64 m argv) in
      let! l := fill_argv n' (argv + 8) in
      ret (s :: l)
  end.

Definition fill_env_step (x : Z * list (list Z)) : CPU ((Z * list (list Z)) + list (list Z)) :=
  let '(env, acc) := x in
  let! m := cpu_memory in
  if load64 m env =? 0 then ret (inr acc) else
  let! s := read_cstr (load64 m env) in
  ret (inl (env + 8, acc ++ [s])).

Definition fill_env (env : Z) : CPU (list (list Z)) := while_ fill_env_step (env, []).

(** [calc_auxv]: the address behind the null that ends the environment. *)
Definition calc_auxv (env : Z) : CPU Z :=
  while_ (fun p => let! m := cpu_memory in
                   if load64 m p =? 0 then ret (inr (p + 8)) else ret (inl (p + 8))) env.

Definition fill_auxv_step (x : Z * list (Z * Z)) : CPU ((Z * list (Z * Z)) + list (Z * Z)) :=
  let '(auxv, acc) := x in
  let! m := cpu_memory in
  if load64 m auxv =? AT_NULL then ret (inr acc)
  else ret (inl (auxv + 16, acc ++ [(load64 m auxv, load64 m (auxv + 8))])).

Definition fill_auxv (auxv : Z) : CPU (list (Z * Z)) := while_ fill_auxv_step (auxv, []).

(** ** The region *)

Definition EnvRegion_new (r : rid) : CPU EnvRegion :=
  let! reg := env_lookup r in
  do! on_cpu_rm (set_guest_addr_of r (u64 (base_address reg))) in
  ret (mkEnvRegion r (Region.size reg)).

(** The string is copied without a terminator; the byte behind it keeps what
    the region held. *)
Definition write_str (e : EnvRegion) (str : list Z) : CPU (Z * EnvRegion) :=
  let len := Z.of_nat (length str) in
  do! assert_ (len + 1 <? u64 (_offset e)) in
  let noff := s64 (_offset e - len - 1) in
  let! reg := env_lookup (_region e) in
  let target := base_address reg + noff in
  do! assert_ (target + len <? base_address reg + Region.size reg) in
  let guest_virtual := u64 (guest_address reg + noff) in
  do! assert_ (u64 (guest_virtual + len) <? u64 (guest_address reg + Region.size reg)) in
  do! on_cpu_rm (on_pager (upd_mem (fun m => store_bytes m target str))) in
  ret (guest_virtual, mkEnvRegion (_region e) noff).

Definition push_str_copy (e : EnvRegion) (str : list Z) : CPU EnvRegion :=
  let! '(guest_virtual, e) := write_str e str in
  do! push guest_virtual in
  ret e.

(** ** Building the stack *)

Definition Environment_new (r : rid) (argc argv env : Z) : CPU Environment :=
  let! e := EnvRegion_new r in
  let! args := fill_argv (Z.to_nat argc) argv in
  let! envs := fill_env env in
  let! p := calc_auxv env in
  let! auxv := fill_auxv p in
  ret (mkEnv e auxv envs args argc).

Definition fix_auxv_dynamic_values (b : Elf_auxv) (l : list (Z * Z)) : CPU (list (Z * Z)) :=
  let fixed := map (fix_auxv_entry b) l in
  do! assert_ (fold_left Z.lor (map fst fixed) 0 =? 0x1F) in
  ret (map snd fixed).

(** One entry; the list is walked from the back. *)
Definition push_auxv_entry (e : EnvRegion) (a : Z * Z) : CPU EnvRegion :=
  let '(t, v) := a in
  if ignored_type t then ret e else
  let! e := (if treat_as_int_type t then do! push v in ret e
             else let! s := read_cstr v in push_str_copy e s) in
  do! push t in
  ret e.

Fixpoint push_list {A} (f : EnvRegion -> A -> CPU EnvRegion) (e : EnvRegion) (l : list A) : CPU EnvRegion :=
  match l with
  | [] => ret e
  | a :: l' => let! e := f e a in push_list f e l'
  end.

Definition push_auxv_raw (e : EnvRegion) (l : list (Z * Z)) : CPU EnvRegion :=
  push_list push_auxv_entry e (rev l).

Definition push_auxv (b : Elf_auxv) (e : EnvRegion) (l : list (Z * Z)) : CPU EnvRegion :=
  let! l := (if valid b then fix_auxv_dynamic_values b l else ret l) in
  let! e := push_auxv_raw e l in
  do! push 0 in
  ret e.

Definition push_env (e : EnvRegion) (l : list (list Z)) : CPU EnvRegion :=
  let! e := push_list push_str_copy e (rev l) in
  do! push 0 in
  ret e.

Definition push_argv (e : EnvRegion) (l : list (list Z)) : CPU EnvRegion :=
  push_list push_str_copy e (rev l).

Definition push_argc (argc : Z) : CPU unit := push (u64 argc).

Definition create (b : Elf_auxv) (env : Environment) : CPU Z :=
  let! err := get_regs in
  do! assert_ (err =? 0) in
  let! e := push_auxv b (e_region env) (_auxv env) in
  let! e := push_env e (_env env) in
  let! e := push_argv e (_argv env) in
  do! push_argc (_argc env) in
  set_regs.

Definition env_pages : Z := 12.

Definition create_and_setup_environment (b : Elf_auxv) (argc argv environ : Z) : CPU Z :=
  let! r := on_cpu_rm (allocate_region (env_pages * ELKVM_PAGESIZE) "ELKVM Environment") in
  let! env := Environment_new r argc argv environ in
  let! reg := env_lookup r in
  let! err := on_cpu_rm (on_pager (map_region (base_address reg) (guest_address reg) env_pages
                                              PT_OPT_WRITE)) in
  do! assert_ (err =? 0) in
  create b env.
End Environ.
