(* ===== verification/VmSpec.v ===== *)
(** * The machine: lemmas

    How the operations of CPU 0 and the translation of guest pointers act on
    the state of the whole machine. *)

From S2P Require Import Prelude Memory PageMath HostOS Tlb Pager PagerTree PagerWalk PagerSpec PagerTlb PagerTheorems Region RegionManager RegionSpec RegionTheorems Registers Mappings Heap HeapSpec HeapTheorems Vcpu VcpuTheorems Descriptors Vm Handlers Syscall.
Local Open Scope Z_scope.

Section VmSpec.
Context {os T : Type}.
Implicit Types s : vm os T.

(** CPU 0 with the memory it works on, and putting it back. *)
Definition cpu0 s (v : VCPU) : cpu os T := mkCpu v (hm_rm (v_hm s)).
Definition put_cpu0 s (c : cpu os T) : vm os T :=
  with_cpus (with_hm s (mkHM (mappings_for_brk (v_hm s)) (mappings_for_mmap (v_hm s))
                             (curbrk (v_hm s)) (c_rm c)))
            (<[0%nat := c_vcpu c]> (cpus s)).

(** The paging part of the machine. *)
Definition vm_paging s : pst os T := rm_pager (hm_rm (v_hm s)).

Lemma put_cpu0_id s v : cpus s !! 0%nat = Some v -> put_cpu0 s (cpu0 s v) = s.
Proof.
  intros Hv. unfold put_cpu0, cpu0. destruct s as [cs d [b m k r] fd rl sg f p n]. cbn in *.
  by rewrite (list_insert_id cs 0%nat v Hv).
Qed.

Lemma put_cpu0_lookup s c v : cpus s !! 0%nat = Some v -> cpus (put_cpu0 s c) !! 0%nat = Some (c_vcpu c).
Proof. intros Hv. cbn. apply list_lookup_insert_eq. by eapply lookup_lt_Some. Qed.

Lemma cpu0_put s c : cpu0 (put_cpu0 s c) (c_vcpu c) = c.
Proof. by destruct c. Qed.

Lemma put_cpu0_put s c c' : put_cpu0 (put_cpu0 s c) c' = put_cpu0 s c'.
Proof.
  unfold put_cpu0, with_cpus, with_hm. cbn. by rewrite list_insert_insert_eq.
Qed.

Lemma on_cpu_eq {A} (c : M (cpu os T) A) s v :
  cpus s !! 0%nat = Some v ->
  on_cpu 0 c s = match c (cpu0 s v) with
                 | Ok (a, c') => Ok (a, put_cpu0 s c')
                 | Fail f => Fail f
                 end.
Proof. intros Hv. unfold on_cpu. by rewrite Hv. Qed.

Lemma wp_on_cpu {A} F (c : M (cpu os T) A) Q s v :
  cpus s !! 0%nat = Some v ->
  wp F c (fun a c' => Q a (put_cpu0 s c')) (cpu0 s v) -> wp F (on_cpu 0 c) Q s.
Proof. intros Hv. unfold wp. rewrite (on_cpu_eq c s v Hv). by destruct (c _) as [[a c']|f]. Qed.

(** ** Registers *)

(** A register of CPU 0. *)
Definition vreg (v : VCPU) (r : Reg_t) : Z := kvm_get_reg (_kvm_vcpu v) r.
(** CPU 0 after a write to a register. *)
Definition set_vreg (v : VCPU) (r : Reg_t) (x : Z) : VCPU :=
  mkVcpu (is_singlestepping v) (kvm_set_reg (_kvm_vcpu v) r x) (stack v).
Definition put_reg s (v : VCPU) (r : Reg_t) (x : Z) : vm os T :=
  with_cpus s (<[0%nat := set_vreg v r x]> (cpus s)).

Lemma on_cpu_get_reg s v r :
  cpus s !! 0%nat = Some v -> on_cpu 0 (get_reg r) s = Ok (vreg v r, s).
Proof.
  intros Hv. rewrite (on_cpu_eq _ s v Hv). change (get_reg r (cpu0 s v)) with (Ok (vreg v r, cpu0 s v)).
  cbn iota beta. by rewrite put_cpu0_id.
Qed.

Lemma on_cpu_set_reg s v r x :
  cpus s !! 0%nat = Some v -> on_cpu 0 (set_reg r x) s = Ok (tt, put_reg s v r x).
Proof.
  intros Hv. rewrite (on_cpu_eq _ s v Hv).
  change (set_reg r x (cpu0 s v)) with (Ok (tt, mkCpu (set_vreg v r x) (hm_rm (v_hm s)))).
  cbn iota beta. do 2 f_equal. unfold put_cpu0, put_reg, with_cpus. cbn. by destruct (v_hm s).
Qed.

Lemma put_reg_lookup s v r x : cpus s !! 0%nat = Some v -> cpus (put_reg s v r x) !! 0%nat = Some (set_vreg v r x).
Proof. intros Hv. cbn. apply list_lookup_insert_eq. by eapply lookup_lt_Some. Qed.

Lemma vreg_set v r x r' : vreg (set_vreg v r x) r' = if decide (r = r') then x else vreg v r'.
Proof. apply get_set_reg. Qed.

(** The register of parameter [pos] of the system call ABI. *)
Definition abi_reg (pos : nat) : Reg_t :=
  nth pos [rax; rdi; rsi; rdx; r10; r8; r9] rax.

Lemma get_parameter_eq s v pos :
  cpus s !! 0%nat = Some v -> (pos <= 6)%nat -> get_parameter pos s = Ok (vreg v (abi_reg pos), s).
Proof.
  intros Hv Hp. do 7 (destruct pos as [|pos]; [apply (on_cpu_get_reg s v _ Hv)|]). lia.
Qed.

Lemma get_parameter_no_cpu s pos :
  cpus s !! 0%nat = None -> (pos <= 6)%nat -> get_parameter pos s = Fail OutOfRange.
Proof.
  intros Hv Hp. do 7 (destruct pos as [|pos]; [unfold get_parameter, on_cpu; cbn; by rewrite Hv|]). lia.
Qed.
(** Unpacking gives the argument registers and changes nothing. *)
Lemma unpack1_eq s v : cpus s !! 0%nat = Some v -> unpack_syscall1 s = Ok (vreg v rdi, s).
Proof. intros Hv. by apply (get_parameter_eq s v 1 Hv); lia. Qed.

Lemma unpack2_eq s v : cpus s !! 0%nat = Some v -> unpack_syscall2 s = Ok ((vreg v rdi, vreg v rsi), s).
Proof.
  intros Hv. unfold unpack_syscall2. rewrite (bind_ok _ _ _ _ _ (get_parameter_eq s v 1 Hv ltac:(lia))).
  by rewrite (bind_ok _ _ _ _ _ (get_parameter_eq s v 2 Hv ltac:(lia))).
Qed.

Lemma unpack3_eq s v : cpus s !! 0%nat = Some v -> unpack_syscall3 s = Ok ((vreg v rdi, vreg v rsi, vreg v rdx), s).
Proof.
  intros Hv. unfold unpack_syscall3. rewrite (bind_ok _ _ _ _ _ (unpack2_eq s v Hv)).
  by rewrite (bind_ok _ _ _ _ _ (get_parameter_eq s v 3 Hv ltac:(lia))).
Qed.

Lemma unpack4_eq s v : cpus s !! 0%nat = Some v -> unpack_syscall4 s = Ok ((vreg v rdi, vreg v rsi, vreg v rdx, vreg v r10), s).
Proof.
  intros Hv. unfold unpack_syscall4. rewrite (bind_ok _ _ _ _ _ (unpack3_eq s v Hv)).
  by rewrite (bind_ok _ _ _ _ _ (get_parameter_eq s v 4 Hv ltac:(lia))).
Qed.

Lemma unpack5_eq s v : cpus s !! 0%nat = Some v -> unpack_syscall5 s = Ok ((vreg v rdi, vreg v rsi, vreg v rdx, vreg v r10, vreg v r8), s).
Proof.
  intros Hv. unfold unpack_syscall5. rewrite (bind_ok _ _ _ _ _ (unpack4_eq s v Hv)).
  by rewrite (bind_ok _ _ _ _ _ (get_parameter_eq s v 5 Hv ltac:(lia))).
Qed.

Lemma unpack6_eq s v : cpus s !! 0%nat = Some v -> unpack_syscall6 s = Ok ((vreg v rdi, vreg v rsi, vreg v rdx, vreg v r10, vreg v r8, vreg v r9), s).
Proof.
  intros Hv. unfold unpack_syscall6. rewrite (bind_ok _ _ _ _ _ (unpack5_eq s v Hv)).
  by rewrite (bind_ok _ _ _ _ _ (get_parameter_eq s v 6 Hv ltac:(lia))).
Qed.
End VmSpec.

(** ** Guest pointers *)

Section Pointers.
Context {os T : Type} `{HostOSLaws os} `{TranslationCacheLaws T}.
Implicit Types s : vm os T.

(** The machine with another lookaside buffer. *)
Definition with_tlb s (t : T) : vm os T :=
  let h := v_hm s in let r := hm_rm h in let p := rm_pager r in
  with_hm s (mkHM (mappings_for_brk h) (mappings_for_mmap h) (curbrk h)
                  (mkRM (allocated_regions r) (freelists r) (rm_store r) (mkPst (p_mem p) t (p_os p) (p_pager p)))).

(** A machine with a CPU whose memory is sound. *)
Record vm_ok s (v : VCPU) (c0 : Chunk) (N : Z) : Prop := mkVmOk {
  vo_cpu : cpus s !! 0%nat = Some v;
  vo_mem : cpu_ok (cpu0 s v) c0 N;
}.

(** A guest address outside page 0 that is translated to a host address. *)
Definition guest_ptr c0 s (g h : Z) : Prop :=
  is_u64 g /\ page_begin g <> 0 /\ host_of c0 (vm_paging s) g = Some h.

Lemma vm_host_p s v c0 N g h :
  vm_ok s v c0 N -> guest_ptr c0 s g h ->
  exists t, host_p_ g s = Ok (h, with_tlb s t) /\ vm_ok (with_tlb s t) v c0 N /\
            forall w, host_of c0 (vm_paging (with_tlb s t)) w = host_of c0 (vm_paging s) w.
Proof.
  intros [Hv [[own Hi] Hc Ht]] (Hg & Hp & Hh). change (paging (cpu0 s v)) with (vm_paging s) in *.
  destruct (wp_total_inv _ _ _ (get_host_p_lemma _ c0 N own g Hi Hc Ht Hg Hp))
    as (r & p' & E & -> & Hco & Em & Ep & Eo).
  assert (p' = mkPst (p_mem (vm_paging s)) (p_tlb p') (p_os (vm_paging s)) (p_pager (vm_paging s))) as Hp'.
  { destruct p'. cbn in *. congruence. }
  exists (p_tlb p'). rewrite Hp' in E, Hco.
  assert (vm_paging (with_tlb s (p_tlb p')) = mkPst (p_mem (vm_paging s)) (p_tlb p') (p_os (vm_paging s))
            (p_pager (vm_paging s))) as Ewt by done.
  assert (same_tables (vm_paging s) (vm_paging (with_tlb s (p_tlb p')))) as Hst by (split; done).
  rewrite Hh in E. cbn [default id] in E.
  split; [|split].
  - unfold host_p_, pager, region_manager, heap, HeapManager.on_rm, on_pager, zoom.
    change (rm_pager (hm_rm (v_hm s))) with (vm_paging s). rewrite E. done.
  - constructor; [done|]. constructor; change (paging (cpu0 (with_tlb s (p_tlb p')) v))
      with (vm_paging (with_tlb s (p_tlb p'))); rewrite ?Ewt; [|done|done].
    exists own. rewrite <- Ewt. by eapply same_tables_inv.
  - intros w. by eapply same_tables_host.
Qed.

Lemma with_tlb_twice s t t' : with_tlb (with_tlb s t) t' = with_tlb s t'.
Proof. done. Qed.

Lemma with_tlb_id s : with_tlb s (p_tlb (vm_paging s)) = s.
Proof. destruct s as [cs d [b m k [a f r [me tl o p]]] fd rl sg fl pe n]. done. Qed.
End Pointers.

(** ** A small machine

    The CPU of [push_cpu], whose stack page is mapped, in a machine on the bump
    host; the host's functions answer how many arguments they got. *)

#[export] Instance bump_MonitorOS : MonitorOS bump_os := {|
  errno _ := 2;
  io_open o _ := (7, o);
  io_fstat_size o _ := ((0, 4096), o);
  io_close o _ := o;
  io_free o _ := o;
  io_sigaction o _ := (0, o);
  io_getrlimit o i := ((0, (i, 2 * i)), o);
|}.

#[export] Instance bump_LibC : LibC bump_os := {|
  libc _ args := ret (Z.of_nat (length args));
  libc_iov _ _ iov _ := ret (Z.of_nat (length iov));
|}.

Definition demo_vcpu (regs : list (Reg_t * Z)) : VCPU :=
  fold_left (fun v rx => set_vreg v rx.1 rx.2) regs (c_vcpu push_cpu).

Definition demo_vm (regs : list (Reg_t * Z)) : vm bump_os TLB.t :=
  mkVM [demo_vcpu regs] false (mkHM [] [] 0 (c_rm push_cpu)) 3 (replicate RLIMIT_NLIMITS (0, 0))
       (replicate (Z.to_nat _NSIG) (replicate sizeof_sigaction 0)) (mkFlat None 0) (replicate 32 0) 0.

Lemma vm_ok_paging (s : vm bump_os TLB.t) v :
  vm_paging s = paging push_cpu -> cpus s !! 0%nat = Some v -> exists N, vm_ok s v demo_chunk N.
Proof.
  intros E Hv. destruct push_cpu_ok as [N [Ht Hc Hco]]. exists N. constructor; [done|].
  rewrite <- E in Ht, Hc, Hco. constructor; assumption.
Qed.

Lemma demo_vm_ok regs : exists N, vm_ok (demo_vm regs) (demo_vcpu regs) demo_chunk N.
Proof. by apply vm_ok_paging. Qed.
