(* ===== verification/SyscallTheorems.v ===== *)
(** * System calls: theorems

    Dispatch of a system call, what a missing handler means, and what the
    default handlers give to the host. *)

From S2P Require Import Prelude Memory PageMath HostOS Tlb Pager PagerTree PagerWalk PagerSpec PagerTlb PagerTheorems Region RegionManager RegionSpec RegionTheorems Registers Mappings Heap HeapSpec HeapTheorems Vcpu VcpuTheorems Descriptors Vm Handlers Syscall SyscallStubs Hypercall VmSpec.
From stdpp Require Import strings.
Local Open Scope Z_scope.

(** ** The table *)

Section Table.
Context {os T : Type} `{HostOS os} `{FileOS os} `{KvmOS os} `{MonitorOS os} `{TranslationCache T}.
Variable hs : elkvm_handlers os (vm os T).

Lemma syscall_table_entry n :
  0 <= n < 275 -> exists f name, elkvm_syscalls hs !! Z.to_nat n = Some (Some (f, name)).
Proof.
  intros Hn. assert (Z.to_nat n < 275)%nat as Hk by lia.
  assert (Forall (fun e => is_Some e) (take 275 (elkvm_syscalls hs))) as Hall.
  { cbv [elkvm_syscalls elkvm_syscalls_low elkvm_syscalls_high app replicate take].
    repeat (apply Forall_cons; split; [eexists; reflexivity|]). apply Forall_nil. done. }
  assert (length (elkvm_syscalls hs) = 313%nat) as Hlen by reflexivity.
  destruct (lookup_lt_is_Some_2 (elkvm_syscalls hs) (Z.to_nat n)) as [e He]; [lia|].
  rewrite Forall_lookup in Hall. destruct (Hall (Z.to_nat n) e) as [[f name] ->].
  - rewrite lookup_take_lt; [done|lia].
  - by exists f, name.
Qed.

Lemma syscall_table_null n : 275 <= n < 313 -> elkvm_syscalls hs !! Z.to_nat n = Some None.
Proof.
  intros Hn. unfold elkvm_syscalls. rewrite lookup_app_r by (cbn; lia).
  rewrite lookup_app_r by (cbn; lia). apply lookup_replicate_2. cbn; lia.
Qed.

Lemma syscall_table_end : elkvm_syscalls hs !! 313%nat = None.
Proof. reflexivity. Qed.
End Table.

(** ** Dispatch *)

Section Dispatch.
Context {os T : Type} `{HostOS os} `{FileOS os} `{KvmOS os} `{MonitorOS os} `{TranslationCache T}.
Variable hs : elkvm_handlers os (vm os T).
Implicit Types s : vm os T.

Lemma at_z_lookup {S A} (l : list A) n (st : S) :
  0 <= n -> at_z l n st = match l !! Z.to_nat n with Some a => Ok (a, st) | None => Fail OutOfRange end.
Proof.
  intros Hn. unfold at_z. replace (n <? 0) with false by (symmetry; apply Z.ltb_ge; lia).
  unfold at_. by destruct (l !! _).
Qed.

(** [handle_syscall] is a lookup followed by the call. *)
Lemma handle_syscall_eq s v :
  cpus s !! 0%nat = Some v -> 0 <= vreg v rax ->
  handle_syscall hs s =
    if _debug s && (313 <=? vreg v rax) then Fail OutOfRange
    else if 313 <? vreg v rax then (do! set_syscall_return (- ENOSYS) in ret 0) s
    else match elkvm_syscalls hs !! Z.to_nat (vreg v rax) with
         | None => Fail OutOfRange
         | Some None => Fail NullDeref
         | Some (Some (func, _)) =>
             (let! result := func in
              if vreg v rax =? NR_exit_group then ret ELKVM_HYPERCALL_EXIT else
              do! set_syscall_return result in ret 0) s
         end.
Proof.
  intros Hv Hn. unfold handle_syscall, bind at 1.
  rewrite (get_parameter_eq s v 0 Hv) by lia. change (abi_reg 0) with rax. set (n := vreg v rax) in *.
  unfold bind at 1, debug_mode, gets. cbv beta iota. unfold bind at 1.
  destruct (_debug s); cbn [andb].
  - unfold bind at 1. rewrite at_z_lookup by done. destruct (313 <=? n) eqn:E.
    + rewrite lookup_ge_None_2; [done|]. change (length (elkvm_syscalls hs)) with 313%nat. lia.
    + destruct (lookup_lt_is_Some_2 (elkvm_syscalls hs) (Z.to_nat n)) as [e He].
      { change (length (elkvm_syscalls hs)) with 313%nat. lia. }
      rewrite He. change NUM_SYSCALLS with 313. replace (313 <? n) with false by (symmetry; lia).
      unfold ret at 1. cbv beta iota. unfold bind at 1. rewrite at_z_lookup, He by done.
      by destruct e as [[f nm]|].
  - unfold ret at 1. cbv beta iota. change NUM_SYSCALLS with 313. destruct (313 <? n); [done|].
    unfold bind at 1. rewrite at_z_lookup by done. by destruct (elkvm_syscalls hs !! Z.to_nat n) as [[[f nm]|]|].
Qed.

Lemma set_syscall_return_eq s v r :
  cpus s !! 0%nat = Some v -> (do! set_syscall_return r in ret 0) s = Ok (0, put_reg s v rax (u64 r)).
Proof. intros Hv. unfold bind, set_syscall_return. by rewrite (on_cpu_set_reg s v _ _ Hv). Qed.
End Dispatch.

(** Dispatch. For a number below 275 in [rax] the machine runs exactly the
    function of that number in the table and, if it returns, hands its result
    to the guest in [rax] as 64 bits and goes on; only [exit_group], when its
    handler returns, ends the machine and leaves [rax] alone; a fault of the
    function is the fault of the call. *)
Theorem handle_syscall_dispatch {os T} `{HostOS os} `{FileOS os} `{KvmOS os} `{MonitorOS os} `{TranslationCache T}
    (hs : elkvm_handlers os (vm os T)) (s : vm os T) v :
  cpus s !! 0%nat = Some v -> 0 <= vreg v rax < 275 ->
  exists f name, elkvm_syscalls hs !! Z.to_nat (vreg v rax) = Some (Some (f, name)) /\
    match f s with
    | Fail e => handle_syscall hs s = Fail e
    | Ok (r, s') =>
        if vreg v rax =? 231 then handle_syscall hs s = Ok (ELKVM_HYPERCALL_EXIT, s')
        else forall v', cpus s' !! 0%nat = Some v' ->
               handle_syscall hs s = Ok (0, put_reg s' v' rax (u64 r))
    end.
Proof.
  intros Hv Hn. destruct (syscall_table_entry hs (vreg v rax) Hn) as (f & name & Hf).
  exists f, name. split; [done|]. rewrite (handle_syscall_eq hs s v) by (done || lia).
  replace (313 <=? vreg v rax) with false by (symmetry; lia). rewrite andb_false_r.
  replace (313 <? vreg v rax) with false by (symmetry; lia). rewrite Hf. change NR_exit_group with 231.
  destruct (f s) as [[r s']|e] eqn:Ef; [|by rewrite (bind_fail _ _ _ _ Ef)]. rewrite (bind_ok _ _ _ _ _ Ef).
  destruct (vreg v rax =? 231); [done|]. intros v' Hv'. by apply set_syscall_return_eq.
Qed.

(** [getpid] with number 39. *)
Lemma handle_syscall_dispatch_witness :
  exists s', handle_syscall default_handlers (demo_vm [(rax, 39)]) = Ok (0, s') /\
    cpus s' !! 0%nat = Some (demo_vcpu [(rax, 0)]).
Proof.
  destruct (handle_syscall_dispatch default_handlers (demo_vm [(rax, 39)]) (demo_vcpu [(rax, 39)]) eq_refl)
    as (f & name & Hf & E); [by vm_compute|].
  injection Hf as <- <-.
  exact (ex_intro _ _ (conj (E (demo_vcpu [(rax, 39)]) eq_refl) eq_refl)).
Defined.

(** C26. Unknown system calls. Above 313 the guest gets [-ENOSYS]; but the check is
    off by one and the table ends early: 313 reads behind the table, 275 to
    312 call a null pointer, and in debug mode every number from 313 on reads
    behind the table before it is checked. *)
Theorem handle_syscall_unknown {os T} `{HostOS os} `{FileOS os} `{KvmOS os} `{MonitorOS os} `{TranslationCache T}
    (hs : elkvm_handlers os (vm os T)) (s : vm os T) v :
  cpus s !! 0%nat = Some v -> 275 <= vreg v rax ->
  handle_syscall hs s =
    if vreg v rax <? 313 then Fail NullDeref
    else if _debug s || (vreg v rax =? 313) then Fail OutOfRange
    else Ok (0, put_reg s v rax (2 ^ 64 - 38)).
Proof.
  intros Hv Hn. rewrite (handle_syscall_eq hs s v) by (done || lia).
  destruct (Z.ltb_spec (vreg v rax) 313) as [Hlt|Hge].
  - replace (313 <=? vreg v rax) with false by (symmetry; lia). rewrite andb_false_r.
    replace (313 <? vreg v rax) with false by (symmetry; lia). by rewrite syscall_table_null by lia.
  - replace (313 <=? vreg v rax) with true by (symmetry; lia). rewrite andb_true_r.
    destruct (_debug s); cbn [orb]; [done|]. destruct (Z.eqb_spec (vreg v rax) 313) as [->|Hne]; [done|].
    replace (313 <? vreg v rax) with true by (symmetry; lia). by apply set_syscall_return_eq.
Qed.

Lemma handle_syscall_unknown_witness :
  handle_syscall default_handlers (demo_vm [(rax, 300)]) = Fail NullDeref /\
  handle_syscall default_handlers (demo_vm [(rax, 313)]) = Fail OutOfRange /\
  handle_syscall default_handlers (demo_vm [(rax, 314)])
    = Ok (0, put_reg (demo_vm [(rax, 314)]) (demo_vcpu [(rax, 314)]) rax (2 ^ 64 - 38)).
Proof.
  split; [|split].
  - exact (handle_syscall_unknown default_handlers (demo_vm [(rax, 300)]) (demo_vcpu [(rax, 300)]) eq_refl
             ltac:(by vm_compute)).
  - exact (handle_syscall_unknown default_handlers (demo_vm [(rax, 313)]) (demo_vcpu [(rax, 313)]) eq_refl
             ltac:(by vm_compute)).
  - exact (handle_syscall_unknown default_handlers (demo_vm [(rax, 314)]) (demo_vcpu [(rax, 314)]) eq_refl
             ltac:(by vm_compute)).
Defined.

(** ** Missing handlers *)

(** A monitor that supplies nothing. *)
Definition null_handlers {os V} : elkvm_handlers os V := {|
  h_read := None; h_write := None; h_open := None; h_close := None; h_stat := None; h_fstat := None;
  h_lstat := None; h_poll := None; h_lseek := None; h_mmap_before := None; h_mmap_after := None;
  h_mprotect := None; h_munmap := None; h_sigaction := None; h_sigprocmask := None; h_ioctl := None;
  h_readv := None; h_writev := None; h_access := None; h_pipe := None; h_dup := None;
  h_nanosleep := None; h_getpid := None; h_socket := None; h_accept := None; h_bind := None;
  h_listen := None; h_getsockname := None; h_setsockopt := None; h_getuid := None; h_getgid := None;
  h_geteuid := None; h_getegid := None; h_uname := None; h_fcntl := None; h_truncate := None;
  h_ftruncate := None; h_getdents := None; h_getcwd := None; h_chdir := None; h_fchdir := None;
  h_mkdir := None; h_unlink := None; h_readlink := None; h_gettimeofday := None; h_getrusage := None;
  h_times := None; h_statfs := None; h_fstatfs := None; h_setrlimit := None; h_gettid := None;
  h_time := None; h_futex := None; h_epoll_create := None; h_set_tid_address := None;
  h_epoll_ctl := None; h_epoll_wait := None; h_clock_gettime := None; h_clock_getres := None;
  h_exit_group := None; h_tgkill := None; h_openat := None; h_set_robust_list := None;
  h_bp_callback := None |}.

(** The system calls that test their handler, and those without a pointer
    argument that do not. *)
Definition checked_calls : list nat :=
  [0; 1; 2; 3; 4; 5; 6; 8; 13; 14; 16; 19; 20; 21; 22; 32; 35; 39; 63; 72; 76; 77; 78; 79; 83; 87;
   89; 98; 100; 102; 104; 107; 108; 137; 138; 160; 186; 201; 202; 218; 228; 229; 234; 257; 273]%nat.
Definition unchecked_calls : list nat := [41; 50; 81; 213; 231]%nat.

(** Entry [n] of a table satisfies [P]. *)
Definition entry_is {os T} (tbl : list (option (M (vm os T) Z * string))) (P : M (vm os T) Z -> Prop)
    (n : nat) : Prop :=
  exists f name, tbl !! n = Some (Some (f, name)) /\ P f.

(** Missing handlers. For a monitor that supplies no handler, 45 of the system
    calls answer [-ENOSYS] and leave the machine as it is; [gettimeofday]
    ends the process; and [socket], [listen], [fchdir], [epoll_create] and
    [exit_group] call the null pointer. *)
Theorem missing_handlers {os T} `{HostOS os} `{FileOS os} `{KvmOS os} `{MonitorOS os} `{TranslationCache T}
    (s : vm os T) v :
  cpus s !! 0%nat = Some v ->
  Forall (entry_is (elkvm_syscalls null_handlers) (fun f => f s = Ok (- ENOSYS, s))) checked_calls /\
  Forall (entry_is (elkvm_syscalls null_handlers) (fun f => f s = Fail NullDeref)) unchecked_calls /\
  entry_is (elkvm_syscalls null_handlers) (fun f => f s = Fail (Exit 1)) 96.
Proof.
  intros Hv. split; [|split].
  - repeat (apply Forall_cons; split; [do 2 eexists; split; reflexivity|]). by apply Forall_nil.
  - repeat (apply Forall_cons; split; [do 2 eexists; split; [reflexivity|]|]); [..|by apply Forall_nil];
      unfold elkvm_do_socket, elkvm_do_listen, elkvm_do_fchdir, elkvm_do_epoll_create, elkvm_do_exit_group;
      by rewrite ?(bind_ok _ _ _ _ _ (unpack3_eq s v Hv)), ?(bind_ok _ _ _ _ _ (unpack2_eq s v Hv)),
        ?(bind_ok _ _ _ _ _ (unpack1_eq s v Hv)).
  - do 2 eexists. split; reflexivity.
Qed.

Lemma missing_handlers_witness :
  entry_is (elkvm_syscalls null_handlers) (fun f => f (demo_vm []) = Ok (- ENOSYS, demo_vm [])) 32 /\
  entry_is (elkvm_syscalls null_handlers) (fun f => f (demo_vm []) = Fail NullDeref) 231.
Proof.
  destruct (missing_handlers (demo_vm []) (demo_vcpu []) eq_refl) as (Hc & Hu & _).
  rewrite Forall_forall in Hc, Hu. split; [apply Hc|apply Hu]; repeat constructor.
Defined.

(** ** What the host gets *)

(** How an argument register becomes an argument of the host's function. *)
Inductive argkind :=
  | Int          (* an [int] *)
  | UInt         (* a 32-bit unsigned type: [mode_t], [socklen_t] *)
  | Long         (* an [off_t] *)
  | Word         (* a [size_t] *)
  | Ptr          (* a guest pointer that must not be null *)
  | OptPtr.      (* a guest pointer or null *)

Inductive arg_ok {os T} (c0 : Chunk) (s : vm os T) : argkind -> Z -> Z -> Prop :=
  | arg_int x : arg_ok c0 s Int x (s32 x)
  | arg_uint x : arg_ok c0 s UInt x (u32 x)
  | arg_long x : arg_ok c0 s Long x (s64 x)
  | arg_word x : arg_ok c0 s Word x x
  | arg_ptr x y : guest_ptr c0 s x y -> arg_ok c0 s Ptr x y
  | arg_opt x y : guest_ptr c0 s x y -> arg_ok c0 s OptPtr x y
  | arg_null : arg_ok c0 s OptPtr 0 0.

(** The system calls that are the host's function of the same name: number,
    name and kinds of the arguments. *)
Definition forwarded : list (nat * (string * list argkind)) :=
  [(2, ("open", [Ptr; Int; UInt])); (3, ("close", [Int])); (4, ("stat", [Ptr; Ptr]));
   (5, ("fstat", [Int; Ptr])); (6, ("lstat", [Ptr; Ptr])); (8, ("lseek", [Int; Long; Int]));
   (14, ("sigprocmask", [Int; OptPtr; OptPtr])); (35, ("nanosleep", [OptPtr; OptPtr]));
   (39, ("getpid", [])); (41, ("socket", [Int; Int; Int])); (43, ("accept", [Int; OptPtr; OptPtr]));
   (49, ("bind", [Int; OptPtr; UInt])); (50, ("listen", [Int; Int]));
   (51, ("getsockname", [Int; OptPtr; OptPtr])); (54, ("setsockopt", [Int; Int; Int; OptPtr; UInt]));
   (63, ("uname", [Ptr])); (76, ("truncate", [Ptr; Long])); (77, ("ftruncate", [Int; Long]));
   (80, ("chdir", [OptPtr])); (81, ("fchdir", [Int])); (83, ("mkdir", [Ptr; UInt]));
   (87, ("unlink", [Ptr])); (89, ("readlink", [Ptr; Ptr; Word])); (96, ("gettimeofday", [OptPtr; OptPtr]));
   (102, ("getuid", [])); (104, ("getgid", [])); (107, ("geteuid", [])); (108, ("getegid", []));
   (138, ("fstatfs", [Int; OptPtr])); (186, ("SYS_gettid", [])); (201, ("time", [OptPtr]));
   (213, ("epoll_create", [Int])); (218, ("SYS_set_tid_address", [Ptr])); (228, ("clock_gettime", [Int; Ptr]));
   (229, ("clock_getres", [Int; Ptr])); (232, ("epoll_wait", [Int; OptPtr; Int; Int]));
   (233, ("epoll_ctl", [Int; Int; Int; OptPtr])); (234, ("SYS_tgkill", [Int; Int; Int]));
   (273, ("SYS_set_robust_list", [Ptr; Word]))]%nat.

Section Forward.
Context {os T : Type} `{HostOSLaws os} `{FileOS os} `{KvmOS os} `{MonitorOS os} `{LibC os} `{TranslationCacheLaws T}.
Implicit Types s : vm os T.

(** Two states that differ in the lookaside buffer only, both sound. *)
Definition tlb_step c0 N v s s' : Prop :=
  (exists t, s' = with_tlb s t) /\ vm_ok s' v c0 N /\
  forall w, host_of c0 (vm_paging s') w = host_of c0 (vm_paging s) w.

Lemma guest_ptr_step c0 N v s s' g h : tlb_step c0 N v s s' -> guest_ptr c0 s g h -> guest_ptr c0 s' g h.
Proof. intros (_ & _ & E) (? & ? & ?). split; [done|]. split; [done|]. by rewrite E. Qed.

Lemma arg_step c0 N v s s' k x y : tlb_step c0 N v s s' -> arg_ok c0 s k x y -> arg_ok c0 s' k x y.
Proof. intros Hst Ha. destruct Ha; [..|apply arg_null]; constructor; by eapply guest_ptr_step. Qed.

Lemma tlb_step_trans c0 N v s1 s2 s3 :
  tlb_step c0 N v s1 s2 -> tlb_step c0 N v s2 s3 -> tlb_step c0 N v s1 s3.
Proof.
  intros ([t ->] & _ & E1) ([t' ->] & Hok & E2). split; [by exists t'|]. split; [done|].
  intros w. by rewrite E2, E1.
Qed.

(** The pointer arguments, one by one. *)
Lemma ptr_eq c0 N v s x y :
  vm_ok s v c0 N -> arg_ok c0 s Ptr x y ->
  exists s', host_nonnull x s = Ok (y, s') /\ host_p_ x s = Ok (y, s') /\ tlb_step c0 N v s s' /\ y <> 0.
Proof.
  intros Hok Ha. inversion Ha as [| | | |? ? Hg| |]; subst.
  destruct (vm_host_p s v c0 N x y Hok Hg) as (t & E & Hok' & Ew). exists (with_tlb s t).
  assert (x <> 0) as Hx by (destruct Hg as (_ & Hp & _); by intros ->).
  unfold host_nonnull. apply Z.eqb_neq in Hx. rewrite Hx. unfold bind. cbn. rewrite E.
  split; [done|]. split; [done|]. split; [by split; [exists t|]|].
  destruct Hok as [_ [_ Hc _]], Hg as (Hg & _ & Hh). destruct (host_of_bounds _ _ _ _ Hc Hg Hh). lia.
Qed.

Lemma optptr_eq c0 N v s x y :
  vm_ok s v c0 N -> arg_ok c0 s OptPtr x y ->
  exists s', host_or_null x s = Ok (y, s') /\ tlb_step c0 N v s s'.
Proof.
  intros Hok Ha. inversion Ha as [| | | | |? ? Hg|]; subst.
  - destruct (vm_host_p s v c0 N x y Hok Hg) as (t & E & Hok' & Ew). exists (with_tlb s t).
    assert (x <> 0) as Hx by (destruct Hg as (_ & Hp & _); by intros ->).
    unfold host_or_null. apply Z.eqb_neq in Hx. rewrite Hx, E. split; [done|]. by split; [exists t|].
  - exists s. split; [done|]. split; [exists (p_tlb (vm_paging s)); by rewrite with_tlb_id|]. done.
Qed.

Lemma tlb_step_refl c0 N v s : vm_ok s v c0 N -> tlb_step c0 N v s s.
Proof. intros Hok. split; [exists (p_tlb (vm_paging s)); by rewrite with_tlb_id|]. done. Qed.

(** From a state that differs from [s0] in the lookaside buffer, [c] is the call
    of the host's function. *)
Definition forwards c0 N v s0 s (c : M (vm os T) Z) (name : string) (ys : list Z) : Prop :=
  tlb_step c0 N v s0 s -> exists s', c s = host (libc name ys) s' /\ tlb_step c0 N v s0 s'.

Lemma fwd_done c0 N v s0 s name ys : forwards c0 N v s0 s (host (libc name ys)) name ys.
Proof. intros Hst. by exists s. Qed.

Lemma fwd_bind {A} c0 N v s0 s (c : M (vm os T) A) k a s1 name ys :
  c s = Ok (a, s1) -> (tlb_step c0 N v s0 s -> tlb_step c0 N v s0 s1) ->
  forwards c0 N v s0 s1 (k a) name ys -> forwards c0 N v s0 s (bind c k) name ys.
Proof. intros E Hst Hf Hs. rewrite (bind_ok _ _ _ _ _ E). auto. Qed.

Lemma fwd_nonnull c0 N v s0 s x y k name ys :
  arg_ok c0 s0 Ptr x y -> (forall s', y <> 0 -> forwards c0 N v s0 s' (k y) name ys) ->
  forwards c0 N v s0 s (bind (host_nonnull x) k) name ys.
Proof.
  intros Ha Hk Hst. destruct (ptr_eq c0 N v s x y) as (s' & E & _ & Hst' & Hy);
    [by destruct Hst as (_ & ? & _)|by eapply arg_step|].
  eapply fwd_bind; [exact E|intros; by eapply tlb_step_trans|by apply Hk|done].
Qed.

Lemma fwd_host_p c0 N v s0 s x y k name ys :
  arg_ok c0 s0 Ptr x y -> (forall s', forwards c0 N v s0 s' (k y) name ys) ->
  forwards c0 N v s0 s (bind (host_p_ x) k) name ys.
Proof.
  intros Ha Hk Hst. destruct (ptr_eq c0 N v s x y) as (s' & _ & E & Hst' & Hy);
    [by destruct Hst as (_ & ? & _)|by eapply arg_step|].
  eapply fwd_bind; [exact E|intros; by eapply tlb_step_trans|by apply Hk|done].
Qed.

Lemma fwd_or_null c0 N v s0 s x y k name ys :
  arg_ok c0 s0 OptPtr x y -> (forall s', forwards c0 N v s0 s' (k y) name ys) ->
  forwards c0 N v s0 s (bind (host_or_null x) k) name ys.
Proof.
  intros Ha Hk Hst. destruct (optptr_eq c0 N v s x y) as (s' & E & Hst');
    [by destruct Hst as (_ & ? & _)|by eapply arg_step|].
  eapply fwd_bind; [exact E|intros; by eapply tlb_step_trans|by apply Hk|done].
Qed.

Lemma fwd_assert c0 N v s0 s y k name ys :
  y <> 0 -> forwards c0 N v s0 s (k tt) name ys ->
  forwards c0 N v s0 s (bind (assert_ (negb (y =? 0))) k) name ys.
Proof. intros Hy Hk. apply Z.eqb_neq in Hy. by rewrite Hy. Qed.

(** The arguments of a call: the registers converted by kind. *)
Definition args_ok c0 s v (ks : list argkind) (ys : list Z) : Prop :=
  Forall2 (fun kx y => arg_ok c0 s kx.1 kx.2 y)
          (zip ks (map (vreg v) [rdi; rsi; rdx; r10; r8; r9])) ys /\ length ys = length ks.
End Forward.

(** Takes the hypotheses on the arguments apart. *)
Ltac split_args :=
  repeat match goal with
  | E : args_ok _ _ _ _ _ |- _ => destruct E as [E _]; cbn in E
  | E : Forall2 _ (_ :: _) _ |- _ => apply Forall2_cons_inv_l in E as (? & ? & ? & ? & ->); cbn [fst snd] in *
  | E : Forall2 _ [] _ |- _ => apply Forall2_nil_inv_l in E as ->
  | E : arg_ok _ _ Int _ _ |- _ => inversion E; subst; clear E
  | E : arg_ok _ _ UInt _ _ |- _ => inversion E; subst; clear E
  | E : arg_ok _ _ Long _ _ |- _ => inversion E; subst; clear E
  | E : arg_ok _ _ Word _ _ |- _ => inversion E; subst; clear E
  end.

(** One argument or check of a forwarded call. *)
Ltac fwd_step :=
  lazymatch goal with
  | |- forwards ?c0 ?N ?v ?s0 ?s (host _) ?nm ?ys => exact (fwd_done c0 N v s0 s nm ys)
  | |- forwards _ _ _ _ _ (bind (host_nonnull _) _) _ _ => eapply fwd_nonnull; [eassumption|intros ? ?]
  | |- forwards _ _ _ _ _ (bind (host_p_ _) _) _ _ => eapply fwd_host_p; [eassumption|intros ?]
  | |- forwards _ _ _ _ _ (bind (host_or_null _) _) _ _ => eapply fwd_or_null; [eassumption|intros ?]
  | |- forwards _ _ _ _ _ (bind (assert_ _) _) _ _ => apply fwd_assert; [assumption|]
  | |- forwards _ _ _ _ _ (bind (deref (Some ?f)) ?k) _ _ => change (bind (deref (Some f)) k) with (k f); cbv beta
  | Hv : cpus _ !! _ = Some _ |- forwards _ _ _ _ _ (bind unpack_syscall1 _) _ _ =>
      eapply fwd_bind; [by apply unpack1_eq|done|]
  | Hv : cpus _ !! _ = Some _ |- forwards _ _ _ _ _ (bind unpack_syscall2 _) _ _ =>
      eapply fwd_bind; [by apply unpack2_eq|done|]; cbv beta iota
  | Hv : cpus _ !! _ = Some _ |- forwards _ _ _ _ _ (bind unpack_syscall3 _) _ _ =>
      eapply fwd_bind; [by apply unpack3_eq|done|]; cbv beta iota
  | Hv : cpus _ !! _ = Some _ |- forwards _ _ _ _ _ (bind unpack_syscall4 _) _ _ =>
      eapply fwd_bind; [by apply unpack4_eq|done|]; cbv beta iota
  | Hv : cpus _ !! _ = Some _ |- forwards _ _ _ _ _ (bind unpack_syscall5 _) _ _ =>
      eapply fwd_bind; [by apply unpack5_eq|done|]; cbv beta iota
  end.

Ltac fwd_open :=
  cbv [elkvm_do_open elkvm_do_close elkvm_do_stat elkvm_do_fstat elkvm_do_lstat elkvm_do_lseek
    elkvm_do_sigprocmask elkvm_do_nanosleep elkvm_do_getpid elkvm_do_socket elkvm_do_accept elkvm_do_bind
    elkvm_do_listen elkvm_do_getsockname elkvm_do_setsockopt elkvm_do_uname elkvm_do_truncate
    elkvm_do_ftruncate elkvm_do_chdir elkvm_do_fchdir elkvm_do_mkdir elkvm_do_unlink elkvm_do_readlink
    elkvm_do_gettimeofday elkvm_do_getuid elkvm_do_getgid elkvm_do_geteuid elkvm_do_getegid
    elkvm_do_fstatfs elkvm_do_gettid elkvm_do_time elkvm_do_epoll_create elkvm_do_set_tid_address
    elkvm_do_clock_gettime elkvm_do_clock_getres elkvm_do_epoll_wait elkvm_do_epoll_ctl elkvm_do_tgkill
    elkvm_do_set_robust_list with_handler default_handlers h_open h_close h_stat h_fstat h_lstat h_lseek
    h_sigprocmask h_nanosleep h_getpid h_socket h_accept h_bind h_listen h_getsockname h_setsockopt h_uname
    h_truncate h_ftruncate h_chdir h_fchdir h_mkdir h_unlink h_readlink h_gettimeofday h_getuid h_getgid
    h_geteuid h_getegid h_fstatfs h_gettid h_time h_epoll_create h_set_tid_address h_clock_gettime
    h_clock_getres h_epoll_wait h_epoll_ctl h_tgkill h_set_robust_list].

(** C25. The host gets what the guest meant. On a machine with sound memory and the
    default handlers, each of 39 system calls is the host's function of that
    name on the guest's arguments: integers at the width of the host's
    parameter, every guest pointer translated to the host address of the byte
    it points at, null where null is allowed.  Nothing but the lookaside buffer
    changes before the host's function runs. *)
Theorem forwarded_syscalls {os T} `{HostOSLaws os} `{FileOS os} `{KvmOS os} `{MonitorOS os} `{LibC os}
    `{TranslationCacheLaws T} (s : vm os T) v c0 N n name ks ys :
  vm_ok s v c0 N -> (n, (name, ks)) ∈ forwarded -> args_ok c0 s v ks ys ->
  exists f nm s', elkvm_syscalls default_handlers !! n = Some (Some (f, nm)) /\
    f s = host (libc name ys) s' /\ tlb_step c0 N v s s'.
Proof.
  intros Hok Hin Hargs. pose proof (vo_cpu _ _ _ _ Hok) as Hv.
  assert (exists f nm, elkvm_syscalls default_handlers !! n = Some (Some (f, nm)) /\
            forwards c0 N v s s f name ys) as (f & nm & Hf & Hfw).
  { unfold forwarded in Hin.
    repeat (apply elem_of_cons in Hin as [[= -> -> ->]|Hin];
      [do 2 eexists; split; [reflexivity|]; split_args; fwd_open; repeat fwd_step|]).
    by apply elem_of_nil in Hin. }
  exists f, nm. destruct (Hfw (tlb_step_refl c0 N v s Hok)) as (s' & E & Hst). by exists s'.
Qed.

(** [open] of a path in the mapped page at 0x400000, and a null time pointer. *)
Lemma forwarded_syscalls_witness :
  let s := demo_vm [(rdi, 0x400004); (rsi, 2 ^ 32 + 2); (rdx, 0x1a4)] in
  (exists f nm s', elkvm_syscalls default_handlers !! 2%nat = Some (Some (f, nm)) /\
     f s = host (libc "open" [0x11000004; 2; 0x1a4]) s') /\
  exists f nm s', elkvm_syscalls default_handlers !! 201%nat = Some (Some (f, nm)) /\
     f (demo_vm [(rdi, 0)]) = host (libc "time" [0]) s'.
Proof.
  split.
  - destruct (demo_vm_ok [(rdi, 0x400004); (rsi, 2 ^ 32 + 2); (rdx, 0x1a4)]) as [N Hok].
    destruct (forwarded_syscalls _ _ demo_chunk N 2 "open" [Ptr; Int; UInt] [0x11000004; 2; 0x1a4] Hok)
      as (f & nm & s' & Ht & E & _).
    + constructor.
    + split; [|done]. cbn -[s32 u32]. constructor.
      * apply arg_ptr. split; [by vm_compute|]. split; [vm_compute; discriminate|vm_compute; reflexivity].
      * constructor; [exact (arg_int _ _ (2 ^ 32 + 2))|]. constructor; [exact (arg_uint _ _ 0x1a4)|constructor].
    + exists f, nm, s'. exact (conj Ht E).
  - destruct (demo_vm_ok [(rdi, 0)]) as [N Hok].
    destruct (forwarded_syscalls _ _ demo_chunk N 201 "time" [OptPtr] [0] Hok) as (f & nm & s' & Ht & E & _).
    + unfold forwarded. repeat (first [apply list_elem_of_here|apply list_elem_of_further]).
    + split; [|done]. constructor; [exact (arg_null _ _)|constructor].
    + exists f, nm, s'. exact (conj Ht E).
Defined.
