(* ===== verification/HypercallTheorems.v ===== *)
(** * The stack of the CPU and signals: theorems *)

From S2P Require Import Prelude Memory PageMath HostOS Tlb Pager PagerTree PagerWalk PagerSpec PagerTlb PagerTheorems Region RegionManager RegionSpec RegionTheorems Registers Mappings Heap HeapSpec HeapTheorems Vcpu VcpuTheorems Descriptors Vm Handlers Syscall SyscallStubs Hypercall VmSpec SyscallTheorems.
From stdpp Require Import strings.
Local Open Scope Z_scope.

(** ** The stack of CPU 0 *)

Section Stack.
Context {os T : Type} `{HostOSLaws os} `{KvmOS os} `{TranslationCacheLaws T}.
Implicit Types s : vm os T.

(** The machine with another CPU 0, content of memory and lookaside buffer. *)
Definition vm_write s (v : VCPU) (m : mem) (t : T) : vm os T :=
  put_cpu0 s (mkCpu v (rm_mem_tlb (hm_rm (v_hm s)) m t)).

Lemma vm_write_write s v m t v' m' t' : vm_write (vm_write s v m t) v' m' t' = vm_write s v' m' t'.
Proof. unfold vm_write. by rewrite put_cpu0_put. Qed.

Lemma vm_write_mem s v m t : p_mem (vm_paging (vm_write s v m t)) = m.
Proof. done. Qed.

Lemma vm_write_put_reg s v m t r x :
  put_reg (vm_write s v m t) v r x = vm_write s (set_vreg v r x) m t.
Proof. unfold vm_write, put_reg, put_cpu0, with_cpus. cbn. by rewrite list_insert_insert_eq. Qed.

Lemma vm_write_lookup s v v' m t :
  cpus s !! 0%nat = Some v -> cpus (vm_write s v' m t) !! 0%nat = Some v'.
Proof. apply (put_cpu0_lookup s (mkCpu v' _)). Qed.

Lemma vm_push s v c0 N hp val :
  vm_ok s v c0 N -> stack_word (cpu0 s v) c0 (u64 (vreg v rsp - 8)) hp ->
  exists t, let v' := set_vreg v rsp (u64 (vreg v rsp - 8)) in
    let s' := vm_write s v' (store64 (p_mem (vm_paging s)) hp val) t in
    on_cpu 0 (push val) s = Ok (tt, s') /\ vm_ok s' v' c0 N /\
    forall w, host_of c0 (vm_paging s') w = host_of c0 (vm_paging s) w.
Proof.
  intros [Hv Hok] Hw. destruct (wp_total_inv _ _ _ (push_lemma (cpu0 s v) c0 N hp val Hok Hw))
    as ([] & c' & E & Hok' & Eh & t & ->). exists t.
  split; [by rewrite (on_cpu_eq _ s v Hv), E|]. split; [|done].
  constructor; [by apply (vm_write_lookup s v)|]. done.
Qed.

Lemma vm_pop s v c0 N hp :
  vm_ok s v c0 N -> stack_word (cpu0 s v) c0 (vreg v rsp) hp ->
  exists t, let v' := set_vreg v rsp (u64 (vreg v rsp + 8)) in
    let s' := vm_write s v' (p_mem (vm_paging s)) t in
    on_cpu 0 pop s = Ok (load64 (p_mem (vm_paging s)) hp, s') /\ vm_ok s' v' c0 N /\
    forall w, host_of c0 (vm_paging s') w = host_of c0 (vm_paging s) w.
Proof.
  intros [Hv Hok] Hw. destruct (wp_total_inv _ _ _ (pop_lemma (cpu0 s v) c0 N hp Hok Hw))
    as (x & c' & E & -> & Hok' & Eh & t & ->). exists t.
  split; [by rewrite (on_cpu_eq _ s v Hv), E|]. split; [|done].
  constructor; [by apply (vm_write_lookup s v)|]. done.
Qed.

(** A stack word of one state is one of another with the same tables. *)
Lemma stack_word_step s s' v v' c0 x hp :
  p_pager (vm_paging s') = p_pager (vm_paging s) ->
  (forall w, host_of c0 (vm_paging s') w = host_of c0 (vm_paging s) w) ->
  stack_word (cpu0 s v) c0 x hp -> stack_word (cpu0 s' v') c0 x hp.
Proof.
  intros Ep Eh [Ha Hh Hu]. constructor; [done| |]; change (paging (cpu0 s' v')) with (vm_paging s').
  - by rewrite Eh.
  - by rewrite Ep.
Qed.
End Stack.

(** ** Signals *)

Section Signals.
Context {os T : Type} `{HostOSLaws os} `{KvmOS os} `{TranslationCacheLaws T}.
Implicit Types s : vm os T.

(** The signals that wait for delivery, the latest one last. *)
Definition pending s : list Z := take (Z.to_nat (num_pending_signals s)) (pending_signals s).

Lemma with_pending_ok s v c0 N l n : vm_ok s v c0 N -> vm_ok (with_pending s l n) v c0 N.
Proof. intros [Hv Hok]. by constructor. Qed.

(** Three pushes in a row. *)
Lemma vm_push3 {B} s v c0 N h1 h2 h3 a b c (k : M (vm os T) B) :
  vm_ok s v c0 N -> let sp := vreg v rsp in 24 <= sp < 2 ^ 64 ->
  stack_word (cpu0 s v) c0 (sp - 8) h1 -> stack_word (cpu0 s v) c0 (sp - 16) h2 ->
  stack_word (cpu0 s v) c0 (sp - 24) h3 ->
  exists t, let v' := set_vreg v rsp (sp - 24) in
    let s' := vm_write s v' (store64 (store64 (store64 (p_mem (vm_paging s)) h1 a) h2 b) h3 c) t in
    (do! on_cpu 0 (push a) in do! on_cpu 0 (push b) in do! on_cpu 0 (push c) in k) s = k s' /\
    vm_ok s' v' c0 N /\ forall w, host_of c0 (vm_paging s') w = host_of c0 (vm_paging s) w.
Proof.
  intros Hok sp Hsp W1 W2 W3.
  assert (forall x, 0 <= sp - x -> 0 <= x -> u64 (sp - x) = sp - x) as Eu by (intros; apply u64_small; lia).
  destruct (vm_push s v c0 N h1 a Hok) as (t1 & E1 & Ok1 & Eh1); [by fold sp; rewrite Eu by lia|].
  fold sp in E1, Ok1, Eh1. rewrite Eu in E1, Ok1, Eh1 by lia.
  set (v1 := set_vreg v rsp (sp - 8)) in *. set (s1 := vm_write s v1 _ t1) in *.
  assert (vreg v1 rsp = sp - 8) as R1 by done.
  destruct (vm_push s1 v1 c0 N h2 b Ok1) as (t2 & E2 & Ok2 & Eh2).
  { rewrite R1, <- Z.sub_add_distr, Eu by lia. by apply (stack_word_step s s1 v v1). }
  rewrite R1, <- Z.sub_add_distr, Eu in E2, Ok2, Eh2 by lia. change (8 + 8) with 16 in *.
  set (v2 := set_vreg v1 rsp (sp - 16)) in *. set (s2 := vm_write s1 v2 _ t2) in *.
  assert (vreg v2 rsp = sp - 16) as R2 by done.
  destruct (vm_push s2 v2 c0 N h3 c Ok2) as (t3 & E3 & Ok3 & Eh3).
  { rewrite R2, <- Z.sub_add_distr, Eu by lia. apply (stack_word_step s s2 v v2); [done| |done].
    intros w. by rewrite Eh2, Eh1. }
  rewrite R2, <- Z.sub_add_distr, Eu in E3, Ok3, Eh3 by lia. change (16 + 8) with 24 in *.
  assert (set_vreg v2 rsp (sp - 24) = set_vreg v rsp (sp - 24)) as Ev.
  { unfold v2, v1, set_vreg. destruct v as [bs [fd [] sr r d] st]. done. }
  rewrite Ev in E3, Ok3. unfold s2, s1 in E3, Ok3. rewrite !vm_write_write in E3, Ok3.
  exists t3. split; [|split; [exact Ok3|intros w; by rewrite <- Eh1, <- Eh2, <- Eh3]]. rewrite (bind_ok _ _ _ _ _ E1), (bind_ok _ _ _ _ _ E2).
  unfold s2 at 1, s1 at 1. rewrite vm_write_write. by rewrite (bind_ok _ _ _ _ _ E3).
Qed.
End Signals.

(** One pending signal, from the queue to the guest's stack. *)
Lemma signal_flow {os T} `{HostOSLaws os} `{FileOS os} `{KvmOS os} `{MonitorOS os} `{TranslationCacheLaws T}
    (s : vm os T) v c0 N n sig sa r reg h1 h2 h3 :
  vm_ok s v c0 N -> num_pending_signals s = n + 1 -> 0 <= n ->
  pending_signals s !! Z.to_nat n = Some sig -> 0 <= sig < 2 ^ 31 ->
  sigs s !! Z.to_nat sig = Some sa ->
  flat_region (sighandler_cleanup s) = Some r -> objs (rm_store (hm_rm (v_hm s))) !! r = Some reg ->
  let sp := vreg v rsp in 24 <= sp < 2 ^ 64 ->
  stack_word (cpu0 s v) c0 (sp - 8) h1 -> stack_word (cpu0 s v) c0 (sp - 16) h2 ->
  stack_word (cpu0 s v) c0 (sp - 24) h3 ->
  exists s' v', signal_deliver s = Ok (0, s') /\ vm_ok s' v' c0 N /\ num_pending_signals s' = n /\
    p_mem (vm_paging s') = store64 (store64 (store64 (p_mem (vm_paging s)) h1 (vreg v rax))
                                            h2 (guest_address reg)) h3 (sa_handler sa) /\
    (forall w, host_of c0 (vm_paging s') w = host_of c0 (vm_paging s) w) /\
    vreg v' rsp = sp - 24 /\ vreg v' rdi = sig /\
    forall x, x <> rsp -> x <> rdi -> vreg v' x = vreg v x.
Proof.
  intros Hok Hn Hn0 Hp Hsig Hsa Hr Hreg sp Hsp W1 W2 W3.
  pose proof (vo_cpu _ _ _ _ Hok) as Hv. set (s0 := with_pending s (pending_signals s) n).
  destruct (vm_push3 s0 v c0 N h1 h2 h3 (vreg v rax) (guest_address reg) (sa_handler sa)
              (do! on_cpu 0 (set_reg rdi (u64 sig)) in ret 0) (with_pending_ok _ _ _ _ _ _ Hok) Hsp W1 W2 W3)
    as (t & E & Ok' & Eh). fold sp in E, Ok'. set (s' := vm_write s0 _ _ t) in *.
  set (v' := set_vreg v rsp (sp - 24)) in *. exists (put_reg s' v' rdi sig), (set_vreg v' rdi sig).
  assert (u64 sig = sig) as Eus by (apply u64_small; lia).
  assert (u32 sig = sig) as Eus32 by (apply u32_small; lia).
  assert ((do! on_cpu 0 (set_reg rdi (u64 sig)) in ret 0) s' = Ok (0, put_reg s' v' rdi sig)) as Ek.
  { rewrite Eus. by rewrite (bind_ok _ _ _ _ _ (on_cpu_set_reg s' v' rdi sig (vo_cpu _ _ _ _ Ok'))). }
  split.
  - rewrite <- Ek, <- E. unfold signal_deliver. unfold bind at 1, get. cbv beta iota. rewrite Hn.
    replace (n + 1 <=? 0) with false by (symmetry; lia). replace (n + 1 - 1) with n by lia.
    unfold bind at 1, modify. cbv beta iota. fold s0. unfold bind at 1. rewrite at_z_lookup, Hp by done.
    rewrite (bind_ok _ _ _ _ _ (on_cpu_get_reg s0 v rax Hv)).
    apply bind_cong. intros [] s1 E1.
    assert (objs (rm_store (hm_rm (v_hm s1))) !! r = Some reg) as Hreg1.
    { destruct (vm_push s0 v c0 N h1 (vreg v rax) (with_pending_ok _ _ _ _ _ _ Hok)) as (t1 & E1' & _).
      - fold sp. rewrite u64_small by lia. exact W1.
      - rewrite E1' in E1. injection E1 as <-. exact Hreg. }
    rewrite Hr. unfold bind at 1, deref at 1, ret at 1. cbv beta iota. unfold bind at 1.
    assert (region_manager (on_store (lookup_region r)) s1 = Ok (reg, s1)) as El.
    { unfold region_manager, heap, HeapManager.on_rm, on_store, lookup_region, zoom, bind, get, deref.
      rewrite Hreg1. unfold ret. cbv beta iota. by destruct s1 as [? ? [? ? ? []] ? ? ? ? ? ?]. }
    rewrite El. apply bind_cong. intros [] s2 _. unfold bind at 1. rewrite Eus32, at_z_lookup by lia. by rewrite Hsa.
  - split; [constructor; [by apply put_reg_lookup, Ok'|by destruct Ok' as [_ []]]|].
    split; [done|]. split; [done|]. split; [exact Eh|]. do 2 (split; [done|]). intros x Hx1 Hx2. unfold v'. rewrite !vreg_set. by repeat case_decide.
Qed.

(** C27. Delivering a signal. The latest pending signal is taken from the queue;
    the guest's stack gets, from the top, the handler that was registered for
    it, the address of the cleanup code and the saved [rax], and [rdi] the
    number of the signal, so that the guest's return enters the handler and the
    handler's return the cleanup code; every other register and every other
    byte of memory stays. *)
Theorem signal_delivered {os T} `{HostOSLaws os} `{FileOS os} `{KvmOS os} `{MonitorOS os} `{TranslationCacheLaws T}
    (s : vm os T) v c0 N n sig sa r reg h1 h2 h3 :
  vm_ok s v c0 N -> num_pending_signals s = n + 1 -> 0 <= n ->
  pending_signals s !! Z.to_nat n = Some sig -> 0 <= sig < 2 ^ 31 ->
  sigs s !! Z.to_nat sig = Some sa ->
  flat_region (sighandler_cleanup s) = Some r -> objs (rm_store (hm_rm (v_hm s))) !! r = Some reg ->
  let sp := vreg v rsp in 24 <= sp < 2 ^ 64 ->
  stack_word (cpu0 s v) c0 (sp - 8) h1 -> stack_word (cpu0 s v) c0 (sp - 16) h2 ->
  stack_word (cpu0 s v) c0 (sp - 24) h3 ->
  exists s' v', signal_deliver s = Ok (0, s') /\ vm_ok s' v' c0 N /\ num_pending_signals s' = n /\
    p_mem (vm_paging s') = store64 (store64 (store64 (p_mem (vm_paging s)) h1 (vreg v rax))
                                            h2 (guest_address reg)) h3 (sa_handler sa) /\
    vreg v' rsp = sp - 24 /\ vreg v' rdi = sig /\
    forall x, x <> rsp -> x <> rdi -> vreg v' x = vreg v x.
Proof.
  intros Hok Hn Hn0 Hp Hsig Hsa Hr Hreg sp Hsp W1 W2 W3.
  destruct (signal_flow s v c0 N n sig sa r reg h1 h2 h3 Hok Hn Hn0 Hp Hsig Hsa Hr Hreg Hsp W1 W2 W3)
    as (s' & v' & E & Ok' & En & Em & _ & Rest). by exists s', v'.
Qed.

(** Signal 10 is pending, its handler is at 0x1234, the cleanup code at 0x1000. *)
Definition signal_vm : vm bump_os TLB.t :=
  let s := demo_vm [(rsp, 0x400100); (rax, 7)] in
  let reg := mkRegion 0x11000800 0x1000 4096 false "signal" in
  with_pending (with_cleanup (with_sigs
    (with_hm s (mkHM [] [] 0 (mkRM [] [] (mkStore {[ 0%nat := reg ]} 1%nat) (paging push_cpu))))
    (<[10%nat := [0x34; 0x12] ++ replicate 150 0]> (sigs s))) (mkFlat (Some 0%nat) 4096))
    (<[0%nat := 10]> (replicate 32 0)) 1.

Lemma signal_delivered_witness :
  exists s' v', signal_deliver signal_vm = Ok (0, s') /\ cpus s' !! 0%nat = Some v' /\
    vreg v' rsp = 0x4000e8 /\ vreg v' rdi = 10 /\
    p_mem (vm_paging s') = store64 (store64 (store64 (p_mem (vm_paging signal_vm)) 0x110000f8 7)
                                            0x110000f0 0x1000) 0x110000e8 0x1234.
Proof.
  set (v := demo_vcpu [(rsp, 0x400100); (rax, 7)]).
  assert (exists N, vm_ok signal_vm v demo_chunk N) as [N Hok].
  { apply vm_ok_paging; [|done]. unfold vm_paging, signal_vm.
    cbn [v_hm hm_rm rm_pager with_pending with_cleanup with_sigs with_hm]. reflexivity. }
  destruct (signal_delivered signal_vm v demo_chunk N 0 10 ([0x34; 0x12] ++ replicate 150 0) 0%nat
              (mkRegion 0x11000800 0x1000 4096 false "signal") 0x110000f8 0x110000f0 0x110000e8 Hok)
    as (s' & v' & E & Ok' & _ & Em & Esp & Edi & _);
    [reflexivity|lia|vm_compute; reflexivity|lia|vm_compute; reflexivity|reflexivity|vm_compute; reflexivity
    |by vm_compute|..].
  1-3: (constructor; [split; [by vm_compute|vm_compute; discriminate]|vm_compute; reflexivity|
        right; vm_compute; discriminate]).
  exists s', v'. exact (conj E (conj (vo_cpu _ _ _ _ Ok') (conj Esp (conj Edi Em)))).
Defined.

(** The queue of signals. The host's handler appends to an array of 32: with
    room left the waiting signals are the old ones followed by the new one
    ([signal_deliver] takes them from the end, last in first out); the 33rd
    waiting signal is written behind the array. *)
Theorem signal_queue {os T} `{HostOS os} `{TranslationCache T} (s : vm os T) signum :
  length (pending_signals s) = 32%nat -> 0 <= num_pending_signals s <= 32 ->
  if num_pending_signals s <? 32 then
    exists s', elkvm_signal_handler signum s = Ok (tt, s') /\ pending s' = pending s ++ [signum] /\
      num_pending_signals s' = num_pending_signals s + 1
  else elkvm_signal_handler signum s = Fail OutOfRange.
Proof.
  intros Hl Hn. destruct (Z.ltb_spec (num_pending_signals s) 32) as [Hlt|Hge]; unfold elkvm_signal_handler;
    unfold bind at 1, get; cbv beta iota; unfold bind at 1; rewrite at_z_lookup by lia.
  - destruct (lookup_lt_is_Some_2 (pending_signals s) (Z.to_nat (num_pending_signals s))) as [x Hx]; [lia|].
    rewrite Hx. eexists. split; [reflexivity|]. unfold pending. cbn [with_pending pending_signals num_pending_signals].
    rewrite s32_small by lia. split; [|done]. rewrite Z2Nat.inj_add by lia.
    change (Z.to_nat 1) with 1%nat. rewrite Nat.add_1_r. rewrite (take_S_r _ _ signum).
    + by rewrite take_insert_ge by lia.
    + apply list_lookup_insert_eq. lia.
  - by rewrite lookup_ge_None_2 by lia.
Qed.

Lemma signal_queue_witness :
  (exists s', elkvm_signal_handler 12 signal_vm = Ok (tt, s') /\ pending s' = [10; 12]) /\
  elkvm_signal_handler 12 (with_pending signal_vm (replicate 32 10) 32) = Fail OutOfRange.
Proof.
  split.
  - destruct (signal_queue signal_vm 12 eq_refl) as (s' & E & Ep & _); [by vm_compute|].
    exists s'. exact (conj E Ep).
  - exact (signal_queue (with_pending signal_vm (replicate 32 10) 32) 12 eq_refl ltac:(by vm_compute)).
Defined.

(** The signal table. [signal_register] of a signal between 0 and 64 with a new
    action copies it to the entry that [adjust_signum] names and returns 0,
    if the host takes the signal; the real-time signals are moved up by two, so
    that 63 is written behind the 65 entries and 64 shares the entry of 32. *)
Theorem signal_register_slot {os T} `{HostOS os} `{MonitorOS os} `{TranslationCache T}
    (s : vm os T) signum act :
  length (sigs s) = 65%nat -> 0 <= signum < 65 -> act <> 0 ->
  (forall o, (io_sigaction o (adjust_signum signum)).1 = 0) ->
  (if signum =? 63 then signal_register signum act 0 s = Fail OutOfRange
   else exists s', signal_register signum act 0 s = Ok (0, s') /\
     sigs s' = <[Z.to_nat (adjust_signum signum) :=
                   load_bytes (p_mem (vm_paging s)) act sizeof_sigaction]> (sigs s)) /\
  adjust_signum 64 = adjust_signum 32.
Proof.
  intros Hl Hs Ha Hio. split; [|done].
  assert (0 <= adjust_signum signum < 66 /\ (adjust_signum signum = 65 <-> signum = 63)) as [Hr H63].
  { unfold adjust_signum. destruct (Z.leb_spec 32 signum), (Z.leb_spec signum 64); cbn [andb]; try lia.
    change SIGRTMIN with 34. pose proof (Z.rem_bound_pos signum 32). rewrite Z.rem_mod_nonneg by lia.
    Z.div_mod_to_equations. lia. }
  assert (signal_register signum act 0 s =
    match sigs s !! Z.to_nat (adjust_signum signum) with
    | None => Fail OutOfRange
    | Some _ =>
        (let! err := os_io (fun o => io_sigaction o (adjust_signum signum)) in
         do! assert_ (err =? 0) in ret 0)
          (with_sigs s (<[Z.to_nat (adjust_signum signum) :=
                            load_bytes (p_mem (vm_paging s)) act sizeof_sigaction]> (sigs s)))
    end) as ->.
  { unfold signal_register. apply Z.eqb_neq in Ha. change (_NSIG) with 65.
    replace (signum <? 65) with true by (symmetry; lia). cbn [assert_]. rewrite Ha, u32_small by lia.
    change (0 =? 0) with true. unfold bind, ret, get. cbn [negb]. cbv beta iota. rewrite at_z_lookup by lia.
    destruct (sigs s !! _); [|done]. unfold memory, gets, modify. cbv beta iota.
    change (p_mem (rm_pager (hm_rm (v_hm s)))) with (p_mem (vm_paging s)).
    by destruct (os_io _ _) as [[e s1]|f]; [destruct (assert_ _ _) as [[] |]|]. }
  destruct (Z.eqb_spec signum 63) as [->|Hne].
  - by rewrite lookup_ge_None_2 by (rewrite Hl; vm_compute; lia).
  - destruct (lookup_lt_is_Some_2 (sigs s) (Z.to_nat (adjust_signum signum))) as [x Hx]; [lia|]. rewrite Hx.
    specialize (Hio (p_os (vm_paging s))).
    unfold bind at 1, os_io, region_manager, heap, HeapManager.on_rm, rm_io, on_pager, zoom.
    unfold bind at 1, get. cbv beta iota. cbn [hm_rm v_hm rm_pager with_sigs].
    change (rm_pager (hm_rm (v_hm s))) with (vm_paging s).
    destruct (io_sigaction _ _) as [e o]. cbn [fst] in Hio. subst e.
    unfold bind at 1, put, ret. cbv beta iota. by eexists.
Qed.

Lemma signal_register_slot_witness :
  (exists s', signal_register 10 0x11000000 0 signal_vm = Ok (0, s')) /\
  signal_register 63 0x11000000 0 signal_vm = Fail OutOfRange.
Proof.
  split.
  - destruct (signal_register_slot signal_vm 10 0x11000000 eq_refl ltac:(lia) ltac:(lia) ltac:(done))
      as [(s' & E & _) _]. exists s'. exact E.
  - destruct (signal_register_slot signal_vm 63 0x11000000 eq_refl ltac:(lia) ltac:(lia) ltac:(done)) as [E _].
    exact E.
Defined.
