(* ===== verification/RunTheorems.v ===== *)
(** * Hypercalls, page faults and the main loop: theorems

    What one hypercall does from the guest's stack to the guest's registers, and
    the main loop as a step relation on machines. *)

From S2P Require Import Prelude Memory PageMath HostOS Tlb Pager PagerTree PagerWalk PagerSpec PagerTlb PagerTheorems Region RegionManager RegionSpec RegionTheorems Registers Mappings Heap HeapSpec HeapTheorems Vcpu VcpuTheorems Descriptors Vm Handlers Syscall SyscallStubs Hypercall VmSpec SyscallTheorems HypercallTheorems.
From stdpp Require Import strings relations.
Local Open Scope Z_scope.

Section Flow.
Context {os T : Type} `{HostOSLaws os} `{FileOS os} `{KvmOS os} `{MonitorOS os} `{TranslationCacheLaws T}.
Variable hs : elkvm_handlers os (vm os T).
Implicit Types s : vm os T.

(** Reading the type of the hypercall off the stack. *)
Lemma get_hypercall_type_eq s v c0 N hp :
  vm_ok s v c0 N -> stack_word (cpu0 s v) c0 (vreg v rsp) hp ->
  exists t, let v1 := set_vreg v rsp (u64 (vreg v rsp + 8)) in
    let s1 := vm_write s v1 (p_mem (vm_paging s)) t in
    get_hypercall_type s = Ok (u32 (load64 (p_mem (vm_paging s)) hp), s1) /\
    vm_ok s1 v1 c0 N.
Proof.
  intros Hok Hw. destruct (vm_pop s v c0 N hp Hok Hw) as (t & E & Ok1 & _). exists t. split; [|exact Ok1].
  unfold get_hypercall_type. by rewrite (bind_ok _ _ _ _ _ E).
Qed.

(** After a handled hypercall without pending signals the guest goes on behind
    the [vmcall] instruction. *)
Lemma finish_hypercall_eq s v call :
  cpus s !! 0%nat = Some v -> num_pending_signals s <= 0 ->
  finish_hypercall hypercall_null call s = Ok (0, put_reg s v rip (u64 (vreg v rip + 3))).
Proof.
  intros Hv Hn. unfold finish_hypercall. change (run_hook (post_handler hypercall_null) call) with (ret (S := vm os T) tt).
  rewrite (bind_ok _ _ _ _ _ (eq_refl : ret tt s = Ok (tt, s))).
  assert (elkvm_emulate_vmcall s = Ok (tt, put_reg s v rip (u64 (vreg v rip + 3)))) as E.
  { unfold elkvm_emulate_vmcall. rewrite (bind_ok _ _ _ _ _ (on_cpu_get_reg s v rip Hv)).
    by rewrite (on_cpu_set_reg s v _ _ Hv). }
  rewrite (bind_ok _ _ _ _ _ E). set (s1 := put_reg _ _ _ _).
  assert (signal_deliver s1 = Ok (0, s1)) as Es.
  { unfold signal_deliver, bind at 1, get. cbv beta iota. cbn [num_pending_signals s1 put_reg with_cpus].
    by replace (num_pending_signals s <=? 0) with true by (symmetry; lia). }
  by rewrite (bind_ok _ _ _ _ _ Es).
Qed.
End Flow.

(** A hypercall that is not an interrupt, from the stack to the registers. *)
Lemma hypercall_flow {os T} `{HostOSLaws os} `{FileOS os} `{KvmOS os} `{MonitorOS os} `{TranslationCacheLaws T}
    (hs : elkvm_handlers os (vm os T)) udis (s : vm os T) v c0 N hp :
  vm_ok s v c0 N -> stack_word (cpu0 s v) c0 (vreg v rsp) hp -> 0 <= vreg v rax < 275 ->
  let call := u32 (load64 (p_mem (vm_paging s)) hp) in
  call <> ELKVM_HYPERCALL_INTERRUPT ->
  exists t f name, let s1 := vm_write s (set_vreg v rsp (u64 (vreg v rsp + 8))) (p_mem (vm_paging s)) t in
    vm_ok s1 (set_vreg v rsp (u64 (vreg v rsp + 8))) c0 N /\
    elkvm_syscalls hs !! Z.to_nat (vreg v rax) = Some (Some (f, name)) /\
    if call =? ELKVM_HYPERCALL_SYSCALL then
      match f s1 with
      | Fail e => handle_hypercall hs hypercall_null udis s = Fail e
      | Ok (r, s2) =>
          if vreg v rax =? 231 then handle_hypercall hs hypercall_null udis s = Ok (ELKVM_HYPERCALL_EXIT, s2)
          else forall v2, cpus s2 !! 0%nat = Some v2 -> num_pending_signals s2 <= 0 ->
            handle_hypercall hs hypercall_null udis s =
              Ok (0, put_reg (put_reg s2 v2 rax (u64 r)) (set_vreg v2 rax (u64 r)) rip (u64 (vreg v2 rip + 3)))
      end
    else handle_hypercall hs hypercall_null udis s = Ok (1, s1).
Proof.
  intros Hok Hw Hn call Hni. destruct (get_hypercall_type_eq s v c0 N hp Hok Hw) as (t & Et & Ok1). pose proof (vo_cpu _ _ _ _ Ok1) as Hv1.
  set (v1 := set_vreg v rsp _) in *. set (s1 := vm_write s v1 _ t) in *.
  assert (vreg v1 rax = vreg v rax) as Er by (unfold v1; rewrite vreg_set; by case_decide).
  destruct (syscall_table_entry hs (vreg v rax) Hn) as (f & name & Hf). exists t, f, name. split; [exact Ok1|]. split; [done|].
  fold v1. fold s1. unfold handle_hypercall. rewrite (bind_ok _ _ _ _ _ Et). fold call.
  rewrite (bind_ok _ _ _ _ _ (eq_refl : run_hook (pre_handler hypercall_null) call s1 = Ok (tt, s1))).
  destruct (call =? ELKVM_HYPERCALL_SYSCALL).
  2: { apply Z.eqb_neq in Hni. by rewrite Hni. }
  pose proof (handle_syscall_eq hs s1 v1 Hv1 ltac:(lia)) as E. rewrite Er, Hf in E.
  replace (313 <=? vreg v rax) with false in E by (symmetry; lia). rewrite andb_false_r in E.
  replace (313 <? vreg v rax) with false in E by (symmetry; lia). change NR_exit_group with 231 in E.
  destruct (f s1) as [[r s2]|e] eqn:Ef; [rewrite (bind_ok _ _ _ _ _ Ef) in E|rewrite (bind_fail _ _ _ _ Ef) in E; by rewrite (bind_fail _ _ _ _ E)].
  destruct (vreg v rax =? 231); [by rewrite (bind_ok _ _ _ _ _ E)|]. intros v2 Hv2 Hp.
  rewrite (set_syscall_return_eq s2 v2 r Hv2) in E. rewrite (bind_ok _ _ _ _ _ E). change (ctrue 0) with false. cbv iota.
  rewrite (finish_hypercall_eq _ (set_vreg v2 rax (u64 r))); [|by apply put_reg_lookup|done].
  reflexivity.
Qed.

(** C22. One hypercall of the guest, with no hooks installed. The type is popped from
    the guest's stack. For a system call below 275 the function of that number
    runs on the machine whose stack pointer has moved up by one word; if it
    returns [r] and no signal waits, [rax] is [r] as 64 bits and [rip] is moved
    behind the three bytes of the [vmcall], and the machine goes on; after
    [exit_group] it stops. A type that is neither a system call nor an
    interrupt stops the machine, with the type popped (stated, like the rest, for [rax] below 275). *)
Theorem hypercall_outcome {os T} `{HostOSLaws os} `{FileOS os} `{KvmOS os} `{MonitorOS os} `{TranslationCacheLaws T}
    (hs : elkvm_handlers os (vm os T)) udis (s : vm os T) v c0 N hp :
  vm_ok s v c0 N -> stack_word (cpu0 s v) c0 (vreg v rsp) hp -> 0 <= vreg v rax < 275 ->
  let call := u32 (load64 (p_mem (vm_paging s)) hp) in
  call <> ELKVM_HYPERCALL_INTERRUPT ->
  exists t f name, let s1 := vm_write s (set_vreg v rsp (u64 (vreg v rsp + 8))) (p_mem (vm_paging s)) t in
    elkvm_syscalls hs !! Z.to_nat (vreg v rax) = Some (Some (f, name)) /\
    if call =? ELKVM_HYPERCALL_SYSCALL then
      match f s1 with
      | Fail e => handle_hypercall hs hypercall_null udis s = Fail e
      | Ok (r, s2) =>
          if vreg v rax =? 231 then handle_hypercall hs hypercall_null udis s = Ok (ELKVM_HYPERCALL_EXIT, s2)
          else forall v2, cpus s2 !! 0%nat = Some v2 -> num_pending_signals s2 <= 0 ->
            handle_hypercall hs hypercall_null udis s =
              Ok (0, put_reg (put_reg s2 v2 rax (u64 r)) (set_vreg v2 rax (u64 r)) rip (u64 (vreg v2 rip + 3)))
      end
    else handle_hypercall hs hypercall_null udis s = Ok (1, s1).
Proof.
  intros Hok Hw Hn call Hni.
  destruct (hypercall_flow hs udis s v c0 N hp Hok Hw Hn Hni) as (t & f & name & _ & E).
  by exists t, f, name.
Qed.

(** [getpid], with the type of the hypercall on the stack. *)
Lemma hypercall_outcome_witness :
  exists s s' : vm bump_os TLB.t, handle_hypercall default_handlers hypercall_null false s = Ok (0, s') /\
    exists v', cpus s' !! 0%nat = Some v' /\ vreg v' rax = 0 /\ vreg v' rip = 3 /\ vreg v' rsp = 0x400010.
Proof.
  set (v := demo_vcpu [(rsp, 0x400010); (rax, 39)]).
  destruct (demo_vm_ok [(rsp, 0x400010); (rax, 39)]) as [N Hok].
  assert (stack_word (cpu0 (demo_vm [(rsp, 0x400010); (rax, 39)]) v) demo_chunk (u64 (vreg v rsp - 8)) 0x11000008) as W.
  { constructor; [split; [by vm_compute|vm_compute; discriminate]|vm_compute; reflexivity|
                  right; vm_compute; discriminate]. }
  destruct (vm_push _ v demo_chunk N 0x11000008 1 Hok W) as (t & _ & Ok' & Eh). set (s := vm_write _ _ _ t) in *.
  destruct (hypercall_outcome default_handlers false s _ demo_chunk N 0x11000008 Ok'
              (stack_word_step (demo_vm [(rsp, 0x400010); (rax, 39)]) s v _ demo_chunk _ _ eq_refl Eh W))
    as (t' & f & name & Hf & E); [by vm_compute| |].
  - change (p_mem (vm_paging s)) with (store64 (p_mem (vm_paging (demo_vm [(rsp, 0x400010); (rax, 39)]))) 0x11000008 1).
    rewrite load64_store64_same. discriminate.
  - change (p_mem (vm_paging s)) with (store64 (p_mem (vm_paging (demo_vm [(rsp, 0x400010); (rax, 39)]))) 0x11000008 1) in E.
    rewrite load64_store64_same in E. injection Hf as <- <-. eexists s, _.
    split; [exact (E _ eq_refl ltac:(by vm_compute))|]. eexists. split; [reflexivity|]. done.
Defined.

(** A page fault, up to the growth of the stack. *)
Lemma page_fault_flow {os T} `{HostOS os} `{KvmOS os} `{TranslationCache T}
    (s : vm os T) v c1 code :
  cpus s !! 0%nat = Some v -> get_sregs (cpu0 s v) = Ok (0, c1) ->
  handle_page_fault code s =
    if reg c1 cr2 <=? 0x1000 then Fail (Exit 1)
    else match expand c1 with
         | Ok (_, c2) => Ok (Interrupt.success, put_cpu0 s c2)
         | Fail f => Fail f
         end.
Proof.
  intros Hv Hg. pose proof (on_cpu_eq get_sregs s v Hv) as E. rewrite Hg in E.
  unfold handle_page_fault. rewrite (bind_ok _ _ _ _ _ E). set (s1 := put_cpu0 s c1) in *.
  assert (cpus s1 !! 0%nat = Some (c_vcpu c1)) as Hv1 by exact (put_cpu0_lookup s c1 v Hv).
  rewrite (bind_ok _ _ _ _ _ (eq_refl : assert_ (0 =? 0) s1 = Ok (tt, s1))).
  rewrite (bind_ok _ _ _ _ _ (on_cpu_get_reg s1 _ cr2 Hv1)).
  change (vreg (c_vcpu c1) cr2) with (reg c1 cr2). unfold handle_segfault.
  destruct (reg c1 cr2 <=? 0x1000); [done|].
  rewrite (bind_ok _ _ _ _ _ (eq_refl : ret Interrupt.failure s1 = Ok (Interrupt.failure, s1))).
  pose proof (on_cpu_eq handle_stack_expansion s1 _ Hv1) as Ex. unfold s1 in Ex at 2. rewrite cpu0_put in Ex.
  assert (handle_stack_expansion c1 = match expand c1 with Ok (_, c2) => Ok (1, c2) | Fail f => Fail f end) as Ee.
  { unfold handle_stack_expansion, bind. by destruct (expand c1) as [[e c2]|f]. }
  rewrite Ee in Ex. destruct (expand c1) as [[e c2]|f].
  - rewrite (bind_ok _ _ _ _ _ Ex). change (ctrue 1) with true. cbv iota. unfold s1. by rewrite put_cpu0_put.
  - by rewrite (bind_fail _ _ _ _ Ex).
Qed.

(** A page fault. The address in [cr2] decides only whether it is in the first
    page or at its end, which ends the monitor with status 1; every other
    fault grows the stack by one step, wherever the address lies and whatever
    the outcome of the growth, and the guest goes on. *)
Theorem page_fault_outcome {os T} `{HostOS os} `{KvmOS os} `{TranslationCache T}
    (s : vm os T) v c1 code :
  cpus s !! 0%nat = Some v -> get_sregs (cpu0 s v) = Ok (0, c1) ->
  handle_page_fault code s =
    if reg c1 cr2 <=? 0x1000 then Fail (Exit 1)
    else match expand c1 with
         | Ok (_, c2) => Ok (Interrupt.success, put_cpu0 s c2)
         | Fail f => Fail f
         end.
Proof. apply page_fault_flow. Qed.

Lemma page_fault_outcome_witness :
  handle_page_fault 0 (demo_vm [(cr2, 0x1000)]) = Fail (Exit 1) /\
  handle_page_fault 0 (demo_vm [(cr2, 0x500000)]) =
    match expand (cpu0 (demo_vm [(cr2, 0x500000)]) (demo_vcpu [(cr2, 0x500000)])) with
    | Ok (_, c2) => Ok (Interrupt.success, put_cpu0 (demo_vm [(cr2, 0x500000)]) c2)
    | Fail f => Fail f
    end.
Proof.
  split.
  - exact (page_fault_outcome (demo_vm [(cr2, 0x1000)]) (demo_vcpu [(cr2, 0x1000)]) _ 0 eq_refl eq_refl).
  - exact (page_fault_outcome (demo_vm [(cr2, 0x500000)]) (demo_vcpu [(cr2, 0x500000)]) _ 0 eq_refl eq_refl).
Defined.

(** ** The main loop as a step relation *)

Section Loop.
Context {os T : Type} `{HostOS os} `{FileOS os} `{KvmOS os} `{MonitorOS os} `{TranslationCache T}.
Variable hs : elkvm_handlers os (vm os T).
Variable hyp : hypercall_handlers (vm os T).
Variable udis : bool.
Implicit Types s t u : vm os T.

(** Entering the guest: the exit reason once it has stopped and its registers
    are read back, or the error that ends the loop. *)
Definition enter_guest : M (vm os T) (Z + Z) :=
  let! err := on_cpu 0 set_regs in
  if ctrue err then ret (inr err) else
  let! reason := on_cpu 0 kvm_run_ in
  if reason <? 0 then ret (inr reason) else
  let! err := on_cpu 0 get_regs in
  ret (if ctrue err then inr err else inl reason).

(** The guest has stopped for [reason] in [u]. *)
Definition stops s (reason : Z) u : Prop :=
  exists s1, enter_guest s = Ok (inl reason, s1) /\ print_info udis s1 = Ok (tt, u).

(** A round after which the machine goes on. *)
Inductive goes_on : relation (vm os T) :=
  | go_hypercall s s1 u :
      stops s hypercall_exit s1 -> handle_hypercall hs hyp udis s1 = Ok (0, u) -> goes_on s u
  | go_exit s s1 reason u :
      stops s reason s1 -> reason <> hypercall_exit -> on_cpu 0 handle_vm_exit s1 = Ok (true, u) -> goes_on s u.

(** The round that ends the machine, with the value [run] returns. *)
Inductive ends : vm os T -> Z -> vm os T -> Prop :=
  | end_error s err u : enter_guest s = Ok (inr err, u) -> ends s err u
  | end_hypercall s s1 err u :
      stops s hypercall_exit s1 -> handle_hypercall hs hyp udis s1 = Ok (err, u) -> err <> 0 -> ends s 0 u
  | end_exit s s1 reason u :
      stops s reason s1 -> reason <> hypercall_exit -> on_cpu 0 handle_vm_exit s1 = Ok (false, u) -> ends s 0 u.

(** What follows a stop of the guest. *)
Definition after_stop (reason : Z) : M (vm os T) (unit + Z) :=
  if reason =? hypercall_exit then
    let! err := handle_hypercall hs hyp udis in ret (if ctrue err then inr 0 else inl tt)
  else let! running := on_cpu 0 handle_vm_exit in ret (if running then inl tt else inr 0).

Lemma run_step_eq s :
  run_step hs hyp udis tt s =
    (let! e := enter_guest in
     match e with
     | inr err => ret (inr err)
     | inl reason => do! print_info udis in after_stop reason
     end) s.
Proof.
  unfold run_step, enter_guest, bind, ret.
  destruct (on_cpu 0 set_regs s) as [[e1 s1]|f]; [|done]. destruct (ctrue e1); [done|].
  destruct (on_cpu 0 kvm_run_ s1) as [[e2 s2]|f]; [|done]. destruct (e2 <? 0); [done|].
  destruct (on_cpu 0 get_regs s2) as [[e3 s3]|f]; [|done]. by destruct (ctrue e3).
Qed.

Lemma run_step_stops s reason s1 :
  stops s reason s1 -> run_step hs hyp udis tt s = after_stop reason s1.
Proof.
  intros (s0 & E & Ep). rewrite run_step_eq, (bind_ok _ _ _ _ _ E). by rewrite (bind_ok _ _ _ _ _ Ep).
Qed.

Lemma run_step_goes_on s u : run_step hs hyp udis tt s = Ok (inl tt, u) <-> goes_on s u.
Proof.
  split.
  - rewrite run_step_eq. intros E. apply bind_ok_inv in E as ([reason|err] & s0 & E0 & E); [|done].
    apply bind_ok_inv in E as ([] & s1 & E1 & E). assert (stops s reason s1) as Hs by (by exists s0).
    unfold after_stop in E. destruct (Z.eqb_spec reason hypercall_exit) as [->|Hne];
      apply bind_ok_inv in E as (x & s2 & E2 & E).
    + destruct (ctrue x) eqn:Ex; [done|]. injection E as <-. apply ctrue_false in Ex as ->.
      by apply (go_hypercall s s1).
    + destruct x; [|done]. injection E as <-. by apply (go_exit s s1 reason).
  - intros [s0 s1 s2 Hs Hh|s0 s1 reason s2 Hs Hne Hx]; rewrite (run_step_stops _ _ _ Hs); unfold after_stop.
    + rewrite Z.eqb_refl. by rewrite (bind_ok _ _ _ _ _ Hh).
    + apply Z.eqb_neq in Hne. rewrite Hne. by rewrite (bind_ok _ _ _ _ _ Hx).
Qed.

Lemma run_step_ends s r u : run_step hs hyp udis tt s = Ok (inr r, u) <-> ends s r u.
Proof.
  split.
  - rewrite run_step_eq. intros E. apply bind_ok_inv in E as ([reason|err] & s0 & E0 & E).
    2: { injection E as <- <-. by apply end_error. }
    apply bind_ok_inv in E as ([] & s1 & E1 & E). assert (stops s reason s1) as Hs by (by exists s0).
    unfold after_stop in E. destruct (Z.eqb_spec reason hypercall_exit) as [->|Hne];
      apply bind_ok_inv in E as (x & s2 & E2 & E).
    + destruct (ctrue x) eqn:Ex; [|done]. injection E as <- <-. apply ctrue_true in Ex.
      by apply (end_hypercall s s1 x).
    + destruct x; [done|]. injection E as <- <-. by apply (end_exit s s1 reason).
  - intros [s0 err s1 E|s0 s1 err s2 Hs Hh Hne|s0 s1 reason s2 Hs Hne Hx].
    + rewrite run_step_eq. by rewrite (bind_ok _ _ _ _ _ E).
    + rewrite (run_step_stops _ _ _ Hs). unfold after_stop. rewrite Z.eqb_refl, (bind_ok _ _ _ _ _ Hh).
      apply ctrue_true in Hne. by rewrite Hne.
    + rewrite (run_step_stops _ _ _ Hs). unfold after_stop. apply Z.eqb_neq in Hne. rewrite Hne.
      by rewrite (bind_ok _ _ _ _ _ Hx).
Qed.

Lemma rounds_nsteps k s t :
  rounds (run_step hs hyp udis) k tt s tt t <-> nsteps goes_on k s t.
Proof.
  revert s. induction k as [|k IH]; intros s; split; intros Hk.
  - inversion Hk; subst. constructor.
  - inversion Hk; subst. constructor.
  - inversion Hk as [|? ? ? [] ? ? ? Hb Hr]; subst. apply run_step_goes_on in Hb. apply IH in Hr.
    by econstructor.
  - inversion Hk as [|? ? s1 ? Hb Hr]; subst. apply run_step_goes_on in Hb. apply IH in Hr.
    by econstructor.
Qed.

Lemma run_steps s r u :
  run hs hyp udis s = Ok (r, u) <->
  exists k t, Z.of_nat k < 2 ^ 64 /\ nsteps goes_on k s t /\ ends t r u.
Proof.
  unfold run. rewrite while_rounds. split.
  - intros (k & [] & t & Hk & Hr & Hb). exists k, t. split; [done|]. split; [by apply rounds_nsteps|by apply run_step_ends].
  - intros (k & t & Hk & Hr & He). exists k, tt, t. split; [done|]. split; [by apply rounds_nsteps|by apply run_step_ends].
Qed.
End Loop.

(** ** The reason of the last stop *)

Section Stop.
Context {os T : Type} `{HostOS os} `{FileOS os} `{KvmOS os} `{MonitorOS os} `{TranslationCache T}.
Implicit Types s t u : vm os T.

(** Why CPU 0 stopped last. *)
Definition exit_of (v : VCPU) : Z := run_exit_reason (kv_run (_kvm_vcpu v)).

Lemma on_cpu_inv {A} (c : M (cpu os T) A) s a u :
  on_cpu 0 c s = Ok (a, u) ->
  exists v c', cpus s !! 0%nat = Some v /\ c (cpu0 s v) = Ok (a, c') /\ u = put_cpu0 s c' /\
               cpus u !! 0%nat = Some (c_vcpu c').
Proof.
  intros E. destruct (cpus s !! 0%nat) as [v|] eqn:Hv; [|unfold on_cpu in E; by rewrite Hv in E].
  rewrite (on_cpu_eq c s v Hv) in E. destruct (c (cpu0 s v)) as [[a' c']|f] eqn:Ec; [|done].
  injection E as <- <-. exists v, c'. do 3 (split; [done|]). by eapply put_cpu0_lookup.
Qed.

Lemma kvm_run_reason (c c' : cpu os T) :
  kvm_run_ c = Ok (hypercall_exit, c') -> exit_of (c_vcpu c') = KVM_EXIT_HYPERCALL.
Proof.
  unfold kvm_run_, kvm, gets, on_cpu_rm, on_pager, zoom, bind, get, put, ret, set_kvm, modify. cbv beta iota.
  destruct (io_run _ _ _) as [[[[err eno] r] m] o]. cbv beta iota. cbn [c_vcpu].
  repeat match goal with |- context [if ?b then _ else _] => destruct b eqn:?; cbv beta iota; [done|] end.
  destruct (run_exit_reason r =? KVM_EXIT_HYPERCALL) eqn:E; [|done]. intros [= <-]. by apply Z.eqb_eq.
Qed.

Lemma get_regs_exit (c c' : cpu os T) e : get_regs c = Ok (e, c') -> exit_of (c_vcpu c') = exit_of (c_vcpu c).
Proof.
  unfold get_regs, kvm, gets, on_cpu_rm, rm_io, on_pager, zoom, bind, get, put, ret, set_kvm, modify. cbv beta iota.
  destruct (io_get_regs _ _ _) as [[[err eno] r] o]. cbv beta iota. by destruct (ctrue err); intros [= <- <-].
Qed.

(** When the guest stops with a hypercall, nothing is printed. *)
Lemma stops_hypercall udis s u :
  enter_guest s = Ok (inl hypercall_exit, u) -> stops udis s hypercall_exit u.
Proof.
  intros E. exists u. split; [done|]. unfold enter_guest in E.
  apply bind_ok_inv in E as (e1 & s1 & _ & E). destruct (ctrue e1); [done|].
  apply bind_ok_inv in E as (e2 & s2 & E2 & E). destruct (e2 <? 0); [done|].
  apply bind_ok_inv in E as (e3 & s3 & E3 & E). destruct (ctrue e3); [done|]. injection E as -> ->.
  apply on_cpu_inv in E2 as (v1 & c2 & _ & E2 & -> & Hv2). apply kvm_run_reason in E2.
  apply on_cpu_inv in E3 as (v2 & c3 & Hv2' & E3 & -> & Hv3). apply get_regs_exit in E3.
  rewrite Hv2 in Hv2'. injection Hv2' as <-. cbn [c_vcpu cpu0] in E3. rewrite E2 in E3.
  set (u := put_cpu0 _ c3) in *.
  assert (forall A (f : KVM_VCPU -> A), on_cpu 0 (let! k := kvm in ret (f k)) u = Ok (f (_kvm_vcpu (c_vcpu c3)), u)) as Ek.
  { intros A f. rewrite (on_cpu_eq _ u _ Hv3). cbn. by rewrite (put_cpu0_id u _ Hv3). }
  unfold print_info, exit_reason. rewrite (bind_ok _ _ _ _ _ (Ek _ _)). unfold get_reg.
  rewrite (bind_ok _ _ _ _ _ (Ek _ _)).
  assert (on_cpu 0 (gets c_vcpu) u = Ok (c_vcpu c3, u)) as Eg.
  { rewrite (on_cpu_eq _ u _ Hv3). cbn. by rewrite (put_cpu0_id u _ Hv3). }
  rewrite (bind_ok _ _ _ _ _ Eg). unfold exit_of in E3. rewrite E3. by rewrite andb_false_r.
Qed.

Lemma exit_group_eq hs s v h :
  cpus s !! 0%nat = Some v -> h_exit_group hs = Some h ->
  match h (s32 (vreg v rdi)) (p_mem (vm_paging s), p_os (vm_paging s)) with
  | Ok _ => exists r s', elkvm_do_exit_group hs s = Ok (r, s')
  | Fail e => elkvm_do_exit_group hs s = Fail e
  end.
Proof.
  intros Hv Hh. unfold elkvm_do_exit_group. rewrite (bind_ok _ _ _ _ _ (unpack1_eq s v Hv)), Hh.
  unfold bind, deref, ret, host, pager, region_manager, heap, HeapManager.on_rm, on_pager, zoom. cbv beta iota.
  change (rm_pager (hm_rm (v_hm s))) with (vm_paging s).
  destruct (h _ _) as [[[] mo]|e]; [|done]. by eexists _, _.
Qed.
End Stop.

(** The main loop is its step relation. [run] returns [r] exactly when some
    number of rounds after which the machine goes on leads to a round that
    ends it with [r]: the machine goes on after a hypercall that was handled without error
    (no other exit is one the CPU continues after, because [handle_vm_exit] never answers true);
    it ends with the error of KVM, or with 0 when a
    hypercall asks for the end or at any other exit. A fault in a round is the
    fault of [run]. *)
Theorem run_is_steps {os T} `{HostOS os} `{FileOS os} `{KvmOS os} `{MonitorOS os} `{TranslationCache T}
    (hs : elkvm_handlers os (vm os T)) hyp udis (s : vm os T) :
  (forall r u, run hs hyp udis s = Ok (r, u) <->
     exists k t, Z.of_nat k < 2 ^ 64 /\ nsteps (goes_on hs hyp udis) k s t /\ ends hs hyp udis t r u) /\
  (forall k t e, Z.of_nat k < 2 ^ 64 -> nsteps (goes_on hs hyp udis) k s t ->
     run_step hs hyp udis tt t = Fail e -> run hs hyp udis s = Fail e).
Proof.
  split; [intros r u; apply run_steps|]. intros k t e Hk Hn He.
  apply (while_fault _ k tt s tt t e Hk); [by apply rounds_nsteps|done].
Qed.

(** C21. The guest's exit ends the machine, with no hooks installed. When, after any number of rounds, the
    guest makes the hypercall of a system call with number 231 on its stack and
    in [rax], the handler of [exit_group] gets the status in [rdi] as an [int],
    and when it returns, [run] returns 0; when it does not (the default handler
    ends the process with the status), that is how [run] ends. *)
Theorem guest_exit_ends_run {os T} `{HostOSLaws os} `{FileOS os} `{KvmOS os} `{MonitorOS os} `{TranslationCacheLaws T}
    (hs : elkvm_handlers os (vm os T)) udis (s t u : vm os T) k v c0 N hp h :
  Z.of_nat k < 2 ^ 64 -> nsteps (goes_on hs hypercall_null udis) k s t ->
  enter_guest t = Ok (inl hypercall_exit, u) -> vm_ok u v c0 N ->
  stack_word (cpu0 u v) c0 (vreg v rsp) hp ->
  u32 (load64 (p_mem (vm_paging u)) hp) = ELKVM_HYPERCALL_SYSCALL -> vreg v rax = 231 ->
  h_exit_group hs = Some h ->
  match h (s32 (vreg v rdi)) (p_mem (vm_paging u), p_os (vm_paging u)) with
  | Ok _ => exists u', run hs hypercall_null udis s = Ok (0, u')
  | Fail e => run hs hypercall_null udis s = Fail e
  end.
Proof.
  intros Hk Hn He Hok Hw Ht Hr Hh. apply (stops_hypercall udis) in He.
  destruct (get_hypercall_type_eq u v c0 N hp Hok Hw) as (tl & Et & Ok1). pose proof (vo_cpu _ _ _ _ Ok1) as Hv1. rewrite Ht in Et.
  set (v1 := set_vreg v rsp _) in *. set (s1 := vm_write u v1 _ tl) in *.
  assert (vreg v1 rax = 231) as Er by (unfold v1; rewrite vreg_set; by case_decide).
  assert (handle_hypercall hs hypercall_null udis u =
    (let! err := handle_syscall hs in if ctrue err then ret err else finish_hypercall hypercall_null 1) s1) as Eh.
  { unfold handle_hypercall. rewrite (bind_ok _ _ _ _ _ Et).
    by rewrite (bind_ok _ _ _ _ _ (eq_refl : run_hook (pre_handler hypercall_null) _ s1 = Ok (tt, s1))). }
  assert (handle_syscall hs s1 = (let! _r := elkvm_do_exit_group hs in ret ELKVM_HYPERCALL_EXIT) s1) as Es.
  { rewrite (handle_syscall_eq hs s1 v1 Hv1), Er by (rewrite Er; lia). by rewrite andb_false_r. }
  pose proof (exit_group_eq hs s1 v1 h Hv1 Hh) as Eg.
  change (p_mem (vm_paging s1)) with (p_mem (vm_paging u)) in Eg.
  change (p_os (vm_paging s1)) with (p_os (vm_paging u)) in Eg.
  replace (vreg v1 rdi) with (vreg v rdi) in Eg by (unfold v1; rewrite vreg_set; by case_decide).
  destruct (h _ _) as [_|e].
  - destruct Eg as (r & s2 & Eg). rewrite (bind_ok _ _ _ _ _ Eg) in Es.
    rewrite (bind_ok _ _ _ _ _ Es) in Eh. exists s2. apply run_steps. exists k, t.
    do 2 (split; [done|]). by apply (end_hypercall hs hypercall_null udis t u ELKVM_HYPERCALL_EXIT).
  - rewrite (bind_fail _ _ _ _ Eg) in Es. rewrite (bind_fail _ _ _ _ Es) in Eh.
    apply (while_fault _ k tt s tt t e Hk); [by apply rounds_nsteps|].
    rewrite (run_step_stops _ _ _ _ _ _ He). unfold after_stop. by rewrite Z.eqb_refl, (bind_fail _ _ _ _ Eh).
Qed.

(** Type 1 is on the stack and the first stop of the guest is its exit. *)
Lemma guest_exit_ends_run_witness :
  exists s : vm bump_os TLB.t, run default_handlers hypercall_null false s = Fail (Exit 7).
Proof.
  set (s0 := demo_vm [(rsp, 0x400010); (rax, 231); (rdi, 7)]).
  set (v := demo_vcpu [(rsp, 0x400010); (rax, 231); (rdi, 7)]).
  destruct (demo_vm_ok [(rsp, 0x400010); (rax, 231); (rdi, 7)]) as [N Hok]. fold s0 v in Hok.
  assert (stack_word (cpu0 s0 v) demo_chunk (u64 (vreg v rsp - 8)) 0x11000008) as W.
  { constructor; [split; [by vm_compute|vm_compute; discriminate]|vm_compute; reflexivity|
                  right; vm_compute; discriminate]. }
  destruct (vm_push s0 v demo_chunk N 0x11000008 1 Hok W) as (t & _ & Ok' & Eh). set (s := vm_write _ _ _ t) in *.
  set (v' := set_vreg v rsp _) in *. set (w := mkVcpu false (with_run (_kvm_vcpu v') (mkRun KVM_EXIT_HYPERCALL 0)) (stack v')).
  exists s. refine (guest_exit_ends_run default_handlers false s s (with_cpus s [w]) 0 w demo_chunk N 0x11000008 pass_exit_group
    ltac:(lia) (nsteps_O _ _) eq_refl _ _ _ eq_refl eq_refl).
  - constructor; [done|]. destruct Ok' as [_ [Ha Hb Hc]]. by constructor.
  - destruct (stack_word_step s0 s v w demo_chunk _ _ eq_refl Eh W) as [Ha Hb Hc]. by constructor.
  - change (p_mem (vm_paging (with_cpus s [w]))) with (store64 (p_mem (vm_paging s0)) 0x11000008 1).
    by rewrite load64_store64_same.
Defined.
