(* ===== verification/EnvironTheorems.v ===== *)
(** * The environment of the guest program: theorems

    The image of the stack and of the string region that [Environment::create]
    leaves for the guest's C library. *)

From S2P Require Import Prelude Memory PageMath HostOS Tlb Pager PagerTree PagerWalk PagerSpec PagerTlb PagerTheorems Region RegionManager RegionSpec RegionTheorems Registers Mappings Heap HeapSpec HeapTheorems Vcpu VcpuTheorems Environ.
Local Open Scope Z_scope.

(** ** Memory images *)

(** The space [write_str] takes for some strings. *)
Fixpoint strings_size (l : list (list Z)) : Z :=
  match l with [] => 0 | s :: l' => Z.of_nat (length s) + 1 + strings_size l' end.

Lemma strings_size_nonneg l : 0 <= strings_size l.
Proof. induction l; cbn [strings_size]; lia. Qed.

Lemma strings_size_app l l' : strings_size (l ++ l') = strings_size l + strings_size l'.
Proof. induction l as [|s l IH]; cbn [strings_size app]; lia. Qed.

Lemma strings_size_rev l : strings_size (rev l) = strings_size l.
Proof. induction l as [|s l IH]; [done|]. cbn [rev]. rewrite strings_size_app, IH. cbn [strings_size]. lia. Qed.

(** ** The auxiliary vector *)

(** The entries the guest gets, and those among them whose value is the address of a string. *)
Definition kept (l : list (Z * Z)) : list (Z * Z) := List.filter (fun a => negb (ignored_type a.1)) l.
Definition string_entry (a : Z * Z) : bool := negb (ignored_type a.1) && negb (treat_as_int_type a.1).

Definition pair_words (l : list (Z * Z)) : list Z := concat (map (fun a => [a.1; a.2]) l).

Lemma pair_words_app l l' : pair_words (l ++ l') = pair_words l ++ pair_words l'.
Proof. unfold pair_words. by rewrite map_app, concat_app. Qed.

Lemma pair_words_length l : length (pair_words l) = (2 * length l)%nat.
Proof. induction l as [|a l IH]; [done|]. unfold pair_words in *. cbn [map concat app length]. rewrite IH. lia. Qed.

Lemma kept_app l l' : kept (l ++ l') = kept l ++ kept l'.
Proof. apply List.filter_app. Qed.

(** The bytes of [str] and a zero are at the host address [p]. *)
Definition cstr_at (m : mem) (p : Z) (str : list Z) : Prop :=
  p <> 0 /\ load_bytes m p (length str) = str /\ Forall (fun b => b <> 0) str /\
  load8 m (p + Z.of_nat (length str)) = 0 /\ Z.of_nat (length str) < 2 ^ 64.

Section Cstr.
Context {os T : Type}.
Implicit Types s : cpu os T.

Lemma cstr_step_eq p acc s :
  cstr_step (p, acc) s =
    if load8 (p_mem (paging s)) p =? 0 then Ok (inr acc, s)
    else Ok (inl (p + 1, acc ++ [load8 (p_mem (paging s)) p]), s).
Proof. unfold cstr_step, cpu_memory, gets, bind, paging. cbv beta iota. by destruct (load8 _ p =? 0). Qed.

Lemma read_cstr_eq p str s : cstr_at (p_mem (paging s)) p str -> read_cstr p s = Ok (str, s).
Proof.
  intros (Hp & Hl & Hnz & Hz & Hlen). unfold read_cstr. apply Z.eqb_neq in Hp as ->.
  apply while_rounds. exists (length str), (p + Z.of_nat (length str), str), s. split; [done|].
  split; [|rewrite cstr_step_eq; by rewrite Hz]. clear Hz Hlen.
  change str with ([] ++ str) at 3. generalize (@nil Z) as acc. revert p Hl.
  induction Hnz as [|b l Hb _ IH]; intros p Hl acc.
  - rewrite app_nil_r, Z.add_0_r. constructor.
  - cbn [length] in Hl. unfold load_bytes in Hl. cbn [seq map] in Hl. injection Hl as E1 E2. rewrite Z.add_0_r in E1.
    econstructor.
    + rewrite cstr_step_eq, E1. apply Z.eqb_neq in Hb as ->. reflexivity.
    + cbn [length]. replace (p + Z.of_nat (S (length l))) with (p + 1 + Z.of_nat (length l)) by lia.
      replace (acc ++ b :: l) with ((acc ++ [b]) ++ l) by (by rewrite <- app_assoc). apply IH.
      rewrite <- E2 at 2. unfold load_bytes. rewrite <- seq_shift, map_map. apply map_ext. intros i. f_equal. lia.
Qed.
End Cstr.

Section Image.
Context {os T : Type} `{HostOSLaws os} `{KvmOS os} `{TranslationCacheLaws T}.
Implicit Types s : cpu os T.
Variables (c0 : Chunk) (N lo hi d : Z) (r : rid) (rg : Region) (m0 : mem) (txt : Z * Z -> list Z).

(** The guest's stack range [lo, hi) is mapped linearly at distance [d], and
    the string region lies apart from it and from the page tables. *)
Record env_ok s : Prop := mkEnvOk {
  eo_cpu : cpu_ok s c0 N;
  eo_stack x : lo <= x < hi -> is_u64 x /\ page_begin x <> 0 /\ host_of c0 (paging s) x = Some (x + d);
  eo_region : objs (rm_store (c_rm s)) !! r = Some rg;
  eo_user : let p := host_pml4_p (p_pager (paging s)) in
    (hi + d <= p \/ p + ELKVM_SYSTEM_MEMSIZE <= lo + d) /\
    (base_address rg + Region.size rg <= p \/ p + ELKVM_SYSTEM_MEMSIZE <= base_address rg);
}.

Record params_ok : Prop := mkParamsOk {
  po_apart : base_address rg + Region.size rg <= lo + d \/ hi + d <= base_address rg;
  po_guest : 0 <= guest_address rg /\ guest_address rg + Region.size rg < 2 ^ 64;
  po_size : 0 <= Region.size rg < 2 ^ 63;
  po_lo : 0 <= lo /\ hi < 2 ^ 64;
}.

(** The host addresses outside of the stack and of the region. *)
Definition outside (x : Z) : Prop :=
  (x < lo + d \/ hi + d <= x) /\ (x < base_address rg \/ base_address rg + Region.size rg <= x).

(** An entry of the auxiliary vector that can be pushed: for one that is neither ignored nor a number,
    [txt] is the string at its value, which lies in neither range. *)
Definition entry_ok (a : Z * Z) : Prop :=
  is_u64 a.1 /\ (treat_as_int_type a.1 = true -> is_u64 a.2) /\
  (string_entry a = true ->
     cstr_at m0 a.2 (txt a) /\ forall x, a.2 <= x <= a.2 + Z.of_nat (length (txt a)) -> outside x).

Definition entry_strings (l : list (Z * Z)) : list (list Z) := map txt (List.filter string_entry l).

(** The string at the guest address [p] of the region. *)
Definition points_to (m : mem) (off : Z) (p : Z) (str : list Z) : Prop :=
  guest_address rg + off <= p /\ p + Z.of_nat (length str) < guest_address rg + Region.size rg /\
  load_bytes m (p - guest_address rg + base_address rg) (length str) = str.

(** The words [ws] lie on the stack, the strings in the region. *)
Record image (s : cpu os T) (e : EnvRegion) (ws : list Z) (strs : list (Z * list Z)) : Prop := mkImage {
  im_ok : env_ok s;
  im_stack : lo <= reg s rsp /\ reg s rsp + 8 * Z.of_nat (length ws) <= hi;
  im_words i w : ws !! i = Some w -> load64 (p_mem (paging s)) (reg s rsp + 8 * Z.of_nat i + d) = w;
  im_offset : _region e = r /\ 0 < _offset e <= Region.size rg;
  im_strs p str : (p, str) ∈ strs -> points_to (p_mem (paging s)) (_offset e) p str;
  im_frame x : outside x -> p_mem (paging s) x = m0 x;
}.

Hypothesis Hpar : params_ok.

Lemma image_push s e ws strs w :
  image s e ws strs -> lo + 8 <= reg s rsp -> is_u64 w ->
  wp no_fault (push w) (fun _ s' => image s' e (w :: ws) strs /\ reg s' rsp = reg s rsp - 8) s.
Proof.
  intros [[Hc Hs Hr Hu] Hsp Hw Ho Hst Hfr] Hroom Huw. destruct Hpar as [Ha Hg Hz Hlo]. cbv zeta in Hu.
  assert (u64 (reg s rsp - 8) = reg s rsp - 8) as Eu by (apply u64_small; lia).
  destruct (Hs (reg s rsp - 8)) as (Hx1 & Hx2 & Hx3); [lia|].
  eapply wp_mono.
  { apply (push_lemma s c0 N (reg s rsp - 8 + d) w Hc). fold (reg s rsp). rewrite Eu.
    constructor; [done|done|]. lia. }
  fold (reg s rsp). rewrite Eu. cbv beta. intros _ s' (Hc' & Eh & t & ->). set (s' := mkCpu _ _) in *.
  assert (reg s' rsp = reg s rsp - 8) as Er by done. split; [|done]. constructor; rewrite ?Er.
  - constructor; [done| |done|done]. intros x Hx. rewrite Eh. by apply Hs.
  - cbn [length]. lia.
  - intros [|i] w' Hi.
    + injection Hi as <-. change (Z.of_nat 0) with 0. replace (reg s rsp - 8 + 8 * 0 + d) with (reg s rsp - 8 + d) by lia.
      change (p_mem (paging s')) with (store64 (p_mem (paging s)) (reg s rsp - 8 + d) w).
      rewrite load64_store64_same. by apply u64_small.
    + change (p_mem (paging s')) with (store64 (p_mem (paging s)) (reg s rsp - 8 + d) w).
      rewrite load64_store64_other by lia. rewrite <- (Hw i w' Hi). f_equal. lia.
  - done.
  - intros p str Hin. destruct (Hst p str Hin) as (Hp1 & Hp2 & Hp3). split; [done|]. split; [done|].
    rewrite <- Hp3 at 2. apply load_bytes_ext. intros x Hx.
    change (p_mem (paging s')) with (store64 (p_mem (paging s)) (reg s rsp - 8 + d) w).
    apply store64_other. destruct Ho as [_ Ho].
    assert (reg s rsp <= hi) by lia. lia.
  - intros x Hx. rewrite <- (Hfr x Hx). destruct Hx as [Hx _].
    change (p_mem (paging s')) with (store64 (p_mem (paging s)) (reg s rsp - 8 + d) w). apply store64_other. lia.
Qed.

Lemma env_lookup_spec s (Q : Region -> cpu os T -> Prop) :
  env_ok s -> Q rg s -> wp no_fault (env_lookup r) Q s.
Proof.
  intros He HQ. unfold env_lookup, on_cpu_rm. apply wp_zoom. eapply lookup_region_spec; [apply He|].
  by destruct s.
Qed.

Lemma image_write s e ws strs str :
  image s e ws strs -> Z.of_nat (length str) + 1 < _offset e -> Forall (fun b => 0 <= b < 256) str ->
  wp no_fault (write_str e str)
    (fun pe s' => image s' pe.2 ws ((pe.1, str) :: strs) /\ reg s' rsp = reg s rsp /\
                  _offset pe.2 = _offset e - Z.of_nat (length str) - 1 /\ is_u64 pe.1) s.
Proof.
  intros [Hok Hsp Hw [Hr Ho] Hst Hfr] Hlen Hb. destruct Hpar as [Ha Hg Hz Hlo].
  set (len := Z.of_nat (length str)) in *. assert (0 <= len) as Hl0 by (unfold len; lia).
  unfold write_str. fold len. rewrite (u64_small (_offset e)) by lia.
  rewrite s64_small by lia. set (noff := _offset e - len - 1) in *.
  apply wp_bind, wp_assert; [intros _|intros Hf; lia]. rewrite Hr. apply wp_bind, env_lookup_spec; [done|].
  rewrite !(u64_small (guest_address rg + noff)) by lia. rewrite !u64_small by lia.
  do 2 (apply wp_bind, wp_assert; [intros _|intros Hf; lia]). apply wp_bind.
  set (target := base_address rg + noff).
  assert (forall x, x < target \/ target + len <= x ->
            store_bytes (p_mem (paging s)) target str x = p_mem (paging s) x) as Hother
    by (intros x Hx; by apply store_bytes_other).
  destruct Hok as [Hc Hs Hreg Hu]. cbv zeta in Hu.
  eapply (cpu_upd_mem s c0 N); [done|intros x Hx; apply Hother; lia|]. cbv zeta.
  set (s' := mkCpu _ _). intros Hc' Eh. apply wp_ret. cbn [fst snd _offset].
  split; [|split; [done|split; [done|unfold is_u64; lia]]]. constructor; cbn [_offset _region]; [|done| |by split; [|lia]| |].
  - constructor; [done| |done|done]. intros x Hx. rewrite Eh. by apply Hs.
  - intros i w Hi. rewrite <- (Hw i w Hi). apply load64_ext. intros x Hx. apply Hother.
    change (reg s' rsp) with (reg s rsp) in Hx. apply lookup_lt_Some in Hi. lia.
  - intros p str' Hin. apply elem_of_cons in Hin as [[= -> ->]|Hin].
    + split; [lia|]. split; [lia|]. replace (guest_address rg + noff - guest_address rg + base_address rg) with target by lia.
      change (p_mem (paging s')) with (store_bytes (p_mem (paging s)) target str). rewrite load_store_bytes.
      clear -Hb. induction Hb as [|b l Hb _ IH]; [done|]. cbn [map]. by rewrite IH, u8_small.
    + destruct (Hst p str' Hin) as (Hp1 & Hp2 & Hp3). split; [lia|]. split; [done|].
      rewrite <- Hp3 at 2. apply load_bytes_ext. intros x Hx. apply Hother. lia.
  - intros x Hx. rewrite <- (Hfr x Hx). apply Hother. destruct Hx as [_ Hx]. lia.
Qed.

Lemma image_str s e ws strs str :
  image s e ws strs -> Z.of_nat (length str) + 1 < _offset e -> Forall (fun b => 0 <= b < 256) str ->
  lo + 8 <= reg s rsp ->
  wp no_fault (push_str_copy e str)
    (fun e' s' => (exists p, image s' e' (p :: ws) ((p, str) :: strs)) /\ reg s' rsp = reg s rsp - 8 /\
                  _offset e' = _offset e - Z.of_nat (length str) - 1) s.
Proof.
  intros Hi Hl Hb Hroom. unfold push_str_copy. apply wp_bind.
  eapply wp_mono; [by apply (image_write s e ws strs str)|]. cbv beta. intros [p e'] s1 (Hi1 & Er & Eo & Hp).
  apply wp_bind. eapply wp_mono; [apply (image_push s1 e' ws ((p, str) :: strs) p Hi1); [lia|done]|].
  cbv beta. intros _ s2 (Hi2 & Er2). apply wp_ret. split; [by exists p|]. cbn in Eo. split; [lia|done].
Qed.

(** The strings of a list, pushed from the last to the first. *)
Lemma image_strs q : forall s e ws strs,
  image s e ws strs -> strings_size q < _offset e -> Forall (Forall (fun b => 0 <= b < 256)) q ->
  lo + 8 * Z.of_nat (length q) <= reg s rsp ->
  wp no_fault (push_list push_str_copy e q)
    (fun e' s' => (exists ps, length ps = length q /\ image s' e' (ps ++ ws) (zip ps (rev q) ++ strs)) /\
       reg s' rsp = reg s rsp - 8 * Z.of_nat (length q) /\ _offset e' = _offset e - strings_size q) s.
Proof.
  induction q as [|a q IH]; intros s e ws strs Hi Hsz Hb Hroom; cbn [push_list].
  - apply wp_ret. cbn [strings_size length]. split; [by exists []|]. lia.
  - apply Forall_cons in Hb as [Hb Hbq]. cbn [strings_size length] in *. pose proof (strings_size_nonneg q).
    apply wp_bind. eapply wp_mono; [apply (image_str s e ws strs a); [done|lia|done|lia]|].
    cbv beta. intros e1 s1 ((p & Hi1) & Er1 & Eo1).
    eapply wp_mono; [apply (IH s1 e1 (p :: ws) ((p, a) :: strs)); [done|lia|done|lia]|].
    cbv beta. intros e2 s2 ((ps & El & Hi2) & Er2 & Eo2). split; [|lia].
    exists (ps ++ [p]). split; [rewrite length_app; cbn [length]; lia|]. cbn [rev].
    rewrite zip_with_app by (by rewrite length_rev). by rewrite <- !app_assoc.
Qed.

(** The entry [a] and what the guest gets for it: the number, or the address of a copy of the string. *)
Definition resolved (strs : list (Z * list Z)) (a a' : Z * Z) : Prop :=
  a'.1 = a.1 /\ if treat_as_int_type a.1 then a'.2 = a.2 else (a'.2, txt a) ∈ strs.

Lemma resolved_mono strs strs' a a' : strs ⊆ strs' -> resolved strs a a' -> resolved strs' a a'.
Proof. intros Hs [E1 E2]. split; [done|]. destruct (treat_as_int_type _); [done|]. by apply Hs. Qed.

Lemma image_cstr s e ws strs a :
  image s e ws strs -> entry_ok a -> string_entry a = true ->
  read_cstr a.2 s = Ok (txt a, s) /\ Forall (fun b => 0 <= b < 256) (txt a).
Proof.
  intros Hi (_ & _ & Ha) Hs. destruct (Ha Hs) as ((Hp & Hl & Hnz & Hz & Hlen) & Hout). split.
  - apply read_cstr_eq. split; [done|]. split_and!; [|done| |done].
    + rewrite <- Hl at 2. apply load_bytes_ext. intros x Hx. apply (im_frame _ _ _ _ Hi), Hout. lia.
    + rewrite <- Hz. unfold load8. f_equal. apply (im_frame _ _ _ _ Hi), Hout. lia.
  - rewrite <- Hl. apply Forall_forall. intros b Hb. unfold load_bytes in Hb.
    apply list_elem_of_fmap in Hb as (i & -> & _). unfold load8, u8. apply Z.mod_pos_bound. lia.
Qed.

(** The value of an entry that is not ignored. *)
Lemma image_value s e ws strs t v :
  image s e ws strs -> entry_ok (t, v) -> ignored_type t = false ->
  strings_size (entry_strings [(t, v)]) < _offset e -> lo + 8 <= reg s rsp ->
  wp no_fault (if treat_as_int_type t then do! push v in ret e else let! str := read_cstr v in push_str_copy e str)
    (fun e' s' => exists w strs', strs ⊆ strs' /\ resolved strs' (t, v) (t, w) /\ image s' e' (w :: ws) strs' /\
       reg s' rsp = reg s rsp - 8 /\ _offset e' = _offset e - strings_size (entry_strings [(t, v)])) s.
Proof.
  intros Hi He Hig Hsz Hroom. unfold entry_strings, resolved in *. cbn [List.filter fst snd] in *.
  destruct (string_entry (t, v)) eqn:Es; cbn [map strings_size] in *; unfold string_entry in Es; cbn [fst] in Es; rewrite Hig in Es;
    cbn [negb andb] in Es; destruct (treat_as_int_type t) eqn:Et; try done.
  - destruct (image_cstr s e ws strs (t, v) Hi He) as [Er Hb]; [unfold string_entry; cbn [fst]; by rewrite Hig, Et|].
    apply wp_bind. cbn [snd] in Er. unfold wp at 1. rewrite Er.
    eapply wp_mono; [apply (image_str s e ws strs (txt (t, v))); [done|lia|done|lia]|].
    cbv beta. intros e1 s1 ((w & Hi1) & Er1 & Eo1). exists w, ((w, txt (t, v)) :: strs).
    split; [by apply list_subseteq_cons|]. split; [split; [done|]; cbn [fst snd]; left|]. split; [done|lia].
  - destruct He as (_ & Hv & _). apply wp_bind.
    eapply wp_mono; [apply (image_push s e ws strs v); [done|lia|by apply Hv]|]. cbv beta. intros _ s1 (Hi1 & Er1).
    apply wp_ret. exists v, strs. split; [done|]. split; [done|]. split; [done|lia].
Qed.

Lemma image_auxv q : forall s e ws strs,
  image s e ws strs -> Forall entry_ok q -> strings_size (entry_strings q) < _offset e ->
  lo + 16 * Z.of_nat (length (kept q)) <= reg s rsp ->
  wp no_fault (push_list push_auxv_entry e q)
    (fun e' s' => (exists aux strs', strs ⊆ strs' /\ Forall2 (resolved strs') (kept (rev q)) aux /\
         image s' e' (pair_words aux ++ ws) strs') /\
       reg s' rsp = reg s rsp - 16 * Z.of_nat (length (kept q)) /\ _offset e' = _offset e - strings_size (entry_strings q)) s.
Proof.
  induction q as [|[t v] q IH]; intros s e ws strs Hi Hq Hsz Hroom; cbn [push_list].
  - apply wp_ret. cbn. split; [by exists [], strs|]. lia.
  - apply Forall_cons in Hq as [Ha Hq]. unfold push_auxv_entry at 1.
    assert (entry_strings ((t, v) :: q) = entry_strings [(t, v)] ++ entry_strings q) as Es.
    { unfold entry_strings. cbn [List.filter]. by destruct (string_entry (t, v)). }
    rewrite Es, strings_size_app in *. clear Es. cbn [rev]. rewrite kept_app.
    change (kept ((t, v) :: q)) with (if negb (ignored_type t) then (t, v) :: kept q else kept q) in *.
    change (kept [(t, v)]) with (if negb (ignored_type t) then [(t, v)] else []) in *.
    pose proof (strings_size_nonneg (entry_strings q)).
    destruct (ignored_type t) eqn:Ei; cbn [negb] in *.
    + rewrite app_nil_r. apply wp_bind, wp_ret.
      assert (strings_size (entry_strings [(t, v)]) = 0) as E0.
      { unfold entry_strings, string_entry. cbn [List.filter fst]. by rewrite Ei. }
      eapply wp_mono; [apply (IH s e ws strs); [done|done|lia|lia]|]. cbv beta.
      intros e' s' (? & ? & ?). split; [done|lia].
    + cbn [length] in *. do 2 apply wp_bind.
      eapply wp_mono; [apply (image_value s e ws strs t v); [done|done|done|lia|lia]|].
      cbv beta. intros e1 s1 (w & strs1 & Hs1 & Hr1 & Hi1 & Er1 & Eo1). apply wp_bind.
      eapply wp_mono; [apply (image_push s1 e1 (w :: ws) strs1 t); [done|lia|by destruct Ha]|]. cbv beta.
      intros _ s2 (Hi2 & Er2).
      apply wp_ret. eapply wp_mono; [apply (IH s2 e1 (t :: w :: ws) strs1); [done|done|lia|lia]|]. cbv beta.
      intros e' s' ((aux & strs2 & Hs2 & Hr2 & Hi3) & Er3 & Eo3). split; [|lia].
      exists (aux ++ [(t, w)]), strs2. split; [by etransitivity|]. split.
      * apply Forall2_app; [done|]. constructor; [by eapply resolved_mono|constructor].
      * rewrite pair_words_app, <- app_assoc. done.
Qed.
End Image.

(** [set_regs] only talks to KVM. *)
Lemma set_regs_spec {os T} `{HostOS os} `{KvmOS os} `{TranslationCache T} (s : cpu os T) :
  wp no_fault set_regs (fun _ s' => c_vcpu s' = c_vcpu s /\ p_mem (paging s') = p_mem (paging s) /\
                                    p_pager (paging s') = p_pager (paging s)) s.
Proof.
  unfold wp, set_regs, kvm, gets, on_cpu_rm, rm_io, on_pager, zoom, bind, get, put, ret. cbv beta iota.
  destruct (io_set_regs _ _ _) as [[err eno] o]. cbv beta iota. by destruct (ctrue err).
Qed.

(** The auxiliary vector the guest gets. *)
Definition guest_auxv (b : Elf_auxv) (l : list (Z * Z)) : list (Z * Z) :=
  if valid b then map snd (map (fix_auxv_entry b) l) else l.

Lemma fix_auxv_spec {os T} `{HostOS os} `{KvmOS os} `{TranslationCache T} (s : cpu os T) b l (Q : list (Z * Z) -> cpu os T -> Prop) :
  (valid b = true -> fold_left Z.lor (map fst (map (fix_auxv_entry b) l)) 0 = 0x1F) ->
  Q (guest_auxv b l) s -> wp no_fault (if valid b then fix_auxv_dynamic_values b l else ret l) Q s.
Proof.
  intros Hv HQ. unfold guest_auxv in HQ. destruct (valid b); [|by apply wp_ret].
  unfold fix_auxv_dynamic_values. rewrite Hv by done. by apply wp_bind, wp_assert; [intros _; apply wp_ret|].
Qed.

(** The words of the image, from the stack pointer up. *)
Definition stack_image (argc : Z) (ap ep : list Z) (aux : list (Z * Z)) : list Z :=
  argc :: ap ++ 0 :: ep ++ 0 :: pair_words aux.

Lemma kept_rev_length l : length (kept (rev l)) = length (kept l).
Proof. unfold kept. rewrite filter_rev. apply length_rev. Qed.

Lemma entry_strings_rev txt l : entry_strings txt (rev l) = rev (entry_strings txt l).
Proof. unfold entry_strings. by rewrite filter_rev, map_rev. Qed.

Section Create.
Context {os T : Type} `{HostOSLaws os} `{KvmOS os} `{TranslationCacheLaws T}.
Variables (c0 : Chunk) (N lo hi d : Z) (r : rid) (rg : Region) (txt : Z * Z -> list Z).
Hypothesis Hpar : params_ok lo hi d rg.

(** What [create] pushes between reading and writing the registers. *)
Lemma image_create (s0 : cpu os T) b env :
  env_ok c0 N lo hi d r rg s0 -> let aux := guest_auxv b (_auxv env) in let m0 := p_mem (paging s0) in
  (valid b = true -> fold_left Z.lor (map fst (map (fix_auxv_entry b) (_auxv env))) 0 = 0x1F) ->
  Forall (entry_ok lo hi d rg m0 txt) aux ->
  Forall (Forall (fun c => 0 <= c < 256)) (_argv env ++ _env env) ->
  0 <= _argc env < 2 ^ 31 -> _region (e_region env) = r -> _offset (e_region env) <= Region.size rg ->
  strings_size (_argv env ++ _env env ++ entry_strings txt aux) < _offset (e_region env) ->
  let n := Z.of_nat (length (_argv env) + length (_env env) + 2 * length (kept aux) + 3) in
  lo + 8 * n <= reg s0 rsp <= hi ->
  wp no_fault
    (let! e := push_auxv b (e_region env) (_auxv env) in
     let! e := push_env e (_env env) in
     let! e := push_argv e (_argv env) in
     do! push_argc (_argc env) in set_regs)
    (fun err s' => exists (s1 : cpu os T) e ap ep av strs, c_vcpu s' = c_vcpu s1 /\ p_mem (paging s') = p_mem (paging s1) /\
       p_pager (paging s') = p_pager (paging s1) /\ reg s1 rsp = reg s0 rsp - 8 * n /\
       length ap = length (_argv env) /\ length ep = length (_env env) /\ Forall2 (resolved txt strs) (kept aux) av /\
       image c0 N lo hi d r rg m0 s1 e (stack_image (_argc env) ap ep av)
             (zip ap (_argv env) ++ zip ep (_env env) ++ strs)) s0.
Proof.
  intros Hok aux m0 Hfix Haux Hbytes Hargc Hr Ho Hsz n Hroom.
  apply Forall_app in Hbytes as [Hba Hbe]. rewrite !strings_size_app in Hsz.
  pose proof (strings_size_nonneg (_argv env)). pose proof (strings_size_nonneg (_env env)).
  pose proof (strings_size_nonneg (entry_strings txt aux)).
  assert (image c0 N lo hi d r rg m0 s0 (e_region env) [] []) as Hi0.
  { constructor; [done|cbn [length]; lia|done|split; [done|lia]|intros p str Hin; by apply elem_of_nil in Hin|done]. }
  unfold push_auxv, push_env, push_argv, push_argc, push_auxv_raw. do 2 apply wp_bind. apply fix_auxv_spec; [done|].
  fold aux. apply wp_bind. eapply wp_mono.
  { apply (image_auxv c0 N lo hi d r rg m0 txt Hpar (rev aux) s0 (e_region env) [] [] Hi0);
      [by apply Forall_rev|rewrite entry_strings_rev, strings_size_rev; lia|rewrite kept_rev_length; lia]. }
  rewrite rev_involutive, kept_rev_length, entry_strings_rev, strings_size_rev. cbv beta.
  intros e1 s1 ((av & strs & _ & Hav & Hi1) & Er1 & Eo1). rewrite app_nil_r in Hi1. apply wp_bind.
  eapply wp_mono; [apply (image_push c0 N lo hi d r rg m0 Hpar s1 _ _ _ 0 Hi1); [lia|done]|].
  cbv beta. intros _ s2 (Hi2 & Er2). apply wp_ret. do 2 apply wp_bind. eapply wp_mono.
  { apply (image_strs c0 N lo hi d r rg m0 Hpar (rev (_env env)) s2 _ _ _ Hi2);
      [rewrite strings_size_rev; lia|by apply Forall_rev|rewrite length_rev; lia]. }
  rewrite rev_involutive, length_rev, strings_size_rev. cbv beta. intros e3 s3 ((ep & Lep & Hi3) & Er3 & Eo3). apply wp_bind.
  eapply wp_mono; [apply (image_push c0 N lo hi d r rg m0 Hpar s3 _ _ _ 0 Hi3); [lia|done]|].
  cbv beta. intros _ s4 (Hi4 & Er4). apply wp_ret, wp_bind. eapply wp_mono.
  { apply (image_strs c0 N lo hi d r rg m0 Hpar (rev (_argv env)) s4 _ _ _ Hi4);
      [rewrite strings_size_rev; lia|by apply Forall_rev|rewrite length_rev; lia]. }
  rewrite rev_involutive, length_rev. cbv beta. intros e5 s5 ((ap & Lap & Hi5) & Er5 & _). apply wp_bind.
  rewrite u64_small by lia.
  eapply wp_mono; [apply (image_push c0 N lo hi d r rg m0 Hpar s5 _ _ _ (_argc env) Hi5); [lia|unfold is_u64; lia]|].
  cbv beta. intros _ s6 (Hi6 & Er6). eapply wp_mono; [apply set_regs_spec|].
  cbv beta. intros err s7 (Ev & Em & Ep). exists s6, e5, ap, ep, av, strs.
  do 3 (split; [done|]). split; [lia|]. by do 3 (split; [done|]).
Qed.
End Create.

(** C32. The image the guest's C library starts from.  The guest's stack is mapped linearly and has room, the
    string region holds all strings and lies apart from the stack and the page tables, there are fewer than
    2^31 arguments, and for a dynamically linked binary the vector has the five entries the loader replaces.
    Then [create] stores the words that start a program at the final stack
    pointer: the number of arguments, a pointer to each argument, a null, a
    pointer to each variable, a null, and type and value of each entry of the
    auxiliary vector.  The entry of the vDSO ([AT_SYSINFO_EHDR]) is left out; a type in the list of
    numbers keeps its value; the value of any other type is taken for the address of a C string (which must be
    readable and outside of the stack and the string region) and replaced by a pointer to a copy.
    Every pointer is the guest address, inside the region, of exactly the bytes of its string, and no
    memory outside of the stack and the region changes. *)
Theorem environment_image {os T} `{HostOSLaws os} `{KvmOS os} `{TranslationCacheLaws T}
    (s s0 : cpu os T) c0 N lo hi d r rg txt b env :
  get_regs s = Ok (0, s0) -> params_ok lo hi d rg -> env_ok c0 N lo hi d r rg s0 ->
  let aux := guest_auxv b (_auxv env) in let m0 := p_mem (paging s0) in
  (valid b = true -> fold_left Z.lor (map fst (map (fix_auxv_entry b) (_auxv env))) 0 = 0x1F) ->
  Forall (entry_ok lo hi d rg m0 txt) aux ->
  Forall (Forall (fun c => 0 <= c < 256)) (_argv env ++ _env env) ->
  0 <= _argc env < 2 ^ 31 -> _region (e_region env) = r -> _offset (e_region env) <= Region.size rg ->
  strings_size (_argv env ++ _env env ++ entry_strings txt aux) < _offset (e_region env) ->
  let kept := List.filter (fun a => negb (s32 a.1 =? AT_SYSINFO_EHDR)) aux in
  let n := Z.of_nat (length (_argv env) + length (_env env) + 2 * length kept + 3) in
  lo + 8 * n <= reg s0 rsp <= hi ->
  exists err s' ap ep av, create b env s = Ok (err, s') /\ reg s' rsp = reg s0 rsp - 8 * n /\
    (forall i w, stack_image (_argc env) ap ep av !! i = Some w ->
       load64 (p_mem (paging s')) (reg s' rsp + 8 * Z.of_nat i + d) = w) /\
    Forall2 (points_to rg (p_mem (paging s')) 0) ap (_argv env) /\
    Forall2 (points_to rg (p_mem (paging s')) 0) ep (_env env) /\
    Forall2 (fun a a' => a'.1 = a.1 /\ if treat_as_int_type a.1 then a'.2 = a.2
                                       else points_to rg (p_mem (paging s')) 0 a'.2 (txt a)) kept av /\
    (forall x, outside lo hi d rg x -> p_mem (paging s') x = m0 x).
Proof.
  intros Hg Hpar Hok aux m0 Hfix Haux Hb Hargc Hr Ho Hsz kept' n Hroom.
  assert (kept' = kept aux) as Ek.
  { unfold kept', kept, ignored_type. apply List.filter_ext. intros a. cbn [existsb]. by rewrite orb_false_r. }
  clearbody kept'. subst kept'.
  destruct (wp_total_inv _ _ _ (image_create c0 N lo hi d r rg txt Hpar s0 b env Hok Hfix Haux Hb Hargc Hr Ho Hsz Hroom))
    as (err & s' & E & s1 & e & ap & ep & av & strs & Ev & Em & _ & Esp & La & Le & Hav & Him).
  fold aux n in Esp, Him, Hav. exists err, s', ap, ep, av.
  assert (reg s' rsp = reg s1 rsp) as Er by (unfold reg; by rewrite Ev). rewrite Er, Em.
  destruct Him as [_ _ Hw [_ Hoff] Hstr Hfr].
  assert (forall p str, (p, str) ∈ zip ap (_argv env) ++ zip ep (_env env) ++ strs ->
            points_to rg (p_mem (paging s1)) 0 p str) as Hpt.
  { intros p str Hin. destruct (Hstr p str Hin) as (Hp1 & Hp2 & Hp3). split; [lia|done]. }
  assert (forall ps l, length ps = length l -> zip ps l ⊆ zip ap (_argv env) ++ zip ep (_env env) ++ strs ->
            Forall2 (points_to rg (p_mem (paging s1)) 0) ps l) as Hall.
  { intros ps l Hl Hsub. apply Forall2_same_length_lookup_2; [done|]. intros i p str Hp Hs.
    apply Hpt, Hsub, list_elem_of_lookup. exists i. rewrite lookup_zip_with, Hp. cbn. by rewrite Hs. }
  split_and!; [|done|done|apply Hall; [done|set_solver]|apply Hall; [done|set_solver]| |done].
  - unfold create. rewrite (bind_ok _ _ _ _ _ Hg). exact E.
  - eapply Forall2_impl; [exact Hav|]. intros a a' [E1 E2]. split; [done|].
    destruct (treat_as_int_type a.1); [done|]. apply Hpt. set_solver.
Qed.

(** One argument, one variable, and a vector with the vDSO, the page size and the platform's name, a string of two bytes. *)
Definition env_region : Region := mkRegion 0x11001000 0x11001000 4096 false "ELKVM Environment".
Definition env_cpu : cpu bump_os TLB.t :=
  mkCpu (c_vcpu (with_reg push_cpu rsp 0x401000))
        (mkRM [] [] (mkStore {[ 0%nat := env_region ]} 1%nat) (paging push_cpu)).
Definition demo_env : Environment :=
  mkEnv (mkEnvRegion 0%nat 4096) [(AT_SYSINFO_EHDR, 0x7fff0000); (AT_PAGESZ, 4096); (15, 0x10000000)] [[72; 61; 47]] [[108; 115]] 1.

Lemma env_cpu_ok : exists N, env_ok demo_chunk N 0x400000 0x401000 0x10c00000 0%nat env_region env_cpu.
Proof.
  destruct push_cpu_ok as [N [Hx1 Hx2 Hx3]]. exists N.
  assert (paging env_cpu = paging push_cpu) as E.
  { unfold env_cpu. unfold paging at 1. cbn [c_rm rm_pager]. reflexivity. }
  rewrite <- E in Hx1, Hx2, Hx3. constructor; rewrite ?E.
  - by constructor.
  - intros x Hx. rewrite E in *. assert (page_begin x = 0x400000) as Hp.
    { rewrite page_begin_eq by (unfold is_u64; lia). Z.div_mod_to_equations. lia. }
    split; [unfold is_u64; lia|]. split; [by rewrite Hp|].
    assert (x + 0x10c00000 = 0x11000000 - 0x400000 mod 4096 + x mod 4096) as ->.
    { change (0x400000 mod 4096) with 0. Z.div_mod_to_equations. lia. }
    apply (host_of_page demo_chunk (paging push_cpu) 0x400000 x); [exact Hx2| |vm_compute; reflexivity].
    unfold vpn. Z.div_mod_to_equations. lia.
  - reflexivity.
  - cbv zeta. assert (host_pml4_p (p_pager (paging push_cpu)) = 0x10000000) as -> by (vm_compute; reflexivity).
    split; right; vm_compute; discriminate.
Qed.

Definition env_text (a : Z * Z) : list Z := [7; 16].

Lemma env_entries :
  Forall (entry_ok 0x400000 0x401000 0x10c00000 env_region (p_mem (paging env_cpu)) env_text) (_auxv demo_env).
Proof.
  repeat (apply Forall_cons; split; [split; [by vm_compute|]; split; [try by vm_compute|intros E; try by vm_compute in E]|]);
    [|by apply Forall_nil].
  split.
  - split; [done|]. split; [vm_compute; reflexivity|]. split; [repeat constructor; done|]. split; [vm_compute; reflexivity|done].
  - intros x Hx. cbn in Hx. split; left; cbn; lia.
Qed.

Lemma environment_image_witness :
  exists err s' p q w, create (mkElfAuxv 0 0 0 0 0 false) demo_env env_cpu = Ok (err, s') /\
    reg s' rsp = 0x400fb8 /\ load64 (p_mem (paging s')) 0x11000fb8 = 1 /\
    load64 (p_mem (paging s')) 0x11000fc0 = p /\ load64 (p_mem (paging s')) 0x11000fd0 = q /\
    load64 (p_mem (paging s')) 0x11000fe0 = AT_PAGESZ /\ load64 (p_mem (paging s')) 0x11000fe8 = 4096 /\
    load64 (p_mem (paging s')) 0x11000ff0 = 15 /\ load64 (p_mem (paging s')) 0x11000ff8 = w /\
    points_to env_region (p_mem (paging s')) 0 p [108; 115] /\
    points_to env_region (p_mem (paging s')) 0 q [72; 61; 47] /\
    points_to env_region (p_mem (paging s')) 0 w [7; 16].
Proof.
  destruct env_cpu_ok as [N HN].
  destruct (environment_image env_cpu env_cpu demo_chunk N 0x400000 0x401000 0x10c00000 0%nat env_region env_text
              (mkElfAuxv 0 0 0 0 0 false) demo_env)
    as (err & s' & ap & ep & av & E & Er & Hw & Ha & He & Hv & _).
  - reflexivity.
  - constructor; vm_compute; intuition discriminate.
  - exact HN.
  - intros [=].
  - exact env_entries.
  - cbn [_argv _env demo_env app]. repeat first [lia | constructor].
  - split; [discriminate|reflexivity].
  - reflexivity.
  - discriminate.
  - reflexivity.
  - split; discriminate.
  - cbn [_argv _env demo_env] in Ha, He.
    destruct ap as [|p [|]]; [by inversion Ha| |by inversion Ha as [|? ? ? ? ? Hx]; inversion Hx].
    destruct ep as [|q [|]]; [by inversion He| |by inversion He as [|? ? ? ? ? Hx]; inversion Hx].
    apply Forall2_cons in Ha as [Ha _]. apply Forall2_cons in He as [He _]. rewrite Er in Hw.
    destruct av as [|[t1 v1] [|[t2 w] [|]]]; [by inversion Hv|by inversion Hv as [|? ? ? ? ? Hx]; inversion Hx| |
      by inversion Hv as [|? ? ? ? ? Hx]; inversion Hx as [|? ? ? ? ? Hy]; inversion Hy].
    apply Forall2_cons in Hv as [[Et1 Ev1] Hv]. apply Forall2_cons in Hv as [[Et2 Hp2] _].
    exists err, s', p, q, w. change (v1 = 4096) in Ev1. cbn in Et1, Et2. subst t1 v1 t2.
    exact (conj E (conj Er (conj (Hw 0%nat _ eq_refl) (conj (Hw 1%nat _ eq_refl) (conj (Hw 3%nat _ eq_refl)
      (conj (Hw 5%nat _ eq_refl) (conj (Hw 6%nat _ eq_refl) (conj (Hw 7%nat _ eq_refl) (conj (Hw 8%nat _ eq_refl)
      (conj Ha (conj He Hp2))))))))))).
Defined.
