(* ===== verification/Elf.v ===== *)
(** * The ELF loader: [src/elfloader.cc]

    [class elf_file], [class elf_ptr] and [class ElfBinary], and the functions of
    [src/vm.cc] that load a binary into a machine.  libelf is not part of the
    sources: [ElfLib] is the part of its interface that the loader calls.  The
    files are those of [FileOS].  Offsets of a file are [off64_t], but the result
    of [lseek] goes through an [int]. *)

From S2P Require Import Prelude Memory PageMath HostOS Tlb Pager Region RegionManager Registers Mappings Heap Vcpu Descriptors Vm Environ.
From Stdlib Require Ascii.
Local Open Scope Z_scope.

Definition ELF_K_ELF : Z := 3.
Definition ELFCLASS64 : Z := 2.
Definition ET_DYN : Z := 3.
Definition PT_NULL : Z := 0.
Definition PT_LOAD : Z := 1.
Definition PT_DYNAMIC : Z := 2.
Definition PT_INTERP : Z := 3.
Definition PT_NOTE : Z := 4.
Definition PT_SHLIB : Z := 5.
Definition PT_PHDR : Z := 6.
Definition PT_LOPROC : Z := 0x70000000.
Definition PT_HIPROC : Z := 0x7fffffff.
Definition PF_X : Z := 1.
Definition PF_W : Z := 2.
Definition PATH_MAX : nat := 4096.
Definition EIO : Z := 5.
Definition loader_base_addr : Z := 0x1000000.

(** [GElf_Ehdr]: the fields the loader uses and the bytes of the structure. *)
Record GElf_Ehdr := mkEhdr {
  e_type : Z;
  e_entry : Z;
  e_phentsize : Z;
  e_bytes : list Z;
}.

(** [GElf_Phdr]. *)
Record GElf_Phdr := mkPhdr {
  p_type : Z;
  p_flags : Z;
  p_offset : Z;
  p_vaddr : Z;
  p_filesz : Z;
  p_memsz : Z;
}.

(** libelf: a descriptor is an address, 0 when the call failed. *)
Class ElfLib (os : Type) := {
  elf_version_none : os -> bool;
  elf_begin : os -> Z -> Z * os;
  elf_end : os -> Z -> os;
  elf_kind : os -> Z -> Z;
  gelf_getclass : os -> Z -> Z;
  gelf_getehdr : os -> Z -> option GElf_Ehdr;
  (** [elf_getphdrnum]: the result and the number. *)
  elf_getphdrnum : os -> Z -> Z * Z;
  (** The header that [gelf_getphdr] leaves in its argument. *)
  gelf_getphdr : os -> Z -> Z -> GElf_Phdr;
}.

(** [class ElfBinary]; the region and heap managers are the state. *)
Inductive ElfBinary := mkElf {
  _ldr : option ElfBinary;
  _num_phdrs : Z;
  _statically_linked : bool;
  _shared_object : bool;
  _is_ldr : bool;
  _loader : string;
  _entry_point : Z;
  elf_auxv : Elf_auxv;
  text_header : GElf_Phdr;
}.

Definition with_auxv (b : ElfBinary) (a : Elf_auxv) : ElfBinary :=
  mkElf (_ldr b) (_num_phdrs b) (_statically_linked b) (_shared_object b) (_is_ldr b) (_loader b)
        (_entry_point b) a (text_header b).

Definition with_header (b : ElfBinary) (shared : bool) (entry num : Z) : ElfBinary :=
  mkElf (_ldr b) num (_statically_linked b) shared (_is_ldr b) (_loader b) entry (elf_auxv b) (text_header b).

Definition with_linkage (b : ElfBinary) (static : bool) (loader : string) : ElfBinary :=
  mkElf (_ldr b) (_num_phdrs b) static (_shared_object b) (_is_ldr b) loader (_entry_point b) (elf_auxv b)
        (text_header b).

Definition with_text_header (b : ElfBinary) (h : GElf_Phdr) : ElfBinary :=
  mkElf (_ldr b) (_num_phdrs b) (_statically_linked b) (_shared_object b) (_is_ldr b) (_loader b)
        (_entry_point b) (elf_auxv b) h.

Definition with_ldr (b l : ElfBinary) : ElfBinary :=
  mkElf (Some l) (_num_phdrs b) (_statically_linked b) (_shared_object b) (_is_ldr b) (_loader b)
        (_entry_point b) (elf_auxv b) (text_header b).

(** The members before the body of the constructor. *)
Definition ElfBinary_init (is_ldr : bool) : ElfBinary :=
  mkElf None 0 false false is_ldr "undefined ldr" (2 ^ 64 - 1) (mkElfAuxv 0 0 0 0 0 false) (mkPhdr 0 0 0 0 0 0).

Definition get_pager_opts_from_phdr_flags (flags : Z) : Z :=
  let opts := if ctrue (Z.land flags PF_X) then PT_OPT_EXEC else 0 in
  if ctrue (Z.land flags PF_W) then Z.lor opts PT_OPT_WRITE else opts.

(** [check_phdr_for_interpreter] after its check of the sizes. *)
Definition is_interpreter (h : GElf_Phdr) : bool := p_type h =? PT_INTERP.

Definition get_entry_point_static (b : ElfBinary) : Z :=
  if _shared_object b then u64 (at_base (elf_auxv b) + _entry_point b) else _entry_point b.

(** The C string at the start of a buffer of which [data] was written. *)
Fixpoint c_string (data : list Z) : option string :=
  match data with
  | [] => None
  | b :: l => if b =? 0 then Some String.EmptyString
              else String.String (Ascii.ascii_of_N (Z.to_N b)) <$> c_string l
  end.

Section Elf.
Context {os T : Type} `{HostOS os} `{FileOS os} `{MonitorOS os} `{ElfLib os} `{TranslationCache T}.
Local Abbreviation RM := (M (rm os T)).
Local Abbreviation HM := (M (hm os T)).

(** ** [class elf_file] *)

Definition elf_file_open (pathname : string) : RM Z :=
  let! fd := Mapping.on_os (fun o => io_open o pathname) in
  if fd <? 1 then fail Throw else ret fd.

(** The result and the bytes; the caller has them at [buf]. *)
Definition elf_file_read_data (fd bytes off : Z) : RM (Z * list Z) :=
  let! toff := Mapping.on_os (fun o => f_lseek o fd off SEEK_SET) in
  do! assert_ (s32 toff =? off) in
  Mapping.on_os (fun o => f_read o fd bytes).

Definition elf_file_read (fd buf bytes off : Z) : RM Z :=
  let! '(n, data) := elf_file_read_data fd bytes off in
  do! on_pager (upd_mem (fun m => store_bytes m buf data)) in
  ret (u64 n).

Definition max_bufsize : Z := 0x8000.

(** One round of the loop of [read_segment]: the buffer, the bytes that remain
    and the size of the next read. *)
Definition segment_step (fd : Z) (x : Z * Z * Z) : RM ((Z * Z * Z) + (Z * Z)) :=
  let '(buf, remaining_bytes, bufsize) := x in
  let! '(read_bytes, data) := Mapping.on_os (fun o => f_read o fd bufsize) in
  do! on_pager (upd_mem (fun m => store_bytes m buf data)) in
  if 0 <? read_bytes then
    let remaining_bytes := u64 (remaining_bytes - read_bytes) in
    let bufsize := if remaining_bytes <? bufsize then remaining_bytes else bufsize in
    ret (inl (buf + read_bytes, remaining_bytes, bufsize))
  else ret (inr (read_bytes, remaining_bytes)).

Definition elf_file_read_segment (fd buf bytes off : Z) : RM Z :=
  let bufsize := if bytes <? max_bufsize then bytes else max_bufsize in
  let! toff := Mapping.on_os (fun o => f_lseek o fd off SEEK_SET) in
  do! assert_ (off =? s32 toff) in
  let! '(read_bytes, remaining_bytes) := while_ (segment_step fd) (buf, bytes, bufsize) in
  do! assert_ (remaining_bytes =? 0) in
  ret read_bytes.

(** ** [class elf_ptr] *)

Definition os_read {A} (f : os -> A) : RM A := Mapping.on_os (fun o => (f o, o)).

Definition elf_ptr_new (fd : Z) : RM Z :=
  let! none := os_read elf_version_none in
  if none then fail Throw else
  let! p := Mapping.on_os (fun o => elf_begin o fd) in
  if p =? 0 then fail Throw else ret p.

Definition get_ehdr (p : Z) : RM GElf_Ehdr :=
  let! e := os_read (fun o => gelf_getehdr o p) in
  match e with Some h => ret h | None => fail Assert end.

Definition get_phdrnum (p : Z) : RM Z :=
  let! '(err, num) := os_read (fun o => elf_getphdrnum o p) in
  do! assert_ (err =? 0) in
  ret num.

Definition get_phdr (p i : Z) : RM GElf_Phdr := os_read (fun o => gelf_getphdr o p i).

(** ** Checking the file *)

Definition is_valid_elf_kind (p : Z) : RM bool :=
  let! ek := os_read (fun o => elf_kind o p) in ret (ek =? ELF_K_ELF).

Definition is_valid_elf_class (p : Z) : RM bool :=
  let! c := os_read (fun o => gelf_getclass o p) in ret (c =? ELFCLASS64).

(** A path longer than the buffer is written behind it; one without a zero runs
    into bytes that were never written. *)
Definition get_dynamic_loader (fd : Z) (h : GElf_Phdr) : RM string :=
  let! '(_n, data) := elf_file_read_data fd (p_memsz h) (s64 (p_offset h)) in
  if (PATH_MAX <? length data)%nat then fail OutOfRange else
  match c_string data with Some s => ret s | None => fail OutOfRange end.

Definition check_phdr_for_interpreter (h : GElf_Phdr) : RM bool :=
  if p_memsz h <? p_filesz h then fail Throw else ret (is_interpreter h).

(** One round of the loop over the headers; [inr] leaves it. *)
Definition check_elf_step (fd p : Z) (x : Z * ElfBinary) : RM ((Z * ElfBinary) + ElfBinary) :=
  let '(i, b) := x in
  if negb (i <? _num_phdrs b) then ret (inr b) else
  let! h := get_phdr p i in
  let! interp := check_phdr_for_interpreter h in
  if interp then
    let! l := get_dynamic_loader fd h in
    ret (inr (with_linkage b false l))
  else ret (inl (u32 (i + 1), with_linkage b true (_loader b))).

Definition check_elf (fd p : Z) (b : ElfBinary) : RM (Z * ElfBinary) :=
  let! k := is_valid_elf_kind p in
  let! ok := (if k then is_valid_elf_class p else ret false) in
  if negb ok then ret (- EINVAL, b) else
  let! ehdr := get_ehdr p in
  let! num := get_phdrnum p in
  let b := with_header b (e_type ehdr =? ET_DYN) (e_entry ehdr) num in
  let! b := while_ (check_elf_step fd p) (0, b) in
  let a := elf_auxv b in
  ret (0, if _statically_linked b then b
          else with_auxv b (mkElfAuxv (at_phdr a) (e_phentsize ehdr) (_num_phdrs b) (_entry_point b)
                                      (at_base a) true)).

(** ** Loading a segment *)

(** [find_header]: the first loadable header with one of the flags. *)
Definition find_header_step (p n flags i : Z) : RM (Z + option GElf_Phdr) :=
  if negb (i <? n) then ret (inr None) else
  let! h := get_phdr p i in
  if (p_type h =? PT_LOAD) && ctrue (Z.land (p_flags h) flags) then ret (inr (Some h))
  else ret (inl (u32 (i + 1))).

Definition find_header (p : Z) (b : ElfBinary) (flags : Z) : RM GElf_Phdr :=
  let! h := while_ (find_header_step p (_num_phdrs b) flags) 0 in
  match h with Some h => ret h | None => fail Assert end.

Definition find_data_header (p : Z) (b : ElfBinary) : RM GElf_Phdr := find_header p b PF_W.
Definition find_text_header (p : Z) (b : ElfBinary) : RM GElf_Phdr := find_header p b PF_X.

(** Only the 64 bytes of the header may be copied. *)
Definition pad_text_begin (base padsize p : Z) : RM unit :=
  do! assert_ (negb (base =? 0)) in
  let! ehdr := get_ehdr p in
  if Z.of_nat (length (e_bytes ehdr)) <? padsize then fail OutOfRange else
  on_pager (upd_mem (fun m => store_bytes m base (take (Z.to_nat padsize) (e_bytes ehdr)))).

Definition pad_data_begin (base padsize fd p : Z) (b : ElfBinary) : RM ElfBinary :=
  let! h := find_text_header p b in
  let b := with_text_header b h in
  let text_end := u64 (p_offset h + p_filesz h) in
  do! (if padsize <? text_end then
         let! _n := elf_file_read fd base padsize (s64 (text_end - padsize - 1)) in ret tt
       else on_pager (upd_mem (fun m => memset m base 0 padsize))) in
  ret b.

Definition pad_begin (h : GElf_Phdr) (base fd p : Z) (b : ElfBinary) : RM ElfBinary :=
  let padsize := offset_in_page (p_vaddr h) in
  if ctrue padsize then
    if ctrue (Z.land (p_flags h) PF_X) then do! pad_text_begin base padsize p in ret b
    else if ctrue (Z.land (p_flags h) PF_W) then pad_data_begin base padsize fd p b
    else fail Assert
  else ret b.

Definition pad_text_end (host_p padsize fd p : Z) (b : ElfBinary) : RM unit :=
  let! h := find_data_header p b in
  let! _n := elf_file_read fd host_p padsize (s64 (p_offset h)) in
  ret tt.

Definition pad_end (h : GElf_Phdr) (base fd p : Z) (b : ElfBinary) : RM unit :=
  let host_p := base + offset_in_page (p_vaddr h) + p_filesz h in
  let padsize := u64 (page_remain (u64 host_p)) in
  if ctrue (Z.land (p_flags h) PF_X) then pad_text_end host_p padsize fd p b
  else if ctrue (Z.land (p_flags h) PF_W) then
    let padsize := u64 (padsize + (p_memsz h - p_filesz h)) in
    on_pager (upd_mem (fun m => memset m host_p 0 padsize))
  else fail Assert.

Definition read_segment (h : GElf_Phdr) (base fd : Z) : RM unit :=
  let! _n := elf_file_read_segment fd (base + offset_in_page (p_vaddr h)) (p_filesz h) (s64 (p_offset h)) in
  ret tt.

Definition load_program_header (h : GElf_Phdr) (base fd p : Z) (b : ElfBinary) : RM (Z * ElfBinary) :=
  if negb (page_aligned (u64 base)) then ret (- EIO, b) else
  let! b := pad_begin h base fd p b in
  do! read_segment h base fd in
  do! pad_end h base fd p b in
  ret (0, b).

Definition load_phdr (h : GElf_Phdr) (fd p : Z) (b : ElfBinary) : HM ElfBinary :=
  let a := elf_auxv b in
  let b := if _is_ldr b && (at_base a =? 0)
           then with_auxv b (mkElfAuxv (at_phdr a) (at_phent a) (at_phnum a) (at_entry a) loader_base_addr
                                       (valid a))
           else b in
  let load_addr := if _is_ldr b then u64 (at_base (elf_auxv b) + p_vaddr h) else p_vaddr h in
  let total_size := u64 (p_memsz h + offset_in_page load_addr) in
  let! r := HeapManager.on_rm (allocate_region total_size "ELF PHdr") in
  do! HeapManager.on_rm (set_guest_addr_of r (page_begin load_addr)) in
  let! reg := HeapManager.on_rm (on_store (lookup_region r)) in
  let! '(err, b) := HeapManager.on_rm (load_program_header h (base_address reg) fd p b) in
  do! assert_ (err =? 0) in
  let opts := get_pager_opts_from_phdr_flags (p_flags h) in
  let pages := pages_from_size total_size in
  let! err := HeapManager.on_rm (on_pager (map_region (base_address reg) (guest_address reg) pages opts)) in
  do! assert_ (err =? 0) in
  let! err := HeapManager.init r total_size in
  do! assert_ (err =? 0) in
  ret b.

(** ** The program headers *)

Definition ignored_header (t : Z) : bool :=
  existsb (Z.eqb t) [PT_NULL; PT_DYNAMIC; PT_NOTE; PT_SHLIB; PT_LOPROC; PT_HIPROC].

(** One header: the flags say what is forbidden from here on; [inr] is an early
    return. *)
Definition parse_step (fd p : Z) (x : Z * (bool * bool) * ElfBinary)
  : HM ((Z * (bool * bool) * ElfBinary) + (Z * ElfBinary)) :=
  let '(i, (pt_interp_forbidden, pt_phdr_forbidden), b) := x in
  if negb (i <? _num_phdrs b) then ret (inr (0, b)) else
  let! h := HeapManager.on_rm (get_phdr p i) in
  let i := u32 (i + 1) in
  if p_memsz h <? p_filesz h then ret (inr (- EIO, b)) else
  if ignored_header (p_type h) then ret (inl (i, (pt_interp_forbidden, pt_phdr_forbidden), b))
  else if p_type h =? PT_INTERP then
    if pt_interp_forbidden then ret (inr (- EINVAL, b))
    else ret (inl (i, (true, pt_phdr_forbidden), b))
  else if p_type h =? PT_LOAD then
    let! b := load_phdr h fd p b in
    ret (inl (i, (true, true), b))
  else if p_type h =? PT_PHDR then
    let a := elf_auxv b in
    let b := with_auxv b (mkElfAuxv (p_vaddr h) (at_phent a) (at_phnum a) (at_entry a) (at_base a) (valid a)) in
    if pt_phdr_forbidden then ret (inr (- EINVAL, b))
    else ret (inl (i, (pt_interp_forbidden, true), b))
  else ret (inl (i, (pt_interp_forbidden, pt_phdr_forbidden), b)).

Definition parse_program (fd p : Z) (b : ElfBinary) : HM (Z * ElfBinary) :=
  while_ (parse_step fd p) (0, (false, false), b).

(** ** The constructor

    The loader of a dynamically linked binary is loaded by the same
    constructor, [load_loader]. *)
Definition construct (load_loader : string -> bool -> HM ElfBinary) (pathname : string) (is_ldr : bool)
  : HM ElfBinary :=
  do! assert_ (negb (String.eqb pathname "")) in
  let! fd := HeapManager.on_rm (elf_file_open pathname) in
  let! p := HeapManager.on_rm (elf_ptr_new fd) in
  let! '(err, b) := HeapManager.on_rm (check_elf fd p (ElfBinary_init is_ldr)) in
  if ctrue err then fail Throw else
  let! '(err, b) := parse_program fd p b in
  do! assert_ (err =? 0) in
  let! b := (if _statically_linked b then ret b else
             let a := elf_auxv b in
             let b := with_auxv b (mkElfAuxv (at_phdr a) (at_phent a) (at_phnum a) (at_entry a)
                                             loader_base_addr true) in
             let! l := load_loader (_loader b) true in
             ret (with_ldr b l)) in
  do! HeapManager.on_rm (Mapping.on_os (fun o => (tt, elf_end o p))) in
  do! HeapManager.on_rm (Mapping.on_os (fun o => (tt, io_close o fd))) in
  ret b.

(** [depth] bounds how many binaries name one another as loader. *)
Fixpoint ElfBinary_new (depth : nat) : string -> bool -> HM ElfBinary :=
  match depth with
  | O => fun _ _ => fail Fuel
  | S depth => construct (ElfBinary_new depth)
  end.

(** [get_entry_point]: the one of the last loader. *)
Fixpoint get_entry_point (b : ElfBinary) : HM Z :=
  if _statically_linked b then ret (get_entry_point_static b)
  else match b with
       | mkElf (Some l) _ _ _ _ _ _ _ _ => get_entry_point l
       | mkElf None _ _ _ _ _ _ _ _ => fail NullDeref
       end.
End Elf.

(** ** Loading a binary into a machine: [src/vm.cc] *)

Section Load.
Context {os T : Type} `{HostOS os} `{FileOS os} `{KvmOS os} `{MonitorOS os} `{ElfLib os} `{TranslationCache T}.
Local Abbreviation VMM := (M (vm os T)).

Definition load_elf_binary (depth : nat) (argc argv environ : Z) (binary : string) : VMM Z :=
  let! bin := heap (ElfBinary_new depth binary false) in
  let! e := heap (get_entry_point bin) in
  do! on_cpu 0 (set_entry_point e) in
  let! err := on_cpu 0 (create_and_setup_environment (elf_auxv bin) argc argv environ) in
  do! assert_ (err =? 0) in
  ret 0.

(** [elkvm_vm_create] after the machine object was made. *)
Definition elkvm_vm_create (RES_PATH : string) (depth ncpus : nat) (argc argv environ : Z) (binary : string)
  : VMM unit :=
  do! create_virtual_hardware ncpus in
  let! err := load_elf_binary depth argc argv environ binary in
  do! assert_ (err =? 0) in
  let! err := setup_proxy_os RES_PATH in
  assert_ (err =? 0).
End Load.
