(* ===== verification/ElfTheorems.v ===== *)
(** * The ELF loader: theorems

    What a loaded segment looks like in host memory, for any host whose files
    behave like regular files (reads may be short). *)

From S2P Require Import Prelude Memory PageMath HostOS Tlb Pager Region RegionManager Registers Mappings Heap Vcpu Descriptors Vm Environ Elf.
Local Open Scope Z_scope.

(** ** The host's files and libelf *)

Class FileLaws (os : Type) `{FileOS os} := {
  (** The content and the position of an open regular file. *)
  file : os -> Z -> option (list Z * Z);
  lseek_set o fd c p off :
    file o fd = Some (c, p) -> 0 <= off ->
    exists o', f_lseek o fd off SEEK_SET = (off, o') /\ file o' fd = Some (c, off);
  (** A read gives at most [n] bytes from the position on, at least one when
      there is one and one is wanted. *)
  read_some o fd c p n :
    file o fd = Some (c, p) -> 0 <= p -> 0 <= n ->
    exists k o', f_read o fd n = ((Z.of_nat k, take k (drop (Z.to_nat p) c)), o') /\
      file o' fd = Some (c, p + Z.of_nat k) /\ (k <= length c - Z.to_nat p)%nat /\ Z.of_nat k <= n /\
      (0 < n -> p < Z.of_nat (length c) -> (0 < k)%nat);
}.

Class ElfLaws (os : Type) `{FileLaws os} `{ElfLib os} := {
  (** The program headers libelf has read, which the file's position does not change. *)
  headers : os -> Z -> list GElf_Phdr;
  getphdr_ok o p i h : headers o p !! i = Some h -> gelf_getphdr o p (Z.of_nat i) = h;
  headers_lseek o fd off w r o' p : f_lseek o fd off w = (r, o') -> headers o' p = headers o p;
  headers_read o fd n r o' p : f_read o fd n = (r, o') -> headers o' p = headers o p;
}.







Section Segment.
Context {os T : Type} `{ElfLaws os}.
Implicit Types s : rm os T.











(** *** The padding *)






Variables (s0 : rm os T) (fd : Z) (c : list Z) (p : Z) (hd : list GElf_Phdr).
Hypothesis Hlen : Z.of_nat (length hd) < 2 ^ 32.







End Segment.

Section Load.
Context {os T : Type} `{ElfLaws os}.
Implicit Types s : rm os T.



End Load.


(** A host with one open file, which it reads two bytes at a time. *)
Record disk_os := mkDisk { disk_file : list Z; disk_pos : Z; disk_headers : list GElf_Phdr }.

#[export] Instance disk_FileOS : FileOS disk_os := {|
  f_lseek o _ off w := (off, mkDisk (disk_file o) off (disk_headers o));
  f_read o _ n :=
    let k := Nat.min (Nat.min (Z.to_nat n) 2) (length (disk_file o) - Z.to_nat (disk_pos o)) in
    ((Z.of_nat k, take k (drop (Z.to_nat (disk_pos o)) (disk_file o))),
     mkDisk (disk_file o) (disk_pos o + Z.of_nat k) (disk_headers o));
|}.

#[export] Instance disk_FileLaws : FileLaws disk_os.
Proof.
  refine {| file o _ := Some (disk_file o, disk_pos o) |}.
  - intros o fd c p off Hf Ho. eexists. split; [reflexivity|]. by injection Hf as <- <-.
  - intros o fd c p n Hf Hp Hn. injection Hf as <- <-. eexists _, _. split; [reflexivity|].
    cbn [disk_file disk_pos]. split; [done|]. split; [lia|]. split; [lia|]. intros ? ?. lia.
Defined.

#[export] Instance disk_ElfLib : ElfLib disk_os := {|
  elf_version_none _ := false;
  elf_begin o _ := (1, o);
  elf_end o _ := o;
  elf_kind _ _ := ELF_K_ELF;
  gelf_getclass _ _ := ELFCLASS64;
  gelf_getehdr _ _ := Some (mkEhdr 2 0x400000 56 (replicate 64 127));
  elf_getphdrnum o _ := (0, Z.of_nat (length (disk_headers o)));
  gelf_getphdr o _ i := nth (Z.to_nat i) (disk_headers o) (mkPhdr 0 0 0 0 0 0);
|}.

#[export] Instance disk_ElfLaws : ElfLaws disk_os.
Proof.
  refine {| headers o _ := disk_headers o |}.
  - intros o p i h Hi. cbn. rewrite Nat2Z.id. by apply nth_lookup_Some.
  - intros o fd off w r o' p E. by injection E as _ <-.
  - intros o fd n r o' p E. by injection E as _ <-.
Defined.





(** ** The depth of loaders *)

Lemma bind_mono {X A B} (c c' : M X A) (k k' : A -> M X B) (s : X) r :
  (forall x, c s = Ok x -> c' s = Ok x) ->
  (forall a s1, k a s1 = Ok r -> k' a s1 = Ok r) -> bind c k s = Ok r -> bind c' k' s = Ok r.
Proof.
  intros Hc Hk. unfold bind. destruct (c s) as [[a s1]|f] eqn:E; [|done].
  rewrite (Hc _ eq_refl). apply Hk.
Qed.

Section Depth.
Context {os T : Type} `{HostOS os} `{FileOS os} `{MonitorOS os} `{ElfLib os} `{TranslationCache T}.
Implicit Types s : hm os T.

Lemma construct_mono (f g : string -> bool -> M (hm os T) ElfBinary) path is_ldr s r :
  (forall p l t x, f p l t = Ok x -> g p l t = Ok x) ->
  construct f path is_ldr s = Ok r -> construct g path is_ldr s = Ok r.
Proof.
  intros Hfg. unfold construct. do 3 (apply bind_mono; [done|]; intros ? ?).
  apply bind_mono; [done|]. intros [err b] ?. destruct (ctrue err); [done|].
  apply bind_mono; [done|]. intros [err' b'] ?. apply bind_mono; [done|]. intros ? ?.
  apply bind_mono; [|done]. intros x. destruct (_statically_linked b'); [done|].
  apply bind_mono; [|done]. intros y. apply Hfg.
Qed.

(** A larger depth changes nothing once the binary loads. *)
Lemma ElfBinary_new_depth d path is_ldr s r :
  ElfBinary_new d path is_ldr s = Ok r -> ElfBinary_new (S d) path is_ldr s = Ok r.
Proof.
  revert path is_ldr s r. induction d as [|d IH]; intros path is_ldr s r; [done|].
  apply construct_mono. intros. by apply IH.
Qed.
End Depth.
