(* ===== verification/Gdb.v ===== *)
(** * The GDB stub: [src/gdbstub.cc]

    [class gdb_session]: a machine under the control of a debugger that talks
    the remote protocol over a socket.  Characters are bytes; the command buffer
    is the array of 255 characters of [debug_loop], with what earlier commands
    left in it.  [g_out] is what the static output buffer holds up to [bufptr].
    The sockets of the host are an interface. *)

From S2P Require Import Prelude Text Memory PageMath HostOS Tlb Pager Region RegionManager Registers Mappings Heap Vcpu Descriptors Vm Handlers Syscall SyscallStubs Hypercall.
From Stdlib Require Import Ascii.
Local Open Scope Z_scope.

Class SocketOS (os : Type) := {
  io_socket : os -> Z * os;
  (** The options that reuse the port and disable Nagle; results are ignored. *)
  io_setsockopt : os -> Z -> os;
  (** [getprotobyname]: whether there is an entry. *)
  io_getprotobyname : os -> bool * os;
  (** [bind] to the port, [listen], [accept], each with its result. *)
  io_bind : os -> Z -> Z -> Z * os;
  io_listen : os -> Z -> Z * os;
  io_accept : os -> Z -> Z * os;
  (** [send]: how many of the bytes were taken, or -1. *)
  io_send : os -> Z -> list Z -> Z * os;
  (** The byte that a [recv] of one byte leaves in its buffer. *)
  io_recv : os -> Z -> Z * os;
}.

(** ** Characters and numbers *)

Definition hex (ch : Z) : Z :=
  if (chr "a" <=? ch) && (ch <=? chr "f") then ch - chr "a" + 10
  else if (chr "0" <=? ch) && (ch <=? chr "9") then ch - chr "0"
  else if (chr "A" <=? ch) && (ch <=? chr "F") then ch - chr "A" + 10
  else -1.

Definition hexchars : list Z := str "0123456789abcdef".
Definition hexchar (n : Z) : Z := nth (Z.to_nat n) hexchars 0.

(** The characters [mem2hex] writes, without the terminator. *)
Definition mem2hex (bs : list Z) : list Z :=
  concat (map (fun ch => [hexchar (Z.shiftr ch 4); hexchar (ch mod 16)]) bs).

(** One byte of [hex2mem]; the digits are not checked. *)
Definition hex_byte (a b : Z) : Z := u8 (u8 (Z.shiftl (hex a) 4) + hex b).

(** [count] bytes from the characters; [None] when they run out. *)
Fixpoint hex2mem (count : nat) (l : list Z) : option (list Z) :=
  match count with
  | O => Some []
  | S n => match l with
           | a :: b :: l' => cons (hex_byte a b) <$> hex2mem n l'
           | _ => None
           end
  end.

Definition is_space (c : Z) : bool := (c =? 32) || ((9 <=? c) && (c <=? 13)).
Definition isdigit (c : Z) : bool := (chr "0" <=? c) && (c <=? chr "9").
Definition isupper (c : Z) : bool := (chr "A" <=? c) && (c <=? chr "Z").
Definition isxdigit (c : Z) : bool := 0 <=? hex c.

Definition hexdigit (c : Z) : Z :=
  if isdigit c then c - chr "0" else if isupper c then c - chr "A" + 10 else c - chr "a" + 10.

Fixpoint read_le_hex (l : list Z) (n : Z) (acc : Z) (fuel : nat) : Z :=
  match fuel with
  | O => acc
  | S fuel =>
      match l with
      | [] => acc
      | a :: l =>
          if isxdigit a then
            let byte := hexdigit a in
            match l with
            | b :: l' =>
                if isxdigit b
                then read_le_hex l' (n + 1) (Z.lor acc (u64 (Z.shiftl (Z.lor (Z.shiftl byte 4) (hexdigit b)) (n * 8)))) fuel
                else read_le_hex l (n + 1) (Z.lor acc (u64 (Z.shiftl byte (n * 8)))) fuel
            | [] => read_le_hex l (n + 1) (Z.lor acc (u64 (Z.shiftl byte (n * 8)))) fuel
            end
          else acc
      end
  end.

(** [read_little_endian_hex] of the characters up to the terminator. *)
Definition read_little_endian_hex (l : list Z) : Z := read_le_hex l 0 0 (length l).

(** *** The number parsers of libc *)

(** The digit of a character in a base, if it is one. *)
Definition digit_in (base c : Z) : option Z :=
  let d := hex c in if (0 <=? d) && (d <? base) then Some d else None.

(** Value and number of the leading digits; [None] when no other character
    ends them. *)
Fixpoint digits (base : Z) (l : list Z) (acc : Z) : option (Z * nat) :=
  match l with
  | [] => None
  | c :: l' =>
      match digit_in base c with
      | Some d => match digits base l' (acc * base + d) with
                  | Some (v, n) => Some (v, S n)
                  | None => None
                  end
      | None => Some (acc, O)
      end
  end.

Fixpoint count_spaces (l : list Z) : nat :=
  match l with
  | c :: l' => if is_space c then S (count_spaces l') else O
  | [] => O
  end.

(** Sign, magnitude and how many characters were used: none when there is no number. *)
Definition parse_number (base : Z) (l : list Z) : option (bool * Z * nat) :=
  let n0 := count_spaces l in
  let l1 := drop n0 l in
  let '(neg, n1) := match l1 with
                    | c :: _ => if c =? chr "-" then (true, 1%nat) else if c =? chr "+" then (false, 1%nat) else (false, O)
                    | [] => (false, O)
                    end in
  let l2 := drop n1 l1 in
  let n2 := match l2 with
            | z :: x :: d :: _ =>
                if (base =? 16) && (z =? chr "0") && ((x =? chr "x") || (x =? chr "X")) && isxdigit d then 2%nat else O
            | _ => O
            end in
  match digits base (drop n2 l2) 0 with
  | None => None
  | Some (_, O) => Some (false, 0, O)
  | Some (v, S k) => Some (neg, v, (n0 + n1 + n2 + S k)%nat)
  end.

Definition ULLONG_MAX : Z := 2 ^ 64 - 1.
Definition LONG_MAX : Z := 2 ^ 63 - 1.

(** [strtoul] and [strtoull] with their end pointer. *)
Definition strtoul (base : Z) (l : list Z) : option (Z * nat) :=
  match parse_number base l with
  | None => None
  | Some (neg, v, n) =>
      Some (if ULLONG_MAX <? v then ULLONG_MAX else if neg then u64 (- v) else v, n)
  end.

Definition strtol (base : Z) (l : list Z) : option Z :=
  match parse_number base l with
  | None => None
  | Some (neg, v, _) =>
      Some (if neg then Z.max (- v) (- LONG_MAX - 1) else Z.min v LONG_MAX)
  end.

(** [atoi]: a decimal number, as an [int]. *)
Definition atoi (l : list Z) : option Z := s32 <$> strtol 10 l.

(** ** The session *)

Record gdb (os T : Type) := mkGdb {
  g_vm : vm os T;
  socket_fd : Z;
  g_out : list Z;
  continue_thread : Z;
  other_thread : Z;
}.
Arguments mkGdb {os T}.
Arguments g_vm {os T}.
Arguments socket_fd {os T}.
Arguments g_out {os T}.
Arguments continue_thread {os T}.
Arguments other_thread {os T}.

Definition BUFSIZE : nat := 255.
Definition OUTSIZE : nat := 4096.
Definition OBUFSIZE : Z := 1024.
Definition gdb_base : Z := 16.
Definition gdb_port : Z := 1234.
Definition SIGTRAP : Z := 5.

Section Gdb.
Context {os T : Type} `{HostOS os} `{FileOS os} `{KvmOS os} `{MonitorOS os} `{SocketOS os} `{TranslationCache T}.
Local Abbreviation GM := (M (gdb os T)).
Variable hs : elkvm_handlers os (vm os T).
Variable hyp : hypercall_handlers (vm os T).
Variable have_udis86 : bool.

Definition on_vm {A} (c : M (vm os T) A) : GM A :=
  zoom g_vm (fun v s => mkGdb v (socket_fd s) (g_out s) (continue_thread s) (other_thread s)) c.
Definition set_out (l : list Z) : GM unit :=
  modify (fun s => mkGdb (g_vm s) (socket_fd s) l (continue_thread s) (other_thread s)).
Definition set_threads (c o : Z) : GM unit :=
  modify (fun s => mkGdb (g_vm s) (socket_fd s) (g_out s) c o).

(** What a parser that ran off the buffer means. *)
Definition in_buffer {A} (o : option A) : GM A :=
  match o with Some a => ret a | None => fail OutOfRange end.

(** ** Packets *)

(** One [send] of what is left. *)
Definition flush_step (l : list Z) : GM (list Z + unit) :=
  if (length l =? 0)%nat then ret (inr tt) else
  let! fd := gets socket_fd in
  let! n := on_vm (os_io (fun o => io_send o fd l)) in
  let n := s32 n in
  do! assert_ (negb (n =? -1)) in
  if (n <? 0) || (Z.of_nat (length l) <? n) then fail OutOfRange else
  ret (inl (drop (Z.to_nat n) l)).

Definition flush_debug_buffer : GM unit :=
  let! l := gets g_out in
  do! while_ flush_step l in
  set_out [].

Definition put_debug_char (ch : Z) : GM unit :=
  let! l := gets g_out in
  do! (if (length l =? OUTSIZE)%nat then flush_debug_buffer else ret tt) in
  let! l := gets g_out in
  set_out (l ++ [ch]).

Definition get_debug_char : GM Z :=
  let! fd := gets socket_fd in
  on_vm (os_io (fun o => io_recv o fd)).

Fixpoint put_chars (l : list Z) : GM unit :=
  match l with
  | [] => ret tt
  | c :: l' => do! put_debug_char c in put_chars l'
  end.

Definition checksum (l : list Z) : Z := fold_left (fun s c => u8 (s + c)) l 0.

(** One transmission; it is repeated until the debugger answers [+]. *)
Definition reply_step (buffer : list Z) (_ : unit) : GM (unit + unit) :=
  do! put_debug_char (chr "$") in
  do! put_chars buffer in
  let csum := checksum buffer in
  do! put_debug_char (chr "#") in
  do! put_debug_char (hexchar (Z.shiftr csum 4)) in
  do! put_debug_char (hexchar (csum mod 16)) in
  do! flush_debug_buffer in
  let! ch := get_debug_char in
  if ch =? chr "+" then ret (inr tt) else ret (inl tt).

(** [put_reply] of a string without zeros. *)
Definition put_reply (buffer : list Z) : GM unit := while_ (reply_step buffer) tt.

(** One character of a command: the buffer, the count and the checksum. *)
Definition read_cmd_step (x : list Z * nat * Z) : GM ((list Z * nat * Z) + (list Z * nat * Z)) :=
  let '(buffer, count, csum) := x in
  let! ch := get_debug_char in
  if ch =? chr "#" then ret (inr x) else
  if (count <? length buffer)%nat then ret (inl (<[count := ch]> buffer, S count, u8 (csum + ch)))
  else fail OutOfRange.

Definition read_cmd_into_buffer (buffer : list Z) : GM (list Z * Z) :=
  let! '(buffer, count, csum) := while_ read_cmd_step (buffer, O, 0) in
  if (count <? length buffer)%nat then ret (<[count := 0]> buffer, csum) else fail OutOfRange.

Definition validate_checksum (csum : Z) : GM bool :=
  let! a := get_debug_char in
  let! b := get_debug_char in
  ret (hex_byte a b =? csum).

(** The length of the C string at the start of the buffer. *)
Fixpoint strlen (l : list Z) : option nat :=
  match l with
  | [] => None
  | c :: l' => if c =? 0 then Some O else S <$> strlen l'
  end.

(** The loop that moves the characters from 3 up to the terminator to the front. *)
Definition strip_thread (buffer : list Z) (count : nat) : list Z :=
  fold_left (fun b i => <[(i - 3)%nat := nth i b 0]> b) (seq 3 (count - 2)) buffer.

Definition wait_dollar (_ : unit) : GM (unit + unit) :=
  let! ch := get_debug_char in
  if ch =? chr "$" then ret (inr tt) else ret (inl tt).

(** One round of [get_command]: [inr] when the checksum was right. *)
Definition get_command_step (buffer : list Z) : GM (list Z + list Z) :=
  do! while_ wait_dollar tt in
  let! '(buffer, csum) := read_cmd_into_buffer buffer in
  let! ok := validate_checksum csum in
  if ok then
    do! put_debug_char (chr "+") in
    let! c2 := at_ buffer 2 in
    let! buffer := (if c2 =? chr ":" then
                      let! c0 := at_ buffer 0 in
                      let! c1 := at_ buffer 1 in
                      do! put_debug_char c0 in
                      do! put_debug_char c1 in
                      let! count := in_buffer (strlen buffer) in
                      ret (strip_thread buffer count)
                    else ret buffer) in
    do! flush_debug_buffer in
    ret (inr buffer)
  else
    do! put_debug_char (chr "-") in
    do! flush_debug_buffer in
    ret (inl buffer).

Definition get_command (buffer : list Z) : GM (list Z) := while_ get_command_step buffer.

(** ** Commands *)

(** An assignment to a character of a [std::string]. *)
Definition string_set (l : list Z) (i : nat) (c : Z) : GM (list Z) :=
  if (i <? length l)%nat then ret (<[i := c]> l) else fail OutOfRange.

(** Two digits and a terminator from position [i] on. *)
Definition write_signal (l : list Z) (i : nat) (signal : Z) : GM (list Z) :=
  let! l := string_set l i (hexchar (Z.shiftr signal 4)) in
  let! l := string_set l (i + 1) (hexchar (signal mod 16)) in
  string_set l (i + 2) 0.

(** The characters of a reply up to its terminator. *)
Fixpoint until_zero (l : list Z) : list Z :=
  match l with
  | [] => []
  | c :: l' => if c =? 0 then [] else c :: until_zero l'
  end.

(** The string is empty. *)
Definition put_sigtrap_reply : GM unit :=
  let! reply := string_set [] 0 (chr "S") in
  let! reply := write_signal reply 1 SIGTRAP in
  put_reply (until_zero reply).

Definition handle_continue (buffer : list Z) : GM unit :=
  let! c1 := at_ buffer 1 in
  do! (if negb (c1 =? 0) then
         let! new_rip := in_buffer (atoi (drop 1 buffer)) in
         on_vm (on_cpu 0 (set_reg rip (u64 new_rip)))
       else ret tt) in
  let! _r := on_vm (run hs hyp have_udis86) in
  put_sigtrap_reply.

Definition handle_singlestep : GM unit :=
  let! _e := on_vm (on_cpu 0 singlestep) in
  let! _r := on_vm (run hs hyp have_udis86) in
  let! _e := on_vm (on_cpu 0 singlestep_off) in
  put_sigtrap_reply.

Definition handle_memwrite (buffer : list Z) : GM unit :=
  let! '(addr, n) := in_buffer (strtoul gdb_base (drop 1 buffer)) in
  let ebuf := (1 + n)%nat in
  let! '(len, k) := in_buffer (strtoul gdb_base (drop (ebuf + 1) buffer)) in
  let ebuf := (ebuf + 1 + k)%nat in
  let len := s32 len in
  let! host_p := on_vm (host_p_ addr) in
  do! assert_ (negb (host_p =? 0)) in
  let! bytes := in_buffer (hex2mem (Z.to_nat len) (drop (ebuf + 1) buffer)) in
  do! on_vm (set_memory (fun m => store_bytes m host_p bytes)) in
  let! err := on_vm (on_cpu 0 enable_software_breakpoints) in
  do! assert_ (err =? 0) in
  put_reply (str "OK").

Definition handle_memread (buffer : list Z) : GM unit :=
  let! '(addr, n) := in_buffer (strtoul gdb_base (drop 1 buffer)) in
  let! '(len, _k) := in_buffer (strtoul gdb_base (drop (1 + n + 1) buffer)) in
  let len := s32 len in
  if addr =? 0 then put_reply (str "E33") else
  let! host_p := on_vm (host_p_ addr) in
  if host_p =? 0 then put_reply (str "E33") else
  (* the output buffer has 1024 characters *)
  if (len <? 0) || (OBUFSIZE <? 2 * len + 1) then fail OutOfRange else
  let! m := on_vm memory in
  put_reply (mem2hex (load_bytes m host_p (Z.to_nat len))).

(** The little-endian bytes of a register. *)
Definition reg_bytes (v : Z) : list Z := map (fun i => u8 (Z.shiftr v (8 * Z.of_nat i))) (seq 0 8).

(** A word of the guest's stack, through the pager. *)
Definition stack_at (addr : Z) : GM Z :=
  let! p := on_vm (host_p_ addr) in
  if p =? 0 then fail NullDeref else
  let! m := on_vm memory in
  ret (load64 m p).

Fixpoint read_regs (l : list Reg_t) : GM (list Z) :=
  match l with
  | [] => ret []
  | r :: l' => let! v := on_vm (on_cpu 0 (get_reg r)) in
               let! vs := read_regs l' in
               ret (v :: vs)
  end.

Fixpoint read_segs (l : list Seg_t) : GM (list Z) :=
  match l with
  | [] => ret []
  | t :: l' => let! g := on_vm (on_cpu 0 (get_seg t)) in
               let! vs := read_segs l' in
               ret (_base g :: vs)
  end.

Definition KERNEL_RIP : Z := 0xffff800000000000.

(** The values in the order the debugger expects; in kernel mode stack pointer
    and instruction pointer are those of the interrupted program. *)
Definition gdb_registers : GM (list Z) :=
  let! a := read_regs [rax; rbx; rcx; rdx; rsi; rdi; rbp] in
  let! ip := on_vm (on_cpu 0 (get_reg rip)) in
  let! sp := on_vm (on_cpu 0 (get_reg rsp)) in
  let! sp' := (if ip <? KERNEL_RIP then ret sp else stack_at (u64 (sp + 24))) in
  let! b := read_regs [r8; r9; r10; r11; r12; r13; r14; r15] in
  let! ip' := (if ip <? KERNEL_RIP then ret ip else stack_at sp) in
  let! c := read_regs [rflags] in
  let! d := read_segs [cs; ss; ds; es; fs; gs] in
  ret (a ++ [sp'] ++ b ++ [ip'] ++ c ++ d).

Definition handle_regread : GM unit :=
  let! vs := gdb_registers in
  put_reply (concat (map (fun v => mem2hex (reg_bytes v)) vs)).

Definition handle_qm : GM unit := put_reply (str "S05").

(** [strncmp(l, s, strlen(s)) == 0]. *)
Definition starts_with (l : list Z) (s : string) : bool :=
  bool_decide (take (length (str s)) l = str s).

Definition handle_query (buffer : list Z) : GM unit :=
  let! c1 := at_ buffer 1 in
  if c1 =? chr "C" then put_reply (str "0000000000000001")
  else if starts_with (drop 1 buffer) "Offsets" then put_reply (str "Text=0;Data=0;Bss=0")
  else put_reply [].

Definition handle_thread (buffer : list Z) : GM unit :=
  let! c1 := at_ buffer 1 in
  if c1 =? chr "c" then
    let! t := in_buffer (strtol gdb_base (drop 2 buffer)) in
    let! s := get in
    do! set_threads (s32 t) (other_thread s) in
    put_reply (str "OK")
  else if c1 =? chr "g" then
    let! t := in_buffer (strtol gdb_base (drop 2 buffer)) in
    let! s := get in
    do! set_threads (continue_thread s) (s32 t) in
    put_reply (str "OK")
  else put_reply (str "Eff").

(** One command: [inr] when the debugger detaches. *)
Definition handle_command (buffer : list Z) : GM (list Z + unit) :=
  let! c := at_ buffer 0 in
  let goes_on (h : GM unit) : GM (list Z + unit) := do! h in ret (inl buffer) in
  if c =? chr "c" then goes_on (handle_continue buffer)
  else if c =? chr "s" then goes_on handle_singlestep
  else if c =? chr "M" then goes_on (handle_memwrite buffer)
  else if c =? chr "m" then goes_on (handle_memread buffer)
  else if c =? chr "g" then goes_on handle_regread
  else if c =? chr "?" then goes_on handle_qm
  else if c =? chr "H" then goes_on (handle_thread buffer)
  else if c =? chr "q" then goes_on (handle_query buffer)
  else if c =? chr "k" then fail Assert
  else if c =? chr "D" then do! put_reply (str "OK") in ret (inr tt)
  else goes_on (put_reply []).

Definition debug_loop_step (buffer : list Z) : GM (list Z + unit) :=
  let! buffer := get_command buffer in
  handle_command buffer.

(** [stack] is what the array holds at first. *)
Definition debug_loop (stack : nat -> Z) : GM unit := while_ debug_loop_step (map stack (seq 0 BUFSIZE)).

(** ** The session *)

Definition wait_for_connection : GM unit :=
  let! listen_socket_fd := on_vm (os_io io_socket) in
  if listen_socket_fd =? -1 then fail (Exit 1) else
  do! on_vm (os_io (fun o => (tt, io_setsockopt o listen_socket_fd))) in
  let! r := on_vm (os_io (fun o => io_bind o listen_socket_fd gdb_port)) in
  do! assert_ (negb (r =? -1)) in
  let! r := on_vm (os_io (fun o => io_listen o listen_socket_fd)) in
  do! assert_ (negb (r =? -1)) in
  let! fd := on_vm (os_io (fun o => io_accept o listen_socket_fd)) in
  do! modify (fun s => mkGdb (g_vm s) fd (g_out s) (continue_thread s) (other_thread s)) in
  do! assert_ (negb (fd =? -1)) in
  do! on_vm (os_io (fun o => (tt, io_close o listen_socket_fd))) in
  let! protoent := on_vm (os_io io_getprotobyname) in
  if negb protoent then ret tt else
  on_vm (os_io (fun o => (tt, io_setsockopt o fd))).

Definition gdb_session (stack : nat -> Z) : GM unit :=
  do! wait_for_connection in
  do! debug_loop stack in
  let! _r := on_vm (run hs hyp have_udis86) in
  ret tt.
End Gdb.
