(* ===== verification/GdbTheorems.v ===== *)
(** * The GDB stub: theorems

    The hexadecimal encoding and the packets of the remote protocol, over any
    socket that delivers what it takes, in pieces of any size. *)

From S2P Require Import Prelude Text Memory PageMath HostOS Tlb Pager PagerTree PagerWalk PagerSpec PagerTlb PagerTheorems Region RegionManager RegionSpec RegionTheorems Registers Mappings Heap HeapSpec HeapTheorems Vcpu VcpuTheorems Descriptors Vm Handlers Syscall SyscallStubs Hypercall VmSpec Gdb.
From Stdlib Require Import Ascii.
Local Open Scope Z_scope.

Definition is_byte (b : Z) : Prop := 0 <= b < 256.

(** ** The encoding *)

Lemma hex_hexchar n : 0 <= n < 16 -> hex (hexchar n) = n /\ hexdigit (hexchar n) = n.
Proof.
  intros Hn.
  assert (forallb (fun k => let z := Z.of_nat k in (hex (hexchar z) =? z) && (hexdigit (hexchar z) =? z)) (seq 0 16) = true)
    as Hall by (vm_compute; reflexivity).
  rewrite forallb_forall in Hall. specialize (Hall (Z.to_nat n)). rewrite Z2Nat.id in Hall by lia.
  rewrite andb_true_iff, !Z.eqb_eq in Hall. apply Hall. apply in_seq. lia.
Qed.

Lemma nibbles ch : is_byte ch -> 0 <= Z.shiftr ch 4 < 16 /\ 0 <= ch mod 16 < 16 /\ ch = Z.shiftr ch 4 * 16 + ch mod 16.
Proof.
  unfold is_byte. intros Hb. rewrite Z.shiftr_div_pow2 by lia. change (2 ^ 4) with 16. Z.div_mod_to_equations. lia.
Qed.

Lemma hex_byte_hexchar ch : is_byte ch -> hex_byte (hexchar (Z.shiftr ch 4)) (hexchar (ch mod 16)) = ch.
Proof.
  intros Hb. destruct (nibbles ch Hb) as (H1 & H2 & H3). unfold hex_byte, is_byte in *.
  destruct (hex_hexchar _ H1) as [-> _], (hex_hexchar _ H2) as [-> _].
  rewrite Z.shiftl_mul_pow2 by lia. change (2 ^ 4) with 16. rewrite (u8_small (_ * 16)), u8_small by lia. lia.
Qed.

(** The value of little-endian bytes. *)
Definition le (bs : list Z) : Z := fold_right (fun b v => b + 256 * v) 0 bs.

Lemma le_reg_bytes w : is_u64 w -> le (reg_bytes w) = w.
Proof.
  intros Hw. rewrite <- (u64_small w) at 2 by done.
  change (u64 w) with (w mod 2 ^ (8 * Z.of_nat 8)).
  rewrite <- (load_le_word 8 (fun i => u8 (Z.shiftr w (8 * i))) 0 w); [|by intros i Hi].
  unfold reg_bytes, le. cbn [seq map fold_right load_le]. unfold load8.
  rewrite !(u8_small (u8 _)) by apply u8_range. done.
Qed.

Lemma read_le_step a b l n acc fuel :
  0 <= a < 16 -> 0 <= b < 16 ->
  read_le_hex (hexchar a :: hexchar b :: l) n acc (S fuel) =
  read_le_hex l (n + 1) (Z.lor acc (u64 (Z.shiftl (Z.lor (Z.shiftl a 4) b) (n * 8)))) fuel.
Proof.
  intros Ha Hb. destruct (hex_hexchar a Ha) as [Ea Da], (hex_hexchar b Hb) as [Eb Db]. cbn [read_le_hex].
  unfold isxdigit. rewrite Ea, Eb, Da, Db. replace (0 <=? a) with true by (symmetry; lia).
  by replace (0 <=? b) with true by (symmetry; lia).
Qed.

Lemma read_le_mem2hex bs : forall n acc fuel,
  Forall is_byte bs -> 0 <= n -> 8 * (n + Z.of_nat (length bs)) <= 64 -> 0 <= acc < 2 ^ (8 * n) ->
  (length bs < fuel)%nat ->
  read_le_hex (mem2hex bs) n acc fuel = acc + 2 ^ (8 * n) * le bs.
Proof.
  induction bs as [|b bs IH]; intros n acc [|fuel] Hb Hn Hl Ha Hf; [lia|cbn; lia|lia|].
  apply Forall_cons in Hb as [Hb Hbs]. destruct (nibbles b Hb) as (H1 & H2 & H3). cbn [length] in *.
  change (mem2hex (b :: bs)) with (hexchar (Z.shiftr b 4) :: hexchar (b mod 16) :: mem2hex bs).
  rewrite read_le_step by done. unfold is_byte in Hb.
  assert (Z.lor (Z.shiftl (Z.shiftr b 4) 4) (b mod 16) = b) as ->.
  { rewrite (lor_disjoint _ _ 4); rewrite ?Z.shiftl_mul_pow2 by lia; [change (2 ^ 4) with 16; lia|lia|done|].
    apply Z.mod_mul. lia. }
  assert (2 ^ (8 * (n + 1)) = 256 * 2 ^ (8 * n)) as Ep.
  { replace (8 * (n + 1)) with (8 + 8 * n) by lia. by rewrite Z.pow_add_r by lia. }
  assert (2 ^ (8 * (n + 1)) <= 2 ^ 64) as Hle by (apply Z.pow_le_mono_r; lia).
  rewrite Z.shiftl_mul_pow2 by lia. rewrite (Z.mul_comm n 8).
  pose proof (Z.pow_pos_nonneg 2 (8 * n) ltac:(lia) ltac:(lia)). rewrite u64_small by nia.
  rewrite Z.lor_comm, (lor_disjoint _ _ (8 * n)) by (try lia; apply Z.mod_mul; lia).
  rewrite IH; [|done|lia|lia|nia|lia]. rewrite Ep. cbn [le fold_right]. fold (le bs). lia.
Qed.

(** C39. The hexadecimal encoding. [hex2mem] reads back the bytes that [mem2hex]
    wrote, whatever follows them, and [read_little_endian_hex] reads back the
    register whose bytes were written. *)
Theorem hex_roundtrip bs rest w :
  Forall is_byte bs -> is_u64 w ->
  hex2mem (length bs) (mem2hex bs ++ rest) = Some bs /\
  read_little_endian_hex (mem2hex (reg_bytes w)) = w.
Proof.
  intros Hb Hw. split.
  - induction Hb as [|b bs Hb _ IH]; [done|]. cbn [length hex2mem].
    change (mem2hex (b :: bs)) with (hexchar (Z.shiftr b 4) :: hexchar (b mod 16) :: mem2hex bs).
    cbn [app]. rewrite IH, hex_byte_hexchar by done. done.
  - unfold read_little_endian_hex. rewrite read_le_mem2hex.
    + rewrite le_reg_bytes by done. change (2 ^ (8 * 0)) with 1. lia.
    + unfold reg_bytes. cbn [seq map]. repeat (apply Forall_cons; split; [apply u8_range|]). by apply Forall_nil.
    + lia.
    + vm_compute. discriminate.
    + lia.
    + cbv [reg_bytes mem2hex map seq concat app length]. lia.
Qed.

Lemma hex_roundtrip_witness :
  hex2mem 3 (str "00ff7a#33") = Some [0; 255; 122] /\ read_little_endian_hex (mem2hex (reg_bytes 0x401000)) = 0x401000.
Proof.
  exact (hex_roundtrip [0; 255; 122] (str "#33") 0x401000
    ltac:(repeat (apply Forall_cons; split; [by split|]); by apply Forall_nil) ltac:(by split)).
Defined.

(** ** Packets *)

Class SocketLaws (os : Type) `{SocketOS os} := {
  (** What the debugger will send and what has reached it. *)
  wire_in : os -> Z -> list Z;
  wire_out : os -> Z -> list Z;
  (** A [send] takes at least one byte. *)
  send_ok o fd l :
    l <> [] -> Z.of_nat (length l) < 2 ^ 31 ->
    exists n o', io_send o fd l = (Z.of_nat n, o') /\ (0 < n <= length l)%nat /\
      wire_out o' fd = wire_out o fd ++ take n l /\ wire_in o' fd = wire_in o fd;
  recv_ok o fd c l :
    wire_in o fd = c :: l ->
    exists o', io_recv o fd = (c, o') /\ wire_in o' fd = l /\ wire_out o' fd = wire_out o fd;
}.

Section Packets.
Context {os T : Type} `{SocketLaws os}.
Implicit Types s t u : gdb os T.

(** The session on another state of the host. *)
Definition vm_with_os (v : vm os T) (o : os) : vm os T :=
  let h := v_hm v in let r := hm_rm h in let p := rm_pager r in
  with_hm v (mkHM (mappings_for_brk h) (mappings_for_mmap h) (curbrk h)
                  (mkRM (allocated_regions r) (freelists r) (rm_store r) (mkPst (p_mem p) (p_tlb p) o (p_pager p)))).
Definition gdb_put s (o : os) (out : list Z) : gdb os T :=
  mkGdb (vm_with_os (g_vm s) o) (socket_fd s) out (continue_thread s) (other_thread s).
Definition gdb_os s : os := p_os (vm_paging (g_vm s)).

Lemma on_vm_os_spec {A} F (f : os -> A * os) (Q : A -> gdb os T -> Prop) s :
  Q (f (gdb_os s)).1 (gdb_put s (f (gdb_os s)).2 (g_out s)) -> wp F (on_vm (os_io f)) Q s.
Proof.
  intros HQ. unfold on_vm, os_io, region_manager, heap, HeapManager.on_rm, rm_io, on_pager. do 4 apply wp_zoom.
  apply wp_bind, wp_get. unfold gdb_os, vm_paging in HQ. cbn in HQ |- *.
  destruct (f _) as [a o]. by apply wp_bind, wp_put, wp_ret.
Qed.

(** What has been said: sent or still in the buffer. *)
Definition emitted s : list Z := wire_out (gdb_os s) (socket_fd s) ++ g_out s.

(** From [s] to [s'] the session has read [i] and said [o]; nothing but the host
    and the output buffer has changed. *)
Record talk s (i o : list Z) s' : Prop := mkTalk {
  tk_in : wire_in (gdb_os s) (socket_fd s) = i ++ wire_in (gdb_os s') (socket_fd s);
  tk_out : emitted s' = emitted s ++ o;
  tk_len : (length (g_out s') <= OUTSIZE)%nat;
  tk_rest : s' = gdb_put s (gdb_os s') (g_out s');
}.

Lemma gdb_put_put s o l o' l' : gdb_put (gdb_put s o l) o' l' = gdb_put s o' l'.
Proof. done. Qed.

Lemma gdb_put_id s : gdb_put s (gdb_os s) (g_out s) = s.
Proof. destruct s as [[cs d [b m k [a f r [me tl o p]]] fd rl sg fl pe n] ? ? ? ?]. done. Qed.

Lemma talk_fd s i o s' : talk s i o s' -> socket_fd s' = socket_fd s.
Proof. intros Ht. by rewrite (tk_rest _ _ _ _ Ht). Qed.

Lemma talk_refl s : (length (g_out s) <= OUTSIZE)%nat -> talk s [] [] s.
Proof. intros Hl. constructor; [done|by rewrite app_nil_r|done|by rewrite gdb_put_id]. Qed.

Lemma talk_trans s i o t i' o' u : talk s i o t -> talk t i' o' u -> talk s (i ++ i') (o ++ o') u.
Proof.
  intros Ht Hu. pose proof (talk_fd _ _ _ _ Ht) as Ef. destruct Ht as [A1 A2 A3 A4], Hu as [B1 B2 B3 B4].
  rewrite Ef in B1. constructor; [by rewrite A1, B1, app_assoc|by rewrite B2, A2, app_assoc|done|].
  rewrite B4, A4. by rewrite gdb_put_put.
Qed.

Lemma flush_spec s :
  (length (g_out s) <= OUTSIZE)%nat ->
  wp no_fault flush_debug_buffer (fun _ s' => talk s [] [] s' /\ g_out s' = []) s.
Proof.
  intros Hl. unfold flush_debug_buffer. apply wp_bind, wp_gets, wp_bind. eapply wp_mono.
  { apply (wp_while no_fault
      (fun l t => t = gdb_put s (gdb_os t) (g_out s) /\ (length l <= OUTSIZE)%nat /\
         wire_in (gdb_os t) (socket_fd s) = wire_in (gdb_os s) (socket_fd s) /\
         wire_out (gdb_os t) (socket_fd s) ++ l = emitted s)
      (fun l _ => Z.of_nat (length l))
      (fun _ t => t = gdb_put s (gdb_os t) (g_out s) /\
         wire_in (gdb_os t) (socket_fd s) = wire_in (gdb_os s) (socket_fd s) /\
         wire_out (gdb_os t) (socket_fd s) = emitted s)).
    - intros l t (Et & Hlen & Hin & Hout). split; [lia|]. unfold flush_step.
      destruct (Nat.eqb_spec (length l) 0) as [E0|E0].
      { apply nil_length_inv in E0 as ->. rewrite app_nil_r in Hout. by apply wp_ret. }
      apply wp_bind, wp_gets. assert (socket_fd t = socket_fd s) as -> by (by rewrite Et).
      apply wp_bind, on_vm_os_spec. unfold OUTSIZE in Hlen.
      destruct (send_ok (gdb_os t) (socket_fd s) l) as (n & o' & E & Hn & Ho & Hi); [by intros ->|lia|].
      rewrite E. cbn [fst snd]. rewrite s32_small by lia.
      apply wp_bind, wp_assert; [intros _|intros Hf; apply negb_false_iff, Z.eqb_eq in Hf; lia].
      replace (Z.of_nat n <? 0) with false by (symmetry; lia).
      replace (Z.of_nat (length l) <? Z.of_nat n) with false by (symmetry; lia). cbn [orb]. apply wp_ret.
      rewrite Nat2Z.id. split; [|rewrite length_drop; lia].
      split; [rewrite Et; done|]. split; [rewrite length_drop; unfold OUTSIZE; lia|].
      change (gdb_os (gdb_put t o' (g_out t))) with o'. split; [by rewrite Hi|].
      by rewrite Ho, <- app_assoc, take_drop.
    - split; [by rewrite gdb_put_id|]. done.
    - unfold OUTSIZE in Hl. lia. }
  cbv beta. intros _ t (Et & Hin & Hout). apply wp_modify. split; [|done].
  assert (socket_fd t = socket_fd s) as Ef by (by rewrite Et).
  constructor; [done| |cbn; lia|rewrite Et; done].
  unfold emitted. cbn [socket_fd g_out]. change (gdb_os _) with (gdb_os t) at 1. rewrite Ef, app_nil_r, app_nil_r.
  exact Hout.
Qed.

Lemma put_char_spec s c :
  (length (g_out s) <= OUTSIZE)%nat -> wp no_fault (put_debug_char c) (fun _ s' => talk s [] [c] s') s.
Proof.
  intros Hl. unfold put_debug_char. apply wp_bind, wp_gets, wp_bind.
  apply (wp_mono _ _ (fun _ t => talk s [] [] t /\ (length (g_out t) < OUTSIZE)%nat)).
  - destruct (Nat.eqb_spec (length (g_out s)) OUTSIZE) as [E|E].
    + eapply wp_mono; [by apply flush_spec|]. cbv beta. intros _ t (Ht & E0). split; [done|].
      rewrite E0. unfold OUTSIZE. cbn. lia.
    + apply wp_ret. split; [by apply talk_refl|lia].
  - cbv beta. intros _ t (Ht & Hlt). apply wp_bind, wp_gets, wp_modify.
    apply (talk_trans s [] [] t [] [c]); [done|].
    constructor; [done| |cbn [g_out]; rewrite length_app; cbn; lia|by rewrite <- (gdb_put_id t) at 1].
    unfold emitted. cbn [socket_fd g_out]. by rewrite <- app_assoc.
Qed.

Lemma put_chars_spec l : forall s,
  (length (g_out s) <= OUTSIZE)%nat -> wp no_fault (put_chars l) (fun _ s' => talk s [] l s') s.
Proof.
  induction l as [|c l IH]; intros s Hl; cbn [put_chars]; [apply wp_ret; by apply talk_refl|].
  apply wp_bind. eapply wp_mono; [by apply put_char_spec|]. cbv beta. intros _ t Ht.
  eapply wp_mono; [apply IH, Ht|]. cbv beta. intros _ u Hu. exact (talk_trans _ _ _ _ _ _ _ Ht Hu).
Qed.

Lemma get_char_spec s c l :
  (length (g_out s) <= OUTSIZE)%nat -> wire_in (gdb_os s) (socket_fd s) = c :: l ->
  wp no_fault get_debug_char (fun r s' => r = c /\ talk s [c] [] s' /\ wire_in (gdb_os s') (socket_fd s') = l /\ g_out s' = g_out s) s.
Proof.
  intros Hl Hin. unfold get_debug_char. apply wp_bind, wp_gets, on_vm_os_spec.
  destruct (recv_ok _ _ _ _ Hin) as (o' & E & Hi & Ho). rewrite E. cbn [fst snd]. split; [done|].
  split; [|split; [exact Hi|done]]. constructor; [by rewrite Hin; cbn; rewrite Hi| |done|done].
  unfold emitted. change (gdb_os (gdb_put s o' (g_out s))) with o'. cbn [socket_fd g_out gdb_put].
  by rewrite Ho, app_nil_r.
Qed.
(** A packet of the remote protocol. *)
Definition packet (l : list Z) : list Z :=
  chr "$" :: l ++ [chr "#"; hexchar (Z.shiftr (checksum l) 4); hexchar (checksum l mod 16)].

Lemma checksum_byte l : is_byte (checksum l).
Proof.
  unfold checksum, is_byte. destruct l as [|c l] using rev_ind; [done|]. rewrite fold_left_app. apply u8_range.
Qed.

(** Saying a character after a conversation. *)
Lemma talk_put {B} s i o t c (k : unit -> M (gdb os T) B) (Q : B -> gdb os T -> Prop) :
  talk s i o t -> (forall u, talk s i (o ++ [c]) u -> wp no_fault (k tt) Q u) ->
  wp no_fault (bind (put_debug_char c) k) Q t.
Proof.
  intros Ht HQ. apply wp_bind. eapply wp_mono; [apply put_char_spec, Ht|]. cbv beta. intros [] u Hu.
  apply HQ. rewrite <- (app_nil_r i). exact (talk_trans _ _ _ _ _ _ _ Ht Hu).
Qed.

(** Reading one. *)
Lemma talk_get {B} s i o t c l (k : Z -> M (gdb os T) B) (Q : B -> gdb os T -> Prop) :
  talk s i o t -> wire_in (gdb_os t) (socket_fd t) = c :: l ->
  (forall u, talk s (i ++ [c]) o u -> wire_in (gdb_os u) (socket_fd u) = l -> g_out u = g_out t ->
             wp no_fault (k c) Q u) ->
  wp no_fault (bind get_debug_char k) Q t.
Proof.
  intros Ht Hin HQ. apply wp_bind. eapply wp_mono; [apply (get_char_spec t c l); [apply Ht|done]|].
  cbv beta. intros r u (-> & Hu & Hl & Eg). apply HQ; [|done|done]. rewrite <- (app_nil_r o).
  exact (talk_trans _ _ _ _ _ _ _ Ht Hu).
Qed.

Lemma talk_flush {B} s i o t (k : unit -> M (gdb os T) B) (Q : B -> gdb os T -> Prop) :
  talk s i o t -> (forall u, talk s i o u -> g_out u = [] -> wire_in (gdb_os u) (socket_fd u) = wire_in (gdb_os t) (socket_fd t) ->
                     wp no_fault (k tt) Q u) ->
  wp no_fault (bind flush_debug_buffer k) Q t.
Proof.
  intros Ht HQ. apply wp_bind. eapply wp_mono; [apply flush_spec, Ht|]. cbv beta. intros [] u [Hu E].
  apply HQ; [|done|].
  - rewrite <- (app_nil_r i), <- (app_nil_r o). exact (talk_trans _ _ _ _ _ _ _ Ht Hu).
  - rewrite (talk_fd _ _ _ _ Hu). symmetry. exact (tk_in _ _ _ _ Hu).
Qed.

Lemma talk_wire s i o t : talk s i o t -> wire_in (gdb_os s) (socket_fd s) = i ++ wire_in (gdb_os t) (socket_fd t).
Proof. intros Ht. rewrite (talk_fd _ _ _ _ Ht). apply Ht. Qed.

Lemma reply_step_spec s l c w :
  (length (g_out s) <= OUTSIZE)%nat -> wire_in (gdb_os s) (socket_fd s) = c :: w ->
  wp no_fault (reply_step l tt)
    (fun r s' => r = (if c =? chr "+" then inr tt else inl tt) /\ talk s [c] (packet l) s' /\ g_out s' = [] /\
                 wire_in (gdb_os s') (socket_fd s') = w) s.
Proof.
  intros Hl Hin. unfold reply_step. eapply talk_put; [by apply talk_refl|]. intros s1 H1.
  apply wp_bind. eapply wp_mono; [apply put_chars_spec, H1|]. cbv beta. intros _ s2 H2.
  pose proof (talk_trans _ _ _ _ _ _ _ H1 H2) as H3. cbn [app] in H3.
  do 3 (eapply talk_put; [eassumption|]; clear H3; intros ? H3). eapply talk_flush; [eassumption|].
  intros s4 H4 E4 Ew. eapply (talk_get s _ _ s4 c w); [eassumption| |].
  { pose proof (talk_wire _ _ _ _ H3) as Hw. rewrite Hin in Hw. cbn [app] in Hw. congruence. }
  intros s5 H5 Hw5 E5. rewrite E4 in E5. unfold packet. cbn [app] in H5. rewrite <- !app_assoc in H5.
  by destruct (c =? chr "+"); apply wp_ret.
Qed.

(** The bytes before the acknowledgement are not one. *)
Lemma put_reply_spec s l naks w :
  (length (g_out s) <= OUTSIZE)%nat -> wire_in (gdb_os s) (socket_fd s) = naks ++ chr "+" :: w ->
  Forall (fun c => c <> chr "+") naks -> Z.of_nat (length naks) + Z.of_nat (length w) + 1 < 2 ^ 64 ->
  wp no_fault (put_reply l)
    (fun _ s' => talk s (naks ++ [chr "+"]) (concat (replicate (S (length naks)) (packet l))) s' /\ g_out s' = []) s.
Proof.
  intros Hl Hin Hn Hlen. unfold put_reply.
  apply (wp_while no_fault
    (fun _ t => exists a b, naks = a ++ b /\ talk s a (concat (replicate (length a) (packet l))) t /\
       wire_in (gdb_os t) (socket_fd t) = b ++ chr "+" :: w)
    (fun _ t => Z.of_nat (length (wire_in (gdb_os t) (socket_fd t))))).
  - intros [] t (a & b & E & Ht & Hw). split; [lia|].
    assert (exists c b', b ++ chr "+" :: w = c :: b') as (c & b' & Eb) by (destruct b; by eexists _, _).
    eapply wp_mono; [apply (reply_step_spec t l c b'); [apply Ht|by rewrite Hw]|].
    cbv beta. intros r u (-> & Hu & Eg & Hwu).
    pose proof (talk_trans _ _ _ _ _ _ _ Ht Hu) as Hs.
    assert (concat (replicate (length a) (packet l)) ++ packet l = concat (replicate (S (length a)) (packet l))) as Ec.
    { rewrite replicate_S_end, concat_app. cbn [concat]. by rewrite app_nil_r. }
    rewrite Ec in Hs. destruct b as [|c0 b]; cbn [app] in Eb; injection Eb as <- <-.
    + rewrite Z.eqb_refl. rewrite E, app_nil_r. by split.
    + assert (c0 <> chr "+") as Hc.
      { rewrite E in Hn. apply Forall_app in Hn as [_ Hn]. by apply Forall_cons in Hn as [Hn _]. }
      apply Z.eqb_neq in Hc as ->. split.
      * exists (a ++ [c0]), b. split; [by rewrite E, <- app_assoc|]. split; [|done].
        rewrite length_app. cbn [length]. by rewrite Nat.add_1_r.
      * rewrite Hw, Hwu. cbn [length app]. lia.
  - exists [], naks. split; [done|]. split; [by apply talk_refl|done].
  - rewrite Hin, length_app. cbn [length]. lia.
Qed.

(** *** Reading a command *)

Lemma wait_dollar_spec s junk w :
  (length (g_out s) <= OUTSIZE)%nat -> wire_in (gdb_os s) (socket_fd s) = junk ++ chr "$" :: w ->
  Forall (fun c => c <> chr "$") junk -> Z.of_nat (length junk) + Z.of_nat (length w) + 1 < 2 ^ 64 ->
  wp no_fault (while_ wait_dollar tt)
    (fun _ t => talk s (junk ++ [chr "$"]) [] t /\ wire_in (gdb_os t) (socket_fd t) = w) s.
Proof.
  intros Hl Hin Hn Hlen.
  apply (wp_while no_fault
    (fun _ t => exists a b, junk = a ++ b /\ talk s a [] t /\ wire_in (gdb_os t) (socket_fd t) = b ++ chr "$" :: w)
    (fun _ t => Z.of_nat (length (wire_in (gdb_os t) (socket_fd t))))).
  - intros [] t (a & [|c b] & E & Ht & Hw); (split; [lia|]); unfold wait_dollar; cbn [app] in Hw.
    + eapply talk_get; [eassumption|exact Hw|]. intros u Hu Hwu _. rewrite Z.eqb_refl. apply wp_ret.
      rewrite app_nil_r in E. by rewrite E.
    + eapply talk_get; [eassumption|exact Hw|]. intros u Hu Hwu _.
      assert (c <> chr "$") as Hc.
      { rewrite E in Hn. apply Forall_app in Hn as [_ Hn]. by apply Forall_cons in Hn as [Hn _]. }
      apply Z.eqb_neq in Hc as ->. apply wp_ret. split.
      * exists (a ++ [c]), b. split; [by rewrite E, <- app_assoc|]. by split.
      * rewrite Hw, Hwu. cbn [length app]. lia.
  - exists [], junk. split; [done|]. split; [by apply talk_refl|done].
  - rewrite Hin, length_app. cbn [length]. lia.
Qed.

(** The buffer with a string at its start. *)
Definition with_command (buffer cmd : list Z) : list Z := cmd ++ 0 :: drop (S (length cmd)) buffer.

Lemma insert_front (a l : list Z) x :
  (length a < length l)%nat -> <[length a := x]> (a ++ drop (length a) l) = a ++ x :: drop (S (length a)) l.
Proof.
  intros Hl. destruct (lookup_lt_is_Some_2 l (length a) Hl) as [y Hy].
  rewrite (drop_S l y (length a) Hy), insert_app_r_alt by lia. by rewrite Nat.sub_diag.
Qed.

Lemma read_cmd_spec s buffer cmd w :
  (length (g_out s) <= OUTSIZE)%nat -> wire_in (gdb_os s) (socket_fd s) = cmd ++ chr "#" :: w ->
  Forall (fun c => c <> chr "#") cmd -> (length cmd < length buffer)%nat ->
  Z.of_nat (length cmd) + Z.of_nat (length w) + 1 < 2 ^ 64 ->
  wp no_fault (read_cmd_into_buffer buffer)
    (fun r t => r = (with_command buffer cmd, checksum cmd) /\ talk s (cmd ++ [chr "#"]) [] t /\
                wire_in (gdb_os t) (socket_fd t) = w) s.
Proof.
  intros Hl Hin Hn Hb Hlen. unfold read_cmd_into_buffer. apply wp_bind. eapply wp_mono.
  { apply (wp_while no_fault
      (fun '(buf, n, sum) t => exists a b, cmd = a ++ b /\ n = length a /\ buf = a ++ drop (length a) buffer /\
         sum = checksum a /\ talk s a [] t /\ wire_in (gdb_os t) (socket_fd t) = b ++ chr "#" :: w)
      (fun _ t => Z.of_nat (length (wire_in (gdb_os t) (socket_fd t))))
      (fun '(buf, n, sum) t => n = length cmd /\ buf = cmd ++ drop (length cmd) buffer /\ sum = checksum cmd /\
         talk s (cmd ++ [chr "#"]) [] t /\ wire_in (gdb_os t) (socket_fd t) = w)).
    - intros [[buf n] sum] t (a & [|c b] & E & -> & -> & -> & Ht & Hw); (split; [lia|]); unfold read_cmd_step; cbn [app] in Hw.
      + eapply talk_get; [eassumption|exact Hw|]. intros u Hu Hwu _. rewrite Z.eqb_refl. apply wp_ret.
        rewrite app_nil_r in E. by rewrite E.
      + eapply talk_get; [eassumption|exact Hw|]. intros u Hu Hwu _.
        assert (c <> chr "#") as Hc.
        { rewrite E in Hn. apply Forall_app in Hn as [_ Hn]. by apply Forall_cons in Hn as [Hn _]. }
        apply Z.eqb_neq in Hc as ->. rewrite E, length_app in Hb. cbn [length] in Hb.
        rewrite length_app, length_drop. replace (length a <? _)%nat with true by (symmetry; apply Nat.ltb_lt; lia).
        apply wp_ret. split.
        * exists (a ++ [c]), b. split; [by rewrite E, <- app_assoc|]. rewrite length_app. cbn [length].
          rewrite Nat.add_1_r. split; [done|]. split; [rewrite insert_front by lia; by rewrite <- app_assoc|].
          split; [unfold checksum; by rewrite fold_left_app|]. by split.
        * rewrite Hw, Hwu. cbn [length app]. lia.
    - exists [], cmd. split; [done|]. split; [done|]. split; [done|]. split; [done|]. split; [by apply talk_refl|done].
    - rewrite Hin, length_app. cbn [length]. lia. }
  cbv beta. intros [[buf n] sum] t (-> & -> & -> & Ht & Hw).
  rewrite length_app, length_drop. replace (length cmd <? _)%nat with true by (symmetry; apply Nat.ltb_lt; lia).
  apply wp_ret. rewrite insert_front by lia. by split.
Qed.

Lemma get_command_spec s buffer junk cmd w x :
  (length (g_out s) <= OUTSIZE)%nat -> wire_in (gdb_os s) (socket_fd s) = junk ++ packet cmd ++ w ->
  Forall (fun c => c <> chr "$") junk -> Forall (fun c => c <> chr "#") cmd ->
  (length cmd < length buffer)%nat -> Z.of_nat (length junk + length (packet cmd) + length w) < 2 ^ 64 ->
  with_command buffer cmd !! 2%nat = Some x -> x <> chr ":" ->
  wp no_fault (get_command_step buffer)
    (fun r t => r = inr (with_command buffer cmd) /\ talk s (junk ++ packet cmd) [chr "+"] t /\ g_out t = [] /\
                wire_in (gdb_os t) (socket_fd t) = w) s.
Proof.
  intros Hl Hin Hj Hn Hb Hlen Hx Hc. unfold get_command_step. unfold packet in Hin, Hlen.
  rewrite length_cons, length_app in Hlen. cbn [length] in Hlen.
  set (k1 := hexchar (Z.shiftr (checksum cmd) 4)) in *. set (k2 := hexchar (checksum cmd mod 16)) in *.
  apply wp_bind. eapply wp_mono.
  { apply (wait_dollar_spec s junk (cmd ++ [chr "#"; k1; k2] ++ w)); [done| |done|rewrite !length_app; cbn [length]; lia].
    rewrite Hin. cbn [app]. by rewrite <- app_assoc. }
  cbv beta. intros _ s1 (H1 & Hw1). apply wp_bind. eapply wp_mono.
  { apply (read_cmd_spec s1 buffer cmd (k1 :: k2 :: w)); [apply H1|exact Hw1|done|done|cbn [length]; lia]. }
  cbv beta. intros r s2 (-> & H2 & Hw2). pose proof (talk_trans _ _ _ _ _ _ _ H1 H2) as H3.
  unfold validate_checksum. apply wp_bind. eapply talk_get; [exact H3|exact Hw2|]. intros s3 H4 Hw3 _.
  eapply talk_get; [exact H4|exact Hw3|]. intros s4 H5 Hw4 _. apply wp_ret.
  unfold k1, k2. rewrite hex_byte_hexchar by apply checksum_byte. rewrite Z.eqb_refl. fold k1 k2.
  eapply talk_put; [exact H5|]. intros s5 H6. apply wp_bind, wp_at; [|by rewrite Hx]. rewrite Hx. intros y [= <-].
  apply Z.eqb_neq in Hc as ->. apply wp_bind, wp_ret. eapply talk_flush; [exact H6|]. intros s6 H7 Eg Ew.
  apply wp_ret. split; [done|]. split; [|split; [done|]].
  - unfold packet. cbn [app] in H7. rewrite <- !app_assoc in H7. cbn [app] in H7. exact H7.
  - rewrite Ew. pose proof (talk_wire _ _ _ _ H5) as A. pose proof (talk_wire _ _ _ _ H6) as B.
    rewrite A in B. apply app_inv_head in B. congruence.
Qed.
End Packets.

(** C38. A reply reaches the debugger. When the debugger answers some bytes that are
    not [+] and then [+], [put_reply] returns; what it was sent is what was
    still in the buffer and then the packet of the reply, once more for every
    answer that was not [+]; the [+] is the last byte that is read. *)
Theorem reply_delivered {os T} `{SocketLaws os} (s : gdb os T) l naks w :
  (length (g_out s) <= OUTSIZE)%nat ->
  wire_in (gdb_os s) (socket_fd s) = naks ++ chr "+" :: w -> Forall (fun c => c <> chr "+") naks ->
  Z.of_nat (length naks) + Z.of_nat (length w) + 1 < 2 ^ 64 ->
  exists s', put_reply l s = Ok (tt, s') /\ s' = gdb_put s (gdb_os s') [] /\
    wire_in (gdb_os s') (socket_fd s) = w /\
    wire_out (gdb_os s') (socket_fd s) =
      wire_out (gdb_os s) (socket_fd s) ++ g_out s ++ concat (replicate (S (length naks)) (packet l)).
Proof.
  intros Hl Hin Hn Hlen.
  destruct (wp_total_inv _ _ _ (put_reply_spec s l naks w Hl Hin Hn Hlen)) as ([] & s' & E & Ht & Eg).
  exists s'. split; [exact E|]. pose proof (talk_fd _ _ _ _ Ht) as Ef. destruct Ht as [Hi Ho _ Hr].
  split; [by rewrite Hr, Eg at 1|]. split.
  - rewrite Hi in Hin. replace (naks ++ chr "+" :: w) with ((naks ++ [chr "+"]) ++ w) in Hin by (by rewrite <- app_assoc).
    by apply app_inv_head in Hin.
  - unfold emitted in Ho. rewrite Eg, app_nil_r, Ef in Ho. by rewrite Ho, app_assoc.
Qed.

(** C37. A packet is received as it was framed. Whatever precedes it without a [$],
    [get_command] on a packet of the stub's own framing leaves exactly the
    command, terminated, at the start of the buffer and the rest of the buffer
    as it was, answers [+] and reads nothing behind the packet, for every
    command without a [#] that fits in the buffer (and is not taken for one
    with a thread id). *)
Theorem command_received {os T} `{SocketLaws os} (s : gdb os T) buffer junk cmd w x :
  (length (g_out s) <= OUTSIZE)%nat -> wire_in (gdb_os s) (socket_fd s) = junk ++ packet cmd ++ w ->
  Forall (fun c => c <> chr "$") junk -> Forall (fun c => c <> chr "#") cmd ->
  (length cmd < length buffer)%nat -> Z.of_nat (length junk + length (packet cmd) + length w) < 2 ^ 64 ->
  with_command buffer cmd !! 2%nat = Some x -> x <> chr ":" ->
  exists s', get_command buffer s = Ok (with_command buffer cmd, s') /\ s' = gdb_put s (gdb_os s') [] /\
    wire_in (gdb_os s') (socket_fd s) = w /\
    wire_out (gdb_os s') (socket_fd s) = wire_out (gdb_os s) (socket_fd s) ++ g_out s ++ [chr "+"].
Proof.
  intros Hl Hin Hj Hn Hb Hlen Hx Hc.
  destruct (wp_total_inv _ _ _ (get_command_spec s buffer junk cmd w x Hl Hin Hj Hn Hb Hlen Hx Hc))
    as (r & s' & E & -> & Ht & Eg & Hw). exists s'. pose proof (talk_fd _ _ _ _ Ht) as Ef. rewrite Ef in Hw.
  destruct Ht as [Hi Ho _ Hr]. split.
  { apply while_rounds. exists 0%nat, buffer, s. split; [done|]. split; [constructor|exact E]. }
  split; [by rewrite Hr, Eg at 1|]. split; [done|].
  unfold emitted in Ho. rewrite Eg, app_nil_r, Ef in Ho. by rewrite Ho, app_assoc.
Qed.

(** A socket that takes three bytes at a time. *)
Record wire_os := mkWire { w_in : list Z; w_out : list Z }.

#[export] Instance wire_SocketOS : SocketOS wire_os := {|
  io_socket o := (3, o);
  io_setsockopt o _ := o;
  io_getprotobyname o := (true, o);
  io_bind o _ _ := (0, o);
  io_listen o _ := (0, o);
  io_accept o _ := (4, o);
  io_send o _ l := (Z.of_nat (Nat.min 3 (length l)), mkWire (w_in o) (w_out o ++ take (Nat.min 3 (length l)) l));
  io_recv o _ := (List.hd 0 (w_in o), mkWire (List.tl (w_in o)) (w_out o));
|}.

#[export] Instance wire_SocketLaws : SocketLaws wire_os.
Proof.
  refine {| wire_in o _ := w_in o; wire_out o _ := w_out o |}.
  - intros o fd l Hl _. eexists _, _. split; [reflexivity|].
    destruct l as [|c l]; [done|]. cbn [length]. split; [lia|done].
  - intros [i o] fd c l E. cbn in E. subst i. by eexists.
Defined.

Definition wire_gdb (input : list Z) : gdb wire_os unit :=
  mkGdb (mkVM [] false (mkHM [] [] 0 (mkRM [] [] (mkStore ∅ 0%nat)
                          (mkPst (fun _ => 0) tt (mkWire input []) (mkPager 3 [] 0 0 0 0 []))))
              3 [] [] (mkFlat None 0) [] 0) 4 [] (-1) 0.

Lemma reply_delivered_witness :
  exists s', put_reply (str "OK") (wire_gdb (str "-+$")) = Ok (tt, s') /\ w_out (gdb_os s') = str "$OK#9a$OK#9a".
Proof.
  destruct (reply_delivered (wire_gdb (str "-+$")) (str "OK") (str "-") (str "$")) as (s' & E & _ & _ & Ho).
  - cbn. lia.
  - reflexivity.
  - by apply Forall_singleton.
  - by vm_compute.
  - exists s'. exact (conj E Ho).
Defined.

Lemma command_received_witness :
  exists s', get_command (replicate 255 0) (wire_gdb (str "+$m40,2#2fx")) =
             Ok (str "m40,2" ++ replicate 250 0, s') /\ w_out (gdb_os s') = str "+".
Proof.
  destruct (command_received (wire_gdb (str "+$m40,2#2fx")) (replicate 255 0) (str "+") (str "m40,2") (str "x") (chr "0"))
    as (s' & E & _ & _ & Ho).
  - cbn. lia.
  - reflexivity.
  - by apply Forall_singleton.
  - repeat (apply Forall_cons; split; [by vm_compute|]). by apply Forall_nil.
  - cbn. lia.
  - by vm_compute.
  - reflexivity.
  - by vm_compute.
  - exists s'. exact (conj E Ho).
Defined.
