(* ===== verification/Lifecycle.v ===== *)
(** * From [/dev/kvm] to a machine and back: [init], [cleanup], [create]

    [init], [elkvm_init] and [elkvm_cleanup] of [src/kvm.cc]; the making of the
    machine object and the public constructors of [src/vm.cc]; the accessors of
    [VM] that only a monitor uses.  [KvmDev] is the interface to the device
    file; the options are [struct elkvm_opts] of [include/elkvm/kvm.h]. *)

From S2P Require Import Prelude Memory PageMath HostOS Tlb Pager Region RegionManager Registers Mappings Heap Vcpu Descriptors Vm Handlers Syscall SyscallStubs Hypercall Environ Elf.
From stdpp Require Import strings.
Local Open Scope Z_scope.

Definition KVM_EXPECT_VERSION : Z := 12.
Definition KVM_DEV_PATH : string := "/dev/kvm".
Definition ENOPROTOOPT : Z := 92.
Definition VM_MODE_X86_64 : Z := 3.

(** The device file.  An ioctl answers its result. *)
Class KvmDev (os : Type) := {
  (** [open(path, O_RDWR)]. *)
  dev_open : os -> string -> Z * os;
  dev_api_version : os -> Z -> Z * os;
  dev_vcpu_mmap_size : os -> Z -> Z * os;
  dev_create_vm : os -> Z -> Z * os;
  (** [KVM_GET_MSR_INDEX_LIST] with room for a number of indices. *)
  dev_msr_index_list : os -> Z -> nat -> (Z * list Z) * os;
  (** The [cpuid] instruction: function and count to [eax], [ebx], [ecx], [edx]. *)
  cpuid : os -> Z -> Z -> Z * Z * Z * Z;
}.

(** [struct elkvm_opts]. *)
Record elkvm_opts := mkOpts {
  opt_argc : Z;
  opt_argv : Z;
  opt_environ : Z;
  opt_debug : bool;
  opt_fd : Z;
  opt_run_struct_size : Z;
}.

Definition with_args (o : elkvm_opts) (c v e : Z) : elkvm_opts :=
  mkOpts c v e (opt_debug o) (opt_fd o) (opt_run_struct_size o).
Definition with_debug_opt (o : elkvm_opts) (b : bool) : elkvm_opts :=
  mkOpts (opt_argc o) (opt_argv o) (opt_environ o) b (opt_fd o) (opt_run_struct_size o).
Definition with_fd (o : elkvm_opts) (f : Z) : elkvm_opts :=
  mkOpts (opt_argc o) (opt_argv o) (opt_environ o) (opt_debug o) f (opt_run_struct_size o).
Definition with_run_size (o : elkvm_opts) (n : Z) : elkvm_opts :=
  mkOpts (opt_argc o) (opt_argv o) (opt_environ o) (opt_debug o) (opt_fd o) n.

Section Device.
Context {os : Type} `{MonitorOS os} `{KvmDev os}.
(** The host and the options a monitor holds. *)
Local Abbreviation DEV := (M (os * elkvm_opts)).

Definition dev_io {A} (f : os -> A * os) : DEV A :=
  fun s => let '(a, o) := f s.1 in Ok (a, (o, s.2)).
Definition dev_errno : DEV Z := gets (fun s => errno s.1).
Definition opts : DEV elkvm_opts := gets snd.
Definition set_opts (f : elkvm_opts -> elkvm_opts) : DEV unit := modify (fun s => (s.1, f s.2)).

(** [KVM::init].  The fields are [int]s. *)
Definition init : DEV Z :=
  let! fd := dev_io (fun o => dev_open o KVM_DEV_PATH) in
  do! set_opts (fun p => with_fd p fd) in
  if fd <? 0 then let! e := dev_errno in ret (- e) else
  let! version := dev_io (fun o => dev_api_version o fd) in
  if negb (version =? KVM_EXPECT_VERSION) then ret (- ENOPROTOOPT) else
  let! size := dev_io (fun o => dev_vcpu_mmap_size o fd) in
  do! set_opts (fun p => with_run_size p size) in
  if size <=? 0 then ret (- EIO) else
  ret 0.

Definition elkvm_init (argc argv environ : Z) : DEV Z :=
  do! set_opts (fun p => with_args p argc argv environ) in
  init.

Definition elkvm_cleanup : DEV Z :=
  let! p := opts in
  do! dev_io (fun o => (tt, io_close o (opt_fd p))) in
  do! set_opts (fun p => with_fd p 0) in
  do! set_opts (fun p => with_run_size p 0) in
  ret 0.

(** The indices that [elkvm_dump_valid_msrs] prints, with its result. *)
Definition elkvm_dump_valid_msrs : DEV (Z * list Z) :=
  let! p := opts in
  let! '(err, indices) := dev_io (fun o => dev_msr_index_list o (opt_fd p) 255) in
  if err <? 0 then let! e := dev_errno in ret (- e, []) else
  ret (0, indices).

Definition CPUID_EXT_VMX : Z := Z.shiftl 1 5.

Definition host_supports_vmx : DEV bool :=
  gets (fun s => let '(_, _, ecx, _) := cpuid s.1 1 0 in ctrue (Z.land ecx CPUID_EXT_VMX)).
End Device.

(** ** The machine object *)

Section Create.
Context {os T : Type} `{HostOS os} `{FileOS os} `{KvmOS os} `{MonitorOS os} `{KvmDev os} `{ElfLib os} `{TranslationCache T}.

(** A monitor before it has a machine: memory, the static lookaside buffer, the
    host, the options and the global list [vmi] of machines, by descriptor. *)
Record monitor := mkMonitor {
  mo_mem : mem;
  mo_tlb : T;
  mo_os : os;
  mo_opts : elkvm_opts;
  mo_vmi : list Z;
}.

(** A monitor with a machine: the members of [VM] that the other components do
    not read are kept here. *)
Record machine := mkMachine {
  ma_vm : vm os T;
  ma_opts : elkvm_opts;
  ma_vmi : list Z;
  _argc : Z;
  _argv : Z;
  _environ : Z;
  _run_struct_size : Z;
  ma_hypercall_handlers : hypercall_handlers (vm os T);
  ma_syscall_handlers : elkvm_handlers os (vm os T);
}.

Definition on_dev {A} (c : M (os * elkvm_opts) A) : M monitor A :=
  zoom (fun s => (mo_os s, mo_opts s))
       (fun p s => mkMonitor (mo_mem s) (mo_tlb s) p.1 p.2 (mo_vmi s)) c.

Definition with_vm (s : machine) (v : vm os T) : machine :=
  mkMachine v (ma_opts s) (ma_vmi s) (_argc s) (_argv s) (_environ s) (_run_struct_size s)
            (ma_hypercall_handlers s) (ma_syscall_handlers s).
Definition with_opts (s : machine) (p : elkvm_opts) : machine :=
  mkMachine (ma_vm s) p (ma_vmi s) (_argc s) (_argv s) (_environ s) (_run_struct_size s)
            (ma_hypercall_handlers s) (ma_syscall_handlers s).
Definition machine_vm {A} (c : M (vm os T) A) : M machine A := zoom ma_vm (fun v s => with_vm s v) c.

(** The device operations on the host of a machine. *)
Definition vm_os (v : vm os T) : os := p_os (rm_pager (hm_rm (v_hm v))).
Definition set_vm_os (o : os) (v : vm os T) : vm os T :=
  let h := v_hm v in let r := hm_rm h in let p := rm_pager r in
  with_hm v (mkHM (mappings_for_brk h) (mappings_for_mmap h) (curbrk h)
                  (mkRM (allocated_regions r) (freelists r) (rm_store r)
                        (mkPst (p_mem p) (p_tlb p) o (p_pager p)))).
Definition on_machine_dev {A} (c : M (os * elkvm_opts) A) : M machine A :=
  zoom (fun s => (vm_os (ma_vm s), ma_opts s))
       (fun p s => with_opts (with_vm s (set_vm_os p.1 (ma_vm s))) p.2) c.

Section Handlers.
Variable hyp : hypercall_handlers (vm os T).
Variable hs : elkvm_handlers os (vm os T).

(** [create_vm_object]: [inl] is the null pointer. *)
Definition create_vm_object (s : monitor) : res (monitor + machine) :=
  let p := mo_opts s in
  let '(vmfd, o) := dev_create_vm (mo_os s) (opt_fd p) in
  if vmfd <? 0 then Ok (inl (mkMonitor (mo_mem s) (mo_tlb s) o p (mo_vmi s))) else
  let '(run_struct_size, o) := dev_vcpu_mmap_size o (opt_fd p) in
  if run_struct_size <? 0 then Ok (inl (mkMonitor (mo_mem s) (mo_tlb s) o p (mo_vmi s))) else
  match VM_new vmfd (if opt_debug p then 1 else 0) (mo_mem s) (mo_tlb s) o with
  | Fail f => Fail f
  | Ok (_, v) =>
      Ok (inr (mkMachine v p (mo_vmi s ++ [vmfd]) (opt_argc p) (opt_argv p) (opt_environ p)
                         run_struct_size hyp hs))
  end.

(** A machine object and what is then done to it; the null pointer fails the
    assertion of [create_virtual_hardware]. *)
Definition create_with (debug : bool) (c : elkvm_opts -> M (vm os T) unit) (s : monitor) : res machine :=
  match create_vm_object (mkMonitor (mo_mem s) (mo_tlb s) (mo_os s) (with_debug_opt (mo_opts s) debug)
                                    (mo_vmi s)) with
  | Fail f => Fail f
  | Ok (inl _) => Fail Assert
  | Ok (inr m) =>
      match c (ma_opts m) (ma_vm m) with
      | Fail f => Fail f
      | Ok (_, v) => Ok (with_vm m v)
      end
  end.

Definition vm_create_raw (RES_PATH : string) (ncpus : nat) (debug : bool) : monitor -> res machine :=
  create_with debug (fun _ => elkvm_vm_create_raw RES_PATH ncpus).

Definition vm_create (RES_PATH : string) (depth : nat) (binary : string) (ncpus : nat) (debug : bool)
  : monitor -> res machine :=
  create_with debug (fun p => elkvm_vm_create RES_PATH depth ncpus (opt_argc p) (opt_argv p)
                                              (opt_environ p) binary).
End Handlers.

(** ** What else a monitor asks of a machine *)

Definition VM_run (have_udis86 : bool) : M machine Z :=
  let! s := get in
  machine_vm (run (ma_syscall_handlers s) (ma_hypercall_handlers s) have_udis86).

(** [set_debug] of [VM]. *)
Definition VM_set_debug (on : bool) : M (vm os T) unit :=
  modify (fun s => mkVM (cpus s) on (v_hm s) (v_vmfd s) (_rlimits s) (sigs s) (sighandler_cleanup s)
                        (pending_signals s) (num_pending_signals s)).

Definition get_cleanup_flat : M (vm os T) elkvm_flat := gets sighandler_cleanup.

(** [get_sig_ptr]: the entry behind the pointer. *)
Definition get_sig_ptr (sig : Z) : M (vm os T) (list Z) :=
  let! s := get in at_z (sigs s) sig.

Definition VM_eqb (lhs rhs : vm os T) : bool := v_vmfd lhs =? v_vmfd rhs.

Definition VM_chunk_count : M (vm os T) Z :=
  pager (gets (fun s => Z.of_nat (length (chunks (p_pager s))))).

(** [get_chunk] of the pager and of [VM]. *)
Definition get_chunk (num : nat) : M (vm os T) Chunk :=
  pager (let! s := get in at_ (chunks (p_pager s)) num).
End Create.
Arguments monitor : clear implicits.
Arguments machine : clear implicits.
