(* ===== verification/LifecycleTheorems.v ===== *)
(** * Theorems on initialisation, cleanup and creation

    What [elkvm_init] answers and which descriptors it leaves open, and what a
    created machine is made of.  [KvmDevLaws] states the documented behaviour of
    the device file. *)

From S2P Require Import Prelude Memory PageMath HostOS Tlb Pager Region RegionManager Registers Mappings Heap HeapTheorems Vcpu VcpuTheorems Descriptors Vm Handlers Syscall SyscallStubs Hypercall Environ Elf Lifecycle VmSpec.
From stdpp Require Import strings gmap.
Local Open Scope Z_scope.

(** ** Descriptors *)

Class KvmDevLaws (os : Type) `{MonitorOS os} `{KvmDev os} := {
  (** The descriptors that the process has open. *)
  descriptors : os -> gset Z;
  (** [open] answers a descriptor that was not open, or -1 and [errno]. *)
  dev_open_new o path fd o' :
    dev_open o path = (fd, o') -> 0 <= fd ->
    (fd ∉ descriptors o) /\ descriptors o' = {[fd]} ∪ descriptors o;
  dev_open_refused o path fd o' :
    dev_open o path = (fd, o') -> fd < 0 -> descriptors o' = descriptors o /\ 0 < errno o';
  dev_api_version_same o fd v o' :
    dev_api_version o fd = (v, o') -> descriptors o' = descriptors o;
  dev_vcpu_mmap_size_same o fd v o' :
    dev_vcpu_mmap_size o fd = (v, o') -> descriptors o' = descriptors o;
  io_close_gone o fd : descriptors (io_close o fd) = descriptors o ∖ {[fd]};
}.

(** How [elkvm_init] can end, from host [o] at host [o'] with options [p]. *)
Inductive init_result {os} `{KvmDevLaws os} (o o' : os) (p : elkvm_opts) : Z -> Prop :=
  | init_ready :
      0 <= opt_fd p -> 0 < opt_run_struct_size p -> opt_fd p ∉ descriptors o ->
      descriptors o' = {[opt_fd p]} ∪ descriptors o -> init_result o o' p 0
  | init_no_device :
      opt_fd p < 0 -> descriptors o' = descriptors o -> init_result o o' p (- errno o')
  | init_leaves_open r :
      r = - ENOPROTOOPT \/ r = - EIO ->
      0 <= opt_fd p -> opt_fd p ∉ descriptors o ->
      descriptors o' = {[opt_fd p]} ∪ descriptors o -> init_result o o' p r.

Section Init.
Context {os : Type} `{KvmDevLaws os}.

Lemma wp_dev_io {A} F (f : os -> A * os) Q s :
  (forall a o', f s.1 = (a, o') -> Q a (o', s.2)) -> wp F (dev_io f) Q s.
Proof. intros HQ. unfold wp, dev_io. destruct (f s.1) as [a o'] eqn:E. by apply HQ. Qed.

Lemma init_ends (o : os) (p : elkvm_opts) :
  wp no_fault init (fun r s => init_result o s.1 s.2 r /\ (r = 0 <->
       exists fd o1 o2 n o3, dev_open o KVM_DEV_PATH = (fd, o1) /\ 0 <= fd /\
         dev_api_version o1 fd = (KVM_EXPECT_VERSION, o2) /\ dev_vcpu_mmap_size o2 fd = (n, o3) /\ 0 < n) /\
       opt_argc s.2 = opt_argc p /\ opt_argv s.2 = opt_argv p /\ opt_environ s.2 = opt_environ p) (o, p).
Proof.
  unfold init. apply wp_bind, wp_dev_io. cbn [fst snd]. intros fd o1 E1.
  apply wp_bind, wp_modify. cbn [fst snd]. apply wp_if; intros Hfd.
  { apply Z.ltb_lt in Hfd. destruct (dev_open_refused _ _ _ _ E1 Hfd) as [Ed He].
    apply wp_bind, wp_gets, wp_ret. cbn [fst snd]. split; [by constructor|]. split; [|done]. split; [lia|].
    intros (?&?&?&?&?&E&?&_). rewrite E1 in E. injection E as -> _. lia. }
  apply Z.ltb_ge in Hfd. destruct (dev_open_new _ _ _ _ E1 Hfd) as [Hn Hd].
  apply wp_bind, wp_dev_io. cbn [fst snd]. intros v o2 E2.
  pose proof (dev_api_version_same _ _ _ _ E2) as Hd2. apply wp_if; intros Hv.
  { apply wp_ret. split; [constructor 3; cbn; auto; congruence|]. split; [|done].
    split; [done|]. intros (?&?&?&?&?&E&?&E'&_). rewrite E1 in E. injection E as <- <-.
    rewrite E2 in E'. injection E' as -> _. done. }
  apply negb_false_iff, Z.eqb_eq in Hv. subst v.
  apply wp_bind, wp_dev_io. cbn [fst snd]. intros n o3 E3.
  pose proof (dev_vcpu_mmap_size_same _ _ _ _ E3) as Hd3.
  apply wp_bind, wp_modify. cbn [fst snd]. apply wp_if; intros Hs; apply wp_ret; cbn [fst snd].
  - apply Z.leb_le in Hs. split; [constructor 3; cbn; auto; congruence|]. split; [|done].
    split; [done|]. intros (?&?&?&?&?&E&?&E'&E''&?). rewrite E1 in E. injection E as <- <-.
    rewrite E2 in E'. injection E' as <-. rewrite E3 in E''. injection E'' as <- _. lia.
  - apply Z.leb_gt in Hs. split; [constructor; cbn; auto; congruence|]. split; [|done].
    split; [|done]. intros _. by exists fd, o1, o2, n, o3.
Qed.

Lemma init_result_close (o o' : os) p r :
  init_result o o' p r -> descriptors o' ∖ {[opt_fd p]} = descriptors o ∖ {[opt_fd p]}.
Proof.
  intros [? ? ? ->|? ->|? ? ? ? ->]; try done;
    by rewrite difference_union_distr_l_L, difference_diag_L, union_empty_l_L.
Qed.

Lemma cleanup_eq (o : os) (p : elkvm_opts) :
  elkvm_cleanup (o, p) = Ok (0, (io_close o (opt_fd p), with_run_size (with_fd p 0) 0)).
Proof. done. Qed.
End Init.

(** Initialisation and cleanup.  [elkvm_init] always returns, with the arguments
    in the options.  It returns 0 exactly when the device opens, speaks version
    12 and has a run structure of positive size; then the options hold a new
    descriptor, the only one that was opened, and that size.  If the device
    cannot be opened it returns [-errno] and nothing is open; a wrong version
    and a missing size are reported with a code of their own, but the
    descriptor stays open.  In every case [elkvm_cleanup] after it returns 0, the
    descriptors open afterwards are those open before, without the one in the
    options, and the options have neither descriptor nor size. *)
Theorem init_then_cleanup {os} `{KvmDevLaws os} (o : os) (p : elkvm_opts) argc argv env :
  wp no_fault
     (let! r := elkvm_init argc argv env in
      let! s := get in
      let! r' := elkvm_cleanup in
      ret (r, s, r'))
     (fun '(r, s, r') s' =>
        init_result o s.1 s.2 r /\ (r = 0 <->
          exists fd o1 o2 n o3, dev_open o KVM_DEV_PATH = (fd, o1) /\ 0 <= fd /\
            dev_api_version o1 fd = (KVM_EXPECT_VERSION, o2) /\
            dev_vcpu_mmap_size o2 fd = (n, o3) /\ 0 < n) /\
        opt_argc s.2 = argc /\ opt_argv s.2 = argv /\ opt_environ s.2 = env /\
        r' = 0 /\ descriptors s'.1 = descriptors o ∖ {[opt_fd s.2]} /\ opt_fd s'.2 = 0 /\ opt_run_struct_size s'.2 = 0)
     (o, p).
Proof.
  unfold elkvm_init. apply wp_bind, wp_bind, wp_modify. cbn [fst snd].
  eapply wp_mono; [apply init_ends|]. intros r [o' p'] (Hr & Hok & Ha & Hb & Hc).
  apply wp_bind, wp_get, wp_bind. eapply wp_ok; [apply cleanup_eq|]. apply wp_ret.
  cbn [fst snd] in *. do 5 (split; [done|]). split; [done|].
  by rewrite io_close_gone, (init_result_close _ _ _ _ Hr).
Qed.

(** A host with one device, its descriptors in a set. *)
Record dev_os := mkDevOs { dev_fds : gset Z; dev_version : Z; dev_size : Z }.

#[export] Instance dev_os_MonitorOS : MonitorOS dev_os := {|
  errno _ := 2;
  io_open o _ := (-1, o);
  io_fstat_size o _ := ((-1, 0), o);
  io_close o fd := mkDevOs (dev_fds o ∖ {[fd]}) (dev_version o) (dev_size o);
  io_free o _ := o;
  io_sigaction o _ := (0, o);
  io_getrlimit o _ := ((0, (0, 0)), o);
|}.

#[export] Instance dev_os_KvmDev : KvmDev dev_os := {|
  dev_open o path :=
    if String.eqb path KVM_DEV_PATH && bool_decide (7 ∉ dev_fds o)
    then (7, mkDevOs ({[7]} ∪ dev_fds o) (dev_version o) (dev_size o)) else (-1, o);
  dev_api_version o _ := (dev_version o, o);
  dev_vcpu_mmap_size o _ := (dev_size o, o);
  dev_create_vm o _ := (8, mkDevOs ({[8]} ∪ dev_fds o) (dev_version o) (dev_size o));
  dev_msr_index_list o _ _ := ((0, [0xC0000081]), o);
  cpuid _ _ _ := (0, 0, 0, 0);
|}.

#[export] Program Instance dev_os_laws : KvmDevLaws dev_os := {| descriptors := dev_fds |}.
Next Obligation.
  intros o path fd o' E Hfd. cbn in E. destruct (_ && _) eqn:D; injection E as <- <-; [|lia].
  apply andb_true_iff in D as [_ D]. apply bool_decide_eq_true in D. done.
Qed.
Next Obligation.
  intros o path fd o' E Hfd. cbn in E. destruct (_ && _); injection E as <- <-; [lia|]. cbn. split; [done|lia].
Qed.
Next Obligation. intros o fd v o' E. cbn in E. by injection E as <- <-. Qed.
Next Obligation. intros o fd v o' E. cbn in E. by injection E as <- <-. Qed.
Next Obligation. done. Qed.

Lemma init_then_cleanup_witness :
  exists s r' s', (let! r := elkvm_init 2 16 32 in
             let! s := get in
             let! r' := elkvm_cleanup in
             ret (r, s, r')) (mkDevOs {[0; 1]} 12 4096, mkOpts 0 0 0 false 0 0) = Ok (0, s, r', s') /\
    init_result (mkDevOs {[0; 1]} 12 4096) s.1 s.2 0 /\ opt_fd s.2 = 7 /\
    descriptors s'.1 = {[0; 1]} ∖ {[opt_fd s.2]}.
Proof.
  eexists _, _, _. split; [vm_compute; reflexivity|].
  destruct (init_then_cleanup (mkDevOs {[0; 1]} 12 4096) (mkOpts 0 0 0 false 0 0) 2 16 32)
    as (Hr & _ & _ & _ & _ & _ & Hd & _).
  split; [exact Hr|]. split; [reflexivity|exact Hd].
Defined.

(** ** Creation *)

(** The number of CPUs, the debug flag and the descriptor. *)
Definition identity {os T} (s : vm os T) : nat * bool * Z := (length (cpus s), _debug s, v_vmfd s).

(** What a running machine never changes: besides, the sizes of the tables of
    limits, actions and pending signals, and the clean-up code of signals. *)
Definition shape {os T} (s : vm os T) :=
  (identity s, length (_rlimits s), length (sigs s), length (pending_signals s), sighandler_cleanup s).

(** A part of the machine that is in neither its memory nor a CPU. *)
Class OutOfBand {os T B} (f : vm os T -> B) : Prop := {
  oob_hm s h : f (with_hm s h) = f s;
  oob_cpu s n v : f (with_cpus s (<[n := v]> (cpus s))) = f s;
}.

#[export] Instance identity_oob {os T} : OutOfBand (@identity os T).
Proof. split; [done|]. intros s n v. unfold identity. cbn. by rewrite length_insert. Qed.

#[export] Instance shape_oob {os T} : OutOfBand (@shape os T).
Proof. split; [done|]. intros s n v. unfold shape, identity. cbn. by rewrite length_insert. Qed.

Section Frame.
Context {os T B : Type} (f : vm os T -> B) `{!OutOfBand f}.

Lemma keeps_heap {A} (c : M (hm os T) A) : keeps f (heap c).
Proof. apply keeps_zoom. intros h s. apply oob_hm. Qed.

Lemma keeps_on_cpu {A} n (c : M (cpu os T) A) : keeps f (on_cpu n c).
Proof.
  intros s a s' E. unfold on_cpu in E. destruct (cpus s !! n); [|done].
  destruct (c _) as [[b t]|]; [|done]. injection E as _ <-.
  match goal with |- f (with_cpus ?u (<[_ := ?v]> _)) = _ => etransitivity; [apply (oob_cpu u n v)|apply oob_hm] end.
Qed.

Lemma keeps_region_manager {A} (c : M (rm os T) A) : keeps f (region_manager c).
Proof. apply keeps_heap. Qed.

Lemma keeps_pager {A} (c : M (pst os T) A) : keeps f (pager c).
Proof. apply keeps_heap. Qed.

Lemma keeps_os_io {A} (g : os -> A * os) : keeps f (os_io g).
Proof. apply keeps_heap. Qed.

Lemma keeps_os_get {A} (g : os -> A) : keeps f (os_get g).
Proof. apply keeps_gets. Qed.

Lemma keeps_memory : keeps f memory.
Proof. apply keeps_gets. Qed.

Lemma keeps_set_memory g : keeps f (set_memory g).
Proof. apply keeps_heap. Qed.

Lemma keeps_at_z {A} (l : list A) i : keeps f (at_z l i).
Proof. unfold at_z. case_match; auto with keeps. Qed.

Lemma keeps_bind_at_z {A C} (l : list A) i (k : A -> M (vm os T) C) :
  Forall (fun x => keeps f (k x)) l -> keeps f (let! x := at_z l i in k x).
Proof.
  intros Hl. unfold at_z. destruct (i <? 0); [by intros s a s' [=]|]. unfold at_.
  destruct (l !! Z.to_nat i) as [x|] eqn:E; [|by intros s a s' [=]]. by apply (Forall_lookup_1 _ _ _ _ Hl E).
Qed.

Lemma keeps_bind_deref {A C} (o : option A) (k : A -> M (vm os T) C) :
  (forall x, o = Some x -> keeps f (k x)) -> keeps f (let! x := deref o in k x).
Proof. intros Hk. destruct o as [x|]; [by apply Hk|]. by intros s a s' [=]. Qed.
End Frame.
#[export] Hint Resolve keeps_heap keeps_on_cpu keeps_region_manager keeps_pager keeps_os_io keeps_os_get
  keeps_memory keeps_set_memory keeps_at_z : keeps.
#[export] Hint Extern 1 (OutOfBand _) => typeclasses eauto : keeps.
Ltac keeps_frame ::= intros; unfold shape, identity; cbn; rewrite ?length_insert; done.

Section Created.
Context {os T : Type} `{HostOS os} `{FileOS os} `{KvmOS os} `{MonitorOS os} `{ElfLib os} `{TranslationCache T}.
Implicit Types (s : vm os T).

Lemma keeps_load_flat path k : keeps (@identity os T) (load_flat path k).
Proof. unfold load_flat, flat_read_step. keeps_go. Qed.

Lemma keeps_setup RES_PATH : keeps (@identity os T) (setup_proxy_os RES_PATH).
Proof.
  unfold setup_proxy_os, create_idt, create_sysenter, create_sighandler.
  pose proof keeps_load_flat. keeps_go.
Qed.

Lemma keeps_load_elf depth argc argv env binary :
  keeps (@identity os T) (load_elf_binary depth argc argv env binary).
Proof. unfold load_elf_binary. keeps_go. Qed.

Lemma add_cpu_identity s r s' :
  add_cpu s = Ok (r, s') -> identity s' = (S (length (cpus s)), _debug s, v_vmfd s) /\ r = 0.
Proof.
  unfold add_cpu. intros E. apply bind_ok_inv in E as (x & s1 & E1 & E). injection E1 as <- <-.
  apply bind_ok_inv in E as (v & s1 & E1 & E). apply (keeps_heap identity) in E1.
  apply bind_ok_inv in E as ([] & s2 & E2 & E). injection E2 as E2.
  apply bind_ok_inv in E as (e1 & s3 & E3 & E). apply (keeps_on_cpu identity) in E3.
  apply bind_ok_inv in E as (e2 & s4 & E4 & E). apply (keeps_on_cpu identity) in E4.
  injection E as <- <-. rewrite E4, E3, <- E2. unfold identity in *. cbn. rewrite length_app. injection E1 as -> -> ->.
  cbn. by rewrite Nat.add_1_r.
Qed.

Lemma create_vcpus_identity n s r s' :
  create_vcpus n s = Ok (r, s') -> identity s' = ((length (cpus s) + n)%nat, _debug s, v_vmfd s) /\ r = 0.
Proof.
  revert s. induction n as [|n IH]; intros s E; cbn [create_vcpus] in E.
  { injection E as <- <-. by rewrite Nat.add_0_r. }
  apply bind_ok_inv in E as (e & s1 & E1 & E). apply add_cpu_identity in E1 as [E1 ->].
  cbn [ctrue Z.eqb negb] in E. apply IH in E as [E ->]. unfold identity in E1. injection E1 as E1 E2 E3.
  rewrite E, E1, E2, E3. by rewrite Nat.add_succ_r.
Qed.

Lemma rlimit_new_identity n : keeps (@identity os T) (rlimit_new n).
Proof. induction n; cbn [rlimit_new]; keeps_go. Qed.

Lemma VM_new_identity vmfd (b : bool) m t o u (v : vm os T) :
  VM_new vmfd (if b then 1 else 0) m t o = Ok (u, v) -> identity v = (0%nat, b, vmfd).
Proof.
  unfold VM_new. destruct (RegionManager_new _ _ _ _) as [[? r]|]; [|done]. intros E.
  apply bind_ok_inv in E as (l & s1 & E1 & E). apply rlimit_new_identity in E1. injection E as _ <-.
  unfold identity in *. cbn in *. injection E1 as -> -> ->. by destruct b.
Qed.
End Created.
#[export] Hint Resolve keeps_load_flat keeps_setup keeps_load_elf : keeps.

(** ** How a machine is made *)

Section Made.
Context {os T : Type} `{HostOS os} `{FileOS os} `{KvmOS os} `{MonitorOS os} `{ElfLib os} `{TranslationCache T}.
Implicit Types (v : vm os T).

Lemma bind_iff {X A B} (c : M X A) (k : A -> M X B) (x : X) b y :
  bind c k x = Ok (b, y) <-> exists a t, c x = Ok (a, t) /\ k a t = Ok (b, y).
Proof. split; [apply bind_ok_inv|]. intros (a & t & E & Ek). by rewrite (bind_ok _ _ _ _ _ E). Qed.

Lemma bind_assert_iff {X B} (b : bool) (k : M X B) (x : X) r :
  (do! assert_ b in k) x = Ok r <-> b = true /\ k x = Ok r.
Proof. destruct b; (split; [|intros [? ?]]); try done; by intros [=]. Qed.

Lemma assert_iff {X} (b : bool) (x y : X) : assert_ b x = Ok (tt, y) <-> b = true /\ y = x.
Proof. destruct b; (split; [intros E|intros [E ->]]); try done. by injection E as <-. Qed.

(** The steps whose result is checked to be 0. *)
Lemma bind_zero_iff {X B} (c : M X Z) (k : M X B) (x : X) r :
  (let! err := c in do! assert_ (err =? 0) in k) x = Ok r <-> exists t, c x = Ok (0, t) /\ k t = Ok r.
Proof.
  destruct r as [b y]. rewrite bind_iff. setoid_rewrite bind_assert_iff. split.
  - intros (e & t & E & ->%Z.eqb_eq & Ek). eauto.
  - intros (t & E & Ek). by exists 0, t.
Qed.

Lemma last_zero_iff {X} (c : M X Z) (x y : X) : (let! err := c in assert_ (err =? 0)) x = Ok (tt, y) <-> c x = Ok (0, y).
Proof.
  rewrite bind_iff. setoid_rewrite assert_iff. split.
  - by intros (e & t & E & ->%Z.eqb_eq & ->).
  - intros E. by exists 0, y.
Qed.

(** The host answers [l] for the limits below [n]. *)
Fixpoint limits_read (n : nat) (o : os) (l : list (Z * Z)) (o' : os) : Prop :=
  match n with
  | O => l = [] /\ o' = o
  | S k => exists l0 x o1, limits_read k o l0 o1 /\ io_getrlimit o1 (Z.of_nat k) = ((0, x), o') /\ l = l0 ++ [x]
  end.

Lemma os_io_eq {A} (f : os -> A * os) v : os_io f v = let '(a, o) := f (vm_os v) in Ok (a, set_vm_os o v).
Proof.
  destruct v as [? ? [? ? ? [? ? ? [? ? ? ?]]] ? ? ? ? ? ?]. unfold vm_os. cbn. unfold os_io, region_manager, heap, rm_io.
  cbv - [io_open]. by destruct (f _).
Qed.

Lemma set_vm_os_same v : set_vm_os (vm_os v) v = v.
Proof. by destruct v as [? ? [? ? ? [? ? ? [? ? ? ?]]] ? ? ? ? ? ?]. Qed.

Lemma rlimit_new_iff n v l v' :
  rlimit_new n v = Ok (l, v') <-> exists o, limits_read n (vm_os v) l o /\ v' = set_vm_os o v.
Proof.
  revert l v'. induction n as [|n IH]; intros l v'; cbn [rlimit_new limits_read].
  - split; [intros [= <- <-]; eexists; by rewrite set_vm_os_same|]. intros (o & [-> ->] & ->). by rewrite set_vm_os_same.
  - rewrite bind_iff. setoid_rewrite IH. setoid_rewrite bind_iff. setoid_rewrite os_io_eq. split.
    + intros (l0 & t & (o1 & Hl & ->) & [e x] & t1 & E & E1). rewrite bind_assert_iff in E1. destruct E1 as [->%Z.eqb_eq E1].
      injection E1 as <- <-. change (vm_os (set_vm_os o1 v)) with o1 in E.
      destruct (io_getrlimit o1 _) as [[e' x'] o2] eqn:Eg. injection E as -> -> <-.
      exists o2. split; [by exists l0, x, o1|done].
    + intros (o & (l0 & x & o1 & Hl & Eg & ->) & ->). exists l0, (set_vm_os o1 v). split; [by exists o1|].
      exists (0, x), (set_vm_os o v). change (vm_os (set_vm_os o1 v)) with o1. by rewrite Eg.
Qed.

Lemma rlimit_new_fails k n v l o e x o' :
  (k < n)%nat -> limits_read k (vm_os v) l o -> io_getrlimit o (Z.of_nat k) = ((e, x), o') -> e <> 0 ->
  rlimit_new n v = Fail Assert.
Proof.
  intros Hk Hl Eg He. induction n as [|n IH]; [lia|]. cbn [rlimit_new].
  destruct (Nat.eq_dec k n) as [->|Hne]; [|by apply bind_fail, IH; lia].
  rewrite (bind_ok _ _ _ l (set_vm_os o v)) by (apply rlimit_new_iff; eauto).
  unfold bind at 1. rewrite os_io_eq. change (vm_os (set_vm_os o v)) with o. rewrite Eg. by apply Z.eqb_neq in He as ->.
Qed.

(** The machine object before its limits are read. *)
Definition bare_vm (vmfd : Z) (debug : bool) (r : rm os T) : vm os T :=
  mkVM [] debug (mkHM [] [] 0 r) vmfd [] (replicate (Z.to_nat _NSIG) (replicate sizeof_sigaction 0))
       (mkFlat None 0) (replicate 32 0) 0.

(** The first chunk of memory is refused. *)
Lemma RegionManager_new_fails vmfd m (t : T) o e q o1 :
  0 < vmfd -> posix_memalign o HOST_PAGESIZE ELKVM_SYSTEM_MEMGROW = ((e, q), o1) -> e <> 0 ->
  RegionManager_new vmfd m t o = Fail Assert.
Proof.
  intros Hv Em He. unfold RegionManager_new, PagerX86_64_new.
  replace (vmfd <? 1) with false by (symmetry; lia). unfold RegionManager_init. apply bind_fail.
  unfold allocate_region. set (s0 := mkRM _ _ _ _).
  rewrite (bind_ok _ _ _ None s0) by reflexivity. apply bind_fail.
  set (s1 := mkRM [] (replicate n_freelists []) (mkStore ∅ 0%nat) (mkPst m t o1 (mkPager vmfd [] 0 0 (2 ^ 64 - 1) 0 []))).
  rewrite (bind_ok _ _ _ e s1); [by apply Z.eqb_neq in He as ->|].
  unfold add_chunk. change (if ELKVM_SYSTEM_MEMGROW <? ELKVM_PAGER_MEMSIZE then _ else _) with ELKVM_SYSTEM_MEMGROW.
  rewrite (bind_ok _ _ _ (e, 0) s1); [by apply ctrue_true in He as ->|].
  unfold on_pager, zoom, create_mem_chunk. change (page_aligned ELKVM_SYSTEM_MEMGROW) with true. cbn [negb].
  unfold bind at 1, get at 1. cbn [p_os rm_pager s0]. rewrite Em. by apply ctrue_true in He as ->.
Qed.

Lemma VM_new_iff vmfd (b : bool) m t o v :
  VM_new vmfd (if b then 1 else 0) m t o = Ok (tt, v) <->
  exists r l o', RegionManager_new vmfd m t o = Ok (tt, r) /\ limits_read RLIMIT_NLIMITS (p_os (rm_pager r)) l o' /\
    v = with_rlimits (set_vm_os o' (bare_vm vmfd b r)) l.
Proof.
  unfold VM_new. replace ((if b then 1 else 0) =? 1) with b by (by destruct b).
  destruct (RegionManager_new vmfd m t o) as [[[] r]|f]; [|split; [done|]; intros (r & l & o' & [=] & _)].
  fold (bare_vm vmfd b r). rewrite bind_iff. setoid_rewrite rlimit_new_iff. split.
  - intros (l & v1 & (o' & Hl & ->) & [= <-]). by exists r, l, o'.
  - intros (r' & l & o' & [= <-] & Hl & ->). exists l, (set_vm_os o' (bare_vm vmfd b r)). split; [by exists o'|done].
Qed.

(** The descriptor tables, the interrupt and system call entries and the clean-up code of signals. *)
Definition proxy_set_up (RES_PATH : string) (v v' : vm os T) : Prop :=
  exists g v1 v2 v3, on_cpu 0 elkvm_gdt_setup v = Ok (Some g, v1) /\ create_idt RES_PATH v1 = Ok (0, v2) /\
    create_sysenter RES_PATH v2 = Ok (0, v3) /\ create_sighandler RES_PATH v3 = Ok (0, v').

Lemma setup_proxy_os_iff RES_PATH v e v' :
  setup_proxy_os RES_PATH v = Ok (e, v') <-> e = 0 /\ proxy_set_up RES_PATH v v'.
Proof.
  unfold setup_proxy_os, proxy_set_up. rewrite bind_iff. setoid_rewrite bind_assert_iff.
  repeat setoid_rewrite bind_zero_iff. split.
  - intros (g & v1 & E1 & Hg & v2 & E2 & v3 & E3 & v4 & E4 & [= <- <-]). destruct g as [g|]; [|done].
    split; [done|]. by exists g, v1, v2, v3.
  - intros (-> & g & v1 & v2 & v3 & E1 & E2 & E3 & E4). exists (Some g), v1. do 2 (split; [done|]).
    exists v2. split; [done|]. exists v3. split; [done|]. by exists v'.
Qed.

(** What is done to the machine object: its CPUs, the program, if there is one, and the proxy. *)
Definition furnished (RES_PATH : string) (image : option (nat * string)) (ncpus : nat) (p : elkvm_opts) (v v' : vm os T) : Prop :=
  exists v1 v2, create_vcpus ncpus v = Ok (0, v1) /\
    match image with
    | Some (depth, binary) => load_elf_binary depth (opt_argc p) (opt_argv p) (opt_environ p) binary v1 = Ok (0, v2)
    | None => v2 = v1
    end /\ proxy_set_up RES_PATH v2 v'.

Lemma create_raw_iff RES_PATH ncpus p v v' :
  elkvm_vm_create_raw RES_PATH ncpus v = Ok (tt, v') <-> furnished RES_PATH None ncpus p v v'.
Proof.
  unfold elkvm_vm_create_raw, create_virtual_hardware, furnished. rewrite bind_iff. split.
  - intros ([] & v1 & E1 & E). apply last_zero_iff in E1, E. apply setup_proxy_os_iff in E as [_ E]. by exists v1, v1.
  - intros (v1 & v2 & E1 & -> & E). exists tt, v1. rewrite !last_zero_iff, setup_proxy_os_iff. done.
Qed.

Lemma create_elf_iff RES_PATH depth binary ncpus p v v' :
  elkvm_vm_create RES_PATH depth ncpus (opt_argc p) (opt_argv p) (opt_environ p) binary v = Ok (tt, v') <->
  furnished RES_PATH (Some (depth, binary)) ncpus p v v'.
Proof.
  unfold elkvm_vm_create, create_virtual_hardware, furnished. rewrite bind_iff. setoid_rewrite bind_zero_iff. split.
  - intros ([] & v1 & E1 & v2 & E2 & E). apply last_zero_iff in E1, E. apply setup_proxy_os_iff in E as [_ E]. by exists v1, v2.
  - intros (v1 & v2 & E1 & E2 & E). exists tt, v1. rewrite last_zero_iff. split; [done|]. exists v2.
    rewrite last_zero_iff, setup_proxy_os_iff. done.
Qed.

Lemma furnished_identity RES_PATH image ncpus p v v' :
  furnished RES_PATH image ncpus p v v' -> identity v' = ((length (cpus v) + ncpus)%nat, _debug v, v_vmfd v).
Proof.
  intros (v1 & v2 & E1 & E2 & E3). apply create_vcpus_identity in E1 as [E1 _]. rewrite <- E1.
  assert (setup_proxy_os RES_PATH v2 = Ok (0, v')) as E by (by apply setup_proxy_os_iff).
  apply keeps_setup in E. rewrite E. destruct image as [[depth binary]|]; [|by subst]. by apply keeps_load_elf in E2.
Qed.
End Made.

(** C33. A created machine, for [elkvm_vm_create] and [elkvm_vm_create_raw].  If the device refuses the
    machine (a negative descriptor) or the size of the run
    structure, an assertion fails: a refused machine is not an error the monitor could handle.  The descriptor 0
    makes the pager throw.  If the host refuses the first chunk of memory, or answers an error
    for any of the limits, an assertion fails.  Otherwise the machine is answered exactly
    when every step of the making succeeds: the memory is set up, all limits are read, all CPUs are created, the
    binary, if there is one, is loaded with result 0, the descriptor table is there, and the interrupt
    table, the system call entry and the clean-up code of signals are each loaded with result 0; if any step fails
    or answers another result, creation ends in a fault.  The machine is then the one these steps leave, with the
    descriptor that KVM_CREATE_VM gave, exactly the number of CPUs asked for, the debug flag, the
    handlers and the arguments of the options, and is at the end of the list of
    machines. *)
Theorem vm_created {os T} `{HostOS os} `{FileOS os} `{KvmOS os} `{MonitorOS os} `{KvmDev os} `{ElfLib os} `{TranslationCache T}
    hyp hs RES_PATH (image : option (nat * string)) ncpus debug (s : monitor os T) :
  let create := match image with
                | Some (depth, binary) => vm_create hyp hs RES_PATH depth binary ncpus debug
                | None => vm_create_raw hyp hs RES_PATH ncpus debug
                end in
  let p := mo_opts s in
  let '(vmfd, o) := dev_create_vm (mo_os s) (opt_fd p) in
  let '(size, o) := dev_vcpu_mmap_size o (opt_fd p) in
  let memory := RegionManager_new vmfd (mo_mem s) (mo_tlb s) o in
  (vmfd < 0 \/ size < 0 -> create s = Fail Assert) /\
  (vmfd = 0 -> 0 <= size -> create s = Fail Throw) /\
  (forall e q o1, 0 < vmfd -> 0 <= size -> posix_memalign o HOST_PAGESIZE ELKVM_SYSTEM_MEMGROW = ((e, q), o1) -> e <> 0 ->
     create s = Fail Assert) /\
  (forall r k l o1 e x o2, 0 <= vmfd -> 0 <= size -> memory = Ok (tt, r) ->
     (k < RLIMIT_NLIMITS)%nat -> limits_read k (p_os (rm_pager r)) l o1 ->
     io_getrlimit o1 (Z.of_nat k) = ((e, x), o2) -> e <> 0 -> create s = Fail Assert) /\
  (forall m, create s = Ok m <->
     0 <= vmfd /\ 0 <= size /\ exists r l o1 v,
       memory = Ok (tt, r) /\ limits_read RLIMIT_NLIMITS (p_os (rm_pager r)) l o1 /\
       furnished RES_PATH image ncpus p (with_rlimits (set_vm_os o1 (bare_vm vmfd debug r)) l) v /\
       identity v = (ncpus, debug, vmfd) /\
       m = mkMachine v (with_debug_opt p debug) (mo_vmi s ++ [vmfd]) (opt_argc p) (opt_argv p) (opt_environ p) size hyp hs).
Proof.
  cbn zeta. set (create := match image with Some _ => _ | None => _ end). set (p := mo_opts s).
  assert (exists c, create = create_with hyp hs debug c /\
            forall v v', c (with_debug_opt p debug) v = Ok (tt, v') <-> furnished RES_PATH image ncpus p v v') as (c & -> & Hc).
  { subst create. destruct image as [[depth binary]|]; (eexists; split; [reflexivity|]); intros v v'; cbv beta.
    - apply (create_elf_iff RES_PATH depth binary ncpus p).
    - apply create_raw_iff. }
  destruct (dev_create_vm _ _) as [vmfd o] eqn:Ev. destruct (dev_vcpu_mmap_size _ _) as [size o'] eqn:Es.
  assert (create_with hyp hs debug c s =
    if (vmfd <? 0) || (size <? 0) then Fail Assert else
    match VM_new vmfd (if debug then 1 else 0) (mo_mem s) (mo_tlb s) o' with
    | Fail f => Fail f
    | Ok (_, v) =>
        match c (with_debug_opt p debug) v with
        | Fail f => Fail f
        | Ok (_, v') => Ok (mkMachine v' (with_debug_opt p debug) (mo_vmi s ++ [vmfd]) (opt_argc p) (opt_argv p)
                                      (opt_environ p) size hyp hs)
        end
    end) as ->.
  { unfold create_with, create_vm_object. cbn. fold p. rewrite Ev. destruct (vmfd <? 0); [done|]. cbn. rewrite Es.
    destruct (size <? 0); [done|]. destruct (VM_new _ _ _ _ _) as [[[] v]|]; [|done]. cbn.
    by destruct (c _ v) as [[[] u]|]. }
  destruct ((vmfd <? 0) || (size <? 0)) eqn:Eneg.
  { split_and!; [done|lia|lia|lia|]. intros m. split; [done|lia]. }
  split_and!; [lia| | | |].
  - intros -> _. done.
  - intros e q o1 Hv _ Em He. unfold VM_new. by rewrite (RegionManager_new_fails _ _ _ _ _ _ _ Hv Em He).
  - intros r k l o1 e x o2 _ _ Er Hk Hl Eg He. unfold VM_new. rewrite Er.
    rewrite (bind_fail _ _ _ Assert); [done|]. by eapply rlimit_new_fails.
  - intros m. split.
    + destruct (VM_new _ _ _ _ _) as [[[] v]|] eqn:En; [|done]. apply VM_new_iff in En as (r & l & o1 & Er & Hl & ->).
      destruct (c _ _) as [[[] v']|] eqn:Ec; [|done]. intros [= <-]. apply Hc in Ec. do 2 (split; [lia|]).
      exists r, l, o1, v'. do 3 (split; [done|]). split; [|done]. by apply furnished_identity in Ec.
    + intros (_ & _ & r & l & o1 & v & Er & Hl & Hf & _ & ->). apply Hc in Hf.
      assert (VM_new vmfd (if debug then 1 else 0) (mo_mem s) (mo_tlb s) o' =
        Ok (tt, with_rlimits (set_vm_os o1 (bare_vm vmfd debug r)) l)) as -> by (apply VM_new_iff; by exists r, l, o1).
      by rewrite Hf.
Qed.

(** A device that gives a machine to the holder of its descriptor 7 only, and
    no ELF files. *)
#[export] Instance bump_KvmDev : KvmDev bump_os := {|
  dev_open o path := (7, o);
  dev_api_version o _ := (KVM_EXPECT_VERSION, o);
  dev_vcpu_mmap_size o _ := (4096, o);
  dev_create_vm o fd := (if fd =? 7 then 8 else -1, o);
  dev_msr_index_list o _ _ := ((0, [0xC0000081]), o);
  cpuid _ _ _ := (0, 0, 32, 0);
|}.

#[export] Instance bump_ElfLib : ElfLib bump_os := {|
  elf_version_none _ := false;
  elf_begin o _ := (0, o);
  elf_end o _ := o;
  elf_kind _ _ := 0;
  gelf_getclass _ _ := 0;
  gelf_getehdr _ _ := None;
  elf_getphdrnum o _ := (-1, 0);
  gelf_getphdr _ _ _ := mkPhdr 0 0 0 0 0 0;
|}.

Definition bump_monitor (fd : Z) : monitor bump_os TLB.t :=
  mkMonitor (fun _ => 0) TLB.new bump_init (mkOpts 1 0x5000 0x6000 false fd 4096) [].

(** A refused machine; a host without memory; and a machine with one CPU. *)
Lemma vm_created_witness :
  vm_create_raw hypercall_null default_handlers "/res" 1 true (bump_monitor 3) = Fail Assert /\
  vm_create_raw hypercall_null default_handlers "/res" 1 true
    (mkMonitor (fun _ => 0) TLB.new (mkBump (2 ^ 47) []) (mkOpts 1 0x5000 0x6000 false 7 4096) []) = Fail Assert /\
  (forall m, vm_create_raw hypercall_null default_handlers "/res" 1 true (bump_monitor 7) = Ok m ->
     identity (ma_vm m) = (1%nat, true, 8) /\ ma_vmi m = [8]).
Proof.
  split; [|split].
  - destruct (vm_created hypercall_null default_handlers "/res" None 1 true (bump_monitor 3)) as [Hf _].
    apply Hf. left. reflexivity.
  - destruct (vm_created hypercall_null default_handlers "/res" None 1 true
      (mkMonitor (fun _ => 0) TLB.new (mkBump (2 ^ 47) []) (mkOpts 1 0x5000 0x6000 false 7 4096) [])) as (_ & _ & Hf & _).
    apply (Hf 12 0 (mkBump (2 ^ 47) [])); [reflexivity|done|reflexivity|done].
  - intros m E.
    destruct (vm_created hypercall_null default_handlers "/res" None 1 true (bump_monitor 7)) as (_ & _ & _ & _ & Hm).
    destruct (proj1 (Hm m) E) as (_ & _ & r & l & o1 & v & _ & _ & _ & Hi & ->). split; [exact Hi|reflexivity].
Defined.

(** ** A running machine *)

Section Running.
Context {os T : Type} `{HostOS os} `{FileOS os} `{KvmOS os} `{MonitorOS os} `{TranslationCache T}.
Variable hs : elkvm_handlers os (vm os T).

Lemma syscalls_keep_shape :
  Forall (fun e => match e with Some (c, _) => keeps (@shape os T) c | None => True end) (elkvm_syscalls hs).
Proof.
  unfold elkvm_syscalls. rewrite !Forall_app. split_and!.
  - unfold elkvm_syscalls_low. repeat constructor; try done; keeps_all.
  - unfold elkvm_syscalls_high. repeat constructor; try done; keeps_all.
  - by apply Forall_replicate.
Qed.

Lemma handle_syscall_keeps_shape : keeps (@shape os T) (handle_syscall hs).
Proof.
  unfold handle_syscall. apply keeps_bind; [keeps_all|]. intros num. apply keeps_bind; [keeps_all|]. intros d.
  apply keeps_bind; [keeps_go|]. intros []. destruct (NUM_SYSCALLS <? num); [keeps_all|].
  apply keeps_bind_at_z. eapply Forall_impl; [apply syscalls_keep_shape|]. cbn beta. intros e He.
  apply keeps_bind_deref. intros [c n] ->. keeps_all.
Qed.

Lemma handle_interrupt_keeps_shape udis : keeps (@shape os T) (handle_interrupt udis).
Proof. keeps_all. Qed.

Lemma finish_hypercall_keeps_shape hyp call :
  (forall h, post_handler hyp = Some h -> forall e, keeps shape (h e)) ->
  keeps (@shape os T) (finish_hypercall hyp call).
Proof.
  intros Hh. unfold finish_hypercall. apply keeps_bind; [|keeps_all].
  unfold run_hook. destruct (post_handler hyp); [|keeps_go]. apply keeps_bind; [by apply Hh|keeps_go].
Qed.

Lemma run_step_keeps_shape hyp udis :
  (forall h, pre_handler hyp = Some h -> forall e, keeps shape (h e)) ->
  (forall h, post_handler hyp = Some h -> forall e, keeps shape (h e)) ->
  forall u, keeps (@shape os T) (run_step hs hyp udis u).
Proof.
  intros Hpre Hpost u. assert (forall c, keeps (@shape os T) (finish_hypercall hyp c)) as Hfin
    by (intros c; by apply finish_hypercall_keeps_shape).
  assert (forall c, keeps (@shape os T) (run_hook (pre_handler hyp) c)) as Hhook.
  { intros c. unfold run_hook. destruct (pre_handler hyp); [|keeps_go]. apply keeps_bind; [by apply Hpre|keeps_go]. }
  pose proof handle_syscall_keeps_shape. pose proof handle_interrupt_keeps_shape.
  unfold run_step, handle_hypercall. keeps_all.
Qed.
End Running.

Lemma run_ends_in_shape {os T} `{HostOS os} `{FileOS os} `{KvmOS os} `{MonitorOS os} `{TranslationCache T} hs hyp udis (s s' : vm os T) r :
  (forall u, keeps shape (run_step hs hyp udis u)) -> run hs hyp udis s = Ok (r, s') -> shape s' = shape s.
Proof. intros Hs. apply (keeps_while shape _ tt Hs). Qed.

Lemma VM_run_eq {os T} `{HostOS os} `{FileOS os} `{KvmOS os} `{MonitorOS os} `{TranslationCache T} udis (m : machine os T) :
  VM_run udis m = match run (ma_syscall_handlers m) (ma_hypercall_handlers m) udis (ma_vm m) with
                  | Ok (r, v) => Ok (r, with_vm m v)
                  | Fail e => Fail e
                  end.
Proof. reflexivity. Qed.

(** C20. The guest cannot reshape its machine.  Whatever the guest, the host and the
    monitor's system call handlers do, and for hooks that respect it, at
    every round of the main loop the number of CPUs, the debug flag, the descriptor,
    the sizes of the tables of limits, signal actions and pending signals and
    the clean-up code of signals are those the run started with; so they are when
    [run] returns, and the rest of the monitor's state is untouched. *)
Theorem run_keeps_shape {os T} `{HostOS os} `{FileOS os} `{KvmOS os} `{MonitorOS os} `{TranslationCache T}
    (udis : bool) (m : machine os T) :
  (forall h, pre_handler (ma_hypercall_handlers m) = Some h -> forall e, keeps shape (h e)) ->
  (forall h, post_handler (ma_hypercall_handlers m) = Some h -> forall e, keeps shape (h e)) ->
  (forall k s, rounds (run_step (ma_syscall_handlers m) (ma_hypercall_handlers m) udis) k tt (ma_vm m) tt s ->
     shape s = shape (ma_vm m)) /\
  (forall r m', VM_run udis m = Ok (r, m') -> shape (ma_vm m') = shape (ma_vm m) /\ m' = with_vm m (ma_vm m')).
Proof.
  intros Hpre Hpost.
  assert (forall u, keeps shape (run_step (ma_syscall_handlers m) (ma_hypercall_handlers m) udis u)) as Hs
    by (by apply run_step_keeps_shape).
  split.
  - intros k s. apply (keeps_rounds shape), Hs.
  - intros r m' E. rewrite VM_run_eq in E.
    destruct (run _ _ _ _) as [[r' v]|] eqn:Er; [|discriminate E]. injection E as <- <-.
    split; [|reflexivity]. cbn [ma_vm with_vm]. eapply run_ends_in_shape; [exact Hs|exact Er].
Qed.

(** A machine whose guest makes a hypercall of type 0, which ends the run. *)
Definition demo_machine : machine bump_os TLB.t :=
  mkMachine (demo_vm [(rsp, 0x400010)]) (mkOpts 1 0x5000 0x6000 false 7 4096) [3] 1 0x5000 0x6000 4096
            hypercall_null default_handlers.

Lemma run_keeps_shape_witness :
  exists m', VM_run false demo_machine = Ok (0, m') /\
    shape (ma_vm m') = (1%nat, false, 3, 16%nat, 65%nat, 32%nat, mkFlat None 0).
Proof.
  assert (result (VM_run false demo_machine) = Some 0) as E by (vm_compute; reflexivity).
  apply run_result in E as [m' E]. exists m'. split; [exact E|].
  destruct (run_keeps_shape false demo_machine ltac:(intros h [=]) ltac:(intros h [=])) as [_ Hr].
  destruct (Hr 0 m' E) as [-> _]. reflexivity.
Defined.
