(* ===== verification/StraceTheorems.v ===== *)
(** * The [strace] monitor: theorems

    Tracing does not change what the guest does, as long as the system call has
    a name. *)

From S2P Require Import Prelude Text Memory PageMath HostOS Tlb Pager Region RegionManager Registers Mappings Heap HeapTheorems Vcpu VcpuTheorems Descriptors Vm Handlers Syscall SyscallStubs Hypercall Environ Elf Lifecycle Strace VmSpec SyscallTheorems HypercallTheorems RunTheorems LifecycleTheorems.
From stdpp Require Import strings.
Local Open Scope Z_scope.

Section Trace.
Context {os T : Type} `{HostOS os} `{FileOS os} `{KvmOS os} `{MonitorOS os} `{TranslationCache T}.
Implicit Types (s t u : vm os T).

(** A hypercall in [u] that is a system call has a number with a name. *)
Definition named_call u : Prop :=
  forall call u1 v, get_hypercall_type u = Ok (call, u1) -> call = ELKVM_HYPERCALL_SYSCALL ->
    cpus u1 !! 0%nat = Some v -> 0 <= vreg v rax < Z.of_nat (length syscalls).

Lemma strace_pre_silent call s v :
  0 <= call < 2 ^ 32 -> cpus s !! 0%nat = Some v ->
  (call = ELKVM_HYPERCALL_SYSCALL -> 0 <= vreg v rax < Z.of_nat (length syscalls)) ->
  run_hook (pre_handler strace_handlers) call s = Ok (tt, s).
Proof.
  intros Hc Hv Hr. unfold run_hook. cbn [pre_handler strace_handlers]. unfold strace_pre_handler.
  destruct (Z.eqb_spec (s32 call) ELKVM_HYPERCALL_SYSCALL) as [E|E]; cbn [negb]; [|done].
  assert (call = ELKVM_HYPERCALL_SYSCALL) as Hc1.
  { unfold s32, sN, ELKVM_HYPERCALL_SYSCALL in *. Z.div_mod_to_equations. lia. }
  specialize (Hr Hc1). unfold strace_pre_message.
  assert ((let! nr := on_cpu 0 (get_reg rax) in
           let! name := at_z syscalls nr in
           ret (str "[ELKVM] System call '" ++ str name ++ str "'")) s
          = Ok (str "[ELKVM] System call '" ++ str (nth (Z.to_nat (vreg v rax)) syscalls "") ++ str "'", s)) as E1.
  { rewrite (bind_ok _ _ _ _ _ (on_cpu_get_reg s v rax Hv)). unfold at_z.
    destruct (Z.ltb_spec (vreg v rax) 0); [lia|]. unfold at_.
    destruct (syscalls !! Z.to_nat (vreg v rax)) as [n|] eqn:En.
    - by rewrite (nth_lookup_Some _ _ _ _ En).
    - apply lookup_ge_None in En. lia. }
  rewrite (bind_ok _ _ _ 0 s); [done|]. by rewrite (bind_ok _ _ _ _ _ E1).
Qed.

Lemma strace_post_silent call s v :
  cpus s !! 0%nat = Some v -> run_hook (post_handler strace_handlers) call s = Ok (tt, s).
Proof.
  intros Hv. unfold run_hook. cbn [post_handler strace_handlers]. unfold strace_post_handler.
  destruct (negb _); [done|]. unfold strace_post_message.
  rewrite (bind_ok _ _ _ 0 s); [done|]. rewrite (bind_ok _ _ s (str "[ELKVM]      = 0x" ++ hex_number (vreg v rax)) s); [done|].
  by rewrite (bind_ok _ _ _ _ _ (on_cpu_get_reg s v rax Hv)).
Qed.

Variable hs : elkvm_handlers os (vm os T).

Lemma finish_traced call s v :
  cpus s !! 0%nat = Some v -> finish_hypercall strace_handlers call s = finish_hypercall hypercall_null call s.
Proof. intros Hv. unfold finish_hypercall. by rewrite (bind_ok _ _ _ _ _ (strace_post_silent call s v Hv)). Qed.

(** What handles the call keeps the CPUs, so that the second hook finds one. *)
Lemma handled_traced (c : M (vm os T) Z) call s v :
  keeps shape c -> cpus s !! 0%nat = Some v ->
  (let! err := c in if ctrue err then ret err else finish_hypercall strace_handlers call) s =
  (let! err := c in if ctrue err then ret err else finish_hypercall hypercall_null call) s.
Proof.
  intros Hc Hv. unfold bind at 1. unfold bind at 1. destruct (c s) as [[err s1]|e] eqn:E; [|done].
  destruct (ctrue err); [done|]. apply Hc in E. unfold shape, identity in E. injection E as El _.
  assert (0 < length (cpus s1))%nat as Hl by (rewrite El; by apply lookup_lt_Some in Hv).
  apply lookup_lt_is_Some in Hl as [v1 Hv1]. by apply (finish_traced call s1 v1).
Qed.

Lemma handle_hypercall_traced udis u :
  named_call u -> handle_hypercall hs strace_handlers udis u = handle_hypercall hs hypercall_null udis u.
Proof.
  intros Hu. unfold handle_hypercall. unfold bind at 1. symmetry. unfold bind at 1. symmetry.
  destruct (get_hypercall_type u) as [[call u1]|e] eqn:E; [|done].
  assert (0 <= call < 2 ^ 32) as Hc.
  { apply bind_ok_inv in E as (x & s1 & _ & E). injection E as <- _. apply Z.mod_pos_bound. lia. }
  assert (exists v, cpus u1 !! 0%nat = Some v) as [v Hv].
  { apply bind_ok_inv in E as (x & s1 & E & E'). injection E' as _ <-. unfold on_cpu in E.
    destruct (cpus u !! 0%nat) as [w|] eqn:Ew; [|done]. destruct (pop _) as [[a c]|]; [|done].
    injection E as _ <-. exists (c_vcpu c). cbn. apply list_lookup_insert_eq. by apply lookup_lt_Some in Ew. }
  rewrite (bind_ok _ _ _ _ _ (strace_pre_silent call u1 v Hc Hv (fun Ec => Hu call u1 v E Ec Hv))).
  rewrite (bind_ok _ _ _ _ _ (eq_refl : run_hook (pre_handler hypercall_null) call u1 = Ok (tt, u1))).
  destruct (call =? ELKVM_HYPERCALL_SYSCALL); [apply (handled_traced _ _ _ v); [apply handle_syscall_keeps_shape|done]|].
  destruct (call =? ELKVM_HYPERCALL_INTERRUPT); [|done].
  apply (handled_traced _ _ _ v); [apply handle_interrupt_keeps_shape|done].
Qed.

Lemma unnamed_call_faults udis u u1 v :
  get_hypercall_type u = Ok (ELKVM_HYPERCALL_SYSCALL, u1) -> cpus u1 !! 0%nat = Some v ->
  Z.of_nat (length syscalls) <= vreg v rax -> handle_hypercall hs strace_handlers udis u = Fail OutOfRange.
Proof.
  intros E Hv Hr. unfold handle_hypercall. rewrite (bind_ok _ _ _ _ _ E). apply bind_fail.
  unfold run_hook. cbn [pre_handler strace_handlers]. apply bind_fail, bind_fail.
  unfold strace_pre_message. rewrite (bind_ok _ _ _ _ _ (on_cpu_get_reg u1 v rax Hv)). apply bind_fail.
  unfold at_z. destruct (Z.ltb_spec (vreg v rax) 0); [done|]. unfold at_.
  rewrite (proj2 (lookup_ge_None _ _)); [done|lia].
Qed.
End Trace.

(** C34. Tracing is transparent.  If every system call that the guest makes has a number
    with a name in the table of [strace], the machine with the hooks of
    [strace] runs exactly as the machine without hooks: the same rounds, the
    same result, the same final state.  A number behind the table, which the
    library alone would answer with an error, makes the hook read outside of
    it. *)
Theorem strace_transparent {os T} `{HostOS os} `{FileOS os} `{KvmOS os} `{MonitorOS os} `{TranslationCache T}
    (hs : elkvm_handlers os (vm os T)) udis (s : vm os T) :
  (forall k t u, rounds (run_step hs hypercall_null udis) k tt s tt t ->
     stops udis t hypercall_exit u -> named_call u) ->
  run hs strace_handlers udis s = run hs hypercall_null udis s /\
  (forall k t, rounds (run_step hs strace_handlers udis) k tt s tt t <->
               rounds (run_step hs hypercall_null udis) k tt s tt t) /\
  (forall u u1 v, get_hypercall_type u = Ok (ELKVM_HYPERCALL_SYSCALL, u1) -> cpus u1 !! 0%nat = Some v ->
     Z.of_nat (length syscalls) <= vreg v rax -> handle_hypercall hs strace_handlers udis u = Fail OutOfRange).
Proof.
  intros Hn.
  assert (forall k y t, rounds (run_step hs hypercall_null udis) k tt s y t ->
            run_step hs hypercall_null udis y t = run_step hs strace_handlers udis y t) as Hstep.
  { intros k [] t Hk. rewrite !run_step_eq. apply bind_cong. intros [reason|err] s1 E; [|done].
    apply bind_cong. intros [] u Ep. unfold after_stop.
    destruct (Z.eqb_spec reason hypercall_exit) as [->|]; [|done]. unfold bind.
    rewrite (handle_hypercall_traced hs udis u); [done|]. apply (Hn k t u Hk). by exists s1. }
  split_and!; [symmetry; by apply while_cong|intros k t; by apply rounds_cong|apply unnamed_call_faults].
Qed.

(** The condition on one state, evaluated. *)
Definition named_callb {os T} `{HostOS os} `{KvmOS os} `{TranslationCache T} (udis : bool) (t : vm os T) : bool :=
  match enter_guest t with
  | Ok (inl reason, s1) =>
      match print_info udis s1 with
      | Ok (_, u) =>
          match get_hypercall_type u with
          | Ok (call, u1) =>
              match cpus u1 !! 0%nat with
              | Some v => (0 <=? vreg v rax) && (vreg v rax <? Z.of_nat (length syscalls))
              | None => true
              end
          | Fail _ => true
          end
      | Fail _ => true
      end
  | _ => true
  end.

Lemma named_callb_ok {os T} `{HostOS os} `{KvmOS os} `{TranslationCache T} udis (t u : vm os T) reason :
  named_callb udis t = true -> stops udis t reason u -> named_call u.
Proof.
  unfold named_callb. intros Hb (s1 & E1 & E2) call u1 v E _ Hv. rewrite E1, E2, E, Hv in Hb.
  apply andb_true_iff in Hb as [Hlo%Z.leb_le Hhi%Z.ltb_lt]. done.
Qed.

(** A guest whose first stop is its exit with status 7. *)
Definition exit_vm : vm bump_os TLB.t :=
  after (on_cpu 0 (push 1)) (demo_vm [(rsp, 0x400010); (rax, 231); (rdi, 7)]).

Lemma strace_transparent_witness :
  run default_handlers strace_handlers false exit_vm = run default_handlers hypercall_null false exit_vm /\
  run_step default_handlers hypercall_null false tt exit_vm = Fail (Exit 7).
Proof.
  assert (run_step default_handlers hypercall_null false tt exit_vm = Fail (Exit 7)) as E
    by (vm_compute; reflexivity).
  assert (named_callb false exit_vm = true) as Hb by (vm_compute; reflexivity).
  split; [|exact E]. generalize dependent exit_vm. intros s E Hb.
  refine (proj1 (strace_transparent default_handlers false s _)).
  intros k t u Hk Hu. destruct k as [|k].
  - inversion Hk; subst. exact (named_callb_ok false _ u hypercall_exit Hb Hu).
  - inversion Hk as [|? ? ? [] ? ? ? Hs]; subst. rewrite E in Hs. discriminate Hs.
Defined.
