(* ===== verification/Proxy.v ===== *)
(** * The [proxy] monitor: [examples/proxy/main.cc]

    A monitor that runs a binary in a machine, or attaches to a process of the
    host, copies its memory and registers into a machine and goes on there.
    [TraceOS] stands for [ptrace], [waitpid], [process_vm_readv] and [/proc];
    [getopt] is modelled for the option string of the program.  What is only
    printed is left out. *)

From S2P Require Import Prelude Text Memory PageMath HostOS Tlb Pager Region RegionManager Registers Mappings Heap Vcpu Descriptors Vm Handlers Syscall SyscallStubs Hypercall Logging Environ Elf Gdb Lifecycle.
From stdpp Require Import strings.
From Stdlib Require Import Ascii.
Local Open Scope Z_scope.

Definition SIGSTOP : Z := 19.
Definition NAMEBUFSIZE : Z := 256.

(** [struct user_regs_struct]: the fields the program reads. *)
Record user_regs_struct := mkUserRegs {
  u_rax : Z; u_rbx : Z; u_rcx : Z; u_rdx : Z;
  u_r8 : Z; u_r9 : Z; u_r10 : Z; u_r11 : Z; u_r12 : Z; u_r13 : Z; u_r14 : Z; u_r15 : Z;
  u_rip : Z; u_rsp : Z; u_rbp : Z; u_rsi : Z; u_rdi : Z; u_eflags : Z; u_fs_base : Z;
}.

Class TraceOS (os : Type) := {
  (** [ptrace] with [PTRACE_ATTACH], [PTRACE_CONT] and a signal, [PTRACE_DETACH]. *)
  tr_attach : os -> Z -> Z * os;
  tr_cont : os -> Z -> Z -> Z * os;
  tr_detach : os -> Z -> Z * os;
  tr_getregs : os -> Z -> (Z * user_regs_struct) * os;
  (** [waitpid(pid, &status, 0)]: the result and what is then in [status],
      given what was in it. *)
  tr_waitpid : os -> Z -> Z -> (Z * Z) * os;
  (** The text of a file, or [None] when it cannot be opened. *)
  tr_file : os -> list Z -> option (list Z) * os;
  (** [lstat]: the result and [st_mode]; [readlink]: the result and the bytes. *)
  tr_lstat : os -> list Z -> (Z * Z) * os;
  tr_readlink : os -> list Z -> Z -> (Z * list Z) * os;
  (** [process_vm_readv] of one piece of memory: the result and the bytes. *)
  tr_readv : os -> Z -> Z -> Z -> (Z * list Z) * os;
}.

(** An [int] in decimal. *)
Definition dec_int (n : Z) : list Z := if n <? 0 then chr "-" :: dec_number (- n) else dec_number n.
Definition proc_path (pid : Z) (file : string) : list Z := str "/proc/" ++ dec_int pid ++ str file.

(** ** Processes *)

Definition WIFSTOPPED (status : Z) : bool := Z.land status 0xff =? 0x7f.
Definition WSTOPSIG (status : Z) : Z := Z.shiftr (Z.land status 0xff00) 8.
Definition S_ISLNK (mode : Z) : bool := Z.land mode 0xf000 =? 0xa000.

Section Process.
Context {os : Type} `{TraceOS os}.
Local Abbreviation TR := (M os).

Definition tr {A} (f : os -> A * os) : TR A := fun o => Ok (f o).

(** One round of the loop in [stop_pid], with the status of the last. *)
Definition stop_pid_step (pid status : Z) : TR (Z + unit) :=
  let! '(_err, status) := tr (fun o => tr_waitpid o pid status) in
  do! (if negb (WSTOPSIG status =? SIGSTOP) then
         let! _err := tr (fun o => tr_cont o pid (WSTOPSIG status)) in ret tt
       else ret tt) in
  ret (if WIFSTOPPED status then inr tt else inl status).

Definition stop_pid (pid : Z) : TR bool :=
  let! err := tr (fun o => tr_attach o pid) in
  if ctrue err then ret false else
  do! while_ (stop_pid_step pid) 0 in
  ret true.

(** The name that is stored through [binary], if any. *)
Definition binary_for_pid (pid : Z) : TR (option (list Z)) :=
  let exe := proc_path pid "/exe" in
  let! '(err, st_mode) := tr (fun o => tr_lstat o exe) in
  if ctrue err then ret None else
  if negb (S_ISLNK st_mode) then ret None else
  let! '(err, buf) := tr (fun o => tr_readlink o exe (NAMEBUFSIZE - 1)) in
  if err =? -1 then ret None else
  do! assert_ (err <? NAMEBUFSIZE) in
  ret (Some (take (Z.to_nat err) buf)).

Definition detach_pid (pid : Z) : TR unit :=
  let! _err := tr (fun o => tr_detach o pid) in
  ret tt.
End Process.

(** ** The map of a process *)

Record Permissions := mkPerm { readable : bool; writable : bool; exec : bool }.

(** The constructor and [init]; [strlen] ends at a zero byte. *)
Definition Permissions_new {S} (s : list Z) : M S Permissions :=
  do! assert_ (3 <? length (span (fun c => negb (c =? 0)%Z) s).1)%nat in
  let! c0 := at_ s 0 in
  let! c1 := at_ s 1 in
  let! c2 := at_ s 2 in
  ret (mkPerm (c0 =? chr "r") (c1 =? chr "w") (c2 =? chr "x")).

(** [struct Mapping]. *)
Record ProcMapping := mkProcMapping { pm_start : Z; pm_end : Z; pm_perm : Permissions }.

Definition pm_size (m : ProcMapping) : Z := u64 (pm_end m - pm_start m).

(** [sz] is an [unsigned]; the mask [~(ELKVM_PAGESIZE-1)] is an [int] that becomes one. *)
Definition pm_pages (m : ProcMapping) : Z :=
  let sz := u32 (pm_end m - pm_start m) in
  let sz := if ctrue (Z.land sz (u32 (Z.lnot (ELKVM_PAGESIZE - 1)))) then u32 (sz + ELKVM_PAGESIZE) else sz in
  sz / ELKVM_PAGESIZE.

(** One line.  A number that was not read is not initialised; the permissions
    are empty then, and the assertion of their constructor fails. *)
Definition maps_line : M istream ProcMapping :=
  let! start := extract_hex in
  let! _dash := extract_char in
  let! stop := extract_hex in
  let! perms := extract_word in
  let! _dummy := getline 256 in
  do! peek in
  let! perm := Permissions_new perms in
  ret (mkProcMapping (default 0 start) (default 0 stop) perm).

Definition maps_step (regions : list ProcMapping) : M istream (list ProcMapping + list ProcMapping) :=
  let! m := maps_line in
  let! s := get in
  ret (if in_eof s then inr (regions ++ [m]) else inl (regions ++ [m])).

Definition parse_maps (text : option (list Z)) : res (list ProcMapping) :=
  let s := match text with
           | Some l => mkStream l false false
           | None => mkStream [] false true
           end in
  match while_ maps_step [] s with
  | Ok (l, _) => Ok l
  | Fail f => Fail f
  end.

Definition memory_map_for_pid {os} `{TraceOS os} (pid : Z) : M os (list ProcMapping) :=
  let! text := tr (fun o => tr_file o (proc_path pid "/maps")) in
  match parse_maps text with
  | Ok l => ret l
  | Fail f => fail f
  end.

(** What [memory_map_for_pid] logs of the regions it has found.  The sum of the
    sizes is an [unsigned]. *)
Definition region_record (m : ProcMapping) : list item :=
  let flag (b : bool) c := Str (if b then c else "-") in
  INFO "memory_map_for_pid" ++
  [Str "    ["; Hex; Num (pm_start m); Str " - "; Num (pm_end m); Str "] ";
   flag (readable (pm_perm m)) "r"; flag (writable (pm_perm m)) "w"; flag (exec (pm_perm m)) "x";
   Str " sz "; Hex; Num (pm_size m)].

Definition region_sum (regions : list ProcMapping) : Z :=
  fold_left (fun sum m => u32 (sum + pm_size m)) regions 0.

Definition memory_map_log (regions : list ProcMapping) : list (list item) :=
  [INFO "memory_map_for_pid" ++ [Str "Found "; Num (Z.of_nat (length regions)); Str " regions:"]] ++
  map region_record regions ++
  [INFO "memory_map_for_pid" ++ [Str "Totally in use: "; Num (region_sum regions); Str " Bytes."]].

(** ** The command line *)

(** The state of [getopt]: [optind] and, inside an argument with several
    options, what is left of it. *)
Record getopt_state := mkGetopt { optind : nat; nextchar : list Z }.

(** What [getopt(argc, argv, "+a:dD")] answers: an option with its argument, the
    [?] of an unknown option or a missing argument, or the end. *)
Inductive opt_char :=
  | Opt_d
  | Opt_D
  | Opt_a (optarg : list Z)
  | Opt_unknown
  | Opt_end.

(** The option [c] with [rest] behind it in its argument, which is number [i]. *)
Definition getopt_char (args : list (list Z)) (i : nat) (c : Z) (rest : list Z) : opt_char * getopt_state :=
  let next := match rest with [] => mkGetopt (S i) [] | _ => mkGetopt i rest end in
  if c =? chr "d" then (Opt_d, next)
  else if c =? chr "D" then (Opt_D, next)
  else if c =? chr "a" then
    match rest with
    | [] => match args !! S i with
            | Some a => (Opt_a a, mkGetopt (S (S i)) [])
            | None => (Opt_unknown, mkGetopt (S i) [])
            end
    | _ => (Opt_a rest, mkGetopt (S i) [])
    end
  else (Opt_unknown, next).

Definition getopt (args : list (list Z)) (g : getopt_state) : opt_char * getopt_state :=
  match nextchar g with
  | c :: rest => getopt_char args (optind g) c rest
  | [] =>
      match args !! optind g with
      | Some (d :: c :: rest) =>
          if negb (d =? chr "-") then (Opt_end, g)
          else if (c =? chr "-") && match rest with [] => true | _ => false end
          then (Opt_end, mkGetopt (S (optind g)) [])
          else getopt_char args (optind g) c rest
      | _ => (Opt_end, g)
      end
  end.

(** The variables of [main] that the loop sets. *)
Record proxy_options := mkProxyOptions {
  po_debug : bool;
  po_gdb : bool;
  po_myopts : nat;
  po_attach_pid : Z;
}.

Definition proxy_options_init : proxy_options := mkProxyOptions false false 1 (-1).

Definition set_option (o : opt_char) (p : proxy_options) : proxy_options :=
  match o with
  | Opt_d => mkProxyOptions true (po_gdb p) (S (po_myopts p)) (po_attach_pid p)
  | Opt_D => mkProxyOptions (po_debug p) true (S (po_myopts p)) (po_attach_pid p)
  | Opt_a optarg =>
      mkProxyOptions (po_debug p) (po_gdb p) (S (po_myopts p)) (s32 (default 0 (strtol 10 (optarg ++ [0]))))
  | _ => p
  end.

(** The loop: every call but the last consumes a character of an argument. *)
Fixpoint read_options (args : list (list Z)) (fuel : nat) (g : getopt_state) (p : proxy_options)
  : option (getopt_state * proxy_options) :=
  match fuel with
  | O => None
  | S n => match getopt args g with
           | (Opt_end, g) => Some (g, p)
           | (o, g) => read_options args n g (set_option o p)
           end
  end.

Definition args_fuel (args : list (list Z)) : nat := S (length (concat args)).

Definition command_line (args : list (list Z)) : option (getopt_state * proxy_options) :=
  read_options args (args_fuel args) (mkGetopt 1 []) proxy_options_init.

(** ** A machine for a process *)

Section Attach.
Context {os T : Type} `{HostOS os} `{FileOS os} `{KvmOS os} `{MonitorOS os} `{KvmDev os} `{ElfLib os} `{LibC os} `{SocketOS os} `{TraceOS os} `{TranslationCache T}.
Local Abbreviation VMM := (M (vm os T)).

(** The host of a monitor and of a machine. *)
Definition on_host {A} (c : M os A) : M (monitor os T) A :=
  zoom mo_os (fun o s => mkMonitor (mo_mem s) (mo_tlb s) o (mo_opts s) (mo_vmi s)) c.
Definition on_vm_host {A} (c : M os A) : VMM A := zoom vm_os set_vm_os c.

(** [initialize_elkvm]: every error ends the process. *)
Definition initialize_elkvm (argc argv env : Z) : M (monitor os T) unit :=
  let! err := on_dev (elkvm_init argc argv env) in
  if ctrue err then fail Aborted else ret tt.

Definition attach_options (p : Permissions) : Z :=
  let o := if writable p then Z.lor 0 PT_OPT_WRITE else 0 in
  if exec p then Z.lor o PT_OPT_EXEC else o.

(** One round of the loop over the regions. *)
Definition attach_region (pid : Z) (reg : ProcMapping) : VMM unit :=
  let! r := region_manager (allocate_region (pm_size reg) "ELVKM::attach") in
  do! region_manager (set_guest_addr_of r (pm_start reg)) in
  let! rg := region_manager (on_store (lookup_region r)) in
  let! err := pager (map_region (base_address rg) (guest_address rg) (pm_pages reg)
                                (attach_options (pm_perm reg))) in
  do! assert_ (err =? 0) in
  let! ptr := pager (get_host_p (guest_address rg)) in
  do! assert_ (negb (ptr =? 0)) in
  let! '(_bytes, data) := on_vm_host (tr (fun o => tr_readv o pid (guest_address rg) (pm_size reg))) in
  set_memory (fun m => store_bytes m (base_address rg) data).

Fixpoint attach_regions (pid : Z) (l : list ProcMapping) : VMM unit :=
  match l with
  | [] => ret tt
  | reg :: l' => do! attach_region pid reg in attach_regions pid l'
  end.

(** The registers, in the order of the program. *)
Definition attach_registers (u : user_regs_struct) : list (Reg_t * Z) := [
  (rax, u_rax u); (rbx, u_rbx u); (rcx, u_rcx u); (rdx, u_rdx u);
  (r8, u_r8 u); (r9, u_r9 u); (r10, u_r10 u); (r11, u_r11 u);
  (r12, u_r12 u); (r13, u_r13 u); (r14, u_r14 u); (r15, u_r15 u);
  (rip, u_rip u); (rsp, u_rsp u); (rbp, u_rbp u); (rsi, u_rsi u); (rdi, u_rdi u);
  (rflags, u_eflags u)
].

Fixpoint set_registers (l : list (Reg_t * Z)) : M (cpu os T) unit :=
  match l with
  | [] => ret tt
  | (r, v) :: l' => do! set_reg r v in set_registers l'
  end.

Definition set_cpu_state (u : user_regs_struct) : M (cpu os T) unit :=
  do! set_registers (attach_registers u) in
  let! f := get_seg fs in
  do! set_seg fs (set_selector 0x28 (set_base (u_fs_base u) f)) in
  let! _err := set_sregs in
  let! _err := set_regs in
  ret tt.

(** What [attach_vm] does with the machine. *)
Definition attach_process (pid : Z) : VMM unit :=
  let! regions := on_vm_host (memory_map_for_pid pid) in
  do! attach_regions pid regions in
  let! '(err, user_regs) := on_vm_host (tr (fun o => tr_getregs o pid)) in
  if ctrue err then fail Aborted else
  on_cpu 0 (set_cpu_state user_regs).

Definition attach_vm (RES_PATH : string) (pid : Z) (s : monitor os T) : res (machine os T) :=
  match (do! on_host (stop_pid pid) in initialize_elkvm 0 0 0) s with
  | Fail f => Fail f
  | Ok (_, s) =>
      match vm_create_raw hypercall_null default_handlers RES_PATH 1 false s with
      | Fail f => Fail f
      | Ok m => match machine_vm (attach_process pid) m with
                | Fail f => Fail f
                | Ok (_, m) => Ok m
                end
      end
  end.

(** ** A machine for a binary *)

(** [argv[i]]: the array ends with a null pointer. *)
Definition argument (args : list (list Z)) (i : nat) : res (option (list Z)) :=
  match args !! i with
  | Some a => Ok (Some a)
  | None => if (i =? length args)%nat then Ok None else Fail OutOfRange
  end.

Definition text_of (l : list Z) : string :=
  String.string_of_list_ascii (map (fun c => ascii_of_N (Z.to_N c)) l).

(** [argv] is the address of the array of [args]; a [std::string] is made of
    the null pointer after the hardware was created. *)
Definition run_new (RES_PATH : string) (depth : nat) (args : list (list Z)) (argv environ : Z) (myopts : nat)
    (s : monitor os T) : res (machine os T) :=
  match argument args myopts with
  | Fail f => Fail f
  | Ok binary =>
      match initialize_elkvm (s32 (Z.of_nat (length args) - Z.of_nat myopts)) (argv + 8 * Z.of_nat myopts) environ s with
      | Fail f => Fail f
      | Ok (_, s) =>
          match binary with
          | Some b => vm_create hypercall_null default_handlers RES_PATH depth (text_of b) 1 false s
          | None => create_with hypercall_null default_handlers false
                      (fun _ => do! create_virtual_hardware 1 in fail NullDeref) s
          end
      end
  end.

(** ** [main] *)

(** A session of the debugger on the machine. *)
Definition gdb_on_machine (have_udis86 : bool) (stack : nat -> Z) (m : machine os T) : res (Z * machine os T) :=
  match gdb_session (ma_syscall_handlers m) (ma_hypercall_handlers m) have_udis86 stack
          (mkGdb (ma_vm m) 0 [] (-1) 0) with
  | Fail f => Fail f
  | Ok (_, g) => Ok (0, with_vm m (g_vm g))
  end.

Definition run_machine (have_udis86 : bool) (attach_pid : Z) : M (machine os T) Z :=
  let! err := VM_run have_udis86 in
  if ctrue err then ret (-1) else
  do! (if negb (attach_pid =? -1) then machine_vm (on_vm_host (detach_pid attach_pid)) else ret tt) in
  let! err := on_machine_dev elkvm_cleanup in
  if ctrue err then ret (-1) else ret 0.

(** The status of the process and the machine at its end. *)
Definition proxy_main (RES_PATH : string) (depth : nat) (have_udis86 : bool) (stack : nat -> Z)
    (args : list (list Z)) (argv environ : Z) (s : monitor os T) : res (Z * machine os T) :=
  match command_line args with
  | None => Fail Fuel
  | Some (g, p) =>
      match (if po_attach_pid p =? -1 then
               if (length args <=? optind g)%nat then Fail (Exit EXIT_FAILURE)
               else run_new RES_PATH depth args argv environ (po_myopts p) s
             else attach_vm RES_PATH (po_attach_pid p) s) with
      | Fail f => Fail f
      | Ok m =>
          match (if po_debug p then machine_vm (VM_set_debug true) else ret tt) m with
          | Fail f => Fail f
          | Ok (_, m) =>
              if po_gdb p then gdb_on_machine have_udis86 stack m
              else run_machine have_udis86 (po_attach_pid p) m
          end
      end
  end.
End Attach.
