(* ===== verification/ProxyTheorems.v ===== *)
(** * The [proxy] monitor: theorems

    The map of a process is read as the kernel prints it; what the options of
    the command line mean; stopping a process; the size of a mapping in pages;
    one region of a process in the machine. *)

From S2P Require Import Prelude Text Memory PageMath HostOS Tlb Pager PagerTree PagerWalk PagerSpec PagerTlb PagerTheorems Region RegionManager RegionSpec RegionTheorems Registers Mappings Heap HeapSpec HeapTheorems Vcpu VcpuTheorems Descriptors Vm Handlers Syscall SyscallStubs Hypercall Environ Elf Gdb Lifecycle Proxy VmSpec.
From stdpp Require Import strings.
From Stdlib Require Import Ascii.
Local Open Scope Z_scope.

(** ** The map of a process *)

(** A line of [/proc/<pid>/maps]: the range, the permissions, whether it is
    shared, and the rest (offset, device, inode and name). *)
Record maps_entry := mkEntry { me_mapping : ProcMapping; me_shared : bool; me_rest : list Z }.

Definition perm_text (p : Permissions) (shared : bool) : list Z :=
  [if readable p then chr "r" else chr "-"; if writable p then chr "w" else chr "-";
   if exec p then chr "x" else chr "-"; if shared then chr "s" else chr "p"].

(** As the kernel prints it: [%08lx-%08lx %c%c%c%c] and the rest. *)
Definition entry_text (e : maps_entry) : list Z :=
  padded 8 (chr "0") (hex_number (pm_start (me_mapping e))) ++ chr "-" ::
  padded 8 (chr "0") (hex_number (pm_end (me_mapping e))) ++ chr " " ::
  perm_text (pm_perm (me_mapping e)) (me_shared e) ++ chr " " :: me_rest e ++ [newline].

Definition maps_text (l : list maps_entry) : list Z := concat (map entry_text l).

Definition entry_ok (e : maps_entry) : Prop :=
  is_u64 (pm_start (me_mapping e)) /\ is_u64 (pm_end (me_mapping e)) /\ Forall (fun c => c <> newline) (me_rest e).

Lemma entry_text_nonempty e : entry_text e <> [].
Proof. unfold entry_text. by intros [_ ?]%app_eq_nil. Qed.

Lemma padded_hex_nonempty n : padded 8 (chr "0") (hex_number n) <> [].
Proof.
  unfold padded. intros [_ E]%app_eq_nil. destruct (number_cons 16 n) as (l & c & En).
  unfold hex_number in E. rewrite En in E. by destruct l.
Qed.

Lemma extract_hex_padded n c l :
  is_u64 n -> hex_digit c = false -> c <> chr "x" -> c <> chr "X" ->
  extract_hex (mkStream (padded 8 (chr "0") (hex_number n) ++ c :: l) false false) =
  Ok (Some n, mkStream (c :: l) false false).
Proof.
  intros Hn Hc Hx HX. rewrite extract_hex_digits; rewrite ?padded_value; try done.
  - apply padded_hex_nonempty.
  - apply padded_digits.
  - apply Hn.
Qed.

Lemma perm_text_word p sh :
  Forall (fun c => isspace c = false) (perm_text p sh) /\
  forall S (s : S), Permissions_new (perm_text p sh) s = Ok (p, s).
Proof. destruct p as [[] [] []], sh; (split; [repeat constructor|done]). Qed.

(** The fields of a line up to the permissions. *)
Definition line_head : M istream (option Z * option Z * list Z) :=
  let! start := extract_hex in
  let! _dash := extract_char in
  let! stop := extract_hex in
  let! perms := extract_word in
  ret (start, stop, perms).

Lemma maps_line_split s :
  maps_line s = (let! '(start, stop, perms) := line_head in
                 let! _dummy := getline 256 in
                 do! peek in
                 let! perm := Permissions_new perms in
                 ret (mkProcMapping (default 0 start) (default 0 stop) perm)) s.
Proof.
  unfold maps_line, line_head, bind. destruct (extract_hex s) as [[? ?]|]; [|done].
  destruct (extract_char _) as [[? ?]|]; [|done]. destruct (extract_hex _) as [[? ?]|]; [|done].
  by destruct (extract_word _) as [[? ?]|].
Qed.

Lemma extract_word_skip c s :
  isspace c = true -> extract_word (mkStream (c :: s) false false) = extract_word (mkStream s false false).
Proof.
  intros Hc. unfold extract_word, bind. by rewrite (skip_space c s _ Hc eq_refl).
Qed.

Lemma line_head_eq e l :
  entry_ok e ->
  line_head (mkStream (entry_text e ++ l) false false) =
  Ok ((Some (pm_start (me_mapping e)), Some (pm_end (me_mapping e)), perm_text (pm_perm (me_mapping e)) (me_shared e)),
      mkStream (chr " " :: me_rest e ++ newline :: l) false false).
Proof.
  intros (Hs & He & _). unfold line_head, entry_text. repeat (rewrite <- app_assoc; cbn [app]).
  rewrite (bind_ok _ _ _ _ _ (extract_hex_padded _ (chr "-") _ Hs eq_refl ltac:(done) ltac:(done))).
  rewrite (bind_ok _ _ _ _ _ (extract_char_eq (chr "-") _ eq_refl)).
  rewrite (bind_ok _ _ _ _ _ (extract_hex_padded _ (chr " ") _ He eq_refl ltac:(done) ltac:(done))).
  erewrite bind_ok; [reflexivity|]. rewrite extract_word_skip by done.
  apply extract_word_eq; [done|apply perm_text_word|done].
Qed.

(** A line whose rest fits the buffer, and whether anything follows it. *)
Lemma maps_line_eq e l :
  entry_ok e -> (length (me_rest e) <= 254)%nat ->
  maps_line (mkStream (entry_text e ++ l) false false) =
  Ok (me_mapping e, mkStream l (match l with [] => true | _ => false end) false).
Proof.
  intros He Hl. rewrite maps_line_split, (bind_ok _ _ _ _ _ (line_head_eq e l He)).
  rewrite (bind_ok _ _ _ (chr " " :: me_rest e) (mkStream l false false)).
  2: { apply (getline_eq 256 (chr " " :: me_rest e)); [constructor; [done|apply He]|cbn; lia]. }
  rewrite (bind_ok _ _ _ tt (mkStream l (match l with [] => true | _ => false end) false)) by (by destruct l).
  rewrite (bind_ok _ _ _ _ _ (proj2 (perm_text_word _ _) _ _)). by destruct (me_mapping e).
Qed.

(** A longer one is read, but leaves the stream failed and not at its end. *)
Lemma maps_line_long e l :
  entry_ok e -> (254 < length (me_rest e))%nat ->
  exists l', maps_line (mkStream (entry_text e ++ l) false false) = Ok (me_mapping e, mkStream l' false true).
Proof.
  intros He Hl. rewrite maps_line_split, (bind_ok _ _ _ _ _ (line_head_eq e l He)).
  assert (exists x l', getline 256 (mkStream (chr " " :: me_rest e ++ newline :: l) false false) =
            Ok (x, mkStream l' false true)) as (x & l' & E).
  { unfold getline, bind at 1, get at 1. cbn [in_left good in_eof in_fail negb andb].
    change (chr " " :: me_rest e ++ newline :: l) with ((chr " " :: me_rest e) ++ newline :: l).
    rewrite span_all; [|constructor; [done|]|done].
    2: { eapply Forall_impl; [apply He|]. cbn. intros c Hc. by apply negb_true_iff, Z.eqb_neq. }
    destruct (Nat.ltb_spec (256 - 1) (length (chr " " :: me_rest e))) as [_|Hge]; [|cbn in Hge; lia].
    by eexists _, _. }
  exists l'. rewrite (bind_ok _ _ _ _ _ E). rewrite (bind_ok _ _ _ tt (mkStream l' false true)) by done.
  rewrite (bind_ok _ _ _ _ _ (proj2 (perm_text_word _ _) _ _)). by destruct (me_mapping e).
Qed.

(** On a stream that is not good nothing is read, and the permissions are empty. *)
Lemma maps_line_failed s : good s = false -> maps_line s = Fail Assert.
Proof.
  intros Hg. destruct s as [l [] []]; try done.
Qed.

(** The rounds of the loop over lines that fit. *)
Lemma maps_rounds es acc l :
  Forall (fun e => entry_ok e /\ (length (me_rest e) <= 254)%nat) es -> l <> [] ->
  rounds maps_step (length es) acc (mkStream (maps_text es ++ l) false false)
         (acc ++ map me_mapping es) (mkStream l false false).
Proof.
  intros Hes Hl. revert acc. induction Hes as [|e es [He Hf] _ IH]; intros acc.
  { rewrite app_nil_r. constructor. }
  cbn [length map].
  replace (acc ++ me_mapping e :: map me_mapping es) with ((acc ++ [me_mapping e]) ++ map me_mapping es)
    by (by rewrite <- app_assoc).
  econstructor; [|apply IH].
  unfold maps_step. unfold maps_text. cbn [map concat]. rewrite <- app_assoc.
  rewrite (bind_ok _ _ _ _ _ (maps_line_eq e _ He Hf)). unfold bind, get, ret. cbn [in_eof].
  by destruct (concat (map entry_text es) ++ l) as [|c k] eqn:E; [destruct (concat _), l|].
Qed.

(** C36. The map of a process is read as the kernel prints it.  For a file of at least one line,
    each a range, four permission characters and a rest of at most 254
    characters, [memory_map_for_pid] finds exactly the ranges and permissions of the
    lines, in their order. *)
Theorem maps_parsed (es : list maps_entry) :
  es <> [] -> Z.of_nat (length es) <= 2 ^ 64 ->
  Forall (fun e => entry_ok e /\ (length (me_rest e) <= 254)%nat) es ->
  parse_maps (Some (maps_text es)) = Ok (map me_mapping es).
Proof.
  intros Hne Hlen Hes. destruct (exists_last Hne) as (es' & e & ->).
  apply Forall_app in Hes as [Hes [[He Hf] _]%Forall_cons_1]. rewrite length_app in Hlen. cbn in Hlen.
  unfold parse_maps.
  assert (while_ maps_step [] (mkStream (maps_text (es' ++ [e])) false false)
          = Ok (map me_mapping (es' ++ [e]), mkStream [] true false)) as ->; [|done].
  apply while_rounds. exists (length es'), (map me_mapping es'), (mkStream (entry_text e) false false).
  split; [lia|]. split.
  - unfold maps_text. rewrite map_app, concat_app. cbn [map concat]. rewrite app_nil_r.
    apply (maps_rounds es' []); [done|apply entry_text_nonempty].
  - unfold maps_step. rewrite <- (app_nil_r (entry_text e)).
    rewrite (bind_ok _ _ _ _ _ (maps_line_eq e [] He Hf)). by rewrite map_app.
Qed.

(** A map that cannot be read ends the monitor.  A file that does not open or is empty,
    and a line whose rest (for instance the name of a mapped file) has more than
    254 characters, fail the assertion on the permissions, after any number of
    lines that fit and whatever follows. *)
Theorem maps_refused (es : list maps_entry) (e : maps_entry) (l : list Z) :
  Z.of_nat (length es) + 1 < 2 ^ 64 ->
  Forall (fun e => entry_ok e /\ (length (me_rest e) <= 254)%nat) es ->
  entry_ok e -> (254 < length (me_rest e))%nat ->
  parse_maps (Some (maps_text es ++ entry_text e ++ l)) = Fail Assert /\
  parse_maps None = Fail Assert /\ parse_maps (Some []) = Fail Assert.
Proof.
  intros Hlen Hes He Hf. split_and!; [|by vm_compute|by vm_compute]. unfold parse_maps.
  destruct (maps_line_long e l He Hf) as [l' E].
  rewrite (while_fault maps_step (S (length es)) [] _ (map me_mapping es ++ [me_mapping e]) (mkStream l' false true) Assert);
    [done|lia| |].
  - rewrite <- Nat.add_1_r. eapply rounds_trans.
    + apply (maps_rounds es []); [done|]. intros [E' _]%app_eq_nil. by apply entry_text_nonempty in E'.
    + econstructor; [|constructor]. unfold maps_step. by rewrite (bind_ok _ _ _ _ _ E).
  - unfold maps_step. by rewrite (bind_fail _ _ _ _ (maps_line_failed (mkStream l' false true) eq_refl)).
Qed.

Definition demo_entry (rest : list Z) : maps_entry :=
  mkEntry (mkProcMapping 0x400000 0x40b000 (mkPerm true false true)) false rest.

Lemma maps_parsed_witness :
  parse_maps (Some (maps_text [demo_entry (str "00000000 08:01 131107 /bin/cat"); demo_entry []])) =
  Ok [mkProcMapping 0x400000 0x40b000 (mkPerm true false true);
      mkProcMapping 0x400000 0x40b000 (mkPerm true false true)] /\
  entry_text (demo_entry (str "00000000 08:01 131107 /bin/cat")) =
  str "00400000-0040b000 r-xp 00000000 08:01 131107 /bin/cat" ++ [newline].
Proof.
  split; [|reflexivity].
  apply (maps_parsed [demo_entry (str "00000000 08:01 131107 /bin/cat"); demo_entry []]); [discriminate|cbn; lia|].
  repeat constructor; cbn; try lia; discriminate.
Defined.

Lemma maps_refused_witness :
  parse_maps (Some (maps_text [demo_entry []] ++ entry_text (demo_entry (replicate 255 65)) ++ [])) = Fail Assert.
Proof.
  apply (maps_refused [demo_entry []] (demo_entry (replicate 255 65)) []); [cbn; lia| | |cbn; lia].
  - repeat constructor; cbn; try lia; discriminate.
  - repeat constructor; cbn; try lia; discriminate.
Defined.

(** ** The command line *)

(** The characters that [getopt] has before it. *)
Definition getopt_left (args : list (list Z)) (g : getopt_state) : nat :=
  match nextchar g with
  | [] => length (concat (drop (optind g) args))
  | l => length l + length (concat (drop (S (optind g)) args))
  end.

Lemma drop_S_concat (args : list (list Z)) i :
  (length (concat (drop (S i) args)) <= length (concat (drop i args)))%nat.
Proof.
  destruct (args !! i) as [a|] eqn:E.
  - rewrite (drop_S _ _ _ E). cbn [concat]. rewrite length_app. lia.
  - apply lookup_ge_None in E. rewrite !drop_ge by lia. done.
Qed.

Lemma getopt_char_left args i c rest o g :
  getopt_char args i c rest = (o, g) -> o <> Opt_end /\
  (getopt_left args g <= length rest + length (concat (drop (S i) args)))%nat.
Proof.
  pose proof (drop_S_concat args (S i)) as Hd. unfold getopt_char, getopt_left.
  repeat case_match; intros [= <- <-]; cbn [nextchar optind length] in *; split; simplify_eq; try done; lia.
Qed.

Lemma getopt_progress args g o g' :
  getopt args g = (o, g') -> o <> Opt_end -> (getopt_left args g' < getopt_left args g)%nat.
Proof.
  unfold getopt. destruct g as [i [|c rest]]; cbn [optind nextchar].
  - destruct (args !! i) as [[|d [|c rest]]|] eqn:Ea; try (intros [= <- <-]; done).
    assert (getopt_left args (mkGetopt i []) = S (S (length rest)) + length (concat (drop (S i) args)))%nat as El.
    { unfold getopt_left. cbn [nextchar optind]. rewrite (drop_S _ _ _ Ea). cbn [concat]. by rewrite length_app. }
    rewrite El. case_match; [intros [= <- <-]; done|]. case_match; [intros [= <- <-]; done|].
    intros E _. apply getopt_char_left in E as [_ E]. lia.
  - intros E _. apply getopt_char_left in E as [_ E]. unfold getopt_left at 2. cbn. lia.
Qed.

Lemma read_options_total args fuel g p :
  (getopt_left args g < fuel)%nat -> exists r, read_options args fuel g p = Some r.
Proof.
  revert g p. induction fuel as [|n IH]; intros g p Hf; [lia|]. cbn [read_options].
  destruct (getopt args g) as [o g'] eqn:E.
  destruct o; [..|by eexists]; (apply IH; pose proof (getopt_progress _ _ _ _ E ltac:(done)); lia).
Qed.

Lemma lookup_by_drop {A} (l : list A) i : l !! i = drop i l !! 0%nat.
Proof. by rewrite lookup_drop, Nat.add_0_r. Qed.

Lemma read_options_flags args fuel i flags rest p :
  drop i args = map (fun b : bool => if b then str "-d" else str "-D") flags ++ rest ->
  match rest with (d :: _ :: _) :: _ => d <> chr "-" | _ => True end -> (length flags < fuel)%nat ->
  read_options args fuel (mkGetopt i []) p =
  Some (mkGetopt (i + length flags) [],
        fold_left (fun p (b : bool) => set_option (if b then Opt_d else Opt_D) p) flags p).
Proof.
  revert fuel i p. induction flags as [|b flags IH]; intros [|n] i p Hd Hr Hf; try (cbn in Hf; lia); cbn [read_options].
  - unfold getopt. cbn [nextchar optind]. rewrite (lookup_by_drop args i), Hd. cbn [map app length]. rewrite Nat.add_0_r.
    destruct rest as [|[|d [|c a]] rest]; try done. cbn. by rewrite (proj2 (Z.eqb_neq _ _) Hr).
  - cbn [map app fold_left length] in *.
    assert (getopt args (mkGetopt i []) = (if b then Opt_d else Opt_D, mkGetopt (S i) [])) as ->.
    { unfold getopt. cbn [nextchar optind]. rewrite (lookup_by_drop args i), Hd. by destruct b. }
    rewrite <- Nat.add_succ_comm.
    assert (drop (S i) args = map (fun b : bool => if b then str "-d" else str "-D") flags ++ rest) as Hd'.
    { rewrite <- Nat.add_1_r, <- drop_drop, Hd. done. }
    destruct b; by rewrite <- (IH n (S i) _ Hd' Hr ltac:(lia)).
Qed.

(** The command line.  Reading the options of [proxy] always ends.  Options given one
    by one, followed by the end or by a word that is no option, set their flags,
    and both [optind] and the program's own count [myopts] are the position behind
    them, from which [run_new] takes the binary.  Options in one word
    are counted twice: after [-dD] the count is one more than the position, and the
    word behind the binary is run. *)
Theorem options_read (args : list (list Z)) prog flags rest :
  match rest with (d :: _ :: _) :: _ => d <> chr "-" | _ => True end ->
  (exists r, command_line args = Some r) /\
  command_line (prog :: map (fun b : bool => if b then str "-d" else str "-D") flags ++ rest) =
    Some (mkGetopt (S (length flags)) [],
          mkProxyOptions (existsb id flags) (existsb negb flags) (S (length flags)) (-1)) /\
  command_line (prog :: str "-dD" :: rest) = Some (mkGetopt 2 [], mkProxyOptions true true 3 (-1)).
Proof.
  intros Hr. split_and!.
  - apply read_options_total. unfold getopt_left, args_fuel. cbn [nextchar optind].
    pose proof (drop_S_concat args 0) as Hd. cbn [drop] in *. destruct args; cbn in *; lia.
  - unfold command_line. rewrite (read_options_flags _ _ 1 flags rest); [|done|done|].
    + f_equal. f_equal. unfold proxy_options_init.
      assert (forall p, fold_left (fun p (b : bool) => set_option (if b then Opt_d else Opt_D) p) flags p =
                mkProxyOptions (po_debug p || existsb id flags) (po_gdb p || existsb negb flags)
                               (po_myopts p + length flags) (po_attach_pid p)) as ->; [|done].
      induction flags as [|[] flags IH]; intros p; cbn [fold_left existsb length]; rewrite ?IH;
        destruct p as [[] [] n a]; cbn; rewrite ?Nat.add_succ_r, ?Nat.add_0_r; try done; by rewrite ?orb_true_r.
    + unfold args_fuel. cbn [concat]. rewrite length_app, concat_app, length_app.
      assert (length flags <= length (concat (map (fun b : bool => if b then str "-d" else str "-D") flags)))%nat; [|lia].
      induction flags as [|[] flags IH]; cbn in *; lia.
  - set (args' := prog :: str "-dD" :: rest).
    assert (exists n, args_fuel args' = S (S (S n))) as [n En].
    { exists (length prog + length (concat rest) + 1)%nat. unfold args_fuel, args'. cbn [concat].
      rewrite !length_app. cbn. lia. }
    unfold command_line. rewrite En. cbn [read_options].
    assert (getopt args' (mkGetopt 1 []) = (Opt_d, mkGetopt 1 (str "D"))) as -> by done.
    assert (getopt args' (mkGetopt 1 (str "D")) = (Opt_D, mkGetopt 2 [])) as -> by done.
    assert (getopt args' (mkGetopt 2 []) = (Opt_end, mkGetopt 2 [])) as ->; [|done].
    unfold getopt, args'. destruct rest as [|[|d [|c a]] rest]; try done.
    cbn. by rewrite (proj2 (Z.eqb_neq _ _) Hr).
Qed.

Lemma options_read_witness :
  command_line [str "proxy"; str "-D"; str "-d"; str "cat"; str "-x"] =
    Some (mkGetopt 3 [], mkProxyOptions true true 3 (-1)) /\
  command_line [str "proxy"; str "-dD"; str "cat"; str "-x"] =
    Some (mkGetopt 2 [], mkProxyOptions true true 3 (-1)).
Proof.
  split; apply (options_read [] (str "proxy") [false; true] [str "cat"; str "-x"]); discriminate.
Defined.

(** ** Stopping a process *)

Class TraceLaws (os : Type) `{TraceOS os} := {
  (** Whether a traced process is stopped. *)
  stopped : os -> Z -> bool;
  (** A stop that [waitpid] reports is one. *)
  waitpid_stopped o pid st0 r st o' :
    tr_waitpid o pid st0 = ((r, st), o') -> r = pid -> WIFSTOPPED st = true -> stopped o' pid = true;
  (** [PTRACE_CONT] lets the process run. *)
  cont_runs o pid sig o' : tr_cont o pid sig = (0, o') -> stopped o' pid = false;
}.

(** Stopping a process.  When [PTRACE_ATTACH] fails, [stop_pid] says so and does nothing more.
    Otherwise it returns [true] at the first stop that [waitpid] reports, after
    any number of other reports.  The process is stopped then only if the stop was due
    to SIGSTOP: if another signal came first, the signal is passed on, which
    lets the process run, and the loop ends all the same, with the process running. *)
Theorem stop_pid_outcome {os} `{TraceLaws os} (o : os) pid err o1 :
  tr_attach o pid = (err, o1) ->
  (err <> 0 -> stop_pid pid o = Ok (false, o1)) /\
  (err = 0 -> forall k st0 o2 st o3, Z.of_nat k < 2 ^ 64 ->
     rounds (stop_pid_step pid) k 0 o1 st0 o2 ->
     tr_waitpid o2 pid st0 = ((pid, st), o3) -> WIFSTOPPED st = true ->
     (WSTOPSIG st = SIGSTOP -> stop_pid pid o = Ok (true, o3) /\ stopped o3 pid = true) /\
     (WSTOPSIG st <> SIGSTOP -> forall o4, tr_cont o3 pid (WSTOPSIG st) = (0, o4) ->
        stop_pid pid o = Ok (true, o4) /\ stopped o4 pid = false)).
Proof.
  intros Ea.
  assert (stop_pid pid o = (if ctrue err then ret false else do! while_ (stop_pid_step pid) 0 in ret true) o1) as ->.
  { unfold stop_pid, bind at 1, tr at 1. by rewrite Ea. }
  split; [intros He%ctrue_true; by rewrite He|]. intros ->.
  intros k st0 o2 st o3 Hk Hr Hw Hs. change (ctrue 0) with false. cbv iota.
  assert (forall o5, (if negb (WSTOPSIG st =? SIGSTOP) then (tr_cont o3 pid (WSTOPSIG st)).2 else o3) = o5 ->
            (do! while_ (stop_pid_step pid) 0 in ret true) o1 = Ok (true, o5)) as Hend.
  { intros o5 <-. erewrite bind_ok; [reflexivity|]. apply while_rounds. exists k, st0, o2.
    do 2 (split; [done|]). unfold stop_pid_step, tr, bind, ret. rewrite Hw.
    destruct (negb _); [|by rewrite Hs]. destruct (tr_cont o3 pid (WSTOPSIG st)). by rewrite Hs. }
  split.
  - intros E. rewrite E in Hend. split; [by apply Hend|]. by apply (waitpid_stopped o2 pid st0 pid st).
  - intros E%Z.eqb_neq o4 Hc. rewrite E in Hend. split; [apply Hend; cbn; by rewrite Hc|].
    by apply (cont_runs o3 pid (WSTOPSIG st)).
Qed.

(** A host with one process, which first stops with the signal given. *)
Record proc_os := mkProc { proc_stopped : bool; proc_signal : Z }.

#[export] Instance proc_TraceOS : TraceOS proc_os := {|
  tr_attach o pid := (if pid =? 42 then 0 else -1, o);
  tr_cont o _ _ := (0, mkProc false (proc_signal o));
  tr_detach o _ := (0, mkProc false (proc_signal o));
  tr_getregs o _ := ((0, mkUserRegs 0 0 0 0 0 0 0 0 0 0 0 0 0 0 0 0 0 0 0), o);
  tr_waitpid o pid _ := ((pid, Z.shiftl (proc_signal o) 8 + 0x7f), mkProc true (proc_signal o));
  tr_file o _ := (None, o);
  tr_lstat o _ := ((-1, 0), o);
  tr_readlink o _ _ := ((-1, []), o);
  tr_readv o _ _ _ := ((-1, []), o);
|}.

#[export] Program Instance proc_TraceLaws : TraceLaws proc_os := {| stopped o _ := proc_stopped o |}.
Next Obligation. intros o pid st0 r st o' E _ _. cbn in E. by injection E as _ _ <-. Qed.
Next Obligation. intros o pid sig o' E. cbn in E. by injection E as <-. Qed.

(** Another signal than SIGSTOP, here SIGCHLD, leaves the process running. *)
Lemma stop_pid_outcome_witness :
  stop_pid 42 (mkProc false 17) = Ok (true, mkProc false 17) /\
  stop_pid 42 (mkProc false SIGSTOP) = Ok (true, mkProc true SIGSTOP) /\
  stop_pid 43 (mkProc false 17) = Ok (false, mkProc false 17).
Proof.
  assert (tr_attach (mkProc false 17) 42 = (0, mkProc false 17)) as E1 by reflexivity.
  assert (tr_attach (mkProc false SIGSTOP) 42 = (0, mkProc false SIGSTOP)) as E2 by reflexivity.
  assert (tr_attach (mkProc false 17) 43 = (-1, mkProc false 17)) as E3 by reflexivity.
  destruct (stop_pid_outcome _ _ _ _ E1) as [_ H1], (stop_pid_outcome _ _ _ _ E2) as [_ H2],
    (stop_pid_outcome _ _ _ _ E3) as [H3 _].
  split_and!.
  - destruct (H1 eq_refl 0%nat 0 (mkProc false 17) (17 * 256 + 0x7f) (mkProc true 17)
                 ltac:(lia) (rounds_O _ _ _) eq_refl eq_refl) as [_ Hs]. apply Hs; [discriminate|reflexivity].
  - destruct (H2 eq_refl 0%nat 0 (mkProc false SIGSTOP) (SIGSTOP * 256 + 0x7f) (mkProc true SIGSTOP)
                 ltac:(lia) (rounds_O _ _ _) eq_refl eq_refl) as [Hs _]. apply Hs. reflexivity.
  - apply H3. discriminate.
Defined.

(** ** The logged sum *)

Lemma region_sum_from l a : fold_left (fun sum m => u32 (sum + pm_size m)) l (u32 a) = u32 (fold_left Z.add (map pm_size l) a).
Proof.
  revert a. induction l as [|m l IH]; intros a; cbn [fold_left map]; [done|].
  rewrite <- IH. f_equal. unfold u32. by rewrite Zplus_mod_idemp_l.
Qed.

(** The number of bytes in use that is logged is the sum of the sizes modulo
    [2 ^ 32]: it is right only for a process of less than four gigabytes. *)
Theorem region_sum_wraps l : region_sum l = u32 (fold_left Z.add (map pm_size l) 0).
Proof. exact (region_sum_from l 0). Qed.
