(* ===== verification/AttachTheorems.v ===== *)
(** * Attaching to a process: theorems

    What one mapping of the process becomes in the machine, with the number of
    pages that [pages] answers, and the registers that are copied. *)

From S2P Require Import Prelude Text Memory PageMath HostOS Tlb Pager PagerTree PagerWalk PagerSpec PagerTlb PagerTheorems Region RegionManager RegionSpec RegionTheorems Registers Mappings Heap HeapSpec HeapTheorems Vcpu VcpuTheorems Descriptors Vm Handlers Syscall SyscallStubs Hypercall Environ Elf Gdb Lifecycle Proxy VmSpec.
From stdpp Require Import strings.
Local Open Scope Z_scope.

(** ** Pages *)

Lemma pm_pages_eq m :
  pm_pages m = (let sz := u32 (pm_end m - pm_start m) in
                if sz <? 4096 then 0 else u32 (sz + 4096) / 4096).
Proof.
  unfold pm_pages. change (u32 (Z.lnot (ELKVM_PAGESIZE - 1))) with (2 ^ 32 - 2 ^ 12). cbv zeta.
  set (sz := u32 _). assert (0 <= sz < 2 ^ 32) as Hsz by (apply Z.mod_pos_bound; lia).
  rewrite land_mask, (Z.mod_small sz (2 ^ 32)) by lia. change (2 ^ 12) with 4096.
  change ELKVM_PAGESIZE with 4096. pose proof (Z.mod_pos_bound sz 4096 ltac:(lia)).
  destruct (Z.ltb_spec sz 4096).
  - rewrite (Z.mod_small sz 4096), Z.sub_diag by lia. change (ctrue 0) with false. cbv iota.
    apply Z.div_small. lia.
  - rewrite (proj2 (ctrue_true _)); [done|lia].
Qed.

(** A mapping of whole pages gets one page too many. *)
Lemma pm_pages_whole m n :
  pm_end m = pm_start m + 4096 * n -> 1 <= n < 2 ^ 20 - 1 -> pm_pages m = n + 1 /\ pm_size m = 4096 * n.
Proof.
  intros E Hn. rewrite pm_pages_eq. unfold pm_size. rewrite E.
  replace (pm_start m + 4096 * n - pm_start m) with (4096 * n) by lia. cbv zeta.
  rewrite u64_small, !u32_small by (rewrite ?u32_small; lia). split; [|done].
  destruct (Z.ltb_spec (4096 * n) 4096); [lia|].
  replace (4096 * n + 4096) with ((n + 1) * 4096) by lia. apply Z.div_mul. lia.
Qed.

(** ** One region *)

Section Attach.
Context {os T : Type} `{HostOSLaws os} `{FileOS os} `{KvmOS os} `{MonitorOS os} `{TraceOS os} `{TranslationCacheLaws T}.
Implicit Types (m : rm os T) (s : vm os T).

Definition vm_rm s : rm os T := hm_rm (v_hm s).
Definition put_rm s m : vm os T :=
  with_hm s (mkHM (mappings_for_brk (v_hm s)) (mappings_for_mmap (v_hm s)) (curbrk (v_hm s)) m).
Definition put_pager m (p : pst os T) : rm os T := mkRM (allocated_regions m) (freelists m) (rm_store m) p.

Lemma wp_region_manager {A} F (c : M (rm os T) A) Q s :
  wp F c (fun a m => Q a (put_rm s m)) (vm_rm s) -> wp F (region_manager c) Q s.
Proof. intros Hw. unfold region_manager, heap, HeapManager.on_rm. by apply wp_zoom, wp_zoom. Qed.

Lemma wp_vm_pager {A} F (c : M (pst os T) A) Q s :
  wp F c (fun a p => Q a (put_rm s (put_pager (vm_rm s) p))) (rm_pager (vm_rm s)) -> wp F (pager c) Q s.
Proof. intros Hw. unfold pager. apply wp_region_manager. by apply wp_zoom. Qed.

(** Translations survive new chunks behind the others. *)
Lemma coherent_append c0 (p p' : pst os T) l :
  coherent c0 p -> p_tlb p' = p_tlb p -> p_mem p' = p_mem p ->
  host_pml4_p (p_pager p') = host_pml4_p (p_pager p) ->
  chunks (p_pager p') = chunks (p_pager p) ++ l -> coherent c0 p'.
Proof.
  intros [Hok Hc] Et Em Ep Ec. split; [by rewrite Et|]. intros v f Hv Hp. rewrite Et. intros Hl.
  specialize (Hc v f Hv Hp Hl). unfold host_of in *.
  assert (frame_of c0 p' v = frame_of c0 p v) as -> by (unfold frame_of, leaf_of; by rewrite Em, Ep).
  destruct (frame_of c0 p v) as [g|]; [|done]. rewrite Ec.
  destruct (find _ (chunks (p_pager p))) as [c|] eqn:E; [|done].
  assert (find (fun c => contains_phys_address c (g + v mod 4096)) (chunks (p_pager p) ++ l) = Some c) as ->; [|done].
  revert E. generalize (chunks (p_pager p)) as cs. induction cs as [|d cs IH]; cbn; [done|].
  by destruct (contains_phys_address d _).
Qed.

(** Where a region of the process ends up: [r] holds the bytes [data]; every page of the
    mapping shows its page of [r], and the page behind the mapping shows
    the host's page behind [r]. *)
Record attached s (c0 : Chunk) (a n opts : Z) (data : list Z) s' : Prop := mkAttached {
  at_region : exists i r, (i ∉ allocated_regions (vm_rm s)) /\
    allocated_regions (vm_rm s') = allocated_regions (vm_rm s) ++ [i] /\
    objs (rm_store (vm_rm s')) !! i = Some r /\ Region.addr r = a /\ rsize r = 4096 * n /\
    load_bytes (p_mem (rm_pager (vm_rm s'))) (host_p r) (Z.to_nat (4096 * n)) = data /\
    (forall j, 0 <= j <= n ->
       mapped (rm_pager (vm_rm s')) c0 (a + 4096 * j)
         (host_to_guest_physical (chunks (p_pager (rm_pager (vm_rm s')))) (host_p r + 4096 * j)) opts);
  at_inv : exists N', mem_inv (vm_rm s') c0 N' /\ coherent c0 (rm_pager (vm_rm s'));
}.

(** The host's page at [x] is guest memory outside the page tables. *)
Definition guest_page m (x : Z) : Prop :=
  (x < host_pml4_p (p_pager (rm_pager m)) \/ host_pml4_p (p_pager (rm_pager m)) + ELKVM_SYSTEM_MEMSIZE <= x) /\
  host_to_guest_physical (chunks (p_pager (rm_pager m))) x <> 0.

Lemma guest_page_frame m c0 N x :
  mem_inv m c0 N -> guest_page m x -> 0 < host_to_guest_physical (chunks (p_pager (rm_pager m))) x < 2 ^ 52.
Proof.
  intros Hm [_ Hne]. unfold host_to_guest_physical, find_chunk_for_host_p in *.
  destruct (find _ _) as [d|] eqn:Ed; [|done]. apply find_some in Ed as [Hd Hdx]. apply list_elem_of_In in Hd.
  destruct (mi_chunks _ _ _ Hm) as (Hl & _ & _). pose proof (layout_chunk_ok _ _ Hl) as Hok.
  rewrite Forall_forall in Hok. specialize (Hok d Hd). destruct Hok as [D1 D2 D3 D4 D5].
  unfold Pager.contains_address in Hdx. rewrite andb_true_iff, Z.leb_le, Z.ltb_lt in Hdx.
  rewrite u64_small in * by lia. lia.
Qed.

(** Mapping a region and the page behind it. *)
Lemma map_behind m c0 N i r a n opts :
  mem_inv m c0 N -> i ∈ allocated_regions m -> objs (rm_store m) !! i = Some r -> rsize r = 4096 * n ->
  host_p r <> userspace_addr c0 -> guest_page m (host_p r + 4096 * n) ->
  1 <= n -> 0 < a -> a mod 4096 = 0 -> a + 4096 * (n + 1) <= 2 ^ 48 ->
  range_free c0 (rm_pager m) a (n + 1) -> N + 3 * (areas a (n + 1) + 1) <= 4096 ->
  wp no_fault (map_region (host_p r) a (n + 1) opts)
    (fun err p => err = 0 /\ outside (rm_pager m) p /\
       (exists N', mem_inv (put_pager m p) c0 N') /\
       (forall j, 0 <= j <= n ->
          mapped p c0 (a + 4096 * j) (host_to_guest_physical (chunks (p_pager p)) (host_p r + 4096 * j)) opts) /\
       (forall v, in_pages a (n + 1) v = false -> le_perm (trans c0 (rm_pager m) v) (trans c0 p v))) (rm_pager m).
Proof.
  intros Hm Hi Hr Hz Hne Hbehind Hn Ha Ham Htop Hfree Hroom.
  destruct (own_in m [] i (mi_rm _ _ _ Hm)) as (r' & Hr' & [[B1 B2] _ _]);
    [simpl; apply elem_of_app; by left|]. rewrite Hr in Hr'. injection Hr' as <-.
  eapply wp_mono.
  { apply (map_region_lemma (rm_pager m) c0 N (host_p r) a (n + 1) opts); try done; [|lia|by rewrite B2|apply Hm].
    intros j Hj.
    assert ((host_p r + 4096 * j < host_pml4_p (p_pager (rm_pager m)) \/
             host_pml4_p (p_pager (rm_pager m)) + ELKVM_SYSTEM_MEMSIZE <= host_p r + 4096 * j) /\
            0 < host_to_guest_physical (chunks (p_pager (rm_pager m))) (host_p r + 4096 * j) < 2 ^ 52) as [R1 R2].
    { destruct (Z.eq_dec j n) as [->|]; [split; [apply Hbehind|by eapply guest_page_frame]|].
      apply (region_h2gp m c0 N i r); try done; [unfold covers; lia|by right]. }
    split; [done|]. split; [done|]. by apply (range_free_ok m c0 a (host_p r) (n + 1) Hfree). }
  cbv beta. intros err p (-> & Ho & (N' & _ & Ht) & Hmap & Hle). destruct (outside_chunks _ _ Ho) as [Ec _].
  split; [done|]. split; [done|]. split; [exists N'; by eapply mem_inv_pager|]. split; [|done].
  intros j Hj. rewrite Ec. apply Hmap. lia.
Qed.

(** When the page behind the region is not guest memory, the mapping fails. *)
Lemma map_behind_fails m c0 N i r a n opts :
  mem_inv m c0 N -> i ∈ allocated_regions m -> objs (rm_store m) !! i = Some r -> rsize r = 4096 * n ->
  host_p r <> userspace_addr c0 -> ~ guest_page m (host_p r + 4096 * n) ->
  1 <= n -> 0 < a -> a mod 4096 = 0 -> a + 4096 * (n + 1) <= 2 ^ 48 ->
  range_free c0 (rm_pager m) a (n + 1) -> N + 3 * (areas a (n + 1) + 1) <= 4096 ->
  wp (fun f => f = Assert) (map_region (host_p r) a (n + 1) opts) (fun _ _ => False) (rm_pager m).
Proof.
  intros Hm Hi Hr Hz Hne Hbehind Hn Ha Ham Htop Hfree Hroom.
  destruct (own_in m [] i (mi_rm _ _ _ Hm)) as (r' & Hr' & [[B1 B2] _ _]);
    [simpl; apply elem_of_app; by left|]. rewrite Hr in Hr'. injection Hr' as <-.
  pose proof (areas_mono a n (n + 1) ltac:(lia) ltac:(lia)).
  apply (map_region_unbacked (rm_pager m) c0 N (host_p r) a n opts); try lia; [|apply Hm| |].
  - intros j Hj. apply (region_h2gp m c0 N i r); try done; [unfold covers; lia|by right].
  - intros j Hj. exact (range_free_ok m c0 a (host_p r) (n + 1) Hfree j ltac:(lia)).
  - unfold guest_page in Hbehind.
    destruct (decide (host_to_guest_physical (chunks (p_pager (rm_pager m))) (host_p r + 4096 * n) = 0)); [by right|].
    left. apply Decidable.not_and in Hbehind; [|unfold Decidable.decidable; lia]. destruct Hbehind as [Hb|Hb]; [lia|by destruct Hb].
Qed.

(** Neither the lookaside buffer nor memory outside the tables matters to the invariant. *)
Lemma mem_inv_same m c0 N p :
  mem_inv m c0 N -> same_tables (rm_pager m) p -> p_os p = p_os (rm_pager m) -> mem_inv (put_pager m p) c0 N.
Proof.
  intros [[I1 I2 I3 I4 I5 I6] [own Hi] M3 M4 M5 M6] Hs Eo. pose proof Hs as [Ep _].
  constructor; cbn [rm_store allocated_regions freelists rm_pager put_pager]; rewrite ?Ep; try done.
  - constructor; cbn [rm_store allocated_regions freelists rm_pager put_pager]; try done.
    + eapply heap_ok_mem; [|done]. intros x. unfold chunk_mem. cbn [rm_pager put_pager]. by rewrite Ep.
    + intros x. unfold chunk_mem. cbn [rm_pager put_pager]. rewrite Ep, Eo. apply I6.
  - exists own. by eapply same_tables_inv.
Qed.

Lemma mapped_same (p p' : pst os T) c0 N v g opts :
  tables_ok p c0 N -> same_tables p p' -> mapped p c0 v g opts -> mapped p' c0 v g opts.
Proof. intros [own Hi] Hs. unfold mapped. by rewrite (same_tables_trans p p' c0 N own v Hs Hi). Qed.

(** Mapping free pages loses no frame. *)
Lemma free_frames m c0 a n (p : pst os T) v f :
  0 <= a -> a + 4096 * n <= 2 ^ 48 -> range_free c0 (rm_pager m) a n ->
  (forall v, in_pages a n v = false -> le_perm (trans c0 (rm_pager m) v) (trans c0 p v)) ->
  frame_of c0 (rm_pager m) v = Some f -> frame_of c0 p v = Some f.
Proof.
  intros Ha Ht Hfree Hle Hf. destruct (in_pages a n v) eqn:Hin.
  - unfold in_pages in Hin. rewrite andb_true_iff, Z.leb_le, Z.ltb_lt in Hin.
    unfold frame_of in Hf. rewrite leaf_of_trans in Hf.
    rewrite (trans_vpn c0 _ v (a + 4096 * (vpn v - a / 4096))), Hfree in Hf; [done|lia|].
    rewrite vpn_page; lia.
  - unfold frame_of in *. rewrite leaf_of_trans in *. by rewrite <- (le_perm_leaf _ _ (Hle v Hin)).
Qed.

(** What holds behind the allocation, when the region has its guest address. *)
Record ready m c0 N (a n : Z) (i : rid) m1 (r : Region) : Prop := mkReady {
  rd_inv : mem_inv (with_addr m1 i r a) c0 N;
  rd_in : i ∈ allocated_regions m1;
  rd_all : allocated_regions m1 = allocated_regions m ++ [i];
  rd_new : i ∉ allocated_regions m;
  rd_size : rsize r = 4096 * n;
  rd_host : host_p r <> userspace_addr c0;
  rd_coherent : coherent c0 (rm_pager m1);
  rd_free : range_free c0 (rm_pager m1) a (n + 1);
}.

Section Process.
Variables (s : vm os T) (c0 : Chunk) (N pid : Z) (reg : ProcMapping) (n : Z).
Let m := vm_rm s.
Let a := pm_start reg.
Hypothesis Hm : mem_inv m c0 N.
Hypothesis Hco : coherent c0 (rm_pager m).
Hypothesis Htot : total_memsz (p_pager (rm_pager m)) + 2 ^ 48 <= 2 ^ 51.
Hypothesis Hroom : N + 3 * (areas a (n + 1) + 1) <= 4096.
Hypothesis Hend : pm_end reg = a + 4096 * n.
Hypothesis Hn : 1 <= n < 2 ^ 20 - 1.
Hypothesis Ha : 0 < a.
Hypothesis Ham : a mod 4096 = 0.
Hypothesis Htop : a + 4096 * (n + 1) <= 2 ^ 48.
Hypothesis Hfree : range_free c0 (rm_pager m) a (n + 1).

Lemma attach_ready i m1 :
  allocate_region (4096 * n) "ELVKM::attach" m = Ok (i, m1) ->
  exists r, objs (rm_store m1) !! i = Some r /\ ready m c0 N a n i m1 r.
Proof.
  intros E1. pose proof (allocate_region_spec m (4096 * n) "ELVKM::attach" ltac:(lia) (mi_rm _ _ _ Hm)) as Hal.
  unfold wp in Hal. rewrite E1 in Hal. pose proof Hal as [Ai Al An (r & Hr & Rz & Rf & _) _ Ak].
  assert (pagesize_align (4096 * n) = 4096 * n) as Ealn.
  { rewrite pagesize_align_eq by lia. Z.div_mod_to_equations. lia. }
  rewrite Ealn in Rz. assert (0 < 4096 * n <= 2 ^ 47) as Hsz by lia.
  destruct (allocated_mem m (4096 * n) i m1 c0 N Hsz Hm Htot Hal) as (Hm1 & Em & Etl & Ep).
  destruct (allocated_chunks m (4096 * n) i m1 Hsz Hal) as [l Ecs].
  assert (i ∈ allocated_regions m1) as Hi by (rewrite Al; apply elem_of_app; right; by left).
  exists r. split; [done|]. constructor; try done.
  - by apply with_addr_inv.
  - by eapply (new_not_tables m m1).
  - by apply (coherent_append c0 (rm_pager m) (rm_pager m1) l).
  - intros j Hj. rewrite <- (Hfree j Hj). unfold trans. by rewrite Em, Ep.
Qed.

(** What [attach_region] does with the region. *)
Lemma attach_tail F Q i m1 r :
  allocate_region (4096 * n) "ELVKM::attach" m = Ok (i, m1) -> objs (rm_store m1) !! i = Some r ->
  wp F (let! err := pager (map_region (host_p r) a (n + 1) (attach_options (pm_perm reg))) in
        do! assert_ (err =? 0) in
        let! ptr := pager (get_host_p a) in
        do! assert_ (negb (ptr =? 0)) in
        let! '(_bytes, data) := on_vm_host (tr (fun o => tr_readv o pid a (4096 * n))) in
        set_memory (fun x => store_bytes x (host_p r) data)) Q (put_rm s (with_addr m1 i r a)) ->
  wp F (attach_region pid reg) Q s.
Proof.
  intros E1 Hr Hw. destruct (pm_pages_whole reg n Hend Hn) as [Epg Esz]. unfold attach_region. rewrite Epg, Esz. fold a.
  apply wp_bind, wp_region_manager. eapply wp_ok; [exact E1|].
  apply wp_bind, wp_region_manager. eapply (set_region_addr_spec F m1 i r); [done|].
  apply wp_bind, wp_region_manager. eapply lookup_region_spec; [apply lookup_insert_eq|exact Hw].
Qed.

Lemma attach_region_lemma i m1 r data :
  allocate_region (4096 * n) "ELVKM::attach" m = Ok (i, m1) -> objs (rm_store m1) !! i = Some r ->
  ready m c0 N a n i m1 r -> guest_page m1 (host_p r + 4096 * n) ->
  Z.of_nat (length data) = 4096 * n -> Forall (fun b => 0 <= b < 256) data -> (forall o, exists b, tr_readv o pid a (4096 * n) = ((b, data), o)) ->
  wp no_fault (attach_region pid reg)
     (fun _ s' => attached s c0 a n (attach_options (pm_perm reg)) data s') s.
Proof.
  intros E1 Hr [Hm2 Hi Al An Rz Hne Hco1 Hfree1] Hb Hlen Hbytes Hread. eapply (attach_tail _ _ i m1 r); [done|done|].
  set (opts := attach_options _).
  set (m2 := with_addr m1 i r a) in *. set (r2 := set_guest_addr a r).
  assert (objs (rm_store m2) !! i = Some r2) as Hr2 by apply lookup_insert_eq.
  apply wp_bind, wp_vm_pager. eapply wp_mono.
  { apply (map_behind m2 c0 N i r2 a n opts); try done; lia. }
  intros err p (-> & Ho & (N' & Hm3) & Hmap & Hle). change (0 =? 0) with true.
  apply wp_bind, wp_assert; [intros _|done].
  destruct (outside_chunks _ _ Ho) as [Ec3 Ep3].
  assert (coherent c0 p) as Hco3.
  { eapply coherent_mono; [exact Hco1|apply Ho|done|]. intros v f.
    apply (free_frames m1 c0 a (n + 1)); [lia|lia|exact Hfree1|exact Hle]. }
  destruct (own_in m2 [] i (mi_rm _ _ _ Hm2)) as (r' & Hr' & [[B1 B2] [Z1 Z2] Bt]);
    [simpl; apply elem_of_app; by left|]. rewrite Hr2 in Hr'. injection Hr' as <-.
  change (host_p r2) with (host_p r) in *. change (rsize r2) with (rsize r) in *.
  assert (forall x, host_p r <= x < host_p r + 4096 * n ->
            (x < host_pml4_p (p_pager p) \/ host_pml4_p (p_pager p) + ELKVM_SYSTEM_MEMSIZE <= x) /\
            0 < host_to_guest_physical (chunks (p_pager p)) x < 2 ^ 52) as Hin.
  { intros x Hx. rewrite Ec3, Ep3. apply (region_h2gp m2 c0 N i r2); try done; [unfold covers; cbn; lia|by right]. }
  assert (host_of c0 p a = Some (host_p r)) as Hh.
  { specialize (Hmap 0 ltac:(lia)). rewrite !Z.mul_0_r, !Z.add_0_r in Hmap. eapply mapped_host_of; [| | | |exact Hmap].
    - rewrite Ec3. apply Hm2.
    - unfold is_u64. lia.
    - by rewrite B2.
    - apply Hin. lia. }
  apply wp_bind, wp_vm_pager. destruct (mi_tables _ _ _ Hm3) as [own Hown].
  eapply wp_mono.
  { apply (get_host_p_lemma p c0 N' own a Hown); [|done|unfold is_u64; lia|].
    - eapply layout_chunk_ok. apply (mi_chunks _ _ _ Hm3).
    - rewrite page_begin_eq by (unfold is_u64; lia). rewrite Ham. lia. }
  rewrite Hh. intros ptr p1 (-> & Hco4 & Em4 & Ep4 & Eo4).
  change (default 0 (Some (host_p r))) with (host_p r).
  apply wp_bind, wp_assert; [intros _|intros E; exfalso; apply negb_false_iff, Z.eqb_eq in E; lia].
  apply wp_bind. unfold on_vm_host. apply wp_zoom.
  match goal with |- wp _ (tr _) _ ?o => destruct (Hread o) as [b Eb] end.
  unfold tr, wp at 1. change (guest_address r2) with a. rewrite Eb. unfold set_memory. apply wp_vm_pager, wp_modify.
  match goal with |- attached _ _ _ _ _ _ ?s' => set (s5 := s') end.
  set (p5 := mkPst (store_bytes (p_mem p1) (host_p r) data) (p_tlb p1) (p_os p1) (p_pager p1)).
  assert (vm_rm s5 = put_pager (put_pager m2 p) p5) as E5 by reflexivity. clearbody s5.
  assert (same_tables p p5) as Hs5.
  { split; [exact Ep4|]. intros x Hx. cbn [p_mem p5]. rewrite store_bytes_other, Em4; [done|].
    destruct (decide (host_p r <= x < host_p r + 4096 * n)) as [Hx'|Hx']; [|lia]. destruct (Hin x Hx') as [[?|?] _]; lia. }
  assert (p_os p5 = p_os p) as Eo5 by exact Eo4.
  constructor; rewrite E5.
  - exists i, r2. split; [exact An|]. split; [exact Al|]. split; [exact Hr2|]. split; [done|]. split; [exact Rz|].
    split.
    + cbn [p_mem rm_pager put_pager p5]. replace (Z.to_nat (4096 * n)) with (length data) by lia.
      change (host_p r2) with (host_p r). rewrite load_store_bytes. clear -Hbytes.
      induction Hbytes as [|b l Hb _ IH]; cbn [map]; [done|]. by rewrite IH, u8_small.
    + intros j Hj. cbn [rm_pager put_pager]. rewrite (proj1 Hs5).
      eapply (mapped_same p); [apply (mi_tables _ _ _ Hm3)|exact Hs5|by apply Hmap].
  - exists N'. split; [by apply (mem_inv_same (put_pager m2 p))|]. cbn [rm_pager put_pager].
    assert (pager_inv p1 c0 N' own) as Hown1 by (eapply (same_tables_inv p); [split; [done|by rewrite Em4]|exact Hown]).
    eapply (same_tables_coherent p1); [|exact Hown1|done|done]. split; [done|]. intros x Hx. cbn [p_mem p5].
    rewrite store_bytes_other; [done|]. rewrite Ep4 in Hx.
    destruct (decide (host_p r <= x < host_p r + 4096 * n)) as [Hx'|Hx']; [|lia]. destruct (Hin x Hx') as [[?|?] _]; lia.
Qed.

Lemma attach_region_fails i m1 r :
  allocate_region (4096 * n) "ELVKM::attach" m = Ok (i, m1) -> objs (rm_store m1) !! i = Some r ->
  ready m c0 N a n i m1 r -> ~ guest_page m1 (host_p r + 4096 * n) -> attach_region pid reg s = Fail Assert.
Proof.
  intros E1 Hr [Hm2 Hi Al An Rz Hne Hco1 Hfree1] Hb.
  assert (wp (fun f => f = Assert) (attach_region pid reg) (fun _ _ => False) s) as Hw.
  { eapply (attach_tail _ _ i m1 r); [done|done|]. apply wp_bind, wp_vm_pager. eapply (wp_mono _ _ (fun _ _ => False)); [|by intros err p []].
    apply (map_behind_fails (with_addr m1 i r a) c0 N i (set_guest_addr a r) a n); try done; try lia. apply lookup_insert_eq. }
  unfold wp in Hw. destruct (attach_region pid reg s) as [[? ?]|f]; [done|by subst].
Qed.
End Process.
End Attach.

(** C35. Attaching one mapping of a process.  On a sound machine with less than 2^51 - 2^48 bytes of memory and room
    for the page tables, let the process have [n] pages
    at page-aligned [a], with [n] at least 1 and below 2^20 - 1 (beyond, the 32-bit count of pages wraps around),
    free in the machine like the page behind them.
    If the region of these [n] pages cannot be allocated, [attach_region] ends in that fault.  Otherwise,
    because [pages] answers [n + 1], everything depends on the host's page behind the new region.
    If it is not guest memory, or belongs to the page tables, an assertion fails.
    If it is, [attach_region] maps every page of [a] to its page of the region with the
    permissions of the mapping, leaves in the region the bytes that were read from the
    process, and maps the page behind, which the process does not have, to that
    foreign page of guest memory. *)
Theorem attach_region_correct {os T} `{HostOSLaws os} `{FileOS os} `{KvmOS os} `{MonitorOS os} `{TraceOS os} `{TranslationCacheLaws T}
    (s : vm os T) c0 N pid reg n data :
  let m := vm_rm s in let a := pm_start reg in let alloc := allocate_region (4096 * n) "ELVKM::attach" m in
  mem_inv m c0 N -> coherent c0 (rm_pager m) -> total_memsz (p_pager (rm_pager m)) + 2 ^ 48 <= 2 ^ 51 ->
  N + 3 * (areas a (n + 1) + 1) <= 4096 ->
  pm_end reg = a + 4096 * n -> 1 <= n < 2 ^ 20 - 1 -> 0 < a -> a mod 4096 = 0 -> a + 4096 * (n + 1) <= 2 ^ 48 ->
  range_free c0 (rm_pager m) a (n + 1) ->
  Z.of_nat (length data) = 4096 * n -> Forall (fun b => 0 <= b < 256) data ->
  (forall o, exists b, tr_readv o pid a (4096 * n) = ((b, data), o)) ->
  (forall f, alloc = Fail f -> attach_region pid reg s = Fail f) /\
  (forall i m1, alloc = Ok (i, m1) ->
     exists r, objs (rm_store m1) !! i = Some r /\
       (~ guest_page m1 (host_p r + 4096 * n) -> attach_region pid reg s = Fail Assert) /\
       (guest_page m1 (host_p r + 4096 * n) ->
        exists s', attach_region pid reg s = Ok (tt, s') /\
                   attached s c0 a n (attach_options (pm_perm reg)) data s')).
Proof.
  intros m a alloc Hm Hco Htot Hroom Hend Hn Ha Ham Htop Hfree Hlen Hbytes Hread. split.
  - intros f E. unfold attach_region. destruct (pm_pages_whole reg n Hend Hn) as [_ ->].
    apply bind_fail. unfold region_manager, heap, HeapManager.on_rm, zoom. fold (vm_rm s). fold m alloc. by rewrite E.
  - intros i m1 E. edestruct (attach_ready s c0 N reg n) as (r & Hr & Hrd); [eassumption..|].
    exists r. split; [done|]. split; intros Hb.
    + by eapply (attach_region_fails s c0 N pid reg n).
    + assert (wp no_fault (attach_region pid reg) (fun _ s' => attached s c0 a n (attach_options (pm_perm reg)) data s') s)
        as Hw by (eapply (attach_region_lemma s c0 N pid reg n); eassumption).
      destruct (wp_total_inv _ _ _ Hw) as ([] & s' & E' & Hat). by exists s'.
Qed.

(** A host whose process answers with sevens. *)
#[export] Instance bump_TraceOS : TraceOS bump_os := {|
  tr_attach o _ := (0, o);
  tr_cont o _ _ := (0, o);
  tr_detach o _ := (0, o);
  tr_getregs o _ := ((0, mkUserRegs 0 0 0 0 0 0 0 0 0 0 0 0 0 0 0 0 0 0 0), o);
  tr_waitpid o pid _ := ((pid, SIGSTOP * 256 + 0x7f), o);
  tr_file o _ := (None, o);
  tr_lstat o _ := ((-1, 0), o);
  tr_readlink o _ _ := ((-1, []), o);
  tr_readv o _ _ n := ((n, replicate (Z.to_nat n) 7), o);
|}.

Lemma ok_inj {S A} (a b : A) (s t : S) : Ok (a, s) = Ok (b, t) -> a = b /\ s = t.
Proof. by intros [= -> ->]. Qed.

Definition attach_demo : vm bump_os TLB.t :=
  mkVM [] false heap0 3 [] [] (mkFlat None 0) [] 0.

Definition attach_demo_region : ProcMapping := mkProcMapping 0x400000 0x401000 (mkPerm true true false).

(** A machine whose last region of memory is given away as a whole: nothing of the guest lies behind it. *)
Definition attach_last : ProcMapping := mkProcMapping 0x400000 0x7400000 (mkPerm true true false).

Lemma demo_coherent : coherent demo_chunk (rm_pager (vm_rm attach_demo)).
Proof. apply coherent_fresh. vm_compute. reflexivity. Qed.

Lemma attach_region_correct_witness :
  (exists s', attach_region 42 attach_demo_region attach_demo = Ok (tt, s') /\
             attached attach_demo demo_chunk 0x400000 1 PT_OPT_WRITE (replicate 4096 7) s') /\
  attach_region 42 attach_last attach_demo = Fail Assert.
Proof.
  split.
  - assert (allocate_region 4096 "ELVKM::attach" HeapTheorems.machine
            = Ok (2%nat, after (allocate_region 4096 "ELVKM::attach") HeapTheorems.machine)) as Ea
      by (apply ok_after; vm_compute; reflexivity).
    destruct (attach_region_correct attach_demo demo_chunk 1 42 attach_demo_region 1 (replicate 4096 7) machine_mem
      demo_coherent ltac:(vm_compute; discriminate) ltac:(vm_compute; discriminate)
      eq_refl ltac:(lia) eq_refl eq_refl ltac:(vm_compute; discriminate) (fun j _ => proj2 (proj2 machine_spec) _)
      ltac:(rewrite length_replicate; reflexivity) ltac:(apply Forall_replicate; lia)
      ltac:(intros o; exists 4096; reflexivity)) as [_ Hok].
    destruct (Hok _ _ Ea) as (r & Hr & _ & Hat). apply Hat.
    assert (host_p <$> Some r = Some 0x11000000) as Eh by (rewrite <- Hr; vm_compute; reflexivity).
    injection Eh as ->. split; [right; vm_compute; discriminate|]. vm_compute. discriminate.
  - assert (allocate_region (4096 * 0x7000) "ELVKM::attach" HeapTheorems.machine
            = Ok (0%nat, after (allocate_region (4096 * 0x7000) "ELVKM::attach") HeapTheorems.machine)) as Ea
      by (apply ok_after; vm_compute; reflexivity).
    destruct (attach_region_correct attach_demo demo_chunk 1 42 attach_last 0x7000 (replicate (Z.to_nat (4096 * 0x7000)) 7) machine_mem
      demo_coherent ltac:(vm_compute; discriminate) ltac:(vm_compute; discriminate)
      eq_refl ltac:(lia) eq_refl eq_refl ltac:(vm_compute; discriminate) (fun j _ => proj2 (proj2 machine_spec) _)
      ltac:(rewrite length_replicate; apply Z2Nat.id; lia) ltac:(apply Forall_replicate; lia)
      (fun o => ex_intro _ (4096 * 0x7000) eq_refl)) as [_ Hok].
    destruct (Hok _ _ Ea) as (r & Hr & Hno & _). apply Hno.
    assert (host_p <$> Some r = Some 0x11000000) as Eh by (rewrite <- Hr; vm_compute; reflexivity).
    injection Eh as ->. intros [_ Hne]. apply Hne. vm_compute. reflexivity.
Defined.
