(* ===== verification/MemoryCalls.v ===== *)
(** * The memory system calls: theorems

    [mmap] and [brk] from the registers of the guest to its page tables: the dispatch of
    [syscall.cc] and the heap manager composed. *)

From S2P Require Import Prelude Memory PageMath HostOS Tlb Pager PagerTree PagerWalk PagerSpec PagerTlb PagerTheorems Region RegionManager RegionSpec RegionTheorems Registers Mappings Heap HeapSpec HeapTheorems Vcpu VcpuTheorems Descriptors Vm Handlers Syscall SyscallStubs Hypercall VmSpec SyscallTheorems.
From stdpp Require Import strings pretty.
Local Open Scope Z_scope.

Section Calls.
Context {os T : Type} `{HostOSLaws os} `{FileOS os} `{KvmOS os} `{MonitorOS os} `{TranslationCache T}.
Variable hs : elkvm_handlers os (vm os T).
Implicit Types s : vm os T.

Lemma heap_ok {A} (c : M (hm os T) A) s a h' : c (v_hm s) = Ok (a, h') -> heap c s = Ok (a, with_hm s h').
Proof. unfold heap, zoom. by intros ->. Qed.

(** A system call below 231 that returns. *)
Lemma syscall_returns s v (f : M (vm os T) Z) name r s' :
  cpus s !! 0%nat = Some v -> 0 <= vreg v rax < 231 ->
  elkvm_syscalls hs !! Z.to_nat (vreg v rax) = Some (Some (f, name)) ->
  f s = Ok (r, s') -> cpus s' = cpus s ->
  handle_syscall hs s = Ok (0, put_reg s' v rax (u64 r)).
Proof.
  intros Hv Hn Hf Er Ec. rewrite (handle_syscall_eq hs s v) by (done || lia).
  replace (313 <=? vreg v rax) with false by (symmetry; lia). rewrite andb_false_r.
  replace (313 <? vreg v rax) with false by (symmetry; lia). rewrite Hf, (bind_ok _ _ _ _ _ Er).
  change NR_exit_group with 231. replace (vreg v rax =? 231) with false by (symmetry; lia).
  apply set_syscall_return_eq. by rewrite Ec.
Qed.

(** A system call that ends the process. *)
Lemma syscall_fails s v (f : M (vm os T) Z) name e :
  cpus s !! 0%nat = Some v -> 0 <= vreg v rax < 231 ->
  elkvm_syscalls hs !! Z.to_nat (vreg v rax) = Some (Some (f, name)) ->
  f s = Fail e -> handle_syscall hs s = Fail e.
Proof.
  intros Hv Hn Hf Er. rewrite (handle_syscall_eq hs s v) by (done || lia).
  replace (313 <=? vreg v rax) with false by (symmetry; lia). rewrite andb_false_r.
  replace (313 <? vreg v rax) with false by (symmetry; lia). rewrite Hf. by apply bind_fail.
Qed.

Lemma pagesize_align_idem len : 0 <= len <= 2 ^ 40 -> pagesize_align (pagesize_align len) = pagesize_align len.
Proof.
  intros Hl. rewrite (pagesize_align_eq len) by lia.
  rewrite pagesize_align_eq; Z.div_mod_to_equations; lia.
Qed.

(** [mmap] of the library without handlers, for an anonymous mapping. *)
Lemma do_mmap_eq s v ref h' mp :
  cpus s !! 0%nat = Some v -> h_mmap_before hs = None -> h_mmap_after hs = None ->
  HeapManager.get_mapping (vreg v rdi) (vreg v rsi) (s32 (vreg v rdx)) (s32 (vreg v r10)) (s32 (vreg v r8))
    (s64 (vreg v r9)) (v_hm s) = Ok (ref, h') ->
  HeapManager.load_ref ref h' = Ok (mp, h') -> Mapping.anonymous mp = true ->
  elkvm_do_mmap hs s = Ok (Mapping.guest_address mp, with_hm s h').
Proof.
  intros Hv Hb Ha Eg El Han. unfold elkvm_do_mmap. rewrite (bind_ok _ _ _ _ _ (unpack6_eq s v Hv)).
  rewrite (bind_ok _ _ _ _ _ (heap_ok _ _ _ _ Eg)). rewrite Hb, Ha. rewrite (bind_ok _ _ _ 0 (with_hm s h')) by done.
  assert (heap (HeapManager.load_ref ref) (with_hm s h') = Ok (mp, with_hm s h')) as Er by exact (heap_ok _ (with_hm s h') _ _ El).
  rewrite (bind_ok _ _ _ _ _ Er). rewrite Han. cbn [negb].
  rewrite (bind_ok _ _ _ tt (with_hm s h')) by done. rewrite (bind_ok _ _ _ 0 (with_hm s h')) by done.
  change (0 <? 0) with false. cbv iota. by rewrite (bind_ok _ _ _ _ _ Er).
Qed.
(** What the guest gets of a mapping that was created. *)
Lemma mmap_returns s v c0 N ref h' :
  let h := v_hm s in let len := pagesize_align (vreg v rsi) in
  let prot := s32 (vreg v rdx) in let flags := s32 (vreg v r10) in
  let fd := s32 (vreg v r8) in let off := s64 (vreg v r9) in
  cpus s !! 0%nat = Some v -> vreg v rax = 9 -> h_mmap_before hs = None -> h_mmap_after hs = None ->
  ctrue (Z.land flags MAP_ANONYMOUS) = true -> pagesize_align len = len ->
  HeapManager.get_mapping (vreg v rdi) (vreg v rsi) prot flags fd off h = Ok (ref, h') ->
  created h c0 N 0 len prot flags fd off ref h' ->
  exists s' mp, handle_syscall hs s = Ok (0, put_reg s' v rax (Mapping.guest_address mp)) /\
    s' = with_hm s (v_hm s') /\
    created h c0 N 0 len prot flags fd off (Mmap (length (mappings_for_mmap h))) (v_hm s') /\
    mappings_for_mmap (v_hm s') = mappings_for_mmap h ++ [mp] /\
    0 < Mapping.guest_address mp /\ Mapping.get_length mp = len.
Proof.
  intros h len prot flags fd off Hv Hn Hbf Haf Han El Eg Hc.
  destruct (cr_mapping _ _ _ _ _ _ _ _ _ _ _ Hc) as (i & r & a & _ & Al & Hr & Rz & _ & _ & Ea & (Emm & _) & _).
  set (mp := Mapping.mk _ _ _ _ _ _ _ _ _) in Emm.
  pose proof (cr_ref _ _ _ _ _ _ _ _ _ _ _ Hc) as ->.
  assert (HeapManager.load_ref (Mmap (length (mappings_for_mmap h))) h' = Ok (mp, h')) as Eld.
  { unfold HeapManager.load_ref, bind, get, at_. by rewrite Emm, lookup_app_r, Nat.sub_diag. }
  assert (0 < host_p r < 2 ^ 47) as Hh.
  { destruct (cr_inv _ _ _ _ _ _ _ _ _ _ _ Hc) as (N' & _ & Hm').
    destruct (own_in (hm_rm h') [] i (mi_rm _ _ _ Hm')) as (r' & Hr' & [[B1 _] [Z1 _] Bt]).
    - simpl. apply elem_of_app. left. rewrite Al. apply elem_of_app. right. by left.
    - rewrite Hr in Hr'. injection Hr' as <-. lia. }
  exists (with_hm s h'), mp. split; [|split; [done|split; [done|split; [done|split; [|by cbn; rewrite Rz, El]]]]].
  - rewrite (syscall_returns s v (elkvm_do_mmap hs) "MMAP" (Mapping.guest_address mp) (with_hm s h'));
      [|done|lia|by rewrite Hn|by eapply do_mmap_eq|done].
    rewrite u64_small; [done|]. cbn. subst a. cbn. lia.
  - cbn. subst a. cbn. lia.
Qed.
End Calls.

(** C14. The [mmap] system call.  The guest calls [mmap] without a fixed place, for anonymous memory of
    at most [2 ^ 40 - 4096] bytes with some protection, on a sound machine with room for the tables and
    less than [2 ^ 51 - 2 ^ 48] bytes of memory, whose monitor has no [mmap] handlers; the requested
    address is only a hint and is ignored.  If no region can be allocated, the process ends as
    the allocation does.  If no page at the guest address that equals the host address of the new region
    shows other memory, the call succeeds: the guest gets that address in [rax], and a new
    mapping at the end of the vector owns the fresh region of exactly the length rounded
    up to pages, every page of it translated to its frame with the protection
    asked for, no other page moved, and memory sound.  If the guest has other memory there, an
    assertion of the library ends the process. *)
Theorem mmap_syscall {os T} `{HostOSLaws os} `{FileOS os} `{KvmOS os} `{MonitorOS os} `{TranslationCache T}
    (hs : elkvm_handlers os (vm os T)) (s : vm os T) v c0 N :
  let h := v_hm s in let len := pagesize_align (vreg v rsi) in
  let prot := s32 (vreg v rdx) in let flags := s32 (vreg v r10) in
  let fd := s32 (vreg v r8) in let off := s64 (vreg v r9) in
  cpus s !! 0%nat = Some v -> vreg v rax = 9 -> h_mmap_before hs = None -> h_mmap_after hs = None ->
  (vreg v rdi = 0 \/ ctrue (Z.land flags MAP_FIXED) = false) -> ctrue (Z.land flags MAP_ANONYMOUS) = true ->
  0 < vreg v rsi <= 2 ^ 40 - 4096 -> requested_prot prot = true ->
  mem_inv (hm_rm h) c0 N -> total_memsz (p_pager (rm_pager (hm_rm h))) + 2 ^ 48 <= 2 ^ 51 ->
  N + 3 * (len / 4096 / 512 + 3) <= 4096 ->
  match allocate_region len (String.append "mapping with fd: " (pretty fd)) (hm_rm h) with
  | Fail e => handle_syscall hs s = Fail e
  | Ok (i, m1) => exists r, objs (rm_store m1) !! i = Some r /\
      let open_ := range_ok m1 c0 (host_p r) (host_p r) (len / 4096) in
      (open_ -> exists s' mp, handle_syscall hs s = Ok (0, put_reg s' v rax (Mapping.guest_address mp)) /\
         s' = with_hm s (v_hm s') /\
         created h c0 N 0 len prot flags fd off (Mmap (length (mappings_for_mmap h))) (v_hm s') /\
         mappings_for_mmap (v_hm s') = mappings_for_mmap h ++ [mp] /\
         0 < Mapping.guest_address mp /\ Mapping.get_length mp = len) /\
      (~ open_ -> handle_syscall hs s = Fail Assert)
  end.
Proof.
  intros h len prot flags fd off Hv Hn Hbf Haf Hfix Han Hlen Hp Hm Htot Hroom.
  assert (0 < len <= 2 ^ 40 /\ pagesize_align len = len) as [Hl El].
  { unfold len. rewrite pagesize_align_idem by lia. split; [|done].
    destruct (pagesize_align_bounds (vreg v rsi)); lia. }
  set (create := HeapManager.create_mapping (os := os) (T := T) 0 len prot flags fd off None).
  assert (HeapManager.get_mapping (vreg v rdi) (vreg v rsi) prot flags fd off h = create h) as Eg.
  { unfold HeapManager.get_mapping. fold len.
    replace (negb (vreg v rdi =? 0) && ctrue (Z.land flags MAP_FIXED)) with false; [done|].
    destruct Hfix as [->| ->]; [done|by rewrite andb_false_r]. }
  assert (forall e, create h = Fail e -> handle_syscall hs s = Fail e) as Hfail.
  { intros e Ec. apply (syscall_fails hs s v (elkvm_do_mmap hs) "MMAP"); [done|lia|by rewrite Hn|].
    unfold elkvm_do_mmap. rewrite (bind_ok _ _ _ _ _ (unpack6_eq s v Hv)). apply bind_fail. unfold heap, zoom.
    fold h prot flags fd off. by rewrite Eg, Ec. }
  destruct (allocate_region _ _ _) as [[i m1]|e] eqn:Ea.
  2: { apply Hfail. unfold create, HeapManager.create_mapping. rewrite El. apply bind_fail.
       unfold HeapManager.on_rm, zoom. by rewrite Ea. }
  pose proof (wp_partial_inv _ _ _ _ _ _ (allocate_region_spec (hm_rm h) len _ ltac:(lia) (mi_rm _ _ _ Hm)) Ea)
    as [_ _ _ (r & Ho & _) _ _].
  exists r. split; [done|]. cbv zeta.
  pose proof (create_mapping_outcome h c0 N 0 len prot flags fd off i m1 r Hm Hl Hp Htot (or_introl eq_refl)) as Hw.
  rewrite El in Hw. specialize (Hw Hroom Ea Ho). unfold wp in Hw. fold create in Hw. change (place_of 0 r) with (host_p r) in Hw.
  destruct (create h) as [[ref h']|f] eqn:Ec.
  2: { destruct Hw as [-> Hno]. split; [by intros ?|intros _; by apply Hfail]. }
  destruct Hw as [Hc Hopen]. split; [intros _|by intros []].
  by apply (mmap_returns hs s v c0 N ref h').
Qed.

(** The machine of [heap1] with a guest that asks for 0x2801 bytes. *)
Definition mmap_vm : vm bump_os TLB.t :=
  mkVM [demo_vcpu [(rax, 9); (rdi, 0x7000); (rsi, 0x2801); (rdx, 3); (r10, 0x22); (r8, 2 ^ 64 - 1); (r9, 0)]]
       false heap1 3 [] [] (mkFlat None 0) [] 0.

Lemma mmap_syscall_witness :
  exists N s' mp v', handle_syscall default_handlers mmap_vm = Ok (0, put_reg s' v' rax (Mapping.guest_address mp)) /\
    created heap1 demo_chunk N 0 0x3000 3 0x22 (-1) 0 (Mmap 0) (v_hm s') /\ Mapping.get_length mp = 0x3000.
Proof.
  set (v := demo_vcpu [(rax, 9); (rdi, 0x7000); (rsi, 0x2801); (rdx, 3); (r10, 0x22); (r8, 2 ^ 64 - 1); (r9, 0)]).
  destruct busy_mem as ((N & HN & Hm) & _).
  pose proof (mmap_syscall default_handlers mmap_vm v demo_chunk N eq_refl eq_refl eq_refl eq_refl (or_intror eq_refl)
    eq_refl ltac:(split; [reflexivity|vm_compute; discriminate]) eq_refl Hm ltac:(vm_compute; discriminate)
    ltac:(change (pagesize_align (vreg v rsi) / 4096 / 512) with 0; lia)) as W.
  change (pagesize_align (vreg v rsi)) with 0x3000 in W.
  change (String.append "mapping with fd: " (pretty (s32 (vreg v r8)))) with "mapping with fd: -1"%string in W.
  change (hm_rm (v_hm mmap_vm)) with busy in W. rewrite heap1_alloc in W. destruct W as (r & Hr & Hok & _).
  apply (eq_trans (eq_sym heap1_region)) in Hr. injection Hr as <-.
  destruct (Hok (heap1_open N Hm)) as (s' & mp & E & _ & Hc & _ & _ & Hl).
  exists N, s', mp, v. split; [exact E|]. split; [exact Hc|exact Hl].
Defined.

(** C15. The [brk] system call.  With 0 the guest gets the current break and nothing changes.  With a new break,
    not below the current one, which lies behind the start of the last break mapping, that lies in the region of that mapping and for which the mapping,
    grown by the difference, still fits, on a sound machine with room for the tables on which no page
    of the grown mapping shows other memory, the guest gets the new break back, the mapping has grown by exactly
    the difference, and every page of it is translated to the region.  If the
    mapping reached to the old break, then every address from its start up to the new break
    is translated; if it did not, as after [init], the last page may be missing.  An error of
    the heap manager is handed to the guest as it is. *)
Theorem brk_syscall {os T} `{HostOSLaws os} `{FileOS os} `{KvmOS os} `{MonitorOS os} `{TranslationCache T}
    (hs : elkvm_handlers os (vm os T)) (s : vm os T) v :
  let h := v_hm s in let newbrk := vreg v rdi in
  cpus s !! 0%nat = Some v -> vreg v rax = 12 ->
  (newbrk = 0 -> handle_syscall hs s = Ok (0, put_reg s v rax (u64 (curbrk h)))) /\
  (forall c0 N l mp r, 0 < newbrk < 2 ^ 64 -> mem_inv (hm_rm h) c0 N -> mappings_for_brk h = l ++ [mp] ->
     brk_mapping (hm_rm h) c0 mp r -> Mapping.addr mp < curbrk h <= newbrk -> newbrk <= Mapping.addr mp + rsize r ->
     (let pages := (Mapping.length_ mp + (newbrk - curbrk h) + 4095) / 4096 in
      Mapping.length_ mp + (newbrk - curbrk h) <= rsize r /\
      range_ok (hm_rm h) c0 (Mapping.addr mp) (host_p r) pages /\ N + 3 * (pages / 512 + 3) <= 4096) ->
     exists h', handle_syscall hs s = Ok (0, put_reg (with_hm s h') v rax newbrk) /\
                brk_grown h c0 N newbrk l mp h' /\
                (curbrk h <= Mapping.addr mp + Mapping.length_ mp ->
                 forall x, Mapping.addr mp <= x < newbrk -> is_Some (trans c0 (rm_pager (hm_rm h')) x))) /\
  (forall e h', newbrk <> 0 -> HeapManager.brk newbrk h = Ok (e, h') -> e <> 0 ->
     handle_syscall hs s = Ok (0, put_reg (with_hm s h') v rax (u64 e))).
Proof.
  intros h newbrk Hv Hn.
  assert (forall r h', (if newbrk =? 0 then Ok (curbrk h, h)
                        else match HeapManager.brk newbrk h with
                             | Ok (e, h') => Ok (if ctrue e then e else curbrk h', h')
                             | Fail f => Fail f
                             end) = Ok (r, h') ->
            handle_syscall hs s = Ok (0, put_reg (with_hm s h') v rax (u64 r))) as Hret.
  { intros r h' E. rewrite (syscall_returns hs s v elkvm_do_brk "BRK" r (with_hm s h')); try done; [lia|by rewrite Hn|].
    unfold elkvm_do_brk. rewrite (bind_ok _ _ _ _ _ (unpack1_eq s v Hv)). fold newbrk.
    destruct (newbrk =? 0); [injection E as <- <-; by destruct s|].
    destruct (HeapManager.brk newbrk h) as [[e h1]|f] eqn:Eb; [|done]. injection E as <- <-.
    rewrite (bind_ok _ _ _ _ _ (heap_ok _ _ _ _ Eb)). by destruct (ctrue e). }
  split_and!.
  - intros E. rewrite (Hret (curbrk h) h); [by destruct s|]. by rewrite E.
  - intros c0 N l mp r Hnb Hm Hl Hb Hc Hr Hp.
    destruct (wp_total_inv _ _ _ (brk_in_place h c0 N newbrk l mp r Hm Hl Hb Hc Hr Hp)) as (e & h' & E & -> & Hg).
    exists h'. split; [|split; [done|]].
    2: { intros Hreach x Hx. by apply (brk_translated h c0 N newbrk l mp r h'). }
    rewrite (Hret newbrk h'); [by rewrite u64_small by lia|].
    replace (newbrk =? 0) with false by (symmetry; lia). rewrite E. change (ctrue 0) with false.
    by rewrite (bg_brk _ _ _ _ _ _ _ Hg).
  - intros e h' Hz E He. apply (Hret e h'). apply Z.eqb_neq in Hz. rewrite Hz, E.
    apply ctrue_true in He. by rewrite He.
Qed.

(** The heap of [data_heap] under a guest that asks for the break 0x604801. *)
Definition brk_vm (newbrk : Z) : vm bump_os TLB.t :=
  mkVM [demo_vcpu [(rax, 12); (rdi, newbrk)]] false data_heap 3 [] [] (mkFlat None 0) [] 0.

Lemma brk_syscall_witness :
  (exists s' v', handle_syscall default_handlers (brk_vm 0) = Ok (0, put_reg s' v' rax 0x602000)) /\
  (exists h' v', handle_syscall default_handlers (brk_vm 0x604801)
     = Ok (0, put_reg (with_hm (brk_vm 0x604801) h') v' rax 0x604801) /\
     brk_grown data_heap demo_chunk 1 0x604801 [] data_mapping h' /\
     is_Some (trans demo_chunk (rm_pager (hm_rm h')) 0x604800)).
Proof.
  split.
  - eexists _, (demo_vcpu [(rax, 12); (rdi, 0)]).
    apply (brk_syscall default_handlers (brk_vm 0) (demo_vcpu [(rax, 12); (rdi, 0)])); reflexivity.
  - destruct (brk_syscall default_handlers (brk_vm 0x604801) (demo_vcpu [(rax, 12); (rdi, 0x604801)]))
      as (_ & Hb & _); [reflexivity|reflexivity|].
    destruct data_heap_mem as [Hm Ht].
    destruct (Hb demo_chunk 1 [] data_mapping (set_guest_addr 0x600000 data_region)) as (h' & E & Hg & Ht').
    + vm_compute. split; reflexivity.
    + exact Hm.
    + reflexivity.
    + constructor; cbn; try (lia || done). exact data_in.
    + cbn. lia.
    + cbn. lia.
    + split; [cbn; lia|]. split; [|vm_compute; discriminate]. apply range_free_ok. intros j _. apply Ht.
    + exists h', (demo_vcpu [(rax, 12); (rdi, 0x604801)]). split; [exact E|]. split; [exact Hg|].
      apply Ht'; [vm_compute; discriminate|]. split; [vm_compute; discriminate|reflexivity].
Defined.
