(* ===== verification/FileCalls.v ===== *)
(** * [read] and [write]: theorems

    The two calls that hand a buffer of the guest to the host.  Guest memory that is
    contiguous for the guest may lie in several regions of the host, so both
    walk over regions; [read] goes on at the translation of the next guest
    address, [write] at the next address of the host. *)

From S2P Require Import Prelude Memory PageMath HostOS Tlb Pager PagerTree PagerWalk PagerSpec PagerTlb PagerTheorems Region RegionManager RegionSpec RegionTheorems Registers Mappings Heap HeapSpec HeapTheorems Vcpu VcpuTheorems Descriptors Vm Handlers Syscall SyscallStubs Hypercall VmSpec SyscallTheorems.
Local Open Scope Z_scope.

Section Buffers.
Context {os T : Type} `{HostOSLaws os} `{FileOS os} `{KvmOS os} `{MonitorOS os} `{TranslationCacheLaws T}.
Implicit Types s : vm os T.

Definition regions s : rm os T := hm_rm (v_hm s).

(** The region that holds a host address, as the region manager finds it. *)
Definition host_region s (p : Z) (reg : Region) : Prop :=
  exists r, List.find (is_region (regions s) (fun a => contains_host a p)) (allocated_regions (regions s)) = Some r /\
            objs (rm_store (regions s)) !! r = Some reg.

Definition no_host_region s (p : Z) : Prop :=
  List.find (is_region (regions s) (fun a => contains_host a p)) (allocated_regions (regions s)) = None.

Lemma region_manager_reads {A} (c : M (rm os T) A) s a :
  c (regions s) = Ok (a, regions s) -> region_manager c s = Ok (a, s).
Proof.
  destruct s as [cs d [b m k r] fd rl sg fl pe n]. cbn. intros E.
  unfold region_manager, heap, HeapManager.on_rm, zoom. cbn. by rewrite E.
Qed.

Lemma host_region_contains s p reg : host_region s p reg -> contains_host reg p = true.
Proof. intros (r & Hf & Hr). apply find_some in Hf as [_ Hc]. unfold is_region in Hc. by rewrite Hr in Hc. Qed.

Lemma find_region_eq s p r :
  List.find (is_region (regions s) (fun a => contains_host a p)) (allocated_regions (regions s)) = r ->
  region_manager (find_region_host p) s = Ok (r, s).
Proof. intros E. apply region_manager_reads. unfold find_region_host, find_region, gets. by rewrite E. Qed.

Lemma lookup_region_eq s r reg :
  objs (rm_store (regions s)) !! r = Some reg ->
  region_manager (on_store (lookup_region r)) s = Ok (reg, s).
Proof.
  intros E. apply region_manager_reads. unfold on_store, zoom, lookup_region, bind, get. cbn. rewrite E. cbn.
  by destruct (regions s).
Qed.

Lemma same_region_eq s p q reg :
  host_region s p reg -> region_manager (same_region p q) s = Ok (contains_host reg q, s).
Proof.
  intros (r & Hf & Hr). apply region_manager_reads. unfold same_region, find_region_host, find_region, gets, bind at 1.
  rewrite Hf. unfold bind at 1, deref, ret at 1. unfold on_store, zoom, lookup_region, bind, get. cbn. rewrite Hr. cbn.
  by destruct (regions s).
Qed.

(** Neither a translation nor the host changes the regions. *)
Lemma host_regions {A} (c : handler os A) s a s' :
  host c s = Ok (a, s') -> allocated_regions (regions s') = allocated_regions (regions s) /\
                           rm_store (regions s') = rm_store (regions s) /\ cpus s' = cpus s.
Proof.
  unfold host, pager, region_manager, heap, HeapManager.on_rm, on_pager, zoom.
  destruct (c _) as [[b [me o]]|]; [|done]. cbn. intros [= _ <-]. done.
Qed.

Lemma host_region_same s s' p reg :
  allocated_regions (regions s') = allocated_regions (regions s) -> rm_store (regions s') = rm_store (regions s) ->
  host_region s p reg -> host_region s' p reg.
Proof.
  unfold host_region, is_region. intros -> ->. done.
Qed.

Lemma no_host_region_same s s' p :
  allocated_regions (regions s') = allocated_regions (regions s) -> rm_store (regions s') = rm_store (regions s) ->
  no_host_region s p -> no_host_region s' p.
Proof. unfold no_host_region, is_region. intros -> ->. done. Qed.

Lemma tlb_step_regions c0 N v s s' :
  tlb_step c0 N v s s' -> allocated_regions (regions s') = allocated_regions (regions s) /\
                          rm_store (regions s') = rm_store (regions s).
Proof. intros ([t ->] & _). done. Qed.

Lemma while_last {X A} (body : X -> M (vm os T) (X + A)) x s a t :
  body x s = Ok (inr a, t) -> while_ body x s = Ok (a, t).
Proof. intros E. apply while_rounds. exists 0%nat, x, s. split; [lia|]. split; [constructor|done]. Qed.

Lemma while_second {X A} (body : X -> M (vm os T) (X + A)) x s y t a u :
  body x s = Ok (inl y, t) -> body y t = Ok (inr a, u) -> while_ body x s = Ok (a, u).
Proof.
  intros E1 E2. apply while_rounds. exists 1%nat, y, t. split; [lia|]. split; [|done].
  econstructor; [exact E1|constructor].
Qed.

(** *** [write] *)

Section Write.
Variables (write : Z -> Z -> Z -> handler os Z) (fd : Z).

(** The bytes from [p] to the end of its region. *)
Definition space_of (reg : Region) (p : Z) : Z := u64 (host_p reg + rsize reg - p).

(** How [n] bytes at the host address [p] are written when [total] bytes are done, by [k] pieces and an
    end: a piece goes to the end of the region of [p] as long as the last byte lies outside of it; the next
    one starts behind the bytes the host has taken of it, at the next address of the host. *)
Inductive writes : vm os T -> Z -> Z -> Z -> nat -> res (Z * vm os T) -> Prop :=
  | writes_last s p n total reg :
      host_region s p reg -> contains_host reg (u64 (p + n - 1)) = true ->
      writes s p n total 0
        ((let! a := host (write (s32 fd) p n) in if a <? 0 then neg_errno else ret (s64 (total + a))) s)
  | writes_fault s p n total reg f :
      host_region s p reg -> contains_host reg (u64 (p + n - 1)) = false ->
      host (write (s32 fd) p (space_of reg p)) s = Fail f -> writes s p n total 0 (Fail f)
  | writes_error s p n total reg a t :
      host_region s p reg -> contains_host reg (u64 (p + n - 1)) = false ->
      host (write (s32 fd) p (space_of reg p)) s = Ok (a, t) -> a < 0 -> writes s p n total 0 (neg_errno t)
  | writes_lost s p n total reg a t :
      host_region s p reg -> contains_host reg (u64 (p + n - 1)) = false ->
      host (write (s32 fd) p (space_of reg p)) s = Ok (a, t) -> 0 <= a -> no_host_region s (u64 (p + a)) ->
      writes s p n total 0 (Fail NullDeref)
  | writes_more s p n total reg a t k out :
      host_region s p reg -> contains_host reg (u64 (p + n - 1)) = false ->
      host (write (s32 fd) p (space_of reg p)) s = Ok (a, t) -> 0 <= a ->
      writes t (u64 (p + a)) (u64 (n - a)) (s64 (total + a)) k out -> writes s p n total (S k) out.

Lemma writes_region s p n total k out : writes s p n total k out -> exists reg, host_region s p reg.
Proof. destruct 1; eauto. Qed.

(** A round of the loop when the last byte lies outside of the region. *)
Lemma write_step_split s reg p n total r :
  objs (rm_store (regions s)) !! r = Some reg -> contains_host reg p = true ->
  contains_host reg (u64 (p + n - 1)) = false ->
  write_step write fd (p, n, total, r) s =
    match host (write (s32 fd) p (space_of reg p)) s with
    | Fail f => Fail f
    | Ok (a, t) =>
        if a <? 0 then match neg_errno t with Ok (e, u) => Ok (inr (Some e, (p, n, total, r)), u) | Fail f => Fail f end
        else match List.find (is_region (regions t) (fun x => contains_host x (u64 (p + a)))) (allocated_regions (regions t)) with
             | Some r' => Ok (inl (u64 (p + a), u64 (n - a), s64 (total + a), r'), t)
             | None => Fail NullDeref
             end
    end.
Proof.
  intros Hr Hp Hc. unfold write_step. rewrite (bind_ok _ _ _ _ _ (lookup_region_eq _ _ _ Hr)). rewrite Hc.
  rewrite (bind_ok _ _ _ (space_of reg p) s) by (unfold of_res, space_after_address; by rewrite Hp).
  unfold bind at 1. destruct (host _ s) as [[a t]|f]; [|done]. destruct (a <? 0); [done|].
  rewrite (bind_ok _ _ _ _ _ (find_region_eq t (u64 (p + a)) _ eq_refl)). by destruct (List.find _ _).
Qed.

Lemma write_step_last s reg p n total r :
  objs (rm_store (regions s)) !! r = Some reg -> contains_host reg (u64 (p + n - 1)) = true ->
  write_step write fd (p, n, total, r) s = Ok (inr (None, (p, n, total, r)), s).
Proof. intros Hr Hc. unfold write_step. rewrite (bind_ok _ _ _ _ _ (lookup_region_eq _ _ _ Hr)). by rewrite Hc. Qed.

(** What [elkvm_do_write] does behind the loop, for a buffer whose last byte is at [last]. *)
Definition write_end (last : Z) (x : option Z * (Z * Z * Z * rid)) : M (vm os T) Z :=
  match x with
  | (Some e, _) => ret e
  | (None, (current_buf, remaining_count, total, r)) =>
      let! reg := region_manager (on_store (lookup_region r)) in
      do! assert_ (contains_host reg last) in
      let! result := host (write (s32 fd) current_buf remaining_count) in
      if result <? 0 then neg_errno else ret (s64 (total + result))
  end.

(** The last byte of the buffer stays where it is, so the assertion behind the loop holds. *)
Lemma last_byte p n a : u64 (u64 (p + a) + u64 (n - a) - 1) = u64 (p + n - 1).
Proof.
  unfold u64. rewrite <- Zminus_mod_idemp_l, <- Zplus_mod, Zminus_mod_idemp_l. f_equal. lia.
Qed.

Lemma same_find s t p :
  allocated_regions (regions t) = allocated_regions (regions s) -> rm_store (regions t) = rm_store (regions s) ->
  List.find (is_region (regions t) (fun x => contains_host x p)) (allocated_regions (regions t)) =
  List.find (is_region (regions s) (fun x => contains_host x p)) (allocated_regions (regions s)).
Proof. unfold is_region. by intros -> ->. Qed.

Lemma writes_loop s p n total k out :
  writes s p n total k out -> Z.of_nat k < 2 ^ 64 -> forall r,
  List.find (is_region (regions s) (fun x => contains_host x p)) (allocated_regions (regions s)) = Some r ->
  (let! x := while_ (write_step write fd) (p, n, total, r) in write_end (u64 (p + n - 1)) x) s = out.
Proof.
  intros Hw Hk r Hf.
  assert (exists y t, rounds (write_step write fd) k (p, n, total, r) s y t /\
    match write_step write fd y t with
    | Ok (inr x, u) => write_end (u64 (p + n - 1)) x u = out | Ok (inl _, _) => False | Fail f => out = Fail f end)
    as (y & t & Hr & Hy).
  2: { destruct (write_step write fd y t) as [[[z|x] u]|f] eqn:E; [done| |].
       - rewrite (bind_ok _ _ _ x u); [done|]. apply while_rounds. by exists k, y, t.
       - subst out. apply bind_fail. by eapply while_fault. }
  clear Hk. revert r Hf. induction Hw as [s p n total reg Hr Hc|s p n total reg f Hr Hc E|s p n total reg a t Hr Hc E Ha|
    s p n total reg a t Hr Hc E Ha Hno|s p n total reg a t k out Hr Hc E Ha Hw IH]; intros r Hf;
    pose proof (host_region_contains _ _ _ Hr) as Hp; destruct Hr as (r' & Hf' & Ho); rewrite Hf in Hf'; injection Hf' as <-.
  1: { exists (p, n, total, r), s. split; [constructor|]. rewrite (write_step_last _ _ _ _ _ _ Ho Hc).
       unfold write_end. rewrite (bind_ok _ _ _ _ _ (lookup_region_eq s r reg Ho)). by rewrite Hc. }
  1-3: exists (p, n, total, r), s; (split; [constructor|]); rewrite (write_step_split _ _ _ _ _ _ Ho Hp Hc), E.
  - done.
  - replace (a <? 0) with true by (symmetry; lia). by destruct (neg_errno t) as [[e u]|f] eqn:En.
  - replace (a <? 0) with false by (symmetry; lia). destruct (host_regions _ _ _ _ E) as (Ea & Es & _).
    rewrite (same_find s t _ Ea Es). unfold no_host_region in Hno. by rewrite Hno.
  - destruct (writes_region _ _ _ _ _ _ Hw) as (reg' & r' & Hf' & Ho').
    destruct (IH r' Hf') as (y & u & Hrs & Hy). exists y, u. rewrite last_byte in Hy. split; [|done].
    econstructor; [|exact Hrs]. rewrite (write_step_split _ _ _ _ _ _ Ho Hp Hc), E.
    replace (a <? 0) with false by (symmetry; lia). by rewrite Hf'.
Qed.

(** Nothing else happens: a call that returns was written in this way. *)
Lemma loop_writes s p n total r b u :
  List.find (is_region (regions s) (fun x => contains_host x p)) (allocated_regions (regions s)) = Some r ->
  Forall (fun i => is_Some (objs (rm_store (regions s)) !! i)) (allocated_regions (regions s)) ->
  (let! x := while_ (write_step write fd) (p, n, total, r) in write_end (u64 (p + n - 1)) x) s = Ok (b, u) ->
  exists k, Z.of_nat k < 2 ^ 64 /\ writes s p n total k (Ok (b, u)).
Proof.
  intros Hf Hall E. apply bind_ok_inv in E as (x & t & Ew & Ee). apply while_rounds in Ew as (k & y & t' & Hk & Hr & Hy).
  exists k. split; [done|]. clear Hk.
  remember (p, n, total, r) as x0 eqn:Ex0 in Hr. revert p n total r Ex0 Hf Hall Hy Ee.
  induction Hr as [x0 s|k x0 s y0 t0 z u0 Hb Hr IH]; intros p n total r -> Hf Hall Hy Ee.
  all: assert (exists reg, objs (rm_store (regions s)) !! r = Some reg) as [reg Ho]
    by (rewrite Forall_forall in Hall; apply find_some in Hf as [Hin _]; apply list_elem_of_In in Hin; exact (Hall r Hin)).
  all: assert (host_region s p reg) as Hreg by (by exists r); pose proof (host_region_contains _ _ _ Hreg) as Hp.
  all: destruct (contains_host reg (u64 (p + n - 1))) eqn:Hc;
    [try rewrite (write_step_last _ _ _ _ _ _ Ho Hc) in Hy; try rewrite (write_step_last _ _ _ _ _ _ Ho Hc) in Hb
    |try rewrite (write_step_split _ _ _ _ _ _ Ho Hp Hc) in Hy; try rewrite (write_step_split _ _ _ _ _ _ Ho Hp Hc) in Hb].
  - injection Hy as <- <-. unfold write_end in Ee. rewrite (bind_ok _ _ _ _ _ (lookup_region_eq s r reg Ho)), Hc in Ee.
    rewrite (bind_ok _ _ _ tt s) in Ee by done. rewrite <- Ee. by eapply writes_last.
  - destruct (host _ s) as [[a t1]|f] eqn:Eh; [|done]. destruct (Z.ltb_spec a 0) as [Ha|Ha].
    + destruct (neg_errno t1) as [[e u1]|f] eqn:En; [|done]. injection Hy as <- <-. cbn in Ee. injection Ee as <- <-.
      rewrite <- En. by eapply writes_error.
    + by case_match.
  - done.
  - destruct (host _ s) as [[a t1]|f] eqn:Eh; [|done]. destruct (Z.ltb_spec a 0) as [Ha|Ha].
    + by destruct (neg_errno t1) as [[e u1]|f].
    + case_match; [|done]. injection Hb as <- <-.
      destruct (host_regions _ _ _ _ Eh) as (Ea & Es & _).
      eapply writes_more; [done|done|done|done|]. eapply IH; [done|done|by rewrite Ea, Es|done|]. by rewrite last_byte.
Qed.

(** *** A buffer over several regions *)

(** [n] bytes at [p] run over the regions of the list, which lie one behind the other in the host. *)
Fixpoint spans s (p n : Z) (regs : list Region) : Prop :=
  match regs with
  | [] => False
  | reg :: rest =>
      host_region s p reg /\
      match rest with
      | [] => p + n <= host_p reg + rsize reg
      | _ => let e := host_p reg + rsize reg in e < p + n /\ spans s e (p + n - e) rest
      end
  end.

(** The pieces of such a buffer. *)
Fixpoint pieces (p n : Z) (regs : list Region) : list (Z * Z) :=
  match regs with
  | [] => []
  | reg :: rest =>
      match rest with
      | [] => [(p, n)]
      | _ => let e := host_p reg + rsize reg in (p, e - p) :: pieces e (p + n - e) rest
      end
  end.

(** The host takes every piece as a whole. *)
Fixpoint takes (l : list (Z * Z)) s t : Prop :=
  match l with
  | [] => t = s
  | (p, n) :: l => exists u, host (write (s32 fd) p n) s = Ok (n, u) /\ takes l u t
  end.

Lemma spans_same s s' regs p n :
  allocated_regions (regions s') = allocated_regions (regions s) -> rm_store (regions s') = rm_store (regions s) ->
  spans s p n regs -> spans s' p n regs.
Proof.
  intros Ea Es. revert p n. induction regs as [|reg rest IH]; intros p n; [done|]. cbn [spans].
  intros [Hr Hrest]. split; [by eapply host_region_same|]. destruct rest as [|reg' rest]; [done|].
  destruct Hrest as [He Hs]. split; [done|]. by apply IH.
Qed.

Lemma spans_writes s t p n total regs :
  0 <= p -> 0 < n -> p + n <= 2 ^ 64 -> 0 <= total -> total + n < 2 ^ 63 ->
  spans s p n regs -> takes (pieces p n regs) s t ->
  writes s p n total (pred (length regs)) (Ok (total + n, t)).
Proof.
  revert s p n total. induction regs as [|reg rest IH]; intros s p n total Hp0 Hn Htop Ht0 Htt Hs Ht; [done|].
  cbn [spans] in Hs. destruct Hs as [Hr Hs]. pose proof (host_region_contains _ _ _ Hr) as Hin.
  unfold contains_host in Hin. apply andb_true_iff in Hin as [Hlo%Z.leb_le Hhi%Z.ltb_lt].
  destruct rest as [|reg' rest]; cbn [pieces takes length pred] in *.
  - destruct Ht as (u & E & ->).
    replace (Ok (total + n, u)) with
      ((let! a := host (write (s32 fd) p n) in if a <? 0 then neg_errno else ret (s64 (total + a))) s).
    + apply (writes_last s p n total reg Hr). unfold contains_host. rewrite u64_small by lia. lia.
    + rewrite (bind_ok _ _ _ _ _ E). replace (n <? 0) with false by (symmetry; lia). by rewrite s64_small by lia.
  - set (e := host_p reg + rsize reg) in *. destruct Hs as [He Hs]. destruct Ht as (u & E & Ht).
    assert (space_of reg p = e - p) as Esp by (unfold space_of; fold e; apply u64_small; lia).
    destruct (host_regions _ _ _ _ E) as (Ea & Es & _).
    eapply (writes_more s p n total reg (e - p) u); [done| |by rewrite Esp|lia|].
    + unfold contains_host. rewrite u64_small by lia. fold e. lia.
    + rewrite !u64_small, s64_small by lia. replace (p + (e - p)) with e by lia.
      replace (n - (e - p)) with (p + n - e) by lia. replace (total + n) with (total + (e - p) + (p + n - e)) by lia.
      apply IH; [lia..| |done]. by eapply spans_same.
Qed.
End Write.

(** What [elkvm_do_write] is after its arguments are translated. *)
Lemma do_write_start hs write s v c0 N hp r :
  vm_ok s v c0 N -> h_write hs = Some write -> guest_ptr c0 s (vreg v rsi) hp ->
  List.find (is_region (regions s) (fun a => contains_host a hp)) (allocated_regions (regions s)) = Some r ->
  exists s1, tlb_step c0 N v s s1 /\
    elkvm_do_write hs s =
      (let! x := while_ (write_step write (vreg v rdi)) (hp, vreg v rdx, 0, r) in
       write_end write (vreg v rdi) (u64 (hp + vreg v rdx - 1)) x) s1.
Proof.
  intros Hok Hw Hg Hf. destruct (ptr_eq c0 N v s (vreg v rsi) hp Hok (arg_ptr _ _ _ _ Hg)) as (s1 & E & _ & Hst & _).
  exists s1. split; [done|]. unfold elkvm_do_write. rewrite Hw. cbn [with_handler].
  rewrite (bind_ok _ _ _ _ _ (unpack3_eq s v (vo_cpu _ _ _ _ Hok))). rewrite (bind_ok _ _ _ _ _ E).
  assert (region_manager (find_region_host hp) s1 = Ok (Some r, s1)) as Er.
  { apply find_region_eq. destruct (tlb_step_regions _ _ _ _ _ Hst) as [Ea Es]. unfold is_region. by rewrite Ea, Es. }
  rewrite (bind_ok _ _ _ _ _ Er). rewrite (bind_ok _ _ _ tt s1) by done. rewrite (bind_ok _ _ _ r s1) by done.
  unfold bind at 1. symmetry. unfold bind at 1. symmetry.
  destruct (while_ _ _ _) as [[[early [[[p n] total] q]] u]|]; [|done]. by destruct early.
Qed.

(** *** [read] *)

Section Read.
Variables (read : Z -> Z -> Z -> handler os Z) (fd buf_p bend : Z).

(** One round: the bytes up to the end of the region or of the buffer. *)
Lemma read_step_eq s v c0 N mark n total hp reg :
  vm_ok s v c0 N -> guest_ptr c0 s mark hp -> host_region s hp reg -> mark = buf_p \/ hp = host_p reg ->
  let want := Z.min n (host_p reg + rsize reg - hp) in
  0 <= want < 2 ^ 64 ->
  exists s1, tlb_step c0 N v s s1 /\
    forall k t, host (read (s32 fd) hp want) s1 = Ok (k, t) -> 0 <= k <= want ->
    read_step read fd buf_p bend (mark, n, total) s =
      Ok (if k <? want then inr (Some (total + k), n, total)
          else if contains_host reg bend then inr (None, n - k, total + k)
          else inl (u64 (mark + k), n - k, total + k), t).
Proof.
  intros Hok Hg Hr Hm want Hwant. pose proof (host_region_contains _ _ _ Hr) as Hin.
  apply andb_true_iff in Hin as [Hlo%Z.leb_le Hhi%Z.ltb_lt].
  destruct (ptr_eq c0 N v s mark hp Hok (arg_ptr _ _ _ _ Hg)) as (s1 & _ & E & Hst & _).
  exists s1. split; [done|]. intros k t Ek Hk. destruct (tlb_step_regions _ _ _ _ _ Hst) as [Ea Es].
  pose proof (host_region_same s s1 hp reg Ea Es Hr) as Hr1. pose proof Hr1 as (r & Hf & Ho).
  unfold read_step. rewrite (bind_ok _ _ _ _ _ E). rewrite (bind_ok _ _ _ _ _ (find_region_eq s1 hp _ Hf)).
  rewrite (bind_ok _ _ _ r s1) by done. rewrite (bind_ok _ _ _ _ _ (lookup_region_eq s1 r reg Ho)).
  rewrite (bind_ok _ _ _ tt s1).
  2:{ destruct (Z.eqb_spec mark buf_p) as [|Hne]; [done|]. destruct Hm as [?|Hb]; [done|]. unfold base_address.
      rewrite Hb, Z.eqb_refl. done. }
  change (last_valid_address reg) with (host_p reg + rsize reg).
  rewrite (bind_ok _ _ _ tt s1) by (by replace (hp <? host_p reg + rsize reg) with true by (symmetry; apply Z.ltb_lt; lia)).
  replace (if n <? host_p reg + rsize reg - hp then n else host_p reg + rsize reg - hp) with want
    by (unfold want; destruct (Z.ltb_spec n (host_p reg + rsize reg - hp)); lia).
  rewrite (u64_small want) by (unfold is_u64; lia). rewrite (bind_ok _ _ _ _ _ Ek).
  replace (k <? 0) with false by (symmetry; apply Z.ltb_ge; lia). destruct (k <? want); [done|].
  destruct (host_regions _ _ _ _ Ek) as (Ea' & Es' & _).
  rewrite (bind_ok _ _ _ _ _ (same_region_eq t hp bend reg (host_region_same s1 t hp reg Ea' Es' Hr1))).
  by destruct (contains_host reg bend).
Qed.
End Read.

Lemma do_read_start hs read s v c0 N hp he reg :
  vm_ok s v c0 N -> h_read hs = Some read -> guest_ptr c0 s (vreg v rsi) hp ->
  guest_ptr c0 s (u64 (vreg v rsi + vreg v rdx - 1)) he -> host_region s hp reg ->
  exists s1, tlb_step c0 N v s s1 /\
    elkvm_do_read hs s =
      (if contains_host reg he then host (read (s32 (vreg v rdi)) hp (vreg v rdx)) else
       let! mapped := region_manager (host_address_mapped he) in
       do! assert_ mapped in
       let! '(early, current_count, result) :=
         while_ (read_step read (vreg v rdi) (vreg v rsi) he) (vreg v rsi, s64 (vreg v rdx), 0) in
       match early with
       | Some e => ret e
       | None => do! assert_ (current_count =? 0) in ret result
       end) s1.
Proof.
  intros Hok Hh Hg He Hr. destruct (ptr_eq c0 N v s _ hp Hok (arg_ptr _ _ _ _ Hg)) as (s1 & E & _ & Hst & _).
  destruct (ptr_eq c0 N v s1 _ he ltac:(by destruct Hst as (_ & ? & _)) (arg_ptr _ _ _ _ (guest_ptr_step _ _ _ _ _ _ _ Hst He)))
    as (s2 & _ & E2 & Hst2 & _).
  pose proof (tlb_step_trans _ _ _ _ _ _ Hst Hst2) as Hst'. exists s2. split; [done|].
  unfold elkvm_do_read. rewrite Hh. cbn [with_handler].
  rewrite (bind_ok _ _ _ _ _ (unpack3_eq s v (vo_cpu _ _ _ _ Hok))). rewrite (bind_ok _ _ _ _ _ E).
  rewrite (bind_ok _ _ _ _ _ E2). destruct (tlb_step_regions _ _ _ _ _ Hst') as [Ea Es].
  rewrite (bind_ok _ _ _ _ _ (same_region_eq s2 hp he reg (host_region_same s s2 hp reg Ea Es Hr))).
  by destruct (contains_host reg he).
Qed.
End Buffers.

(** C23. The [write] system call.  When the buffer of the guest is translated to the host address
    [hp] in the region [reg], then up to the lookaside buffer the call is this, however many regions the
    buffer runs over and whatever the host answers.  As long as the last byte of the buffer lies outside the
    region of the next byte, a piece from there to the end of the region is handed to the
    host's [write]; an error ends the call with the errno negated; otherwise the call goes on behind the bytes the host
    has taken, at the next address of the host, whatever the guest has mapped behind its piece, and
    dereferences null when no region is there.  The rest goes out in a last piece, whose error is negated
    too; the result is the sum of the answers.  So a buffer inside one region is one [write] of the host; a
    buffer over any number of regions that lie one behind the other is written completely, piece by
    piece, if the host takes each; and a buffer of no bytes at the start of a region first hands the whole
    region to the host, because the byte before it lies outside. *)
Theorem write_buffer {os T} `{HostOSLaws os} `{FileOS os} `{KvmOS os} `{MonitorOS os} `{TranslationCacheLaws T}
    (hs : elkvm_handlers os (vm os T)) (s : vm os T) v c0 N write hp reg :
  let n := vreg v rdx in let fd := vreg v rdi in
  vm_ok s v c0 N -> h_write hs = Some write -> guest_ptr c0 s (vreg v rsi) hp -> host_region s hp reg ->
  exists s1, tlb_step c0 N v s s1 /\
    (forall k out, Z.of_nat k < 2 ^ 64 -> writes write fd s1 hp n 0 k out -> elkvm_do_write hs s = out) /\
    (forall b t, elkvm_do_write hs s = Ok (b, t) ->
       Forall (fun i => is_Some (objs (rm_store (regions s)) !! i)) (allocated_regions (regions s)) ->
       exists k, writes write fd s1 hp n 0 k (Ok (b, t))) /\
    (host_p reg <= hp + n - 1 < host_p reg + rsize reg -> 0 < hp + n <= 2 ^ 64 -> elkvm_do_write hs s =
       (let! result := host (write (s32 fd) hp n) in if result <? 0 then neg_errno else ret (s64 result)) s1) /\
    (forall regs t, Z.of_nat (length regs) < 2 ^ 64 -> 0 < hp -> 0 < n < 2 ^ 63 -> hp + n <= 2 ^ 64 ->
       spans s hp n regs -> takes write fd (pieces hp n regs) s1 t -> elkvm_do_write hs s = Ok (n, t)) /\
    (forall a t k out, n = 0 -> hp = host_p reg -> 0 < hp -> hp + rsize reg < 2 ^ 64 -> Z.of_nat (S k) < 2 ^ 64 ->
       host (write (s32 fd) hp (rsize reg)) s1 = Ok (a, t) -> 0 <= a ->
       writes write fd t (u64 (hp + a)) (u64 (0 - a)) (s64 (0 + a)) k out -> elkvm_do_write hs s = out).
Proof.
  intros n fd Hok Hw Hg Hr. pose proof (host_region_contains _ _ _ Hr) as Hc. pose proof Hr as (r & Hf & Ho).
  destruct (do_write_start hs write s v c0 N hp r Hok Hw Hg Hf) as (s1 & Hst & E). exists s1. split; [done|].
  fold n fd in E. destruct (tlb_step_regions _ _ _ _ _ Hst) as [Ea Es].
  pose proof (same_find s s1 hp Ea Es) as Hf1. rewrite Hf in Hf1.
  pose proof (host_region_same s s1 hp reg Ea Es Hr) as Hr1.
  assert (forall k out, Z.of_nat k < 2 ^ 64 -> writes write fd s1 hp n 0 k out -> elkvm_do_write hs s = out) as Hrun.
  { intros k out Hk Hwr. rewrite E. by eapply writes_loop. }
  unfold contains_host in Hc. apply andb_true_iff in Hc as [Hlo%Z.leb_le Hhi%Z.ltb_lt].
  split_and!; [done| | | |].
  - intros b t Eb Hall. rewrite E in Eb. rewrite <- Ea, <- Es in Hall.
    destruct (loop_writes write fd s1 hp n 0 r b t Hf1 Hall Eb) as (k & _ & Hk). by exists k.
  - intros Hin Htop. apply (Hrun 0%nat); [done|].
    apply (writes_last write fd s1 hp n 0 reg Hr1). unfold contains_host. rewrite u64_small by lia. lia.
  - intros regs t Hlen Hp Hn Htop Hsp Ht. apply (Hrun (pred (length regs))); [lia|].
    apply spans_writes; try lia; [by eapply spans_same|done].
  - intros a t k out Hn -> Hp Htop Hk Ha Ha0 Hwr. apply (Hrun (S k)); [done|]. rewrite Hn.
    eapply (writes_more write fd s1 _ 0 0 reg a t); [done| | |done|done].
    + unfold contains_host. rewrite u64_small by lia. lia.
    + unfold space_of. rewrite u64_small by lia. by replace (host_p reg + rsize reg - host_p reg) with (rsize reg) by lia.
Qed.

(** C24. The [read] system call.  When the first and the last byte of the buffer of [n] bytes are translated to
    [hp] and [he] and [hp] lies in the region [reg], then up to the lookaside buffer the call is
    this: if [he] lies there too, the host's [read] into the host addresses of the
    buffer; otherwise the host fills the region to its end, and the rest goes to where the next
    guest address is translated, which must be the start of the region of [he]; the guest gets the sum, and
    a short second piece ends the call. *)
Theorem read_buffer {os T} `{HostOSLaws os} `{FileOS os} `{KvmOS os} `{MonitorOS os} `{TranslationCacheLaws T}
    (hs : elkvm_handlers os (vm os T)) (s : vm os T) v c0 N read hp he reg :
  let n := vreg v rdx in let fd := s32 (vreg v rdi) in let space := host_p reg + rsize reg - hp in
  vm_ok s v c0 N -> h_read hs = Some read -> 0 < n < 2 ^ 63 -> guest_ptr c0 s (vreg v rsi) hp ->
  guest_ptr c0 s (u64 (vreg v rsi + n - 1)) he -> host_region s hp reg ->
  (contains_host reg he = true -> exists s1, tlb_step c0 N v s s1 /\ elkvm_do_read hs s = host (read fd hp n) s1) /\
  (contains_host reg he = false -> space < n ->
   exists s1, tlb_step c0 N v s s1 /\
     forall t reg2, host (read fd hp space) s1 = Ok (space, t) ->
     vm_ok t v c0 N -> guest_ptr c0 t (u64 (vreg v rsi + space)) (host_p reg2) -> host_region s (host_p reg2) reg2 ->
     contains_host reg2 he = true -> n - space <= rsize reg2 ->
     exists s2, tlb_step c0 N v t s2 /\
       forall k u, host (read fd (host_p reg2) (n - space)) s2 = Ok (k, u) -> 0 <= k <= n - space ->
       elkvm_do_read hs s = Ok (space + k, u)).
Proof.
  intros n fd space Hok Hh Hn Hg He Hr.
  pose proof (host_region_contains _ _ _ Hr) as Hin. apply andb_true_iff in Hin as [Hlo%Z.leb_le Hhi%Z.ltb_lt].
  destruct (do_read_start hs read s v c0 N hp he reg Hok Hh Hg He Hr) as (s0 & Hst & E). fold n fd in E. split.
  - intros Hc. rewrite Hc in E. by exists s0.
  - intros Hc Hsp. rewrite Hc in E. destruct (tlb_step_regions _ _ _ _ _ Hst) as [Ea Es].
    pose proof (host_region_same s s0 hp reg Ea Es Hr) as Hr0. replace (s64 n) with n in E by (symmetry; apply s64_small; lia).
    destruct (read_step_eq read (vreg v rdi) (vreg v rsi) he s0 v c0 N (vreg v rsi) n 0 hp reg)
      as (s1 & Hst1 & E1); [by destruct Hst as (_ & ? & _)|by eapply guest_ptr_step|done|by left|lia|].
    fold space fd in E1. rewrite (Z.min_r n space) in E1 by lia.
    exists s1. split; [by eapply tlb_step_trans|]. intros t reg2 Ht Hokt Hgt Hr2 Hc2 Hrest.
    specialize (E1 space t Ht ltac:(lia)). rewrite Z.ltb_irrefl, Hc in E1.
    destruct (tlb_step_regions _ _ _ _ _ Hst1) as [Ea1 Es1]. destruct (host_regions _ _ _ _ Ht) as (Ea2 & Es2 & _).
    pose proof (host_region_same s t _ reg2 ltac:(congruence) ltac:(congruence) Hr2) as Hr2t.
    destruct (read_step_eq read (vreg v rdi) (vreg v rsi) he t v c0 N (u64 (vreg v rsi + space)) (n - space) (0 + space)
      (host_p reg2) reg2) as (s2 & Hst2 & E2); [done..|by right|lia|].
    rewrite (Z.min_l (n - space)) in E2 by lia. exists s2. split; [done|]. intros k u Eu Hk. fold fd in E2.
    specialize (E2 k u Eu Hk). rewrite Hc2 in E2. rewrite E.
    assert (region_manager (host_address_mapped he) s0 = Ok (true, s0)) as Em.
    { apply region_manager_reads. unfold host_address_mapped, gets. do 2 f_equal. apply existsb_exists.
      destruct Hr2 as (r2 & Hf2 & Ho2). apply find_some in Hf2 as [Hi2 _]. exists r2. rewrite Ea. split; [done|].
      unfold is_region. rewrite Es, Ho2. done. }
    rewrite (bind_ok _ _ _ _ _ Em). rewrite (bind_ok _ _ _ tt s0) by done.
    destruct (Z.ltb_spec k (n - space)).
    + rewrite (bind_ok _ _ _ _ _ (while_second _ _ _ _ _ _ _ E1 E2)). done.
    + rewrite (bind_ok _ _ _ _ _ (while_second _ _ _ _ _ _ _ E1 E2)).
      replace (n - space - k =? 0) with true by (symmetry; apply Z.eqb_eq; lia). done.
Qed.

(** ** A machine with two regions *)

(** A host that takes and gives everything it is asked to. *)
Definition full_LibC : LibC bump_os := {|
  libc _ args := ret (nth 2 args 0);
  libc_iov _ _ iov _ := ret (Z.of_nat (length iov));
|}.

Definition full_handlers : elkvm_handlers bump_os (vm bump_os TLB.t) := @default_handlers bump_os full_LibC (vm bump_os TLB.t).

Definition first_region : Region := mkRegion 0x11000000 0x400000 0x800 false "first".
Definition second_region : Region := mkRegion 0x11000800 0x400800 0x800 false "second".

(** The guest page at 0x400000, whose halves belong to two regions, or to one and none. *)
Definition buffer_regions (two : bool) : rm bump_os TLB.t :=
  mkRM (if two then [0%nat; 1%nat] else [0%nat]) (replicate n_freelists [])
       (mkStore (<[0%nat := first_region]> (<[1%nat := second_region]> ∅)) 2%nat) (rm_pager (c_rm push_cpu)).

Definition buffer_vm (two : bool) (count : Z) : vm bump_os TLB.t :=
  with_hm (demo_vm [(rdi, 1); (rsi, 0x400000); (rdx, count)]) (mkHM [] [] 0 (buffer_regions two)).

Lemma buffer_paging two count : vm_paging (buffer_vm two count) = paging push_cpu.
Proof. cbv [vm_paging buffer_vm with_hm v_hm hm_rm buffer_regions rm_pager paging]. reflexivity. Qed.

Lemma buffer_vm_ok two count :
  exists N, vm_ok (buffer_vm two count) (demo_vcpu [(rdi, 1); (rsi, 0x400000); (rdx, count)]) demo_chunk N.
Proof. apply vm_ok_paging; [apply buffer_paging|done]. Qed.

Lemma buffer_first two count : host_region (buffer_vm two count) 0x11000000 first_region.
Proof. exists 0%nat. by destruct two. Qed.

Lemma buffer_second count : host_region (buffer_vm true count) 0x11000800 second_region.
Proof. exists 1%nat. done. Qed.

Lemma buffer_ptr two count : guest_ptr demo_chunk (buffer_vm two count) 0x400000 0x11000000.
Proof. split; [by vm_compute|]. split; [vm_compute; discriminate|vm_compute; reflexivity]. Qed.

(** Sixteen bytes; a buffer over both regions; and no bytes, with nothing
    behind the region. *)
Lemma write_buffer_witness :
  (exists t, elkvm_do_write full_handlers (buffer_vm true 0x10) = Ok (0x10, t)) /\
  (exists t, elkvm_do_write full_handlers (buffer_vm true 0x900) = Ok (0x900, t)) /\
  elkvm_do_write full_handlers (buffer_vm false 0) = Fail NullDeref.
Proof.
  split; [|split].
  - destruct (buffer_vm_ok true 0x10) as [N Hok].
    destruct (write_buffer full_handlers _ _ _ _ _ _ _ Hok eq_refl (buffer_ptr _ _) (buffer_first _ _)) as (s1 & _ & _ & _ & E & _).
    eexists. rewrite E; [reflexivity| |]; split; vm_compute; congruence.
  - destruct (buffer_vm_ok true 0x900) as [N Hok].
    destruct (write_buffer full_handlers _ _ _ _ _ _ _ Hok eq_refl (buffer_ptr _ _) (buffer_first _ _)) as (s1 & _ & _ & _ & _ & E & _).
    eexists. apply (E [first_region; second_region]);
      [by vm_compute|by vm_compute|by vm_compute|vm_compute; discriminate| |].
    + split; [apply buffer_first|]. split; [by vm_compute|]. split; [apply buffer_second|vm_compute; discriminate].
    + eexists. split; [reflexivity|]. eexists. split; [reflexivity|reflexivity].
  - destruct (buffer_vm_ok false 0) as [N Hok].
    destruct (write_buffer full_handlers _ _ _ _ _ _ _ Hok eq_refl (buffer_ptr _ _) (buffer_first _ _)) as (s1 & Hst & E & _).
    destruct (tlb_step_regions _ _ _ _ _ Hst) as [Ea Es].
    apply (E 0%nat); [by vm_compute|].
    eapply (writes_lost _ _ _ _ _ _ first_region 0x800); [|reflexivity|reflexivity|by vm_compute|].
    + eapply (host_region_same (buffer_vm false 0)); [exact Ea|exact Es|apply buffer_first].
    + eapply (no_host_region_same (buffer_vm false 0)); [exact Ea|exact Es|reflexivity].
Defined.

Lemma buffer_at count x y :
  is_u64 x -> page_begin x <> 0 -> host_of demo_chunk (paging push_cpu) x = Some y ->
  guest_ptr demo_chunk (buffer_vm true count) x y.
Proof.
  intros Hx Hp E. split; [exact Hx|]. split; [exact Hp|]. by rewrite buffer_paging.
Qed.

(** Sixteen bytes, and a buffer over both regions. *)
Lemma read_buffer_witness :
  (exists t, elkvm_do_read full_handlers (buffer_vm true 0x10) = Ok (0x10, t)) /\
  (exists t, elkvm_do_read full_handlers (buffer_vm true 0x900) = Ok (0x900, t)).
Proof.
  split.
  - destruct (buffer_vm_ok true 0x10) as [N Hok].
    destruct (read_buffer full_handlers _ _ _ _ _ _ 0x1100000f _ Hok eq_refl ltac:(by vm_compute) (buffer_ptr _ _)
      (buffer_at _ 0x40000f _ ltac:(by vm_compute) ltac:(vm_compute; discriminate) ltac:(vm_compute; reflexivity)) (buffer_first _ _))
      as [E _]. destruct (E eq_refl) as (s1 & _ & ->). eexists. reflexivity.
  - destruct (buffer_vm_ok true 0x900) as [N Hok].
    destruct (read_buffer full_handlers _ _ _ _ _ _ 0x110008ff _ Hok eq_refl ltac:(by vm_compute) (buffer_ptr _ _)
      (buffer_at _ 0x4008ff _ ltac:(by vm_compute) ltac:(vm_compute; discriminate) ltac:(vm_compute; reflexivity)) (buffer_first _ _))
      as [_ E]. destruct (E eq_refl ltac:(by vm_compute)) as (s1 & Hst & E1). clear E.
    destruct (E1 s1 second_region ltac:(destruct s1 as [? ? [? ? ? [? ? ? [? ? ? ?]]] ? ? ? ? ? ?]; reflexivity)
                ltac:(by destruct Hst as (_ & ? & _))
                (guest_ptr_step _ _ _ _ _ 0x400800 0x11000800 Hst
                   (buffer_at _ 0x400800 _ ltac:(by vm_compute) ltac:(vm_compute; discriminate) ltac:(vm_compute; reflexivity)))
                (buffer_second _) eq_refl ltac:(by vm_compute)) as (s2 & _ & E2).
    eexists. apply (E2 0x100); [reflexivity|by vm_compute].
Defined.
