(* ===== verification/PrintTheorems.v ===== *)
(** * The dump of the page tables shows the translation

    [dump_page_tables] under the representation invariant of the tables: it
    prints every table of the tree once, depth first, and the rows of the page
    tables are the pages that are mapped. *)

From stdpp Require Import strings.
From Stdlib Require Import Ascii.
From S2P Require Import Prelude Text Memory PageMath HostOS Tlb Pager PagerTree PagerWalk PagerSpec PagerTlb PagerTheorems Registers Mappings Heap Vcpu Print.
Local Open Scope Z_scope.

(** ** Lists *)

Lemma NoDup_concat_map {A B} (f : A -> list B) l :
  NoDup l -> (forall x, x ∈ l -> NoDup (f x)) ->
  (forall x y z, x ∈ l -> y ∈ l -> z ∈ f x -> z ∈ f y -> x = y) -> NoDup (concat (map f l)).
Proof.
  induction 1 as [|x l Hx Hl IH]; intros Hf Hd; cbn; [constructor|]. apply NoDup_app. split_and!.
  - apply Hf. set_solver.
  - intros z Hz (y & Hy & Hin)%list_elem_of_In%in_concat.
    apply in_map_iff in Hy as (w & <- & Hw%list_elem_of_In). apply list_elem_of_In in Hin.
    apply Hx. rewrite (Hd x w z); set_solver.
  - apply IH; [set_solver|]. intros a b z Ha Hb. apply Hd; set_solver.
Qed.

Lemma elem_of_concat_map {A B} (f : A -> list B) l z :
  z ∈ concat (map f l) <-> exists x, x ∈ l /\ z ∈ f x.
Proof.
  rewrite list_elem_of_In, in_concat. setoid_rewrite in_map_iff. setoid_rewrite list_elem_of_In. split.
  - intros (x & (y & <- & Hy) & Hz). eauto.
  - intros (x & Hx & Hz). eauto.
Qed.

Lemma concat_map_concat {A B C} (f : B -> list C) (g : A -> list B) l :
  concat (map (fun a => concat (map f (g a))) l) = concat (map f (concat (map g l))).
Proof. induction l as [|a l IH]; [done|]. cbn. by rewrite map_app, concat_app, IH. Qed.

(** ** A reference for the dump *)

Section Listing.
Context {os T : Type}.
Implicit Types s : pst os T.

Definition table_at s (k : Z) : Z := host_pml4_p (p_pager s) + 4096 * k.

Definition entry_at s (k i : Z) : Z := load64 (p_mem s) (tbl_ent (host_pml4_p (p_pager s)) k i).

(** The entries of table [k] that are present, from entry [i] on. *)
Definition shown_from s (k : Z) (i n : nat) : list nat :=
  filter (fun j => present (entry_at s k (Z.of_nat j)) = true) (seq i n).

Definition shown s (k : Z) : list nat := shown_from s k 0 512.

(** The table an inner entry leads to. *)
Definition child s (c0 : Chunk) (k i : Z) : Z :=
  (Z.land (entry_at s k i) ADDR_MASK + userspace_addr c0 - host_pml4_p (p_pager s)) / 4096.

(** The tables below and at table [k], which has level [l] and serves the
    addresses with [p] in the bits above: level, [p] and number of each. *)
Fixpoint listing s (c0 : Chunk) (l : nat) (p k : Z) : list (nat * Z * Z) :=
  match l with
  | O => []
  | S l' => (l, p, k) :: concat (map (fun i => listing s c0 l' (p * 512 + Z.of_nat i) (child s c0 k (Z.of_nat i)))
                                     (shown s k))
  end.

Definition rows_from s (k : Z) (i n : nat) : list Z :=
  concat (map (fun j => dump_row j (entry_at s k (Z.of_nat j))) (shown_from s k i n)).

(** The section of one table. *)
Definition table_text s (x : nat * Z * Z) : list Z :=
  let '(l, _, k) := x in
  table_head l (table_at s k) (host_to_guest_physical (chunks (p_pager s)) (table_at s k)) ++
  rows_from s k 0 512 ++ line " --------" ++ [newline].

Lemma elem_of_shown s k i : i ∈ shown s k <-> (i < 512)%nat /\ present (entry_at s k (Z.of_nat i)) = true.
Proof. unfold shown, shown_from. rewrite list_elem_of_filter, elem_of_seq. split; intros [? ?]; split; done || lia. Qed.

Lemma NoDup_shown s k : NoDup (shown s k).
Proof. apply NoDup_filter, NoDup_seq. Qed.

Section Tree.
Context (s : pst os T) (c0 : Chunk) (N : Z) (own : Z -> Z * Z) (Hinv : pager_inv s c0 N own).

(** Table [k] has level [l] and serves [p]. *)
Definition serves (l : nat) (p k : Z) : Prop :=
  0 <= k < N /\ own k = (Z.of_nat l, p) /\ 0 <= p < 512 ^ (4 - Z.of_nat l).

Lemma serves_root : serves 4 0 0.
Proof.
  destruct Hinv as [_ _ Ht]. pose proof (tr_count _ _ _ _ _ Ht).
  split_and!; try lia. apply (tr_root _ _ _ _ _ Ht).
Qed.

(** A present entry of an inner table leads to a table behind the first. *)
Lemma child_serves l p k i :
  (1 <= l <= 3)%nat -> serves (S l) p k -> i ∈ shown s k ->
  serves l (p * 512 + Z.of_nat i) (child s c0 k (Z.of_nat i)) /\
  Z.land (entry_at s k (Z.of_nat i)) ADDR_MASK + userspace_addr c0 = table_at s (child s c0 k (Z.of_nat i)) /\
  0 < child s c0 k (Z.of_nat i).
Proof.
  intros Hl (Hk & Ek & Hp) [Hi Hpr]%elem_of_shown. destruct Hinv as [Hg _ Ht].
  destruct (tr_present _ _ _ _ _ Ht k (Z.of_nat i)) as (j & Hj & Ej & Ef);
    [done|rewrite Ek; cbn [fst]; lia|lia|done|].
  rewrite Ek in Ej. cbn [fst snd] in Ej. replace (Z.of_nat (S l) - 1) with (Z.of_nat l) in Ej by lia.
  assert (child s c0 k (Z.of_nat i) = j) as ->.
  { unfold child, entry_at. rewrite Ef. symmetry. apply Z.div_unique_exact; lia. }
  assert (j <> 0) as Hj0 by (intros ->; rewrite (tr_root _ _ _ _ _ Ht) in Ej; injection Ej; lia).
  split_and!; [|unfold entry_at, table_at; rewrite Ef; lia|lia].
  split_and!; [lia..|done|lia|].
  replace (4 - Z.of_nat l) with (4 - Z.of_nat (S l) + 1) by lia. rewrite Z.pow_add_r by lia. lia.
Qed.

(** Every table of the listing is a table of the tree. *)
Lemma listing_serves l p k l' p' k' :
  (l <= 4)%nat -> serves l p k -> (l', p', k') ∈ listing s c0 l p k ->
  serves l' p' k' /\ (1 <= l' <= l)%nat /\ p' / 512 ^ (Z.of_nat l - Z.of_nat l') = p.
Proof.
  revert p k. induction l as [|l IH]; intros p k Hl Hs; [set_solver|]. cbn [listing].
  intros [[= -> -> ->]|(i & Hi & Hin)%elem_of_concat_map]%elem_of_cons.
  { split_and!; [done|lia..|]. rewrite Z.sub_diag. apply Z.div_1_r. }
  destruct l as [|l]; [by apply not_elem_of_nil in Hin|].
  destruct (child_serves (S l) p k i ltac:(lia) Hs Hi) as (Hc & _).
  destruct (IH _ _ ltac:(lia) Hc Hin) as (Hs' & Hle & E). split_and!; [done|lia..|].
  apply elem_of_shown in Hi as [Hi _].
  replace (Z.of_nat (S (S l)) - Z.of_nat l') with (Z.of_nat (S l) - Z.of_nat l' + 1) by lia.
  rewrite Z.pow_add_r, <- Z.div_div by lia. rewrite E. change (512 ^ 1) with 512.
  rewrite Z.div_add_l, Z.div_small by lia. lia.
Qed.

(** No table is listed twice. *)
Lemma listing_NoDup l p k : (l <= 4)%nat -> serves l p k -> NoDup (map fst (listing s c0 l p k)).
Proof.
  revert p k. induction l as [|l IH]; intros p k Hl Hs; [constructor|]. cbn [listing map].
  destruct l as [|l].
  { replace (concat _) with (@nil (nat * Z * Z)); [repeat constructor; set_solver|].
    induction (shown s k) as [|? ? IHs]; [done|]. cbn. done. }
  assert (forall i l' p', i ∈ shown s k -> (l', p') ∈ map fst (listing s c0 (S l) (p * 512 + Z.of_nat i) (child s c0 k (Z.of_nat i))) ->
    (l' <= S l)%nat /\ p' / 512 ^ (Z.of_nat (S l) - Z.of_nat l') = p * 512 + Z.of_nat i) as Hpre.
  { intros i l' p' Hi Hin%list_elem_of_In. apply in_map_iff in Hin as ([[l1 p1] k1] & E1 & Hin%list_elem_of_In).
    injection E1 as -> ->. destruct (child_serves (S l) p k i ltac:(lia) Hs Hi) as (Hc & _).
    destruct (listing_serves (S l) _ _ _ _ _ ltac:(lia) Hc Hin) as (_ & ? & ?). split; [lia|done]. }
  rewrite concat_map, map_map. constructor.
  - intros (i & Hi & Hin)%elem_of_concat_map. apply Hpre in Hin; [lia|done].
  - apply NoDup_concat_map; [apply NoDup_shown| |].
    + intros i Hi. apply IH; [lia|]. apply (child_serves (S l) p k i); [lia|done..].
    + intros i j [l' p'] Hi Hj Hx%Hpre Hy%Hpre; [|done..]. lia.
Qed.

(** Every page table on the path of an address is listed. *)
Lemma listing_leaf l k v j :
  (1 <= l <= 4)%nat -> on_path N own (Z.of_nat l) k v -> on_path N own 1 j v ->
  (1%nat, pre 1 v, j) ∈ listing s c0 l (pre (Z.of_nat l) v) k.
Proof.
  revert k. induction l as [|l IH]; intros k Hl Hk Hj; [lia|]. cbn [listing]. destruct Hinv as [Hg Hn Ht].
  destruct l as [|l].
  { rewrite (on_path_inj _ _ _ _ _ Ht 1 k j v Hk Hj). apply elem_of_cons. by left. }
  apply elem_of_cons. right. apply elem_of_concat_map.
  set (lv := Z.of_nat (S (S l))) in *. pose proof (idx_range lv v) as Hi.
  destruct (present (entry_at s k (idx lv v))) eqn:Hp.
  - destruct (on_path_down _ _ _ _ _ Ht lv k v ltac:(lia) Hk Hp) as (q & Hq & Ef).
    exists (Z.to_nat (idx lv v)). rewrite Z2Nat.id by lia. split.
    { apply elem_of_shown. rewrite Z2Nat.id by lia. split; [lia|done]. }
    assert (child s c0 k (idx lv v) = q) as ->.
    { unfold child, entry_at. rewrite Ef. symmetry. apply Z.div_unique_exact; lia. }
    rewrite <- pre_step by lia. replace (lv - 1) with (Z.of_nat (S l)) in * by lia. apply IH; [lia|done..].
  - exfalso. destruct (on_path_leaf_up _ _ _ _ _ Ht (Z.of_nat (S l)) j v ltac:(lia) Hj) as [q Hq].
    apply (on_path_stop _ _ _ _ _ Ht lv k v ltac:(lia) Hk Hp q). by replace (lv - 1) with (Z.of_nat (S l)) by lia.
Qed.

(** ** The dump prints the listing *)

Hypothesis Hframes : forall v e, leaf_of c0 s v = Some e -> Z.land e ADDR_MASK <> 0.

Lemma page_table_entry p k i :
  serves 1 p k -> i ∈ shown s k -> leaf_of c0 s ((p * 512 + Z.of_nat i) * 4096) = Some (entry_at s k (Z.of_nat i)).
Proof.
  intros (Hk & Ek & Hp) [Hi Hpr]%elem_of_shown. destruct Hinv as [_ _ Ht].
  change (512 ^ (4 - Z.of_nat 1)) with 134217728 in Hp. set (v := (p * 512 + Z.of_nat i) * 4096).
  assert (vpn v = p * 512 + Z.of_nat i) as Hv.
  { unfold vpn. change (2 ^ 48) with 281474976710656. rewrite Z.mod_small by (unfold v; lia). unfold v. by rewrite Z.div_mul. }
  rewrite vpn_pre_idx in Hv. pose proof (idx_range 1 v).
  assert (pre 1 v = p /\ idx 1 v = Z.of_nat i) as [Epre Eidx] by lia.
  apply (mmu_leaf_iff _ _ _ _ _ Ht). exists k. rewrite Eidx. split_and!; [|done..]. split; [done|].
  by rewrite Epre.
Qed.

Lemma shown_frame l p k i :
  (1 <= l <= 4)%nat -> serves l p k -> i ∈ shown s k -> Z.land (entry_at s k (Z.of_nat i)) ADDR_MASK <> 0.
Proof.
  intros Hl Hs Hi. destruct l as [|[|l]]; [lia| |].
  - eapply Hframes, page_table_entry; done.
  - destruct (child_serves (S l) p k i ltac:(lia) Hs Hi) as (_ & E & Hpos).
    destruct Hinv as [[] _ _]. unfold table_at in E. lia.
Qed.

Lemma dump_entries_eq n i k :
  (forall j, (i <= j < i + n)%nat -> present (entry_at s k (Z.of_nat j)) = true ->
             Z.land (entry_at s k (Z.of_nat j)) ADDR_MASK <> 0) ->
  dump_entries n i (table_at s k) s =
  Ok ((rows_from s k i n,
       map (fun j => Z.land (entry_at s k (Z.of_nat j)) ADDR_MASK + userspace_addr c0) (shown_from s k i n)), s).
Proof.
  revert i. induction n as [|n IH]; intros i Hf; [done|]. cbn [dump_entries].
  unfold rows_from, shown_from. cbn [seq]. rewrite filter_cons.
  unfold bind at 1. unfold load at 1, gets at 1.
  change (load64 (p_mem s) (table_at s k + 8 * Z.of_nat i)) with (entry_at s k (Z.of_nat i)).
  rewrite present_eq. specialize (IH (S i) ltac:(intros; apply Hf; [lia|done])).
  destruct (present (entry_at s k (Z.of_nat i))) eqn:Hp.
  - rewrite decide_True by done. unfold bind at 1, gets at 1.
    destruct Hinv as [[Hc0 _ _ _ _ _ _ _] _ _]. unfold bind at 1, at_. rewrite Hc0. unfold ret at 1.
    change 0xFFFFFFFFFF000 with ADDR_MASK.
    destruct (Z.eqb_spec (Z.land (entry_at s k (Z.of_nat i)) ADDR_MASK) 0) as [E|_].
    { by destruct (Hf i ltac:(lia) Hp). }
    unfold bind at 1, assert_. cbn [negb]. unfold ret at 1. unfold bind at 1. rewrite IH. done.
  - rewrite decide_False by done. exact IH.
Qed.

Lemma print_each_eq {A} (f : Z -> M (pst os T) (list Z)) (g : A -> Z) (h : A -> list Z) l :
  (forall a, a ∈ l -> f (g a) s = Ok (h a, s)) -> print_each f (map g l) s = Ok (concat (map h l), s).
Proof.
  induction l as [|a l IH]; intros Hf; [done|]. cbn [map print_each concat]. unfold bind.
  rewrite Hf by set_solver. rewrite IH by set_solver. done.
Qed.

Lemma dump_table_eq l p k :
  (1 <= l <= 4)%nat -> serves l p k ->
  dump_table l (table_at s k) s = Ok (concat (map (table_text s) (listing s c0 l p k)), s).
Proof.
  revert p k. induction l as [|l IH]; intros p k Hl Hs; [lia|]. cbn [dump_table listing map concat].
  unfold bind at 1, gets at 1. destruct (chunks (p_pager s)) as [|c cs] eqn:Ec.
  { destruct Hinv as [[Hc0 _ _ _ _ _ _ _] _ _]. by rewrite Ec in Hc0. }
  unfold bind at 1, assert_. cbn [negb]. unfold ret at 1. rewrite <- Ec. unfold bind at 1.
  rewrite dump_entries_eq.
  2:{ intros j Hj Hp. apply (shown_frame (S l) p k j Hl Hs), elem_of_shown. split; [lia|done]. }
  fold (shown s k). unfold bind at 1. destruct l as [|l].
  - change (1 <? 1)%nat with false. cbv iota. unfold ret. do 2 f_equal. cbn [listing].
    replace (concat (map (fun _ => []) (shown s k))) with (@nil (nat * Z * Z)) by (by induction (shown s k)).
    cbn [map concat]. rewrite !app_nil_r. done.
  - replace (1 <? S (S l))%nat with true by done.
    rewrite (print_each_eq _ _ (fun i => concat (map (table_text s)
      (listing s c0 (S l) (p * 512 + Z.of_nat i) (child s c0 k (Z.of_nat i)))))).
    2:{ intros i Hi. destruct (child_serves (S l) p k i ltac:(lia) Hs Hi) as (Hc & -> & _). apply IH; [lia|done]. }
    unfold ret. do 2 f_equal. unfold table_text at 2. rewrite <- !app_assoc. do 4 f_equal.
    apply concat_map_concat.
Qed.
End Tree.
End Listing.

(** ** Reading the dump back

    A reader that knows nothing of how a row is printed: it splits the row at blanks
    and puts the entry together from the eleven columns. *)

Fixpoint words_from (cur l : list Z) : list (list Z) :=
  let done_ := match cur with [] => [] | _ => [cur] end in
  match l with
  | [] => done_
  | c :: l' => if isspace c then done_ ++ words_from [] l' else words_from (cur ++ [c]) l'
  end.

Definition words (l : list Z) : list (list Z) := words_from [] l.

Definition read_row (row : list Z) : option (nat * Z) :=
  match words row with
  | [i; p; w; us; wt; c; a; b6; b9; next; nx] =>
      let h := digits_value 16 in
      Some (Z.to_nat (digits_value 10 i),
            h p + 2 * h w + 4 * h us + 8 * h wt + 16 * h c + 32 * h a + 64 * h b6 + 512 * h b9 + h next + 2 ^ 63 * h nx)
  | _ => None
  end.

(** The bits of an entry that have a column: all but 52 to 62. *)
Definition visible (e : Z) : Z := e mod 2 ^ 52 + 2 ^ 63 * (e / 2 ^ 63).

Lemma words_word cur w c l :
  Forall (fun x => isspace x = false) w -> cur ++ w <> [] -> isspace c = true ->
  words_from cur (w ++ c :: l) = (cur ++ w) :: words l.
Proof.
  intros Hw. revert cur. induction Hw as [|x w Hx Hw IH]; intros cur Hne Hc; cbn [app words_from].
  - rewrite app_nil_r in Hne |- *. rewrite Hc. by destruct cur.
  - rewrite Hx, IH; [by rewrite <- app_assoc| |done]. by destruct cur.
Qed.

Lemma words_blank c l : isspace c = true -> words (c :: l) = words l.
Proof. intros Hc. unfold words. cbn [words_from]. by rewrite Hc. Qed.

Lemma words_blanks n c l : isspace c = true -> words (replicate n c ++ l) = words l.
Proof. intros Hc. induction n as [|n IH]; [done|]. cbn [replicate app]. by rewrite words_blank. Qed.

Lemma words_end l c : isspace c = true -> words (l ++ [c]) = words l.
Proof.
  intros Hc. unfold words. assert (forall cur, words_from cur (l ++ [c]) = words_from cur l) as H; [|apply H].
  induction l as [|x l IH]; intros cur; cbn [app words_from].
  - rewrite Hc. by destruct cur.
  - by rewrite !IH.
Qed.

(** A column: digits, then a blank. *)
Definition column (w : list Z) : Prop := Forall (fun c => hex_digit c = true) w /\ w <> [].

Lemma words_column w c l : column w -> isspace c = true -> words (w ++ c :: l) = w :: words l.
Proof.
  intros [Hd Hne] Hc. apply (words_word [] w c l); [|done|done]. eapply Forall_impl; [exact Hd|].
  intros x Hx. apply hex_digit_range in Hx. unfold isspace. lia.
Qed.

Lemma number_column base n : 2 <= base <= 16 -> column (number base n).
Proof.
  intros Hb. split; [by apply number_digits|]. destruct (number_cons base n) as (l & c & ->). by destruct l.
Qed.

Lemma padded_column w n : column (padded w (chr "0") (hex_number n)).
Proof.
  split; [apply padded_digits|]. unfold padded. intros [_ E]%app_eq_nil. by apply (number_column 16 n) in E.
Qed.

Lemma words_str_blank (n : nat) l : words (replicate n 32 ++ l) = words l.
Proof. by apply words_blanks. Qed.

Lemma row_words i e :
  words (dump_row i e) =
    [dec_number (Z.of_nat i); hex_number (Z.land e 1); hex_number (Z.shiftr (Z.land e 2) 1);
     hex_number (Z.shiftr (Z.land e 4) 2); hex_number (Z.shiftr (Z.land e 8) 3); hex_number (Z.shiftr (Z.land e 0x10) 4);
     hex_number (Z.shiftr (Z.land e 0x20) 5); hex_number (Z.land (Z.shiftr e 6) 7); hex_number (Z.land (Z.shiftr e 9) 7);
     padded 11 (chr "0") (hex_number (Z.land e 0xFFFFFFFFFF000)); hex_number (Z.shiftr e 63)].
Proof.
  unfold dump_row, dec_field. unfold padded at 1. change (str " ") with [32]. change (str "  ") with [32; 32].
  change (str "   ") with [32; 32; 32]. change (str "    ") with [32; 32; 32; 32].
  rewrite <- !app_assoc. cbn [app].
  rewrite words_blank, words_str_blank by done.
  repeat first
    [ rewrite words_column; [f_equal|first [by apply number_column|apply padded_column]|done]
    | rewrite words_blank by done ].
Qed.

Lemma land_bit e k : 0 <= k -> Z.shiftr (Z.land e (2 ^ k)) k = e / 2 ^ k mod 2.
Proof.
  intros Hk. rewrite Z.shiftr_land, !Z.shiftr_div_pow2, Z.div_same by lia. change 1 with (Z.ones 1).
  by rewrite Z.land_ones.
Qed.

Lemma visible_columns e :
  is_u64 e ->
  Z.land e 1 + 2 * Z.shiftr (Z.land e 2) 1 + 4 * Z.shiftr (Z.land e 4) 2 + 8 * Z.shiftr (Z.land e 8) 3 +
  16 * Z.shiftr (Z.land e 0x10) 4 + 32 * Z.shiftr (Z.land e 0x20) 5 + 64 * Z.land (Z.shiftr e 6) 7 +
  512 * Z.land (Z.shiftr e 9) 7 + Z.land e 0xFFFFFFFFFF000 + 2 ^ 63 * Z.shiftr e 63 = visible e.
Proof.
  intros He. unfold visible. change 0x20 with (2 ^ 5). change (Z.land e 0x10) with (Z.land e (2 ^ 4)).
  change (Z.land e 8) with (Z.land e (2 ^ 3)). change (Z.land e 4) with (Z.land e (2 ^ 2)).
  change (Z.land e 2) with (Z.land e (2 ^ 1)).
  rewrite (land_bit e 1 ltac:(lia)), (land_bit e 2 ltac:(lia)), (land_bit e 3 ltac:(lia)), (land_bit e 4 ltac:(lia)),
    (land_bit e 5 ltac:(lia)).
  change 7 with (Z.ones 3). change (Z.land e 1) with (Z.land e (Z.ones 1)). rewrite !Z.land_ones, !Z.shiftr_div_pow2 by lia.
  change 0xFFFFFFFFFF000 with (2 ^ 52 - 2 ^ 12). rewrite land_mask by lia.
  Z.to_euclidean_division_equations. lia.
Qed.

Lemma read_dump_row i e : (i < 512)%nat -> is_u64 e -> read_row (dump_row i e) = Some (i, visible e).
Proof.
  intros Hi He. unfold read_row. rewrite row_words. cbv zeta.
  assert (forall n, is_u64 n -> digits_value 16 (hex_number n) = n) as Hh by (intros; apply number_value; [lia|done]).
  assert (forall k, 0 <= k < 64 -> is_u64 (Z.shiftr (Z.land e (2 ^ k)) k)) as Hk.
  { intros k Hk. rewrite land_bit by lia. pose proof (Z.mod_pos_bound (e / 2 ^ k) 2). unfold is_u64. lia. }
  assert (forall k, is_u64 (Z.land (Z.shiftr e k) 7)) as H7.
  { intros k. change 7 with (Z.ones 3). rewrite Z.land_ones by lia. pose proof (Z.mod_pos_bound (Z.shiftr e k) (2 ^ 3)).
    unfold is_u64. lia. }
  rewrite padded_value, !Hh.
  - unfold dec_number. rewrite number_value by (unfold is_u64; lia). rewrite Nat2Z.id. do 2 f_equal. by apply visible_columns.
  - rewrite Z.shiftr_div_pow2 by lia. unfold is_u64 in *. Z.to_euclidean_division_equations. lia.
  - apply H7.
  - apply H7.
  - apply (Hk 5). lia.
  - apply (Hk 4). lia.
  - apply (Hk 3). lia.
  - apply (Hk 2). lia.
  - apply (Hk 1). lia.
  - change 1 with (Z.ones 1). rewrite Z.land_ones by lia. pose proof (Z.mod_pos_bound e (2 ^ 1)). unfold is_u64. lia.
  - pose proof (addr_mask_frame e) as [Hm _]. unfold ADDR_MASK in Hm. unfold is_u64. lia.
Qed.

(** The section of a table as text: what stands above the columns, then one line for
    each present entry, in order, that reads back as its number and content. *)
Definition shows {os T} (s : pst os T) (text : list Z) (x : nat * Z * Z) : Prop :=
  let '(l, _, k) := x in let base := table_at s k in
  exists rows,
    text = str (nth l ["Invalid Level"; "Page Table"; "Page Directory"; "Page Directory Pointer Table"; "PML4"]%string ""%string) ++
           str " with host base " ++ pointer base ++
           str " (0x" ++ hex_number (host_to_guest_physical (chunks (p_pager s)) base) ++ str ")" ++ [newline] ++
           str " Offset P W Us WTC C A 6-8 9-11" ++ [tab] ++ str "Next" ++ [tab; tab] ++ str "NXE" ++ [newline] ++
           concat (map (fun r => r ++ [newline]) rows) ++ str " --------" ++ [newline; newline] /\
    Forall2 (fun row j => (newline ∉ row) /\ read_row row = Some (j, visible (entry_at s k (Z.of_nat j)))) rows (shown s k).

Lemma dump_row_line i e : exists r, dump_row i e = r ++ [newline] /\ newline ∉ r.
Proof.
  assert (forall w, Forall (fun c => hex_digit c = true) w -> newline ∉ w) as Hn.
  { intros w Hw Hin. rewrite Forall_forall in Hw. by apply Hw in Hin. }
  assert (forall w n, newline ∉ padded w 32 (dec_number n)) as Hd.
  { intros w n [Hr%elem_of_replicate|Hin]%elem_of_app; [by destruct Hr|].
    exact (Hn _ (number_digits 10 n ltac:(lia)) Hin). }
  eexists (_ ++ hex_number (Z.shiftr e 63)). split.
  - unfold dump_row. rewrite !app_assoc. reflexivity.
  - rewrite !not_elem_of_app. split_and!; try (by apply Hn, number_digits); try (by apply Hn, padded_digits);
      try apply Hd; intros Hin%list_elem_of_In; vm_compute in Hin; intuition discriminate.
Qed.

Lemma table_text_shows {os T} (s : pst os T) l p k :
  (1 <= l <= 4)%nat -> shows s (table_text s (l, p, k)) (l, p, k).
Proof.
  intros Hl. unfold shows, table_text.
  assert (exists rows, rows_from s k 0 512 = concat (map (fun r => r ++ [newline]) rows) /\
    Forall2 (fun row j => (newline ∉ row) /\ read_row row = Some (j, visible (entry_at s k (Z.of_nat j)))) rows (shown s k))
    as (rows & -> & Hrows).
  { clear Hl. unfold rows_from. fold (shown s k).
    assert (forall j, j ∈ shown s k -> (j < 512)%nat) as Hs by (intros j Hj; by apply elem_of_shown in Hj as [? _]).
    induction (shown s k) as [|j js IH]; [by exists []|].
    destruct IH as (rows & E & Hr); [set_solver|]. destruct (dump_row_line j (entry_at s k (Z.of_nat j))) as (r & Er & Hn).
    exists (r :: rows). split; [cbn [map concat]; by rewrite Er, E|]. constructor; [|done]. split; [done|].
    rewrite <- (read_dump_row j (entry_at s k (Z.of_nat j))); [|apply Hs; set_solver|apply load64_range].
    unfold read_row. by rewrite Er, words_end by done. }
  exists rows. split; [|done]. unfold table_head, line. rewrite <- !app_assoc.
  destruct l as [|[|[|[|[|]]]]]; try lia; reflexivity.
Qed.
(** C6. The dump of the page tables shows the translation.  Whenever the tables are well formed
    and no present entry maps the frame 0, on which the dump asserts, printing them succeeds and
    changes nothing; the text is the sections of the tables one after the other, depth first from
    the pml4; a section has the name and the addresses of its table and one line for each present
    entry, from which a reader gets back the number of the entry and every bit of it but 52 to 62,
    which have no column; no two sections are about the same level and part of the address space;
    and an address translates to a leaf entry [e] exactly when there is a section for the page
    table of its two megabytes with [e] at the number of the address. *)
Theorem dump_shows_translation {os T} (s : pst os T) c0 N :
  tables_ok s c0 N -> (forall v e, leaf_of c0 s v = Some e -> Z.land e ADDR_MASK <> 0) ->
  let tables := listing s c0 4 0 0 in
  (exists sections, Forall2 (shows s) sections tables /\
     dump_page_tables s =
       Ok (str " Page Tables:" ++ [newline] ++ str " ------------" ++ [newline] ++ concat sections ++
           str " ------------" ++ [newline], s)) /\
  NoDup (map fst tables) /\
  (forall v e, leaf_of c0 s v = Some e <->
     exists k, (1%nat, pre 1 v, k) ∈ tables /\ Z.to_nat (idx 1 v) ∈ shown s k /\ entry_at s k (idx 1 v) = e).
Proof.
  intros [own Hinv] Hf tables. pose proof (serves_root s c0 N own Hinv) as Hr. split_and!.
  - exists (map (table_text s) tables). split.
    { apply Forall2_fmap_l, Forall_Forall2_diag, Forall_forall. intros [[l p] k] Hx. apply table_text_shows.
      by destruct (listing_serves s c0 N own Hinv 4 0 0 l p k ltac:(lia) Hr Hx) as (_ & ? & _). }
    unfold dump_page_tables, bind at 1, gets. unfold bind.
    replace (host_pml4_p (p_pager s)) with (table_at s 0) by (unfold table_at; lia).
    rewrite (dump_table_eq s c0 N own Hinv Hf 4 0 0 ltac:(lia) Hr). unfold line. by rewrite <- !app_assoc.
  - apply (listing_NoDup s c0 N own Hinv 4 0 0); [lia|done].
  - intros v e. pose proof (pi_tree _ _ _ _ Hinv) as Ht. pose proof (idx_range 1 v) as Hi.
    unfold leaf_of. rewrite (mmu_leaf_iff _ _ _ _ _ Ht v e). setoid_rewrite elem_of_shown. rewrite Z2Nat.id by lia. split.
    + intros (j & Hj & Hp & E). exists j. split_and!; [|lia|done..].
      pose proof (listing_leaf s c0 N own Hinv 4 0 v j ltac:(lia) (on_path_root _ _ _ _ _ Ht v) Hj) as Hin.
      change (Z.of_nat 4) with 4 in Hin. by rewrite pre_top in Hin.
    + intros (k & Hk & [_ Hp] & E). exists k. split_and!; [|done..].
      destruct (listing_serves s c0 N own Hinv 4 0 0 1 (pre 1 v) k ltac:(lia) Hr Hk) as ((? & ? & _) & _). done.
Qed.

(** One page mapped in an empty machine: the dump has a pml4, a directory
    pointer table, a directory and a page table, and one row shows the page. *)
Lemma dump_shows_translation_witness :
  let s1 := after (map_user_page 0x11000042 0x400042 3) (demo TLB.t) in
  (exists sections, Forall2 (shows s1) sections (listing s1 demo_chunk 4 0 0) /\
     dump_page_tables s1 = Ok (str " Page Tables:" ++ [newline] ++ str " ------------" ++ [newline] ++ concat sections ++
                               str " ------------" ++ [newline], s1)) /\
  map fst (listing s1 demo_chunk 4 0 0) = [(4%nat, 0); (3%nat, 0); (2%nat, 0); (1%nat, 2)] /\
  shown s1 3 = [0%nat] /\
  leaf_of demo_chunk s1 0x400042 = Some (entry_at s1 3 0).
Proof.
  intros s1.
  destruct (wp_total_inv _ _ _ (map_user_page_lemma (demo TLB.t) demo_chunk 1 _ 0x11000042 0x400042 3 0x1000042
    (demo_inv TLB.t) ltac:(lia) ltac:(lia) ltac:(right; vm_compute; intros; discriminate) eq_refl eq_refl ltac:(lia)))
    as (r & s' & E & Hm & N' & own' & HN & Hi & _).
  assert (s1 = s') as <- by (unfold s1, after; by rewrite E).
  assert (forall v e, leaf_of demo_chunk s1 v = Some e -> Z.land e ADDR_MASK <> 0) as Hf.
  { intros v e. rewrite leaf_of_trans. destruct (decide (vpn v = vpn 0x400042)) as [Ev|Ev].
    - rewrite (trans_vpn _ _ _ _ Ev). replace (trans demo_chunk s1 0x400042) with (Some (0x1000007, true, true)) by (by vm_compute).
      intros [= <-]. by vm_compute.
    - pose proof (me_others _ _ _ _ _ _ _ Hm v Ev) as Hle. rewrite demo_trans in Hle.
      destruct (trans demo_chunk s1 v); [by destruct Hle|done]. }
  destruct (dump_shows_translation s1 demo_chunk N' (ex_intro _ own' Hi) Hf) as (Ed & _ & Hl).
  split; [exact Ed|]. split; [vm_compute; reflexivity|]. split; [vm_compute; reflexivity|].
  apply Hl. exists 3. split; [|split; [|reflexivity]].
  - apply list_elem_of_In. vm_compute. auto.
  - apply list_elem_of_In. vm_compute. auto.
Defined.
