(* ===== verification/GuestCode.v ===== *)
(** * The code that runs in the guest: [share/entry.S], [share/isr.S], [share/signal.S]

    The three flat binaries that the virtual machine maps into the guest: the
    entry point of system calls, the interrupt stubs and the code a signal
    handler returns to.  They are assembled with GNU [as] and kept as plain
    [.text] sections, so a binary is the encoding of its source: a [pushq] of
    a small constant takes two bytes, a jump within the section the shortest
    displacement that reaches its label.

    The part of the processor that these files use is the semantics of their
    language: the decoding of the instructions from guest memory, their effect
    on registers, selectors and the stack, [syscall], which enters the first
    file, and the delivery of an exception through a gate.  A computer is a
    virtual machine together with the selectors of the processor; a [vmcall]
    hands it to [handle_hypercall]. *)

From S2P Require Import Prelude Text Memory PageMath HostOS Tlb Pager PagerTlb Region RegionManager Registers Mappings Heap Vcpu VcpuTheorems Descriptors Vm Handlers Syscall SyscallStubs Hypercall VmSpec HypercallTheorems.
From stdpp Require Import strings.
Local Open Scope Z_scope.

(** ** Sources *)

Inductive label := _start | _interrupt_stub (iv : Z) | _isr_common.

#[export] Instance label_eq_dec : EqDecision label.
Proof. solve_decision. Defined.

(** The statements of the three files. *)
Inductive statement :=
  | Label (l : label)
  | Pushq (imm : Z)
  | Jmp (l : label)
  | Vmcall | Sysretq | Iretq | Popq_rax | Retq.

#[export] Instance statement_eq_dec : EqDecision statement.
Proof. solve_decision. Defined.

Definition entry_S : list statement := [Label _start; Pushq 1; Vmcall; Sysretq].

Definition signal_S : list statement := [Label _start; Popq_rax; Retq].

(** The macro [interrupt_stub]. *)
Definition interrupt_stub (iv : Z) : list statement :=
  [Label (_interrupt_stub iv); Pushq iv; Pushq 2; Jmp _isr_common].

(** Exceptions, interrupt requests and the system call. *)
Definition isr_vectors : list Z :=
  [0; 1; 2; 3; 4; 5; 6; 7; 8; 9; 10; 11; 12; 13; 14; 16; 17; 18; 19] ++
  [32; 33; 34; 35; 36; 37; 38; 39; 40; 41; 42; 43; 44; 45; 46; 47] ++
  [48].

Definition isr_S : list statement :=
  concat (map interrupt_stub isr_vectors) ++ [Label _isr_common; Vmcall; Iretq].

(** ** Machine instructions *)

(** The instructions of the binaries, with jumps resolved, and [syscall]. *)
Inductive insn :=
  | IPush (imm : Z)       (* sign-extended to 64 bits *)
  | IJmp (long : bool) (disp : Z)
  | IVmcall | ISysret | IIret | IPopRax | IRet | ISyscall.

Definition fits8 (x : Z) : bool := (-128 <=? x) && (x <? 128).

(** A little-endian two's complement number of [n] bytes, and reading one. *)
Fixpoint le_bytes (n : nat) (x : Z) : list Z :=
  match n with
  | O => []
  | S n' => u8 x :: le_bytes n' (x / 256)
  end.

Fixpoint le_value (bs : list Z) : Z :=
  match bs with
  | [] => 0
  | b :: bs => b + 256 * le_value bs
  end.

Definition signed (bits x : Z) : Z := if x <? 2 ^ (bits - 1) then x else x - 2 ^ bits.

Definition encode (i : insn) : list Z :=
  match i with
  | IPush imm => if fits8 imm then 0x6A :: le_bytes 1 imm else 0x68 :: le_bytes 4 imm
  | IJmp false d => 0xEB :: le_bytes 1 d
  | IJmp true d => 0xE9 :: le_bytes 4 d
  | IVmcall => [0x0F; 0x01; 0xC1]
  | ISysret => [0x48; 0x0F; 0x07]
  | IIret => [0x48; 0xCF]
  | IPopRax => [0x58]
  | IRet => [0xC3]
  | ISyscall => [0x0F; 0x05]
  end.

(** An instruction with a signed operand of [n] bytes behind its opcode. *)
Definition operand (n : nat) (f : Z -> insn) (bs : list Z) : option (insn * Z) :=
  if (n <=? length bs)%nat
  then Some (f (signed (8 * Z.of_nat n) (le_value (take n bs))), 1 + Z.of_nat n)
  else None.

(** Decoding: the instruction at the head of the bytes and its length. *)
Definition decode (bs : list Z) : option (insn * Z) :=
  match bs with
  | [] => None
  | b :: bs =>
      if b =? 0x6A then operand 1 IPush bs
      else if b =? 0x68 then operand 4 IPush bs
      else if b =? 0xEB then operand 1 (IJmp false) bs
      else if b =? 0xE9 then operand 4 (IJmp true) bs
      else if b =? 0x58 then Some (IPopRax, 1)
      else if b =? 0xC3 then Some (IRet, 1)
      else match bs with
           | [] => None
           | b1 :: bs =>
               if (b =? 0x0F) && (b1 =? 0x05) then Some (ISyscall, 2)
               else if (b =? 0x48) && (b1 =? 0xCF) then Some (IIret, 2)
               else match bs with
                    | [] => None
                    | b2 :: _ =>
                        if (b =? 0x0F) && (b1 =? 0x01) && (b2 =? 0xC1) then Some (IVmcall, 3)
                        else if (b =? 0x48) && (b1 =? 0x0F) && (b2 =? 0x07) then Some (ISysret, 3)
                        else None
                    end
           end
  end.

(** ** The assembler

    Every statement carries whether it is a jump in its long form. *)

Definition resolve (s : statement) (long : bool) (disp : Z) : option insn :=
  match s with
  | Label _ => None
  | Pushq imm => Some (IPush imm)
  | Jmp _ => Some (IJmp long disp)
  | Vmcall => Some IVmcall
  | Sysretq => Some ISysret
  | Iretq => Some IIret
  | Popq_rax => Some IPopRax
  | Retq => Some IRet
  end.

Definition statement_bytes (s : statement) (long : bool) (disp : Z) : list Z :=
  match resolve s long disp with Some i => encode i | None => [] end.

Definition size_of (s : statement) (long : bool) : Z :=
  Z.of_nat (length (statement_bytes s long 0)).

(** The address of a label in a section that is laid out from [a] on. *)
Fixpoint address_of (l : label) (p : list (statement * bool)) (a : Z) : option Z :=
  match p with
  | [] => None
  | (s, long) :: p =>
      if decide (s = Label l) then Some a else address_of l p (a + size_of s long)
  end.

(** The distance from the end of a jump at [a] to its label. *)
Definition distance (whole : list (statement * bool)) (s : statement) (long : bool) (a : Z) : Z :=
  match s with
  | Jmp l => default 0 (address_of l whole 0) - (a + size_of s long)
  | _ => 0
  end.

(** One pass of relaxation: a short jump that does not reach becomes long. *)
Fixpoint relax_pass (whole p : list (statement * bool)) (a : Z) : list (statement * bool) :=
  match p with
  | [] => []
  | (s, long) :: p =>
      (s, long || negb (fits8 (distance whole s long a)))
        :: relax_pass whole p (a + size_of s long)
  end.

(** Passes until one changes nothing; a pass that changes anything makes a jump
    long, so that as many passes as there are statements reach the end. *)
Fixpoint relax (n : nat) (p : list (statement * bool)) : list (statement * bool) :=
  match n with
  | O => p
  | S n' =>
      let p' := relax_pass p p 0 in
      if decide (p'.*2 = p.*2) then p else relax n' p'
  end.

Fixpoint emit_code (whole p : list (statement * bool)) (a : Z) : list Z :=
  match p with
  | [] => []
  | (s, long) :: p =>
      statement_bytes s long (distance whole s long a) ++ emit_code whole p (a + size_of s long)
  end.

Definition layout (p : list statement) : list (statement * bool) :=
  relax (length p) (map (fun s => (s, false)) p).

Definition assemble (p : list statement) : list Z := emit_code (layout p) (layout p) 0.

(** The three binaries of [share/libelkvm]. *)
Definition entry_bin : list Z := assemble entry_S.
Definition isr_bin : list Z := assemble isr_S.
Definition signal_bin : list Z := assemble signal_S.

(** What code that starts at an offset of a binary pushes before it makes a
    hypercall, and where; nothing if it leaves the binary or uses another
    instruction first. *)
Fixpoint pushes (fuel : nat) (code : list Z) (off : Z) : option (list Z * Z) :=
  match fuel with
  | O => None
  | S n =>
      if off <? 0 then None else
      match decode (drop (Z.to_nat off) code) with
      | Some (IPush x, len) =>
          '(xs, a) ← pushes n code (off + len); Some (x :: xs, a)
      | Some (IJmp _ d, len) => pushes n code (off + len + d)
      | Some (IVmcall, _) => Some ([], off)
      | _ => None
      end
  end.

(** ** The processor *)

(** The registers of [syscall] and [sysret], the address of the interrupt table
    and the first stack of the interrupt stack table. *)
Record sysregs := mkSysregs { star : Z; lstar : Z; fmask : Z; idtr : Z; ist1 : Z }.

(** What an instruction works on: the registers, the selectors of code and
    stack, and memory. *)
Record core := mkCore { co_cpu : VCPU; co_cs : Z; co_ss : Z; co_mem : mem }.

Definition co_reg (c : core) (r : Reg_t) : Z := vreg (co_cpu c) r.
Definition co_set (c : core) (r : Reg_t) (x : Z) : core :=
  mkCore (set_vreg (co_cpu c) r x) (co_cs c) (co_ss c) (co_mem c).
Definition co_selectors (c : core) (cs_ ss_ : Z) : core := mkCore (co_cpu c) cs_ ss_ (co_mem c).
Definition co_store (c : core) (h x : Z) : core :=
  mkCore (co_cpu c) (co_cs c) (co_ss c) (store64 (co_mem c) h x).

Section Processor.
Variable tr : Z -> option Z.
Variable sr : sysregs.

(** The host address of a word of the guest; one that crosses a page is not
    covered. *)
Definition word_at (a : Z) : option Z := if a mod 4096 <=? 4088 then tr a else None.

(** The bytes from an address on, up to the first that is not mapped. *)
Fixpoint fetch (n : nat) (m : mem) (a : Z) : list Z :=
  match n with
  | O => []
  | S n' => match tr a with
            | None => []
            | Some h => load8 m h :: fetch n' m (u64 (a + 1))
            end
  end.

Definition push_word (c : core) (x : Z) : option core :=
  let sp := u64 (co_reg c rsp - 8) in
  h ← word_at sp; Some (co_store (co_set c rsp sp) h x).

Definition pop_word (c : core) : option (Z * core) :=
  let sp := co_reg c rsp in
  h ← word_at sp; Some (load64 (co_mem c) h, co_set c rsp (u64 (sp + 8))).

Fixpoint push_words (c : core) (xs : list Z) : option core :=
  match xs with
  | [] => Some c
  | x :: xs => c ← push_word c x; push_words c xs
  end.

(** The effect of an instruction of a length; [vmcall] has none of its own.
    [iretq] leaves the privilege checks of the selectors out. *)
Definition exec (i : insn) (len : Z) (c : core) : option core :=
  let next := u64 (co_reg c rip + len) in
  match i with
  | IPush imm => push_word (co_set c rip next) (u64 imm)
  | IJmp _ d => Some (co_set c rip (u64 (next + d)))
  | IPopRax => '(x, c) ← pop_word c; Some (co_set (co_set c rax x) rip next)
  | IRet => '(x, c) ← pop_word c; Some (co_set c rip x)
  | ISyscall =>
      let c1 := co_set (co_set c rcx next) r11 (co_reg c rflags) in
      let c2 := co_set (co_set c1 rip (lstar sr)) rflags (Z.ldiff (co_reg c rflags) (fmask sr)) in
      let base := Z.land (Z.shiftr (star sr) 32) 0xFFFF in
      Some (co_selectors c2 (Z.land base 0xFFFC) (base + 8))
  | ISysret =>
      let c1 := co_set c rip (co_reg c rcx) in
      let c2 := co_set c1 rflags (Z.lor (Z.land (co_reg c r11) 0x3C7FD7) 2) in
      let base := Z.shiftr (star sr) 48 in
      Some (co_selectors c2 (Z.lor (base + 16) 3) (Z.lor (base + 8) 3))
  | IIret =>
      '(ip, c) ← pop_word c; '(cs_, c) ← pop_word c; '(fl, c) ← pop_word c;
      '(sp, c) ← pop_word c; '(ss_, c) ← pop_word c;
      Some (co_selectors (co_set (co_set (co_set c rip ip) rflags fl) rsp sp)
                         (Z.land cs_ 0xFFFF) (Z.land ss_ 0xFFFF))
  | IVmcall => None
  end.

(** The instruction at [rip]. *)
Definition current (c : core) : option (insn * Z) := decode (fetch 5 (co_mem c) (co_reg c rip)).

Definition step (c : core) : option core := '(i, len) ← current c; exec i len c.

Fixpoint steps (n : nat) (c : core) : option core :=
  match n with
  | O => Some c
  | S n' => c ← step c; steps n' c
  end.

(** An exception arrives: the gate of its vector names the code; the frame and,
    where the exception has one, the error code go to the interrupt stack; the
    bits 8, 14, 16 and 17 of [rflags] are cleared. *)
Definition interrupted_flags (fl : Z) : Z := Z.ldiff fl 0x34100.

Definition deliver (vector : Z) (error : option Z) (c : core) : option core :=
  g ← word_at (u64 (idtr sr + 16 * vector));
  let gate := load_idt (co_mem c) g in
  let c1 := co_set c rsp (Z.land (ist1 sr) (- 16)) in
  c2 ← push_words c1 ([co_ss c; co_reg c rsp; co_reg c rflags; co_cs c; co_reg c rip] ++ match error with Some e => [e] | None => [] end);
  Some (co_selectors (co_set (co_set c2 rip (idt_entry_offset gate)) rflags (interrupted_flags (co_reg c rflags)))
                     (idt_selector gate) 0).
End Processor.

(** ** The computer: the virtual machine and its processor *)

Record computer (os T : Type) := mkComputer { pc_vm : vm os T; pc_cs : Z; pc_ss : Z }.
Arguments mkComputer {os T}.
Arguments pc_vm {os T}.
Arguments pc_cs {os T}.
Arguments pc_ss {os T}.

Section Computer.
Context {os T : Type} `{HostOS os} `{FileOS os} `{KvmOS os} `{MonitorOS os} `{TranslationCache T}.
Variable hs : elkvm_handlers os (vm os T).
Variable udis : bool.
Variable c0 : Chunk.
Variable sr : sysregs.

(** The processor translates through the page tables of the machine. *)
Definition translate (s : vm os T) : Z -> option Z := host_of c0 (vm_paging s).

Definition core_of (p : computer os T) : option core :=
  v ← cpus (pc_vm p) !! 0%nat; Some (mkCore v (pc_cs p) (pc_ss p) (p_mem (vm_paging (pc_vm p)))).

Definition with_core (p : computer os T) (c : core) : computer os T :=
  mkComputer (vm_write (pc_vm p) (co_cpu c) (co_mem c) (p_tlb (vm_paging (pc_vm p)))) (co_cs c) (co_ss c).

(** The processor alone: [n] instructions, or the delivery of an exception. *)
Definition on_core (f : core -> option core) (p : computer os T) : option (computer os T) :=
  c ← core_of p; c ← f c; Some (with_core p c).

Definition guest_steps (n : nat) (p : computer os T) : option (computer os T) :=
  on_core (steps (translate (pc_vm p)) sr n) p.

Definition exception (vector : Z) (error : option Z) (p : computer os T) : option (computer os T) :=
  on_core (deliver (translate (pc_vm p)) sr vector error) p.

(** The processor stands before a [vmcall] and the machine handles it; the
    guest goes on when the result is 0. *)
Definition hypercall (p : computer os T) : option (computer os T) :=
  c ← core_of p;
  match current (translate (pc_vm p)) c with
  | Some (IVmcall, _) =>
      match handle_hypercall hs hypercall_null udis (pc_vm p) with
      | Ok (0, s) => Some (mkComputer s (pc_cs p) (pc_ss p))
      | _ => None
      end
  | _ => None
  end.

(** The computer at work: instructions of the guest between hypercalls. *)
Inductive pc_run : computer os T -> computer os T -> Prop :=
  | pc_guest n p p' : guest_steps n p = Some p' -> pc_run p p'
  | pc_hypercall p p' : hypercall p = Some p' -> pc_run p p'.
End Computer.
