(* ===== verification/GuestSpec.v ===== *)
(** * The code in the guest: lemmas

    The instruction encoding, code in guest memory, and what the processor does
    with pushes and pops on a mapped stack. *)

From S2P Require Import Prelude Text Memory PageMath HostOS Tlb Pager PagerTree PagerWalk PagerSpec PagerTlb Region RegionManager Registers Mappings Heap Vcpu VcpuTheorems Descriptors DescriptorTheorems Vm Handlers Syscall SyscallStubs Hypercall VmSpec HypercallTheorems GuestCode.
From stdpp Require Import strings.
Local Open Scope Z_scope.

(** ** Encoding *)

(** The operands that an instruction can hold. *)
Definition insn_ok (i : insn) : Prop :=
  match i with
  | IPush x | IJmp true x => - 2 ^ 31 <= x < 2 ^ 31
  | IJmp false x => - 128 <= x < 128
  | _ => True
  end.

Lemma le_value_bytes n x : le_value (le_bytes n x) = x mod 256 ^ Z.of_nat n.
Proof.
  revert x. induction n as [|n IH]; intros x; [by rewrite Z.mod_1_r|].
  cbn [le_bytes le_value]. rewrite IH. rewrite Nat2Z.inj_succ, Z.pow_succ_r by lia.
  unfold u8. change (2 ^ 8) with 256. rewrite Z.rem_mul_r by lia. lia.
Qed.

Lemma signed_mod bits x :
  0 < bits -> - 2 ^ (bits - 1) <= x < 2 ^ (bits - 1) -> signed bits (x mod 2 ^ bits) = x.
Proof.
  intros Hb Hx. unfold signed.
  assert (2 ^ bits = 2 * 2 ^ (bits - 1)) as E by (rewrite <- Z.pow_succ_r by lia; f_equal; lia).
  destruct (Z.ltb_spec x 0).
  - rewrite <- (Z.mod_unique x (2 ^ bits) (- 1) (x + 2 ^ bits)) by lia.
    case_match; [lia|lia].
  - rewrite Z.mod_small by lia. case_match; lia.
Qed.

Lemma length_le_bytes n x : length (le_bytes n x) = n.
Proof. revert x. induction n as [|n IH]; intros x; [done|]. cbn. by rewrite IH. Qed.

Lemma operand_bytes n f x rest :
  (0 < n)%nat -> - 2 ^ (8 * Z.of_nat n - 1) <= x < 2 ^ (8 * Z.of_nat n - 1) ->
  operand n f (le_bytes n x ++ rest) = Some (f x, 1 + Z.of_nat n).
Proof.
  intros Hn Hx. unfold operand. rewrite length_app, length_le_bytes.
  replace (n <=? n + length rest)%nat with true by (symmetry; apply Nat.leb_le; lia).
  rewrite take_app_le, take_ge by (rewrite length_le_bytes; lia).
  rewrite le_value_bytes. change 256 with (2 ^ 8). rewrite <- Z.pow_mul_r by lia. by rewrite signed_mod by lia.
Qed.

Lemma decode_encode_lemma i rest :
  insn_ok i -> decode (encode i ++ rest) = Some (i, Z.of_nat (length (encode i))).
Proof.
  intros Hi. destruct i as [x|[] d| | | | | |]; try done; cbn in Hi.
  - unfold encode. destruct (fits8 x) eqn:E.
    + apply andb_true_iff in E as [E1 E2]. cbn [app decode Z.eqb Pos.eqb]. rewrite operand_bytes by lia. done.
    + cbn [app decode Z.eqb Pos.eqb]. rewrite operand_bytes by lia. done.
  - cbn [encode app decode Z.eqb Pos.eqb]. by rewrite operand_bytes by lia.
  - cbn [encode app decode Z.eqb Pos.eqb]. by rewrite operand_bytes by lia.
Qed.

Lemma operand_app n f bs rest r : operand n f bs = Some r -> operand n f (bs ++ rest) = Some r.
Proof.
  unfold operand. destruct (Nat.leb_spec n (length bs)) as [Hn|]; [|done]. rewrite length_app.
  replace (n <=? length bs + length rest)%nat with true by (symmetry; apply Nat.leb_le; lia).
  by rewrite take_app_le.
Qed.

(** Decoding looks no further than the instruction. *)
Lemma decode_app bs rest r : decode bs = Some r -> decode (bs ++ rest) = Some r.
Proof.
  destruct bs as [|b bs]; [done|]. cbn [decode app].
  do 4 (case_match; [apply operand_app|]). do 2 (case_match; [done|]).
  destruct bs as [|b1 bs]; [done|]. cbn [app]. do 2 (case_match; [done|]).
  by destruct bs.
Qed.

Lemma operand_bound n f bs i len : operand n f bs = Some (i, len) -> 0 < len <= 1 + Z.of_nat n.
Proof. unfold operand. case_match; [|done]. intros [= _ <-]. lia. Qed.

Lemma decode_bound bs i len : decode bs = Some (i, len) -> 0 < len <= 5.
Proof.
  destruct bs as [|b bs]; [done|]. cbn [decode].
  do 4 (case_match; [intros E%operand_bound; lia|]). do 2 (case_match; [intros [= _ <-]; lia|]).
  destruct bs as [|b1 bs]; [done|]. do 2 (case_match; [intros [= _ <-]; lia|]).
  destruct bs; [done|]. do 2 (case_match; [intros [= _ <-]; lia|]). done.
Qed.

(** Decoding needs at most five bytes. *)
Lemma decode_take bs : decode (take 5 bs) = decode bs.
Proof.
  do 5 (destruct bs as [|? bs]; [done|]). unfold decode. cbn [take]. do 4 (case_match; [done|]).
  done.
Qed.

Lemma fetch_ext tr tr' n m a : (forall w, tr' w = tr w) -> fetch tr' n m a = fetch tr n m a.
Proof.
  intros E. revert a. induction n as [|n IH]; intros a; [done|]. cbn [fetch]. rewrite E.
  destruct (tr a); [by rewrite IH|done].
Qed.

(** ** Code in guest memory *)

Section Code.
Variable tr : Z -> option Z.

(** The code is mapped at an address of the guest. *)
Definition code_at (m : mem) (e : Z) (code : list Z) : Prop :=
  forall i b, code !! i = Some b -> exists h, tr (u64 (e + Z.of_nat i)) = Some h /\ load8 m h = b.

(** None of its bytes is in an area of host memory. *)
Definition code_avoids (e : Z) (code : list Z) (a n : Z) : Prop :=
  forall i b h, code !! i = Some b -> tr (u64 (e + Z.of_nat i)) = Some h -> h < a \/ a + n <= h.

Lemma code_at_agree m m' e code a n :
  code_at m e code -> code_avoids e code a n ->
  (forall x, x < a \/ a + n <= x -> m' x = m x) -> code_at m' e code.
Proof.
  intros Hc Ha Hm i b Hi. destruct (Hc i b Hi) as (h & Et & El). exists h. split; [done|].
  unfold load8 in *. rewrite Hm; [done|]. by eapply Ha.
Qed.

Lemma code_at_drop m e code k : code_at m e code -> code_at m (u64 (e + Z.of_nat k)) (drop k code).
Proof.
  intros Hc i b Hi. rewrite lookup_drop in Hi. destruct (Hc _ _ Hi) as (h & Et & El). exists h.
  split; [|done]. rewrite <- Et. f_equal. rewrite Nat2Z.inj_add. unfold u64.
  by rewrite Zplus_mod_idemp_l, Z.add_assoc.
Qed.

Lemma code_at_prefix m e code k : code_at m e code -> code_at m e (take k code).
Proof. intros Hc i b Hi. apply lookup_take_Some in Hi as [Hi _]. by apply Hc. Qed.

Lemma fetch_code n m e code :
  0 <= e < 2 ^ 64 -> code_at m e code -> exists rest, fetch tr n m e = take n code ++ rest.
Proof.
  revert e code. induction n as [|n IH]; intros e code He Hc; [by exists []|].
  destruct code as [|b code]; [by eexists|]. destruct (Hc 0%nat b eq_refl) as (h & Et & El).
  rewrite Z.add_0_r, u64_small in Et by done. cbn [fetch]. rewrite Et, El.
  destruct (IH (u64 (e + 1)) code (u64_range _) (code_at_drop m e (b :: code) 1 Hc)) as [rest ->]. by exists rest.
Qed.

(** The processor decodes what the code says. *)
Lemma current_code c e code k i len :
  code_at (co_mem c) e code -> co_reg c rip = u64 (e + Z.of_nat k) ->
  decode (drop k code) = Some (i, len) -> current tr c = Some (i, len).
Proof.
  intros Hc Hr Hd. unfold current. rewrite Hr.
  destruct (fetch_code 5 (co_mem c) _ _ (u64_range _) (code_at_drop _ _ _ k Hc)) as [rest ->].
  apply decode_app. by rewrite decode_take.
Qed.

(** The two conditions as computations. *)
Definition code_check (f : Z -> Z -> bool) (e : Z) (code : list Z) : bool :=
  forallb (fun ib => match tr (u64 (e + Z.of_nat ib.1)) with Some h => f h ib.2 | None => false end)
          (zip (seq 0 (length code)) code).

Lemma code_check_lookup f e code i b :
  code_check f e code = true -> code !! i = Some b ->
  exists h, tr (u64 (e + Z.of_nat i)) = Some h /\ f h b = true.
Proof.
  intros Hc Hi. unfold code_check in Hc. rewrite forallb_forall in Hc. specialize (Hc (i, b)). cbn in Hc.
  assert (In (i, b) (zip (seq 0 (length code)) code)) as Hin.
  { apply list_elem_of_In, (list_elem_of_lookup_2 _ i). apply lookup_zip_with_Some. exists i, b.
    split_and!; [done| |done]. apply lookup_seq. split; [done|]. by eapply lookup_lt_Some. }
  specialize (Hc Hin). destruct (tr _) as [h|]; [by exists h|done].
Qed.

Lemma code_at_check m e code : code_check (fun h b => load8 m h =? b) e code = true -> code_at m e code.
Proof.
  intros Hc i b Hi. destruct (code_check_lookup _ _ _ _ _ Hc Hi) as (h & Et & Ef). exists h.
  split; [done|]. by apply Z.eqb_eq.
Qed.

Lemma code_avoids_check e code a n :
  code_check (fun h _ => (h <? a) || (a + n <=? h)) e code = true -> code_avoids e code a n.
Proof.
  intros Hc i b h Hi Et. destruct (code_check_lookup _ _ _ _ _ Hc Hi) as (h' & Et' & Ef).
  rewrite Et in Et'. injection Et' as <-. lia.
Qed.
End Code.

Lemma code_at_ext tr tr' m e code : (forall w, tr' w = tr w) -> code_at tr m e code -> code_at tr' m e code.
Proof. intros E Hc i b Hi. rewrite E. by apply Hc. Qed.

(** ** The stack of the processor *)

Lemma co_reg_set c r x r' : co_reg (co_set c r x) r' = if decide (r = r') then x else co_reg c r'.
Proof. apply vreg_set. Qed.

(** Only some registers differ; the selectors are the same. *)
Record changes (rs : list Reg_t) (c c' : core) : Prop := mkChanges {
  ch_regs : forall r, r ∉ rs -> co_reg c' r = co_reg c r;
  ch_cs : co_cs c' = co_cs c;
  ch_ss : co_ss c' = co_ss c;
}.

(** A register is in, or not in, a list. *)
Ltac reg_in := clear; repeat (apply elem_of_cons; first [by left|right]).
Ltac reg_out :=
  match goal with
  | Hr : ?r ∉ _ |- ?r ∉ _ => clear -Hr; rewrite ?not_elem_of_cons in Hr; rewrite ?not_elem_of_cons; pose proof (not_elem_of_nil r); tauto
  | |- _ => repeat (apply not_elem_of_cons; split; [done|]); apply not_elem_of_nil
  end.

Lemma changes_refl rs c : changes rs c c.
Proof. by constructor. Qed.

Lemma changes_trans rs c1 c2 c3 : changes rs c1 c2 -> changes rs c2 c3 -> changes rs c1 c3.
Proof.
  intros [R1 A1 B1] [R2 A2 B2]. constructor; [|congruence|congruence].
  intros r Hr. by rewrite R2, R1.
Qed.

Lemma changes_set rs c r x : r ∈ rs -> changes rs c (co_set c r x).
Proof.
  intros Hr. constructor; [|done|done]. intros r' Hr'. rewrite co_reg_set. case_decide; [by subst|done].
Qed.

Lemma changes_store rs c h x : changes rs c (co_store c h x).
Proof. by constructor. Qed.

Lemma changes_sub rs rs' c c' : rs ⊆ rs' -> changes rs c c' -> changes rs' c c'.
Proof. intros Hs [R A B]. constructor; [|done|done]. intros r Hr. apply R. set_solver. Qed.

(** A memory after pushes below the host address [h]. *)
Fixpoint push_image (m : mem) (h : Z) (xs : list Z) : mem :=
  match xs with
  | [] => m
  | x :: xs => push_image (store64 m (h - 8) x) (h - 8) xs
  end.

Lemma push_image_other m h xs x :
  x < h - 8 * Z.of_nat (length xs) \/ h <= x -> push_image m h xs x = m x.
Proof.
  revert m h. induction xs as [|y xs IH]; intros m h Hx; [done|]. cbn [push_image].
  cbn [length] in Hx. rewrite IH by lia. apply store64_other. lia.
Qed.

Lemma push_image_load_other m h xs a :
  a + 8 <= h - 8 * Z.of_nat (length xs) \/ h <= a -> load64 (push_image m h xs) a = load64 m a.
Proof. intros Ha. apply load64_ext. intros x Hx. apply push_image_other. lia. Qed.

Lemma push_image_load m h xs i x :
  xs !! i = Some x -> load64 (push_image m h xs) (h - 8 * (Z.of_nat i + 1)) = u64 x.
Proof.
  revert m h i. induction xs as [|y xs IH]; intros m h [|i] Hi; [done|done| |].
  - injection Hi as ->. cbn [push_image]. rewrite push_image_load_other by lia.
    replace (h - 8 * (Z.of_nat 0 + 1)) with (h - 8) by lia. apply load64_store64_same.
  - cbn [push_image]. replace (h - 8 * (Z.of_nat (S i) + 1)) with (h - 8 - 8 * (Z.of_nat i + 1)) by lia.
    by apply IH.
Qed.

Lemma push_image_app m h xs ys :
  push_image m h (xs ++ ys) = push_image (push_image m h xs) (h - 8 * Z.of_nat (length xs)) ys.
Proof.
  revert m h. induction xs as [|x xs IH]; intros m h; [by rewrite Z.sub_0_r|].
  cbn [push_image app length]. rewrite IH. f_equal. lia.
Qed.

Section Stack.
Variable tr : Z -> option Z.
Variable sr : sysregs.

(** Room for [n] words below the stack pointer, in one piece of host memory
    that ends at [h]. *)
Record stack_room (sp h : Z) (n : nat) : Prop := mkRoom {
  ro_range : 8 * Z.of_nat n <= sp < 2 ^ 64;
  ro_word k : 1 <= k <= Z.of_nat n -> word_at tr (sp - 8 * k) = Some (h - 8 * k);
}.

Lemma stack_room_next sp h n : stack_room sp h (S n) -> stack_room (sp - 8) (h - 8) n.
Proof.
  intros [Hr Hw]. constructor; [lia|]. intros k Hk.
  replace (sp - 8 - 8 * k) with (sp - 8 * (k + 1)) by lia. rewrite Hw by lia. f_equal. lia.
Qed.

Lemma stack_room_le sp h n n' : stack_room sp h n -> (n' <= n)%nat -> stack_room sp h n'.
Proof. intros [Hr Hw] Hn. constructor; [lia|]. intros k Hk. apply Hw. lia. Qed.

Lemma push_word_ok c x h n :
  stack_room (co_reg c rsp) h (S n) ->
  push_word tr c x = Some (co_store (co_set c rsp (co_reg c rsp - 8)) (h - 8) x).
Proof.
  intros [Hr Hw]. unfold push_word. rewrite u64_small by lia. specialize (Hw 1 ltac:(lia)).
  rewrite Z.mul_1_r in Hw. by rewrite Hw.
Qed.

Lemma push_words_ok c xs h n :
  stack_room (co_reg c rsp) h n -> (length xs <= n)%nat ->
  exists c', push_words tr c xs = Some c' /\ co_reg c' rsp = co_reg c rsp - 8 * Z.of_nat (length xs) /\
    changes [rsp] c c' /\ co_mem c' = push_image (co_mem c) h xs.
Proof.
  revert c h n. induction xs as [|x xs IH]; intros c h n Hr Hn.
  { exists c. rewrite Z.sub_0_r. split_and!; [done..|apply changes_refl|done]. }
  destruct n as [|n]; [cbn in Hn; lia|]. cbn [push_words]. rewrite (push_word_ok c x h n Hr).
  set (c1 := co_store _ _ _).
  assert (co_reg c1 rsp = co_reg c rsp - 8) as R1 by done.
  destruct (IH c1 (h - 8) n) as (c' & E & R & Hc & Em);
    [rewrite R1; by apply stack_room_next|cbn in Hn; lia|].
  exists c'. split_and!; [exact E|rewrite R, R1; cbn [length]; lia| |done].
  eapply changes_trans; [|exact Hc]. eapply changes_trans; [by apply (changes_set _ _ rsp), list_elem_of_here|].
  apply changes_store.
Qed.

Lemma pop_word_ok c h :
  co_reg c rsp < 2 ^ 64 - 8 -> 0 <= co_reg c rsp -> word_at tr (co_reg c rsp) = Some h ->
  pop_word tr c = Some (load64 (co_mem c) h, co_set c rsp (co_reg c rsp + 8)).
Proof. intros H1 H2 Hw. unfold pop_word. by rewrite Hw, u64_small by lia. Qed.

Lemma steps_S n c c1 : step tr sr c = Some c1 -> steps tr sr (S n) c = steps tr sr n c1.
Proof. intros E. cbn [steps]. by rewrite E. Qed.

Lemma step_eq c i len : current tr c = Some (i, len) -> step tr sr c = exec tr sr i len c.
Proof. intros E. unfold step. by rewrite E. Qed.

Lemma steps_1 c i len : current tr c = Some (i, len) -> steps tr sr 1 c = exec tr sr i len c.
Proof. intros E. cbn [steps]. rewrite (step_eq _ _ _ E). by destruct (exec _ _ _ _ _). Qed.

Lemma steps_2 c i len c1 :
  current tr c = Some (i, len) -> exec tr sr i len c = Some c1 ->
  steps tr sr 2 c = steps tr sr 1 c1.
Proof. intros E1 E2. apply steps_S. by rewrite (step_eq _ _ _ E1). Qed.

(** Translations that agree. *)
Lemma word_at_ext tr' a : (forall w, tr' w = tr w) -> word_at tr' a = word_at tr a.
Proof. intros E. unfold word_at. by rewrite E. Qed.

Lemma pop_word_ext tr' c : (forall w, tr' w = tr w) -> pop_word tr' c = pop_word tr c.
Proof. intros E. unfold pop_word. by rewrite (word_at_ext tr'). Qed.

Lemma exec_ext tr' i len c : (forall w, tr' w = tr w) -> exec tr' sr i len c = exec tr sr i len c.
Proof.
  intros E. destruct i; unfold exec; try done.
  - unfold push_word. by rewrite (word_at_ext tr').
  - repeat (rewrite (pop_word_ext tr') by done; destruct (pop_word tr _) as [[? ?]|]; cbn [mbind option_bind]; [|done]).
    done.
  - by rewrite (pop_word_ext tr').
  - by rewrite (pop_word_ext tr').
Qed.

Lemma steps_ext tr' n c : (forall w, tr' w = tr w) -> steps tr' sr n c = steps tr sr n c.
Proof.
  intros E. revert c. induction n as [|n IH]; intros c; [done|]. cbn [steps].
  assert (step tr' sr c = step tr sr c) as ->.
  { unfold step, current. rewrite (fetch_ext tr tr') by done. destruct (decode _) as [[i len]|]; [|done].
    by apply exec_ext. }
  destruct (step tr sr c); [apply IH|done].
Qed.

(** Instructions know nothing of the host's record of the stack. *)
Lemma push_word_stack c x c' : push_word tr c x = Some c' -> stack (co_cpu c') = stack (co_cpu c).
Proof. unfold push_word. destruct (word_at _ _); [|done]. by intros [= <-]. Qed.

Lemma pop_word_stack c x c' : pop_word tr c = Some (x, c') -> stack (co_cpu c') = stack (co_cpu c).
Proof. unfold pop_word. destruct (word_at _ _); [|done]. by intros [= <- <-]. Qed.

Lemma push_words_stack c xs c' : push_words tr c xs = Some c' -> stack (co_cpu c') = stack (co_cpu c).
Proof.
  revert c. induction xs as [|x xs IH]; intros c; [by intros [= <-]|]. cbn [push_words].
  destruct (push_word tr c x) as [c1|] eqn:E; [|done]. intros E2. by rewrite (IH c1 E2), (push_word_stack _ _ _ E).
Qed.

Lemma exec_stack i len c c' : exec tr sr i len c = Some c' -> stack (co_cpu c') = stack (co_cpu c).
Proof.
  destruct i; unfold exec; try (by intros [= <-]); try done.
  - intros E. by rewrite (push_word_stack _ _ _ E).
  - destruct (pop_word tr c) as [[x1 c1]|] eqn:E1; [|done]. cbn [mbind option_bind].
    destruct (pop_word tr c1) as [[x2 c2]|] eqn:E2; [|done]. cbn [mbind option_bind].
    destruct (pop_word tr c2) as [[x3 c3]|] eqn:E3; [|done]. cbn [mbind option_bind].
    destruct (pop_word tr c3) as [[x4 c4]|] eqn:E4; [|done]. cbn [mbind option_bind].
    destruct (pop_word tr c4) as [[x5 c5]|] eqn:E5; [|done]. cbn [mbind option_bind]. intros [= <-].
    transitivity (stack (co_cpu c5)); [done|].
    by rewrite (pop_word_stack _ _ _ E5), (pop_word_stack _ _ _ E4), (pop_word_stack _ _ _ E3),
      (pop_word_stack _ _ _ E2), (pop_word_stack _ _ _ E1).
  - destruct (pop_word tr c) as [[x c1]|] eqn:E; [|done]. intros [= <-]. apply (pop_word_stack _ _ _ E).
  - destruct (pop_word tr c) as [[x c1]|] eqn:E; [|done]. intros [= <-]. apply (pop_word_stack _ _ _ E).
Qed.

Lemma steps_stack n c c' : steps tr sr n c = Some c' -> stack (co_cpu c') = stack (co_cpu c).
Proof.
  revert c. induction n as [|n IH]; intros c; [by intros [= <-]|]. cbn [steps]. unfold step at 1.
  destruct (current tr c) as [[i len]|]; [|done]. cbn [mbind option_bind].
  destruct (exec tr sr i len c) as [c1|] eqn:E; [|done]. intros E2. by rewrite (IH c1 E2), (exec_stack _ _ _ _ E).
Qed.

Lemma deliver_stack i error c c' : deliver tr sr i error c = Some c' -> stack (co_cpu c') = stack (co_cpu c).
Proof.
  unfold deliver. destruct (word_at _ _); [|done]. cbn [mbind option_bind].
  destruct (push_words tr _ _) as [c1|] eqn:E; [|done]. intros [= <-]. exact (push_words_stack _ _ _ E).
Qed.

(** The processor does what [pushes] computes from the binary. *)
Lemma pushes_steps fuel code off xs a c e h n :
  pushes fuel code off = Some (xs, a) ->
  code_at tr (co_mem c) e code -> code_avoids tr e code (h - 8 * Z.of_nat n) (8 * Z.of_nat n) ->
  co_reg c rip = u64 (e + off) -> stack_room (co_reg c rsp) h n -> (length xs <= n)%nat ->
  exists k c', steps tr sr k c = Some c' /\ co_reg c' rip = u64 (e + a) /\
    co_reg c' rsp = co_reg c rsp - 8 * Z.of_nat (length xs) /\ changes [rsp; rip] c c' /\
    co_mem c' = push_image (co_mem c) h (map u64 xs) /\ current tr c' = Some (IVmcall, 3).
Proof.
  revert off xs c h n. induction fuel as [|fuel IH]; [done|]. intros off xs c h n E Hc Ha Hr Hroom Hn.
  cbn [pushes] in E. destruct (Z.ltb_spec off 0) as [|Hoff]; [done|].
  destruct (decode _) as [[i len]|] eqn:Ed; [|done].
  assert (current tr c = Some (i, len)) as Ec.
  { apply (current_code tr c e code (Z.to_nat off)); [done|by rewrite Z2Nat.id by lia|done]. }
  assert (forall d, u64 (u64 (e + off) + d) = u64 (e + (off + d))) as Eu.
  { intros d. unfold u64. rewrite Zplus_mod_idemp_l. f_equal. lia. }
  destruct i as [x|long d| | | | | |]; try done.
  - destruct (pushes fuel code (off + len)) as [[ys a']|] eqn:Ep; [|done]. injection E as <- <-.
    destruct n as [|n]; [cbn in Hn; lia|].
    pose proof (push_word_ok (co_set c rip (u64 (e + (off + len)))) (u64 x) h n Hroom) as Ex.
    set (c1 := co_store _ _ _) in Ex.
    assert (step tr sr c = Some c1) as E1 by (rewrite (step_eq _ _ _ Ec); unfold exec; by rewrite Hr, Eu).
    destruct (IH (off + len) ys c1 (h - 8) n Ep) as (k & c' & Ek & Rip & Rsp & Hch & Em & Ecur).
    + eapply (code_at_agree tr (co_mem c)); [exact Hc|exact Ha|]. intros y Hy. apply store64_other. lia.
    + intros j b hh Hj Hh. specialize (Ha j b hh Hj Hh). lia.
    + done.
    + by apply (stack_room_next _ _ _ Hroom).
    + cbn in Hn. lia.
    + exists (S k), c'. rewrite (steps_S _ _ _ E1). split_and!; [done|done| | |done|done].
      * rewrite Rsp. change (co_reg c1 rsp) with (co_reg c rsp - 8). cbn [length]. lia.
      * eapply changes_trans; [|exact Hch]. eapply changes_trans; [apply (changes_set _ _ rip); reg_in|].
        eapply changes_trans; [apply (changes_set _ _ rsp); reg_in|]. apply changes_store.
  - set (c1 := co_set c rip (u64 (e + (off + len + d)))).
    assert (step tr sr c = Some c1) as E1.
    { rewrite (step_eq _ _ _ Ec). unfold exec. rewrite Hr, Eu. unfold c1. do 2 f_equal.
      unfold u64. rewrite Zplus_mod_idemp_l. f_equal. lia. }
    destruct (IH (off + len + d) xs c1 h n E Hc Ha eq_refl Hroom Hn) as (k & c' & Ek & Rip & Rsp & Hch & Em & Ecur).
    exists (S k), c'. rewrite (steps_S _ _ _ E1). split_and!; [done..| |done|done].
    eapply changes_trans; [|exact Hch]. apply changes_set. reg_in.
  - injection E as <- <-. exists 0%nat, c. cbn [length map push_image]. rewrite Z.sub_0_r.
    split_and!; [done..|apply changes_refl|done|]. rewrite Ec.
    assert (len = 3) as ->; [|done].
    assert (forall bs, decode bs = Some (IVmcall, len) -> len = 3) as Hl; [|by eapply Hl].
    clear. intros [|b bs]; [done|]. cbn [decode]. unfold operand. repeat (case_match; try done); by intros [= <-].
Qed.
End Stack.

Lemma stack_room_ext tr tr' sp h n : (forall w, tr' w = tr w) -> stack_room tr sp h n -> stack_room tr' sp h n.
Proof. intros E [Hr Hw]. constructor; [done|]. intros k Hk. by rewrite (word_at_ext tr), Hw. Qed.

(** ** The computer *)

(** The general registers. *)
Definition gpr (r : Reg_t) : bool :=
  match r with cr0 | cr2 | cr3 | cr4 | cr8 | efer | apic_base => false | _ => true end.

Lemma push_image_outside m h xs a n x :
  (forall k, 1 <= k <= Z.of_nat (length xs) -> h - 8 * k + 8 <= a \/ a + n <= h - 8 * k) ->
  a <= x < a + n -> push_image m h xs x = m x.
Proof.
  revert m h. induction xs as [|y xs IH]; intros m h Hk Hx; [done|]. cbn [push_image].
  rewrite IH; [|intros k Hk'; specialize (Hk (k + 1)); cbn [length] in Hk; lia|done].
  apply store64_other. specialize (Hk 1). cbn [length] in Hk. lia.
Qed.

Section Computer.
Context {os T : Type} `{HostOSLaws os} `{KvmOS os} `{TranslationCacheLaws T}.
Implicit Types s : vm os T.

(** Room on a stack of the guest, outside the page tables. *)
Record vm_room s (v : VCPU) (c0 : Chunk) (sp h : Z) (n : nat) : Prop := mkVmRoom {
  vr_range : 8 * Z.of_nat n <= sp < 2 ^ 64;
  vr_aligned : sp mod 8 = 0;
  vr_word k : 1 <= k <= Z.of_nat n -> stack_word (cpu0 s v) c0 (sp - 8 * k) (h - 8 * k);
}.

Lemma aligned_word a k : a mod 8 = 0 -> (a - 8 * k) mod 4096 <= 4088.
Proof. intros Ha. Z.div_mod_to_equations. lia. Qed.

Lemma vm_room_stack s v c0 sp h n : vm_room s v c0 sp h n -> stack_room (translate c0 s) sp h n.
Proof.
  intros [Hr Ha Hw]. constructor; [done|]. intros k Hk. unfold word_at.
  pose proof (aligned_word sp k Ha) as Hm. apply Z.leb_le in Hm. rewrite Hm. apply (Hw k Hk).
Qed.

(** Memory and registers may change as long as the page tables do not. *)
Lemma vm_ok_write s v c0 N v' m' :
  vm_ok s v c0 N ->
  (forall x, host_pml4_p (p_pager (vm_paging s)) <= x < host_pml4_p (p_pager (vm_paging s)) + ELKVM_SYSTEM_MEMSIZE ->
     m' x = p_mem (vm_paging s) x) ->
  let s' := vm_write s v' m' (p_tlb (vm_paging s)) in
  vm_ok s' v' c0 N /\ forall w, host_of c0 (vm_paging s') w = host_of c0 (vm_paging s) w.
Proof.
  intros [Hv [[own Hi] Hc Ht]] Hm s'. change (paging (cpu0 s v)) with (vm_paging s) in *.
  assert (same_tables (vm_paging s) (vm_paging s')) as Hst by (split; [done|exact Hm]). split.
  - constructor; [by apply (vm_write_lookup s v)|].
    constructor; change (paging (cpu0 s' v')) with (vm_paging s');
      [exists own; by eapply same_tables_inv|exact Hc|].
    by eapply (same_tables_coherent (vm_paging s)).
  - intros w. by eapply same_tables_host.
Qed.

Lemma vm_push_image s v c0 N v' sp h n xs :
  vm_ok s v c0 N -> vm_room s v c0 sp h n -> (length xs <= n)%nat ->
  let s' := vm_write s v' (push_image (p_mem (vm_paging s)) h xs) (p_tlb (vm_paging s)) in
  vm_ok s' v' c0 N /\ forall w, host_of c0 (vm_paging s') w = host_of c0 (vm_paging s) w.
Proof.
  intros Hok Hr Hn. apply (vm_ok_write s v); [done|]. intros x Hx.
  eapply push_image_outside; [|exact Hx]. intros k Hk.
  destruct (vr_word _ _ _ _ _ _ Hr k ltac:(lia)) as [_ _ Hu]. exact Hu.
Qed.

Lemma core_of_eq (p : computer os T) v :
  cpus (pc_vm p) !! 0%nat = Some v -> core_of p = Some (mkCore v (pc_cs p) (pc_ss p) (p_mem (vm_paging (pc_vm p)))).
Proof. intros Hv. unfold core_of. by rewrite Hv. Qed.

Lemma on_core_eq f (p : computer os T) v c :
  cpus (pc_vm p) !! 0%nat = Some v ->
  f (mkCore v (pc_cs p) (pc_ss p) (p_mem (vm_paging (pc_vm p)))) = Some c -> on_core f p = Some (with_core p c).
Proof. intros Hv E. unfold on_core. rewrite (core_of_eq p v Hv). cbn [mbind option_bind]. by rewrite E. Qed.

Lemma guest_steps_eq c0 sr n (p : computer os T) v c :
  cpus (pc_vm p) !! 0%nat = Some v ->
  steps (translate c0 (pc_vm p)) sr n (mkCore v (pc_cs p) (pc_ss p) (p_mem (vm_paging (pc_vm p)))) = Some c ->
  guest_steps c0 sr n p = Some (with_core p c).
Proof. apply on_core_eq. Qed.

(** The computer whose machine has the memory it had: nothing but CPU 0 moves. *)
Lemma with_core_rm (p : computer os T) c :
  co_mem c = p_mem (vm_paging (pc_vm p)) -> hm_rm (v_hm (pc_vm (with_core p c))) = hm_rm (v_hm (pc_vm p)).
Proof.
  intros E. unfold with_core. cbn [pc_vm]. rewrite E. unfold vm_write, put_cpu0, rm_mem_tlb, vm_paging.
  cbn [with_cpus with_hm v_hm hm_rm c_rm]. by destruct (hm_rm (v_hm (pc_vm p))) as [? ? ? []].
Qed.

Lemma with_core_paging (p : computer os T) c :
  co_mem c = p_mem (vm_paging (pc_vm p)) -> vm_paging (pc_vm (with_core p c)) = vm_paging (pc_vm p).
Proof. intros E. unfold vm_paging. by rewrite with_core_rm. Qed.
End Computer.
