(* ===== verification/GuestTheorems.v ===== *)
(** * The code in the guest: theorems

    The interrupt stubs against the gates that name them, and the ways through
    the guest code: a system call, an exception, a signal handler. *)

From S2P Require Import Prelude Text Memory PageMath HostOS Tlb Pager PagerTree PagerWalk PagerSpec PagerTlb PagerTheorems Region RegionManager RegionSpec RegionTheorems Registers Mappings Heap HeapSpec HeapTheorems Vcpu VcpuTheorems Descriptors DescriptorTheorems Vm Handlers Syscall SyscallStubs Hypercall VmSpec SyscallTheorems HypercallTheorems RunTheorems LifecycleTheorems GuestCode GuestSpec.
From stdpp Require Import strings relations.
Local Open Scope Z_scope.

(** ** What a system call leaves alone *)

(** The general registers of CPU 0. *)
Definition gp_regs {os T} (s : vm os T) : option kvm_regs := (fun v => kv_regs (_kvm_vcpu v)) <$> cpus s !! 0%nat.

Section GpRegs.
Context {os T : Type} `{HostOS os} `{FileOS os} `{KvmOS os} `{MonitorOS os} `{TranslationCache T}.

Definition cpu_gp (c : cpu os T) : kvm_regs := kv_regs (_kvm_vcpu (c_vcpu c)).

Lemma keeps_gp_on_cpu {A} (c : M (cpu os T) A) : keeps cpu_gp c -> keeps gp_regs (on_cpu 0 c).
Proof.
  intros Hc s a s' E. unfold on_cpu in E. destruct (cpus s !! 0%nat) as [v|] eqn:Ev; [|done].
  destruct (c _) as [[b t]|] eqn:Ec; [|done]. injection E as _ <-. apply Hc in Ec.
  unfold gp_regs. rewrite Ev. cbn. rewrite list_lookup_insert_eq by (by eapply lookup_lt_Some).
  cbn. f_equal. exact Ec.
Qed.

Lemma keeps_gp_cpu_rm {A} (c : M (rm os T) A) : keeps cpu_gp (on_cpu_rm c).
Proof. apply keeps_zoom. done. Qed.

Lemma keeps_gp_get_reg r : keeps cpu_gp (get_reg r).
Proof. by intros s a s' [= _ <-]. Qed.

Lemma keeps_gp_get_seg g : keeps cpu_gp (get_seg g).
Proof. by intros s a s' [= _ <-]. Qed.

Lemma keeps_gp_set_seg g x : keeps cpu_gp (set_seg g x).
Proof. intros s a s' [= _ <-]. destruct s as [[? [] ?] ?]. by destruct g. Qed.

Lemma keeps_gp_get_sregs : keeps cpu_gp get_sregs.
Proof.
  unfold get_sregs. intros s a s' E. apply bind_ok_inv in E as (k & s1 & E1 & E). injection E1 as <- <-.
  apply bind_ok_inv in E as ([[err en] r] & s1 & E1 & E).
  assert (c_vcpu s1 = c_vcpu s) as Ev.
  { revert E1. apply (keeps_zoom c_vcpu). done. }
  apply bind_ok_inv in E as ([] & s2 & E2 & E). injection E2 as <-.
  destruct (ctrue err); injection E as _ <-; unfold cpu_gp; cbn; done.
Qed.

Lemma keeps_gp_set_sregs : keeps cpu_gp set_sregs.
Proof.
  unfold set_sregs, kvm. apply keeps_bind; [apply keeps_gets|]. intros k.
  apply keeps_bind; [apply keeps_gp_cpu_rm|]. intros [err en]. destruct (ctrue err); apply keeps_ret.
Qed.

Lemma keeps_gp_heap {A} (c : M (hm os T) A) : keeps gp_regs (heap c).
Proof. apply keeps_zoom. done. Qed.

Lemma keeps_gp_at_z {A} (l : list A) i : keeps (@gp_regs os T) (at_z l i).
Proof. unfold at_z. case_match; auto with keeps. Qed.
End GpRegs.
#[export] Hint Resolve keeps_gp_on_cpu keeps_gp_get_reg keeps_gp_get_seg keeps_gp_set_seg keeps_gp_get_sregs
  keeps_gp_set_sregs keeps_gp_heap keeps_gp_at_z : keeps.

Section SyscallRegs.
Context {os T : Type} `{HostOS os} `{FileOS os} `{KvmOS os} `{MonitorOS os} `{TranslationCache T}.
Variable hs : elkvm_handlers os (vm os T).

(** Every function of the table leaves the general registers alone; the result
    is written by [handle_syscall]. *)
Lemma syscalls_keep_gp :
  Forall (fun e => match e with Some (c, _) => keeps (@gp_regs os T) c | None => True end) (elkvm_syscalls hs).
Proof.
  unfold elkvm_syscalls. rewrite !Forall_app. split_and!.
  - unfold elkvm_syscalls_low. repeat constructor; try done; keeps_all.
  - unfold elkvm_syscalls_high. repeat constructor; try done; keeps_all.
  - by apply Forall_replicate.
Qed.
End SyscallRegs.

(** ** A system call *)

Lemma entry_pushes : pushes 4 entry_bin 0 = Some ([1], 2).
Proof. vm_compute. reflexivity. Qed.

(** From the [syscall] instruction to the [vmcall] of the entry code. *)
Lemma enter_syscall tr sr c h :
  0 <= co_reg c rip < 2 ^ 64 -> 0 <= lstar sr < 2 ^ 64 ->
  code_at tr (co_mem c) (co_reg c rip) (encode ISyscall) ->
  code_at tr (co_mem c) (lstar sr) entry_bin -> code_avoids tr (lstar sr) entry_bin (h - 8) 8 ->
  stack_room tr (co_reg c rsp) h 1 ->
  exists n c', steps tr sr n c = Some c' /\ current tr c' = Some (IVmcall, 3) /\
    co_reg c' rip = u64 (lstar sr + 2) /\ co_reg c' rsp = co_reg c rsp - 8 /\
    co_reg c' rcx = u64 (co_reg c rip + 2) /\ co_reg c' r11 = co_reg c rflags /\
    (forall r, r ∉ [rip; rsp; rcx; r11; rflags] -> co_reg c' r = co_reg c r) /\
    co_mem c' = push_image (co_mem c) h [1].
Proof.
  intros Hip Hl Hsys Hent Hav Hroom.
  assert (current tr c = Some (ISyscall, 2)) as Ec.
  { apply (current_code tr c _ _ 0 _ _ Hsys); [by rewrite Z.add_0_r, u64_small|done]. }
  pose proof (step_eq tr sr c _ _ Ec) as E1. cbn [exec] in E1. set (c1 := co_selectors _ _ _) in E1.
  destruct (pushes_steps tr sr 4 entry_bin 0 [1] 2 c1 (lstar sr) h 1 entry_pushes Hent)
    as (n & c' & En & Rip & Rsp & [Hr _ _] & Em & Ecur); [done|by rewrite Z.add_0_r, u64_small|exact Hroom|done|].
  exists (S n), c'. rewrite (steps_S tr sr n c c1 E1).
  assert (forall r, r ∉ [rsp; rip] -> co_reg c' r = co_reg c1 r) as Hr' by done.
  split_and!; [done|done|done|by rewrite Rsp|..].
  - rewrite Hr' by reg_out. done.
  - rewrite Hr' by reg_out. done.
  - intros r Hn. rewrite Hr' by reg_out. unfold c1, co_selectors, co_reg. cbn [co_cpu co_set].
    rewrite !vreg_set. repeat (case_decide; [subst; exfalso; apply Hn; reg_in|]). done.
  - exact Em.
Qed.

(** Registers of machines with the same general registers. *)
Lemma gp_regs_vreg {os T} (s s' : vm os T) v :
  gp_regs s' = gp_regs s -> cpus s !! 0%nat = Some v ->
  exists v', cpus s' !! 0%nat = Some v' /\ forall r, gpr r -> vreg v' r = vreg v r.
Proof.
  unfold gp_regs. intros E Hv. rewrite Hv in E. destruct (cpus s' !! 0%nat) as [v'|] eqn:Ev; [|done].
  exists v'. split; [done|]. cbn in E. injection E as E. intros r Hr. unfold vreg, kvm_get_reg.
  destruct r; try done; by rewrite E.
Qed.

Section SyscallTrip.
Context {os T : Type} `{HostOSLaws os} `{FileOS os} `{KvmOS os} `{MonitorOS os} `{TranslationCacheLaws T}.
Variable hs : elkvm_handlers os (vm os T).
Variables (udis : bool) (c0 : Chunk) (sr : sysregs).
Implicit Types s : vm os T.

(** Back from the machine: [sysretq] with [rip] at its address. *)
Lemma leave_syscall s v cs_ ss_ :
  cpus s !! 0%nat = Some v -> 0 <= vreg v rip < 2 ^ 64 -> star sr = star_value ->
  code_at (translate c0 s) (p_mem (vm_paging s)) (vreg v rip) (encode ISysret) ->
  exists s' v', guest_steps c0 sr 1 (mkComputer s cs_ ss_) = Some (mkComputer s' 0x13 0xb) /\
    cpus s' !! 0%nat = Some v' /\ vm_paging s' = vm_paging s /\ vreg v' rip = vreg v rcx /\
    vreg v' rflags = Z.lor (Z.land (vreg v r11) 0x3C7FD7) 2 /\
    forall r, r ∉ [rip; rflags] -> vreg v' r = vreg v r.
Proof.
  intros Hv Hip Hst Hc. set (c := mkCore v cs_ ss_ (p_mem (vm_paging s))).
  assert (current (translate c0 s) c = Some (ISysret, 3)) as Ec.
  { apply (current_code (translate c0 s) c _ _ 0 _ _ Hc); [by rewrite Z.add_0_r, u64_small|done]. }
  pose proof (steps_1 (translate c0 s) sr c _ _ Ec) as E. cbn [exec] in E. rewrite Hst in E.
  set (c1 := co_selectors _ _ _) in E.
  pose proof (guest_steps_eq c0 sr 1 (mkComputer s cs_ ss_) v c1 Hv E) as Eg.
  exists (pc_vm (with_core (mkComputer s cs_ ss_) c1)), (co_cpu c1). split_and!; [exact Eg|..].
  - by apply (vm_write_lookup s v).
  - by apply (with_core_paging (mkComputer s cs_ ss_) c1).
  - done.
  - done.
  - intros r Hr. unfold c1, co_selectors. cbn [co_cpu co_set]. rewrite !vreg_set.
    repeat (case_decide; [subst; exfalso; apply Hr; reg_in|]). done.
Qed.

(** A machine whose processor stands before a [vmcall]. *)
Lemma hypercall_eq (p : computer os T) v c s' :
  core_of p = Some c -> co_cpu c = v -> current (translate c0 (pc_vm p)) c = Some (IVmcall, 3) ->
  handle_hypercall hs hypercall_null udis (pc_vm p) = Ok (0, s') ->
  hypercall hs udis c0 p = Some (mkComputer s' (pc_cs p) (pc_ss p)).
Proof. intros Ec _ Ecur E. unfold hypercall. rewrite Ec. cbn [mbind option_bind]. by rewrite Ecur, E. Qed.

(** What the instructions up to a [vmcall] did to the machine. *)
Record at_vmcall s N h (xs : list Z) s0 v0 cs_ ss_ : Prop := mkAtVmcall {
  av_ok : vm_ok s0 v0 c0 N;
  av_host w : host_of c0 (vm_paging s0) w = host_of c0 (vm_paging s) w;
  av_vm : s0 = vm_write s v0 (push_image (p_mem (vm_paging s)) h xs) (p_tlb (vm_paging s));
  av_current : current (translate c0 s0) (mkCore v0 cs_ ss_ (p_mem (vm_paging s0))) = Some (IVmcall, 3);
}.

Lemma reach_vmcall s v N sp h n xs cs_ ss_ k c1 :
  vm_ok s v c0 N -> vm_room s v c0 sp h n -> (length xs <= n)%nat ->
  steps (translate c0 s) sr k (mkCore v cs_ ss_ (p_mem (vm_paging s))) = Some c1 ->
  co_mem c1 = push_image (p_mem (vm_paging s)) h xs -> current (translate c0 s) c1 = Some (IVmcall, 3) ->
  exists s0, guest_steps c0 sr k (mkComputer s cs_ ss_) = Some (mkComputer s0 (co_cs c1) (co_ss c1)) /\
    at_vmcall s N h xs s0 (co_cpu c1) (co_cs c1) (co_ss c1).
Proof.
  intros Hok Hr Hn Es Em Ecur. set (p := mkComputer s cs_ ss_).
  pose proof (guest_steps_eq c0 sr k p v c1 (vo_cpu _ _ _ _ Hok) Es) as Eg.
  exists (pc_vm (with_core p c1)). split; [exact Eg|].
  assert (vm_ok (pc_vm (with_core p c1)) (co_cpu c1) c0 N /\
          forall w, host_of c0 (vm_paging (pc_vm (with_core p c1))) w = host_of c0 (vm_paging s) w) as [Ok0 Eh0].
  { cbn [with_core pc_vm]. rewrite Em. by apply (vm_push_image s v c0 N _ sp h n). }
  constructor; [done|done|by cbn [with_core pc_vm]; rewrite Em|].
  rewrite <- Ecur. unfold current. f_equal. by apply fetch_ext.
Qed.

Lemma syscall_enters s v N h cs_ ss_ :
  vm_ok s v c0 N -> 0 <= vreg v rip < 2 ^ 64 -> 0 <= lstar sr < 2 ^ 64 - 8 ->
  let tr := translate c0 s in let m := p_mem (vm_paging s) in
  code_at tr m (vreg v rip) (encode ISyscall) -> code_at tr m (lstar sr) entry_bin ->
  code_avoids tr (lstar sr) entry_bin (h - 8) 8 -> vm_room s v c0 (vreg v rsp) h 1 ->
  exists k s0 v0 cs0 ss0,
    guest_steps c0 sr k (mkComputer s cs_ ss_) = Some (mkComputer s0 cs0 ss0) /\
    at_vmcall s N h [1] s0 v0 cs0 ss0 /\
    vreg v0 rip = lstar sr + 2 /\ vreg v0 rsp = vreg v rsp - 8 /\
    vreg v0 rcx = u64 (vreg v rip + 2) /\ vreg v0 r11 = vreg v rflags /\
    forall r, r ∉ [rip; rsp; rcx; r11; rflags] -> vreg v0 r = vreg v r.
Proof.
  intros Hok Hip Hl tr m Hsys Hent Hav Hroom. set (c := mkCore v cs_ ss_ m).
  destruct (enter_syscall tr sr c h Hip ltac:(lia) Hsys Hent Hav (vm_room_stack _ _ _ _ _ _ Hroom))
    as (k & c1 & En & Ecur & Rip & Rsp & Rcx & R11 & Rr & Em).
  destruct (reach_vmcall s v N (vreg v rsp) h 1 [1] cs_ ss_ k c1 Hok Hroom ltac:(done) En Em Ecur) as (s0 & Eg & Hav0).
  exists k, s0, (co_cpu c1), (co_cs c1), (co_ss c1). rewrite u64_small in Rip by lia. done.
Qed.

(** The way back: the machine has written the result and moved [rip] to the
    [sysretq]. *)
Lemma syscall_leaves s2 v2 r cs_ ss_ :
  cpus s2 !! 0%nat = Some v2 -> 0 <= lstar sr < 2 ^ 64 - 8 -> star sr = star_value ->
  code_at (translate c0 s2) (p_mem (vm_paging s2)) (lstar sr + 5) (encode ISysret) ->
  let s2' := put_reg (put_reg s2 v2 rax (u64 r)) (set_vreg v2 rax (u64 r)) rip (lstar sr + 5) in
  exists s3 v3, guest_steps c0 sr 1 (mkComputer s2' cs_ ss_) = Some (mkComputer s3 0x13 0xb) /\
    cpus s3 !! 0%nat = Some v3 /\ vm_paging s3 = vm_paging s2 /\ vreg v3 rip = vreg v2 rcx /\
    vreg v3 rax = u64 r /\ vreg v3 rflags = Z.lor (Z.land (vreg v2 r11) 0x3C7FD7) 2 /\
    forall x, x ∉ [rip; rax; rflags] -> vreg v3 x = vreg v2 x.
Proof.
  intros Hv2 Hl Hst Hret s2'. set (v2' := set_vreg (set_vreg v2 rax (u64 r)) rip (lstar sr + 5)).
  assert (cpus s2' !! 0%nat = Some v2') as Hv2' by (apply put_reg_lookup; by apply put_reg_lookup).
  destruct (leave_syscall s2' v2' cs_ ss_ Hv2') as (s3 & v3 & Es & Hv3 & Ep & Rip3 & Rfl & R3);
    [change (0 <= lstar sr + 5 < 2 ^ 64); lia|done|exact Hret|].
  exists s3, v3. split_and!; [exact Es|exact Hv3|by rewrite Ep|done|by rewrite R3 by reg_out|done|].
  intros x Hx. rewrite R3 by reg_out. unfold v2'. rewrite !vreg_set.
  by repeat (case_decide; [subst; exfalso; apply Hx; reg_in|]).
Qed.
End SyscallTrip.

(** C17. A system call from the guest's side.  With the entry code at the address
    in the [LSTAR] register and one mapped word below the stack, a [syscall]
    of a number below 275 other than [exit_group] runs the function of that
    number, with the arguments in the registers as the guest left them and
    nothing in memory changed but the word below the stack pointer, where the
    entry code leaves the type of the hypercall.  If the function returns
    [r], no signal waits and the entry code is still there, the guest goes on
    behind its [syscall] instruction, in user mode, with [r] in [rax], the
    stack pointer where it was and every general register except [rcx], [r11]
    and the flags unchanged, on the memory that the function left. *)
Theorem syscall_roundtrip {os T} `{HostOSLaws os} `{FileOS os} `{KvmOS os} `{MonitorOS os} `{TranslationCacheLaws T}
    (hs : elkvm_handlers os (vm os T)) udis sr (s : vm os T) v c0 N h cs_ ss_ :
  vm_ok s v c0 N -> 0 <= vreg v rip < 2 ^ 64 -> 0 <= lstar sr < 2 ^ 64 - 8 -> star sr = star_value ->
  let tr := translate c0 s in let m := p_mem (vm_paging s) in
  code_at tr m (vreg v rip) (encode ISyscall) -> code_at tr m (lstar sr) entry_bin ->
  code_avoids tr (lstar sr) entry_bin (h - 8) 8 -> vm_room s v c0 (vreg v rsp) h 1 ->
  0 <= vreg v rax < 275 -> vreg v rax <> 231 ->
  exists f name s1 v1,
    elkvm_syscalls hs !! Z.to_nat (vreg v rax) = Some (Some (f, name)) /\
    vm_ok s1 v1 c0 N /\ (forall r, r ∉ [rip; rcx; r11; rflags] -> vreg v1 r = vreg v r) /\
    p_mem (vm_paging s1) = store64 m (h - 8) 1 /\ (forall w, translate c0 s1 w = tr w) /\
    num_pending_signals s1 = num_pending_signals s /\
    forall r s2, f s1 = Ok (r, s2) -> num_pending_signals s2 <= 0 ->
      code_at (translate c0 s2) (p_mem (vm_paging s2)) (lstar sr + 5) (encode ISysret) ->
      exists s3 v3, rtc (pc_run hs udis c0 sr) (mkComputer s cs_ ss_) (mkComputer s3 0x13 0xb) /\
        cpus s3 !! 0%nat = Some v3 /\ vm_paging s3 = vm_paging s2 /\
        vreg v3 rip = u64 (vreg v rip + 2) /\ vreg v3 rax = u64 r /\
        vreg v3 rflags = Z.lor (Z.land (vreg v rflags) 0x3C7FD7) 2 /\
        forall x, gpr x -> x ∉ [rip; rax; rcx; r11; rflags] -> vreg v3 x = vreg v x.
Proof.
  intros Hok Hip Hl Hst tr m Hsys Hent Hav Hroom Hn H231.
  destruct (syscall_enters c0 sr s v N h cs_ ss_ Hok Hip Hl Hsys Hent Hav Hroom)
    as (k & s0 & v0 & cs0 & ss0 & Eg & [Ok0 Eh0 Evm Ecur] & Rip & Rsp & Rcx & R11 & Rr).
  assert (p_mem (vm_paging s0) = store64 m (h - 8) 1) as Em by (by rewrite Evm).
  assert (p_pager (vm_paging s0) = p_pager (vm_paging s)) as Ep0 by (by rewrite Evm).
  assert (num_pending_signals s0 = num_pending_signals s) as Hsig by (by rewrite Evm).
  assert (stack_word (cpu0 s0 v0) c0 (vreg v0 rsp) (h - 8)) as W.
  { rewrite Rsp. apply (stack_word_step s s0 v v0); [done|done|]. apply (vr_word _ _ _ _ _ _ Hroom 1). lia. }
  assert (vreg v0 rax = vreg v rax) as Ra by (apply Rr; reg_out).
  assert (load64 (p_mem (vm_paging s0)) (h - 8) = 1) as El by (rewrite Em; apply load64_store64_same).
  destruct (hypercall_flow hs udis s0 v0 c0 N (h - 8) Ok0 W) as (t & f & name & Ok1 & Hf & Eout);
    [by rewrite Ra|by rewrite El|].
  rewrite El in Eout. rewrite Ra in Hf, Eout. change (u32 1 =? ELKVM_HYPERCALL_SYSCALL) with true in Eout.
  cbv iota in Eout. apply Z.eqb_neq in H231. rewrite H231 in Eout.
  assert (u64 (vreg v0 rsp + 8) = vreg v rsp) as R1.
  { destruct Hroom as [Hsp _ _]. rewrite Rsp, Z.sub_add. apply u64_small. lia. }
  rewrite R1 in *. set (v1 := set_vreg v0 rsp (vreg v rsp)) in *. set (s1 := vm_write s0 v1 _ t) in *.
  assert (forall r, r <> rsp -> vreg v1 r = vreg v0 r) as Rv1 by (intros r Hr; unfold v1; rewrite vreg_set; by case_decide).
  assert (forall r, r ∉ [rip; rcx; r11; rflags] -> vreg v1 r = vreg v r) as Rv.
  { intros r Hr. destruct (decide (r = rsp)) as [->|Hn']; [done|]. rewrite Rv1 by done. apply Rr.
    clear -Hr Hn'. rewrite ?not_elem_of_cons in Hr. rewrite ?not_elem_of_cons. tauto. }
  exists f, name, s1, v1. split_and!; [exact Hf|exact Ok1|exact Rv|exact Em|exact Eh0|exact Hsig|].
  intros r s2 Ef Hp Hret. rewrite Ef in Eout.
  pose proof (Forall_lookup_1 _ _ _ _ (syscalls_keep_gp hs) Hf) as Hk. cbv beta iota in Hk.
  destruct (gp_regs_vreg s1 s2 v1 (Hk _ _ _ Ef) (vo_cpu _ _ _ _ Ok1)) as (v2 & Hv2 & Rv2).
  specialize (Eout v2 Hv2 Hp).
  assert (u64 (vreg v2 rip + 3) = lstar sr + 5) as Rip2.
  { rewrite Rv2, Rv1, Rip by done. rewrite u64_small; lia. }
  rewrite Rip2 in Eout.
  destruct (syscall_leaves c0 sr s2 v2 r cs0 ss0 Hv2 Hl Hst Hret) as (s3 & v3 & Es & Hv3 & Ep & Rip3 & Ra3 & Rfl & R3).
  exists s3, v3. split.
  { eapply rtc_l; [apply (pc_guest _ _ _ _ k); exact Eg|].
    eapply rtc_l; [|apply rtc_once, (pc_guest _ _ _ _ 1); exact Es].
    apply pc_hypercall. exact (hypercall_eq hs udis c0 _ v0 _ _ (core_of_eq (mkComputer s0 cs0 ss0) v0 (vo_cpu _ _ _ _ Ok0)) eq_refl Ecur Eout). }
  split_and!; [done|done|by rewrite Rip3, Rv2, Rv1|done|by rewrite Rfl, Rv2, Rv1, R11|].
  intros x Hg Hx. rewrite R3 by reg_out. rewrite Rv2 by done. apply Rv. reg_out.
Qed.

(** A guest on the small machine: code in the page at 0x400000, which is mapped
    to the host address 0x11000000. *)
Definition guest_mem (code : list (Z * list Z)) : mem :=
  fold_right (fun ac m => store_bytes m (0x11000000 + ac.1) ac.2) (p_mem (vm_paging (demo_vm []))) code.
Definition guest_vm (code : list (Z * list Z)) (regs : list (Reg_t * Z)) : vm bump_os TLB.t :=
  vm_write (demo_vm []) (demo_vcpu regs) (guest_mem code) (p_tlb (vm_paging (demo_vm []))).

Lemma guest_vm_ok code regs :
  Forall (fun ac => 0 <= ac.1) code ->
  Forall (fun ac => ac.1 + Z.of_nat (length ac.2) <= 4096) code ->
  exists N, vm_ok (guest_vm code regs) (demo_vcpu regs) demo_chunk N.
Proof.
  intros H0' H1'. destruct (demo_vm_ok []) as [N Hok]. exists N.
  apply (vm_ok_write (demo_vm []) (demo_vcpu []) demo_chunk N); [done|].
  assert (host_pml4_p (p_pager (vm_paging (demo_vm []))) = 0x10000000) as -> by (vm_compute; reflexivity).
  change (ELKVM_SYSTEM_MEMSIZE) with 0x1000000. intros x Hx. unfold guest_mem.
  induction code as [|[a bs] code IH]; [done|]. apply Forall_cons in H0' as [Ha H0'].
  apply Forall_cons in H1' as [Hb H1']. cbn [fold_right fst snd] in *. rewrite store_bytes_other by lia. by apply IH.
Qed.

Definition demo_sysregs : sysregs := mkSysregs star_value 0x400800 0 0 0.

(** [getpid] from code at 0x400400, with the entry code at 0x400800. *)
Lemma syscall_roundtrip_witness :
  let s := guest_vm [(0x400, encode ISyscall); (0x800, entry_bin)] [(rip, 0x400400); (rsp, 0x400100); (rax, 39)] in
  exists s3 v3, rtc (pc_run default_handlers false demo_chunk demo_sysregs) (mkComputer s 0x13 0xb) (mkComputer s3 0x13 0xb) /\
    cpus s3 !! 0%nat = Some v3 /\ vreg v3 rip = 0x400402 /\ vreg v3 rsp = 0x400100 /\ vreg v3 rax = 0.
Proof.
  intros s. set (v := demo_vcpu [(rip, 0x400400); (rsp, 0x400100); (rax, 39)]).
  assert (exists N, vm_ok s v demo_chunk N) as [N Hok] by (apply guest_vm_ok; repeat constructor; by vm_compute).
  destruct (syscall_roundtrip default_handlers false demo_sysregs s v demo_chunk N 0x11000100 0x13 0xb Hok)
    as (f & name & s1 & v1 & Hf & _ & _ & Em & Et & Hp & Hrun).
  - by vm_compute.
  - by vm_compute.
  - reflexivity.
  - apply code_at_check. vm_compute. reflexivity.
  - apply code_at_check. vm_compute. reflexivity.
  - apply code_avoids_check. vm_compute. reflexivity.
  - constructor; [by vm_compute|done|]. intros k Hk. assert (k = 1) as -> by lia.
    constructor; [split; [by vm_compute|vm_compute; discriminate]|vm_compute; reflexivity|
                  right; vm_compute; discriminate].
  - by vm_compute.
  - by vm_compute.
  - injection Hf as <- <-.
    edestruct (Hrun 0) as (s3 & v3 & Hr & Hv3 & _ & Rip & Ra & _ & R3).
    + reflexivity.
    + cbn. rewrite Hp. by vm_compute.
    + apply (code_at_ext (translate demo_chunk s)); [exact Et|].
      change (code_at (translate demo_chunk s) (p_mem (vm_paging s1)) 0x400805 (encode ISysret)).
      rewrite Em. apply code_at_check. vm_compute. reflexivity.
    + exists s3, v3. split; [exact Hr|]. split; [exact Hv3|]. split; [exact Rip|]. split; [|exact Ra].
      apply R3; [done|reg_out].
Defined.

(** ** Exceptions *)

(** The vector that the code behind gate [i] pushes. *)
Definition gate_vector (i : Z) : option Z :=
  match pushes 8 isr_bin (9 * i) with
  | Some ([x; 2], _) => Some x
  | _ => None
  end.

(** The gates that reach a stub. *)
Definition gate_vectors : list (option Z) :=
  [Some 0; Some 1; Some 2; Some 3; Some 4; Some 5; Some 6; Some 7; Some 8; Some 9; Some 10; Some 11; Some 12;
   Some 13; Some 14; None; Some 18; None; Some 33; None; Some 36; None; Some 39; None; Some 42; None; Some 45;
   None; Some 48] ++ replicate 19 None.

Lemma gate_vectors_eq : map gate_vector (seqZ 0 48) = gate_vectors.
Proof. vm_compute. reflexivity. Qed.

Lemma gate_vector_lookup i : 0 <= i < 48 -> gate_vectors !! Z.to_nat i = Some (gate_vector i).
Proof.
  intros Hi. rewrite <- gate_vectors_eq, list_lookup_fmap.
  rewrite lookup_seqZ_lt by lia. cbn [fmap option_fmap option_map]. do 2 f_equal. lia.
Qed.

Lemma gate_vectors_own :
  forallb (fun j => Bool.eqb (bool_decide (gate_vector j = Some j)) (j <=? 14)) (seqZ 0 48) = true.
Proof. vm_compute. reflexivity. Qed.

Lemma gate_vector_own i : 0 <= i < 48 -> gate_vector i = Some i <-> i <= 14.
Proof.
  intros Hi. pose proof gate_vectors_own as Hall. rewrite forallb_forall in Hall.
  specialize (Hall i (proj1 (list_elem_of_In _ _) (proj2 (elem_of_seqZ 0 48 i) ltac:(lia)))).
  apply Bool.eqb_prop in Hall. rewrite <- Z.leb_le, <- Hall. by rewrite bool_decide_eq_true.
Qed.

Lemma gate_vector_pushes i x : gate_vector i = Some x -> exists a, pushes 8 isr_bin (9 * i) = Some ([x; 2], a).
Proof. unfold gate_vector. repeat case_match; try done. intros [= ->]. by eexists. Qed.

(** The frame of an exception. *)
Definition frame (c : core) (error : option Z) : list Z :=
  [co_ss c; co_reg c rsp; co_reg c rflags; co_cs c; co_reg c rip] ++
  match error with Some e => [e] | None => [] end.

Lemma deliver_eq tr sr i error c g h :
  word_at tr (u64 (idtr sr + 16 * i)) = Some g ->
  stack_room tr (Z.land (ist1 sr) (- 16)) h 6 ->
  exists c1, deliver tr sr i error c = Some c1 /\
    co_reg c1 rip = idt_entry_offset (load_idt (co_mem c) g) /\
    co_reg c1 rsp = Z.land (ist1 sr) (- 16) - 8 * Z.of_nat (length (frame c error)) /\
    (forall r, r ∉ [rip; rsp; rflags] -> co_reg c1 r = co_reg c r) /\
    co_mem c1 = push_image (co_mem c) h (frame c error).
Proof.
  intros Hg Hr. unfold deliver. rewrite Hg. cbn [mbind option_bind]. fold (frame c error).
  set (c0 := co_set c rsp _).
  destruct (push_words_ok tr c0 (frame c error) h 6 Hr) as (c' & E & Rsp & [Rr _ _] & Em).
  { unfold frame. rewrite length_app. by destruct error; cbn; lia. }
  rewrite E. cbn [mbind option_bind]. eexists. split; [reflexivity|]. split; [done|]. split; [exact Rsp|].
  split; [|exact Em]. intros r Hn. unfold co_selectors, co_reg. cbn [co_cpu co_set]. rewrite !vreg_set.
  repeat (case_decide; [subst; exfalso; apply Hn; reg_in|]). etransitivity; [apply Rr; reg_out|].
  unfold c0. rewrite co_reg_set. case_decide; [subst; exfalso; apply Hn; reg_in|]. done.
Qed.

(** An exception runs from the interrupted instruction to the hypercall. *)
Lemma exception_reaches tr sr c m0 table handler h i x error :
  co_mem c = idt_fill 48 m0 table handler -> 0 <= i < 48 ->
  word_at tr (u64 (idtr sr + 16 * i)) = Some (table + 16 * i) ->
  code_at tr (co_mem c) handler isr_bin -> code_avoids tr handler isr_bin (h - 64) 64 ->
  stack_room tr (Z.land (ist1 sr) (- 16)) h 8 -> gate_vector i = Some x -> 0 <= x ->
  exists c1 k c2, deliver tr sr i error c = Some c1 /\ co_reg c1 rip = u64 (handler + 9 * i) /\
    steps tr sr k c1 = Some c2 /\ current tr c2 = Some (IVmcall, 3) /\
    (exists a, pushes 8 isr_bin (9 * i) = Some ([x; 2], a) /\ co_reg c2 rip = u64 (handler + a)) /\
    co_reg c2 rsp = Z.land (ist1 sr) (- 16) - 8 * (Z.of_nat (length (frame c error)) + 2) /\
    (forall r, r ∉ [rip; rsp; rflags] -> co_reg c2 r = co_reg c r) /\
    co_mem c2 = push_image (co_mem c) h (frame c error ++ [u64 x; 2]).
Proof.
  intros Em Hi Hg Hc Ha Hroom Hx Hx0.
  assert (length (frame c error) <= 6)%nat as Hlen by (by destruct error; cbn; lia).
  destruct (deliver_eq tr sr i error c _ h Hg) as (c1 & E1 & Rip & Rsp & Rr & Em1).
  { destruct Hroom as [Hr Hw]. constructor; [lia|]. intros k Hk. apply Hw. lia. }
  assert (co_reg c1 rip = u64 (handler + 9 * i)) as Rip'.
  { rewrite Rip, Em, idt_fill_entry, idt_bytes by lia. rewrite (Z.mul_comm i 9). apply idt_offset, u64_range. }
  destruct (gate_vector_pushes i x Hx) as [a Hp]. set (n := length (frame c error)) in *.
  destruct (pushes_steps tr sr 8 isr_bin (9 * i) [x; 2] a c1 handler (h - 8 * Z.of_nat n) 2 Hp)
    as (k & c2 & Ek & Rip2 & Rsp2 & Hch & Em2 & Ecur).
  - rewrite Em1. eapply code_at_agree; [exact Hc|exact Ha|]. intros y Hy. apply push_image_other. fold n. lia.
  - intros j b hh Hj Hh. specialize (Ha j b hh Hj Hh). lia.
  - exact Rip'.
  - rewrite Rsp. destruct Hroom as [Hr Hw]. constructor; [lia|]. intros j Hj.
    rewrite <- !Z.sub_add_distr, <- Z.mul_add_distr_l. apply Hw. lia.
  - done.
  - exists c1, k, c2. split_and!; [done..| | | |].
    + by exists a.
    + rewrite Rsp2, Rsp. cbn [length]. lia.
    + intros r Hr. rewrite (ch_regs _ _ _ Hch) by reg_out. by apply Rr.
    + rewrite Em2, Em1, push_image_app. by cbn.
Qed.

(** C30. The interrupt gates and the stubs.  Behind gate [i] the table of the
    setup puts the address [9 * i] of the stubs' binary.  A stub with a long
    jump has 9 bytes, but from the page fault (14) on the jump is short and the
    stub has 6, and the vectors 15 and 20 to 31 have none: the code behind a gate reports
    its own vector exactly for the vectors 0 to 14.  For those, and for the
    gates above that reach the stub of another vector, the exception ends
    before the hypercall with the frame of the processor, the vector of the stub
    and the type 2 on the interrupt stack, and every register but
    [rip], [rsp] and the flags as the guest left it. *)
Theorem gates_and_stubs tr sr c m0 table handler h i error :
  co_mem c = idt_fill 48 m0 table handler -> 0 <= i < 48 ->
  word_at tr (u64 (idtr sr + 16 * i)) = Some (table + 16 * i) ->
  code_at tr (co_mem c) handler isr_bin -> code_avoids tr handler isr_bin (h - 64) 64 ->
  stack_room tr (Z.land (ist1 sr) (- 16)) h 8 ->
  gate_vectors !! Z.to_nat i = Some (gate_vector i) /\ (gate_vector i = Some i <-> i <= 14) /\
  forall x, gate_vector i = Some x -> 0 <= x ->
    exists c1 k c2, deliver tr sr i error c = Some c1 /\ co_reg c1 rip = u64 (handler + 9 * i) /\
      steps tr sr k c1 = Some c2 /\ current tr c2 = Some (IVmcall, 3) /\
      co_reg c2 rsp = Z.land (ist1 sr) (- 16) - 8 * (Z.of_nat (length (frame c error)) + 2) /\
      (forall r, r ∉ [rip; rsp; rflags] -> co_reg c2 r = co_reg c r) /\
      co_mem c2 = push_image (co_mem c) h (frame c error ++ [u64 x; 2]).
Proof.
  intros Em Hi Hg Hc Ha Hroom. split; [by apply gate_vector_lookup|]. split; [by apply gate_vector_own|].
  intros x Hx Hx0.
  destruct (exception_reaches tr sr c m0 table handler h i x error Em Hi Hg Hc Ha Hroom Hx Hx0)
    as (c1 & k & c2 & E1 & Rip & Ek & Ecur & _ & Rest). by exists c1, k, c2.
Qed.

(** A page fault, and a floating point exception (16), which is reported as a
    machine check (18), with memory mapped as it is. *)
Definition gates_core : core :=
  mkCore (demo_vcpu [(rip, 0x400000); (rsp, 0x7000); (rax, 5)]) 0x13 0xb
         (idt_fill 48 (store_bytes (fun _ => 0) 0x3000 isr_bin) 0x1000 0x3000).

Lemma gates_and_stubs_witness :
  let sr := mkSysregs 0 0 0 0x1000 0x6000 in
  (exists c1 k c2, deliver Some sr 14 (Some 2) gates_core = Some c1 /\ steps Some sr k c1 = Some c2 /\
     current Some c2 = Some (IVmcall, 3) /\ co_reg c2 rsp = 0x6000 - 64 /\ co_reg c2 rax = 5 /\
     co_mem c2 = push_image (co_mem gates_core) 0x6000 [0xb; 0x7000; co_reg gates_core rflags; 0x13; 0x400000; 2; 14; 2]) /\
  (exists c1 k c2, deliver Some sr 16 None gates_core = Some c1 /\ steps Some sr k c1 = Some c2 /\
     co_mem c2 = push_image (co_mem gates_core) 0x6000 [0xb; 0x7000; co_reg gates_core rflags; 0x13; 0x400000; 18; 2]).
Proof.
  intros sr.
  assert (code_at Some (co_mem gates_core) 0x3000 isr_bin) as Hc by (apply code_at_check; vm_compute; reflexivity).
  assert (code_avoids Some 0x3000 isr_bin (0x6000 - 64) 64) as Ha by (apply code_avoids_check; vm_compute; reflexivity).
  assert (stack_room Some (Z.land (ist1 sr) (- 16)) 0x6000 8) as Hroom.
  { constructor; [by vm_compute|]. intros k Hk. unfold word_at.
    pose proof (aligned_word 0x6000 k eq_refl) as Hm. apply Z.leb_le in Hm.
    change (Z.land (ist1 sr) (-16)) with 0x6000. by rewrite Hm. }
  split.
  - destruct (gates_and_stubs Some sr gates_core _ 0x1000 0x3000 0x6000 14 (Some 2) eq_refl ltac:(lia) eq_refl Hc Ha Hroom)
      as (_ & _ & E). destruct (E 14) as (c1 & k & c2 & E1 & _ & Ek & Ecur & Rsp & Rr & Em);
      [vm_compute; reflexivity|lia|].
    exists c1, k, c2. split; [exact E1|]. split; [exact Ek|]. split; [exact Ecur|]. split; [exact Rsp|].
    split; [|exact Em]. rewrite Rr by reg_out. reflexivity.
  - destruct (gates_and_stubs Some sr gates_core _ 0x1000 0x3000 0x6000 16 None eq_refl ltac:(lia) eq_refl Hc Ha Hroom)
      as (_ & _ & E). destruct (E 18) as (c1 & k & c2 & E1 & _ & Ek & _ & _ & _ & Em);
      [vm_compute; reflexivity|lia|].
    exists c1, k, c2. split; [exact E1|]. split; [exact Ek|]. exact Em.
Defined.
