(* ===== verification/TrapTheorems.v ===== *)
(** * Exceptions and signals through the guest's code: theorems

    A debug trap from the interrupted instruction and back to it, with and
    without a waiting signal, and the return from a signal handler. *)

From S2P Require Import Prelude Text Memory PageMath HostOS Tlb Pager PagerTree PagerWalk PagerSpec PagerTlb PagerTheorems Region RegionManager RegionSpec RegionTheorems Registers Mappings Heap HeapSpec HeapTheorems Vcpu VcpuTheorems Descriptors DescriptorTheorems Vm Handlers Syscall SyscallStubs Hypercall VmSpec SyscallTheorems HypercallTheorems RunTheorems LifecycleTheorems GuestCode GuestSpec GuestTheorems.
From stdpp Require Import strings relations.
Local Open Scope Z_scope.

Lemma set_rsp_twice v a b : set_vreg (set_vreg v rsp a) rsp b = set_vreg v rsp b.
Proof. by destruct v as [bs [fd [] sr r d] st]. Qed.

Section Trap.
Context {os T : Type} `{HostOSLaws os} `{FileOS os} `{KvmOS os} `{MonitorOS os} `{TranslationCacheLaws T}.
Variable hs : elkvm_handlers os (vm os T).
Variables (udis : bool) (c0 : Chunk).
Implicit Types s : vm os T.

(** Popping a word, with the machine in the form of a written one. *)
Lemma vm_pop_at s v N sp hp m t :
  let s1 := vm_write s (set_vreg v rsp sp) m t in
  vm_ok s1 (set_vreg v rsp sp) c0 N -> 0 <= sp < 2 ^ 64 - 8 ->
  (forall w, host_of c0 (vm_paging s1) w = host_of c0 (vm_paging s) w) ->
  stack_word (cpu0 s v) c0 sp hp ->
  exists t', let s2 := vm_write s (set_vreg v rsp (sp + 8)) m t' in
    on_cpu 0 pop s1 = Ok (load64 m hp, s2) /\ vm_ok s2 (set_vreg v rsp (sp + 8)) c0 N /\
    forall w, host_of c0 (vm_paging s2) w = host_of c0 (vm_paging s) w.
Proof.
  intros s1 Hok Hsp Eh Hw.
  assert (vreg (set_vreg v rsp sp) rsp = sp) as R by done.
  destruct (vm_pop s1 (set_vreg v rsp sp) c0 N hp Hok) as (t' & E & Ok' & Eh').
  { rewrite R. by apply (stack_word_step s s1 v). }
  rewrite R, u64_small, set_rsp_twice in E, Ok', Eh' by lia. unfold s1 in E, Ok', Eh'.
  rewrite vm_write_write in E, Ok', Eh'. exists t'. split; [exact E|]. split; [exact Ok'|].
  intros w. rewrite Eh'. apply Eh.
Qed.

(** The handler that [handle_interrupt] chooses for a vector. *)
Definition interrupt_handler (vector code : Z) : M (vm os T) Z :=
  if vector =? Interrupt.debug_trap then handle_debug_trap code
  else if vector =? Interrupt.stack_segment_fault then handle_stack_segment_fault code
  else if vector =? Interrupt.general_protection_fault then handle_general_protection_fault code
  else if vector =? Interrupt.page_fault then handle_page_fault code
  else ret Interrupt.failure.

(** The hypercall of an exception: type, vector and the word behind them are
    popped, and the handler of the vector gets that word. *)
Lemma interrupt_flow s v N hp :
  vm_ok s v c0 N -> let sp := vreg v rsp in let m := p_mem (vm_paging s) in 0 <= sp < 2 ^ 64 - 32 ->
  stack_word (cpu0 s v) c0 sp hp -> stack_word (cpu0 s v) c0 (sp + 8) (hp + 8) ->
  stack_word (cpu0 s v) c0 (sp + 16) (hp + 16) ->
  load64 m hp = ELKVM_HYPERCALL_INTERRUPT -> _debug s = false ->
  exists t, let v3 := set_vreg v rsp (sp + 24) in let s3 := vm_write s v3 m t in
    vm_ok s3 v3 c0 N /\ (forall w, host_of c0 (vm_paging s3) w = host_of c0 (vm_paging s) w) /\
    forall s4, interrupt_handler (load64 m (hp + 8)) (load64 m (hp + 16)) s3 = Ok (Interrupt.success, s4) ->
      handle_hypercall hs hypercall_null udis s = finish_hypercall hypercall_null ELKVM_HYPERCALL_INTERRUPT s4.
Proof.
  intros Hok sp m Hsp W0 W1 W2 L0 Hd.
  destruct (vm_pop s v c0 N hp Hok W0) as (t1 & E1 & Ok1 & Eh1).
  fold sp m in E1, Ok1, Eh1. rewrite u64_small in E1, Ok1, Eh1 by lia. rewrite L0 in E1.
  destruct (vm_pop_at s v N (sp + 8) (hp + 8) m t1 Ok1 ltac:(lia) Eh1 W1) as (t2 & E2 & Ok2 & Eh2).
  rewrite <- Z.add_assoc in E2, Ok2, Eh2. change (8 + 8) with 16 in *.
  destruct (vm_pop_at s v N (sp + 16) (hp + 16) m t2 Ok2 ltac:(lia) Eh2 W2) as (t3 & E3 & Ok3 & Eh3).
  rewrite <- Z.add_assoc in E3, Ok3, Eh3. change (16 + 8) with 24 in *.
  exists t3. split; [exact Ok3|]. split; [exact Eh3|]. intros s4 Eh.
  set (s1 := vm_write s (set_vreg v rsp (sp + 8)) m t1) in *.
  assert (handle_interrupt udis s1 = Ok (Interrupt.success, s4)) as Ei.
  { unfold handle_interrupt. rewrite (bind_ok _ _ _ _ _ E2).
    erewrite bind_ok; [|reflexivity]. cbn [_debug vm_write put_cpu0 with_cpus with_hm]. rewrite Hd.
    erewrite bind_ok; [|reflexivity]. rewrite (bind_ok _ _ _ _ _ E3). exact Eh. }
  unfold handle_hypercall, get_hypercall_type.
  erewrite bind_ok; [|by rewrite (bind_ok _ _ _ _ _ E1)]. change (u32 ELKVM_HYPERCALL_INTERRUPT) with 2.
  erewrite bind_ok; [|reflexivity]. change (2 =? ELKVM_HYPERCALL_SYSCALL) with false.
  change (2 =? ELKVM_HYPERCALL_INTERRUPT) with true. cbv iota. fold s1. by rewrite (bind_ok _ _ _ _ _ Ei).
Qed.

(** A debug trap: the word behind the vector, which is the address of the
    interrupted instruction, is pushed again. *)
Lemma trap_flow s v N hp :
  vm_ok s v c0 N -> let sp := vreg v rsp in let m := p_mem (vm_paging s) in 0 <= sp < 2 ^ 64 - 32 ->
  stack_word (cpu0 s v) c0 sp hp -> stack_word (cpu0 s v) c0 (sp + 8) (hp + 8) ->
  stack_word (cpu0 s v) c0 (sp + 16) (hp + 16) ->
  load64 m hp = ELKVM_HYPERCALL_INTERRUPT -> load64 m (hp + 8) = Interrupt.debug_trap -> _debug s = false ->
  exists t, let v1 := set_vreg v rsp (sp + 16) in
    let s1 := vm_write s v1 (store64 m (hp + 16) (load64 m (hp + 16))) t in
    handle_hypercall hs hypercall_null udis s = finish_hypercall hypercall_null ELKVM_HYPERCALL_INTERRUPT s1 /\
    vm_ok s1 v1 c0 N /\ forall w, host_of c0 (vm_paging s1) w = host_of c0 (vm_paging s) w.
Proof.
  intros Hok sp m Hsp W0 W1 W2 L0 L1 Hd.
  destruct (interrupt_flow s v N hp Hok Hsp W0 W1 W2 L0 Hd) as (t3 & Ok3 & Eh3 & Eh).
  fold sp m in Ok3, Eh3, Eh. rewrite L1 in Eh. set (s3 := vm_write s (set_vreg v rsp (sp + 24)) m t3) in *.
  assert (u64 (vreg (set_vreg v rsp (sp + 24)) rsp - 8) = sp + 16) as Esp.
  { change (vreg (set_vreg v rsp (sp + 24)) rsp) with (sp + 24). rewrite u64_small; lia. }
  destruct (vm_push s3 (set_vreg v rsp (sp + 24)) c0 N (hp + 16) (load64 m (hp + 16)) Ok3) as (t4 & E4 & Ok4 & Eh4).
  { rewrite Esp. by apply (stack_word_step s s3 v). }
  rewrite Esp, set_rsp_twice in E4, Ok4, Eh4. unfold s3 in E4, Ok4, Eh4. rewrite vm_write_write in E4, Ok4, Eh4.
  exists t4. split; [|split; [exact Ok4|intros w; by rewrite Eh4, Eh3]].
  apply Eh. change (interrupt_handler Interrupt.debug_trap _) with (handle_debug_trap (load64 m (hp + 16))).
  unfold handle_debug_trap, s3. by rewrite (bind_ok _ _ _ _ _ E4).
Qed.
End Trap.

(** ** [iretq] *)

Lemma iret_ok tr sr c top h ip cs_ fl sp ss_ :
  stack_room tr top h 5 -> co_reg c rsp = top - 40 ->
  load64 (co_mem c) (h - 40) = ip -> load64 (co_mem c) (h - 32) = cs_ -> load64 (co_mem c) (h - 24) = fl ->
  load64 (co_mem c) (h - 16) = sp -> load64 (co_mem c) (h - 8) = ss_ ->
  exists c', exec tr sr IIret 2 c = Some c' /\ co_reg c' rip = ip /\ co_reg c' rflags = fl /\ co_reg c' rsp = sp /\
    co_cs c' = Z.land cs_ 0xFFFF /\ co_ss c' = Z.land ss_ 0xFFFF /\ co_mem c' = co_mem c /\
    forall r, r ∉ [rip; rflags; rsp] -> co_reg c' r = co_reg c r.
Proof.
  intros [Hr Hw] Hsp L1 L2 L3 L4 L5.
  assert (forall c k, 1 <= k <= 5 -> co_reg c rsp = top - 8 * k ->
            pop_word tr c = Some (load64 (co_mem c) (h - 8 * k), co_set c rsp (top - 8 * (k - 1)))) as Hpop.
  { intros c' k Hk Hc'. rewrite (pop_word_ok tr c' (h - 8 * k)); [|lia|lia|].
    - do 3 f_equal. lia.
    - rewrite Hc'. by apply Hw. }
  unfold exec. rewrite (Hpop c 5) by lia. cbn [mbind option_bind].
  rewrite (Hpop _ 4) by (cbn; lia). cbn [mbind option_bind].
  rewrite (Hpop _ 3) by (cbn; lia). cbn [mbind option_bind].
  rewrite (Hpop _ 2) by (cbn; lia). cbn [mbind option_bind].
  rewrite (Hpop _ 1) by (cbn; lia). cbn [mbind option_bind co_mem co_set].
  change (h - 8 * 5) with (h - 40). change (h - 8 * 4) with (h - 32). change (h - 8 * 3) with (h - 24).
  change (h - 8 * 2) with (h - 16). change (h - 8 * 1) with (h - 8). rewrite L1, L2, L3, L4, L5.
  eexists. split; [reflexivity|]. do 6 (split; [done|]). intros r Hn. unfold co_selectors, co_reg. cbn [co_cpu co_set].
  rewrite !vreg_set. by repeat (case_decide; [subst; exfalso; apply Hn; reg_in|]).
Qed.

(** ** The machine that is ready for exceptions *)

Section Ready.
Context {os T : Type} `{HostOSLaws os} `{FileOS os} `{KvmOS os} `{MonitorOS os} `{TranslationCacheLaws T}.
Implicit Types s : vm os T.

(** The interrupt table of [elkvm_idt_setup] at host address [table], the stubs
    at the guest address [handler], and an interrupt stack that ends at [h]. *)
Record traps_ready s (v : VCPU) (c0 : Chunk) (N : Z) (sr : sysregs) (table handler h : Z) : Prop := mkReady {
  rd_ok : vm_ok s v c0 N;
  rd_idt : exists m0, p_mem (vm_paging s) = idt_fill 48 m0 table handler;
  rd_idtr i : 0 <= i < 48 -> word_at (translate c0 s) (u64 (idtr sr + 16 * i)) = Some (table + 16 * i);
  rd_code : code_at (translate c0 s) (p_mem (vm_paging s)) handler isr_bin;
  rd_handler : 0 <= handler < 2 ^ 64 - 512;
  rd_avoids : code_avoids (translate c0 s) handler isr_bin (h - 64) 64;
  rd_stack : vm_room s v c0 (Z.land (ist1 sr) (- 16)) h 8;
}.

(** The registers hold 64 bits and the selectors 16. *)
Definition regs_wide (v : VCPU) : Prop := forall r, 0 <= vreg v r < 2 ^ 64.
Definition is_u16 (x : Z) : Prop := 0 <= x < 2 ^ 16.

Lemma land_u16 x : is_u16 x -> Z.land (u64 x) 0xFFFF = x.
Proof.
  unfold is_u16. intros Hx. rewrite u64_small by lia. change 0xFFFF with (Z.ones 16).
  rewrite Z.land_ones by lia. apply Z.mod_small. lia.
Qed.

Lemma guest_steps_ext c0 sr n (p : computer os T) v c tr :
  cpus (pc_vm p) !! 0%nat = Some v -> (forall w, translate c0 (pc_vm p) w = tr w) ->
  steps tr sr n (mkCore v (pc_cs p) (pc_ss p) (p_mem (vm_paging (pc_vm p)))) = Some c ->
  guest_steps c0 sr n p = Some (with_core p c).
Proof. intros Hv E Es. apply (guest_steps_eq c0 sr n p v c Hv). by rewrite (steps_ext tr). Qed.

(** What is on the interrupt stack at the hypercall of a debug trap. *)
Definition trap_words (v : VCPU) (cs_ ss_ : Z) : list Z := [ss_; vreg v rsp; vreg v rflags; cs_; vreg v rip; 1; 2].

Lemma stubs_push :
  forallb (fun i => bool_decide (pushes 8 isr_bin (9 * i) = Some ([i; 2], 258))) (seqZ 0 15) = true.
Proof. vm_compute. reflexivity. Qed.

Lemma stub_pushes i : 0 <= i <= 14 -> pushes 8 isr_bin (9 * i) = Some ([i; 2], 258).
Proof.
  intros Hi. pose proof stubs_push as Hall. rewrite forallb_forall in Hall.
  specialize (Hall i (proj1 (list_elem_of_In _ _) (proj2 (elem_of_seqZ 0 15 i) ltac:(lia)))).
  by apply bool_decide_eq_true in Hall.
Qed.

(** An exception from the interrupted instruction to the hypercall. *)
Lemma exception_enters s v c0 N sr table handler h cs_ ss_ i error :
  traps_ready s v c0 N sr table handler h -> 0 <= i <= 14 ->
  let ws := frame (mkCore v cs_ ss_ (p_mem (vm_paging s))) error ++ [i; 2] in
  exists p1 k s0 v0 cs0 ss0,
    exception c0 sr i error (mkComputer s cs_ ss_) = Some p1 /\
    guest_steps c0 sr k p1 = Some (mkComputer s0 cs0 ss0) /\
    at_vmcall c0 s N h ws s0 v0 cs0 ss0 /\
    vreg v0 rip = handler + 258 /\ vreg v0 rsp = Z.land (ist1 sr) (- 16) - 8 * Z.of_nat (length ws) /\
    stack v0 = stack v /\ forall r, r ∉ [rip; rsp; rflags] -> vreg v0 r = vreg v r.
Proof.
  intros [Hok [m0 Hidt] Hg Hc Hh Ha Hroom] Hi ws. pose proof (vo_cpu _ _ _ _ Hok) as Hv.
  set (p := mkComputer s cs_ ss_). set (c := mkCore v cs_ ss_ (p_mem (vm_paging s))) in *. set (tr := translate c0 s) in *.
  pose proof (vm_room_stack _ _ _ _ _ _ Hroom) as Hst.
  assert (length (frame c error) <= 6)%nat as Hlen by (by destruct error; cbn; lia).
  destruct (exception_reaches tr sr c m0 table handler h i i error Hidt ltac:(lia) (Hg i ltac:(lia)) Hc Ha Hst)
    as (c1 & k & c2 & E1 & _ & Ek & Ecur & (a & Hp & Rip) & Rsp & Rr & Em); [apply gate_vector_own; lia|lia|].
  rewrite stub_pushes in Hp by done. injection Hp as <-. rewrite u64_small in Rip by lia.
  rewrite (u64_small i) in Em by lia. fold ws in Em.
  destruct (deliver_eq tr sr i error c _ h (Hg i ltac:(lia)) (stack_room_le _ _ _ 8 6 Hst ltac:(lia)))
    as (c1' & E1' & _ & _ & _ & Em1).
  rewrite E1 in E1'. injection E1' as <-.
  pose proof (on_core_eq _ p v c1 Hv E1 : exception c0 sr i error p = Some (with_core p c1)) as Ex.
  change (co_mem c) with (p_mem (vm_paging s)) in Em1, Em.
  destruct (vm_push_image s v c0 N (co_cpu c1) _ h 8 (frame c error) Hok Hroom ltac:(lia)) as [Ok1 Eh1].
  rewrite <- Em1 in Ok1, Eh1.
  destruct (vm_push_image s v c0 N (co_cpu c2) _ h 8 ws Hok Hroom) as [Ok2 Eh2].
  { unfold ws. rewrite length_app. cbn [length]. lia. }
  rewrite <- Em in Ok2, Eh2.
  pose proof (guest_steps_ext c0 sr k (with_core p c1) (co_cpu c1) c2 tr (vo_cpu _ _ _ _ Ok1) Eh1) as Eg.
  specialize (Eg ltac:(by destruct c1)).
  exists (with_core p c1), k, (pc_vm (with_core p c2)), (co_cpu c2), (co_cs c2), (co_ss c2).
  split; [exact Ex|]. split.
  { rewrite Eg. unfold with_core at 1 2. cbn [pc_vm]. by rewrite vm_write_write. }
  assert (stack (co_cpu c2) = stack v) as Est by (by rewrite (steps_stack _ _ _ _ _ Ek), (deliver_stack _ _ _ _ _ _ E1)).
  split; [|split; [exact Rip|split; [|split; [exact Est|exact Rr]]]].
  - constructor; [exact Ok2|exact Eh2|cbn [with_core pc_vm]; by rewrite Em|].
    rewrite <- Ecur. destruct c2. unfold current. f_equal. by apply fetch_ext.
  - change (vreg (co_cpu c2) rsp) with (co_reg c2 rsp). rewrite Rsp. unfold ws. rewrite length_app. cbn [length]. lia.
Qed.

(** A debug trap, which has no error code. *)
Lemma trap_enters s v c0 N sr table handler h cs_ ss_ :
  traps_ready s v c0 N sr table handler h ->
  exists p1 k s0 v0 cs0 ss0,
    exception c0 sr 1 None (mkComputer s cs_ ss_) = Some p1 /\
    guest_steps c0 sr k p1 = Some (mkComputer s0 cs0 ss0) /\
    at_vmcall c0 s N h (trap_words v cs_ ss_) s0 v0 cs0 ss0 /\
    vreg v0 rip = handler + 258 /\ vreg v0 rsp = Z.land (ist1 sr) (- 16) - 56 /\
    forall r, r ∉ [rip; rsp; rflags] -> vreg v0 r = vreg v r.
Proof.
  intros Hrd. destruct (exception_enters s v c0 N sr table handler h cs_ ss_ 1 None Hrd ltac:(lia))
    as (p1 & k & s0 & v0 & cs0 & ss0 & Ex & Eg & Hav & Rip & Rsp & _ & Rr). by exists p1, k, s0, v0, cs0, ss0.
Qed.
End Ready.

Section TrapTrip.
Context {os T : Type} `{HostOSLaws os} `{FileOS os} `{KvmOS os} `{MonitorOS os} `{TranslationCacheLaws T}.
Variable hs : elkvm_handlers os (vm os T).
Variables (udis : bool) (c0 : Chunk) (N : Z) (sr : sysregs) (table handler h : Z).
Implicit Types s : vm os T.
Local Abbreviation top := (Z.land (ist1 sr) (- 16)).

(** The interrupt stack after the handling of a trap. *)
Definition trap_mem (m : mem) (ws : list Z) : mem :=
  store64 (push_image m h ws) (h - 40) (load64 (push_image m h ws) (h - 40)).

Lemma trap_mem_word m v cs_ ss_ i x :
  (i < 5)%nat -> trap_words v cs_ ss_ !! i = Some x ->
  load64 (trap_mem m (trap_words v cs_ ss_)) (h - 8 * (Z.of_nat i + 1)) = u64 x.
Proof.
  intros Hi Hx. pose proof (push_image_load m h (trap_words v cs_ ss_) i x Hx) as Hl. unfold trap_mem.
  destruct (decide (i = 4%nat)) as [->|Hn].
  - change (h - 8 * (Z.of_nat 4 + 1)) with (h - 40) in *. rewrite load64_store64_same, Hl.
    rewrite (u64_small (u64 x)); [done|apply u64_range].
  - rewrite load64_store64_other by lia. exact Hl.
Qed.

Lemma trap_mem_other m v cs_ ss_ x : x < h - 56 \/ h <= x -> trap_mem m (trap_words v cs_ ss_) x = m x.
Proof. intros Hx. unfold trap_mem. rewrite store64_other by lia. apply push_image_other. cbn [length trap_words]. lia. Qed.

(** The hypercall of the trap up to its end. *)
Lemma trap_handled s v s0 v0 cs_ ss_ cs0 ss0 :
  traps_ready s v c0 N sr table handler h -> _debug s = false ->
  at_vmcall c0 s N h (trap_words v cs_ ss_) s0 v0 cs0 ss0 -> vreg v0 rsp = top - 56 ->
  exists t, let v1 := set_vreg v0 rsp (top - 40) in
    let s1 := vm_write s v1 (trap_mem (p_mem (vm_paging s)) (trap_words v cs_ ss_)) t in
    handle_hypercall hs hypercall_null udis s0 = finish_hypercall hypercall_null ELKVM_HYPERCALL_INTERRUPT s1 /\
    vm_ok s1 v1 c0 N /\ forall w, translate c0 s1 w = translate c0 s w.
Proof.
  intros Hrd Hd [Ok0 Eh0 Evm Ecur] Rsp. destruct (rd_stack _ _ _ _ _ _ _ _ Hrd) as [Hr _ Hw].
  set (m0 := push_image (p_mem (vm_paging s)) h (trap_words v cs_ ss_)) in *.
  assert (p_mem (vm_paging s0) = m0) as Em by (by rewrite Evm).
  assert (forall k, 1 <= k <= 8 -> stack_word (cpu0 s0 v0) c0 (top - 8 * k) (h - 8 * k)) as Hw0.
  { intros k Hk. apply (stack_word_step s s0 v v0); [by rewrite Evm|exact Eh0|by apply Hw]. }
  pose proof (push_image_load (p_mem (vm_paging s)) h (trap_words v cs_ ss_)) as Hl. fold m0 in Hl.
  destruct (trap_flow hs udis c0 s0 v0 N (h - 56) Ok0) as (t & E & Ok1 & Eh1).
  - rewrite Rsp. lia.
  - rewrite Rsp. apply (Hw0 7). lia.
  - rewrite Rsp. replace (top - 56 + 8) with (top - 8 * 6) by lia. replace (h - 56 + 8) with (h - 8 * 6) by lia.
    apply Hw0. lia.
  - rewrite Rsp. replace (top - 56 + 16) with (top - 8 * 5) by lia. replace (h - 56 + 16) with (h - 8 * 5) by lia.
    apply Hw0. lia.
  - rewrite Em. apply (Hl 6%nat 2 eq_refl).
  - rewrite Em. replace (h - 56 + 8) with (h - 8 * (Z.of_nat 5 + 1)) by lia. apply (Hl 5%nat 1 eq_refl).
  - by rewrite Evm.
  - rewrite Rsp, Em in *. replace (top - 56 + 16) with (top - 40) in * by lia.
    replace (h - 56 + 16) with (h - 40) in * by lia. exists t.
    rewrite Evm in E at 2, Ok1, Eh1. rewrite vm_write_write in E, Ok1, Eh1.
    split; [exact E|]. split; [exact Ok1|]. intros w. unfold translate. etransitivity; [apply Eh1|].
    rewrite <- Evm. apply Eh0.
Qed.

(** The code of the stubs outlives what is written on the interrupt stack. *)
Lemma stubs_stay s v s1 m1 :
  traps_ready s v c0 N sr table handler h -> (forall w, translate c0 s1 w = translate c0 s w) ->
  (forall x, x < h - 64 \/ h <= x -> m1 x = p_mem (vm_paging s) x) ->
  code_at (translate c0 s1) m1 handler isr_bin.
Proof.
  intros Hrd Et Hm. apply (code_at_ext (translate c0 s)); [done|].
  eapply code_at_agree; [apply (rd_code _ _ _ _ _ _ _ _ Hrd)|apply (rd_avoids _ _ _ _ _ _ _ _ Hrd)|].
  intros x Hx. apply Hm. lia.
Qed.

(** [iretq] at the end of the stubs. *)
Lemma iretq_current s1 v1 cs_ ss_ m1 :
  code_at (translate c0 s1) m1 handler isr_bin -> 0 <= handler < 2 ^ 64 - 512 -> vreg v1 rip = handler + 261 ->
  current (translate c0 s1) (mkCore v1 cs_ ss_ m1) = Some (IIret, 2).
Proof.
  intros Hc Hh Hip. apply (current_code (translate c0 s1) (mkCore v1 cs_ ss_ m1) handler isr_bin 261).
  - exact Hc.
  - change (vreg v1 rip = u64 (handler + 261)). rewrite Hip, u64_small; lia.
  - vm_compute. reflexivity.
Qed.

(** The way back: [iretq] with the frame of the guest on top of the stack. *)
Lemma iret_back s1 v1 v cs_ ss_ cs0 ss0 :
  cpus s1 !! 0%nat = Some v1 -> regs_wide v -> is_u16 cs_ -> is_u16 ss_ ->
  current (translate c0 s1) (mkCore v1 cs0 ss0 (p_mem (vm_paging s1))) = Some (IIret, 2) ->
  stack_room (translate c0 s1) top h 5 -> vreg v1 rsp = top - 40 ->
  (forall i x, [ss_; vreg v rsp; vreg v rflags; cs_; vreg v rip] !! i = Some x ->
     load64 (p_mem (vm_paging s1)) (h - 8 * (Z.of_nat i + 1)) = u64 x) ->
  (forall r, gpr r -> r ∉ [rip; rsp; rflags] -> vreg v1 r = vreg v r) ->
  exists s2 v2, guest_steps c0 sr 1 (mkComputer s1 cs0 ss0) = Some (mkComputer s2 cs_ ss_) /\
    cpus s2 !! 0%nat = Some v2 /\ (forall r, gpr r -> vreg v2 r = vreg v r) /\
    (forall r, r ∉ [rip; rsp; rflags] -> vreg v2 r = vreg v1 r) /\
    hm_rm (v_hm s2) = hm_rm (v_hm s1) /\ stack v2 = stack v1.
Proof.
  intros Hv1 Hwide Hcs Hss Ecur Hroom Rsp Hl Rr.
  set (c := mkCore v1 cs0 ss0 (p_mem (vm_paging s1))) in *.
  assert (forall r, u64 (vreg v r) = vreg v r) as Hu by (intros r; apply u64_small, Hwide).
  destruct (iret_ok (translate c0 s1) sr c top h _ _ _ _ _ Hroom Rsp
              (Hl 4%nat _ eq_refl) (Hl 3%nat _ eq_refl) (Hl 2%nat _ eq_refl) (Hl 1%nat _ eq_refl) (Hl 0%nat _ eq_refl))
    as (c' & Ex & Cip & Cfl & Csp & Ccs & Css & Cm & Cr).
  rewrite Hu in Cip, Cfl, Csp. rewrite land_u16 in Ccs, Css by done.
  pose proof (steps_1 (translate c0 s1) sr c _ _ Ecur) as E. rewrite Ex in E.
  pose proof (guest_steps_eq c0 sr 1 (mkComputer s1 cs0 ss0) v1 c' Hv1 E) as Eg.
  exists (pc_vm (with_core (mkComputer s1 cs0 ss0) c')), (co_cpu c'). split.
  { rewrite Eg. unfold with_core. by rewrite Ccs, Css. }
  assert (forall r, r ∉ [rip; rsp; rflags] -> vreg (co_cpu c') r = vreg v1 r) as Cr' by (intros r Hr; apply (Cr r); reg_out).
  split; [by apply (vm_write_lookup s1 v1)|]. split; [|split; [exact Cr'|split]].
  - intros r Hg. destruct (decide (r = rip)) as [->|]; [exact Cip|]. destruct (decide (r = rsp)) as [->|]; [exact Csp|].
    destruct (decide (r = rflags)) as [->|]; [exact Cfl|].
    assert (r ∉ [rip; rsp; rflags]) as Hr by (rewrite ?not_elem_of_cons; pose proof (not_elem_of_nil r); tauto).
    rewrite Cr' by done. by apply Rr.
  - by apply (with_core_rm (mkComputer s1 cs0 ss0) c').
  - exact (exec_stack _ _ _ _ _ _ Ex).
Qed.

(** The same for the memory that a trap leaves. *)
Lemma trap_leaves s v s1 v1 t cs_ ss_ cs0 ss0 :
  traps_ready s v c0 N sr table handler h -> regs_wide v -> is_u16 cs_ -> is_u16 ss_ ->
  s1 = vm_write s v1 (trap_mem (p_mem (vm_paging s)) (trap_words v cs_ ss_)) t ->
  vm_ok s1 v1 c0 N -> (forall w, translate c0 s1 w = translate c0 s w) ->
  vreg v1 rsp = top - 40 -> vreg v1 rip = handler + 261 ->
  (forall r, r ∉ [rip; rsp; rflags] -> vreg v1 r = vreg v r) ->
  exists s2 v2, guest_steps c0 sr 1 (mkComputer s1 cs0 ss0) = Some (mkComputer s2 cs_ ss_) /\
    cpus s2 !! 0%nat = Some v2 /\ (forall r, vreg v2 r = vreg v r) /\
    vm_paging s2 = vm_paging s1.
Proof.
  intros Hrd Hwide Hcs Hss Es1 Ok1 Et Rsp Rip Rr.
  assert (p_mem (vm_paging s1) = trap_mem (p_mem (vm_paging s)) (trap_words v cs_ ss_)) as Em by (by rewrite Es1).
  destruct (iret_back s1 v1 v cs_ ss_ cs0 ss0 (vo_cpu _ _ _ _ Ok1) Hwide Hcs Hss)
    as (s2 & v2 & Eg & Hv2 & R2 & R2' & Ep & _).
  - apply iretq_current; [|apply Hrd|done]. rewrite Em. apply (stubs_stay s v); [done|done|].
    intros x Hx. apply trap_mem_other. lia.
  - exact (stack_room_le _ _ _ 8 5 (stack_room_ext _ _ _ _ _ Et (vm_room_stack _ _ _ _ _ _ (rd_stack _ _ _ _ _ _ _ _ Hrd))) ltac:(lia)).
  - done.
  - intros i x Hx. rewrite Em. assert (i < 5)%nat as Hi by (apply lookup_lt_Some in Hx; exact Hx).
    apply trap_mem_word; [done|]. unfold trap_words.
    do 5 (destruct i as [|i]; [exact Hx|]). lia.
  - intros r _. apply Rr.
  - exists s2, v2. split; [exact Eg|]. split; [exact Hv2|]. split; [|unfold vm_paging; by rewrite Ep].
    intros r. destruct (gpr r) eqn:Hg; [by apply R2; rewrite Hg|].
    rewrite R2' by (destruct r; done || reg_out). apply Rr. destruct r; done || reg_out.
Qed.
End TrapTrip.

(** C19. A debug trap is transparent to the guest.  With the interrupt table of
    the setup, the stubs and the interrupt stack in place and no signal waiting, a
    debug trap that arrives between two instructions goes through gate 1, the stub,
    the hypercall and [iretq] back to the interrupted instruction: every
    register, the flags and the selectors are those of before, and
    memory differs only in the seven words of the interrupt stack.  The word
    that the handler takes for an error code is the address of
    the instruction, which is why it pushes it again. *)
Theorem debug_trap_roundtrip {os T} `{HostOSLaws os} `{FileOS os} `{KvmOS os} `{MonitorOS os} `{TranslationCacheLaws T}
    (hs : elkvm_handlers os (vm os T)) udis (s : vm os T) v c0 N sr table handler h cs_ ss_ :
  traps_ready s v c0 N sr table handler h -> regs_wide v -> is_u16 cs_ -> is_u16 ss_ ->
  _debug s = false -> num_pending_signals s <= 0 ->
  exists p1 s2 v2, exception c0 sr 1 None (mkComputer s cs_ ss_) = Some p1 /\
    rtc (pc_run hs udis c0 sr) p1 (mkComputer s2 cs_ ss_) /\
    cpus s2 !! 0%nat = Some v2 /\ (forall r, vreg v2 r = vreg v r) /\
    forall x, x < h - 56 \/ h <= x -> p_mem (vm_paging s2) x = p_mem (vm_paging s) x.
Proof.
  intros Hrd Hwide Hcs Hss Hd Hp.
  destruct (trap_enters s v c0 N sr table handler h cs_ ss_ Hrd)
    as (p1 & k & s0 & v0 & cs0 & ss0 & Ex & Eg & Hav & Rip & Rsp & Rr).
  destruct (trap_handled hs udis c0 N sr table handler h s v s0 v0 cs_ ss_ cs0 ss0 Hrd Hd Hav Rsp) as (t & Eh & Ok1 & Et).
  set (v1 := set_vreg v0 rsp _) in *. set (s1 := vm_write s v1 _ t) in *.
  assert (vreg v1 rip = handler + 258) as Rip1 by exact Rip.
  rewrite (finish_hypercall_eq s1 v1) in Eh by (done || apply Ok1).
  rewrite Rip1 in Eh. pose proof (rd_handler _ _ _ _ _ _ _ _ Hrd) as Hh. rewrite u64_small in Eh by lia.
  replace (handler + 258 + 3) with (handler + 261) in Eh by lia.
  set (v1' := set_vreg v1 rip (handler + 261)).
  assert (put_reg s1 v1 rip (handler + 261)
          = vm_write s v1' (trap_mem h (p_mem (vm_paging s)) (trap_words v cs_ ss_)) t) as Es1 by apply vm_write_put_reg.
  rewrite Es1 in Eh. set (s1' := vm_write s v1' _ t) in *.
  destruct (trap_leaves c0 N sr table handler h s v s1' v1' t cs_ ss_ cs0 ss0 Hrd Hwide Hcs Hss eq_refl)
    as (s2 & v2 & Eg2 & Hv2 & R2 & Ep2).
  - constructor; [by apply (vm_write_lookup s v), Hrd|]. by destruct Ok1 as [_ []].
  - exact Et.
  - done.
  - done.
  - intros r Hr. unfold v1', v1. rewrite !vreg_set.
    repeat (case_decide; [subst; exfalso; apply Hr; reg_in|]). by apply Rr.
  - exists p1, s2, v2. split; [exact Ex|]. split.
    + eapply rtc_l; [by apply (pc_guest _ _ _ _ k)|].
      eapply rtc_l; [|apply rtc_once, (pc_guest _ _ _ _ 1); exact Eg2].
      apply pc_hypercall. destruct Hav as [Ok0 _ _ Ecur].
      exact (hypercall_eq hs udis c0 _ v0 _ _ (core_of_eq (mkComputer s0 cs0 ss0) v0 (vo_cpu _ _ _ _ Ok0)) eq_refl Ecur Eh).
    + split; [exact Hv2|]. split; [exact R2|]. intros x Hx. rewrite Ep2.
      change (p_mem (vm_paging s1')) with (trap_mem h (p_mem (vm_paging s)) (trap_words v cs_ ss_)).
      by apply trap_mem_other.
Qed.

(** The page at 0x400000, mapped to the host address 0x11000000, with the
    interrupt table at its start, the stubs at 0x400400 and an interrupt stack below 0x400800. *)
Definition trap_vcpu : VCPU := demo_vcpu [(rip, 0x400abc); (rsp, 0x400f00); (rflags, 0x202); (rax, 7)].
Definition trap_sysregs : sysregs := mkSysregs star_value 0 0 0x400000 0x400800.
Definition trap_page (m : mem) : mem := idt_fill 48 (store_bytes m 0x11000400 isr_bin) 0x11000000 0x400400.

(** A machine that shows this page is ready for exceptions. *)
Section TrapPage.
Context (s : vm bump_os TLB.t) (v : VCPU) (N : Z) (m : mem).
Hypothesis Hok : vm_ok s v demo_chunk N.
Hypothesis Htr : translate demo_chunk s 0x400000 = Some 0x11000000.
Hypothesis Hmem : p_mem (vm_paging s) = trap_page m.
Hypothesis Hpml4 : host_pml4_p (p_pager (vm_paging s)) = 0x10000000.

Lemma page_host i : 0 <= i < 4096 -> translate demo_chunk s (0x400000 + i) = Some (0x11000000 + i).
Proof.
  intros Hi. unfold translate in *.
  rewrite (host_of_page demo_chunk (vm_paging s) 0x400000 (0x400000 + i) 0x11000000); [| | |exact Htr].
  - f_equal. change (0x400000 mod 4096) with 0. rewrite Z.sub_0_r. f_equal. Z.div_mod_to_equations. lia.
  - apply (co_chunks _ _ _ (vo_mem _ _ _ _ Hok)).
  - unfold vpn. rewrite !Z.mod_small by lia. Z.div_mod_to_equations. lia.
Qed.

Lemma page_room n : (n <= 64)%nat -> vm_room s v demo_chunk 0x400800 0x11000800 n.
Proof.
  intros Hn. constructor; [lia|done|]. intros k Hk.
  replace (0x400800 - 8 * k) with (0x400000 + (0x800 - 8 * k)) by lia.
  replace (0x11000800 - 8 * k) with (0x11000000 + (0x800 - 8 * k)) by lia.
  assert (is_u64 (0x400000 + (0x800 - 8 * k))) as Hu by (unfold is_u64; lia).
  constructor.
  - split; [done|]. rewrite page_begin_eq by done. Z.div_mod_to_equations. lia.
  - apply page_host. lia.
  - change (paging (cpu0 s v)) with (vm_paging s). rewrite Hpml4. right. change ELKVM_SYSTEM_MEMSIZE with 0x1000000. lia.
Qed.

Lemma isr_bin_length : length isr_bin = 263%nat.
Proof. vm_compute. reflexivity. Qed.

Lemma isr_bin_bytes : forallb (fun b => u8 b =? b) isr_bin = true.
Proof. vm_compute. reflexivity. Qed.

Lemma page_code_host i b h :
  isr_bin !! i = Some b -> translate demo_chunk s (u64 (0x400400 + Z.of_nat i)) = Some h ->
  h = 0x11000400 + Z.of_nat i /\ (i < 263)%nat.
Proof.
  intros Hi. pose proof (lookup_lt_Some _ _ _ Hi) as Hl. rewrite isr_bin_length in Hl. rewrite u64_small by lia.
  replace (0x400400 + Z.of_nat i) with (0x400000 + (0x400 + Z.of_nat i)) by lia. rewrite page_host by lia.
  intros [= <-]. lia.
Qed.

Lemma page_ready : traps_ready s v demo_chunk N trap_sysregs 0x11000000 0x400400 0x11000800.
Proof.
  constructor; [exact Hok| | | | | |apply page_room; lia].
  - exists (store_bytes m 0x11000400 isr_bin). rewrite Hmem. unfold trap_page. reflexivity.
  - intros i Hi. change (idtr trap_sysregs) with 0x400000. rewrite u64_small by lia. unfold word_at.
    pose proof (aligned_word 0x400000 (- 2 * i) eq_refl) as Hm. replace (0x400000 - 8 * (-2 * i)) with (0x400000 + 16 * i) in Hm by lia.
    apply Z.leb_le in Hm. rewrite Hm. apply page_host. lia.
  - intros i b Hi. pose proof (lookup_lt_Some _ _ _ Hi) as Hl. pose proof isr_bin_length as El.
    exists (0x11000000 + (0x400 + Z.of_nat i)). split.
    + rewrite u64_small by lia. rewrite <- page_host by lia. f_equal. lia.
    + pose proof isr_bin_bytes as Hb. rewrite forallb_forall in Hb.
      specialize (Hb b (proj1 (list_elem_of_In _ _) (list_elem_of_lookup_2 _ _ _ Hi))). apply Z.eqb_eq in Hb.
      rewrite Hmem. unfold trap_page, load8.
      rewrite (idt_fill_agree 48 _ 0x11000000 0x400400 (0x11000000 + (0x400 + Z.of_nat i)) 1) by lia.
      replace (0x11000000 + (0x400 + Z.of_nat i)) with (0x11000400 + Z.of_nat i) by lia.
      etransitivity; [apply (load8_store_bytes m 0x11000400 isr_bin i Hl)|].
      by rewrite (nth_lookup_Some _ _ _ _ Hi).
  - by vm_compute.
  - intros i b h Hi Et. destruct (page_code_host i b h Hi Et) as [-> Hl]. lia.
Qed.

Lemma page_code_avoids : code_avoids (translate demo_chunk s) 0x400400 isr_bin 0x10000000 0x1000000.
Proof. intros i b h Hi Et. destruct (page_code_host i b h Hi Et) as [-> Hl]. lia. Qed.
End TrapPage.

Definition trap_vm : vm bump_os TLB.t :=
  vm_write (demo_vm []) trap_vcpu (trap_page (p_mem (vm_paging (demo_vm [])))) (p_tlb (vm_paging (demo_vm []))).

Lemma trap_page_tables m x : 0x10000000 <= x < 0x10000000 + ELKVM_SYSTEM_MEMSIZE -> trap_page m x = m x.
Proof.
  change ELKVM_SYSTEM_MEMSIZE with 0x1000000. intros Hx. unfold trap_page.
  rewrite (idt_fill_agree 48 _ 0x11000000 0x400400 x 1) by lia. apply store_bytes_other. lia.
Qed.

Lemma trap_vm_ready : exists N, traps_ready trap_vm trap_vcpu demo_chunk N trap_sysregs 0x11000000 0x400400 0x11000800.
Proof.
  destruct (demo_vm_ok []) as [N Hok]. exists N.
  assert (host_pml4_p (p_pager (vm_paging (demo_vm []))) = 0x10000000) as Hp by (vm_compute; reflexivity).
  apply (page_ready trap_vm trap_vcpu N (p_mem (vm_paging (demo_vm [])))).
  - apply (vm_ok_write (demo_vm []) (demo_vcpu []) demo_chunk N); [exact Hok|].
    rewrite Hp. apply trap_page_tables.
  - vm_compute. reflexivity.
  - apply vm_write_mem.
  - exact Hp.
Qed.

Lemma trap_vcpu_wide : regs_wide trap_vcpu.
Proof. intros r. destruct r; vm_compute; (split; [discriminate|reflexivity]). Qed.

Lemma debug_trap_roundtrip_witness :
  exists p1 s2 v2, exception demo_chunk trap_sysregs 1 None (mkComputer trap_vm 0x13 0xb) = Some p1 /\
    rtc (pc_run default_handlers false demo_chunk trap_sysregs) p1 (mkComputer s2 0x13 0xb) /\
    cpus s2 !! 0%nat = Some v2 /\ vreg v2 rip = 0x400abc /\ vreg v2 rsp = 0x400f00.
Proof.
  destruct trap_vm_ready as [N Hrd].
  destruct (debug_trap_roundtrip default_handlers false trap_vm trap_vcpu demo_chunk N trap_sysregs 0x11000000 0x400400
              0x11000800 0x13 0xb Hrd trap_vcpu_wide) as (p1 & s2 & v2 & Ex & Hr & Hv & R & _);
    [split; lia|split; lia|reflexivity|by vm_compute|].
  exists p1, s2, v2. split; [exact Ex|]. split; [exact Hr|]. split; [exact Hv|]. split; rewrite R; reflexivity.
Defined.
