(* ===== verification/SignalTheorems.v ===== *)
(** * Signals and the guest's code: theorems

    Where a signal that is delivered at the end of a hypercall takes the guest: after a
    system call into the handler and back through the cleanup code, after an
    exception into an [iretq] on the words of the signal. *)

From S2P Require Import Prelude Text Memory PageMath HostOS Tlb Pager PagerTree PagerWalk PagerSpec PagerTlb PagerTheorems Region RegionManager RegionSpec RegionTheorems Registers Mappings Heap HeapSpec HeapTheorems Vcpu VcpuTheorems Descriptors DescriptorTheorems Vm Handlers Syscall SyscallStubs Hypercall VmSpec SyscallTheorems HypercallTheorems RunTheorems LifecycleTheorems GuestCode GuestSpec GuestTheorems TrapTheorems.
From stdpp Require Import strings relations.
Local Open Scope Z_scope.

Section Deliver.
Context {os T : Type} `{HostOSLaws os} `{FileOS os} `{KvmOS os} `{MonitorOS os} `{TranslationCacheLaws T}.
Implicit Types s : vm os T.

(** A signal waits; it has an action, and the cleanup code is mapped at an
    address. *)
Record signal_waits s (sig handler cleanup : Z) : Prop := mkWaits {
  sw_sig : 0 <= sig < 2 ^ 31;
  sw_queue : exists n, num_pending_signals s = n + 1 /\ 0 <= n /\ pending_signals s !! Z.to_nat n = Some sig;
  sw_action : exists sa, sigs s !! Z.to_nat sig = Some sa /\ sa_handler sa = handler;
  sw_cleanup : exists r reg, flat_region (sighandler_cleanup s) = Some r /\
    objs (rm_store (hm_rm (v_hm s))) !! r = Some reg /\ guest_address reg = cleanup;
}.

(** The end of a hypercall with a waiting signal. *)
Lemma finish_hypercall_signal s v c0 N call sig handler cleanup h :
  vm_ok s v c0 N -> signal_waits s sig handler cleanup -> let sp := vreg v rsp in
  vm_room s v c0 sp h 3 ->
  exists s' v', finish_hypercall hypercall_null call s = Ok (0, s') /\ vm_ok s' v' c0 N /\
    (forall w, translate c0 s' w = translate c0 s w) /\
    p_mem (vm_paging s') = push_image (p_mem (vm_paging s)) h [vreg v rax; cleanup; handler] /\
    vreg v' rip = u64 (vreg v rip + 3) /\ vreg v' rsp = sp - 24 /\ vreg v' rdi = sig /\
    forall x, x ∉ [rip; rsp; rdi] -> vreg v' x = vreg v x.
Proof.
  intros Hok [Hsig (n & Hn & Hn0 & Hq) (sa & Hsa & <-) (r & reg & Hr & Hreg & <-)] sp [Hsp _ Hw].
  pose proof (vo_cpu _ _ _ _ Hok) as Hv. set (ip := u64 (vreg v rip + 3)).
  set (s1 := put_reg s v rip ip). set (v1 := set_vreg v rip ip).
  assert (vm_ok s1 v1 c0 N) as Ok1 by (constructor; [by apply put_reg_lookup|by destruct Hok as [_ []]]).
  assert (forall k, 1 <= k <= 3 -> stack_word (cpu0 s1 v1) c0 (sp - 8 * k) (h - 8 * k)) as Hw1.
  { intros k Hk. apply (stack_word_step s s1 v v1); [done|done|by apply Hw]. }
  destruct (signal_flow s1 v1 c0 N n sig sa r reg (h - 8) (h - 16) (h - 24) Ok1 Hn Hn0 Hq Hsig Hsa Hr Hreg)
    as (s' & v' & E & Ok' & _ & Em & Eh & Rsp & Rdi & Rr);
    [change (24 <= sp < 2 ^ 64); lia|apply (Hw1 1); lia|apply (Hw1 2); lia|apply (Hw1 3); lia|].
  exists s', v'. split_and!; [|exact Ok'|exact Eh| | |exact Rsp|exact Rdi|].
  - unfold finish_hypercall. erewrite bind_ok; [|reflexivity].
    assert (elkvm_emulate_vmcall s = Ok (tt, s1)) as Ev.
    { unfold elkvm_emulate_vmcall. rewrite (bind_ok _ _ _ _ _ (on_cpu_get_reg s v rip Hv)).
      by rewrite (on_cpu_set_reg s v _ _ Hv). }
    rewrite (bind_ok _ _ _ _ _ Ev). by rewrite (bind_ok _ _ _ _ _ E).
  - rewrite Em. cbn [push_image]. by rewrite <- !Z.sub_add_distr.
  - rewrite Rr by done. done.
  - intros x Hx. rewrite ?not_elem_of_cons in Hx. rewrite Rr by tauto. unfold v1. rewrite vreg_set. case_decide; [subst; tauto|done].
Qed.
End Deliver.

(** The top of the interrupt stack after a trap and a signal. *)
Lemma broken_frame h m v v1 cs_ ss_ cleanup act :
  regs_wide v -> vreg v1 rax = vreg v rax -> is_u16 cs_ ->
  map (fun k => load64 (push_image (trap_mem h m (trap_words v cs_ ss_)) (h - 40) [vreg v1 rax; cleanup; act])
                       (h - 64 + 8 * k)) [0; 1; 2; 3; 4]
  = [u64 act; u64 cleanup; vreg v rax; vreg v rip; cs_].
Proof.
  intros Hwide Ra Hcs. set (m1 := trap_mem _ _ _).
  pose proof (push_image_load m1 (h - 40) [vreg v1 rax; cleanup; act]) as Hl.
  pose proof (trap_mem_word h m v cs_ ss_) as Hl1. fold m1 in Hl1.
  pose proof (fun r => u64_small (vreg v r) (Hwide r)) as Hu.
  assert (forall m a b, a = b -> load64 m a = load64 m b) as Hc by congruence.
  cbn [map]. repeat f_equal.
  - etransitivity; [|apply (Hl 2%nat act eq_refl)]. apply Hc. lia.
  - etransitivity; [|apply (Hl 1%nat cleanup eq_refl)]. apply Hc. lia.
  - etransitivity; [|etransitivity; [apply (Hl 0%nat _ eq_refl)|by rewrite Ra]]. apply Hc. lia.
  - rewrite push_image_load_other by (cbn [length]; lia).
    etransitivity; [|etransitivity; [apply (Hl1 4%nat _ ltac:(lia) eq_refl)|apply Hu]]. apply Hc. lia.
  - rewrite push_image_load_other by (cbn [length]; lia).
    etransitivity; [|etransitivity; [apply (Hl1 3%nat _ ltac:(lia) eq_refl)|apply u64_small; unfold is_u16 in Hcs; lia]].
    apply Hc. lia.
Qed.

(** C29. A signal during an exception destroys the frame of the processor.  The
    words of a signal are pushed at the end of every hypercall, and the hypercall of
    an exception runs on the interrupt stack, where the processor has left its
    frame: when a debug trap ends with a signal waiting, the [iretq] of the stubs
    stands before the handler, the address of the cleanup code, the
    saved [rax], the interrupted address and the code selector of the guest, and takes
    them for [rip], [cs], the flags, [rsp] and [ss]. *)
Theorem signal_breaks_trap {os T} `{HostOSLaws os} `{FileOS os} `{KvmOS os} `{MonitorOS os} `{TranslationCacheLaws T}
    (hs : elkvm_handlers os (vm os T)) udis (s : vm os T) v c0 N sr table handler h cs_ ss_ sig act cleanup :
  traps_ready s v c0 N sr table handler h -> regs_wide v -> is_u16 cs_ ->
  _debug s = false -> signal_waits s sig act cleanup ->
  exists p1 s2 v2 cs2 ss2, exception c0 sr 1 None (mkComputer s cs_ ss_) = Some p1 /\
    rtc (pc_run hs udis c0 sr) p1 (mkComputer s2 cs2 ss2) /\ cpus s2 !! 0%nat = Some v2 /\
    current (translate c0 s2) (mkCore v2 cs2 ss2 (p_mem (vm_paging s2))) = Some (IIret, 2) /\
    vreg v2 rsp = Z.land (ist1 sr) (- 16) - 64 /\
    map (fun k => load64 (p_mem (vm_paging s2)) (h - 64 + 8 * k)) [0; 1; 2; 3; 4]
    = [u64 act; u64 cleanup; vreg v rax; vreg v rip; cs_].
Proof.
  intros Hrd Hwide Hcs Hd Hsig.
  destruct (trap_enters s v c0 N sr table handler h cs_ ss_ Hrd)
    as (p1 & k & s0 & v0 & cs0 & ss0 & Ex & Eg & Hav & Rip & Rsp & Rr).
  destruct (trap_handled hs udis c0 N sr table handler h s v s0 v0 cs_ ss_ cs0 ss0 Hrd Hd Hav Rsp) as (t & Eh & Ok1 & Et).
  set (v1 := set_vreg v0 rsp _) in *. set (m1 := trap_mem h (p_mem (vm_paging s)) (trap_words v cs_ ss_)) in *.
  set (s1 := vm_write s v1 m1 t) in *.
  destruct (rd_stack _ _ _ _ _ _ _ _ Hrd) as [Hr Ha Hw].
  set (top := Z.land (ist1 sr) (- 16)) in *.
  destruct (finish_hypercall_signal s1 v1 c0 N ELKVM_HYPERCALL_INTERRUPT sig act cleanup (h - 40) Ok1)
    as (s2 & v2 & Ef & Ok2 & Et2 & Em2 & Rip2 & Rsp2 & _).
  { by destruct Hsig. }
  { change (vreg v1 rsp) with (top - 40). constructor; [lia|Z.div_mod_to_equations; lia|].
    intros j Hj. apply (stack_word_step s s1 v v1); [done|exact Et|].
    replace (top - 40 - 8 * j) with (top - 8 * (j + 5)) by lia. replace (h - 40 - 8 * j) with (h - 8 * (j + 5)) by lia.
    apply Hw. lia. }
  rewrite Ef in Eh. exists p1, s2, v2, cs0, ss0. split; [exact Ex|]. split.
  { eapply rtc_l; [by apply (pc_guest _ _ _ _ k)|]. apply rtc_once, pc_hypercall. destruct Hav as [Ok0 _ _ Ecur].
    exact (hypercall_eq hs udis c0 _ v0 _ _ (core_of_eq (mkComputer s0 cs0 ss0) v0 (vo_cpu _ _ _ _ Ok0)) eq_refl Ecur Eh). }
  split; [apply Ok2|]. pose proof (rd_handler _ _ _ _ _ _ _ _ Hrd) as Hh. rewrite Em2.
  change (p_mem (vm_paging s1)) with m1. split; [|split].
  - apply (iretq_current c0 handler); [|done|].
    + apply (stubs_stay c0 N sr table handler h s v); [done|intros w; by rewrite Et2, Et|].
      intros x Hx. rewrite push_image_other by (cbn [length]; lia). apply trap_mem_other. lia.
    + rewrite Rip2. change (vreg v1 rip) with (vreg v0 rip). rewrite Rip, u64_small; lia.
  - rewrite Rsp2. change (vreg v1 rsp) with (top - 40). lia.
  - apply broken_frame; [done|transitivity (vreg v0 rax); [done|apply Rr; reg_out]|done].
Qed.

(** Machines with the same paging and CPU. *)
Lemma traps_ready_same {os T} `{HostOSLaws os} `{KvmOS os} `{TranslationCacheLaws T} (s s' : vm os T) v c0 N sr table handler h :
  vm_paging s' = vm_paging s -> cpus s' !! 0%nat = Some v ->
  traps_ready s v c0 N sr table handler h -> traps_ready s' v c0 N sr table handler h.
Proof.
  intros E Hv [[_ [Ht Hc Hco]] Hi Hg Hcode Hh Ha [Hr Hal Hw]].
  change (paging (cpu0 s v)) with (vm_paging s) in *. unfold translate in *. rewrite <- E in *.
  constructor; [constructor; [done|by constructor]|done|done|done|done|done|]. constructor; [done|done|]. intros k Hk. destruct (Hw k Hk) as [W1 W2 W3].
  change (paging (cpu0 s v)) with (vm_paging s) in *. rewrite <- E in *. by constructor.
Qed.

(** A machine with signal 10 waiting, whose action has an address given in bytes; the cleanup
    code is at 0x400c00. *)
Definition with_signal (s : vm bump_os TLB.t) (act : list Z) : vm bump_os TLB.t :=
  let reg := mkRegion 0x11000c00 0x400c00 4096 false "signal" in
  with_pending (with_cleanup (with_sigs
    (with_hm s (mkHM [] [] 0 (mkRM [] [] (mkStore {[ 0%nat := reg ]} 1%nat) (vm_paging s))))
    (<[10%nat := act ++ replicate 150 0]> (replicate 65 (replicate 152 0)))) (mkFlat (Some 0%nat) 4096))
    (<[0%nat := 10]> (replicate 32 0)) 1.

Lemma with_signal_waits s act : signal_waits (with_signal s act) 10 (sa_handler (act ++ replicate 150 0)) 0x400c00.
Proof.
  constructor; [lia| | |].
  - exists 0. split_and!; [reflexivity|lia|vm_compute; reflexivity].
  - eexists. split; [|reflexivity]. reflexivity.
  - exists 0%nat, (mkRegion 0x11000c00 0x400c00 4096 false "signal"). split_and!; [reflexivity| |reflexivity].
    vm_compute. reflexivity.
Qed.

Definition signal_trap_vm : vm bump_os TLB.t := with_signal trap_vm [0x34; 0x12].

Lemma signal_breaks_trap_witness :
  exists p1 s2 v2 cs2 ss2, exception demo_chunk trap_sysregs 1 None (mkComputer signal_trap_vm 0x13 0xb) = Some p1 /\
    rtc (pc_run default_handlers false demo_chunk trap_sysregs) p1 (mkComputer s2 cs2 ss2) /\
    cpus s2 !! 0%nat = Some v2 /\ vreg v2 rsp = 0x400800 - 64 /\
    map (fun k => load64 (p_mem (vm_paging s2)) (0x11000800 - 64 + 8 * k)) [0; 1; 2; 3; 4]
    = [0x1234; 0x400c00; 7; 0x400abc; 0x13].
Proof.
  destruct trap_vm_ready as [N Hrd].
  apply (traps_ready_same trap_vm signal_trap_vm) in Hrd; [|reflexivity|reflexivity].
  destruct (signal_breaks_trap default_handlers false signal_trap_vm trap_vcpu demo_chunk N trap_sysregs 0x11000000
              0x400400 0x11000800 0x13 0xb 10 0x1234 0x400c00 Hrd trap_vcpu_wide)
    as (p1 & s2 & v2 & cs2 & ss2 & Ex & Hr & Hv & _ & Rsp & Hl);
    [split; lia|reflexivity|exact (with_signal_waits trap_vm [0x34; 0x12])|].
  exists p1, s2, v2, cs2, ss2. split; [exact Ex|]. split; [exact Hr|]. split; [exact Hv|]. split; [exact Rsp|exact Hl].
Defined.

(** ** The way into a handler and back *)

Lemma ret_ok tr sr c h :
  current tr c = Some (IRet, 1) -> 0 <= co_reg c rsp < 2 ^ 64 - 8 -> word_at tr (co_reg c rsp) = Some h ->
  step tr sr c = Some (co_set (co_set c rsp (co_reg c rsp + 8)) rip (load64 (co_mem c) h)).
Proof.
  intros Ec Hsp Hw. rewrite (step_eq tr sr c _ _ Ec). unfold exec. by rewrite (pop_word_ok tr c h) by (lia || done).
Qed.

(** The last instruction of a handler, then the cleanup code of
    [share/signal.S]. *)
Lemma handler_returns tr sr c sp h hr cleanup x :
  current tr c = Some (IRet, 1) -> co_reg c rsp = sp - 16 -> 16 <= sp < 2 ^ 64 - 8 -> 0 <= cleanup < 2 ^ 64 - 8 ->
  stack_room tr sp h 2 -> word_at tr sp = Some hr -> code_at tr (co_mem c) cleanup signal_bin ->
  load64 (co_mem c) (h - 16) = cleanup -> load64 (co_mem c) (h - 8) = x ->
  exists c', steps tr sr 3 c = Some c' /\ co_reg c' rip = load64 (co_mem c) hr /\ co_reg c' rax = x /\
    co_reg c' rsp = sp + 8 /\ changes [rip; rsp; rax] c c' /\ co_mem c' = co_mem c.
Proof.
  intros Ec Rsp Hsp Hcl [Hr Hw] Hwr Hcode L1 L2.
  pose proof (ret_ok tr sr c (h - 16) Ec ltac:(lia)) as E1. rewrite Rsp, L1 in E1.
  specialize (E1 (Hw 2 ltac:(lia))). set (c1 := co_set _ rip _) in E1.
  assert (current tr c1 = Some (IPopRax, 1)) as Ec1.
  { apply (current_code tr c1 cleanup signal_bin 0 _ _ Hcode); [|vm_compute; reflexivity].
    change (cleanup = u64 (cleanup + 0)). rewrite Z.add_0_r, u64_small; lia. }
  pose proof (step_eq tr sr c1 _ _ Ec1) as E2. unfold exec in E2.
  assert (co_reg c1 rsp = sp - 8) as Rsp1 by (change (sp - 16 + 8 = sp - 8); lia).
  rewrite (pop_word_ok tr c1 (h - 8)) in E2 by (lia || (rewrite Rsp1; apply (Hw 1); lia)).
  change (co_reg c1 rip) with cleanup in E2. change (co_mem c1) with (co_mem c) in E2.
  rewrite L2, Rsp1, u64_small in E2 by lia. cbn [mbind option_bind] in E2. set (c2 := co_set _ rip _) in E2.
  assert (current tr c2 = Some (IRet, 1)) as Ec2.
  { apply (current_code tr c2 cleanup signal_bin 1 _ _ Hcode); [|vm_compute; reflexivity].
    change (cleanup + 1 = u64 (cleanup + 1)). rewrite u64_small; lia. }
  assert (co_reg c2 rsp = sp) as Rsp2 by (change (sp - 8 + 8 = sp); lia).
  pose proof (ret_ok tr sr c2 hr Ec2 ltac:(lia)) as E3. rewrite Rsp2 in E3. specialize (E3 Hwr).
  rewrite (steps_S tr sr 2 c c1 E1), (steps_S tr sr 1 c1 c2 E2), (steps_S tr sr 0 c2 _ E3).
  eexists. split; [reflexivity|]. do 3 (split; [done|]). split; [|done].
  repeat (eapply changes_trans; [|apply changes_set; reg_in]). apply changes_refl.
Qed.

(** [sysretq] to a [ret] with an address on top of the stack. *)
Lemma sysret_then_ret tr sr c a back sp h :
  star sr = star_value -> 0 <= a < 2 ^ 64 -> 0 <= back < 2 ^ 64 ->
  code_at tr (co_mem c) a (encode ISysret) -> code_at tr (co_mem c) back (encode IRet) ->
  co_reg c rip = a -> co_reg c rcx = back -> co_reg c rsp = sp - 24 -> stack_room tr sp h 3 ->
  exists c2, steps tr sr 2 c = Some c2 /\ co_reg c2 rip = load64 (co_mem c) (h - 24) /\ co_reg c2 rsp = sp - 16 /\
    (forall r, r ∉ [rip; rsp; rflags] -> co_reg c2 r = co_reg c r) /\ co_cs c2 = 0x13 /\ co_ss c2 = 0xb /\
    co_mem c2 = co_mem c.
Proof.
  intros Hst Ha Hb Hsys Hret Rip Rcx Rsp [Hr Hw].
  assert (current tr c = Some (ISysret, 3)) as Ec.
  { apply (current_code tr c a _ 0 _ _ Hsys); [by rewrite Z.add_0_r, u64_small|done]. }
  pose proof (step_eq tr sr c _ _ Ec) as E1. unfold exec in E1. rewrite Hst, Rcx in E1. set (c1 := co_selectors _ _ _) in E1.
  assert (current tr c1 = Some (IRet, 1)) as Ec1.
  { apply (current_code tr c1 back _ 0 _ _ Hret); [|done]. by rewrite Z.add_0_r, u64_small. }
  pose proof (ret_ok tr sr c1 (h - 24) Ec1) as E2. change (co_reg c1 rsp) with (co_reg c rsp) in E2. rewrite Rsp in E2.
  specialize (E2 ltac:(lia) (Hw 3 ltac:(lia))). rewrite (steps_S tr sr 1 c c1 E1), (steps_S tr sr 0 c1 _ E2).
  eexists. split; [reflexivity|]. split; [done|]. split; [change (sp - 24 + 8 = sp - 16); lia|]. split; [|done].
  intros r Hn. rewrite !co_reg_set. unfold c1, co_selectors, co_reg. cbn [co_cpu co_set]. rewrite !vreg_set.
  by repeat (case_decide; [subst; exfalso; apply Hn; reg_in|]).
Qed.

(** C28. A signal during a system call.  At the end of the hypercall the machine
    leaves the handler, the address of the cleanup code and the
    saved [rax] on the stack of the guest and goes on behind the [syscall]
    instruction: a guest that returns there, as the wrappers of the C library
    do, enters the handler, with the number of the signal in [rdi] and every other register
    as the system call left it.  When the handler returns, with its stack balanced and the two words
    above it intact, the cleanup code restores [rax], which is
    the result of the system call, and ends in the caller of the wrapper, as if the wrapper
    had returned. *)
Theorem signal_roundtrip {os T} `{HostOSLaws os} `{FileOS os} `{KvmOS os} `{MonitorOS os} `{TranslationCacheLaws T}
    sr (s : vm os T) v c0 N sig act cleanup h hr cs_ ss_ :
  vm_ok s v c0 N -> regs_wide v -> signal_waits s sig act cleanup ->
  star sr = star_value -> 0 <= lstar sr < 2 ^ 64 - 8 -> vreg v rip = lstar sr + 2 -> 0 <= cleanup < 2 ^ 64 - 8 ->
  let sp := vreg v rsp in let tr := translate c0 s in let m := p_mem (vm_paging s) in
  sp < 2 ^ 64 - 8 -> vm_room s v c0 sp h 3 -> word_at tr sp = Some hr -> h <= hr ->
  code_at tr m (lstar sr + 5) (encode ISysret) -> code_avoids tr (lstar sr + 5) (encode ISysret) (h - 24) 24 ->
  code_at tr m (vreg v rcx) (encode IRet) -> code_avoids tr (vreg v rcx) (encode IRet) (h - 24) 24 ->
  exists s1 s2 v2,
    finish_hypercall hypercall_null ELKVM_HYPERCALL_SYSCALL s = Ok (0, s1) /\
    guest_steps c0 sr 2 (mkComputer s1 cs_ ss_) = Some (mkComputer s2 0x13 0xb) /\ cpus s2 !! 0%nat = Some v2 /\
    vreg v2 rip = u64 act /\ vreg v2 rdi = sig /\ vreg v2 rsp = sp - 16 /\
    (forall r, r ∉ [rip; rdi; rsp; rflags] -> vreg v2 r = vreg v r) /\
    (forall w, translate c0 s2 w = tr w) /\ p_mem (vm_paging s2) = push_image m h [vreg v rax; cleanup; act] /\
    forall c, current tr c = Some (IRet, 1) -> co_reg c rsp = sp - 16 ->
      (forall x, h - 16 <= x < h -> co_mem c x = p_mem (vm_paging s2) x) -> code_at tr (co_mem c) cleanup signal_bin ->
      exists c', steps tr sr 3 c = Some c' /\ co_reg c' rip = load64 (co_mem c) hr /\
        co_reg c' rax = vreg v rax /\ co_reg c' rsp = sp + 8 /\ changes [rip; rsp; rax] c c' /\ co_mem c' = co_mem c.
Proof.
  intros Hok Hwide Hsig Hst Hl Hip Hcl sp tr m Hsp Hroom Hwr Hhr Hsys Hsysa Hret Hreta.
  destruct (finish_hypercall_signal s v c0 N ELKVM_HYPERCALL_SYSCALL sig act cleanup h Hok Hsig Hroom)
    as (s1 & v1 & Ef & Ok1 & Et1 & Em1 & Rip1 & Rsp1 & Rdi1 & Rr1).
  rewrite Hip, <- Z.add_assoc in Rip1. change (2 + 3) with 5 in Rip1. rewrite u64_small in Rip1 by lia.
  assert (forall e code, code_at tr m e code -> code_avoids tr e code (h - 24) 24 ->
            code_at tr (p_mem (vm_paging s1)) e code) as Hstay.
  { intros e code Hc Ha. eapply code_at_agree; [exact Hc|exact Ha|]. intros x Hx. rewrite Em1.
    apply push_image_other. cbn [length]. lia. }
  pose proof (vm_room_stack _ _ _ _ _ _ Hroom) as Hst3. fold tr sp in Hst3.
  destruct (sysret_then_ret tr sr (mkCore v1 cs_ ss_ (p_mem (vm_paging s1))) (lstar sr + 5) (vreg v rcx) sp h Hst)
    as (c2 & E2 & Rip2 & Rsp2 & Rr2 & Ecs & Ess & Em2);
    [lia|apply Hwide|by apply Hstay|by apply Hstay|exact Rip1|apply Rr1; reg_out|exact Rsp1|done|].
  assert (load64 (p_mem (vm_paging s1)) (h - 24) = u64 act) as Lact.
  { rewrite Em1. apply (push_image_load m h [vreg v rax; cleanup; act] 2 act eq_refl). }
  pose proof (guest_steps_ext c0 sr 2 (mkComputer s1 cs_ ss_) v1 c2 tr (vo_cpu _ _ _ _ Ok1) Et1 E2) as Eg.
  set (p2 := with_core _ c2) in Eg.
  assert (vm_paging (pc_vm p2) = vm_paging s1) as Ep2 by (by apply (with_core_paging (mkComputer s1 cs_ ss_) c2)).
  exists s1, (pc_vm p2), (co_cpu c2). split_and!; [exact Ef| |by apply (vm_write_lookup s1 v1), Ok1| | |exact Rsp2| | | |].
  - rewrite Eg. unfold p2, with_core. by rewrite Ecs, Ess.
  - etransitivity; [exact Rip2|exact Lact].
  - etransitivity; [apply (Rr2 rdi); reg_out|exact Rdi1].
  - intros r Hr. etransitivity; [apply (Rr2 r); reg_out|]. apply (Rr1 r). reg_out.
  - intros w. unfold translate. rewrite Ep2. apply Et1.
  - by rewrite Ep2.
  - intros c Ec Rsp Hm Hcode. rewrite Ep2, Em1 in Hm.
    assert (forall i x, (i < 2)%nat -> [vreg v rax; cleanup; act] !! i = Some x ->
              load64 (co_mem c) (h - 8 * (Z.of_nat i + 1)) = u64 x) as Hw.
    { intros i x Hi Hx. rewrite <- (push_image_load m h _ i x Hx). apply load64_ext. intros y Hy. apply Hm. lia. }
    destruct Hroom as [Hr _ _].
    apply (handler_returns tr sr c sp h hr cleanup (vreg v rax)); [done|done|lia|done| |done|done| |].
    + by apply (stack_room_le tr sp h 3 2); [|lia].
    + etransitivity; [apply (Hw 1%nat cleanup); [lia|done]|]. apply u64_small. lia.
    + etransitivity; [apply (Hw 0%nat (vreg v rax)); [lia|done]|]. apply u64_small, Hwide.
Qed.

(** A wrapper whose [ret] is at 0x400402, a handler that is a single [ret] at 0x400e00. *)
Definition wrapper_code : list (Z * list Z) :=
  [(0x402, encode IRet); (0x805, encode ISysret); (0xc00, signal_bin); (0xe00, encode IRet); (0x100, [0x77; 0x07])].
Definition wrapper_regs : list (Reg_t * Z) :=
  [(rip, 0x400802); (rcx, 0x400402); (rsp, 0x400100); (rax, 5)].

Lemma signal_roundtrip_witness :
  let s := with_signal (guest_vm wrapper_code wrapper_regs) [0; 0x0e; 0x40] in
  let c := mkCore (demo_vcpu [(rip, 0x400e00); (rsp, 0x4000f0); (rax, 99)]) 0x13 0xb
             (push_image (guest_mem wrapper_code) 0x11000100 [5; 0x400c00; 0x400e00]) in
  exists s1 s2 v2 c', finish_hypercall hypercall_null ELKVM_HYPERCALL_SYSCALL s = Ok (0, s1) /\
    guest_steps demo_chunk demo_sysregs 2 (mkComputer s1 0 0) = Some (mkComputer s2 0x13 0xb) /\
    cpus s2 !! 0%nat = Some v2 /\ vreg v2 rip = 0x400e00 /\ vreg v2 rdi = 10 /\
    steps (translate demo_chunk s) demo_sysregs 3 c = Some c' /\
    co_reg c' rip = 0x777 /\ co_reg c' rax = 5 /\ co_reg c' rsp = 0x400108.
Proof.
  intros s c. set (v := demo_vcpu wrapper_regs).
  assert (exists N, vm_ok (guest_vm wrapper_code wrapper_regs) v demo_chunk N) as [N [Hv [Ht Hc Hco]]]
    by (apply guest_vm_ok; repeat constructor; by vm_compute).
  assert (vm_ok s v demo_chunk N) as Hok by (constructor; [reflexivity|by constructor]).
  destruct (signal_roundtrip demo_sysregs s v demo_chunk N 10 0x400e00 0x400c00 0x11000100 0x11000100 0 0 Hok)
    as (s1 & s2 & v2 & Ef & Eg & Hv2 & Rip & Rdi & _ & _ & _ & Em & Hret).
  - intros r. destruct r; vm_compute; (split; [discriminate|reflexivity]).
  - exact (with_signal_waits (guest_vm wrapper_code wrapper_regs) [0; 0x0e; 0x40]).
  - reflexivity.
  - by vm_compute.
  - reflexivity.
  - by vm_compute.
  - by vm_compute.
  - constructor; [by vm_compute|reflexivity|]. intros k Hk.
    assert (k = 1 \/ k = 2 \/ k = 3) as Hk3 by lia.
    repeat destruct Hk3 as [->|Hk3]; try subst k;
      (constructor; [split; [by vm_compute|vm_compute; discriminate]|vm_compute; reflexivity|
                     right; vm_compute; discriminate]).
  - vm_compute. reflexivity.
  - lia.
  - apply code_at_check. vm_compute. reflexivity.
  - apply code_avoids_check. vm_compute. reflexivity.
  - apply code_at_check. vm_compute. reflexivity.
  - apply code_avoids_check. vm_compute. reflexivity.
  - destruct (Hret c) as (c' & E3 & Rip3 & Ra3 & Rsp3 & _ & _).
    + vm_compute. reflexivity.
    + reflexivity.
    + intros x _. by rewrite Em.
    + apply code_at_check. vm_compute. reflexivity.
    + exists s1, s2, v2, c'. split; [exact Ef|]. split; [exact Eg|]. split; [exact Hv2|]. split; [exact Rip|].
      split; [exact Rdi|]. split; [exact E3|]. split; [|split; [exact Ra3|exact Rsp3]].
      rewrite Rip3. vm_compute. reflexivity.
Defined.
