(* ===== verification/LoggingTheorems.v ===== *)
(** * Logging and disassembly: theorems *)

From stdpp Require Import strings.
From S2P Require Import Prelude Text Memory PageMath HostOS Tlb Pager PagerTree PagerWalk PagerSpec PagerTlb PagerTheorems Region RegionManager RegionSpec RegionTheorems Registers Mappings Heap HeapSpec HeapTheorems Vcpu VcpuTheorems Print Descriptors Vm Handlers Syscall SyscallStubs Hypercall VmSpec SyscallTheorems HypercallTheorems Logging.
Local Open Scope Z_scope.

Section CodeLines.
Context {U : Type} `{DisassemblerLaws U}.

(** What a disassembler finds in its input: the length and the text of each
    instruction up to the end of the input. *)
Inductive decodes : U -> list (Z * string) -> Prop :=
  | decodes_end u : (ud_disassemble u).1 = 0 -> decodes u []
  | decodes_insn u k u' l :
      ud_disassemble u = (k, u') -> k <> 0 -> decodes u' l -> decodes u ((k, ud_insn_asm u') :: l).

Definition code_text (l : list (Z * string)) : list item := concat (map (fun '(_, t) => [Str " "; Str t; Endl]) l).

Definition code_size (l : list (Z * string)) : Z := fold_right (fun x n => x.1 + n) 0 l.

(** The instructions of an input are positive in length and fit into it. *)
Lemma decodes_size u l : decodes u l -> Forall (fun x => 0 < x.1) l /\ code_size l <= ud_left u.
Proof.
  induction 1 as [u E|u k u' l E Hk Hd [IH1 IH2]]; cbn [code_size fold_right fst].
  - split; [constructor|apply ud_left_range].
  - pose proof (ud_left_step u) as Hs. rewrite E in Hs. cbn [fst snd] in Hs. fold (code_size l).
    split; [constructor; [cbn; lia|done]|lia].
Qed.

(** There always is an end, and the loop of [print_code] reaches it. *)
Lemma code_rounds n (u : U) acc :
  (Z.to_nat (ud_left u) <= n)%nat ->
  exists l u1 u2, decodes u l /\ (length l <= n)%nat /\
    rounds code_step (length l) acc u (acc ++ code_text l) u1 /\
    code_step (acc ++ code_text l) u1 = Ok (inr (acc ++ code_text l), u2).
Proof.
  revert u acc. induction n as [|n IH]; intros u acc Hn; pose proof (ud_left_step u) as Hs; pose proof (ud_left_range u);
    pose proof (ud_left_range (ud_disassemble u).2); destruct (ud_disassemble u) as [k u'] eqn:E; cbn [fst snd] in *;
    (assert (code_step acc u = if ctrue k then Ok (inl (acc ++ [Str " "; Str (ud_insn_asm u'); Endl]), u') else Ok (inr acc, u')) as Eb
       by (unfold code_step, disassemble, bind, get, put, ret; rewrite E; by destruct (ctrue k)));
    unfold ctrue in Eb; destruct (Z.eqb_spec k 0) as [->|Hk]; cbn [negb] in Eb; try lia.
  1, 2: exists [], u, u'; unfold code_text; cbn [length map concat]; rewrite app_nil_r;
    split_and!; [apply decodes_end; by rewrite E|lia|constructor|done].
  destruct (IH u' (acc ++ [Str " "; Str (ud_insn_asm u'); Endl]) ltac:(lia)) as (l & u1 & u2 & Hd & Hl & Hr & He).
  rewrite <- app_assoc in Hr, He. exists ((k, ud_insn_asm u') :: l), u1, u2. cbn [length].
  split_and!; [by econstructor|lia|by econstructor|done].
Qed.

Lemma code_lines_end m p :
  exists l (u : U), decodes (UDis_new m p) l /\ code_lines (UDis_new m p) = Ok (code_text l, u).
Proof.
  destruct (code_rounds disassembly_size (UDis_new m p) []) as (l & u1 & u2 & Hd & Hl & Hr & He).
  { unfold UDis_new. rewrite ud_left_input. lia. }
  exists l, u2. split; [done|]. apply while_rounds. exists (length l), (code_text l), u1.
  split; [|done]. unfold disassembly_size in Hl. lia.
Qed.
End CodeLines.

(** C7. Printing the code at an address that is mapped ends and shows the code.  For every
    disassembler that takes from its input the bytes of each instruction it finds, [print_code]
    hands it the 40 bytes at the host address in 64-bit mode with Intel syntax and prints the
    heading with the guest address and then, one per line and in order, the text of each
    instruction up to the first answer 0; the instructions have a positive length, together
    at most 40 bytes; the machine is left as it was but for its lookaside buffer. *)
Theorem print_code_ends {os T U} `{HostOSLaws os} `{KvmOS os} `{TranslationCacheLaws T} `{DisassemblerLaws U}
    (s : vm os T) v c0 N addr hp :
  vm_ok s v c0 N -> guest_ptr c0 s addr hp -> 0 < hp ->
  let input := ud_set_input_buffer (ud_set_syntax (ud_set_mode (ud_init : U) 64) UD_SYN_INTEL) (p_mem (vm_paging s)) hp 40 in
  exists t l, decodes input l /\ Forall (fun x => 0 < x.1) l /\ code_size l <= 40 /\
    print_code_text (U := U) true addr s =
      Ok ([Chr newline; Str " Code (from 0x"; Hex; Num addr; Str "):"; Chr newline;
           Str " ------------------------------"; Chr newline] ++
          concat (map (fun '(_, t) => [Str " "; Str t; Endl]) l) ++ [Endl], with_tlb s t) /\
    print_code true addr s = Ok (tt, with_tlb s t).
Proof.
  intros Hok Hg Hp input. destruct (vm_host_p s v c0 N addr hp Hok Hg) as (t & E & _ & _).
  destruct (code_lines_end (U := U) (p_mem (vm_paging s)) hp) as (l & u & Hd & El).
  exists t, l. destruct (decodes_size _ _ Hd) as [Hpos Hsz]. unfold UDis_new in Hsz. rewrite ud_left_input in Hsz.
  split; [exact Hd|]. split; [done|]. split; [exact Hsz|]. unfold print_code_text, print_code.
  rewrite !(bind_ok _ _ _ _ _ E). replace (hp =? 0) with false by (symmetry; lia). split; [|done].
  erewrite bind_ok; [|reflexivity]. erewrite bind_ok; [|reflexivity].
  change (p_mem (rm_pager (hm_rm (v_hm (with_tlb s t))))) with (p_mem (vm_paging s)). by rewrite El.
Qed.

(** A disassembler that prints every byte as data. *)
Record byte_dis := mkDis { bd_in : list Z; bd_last : Z }.
#[export] Instance byte_Disassembler : Disassembler byte_dis := {|
  ud_init := mkDis [] 0;
  ud_set_mode u _ := u;
  ud_set_syntax u _ := u;
  ud_set_input_buffer u m p n := mkDis (load_bytes m p n) 0;
  ud_disassemble u := match bd_in u with [] => (0, u) | b :: l => (1, mkDis l b) end;
  ud_insn_asm u := if bd_last u =? 0xC3 then "ret" else "db";
|}.
#[export] Program Instance byte_DisassemblerLaws : DisassemblerLaws byte_dis := {| ud_left u := Z.of_nat (length (bd_in u)) |}.
Next Obligation. intros u. apply Nat2Z.is_nonneg. Qed.
Next Obligation. intros u m p n. cbn. unfold load_bytes. by rewrite length_map, length_seq. Qed.
Next Obligation. intros [[|b l] x]; cbn [ud_disassemble byte_Disassembler bd_in fst snd length]; lia. Qed.

Lemma print_code_ends_witness :
  exists t l, code_size l <= 40 /\
    decodes (mkDis (replicate 40 0) 0) l /\
    print_code_text (U := byte_dis) true 0x400000 (demo_vm []) =
      Ok ([Chr newline; Str " Code (from 0x"; Hex; Num 0x400000; Str "):"; Chr newline;
           Str " ------------------------------"; Chr newline] ++
          concat (map (fun '(_, t) => [Str " "; Str t; Endl]) l) ++ [Endl], with_tlb (demo_vm []) t).
Proof.
  destruct (demo_vm_ok []) as [N Hok].
  destruct (print_code_ends (U := byte_dis) (demo_vm []) (demo_vcpu []) demo_chunk N 0x400000 0x11000000 Hok)
    as (t & l & Hd & _ & Hl & E & _); [split_and!; [by vm_compute|by vm_compute|vm_compute; reflexivity]|lia|].
  exists t, l. split; [exact Hl|]. split; [|exact E].
  replace (mkDis (replicate 40 0) 0) with
    (ud_set_input_buffer (ud_set_syntax (ud_set_mode (ud_init : byte_dis) 64) UD_SYN_INTEL)
       (p_mem (vm_paging (demo_vm []))) 0x11000000 40) by (vm_compute; reflexivity).
  exact Hd.
Defined.

(** The log of the arguments of [mmap] never names [PROT_NONE], whose bit is the
    empty set. *)
Theorem prot_none_not_logged x names : named x ((PROT_NONE, "PROT_NONE ") :: names) = Str "" :: named x names.
Proof. unfold named, PROT_NONE. cbn [map]. by rewrite Z.land_0_r. Qed.

(** *** Time stamps *)

Fixpoint tsc_samples (func : string) (l : list (Z * Z)) : M tsc (list (option (list item))) :=
  match l with
  | [] => ret []
  | (t1, t2) :: l => let! r := TSC_END func t1 t2 in let! rs := tsc_samples func l in ret (r :: rs)
  end.

Definition elapsed (t : Z * Z) : Z := u64 (t.2 - t.1).

Definition average_record (func : string) (counter : Z) (l : list Z) : list item :=
  let count := Z.of_nat (length l) in
  INFO func ++ [Str "["] ++ Int counter ++ [Str "] "] ++ Int count ++
  [Str " timestamps: "; Dec; Num (fold_left (fun a x => u64 (a + x)) l 0 / count); Str " cycles per call."].

Lemma tsc_from func l pre rest k :
  length l = length rest -> l <> [] -> Z.of_nat (length (pre ++ rest)) < 2 ^ 31 -> 0 <= k < 2 ^ 31 - 1 ->
  tsc_samples func l (mkTsc (pre ++ rest) (Z.of_nat (length pre)) k) =
    Ok (replicate (length l - 1) None ++ [Some (average_record func (k + 1) (pre ++ map elapsed l))],
        mkTsc (pre ++ map elapsed l) 0 (k + 1)).
Proof.
  revert pre rest. induction l as [|[t1 t2] l IH]; intros pre rest Hl Hne Hn Hk; [done|].
  destruct rest as [|x rest]; [done|]. cbn [tsc_samples]. rewrite length_app in Hn. cbn [length] in Hl, Hn.
  unfold bind at 1, TSC_END at 1. unfold bind at 1, get. cbv beta iota. cbn [Logging._tsc _tsc_idx _tsc_counter].
  unfold bind at 1. rewrite at_z_lookup, Nat2Z.id, list_lookup_middle by (done || lia). cbv beta iota.
  rewrite insert_app_r_alt, Nat.sub_diag by lia. cbn [insert list_insert].
  rewrite s32_small, length_app by lia. cbn [length].
  destruct l as [|t l]; [destruct rest; [|done]|].
  - change (S (length [])) with 1%nat.
    destruct (Z.eqb_spec (Z.of_nat (length pre) + 1) (Z.of_nat (length pre + 1))) as [_|]; [|lia].
    rewrite s32_small by lia. unfold bind, put, ret. cbn [tsc_samples map]. unfold average_record.
    by rewrite length_app.
  - destruct rest as [|y rest]; [done|]. cbn [length] in *.
    destruct (Z.eqb_spec (Z.of_nat (length pre) + 1) (Z.of_nat (length pre + S (S (length rest))))) as [|_]; [lia|].
    specialize (IH (pre ++ [u64 (t2 - t1)]) (y :: rest)). rewrite <- !app_assoc, !length_app in IH. cbn [app length] in IH.
    replace (Z.of_nat (length pre + 1)) with (Z.of_nat (length pre) + 1) in IH by lia.
    unfold bind, put, ret at 1. cbv beta iota. unfold bind in IH. rewrite IH by (done || lia). cbn [map]. unfold ret.
    cbn [Nat.sub replicate app]. by rewrite Nat.sub_0_r.
Qed.

(** The samples of one round.  From an empty array on, as many measurements as
    the array has places give no record but the last, which shows the average
    of all of them, and the array is free again. *)
Theorem tsc_average func l k :
  l <> [] -> Z.of_nat (length l) < 2 ^ 31 -> 0 <= k < 2 ^ 31 - 1 -> forall old, length old = length l ->
  tsc_samples func l (mkTsc old 0 k) =
    Ok (replicate (length l - 1) None ++ [Some (average_record func (k + 1) (map elapsed l))],
        mkTsc (map elapsed l) 0 (k + 1)).
Proof. intros Hne Hn Hk old Ho. apply (tsc_from func l [] old); [done|done|cbn; lia|done]. Qed.
