(* ===== verification/FaultTheorems.v ===== *)
(** * Page faults through the guest's code: theorems

    A page fault grows the stack of the guest and is retried: the way from the
    faulting instruction through the stub of vector 14, the hypercall and the
    growth of the stack back to the same instruction. *)

From S2P Require Import Prelude Text Memory PageMath HostOS Tlb Pager PagerTree PagerWalk PagerSpec PagerTlb PagerTheorems Region RegionManager RegionSpec RegionTheorems Registers Mappings Heap HeapSpec HeapTheorems Vcpu VcpuTheorems Descriptors DescriptorTheorems Vm Handlers Syscall SyscallStubs Hypercall VmSpec SyscallTheorems HypercallTheorems RunTheorems LifecycleTheorems AttachTheorems GuestCode GuestSpec GuestTheorems TrapTheorems.
From stdpp Require Import strings relations.
Local Open Scope Z_scope.

(** ** Translations that grow *)

(** Every address that is mapped stays where it is. *)
Definition extends (tr tr' : Z -> option Z) : Prop := forall w h, tr w = Some h -> tr' w = Some h.

Lemma code_at_mono tr tr' m e code : extends tr tr' -> code_at tr m e code -> code_at tr' m e code.
Proof. intros Hx Hc i b Hi. destruct (Hc i b Hi) as (h & Et & El). exists h. split; [by apply Hx|done]. Qed.

Lemma stack_room_mono tr tr' sp h n : extends tr tr' -> stack_room tr sp h n -> stack_room tr' sp h n.
Proof.
  intros Hx [Hr Hw]. constructor; [done|]. intros k Hk. specialize (Hw k Hk). unfold word_at in *.
  destruct (_ <=? 4088); [by apply Hx|done].
Qed.

Lemma find_app_Some {A} (f : A -> bool) l l' x : find f l = Some x -> find f (l ++ l') = Some x.
Proof. induction l as [|y l IH]; cbn; [done|]. by destruct (f y). Qed.

Section Growth.
Context {os T : Type} `{HostOSLaws os} `{FileOS os} `{KvmOS os} `{MonitorOS os} `{TranslationCacheLaws T}.
Implicit Types (m : rm os T) (s : vm os T).

(** The growth of the stack moves no address that is mapped. *)
Lemma expanded_host m c0 N st m' st' :
  ELKVM_STACK_GROW < Stack.base st <= 2 ^ 48 -> Stack.base st mod 4096 = 0 ->
  range_free c0 (rm_pager m) (Stack.base st - ELKVM_STACK_GROW) 512 ->
  expanded m c0 N st m' st' -> extends (host_of c0 (rm_pager m)) (host_of c0 (rm_pager m')).
Proof.
  intros Hb Hb4 Hfree Hx w h Hw. unfold host_of in *. destruct (frame_of c0 (rm_pager m) w) as [f|] eqn:Ef; [|done].
  unfold ELKVM_STACK_GROW in *.
  rewrite (free_frames m c0 (Stack.base st - 0x200000) 512 (rm_pager m') w f); [|lia|lia|exact Hfree| |exact Ef].
  - destruct (ex_chunks _ _ _ _ _ _ Hx) as [l ->].
    destruct (find _ (chunks (p_pager (rm_pager m)))) as [c|] eqn:E; [|done]. by rewrite (find_app_Some _ _ l _ E).
  - intros v Hv. apply (ex_others _ _ _ _ _ _ Hx). by rewrite (ex_base _ _ _ _ _ _ Hx).
Qed.

(** The kernel reports the special registers. *)
Definition sregs_of (v : VCPU) (r : kvm_sregs) : VCPU :=
  mkVcpu (is_singlestepping v) (with_sregs (_kvm_vcpu v) r) (stack v).

Lemma get_sregs_eq (c : cpu os T) r :
  (forall o fd r0, io_get_sregs o fd r0 = ((0, 0, r), o)) ->
  get_sregs c = Ok (0, mkCpu (sregs_of (c_vcpu c) r) (c_rm c)).
Proof.
  intros Hio. destruct c as [v [a f st [me tl o p]]].
  unfold get_sregs, bind, kvm, gets, on_cpu_rm, rm_io, on_pager, zoom, get, put, set_kvm, set_vcpu, modify, ret. cbn.
  rewrite Hio. done.
Qed.

Lemma expand_eq (c : cpu os T) st' m' :
  expand_stack (stack (c_vcpu c)) (c_rm c) = Ok ((0, st'), m') ->
  expand c = Ok (0, mkCpu (mkVcpu (is_singlestepping (c_vcpu c)) (_kvm_vcpu (c_vcpu c)) st') m').
Proof.
  intros E. unfold expand, the_stack, bind, gets, on_cpu_rm, zoom, set_stack, set_vcpu, modify, ret. by rewrite E.
Qed.
End Growth.

Section Fault.
Context {os T : Type} `{HostOSLaws os} `{FileOS os} `{KvmOS os} `{MonitorOS os} `{TranslationCacheLaws T}.
Variable hs : elkvm_handlers os (vm os T).
Variables (udis : bool) (c0 : Chunk).
Implicit Types s : vm os T.

(** The stack of the guest can grow: memory is sound, the next 2 MB below the
    stack are unmapped, and the host gives another chunk. *)
Record grows s (v : VCPU) (N : Z) : Prop := mkGrows {
  gr_mem : mem_inv (hm_rm (v_hm s)) c0 N;
  gr_total : total_memsz (p_pager (vm_paging s)) + 2 ^ 48 <= 2 ^ 51;
  gr_tables : N + 12 <= 4096;
  gr_aligned : Stack.base (stack v) mod 4096 = 0;
  gr_base : ELKVM_STACK_GROW < Stack.base (stack v) <= 2 ^ 48;
  gr_free : range_free c0 (vm_paging s) (Stack.base (stack v) - ELKVM_STACK_GROW) 512;
  gr_host m t : exists m1, add_chunk ELKVM_STACK_GROW "ELKVM stack" (rm_mem_tlb (hm_rm (v_hm s)) m t) = Ok (0, m1);
}.

(** Only the content of memory outside the tables and the lookaside buffer differ. *)
Lemma mem_inv_write s N v m t :
  mem_inv (hm_rm (v_hm s)) c0 N ->
  (forall x, host_pml4_p (p_pager (vm_paging s)) <= x < host_pml4_p (p_pager (vm_paging s)) + ELKVM_SYSTEM_MEMSIZE ->
     m x = p_mem (vm_paging s) x) ->
  mem_inv (hm_rm (v_hm (vm_write s v m t))) c0 N.
Proof.
  intros Hm Hx. set (p := rm_pager (rm_mem_tlb (hm_rm (v_hm s)) m t)).
  assert (same_tables (vm_paging s) p) as Hst by (split; [done|exact Hx]).
  exact (mem_inv_same (hm_rm (v_hm s)) c0 N p Hm Hst eq_refl).
Qed.

Lemma grows_write s v N v' m t :
  grows s v N -> stack v' = stack v ->
  (forall x, host_pml4_p (p_pager (vm_paging s)) <= x < host_pml4_p (p_pager (vm_paging s)) + ELKVM_SYSTEM_MEMSIZE ->
     m x = p_mem (vm_paging s) x) ->
  exists m' st', expand_stack (stack v') (rm_mem_tlb (hm_rm (v_hm s)) m t) = Ok ((0, st'), m') /\
    expanded (rm_mem_tlb (hm_rm (v_hm s)) m t) c0 N (stack v) m' st' /\
    extends (translate c0 s) (host_of c0 (rm_pager m')).
Proof.
  intros [Hm Ht HN Ha Hb Hf Hh] -> Hmem. set (m0 := rm_mem_tlb (hm_rm (v_hm s)) m t).
  assert (same_tables (vm_paging s) (rm_pager m0)) as Hst by (split; [done|exact Hmem]).
  destruct (mi_tables _ _ _ Hm) as [own Hi].
  assert (mem_inv m0 c0 N) as Hm0 by exact (mem_inv_write s N v m t Hm Hmem).
  assert (range_free c0 (rm_pager m0) (Stack.base (stack v) - ELKVM_STACK_GROW) 512) as Hf0.
  { intros j Hj. rewrite (same_tables_trans (vm_paging s) (rm_pager m0) c0 N own _ Hst Hi). by apply Hf. }
  pose proof (expand_stack_lemma m0 c0 N (stack v) Hm0 Ht HN Ha Hb Hf0) as Hw. unfold wp in Hw.
  destruct (Hh m t) as [m1 Hc]. fold m0 in Hc.
  destruct (expand_stack (stack v) m0) as [[[e st'] m']|f]; [|by destruct (Hw m1)].
  destruct Hw as [Ee Hx]. cbn in Ee, Hx. subst e. exists m', st'. split; [done|]. split; [done|].
  intros w x Hwx. apply (expanded_host m0 c0 N (stack v) m' st' Hb Ha Hf0 Hx).
  rewrite <- Hwx. by eapply same_tables_host.
Qed.

(** The hypercall of a page fault: type, vector and error code are popped, the
    stack grows. *)
Lemma fault_flow s v N hp sregs :
  vm_ok s v c0 N -> let sp := vreg v rsp in let m := p_mem (vm_paging s) in 0 <= sp < 2 ^ 64 - 32 ->
  stack_word (cpu0 s v) c0 sp hp -> stack_word (cpu0 s v) c0 (sp + 8) (hp + 8) ->
  stack_word (cpu0 s v) c0 (sp + 16) (hp + 16) ->
  load64 m hp = ELKVM_HYPERCALL_INTERRUPT -> load64 m (hp + 8) = Interrupt.page_fault -> _debug s = false ->
  (forall o fd r, io_get_sregs o fd r = ((0, 0, sregs), o)) -> 0x1000 < k_cr2 sregs ->
  exists t, let v1 := sregs_of (set_vreg v rsp (sp + 24)) sregs in
    forall st' m', expand_stack (stack v) (rm_mem_tlb (hm_rm (v_hm s)) m t) = Ok ((0, st'), m') ->
      handle_hypercall hs hypercall_null udis s =
        finish_hypercall hypercall_null ELKVM_HYPERCALL_INTERRUPT
          (put_cpu0 s (mkCpu (mkVcpu (is_singlestepping v1) (_kvm_vcpu v1) st') m')).
Proof.
  intros Hok sp m Hsp W0 W1 W2 L0 L1 Hd Hio Hcr2.
  destruct (interrupt_flow hs udis c0 s v N hp Hok Hsp W0 W1 W2 L0 Hd) as (t3 & Ok3 & Eh3 & Eh).
  fold sp m in Ok3, Eh3, Eh. rewrite L1 in Eh. exists t3. intros v1 st' m' Ex. apply Eh.
  set (v3 := set_vreg v rsp (sp + 24)) in *. set (s3 := vm_write s v3 m t3) in *. set (code := load64 m (hp + 16)) in *.
  change (interrupt_handler Interrupt.page_fault code) with (handle_page_fault (os := os) (T := T) code).
  rewrite (page_fault_flow s3 v3 _ code (vo_cpu _ _ _ _ Ok3) (get_sregs_eq _ sregs Hio)).
  change (reg _ cr2) with (k_cr2 sregs). replace (k_cr2 sregs <=? 0x1000) with false by (symmetry; lia).
  erewrite (expand_eq _ st' m'); [|exact Ex]. unfold s3, vm_write. by rewrite put_cpu0_put.
Qed.

(** What is on the interrupt stack at the hypercall of a page fault. *)
Definition fault_words (v : VCPU) (cs_ ss_ err : Z) : list Z :=
  [ss_; vreg v rsp; vreg v rflags; cs_; vreg v rip; err; 14; 2].

(** The machine after the hypercall: the stack has grown. *)
Lemma fault_handled s v N sr table handler h cs_ ss_ err s0 v0 cs0 ss0 sregs :
  let top := Z.land (ist1 sr) (- 16) in let ws := fault_words v cs_ ss_ err in
  traps_ready s v c0 N sr table handler h -> grows s v N -> _debug s = false -> num_pending_signals s <= 0 ->
  (forall o fd r, io_get_sregs o fd r = ((0, 0, sregs), o)) -> 0x1000 < k_cr2 sregs ->
  at_vmcall c0 s N h ws s0 v0 cs0 ss0 -> stack v0 = stack v -> vreg v0 rsp = top - 64 -> vreg v0 rip = handler + 258 ->
  (forall r, r ∉ [rip; rsp; rflags] -> vreg v0 r = vreg v r) ->
  exists t m' s1 v1,
    handle_hypercall hs hypercall_null udis s0 = Ok (0, s1) /\ cpus s1 !! 0%nat = Some v1 /\ hm_rm (v_hm s1) = m' /\
    expanded (rm_mem_tlb (hm_rm (v_hm s)) (push_image (p_mem (vm_paging s)) h ws) t) c0 N (stack v) m' (stack v1) /\
    extends (translate c0 s) (translate c0 s1) /\ vreg v1 rsp = top - 40 /\ vreg v1 rip = handler + 261 /\
    forall r, gpr r -> r ∉ [rip; rsp; rflags] -> vreg v1 r = vreg v r.
Proof.
  intros top ws Hrd Hgr Hd Hp Hio Hcr2 [Ok0 Eh0 Evm Ecur] Est Rsp Rip Rr.
  destruct (rd_stack _ _ _ _ _ _ _ _ Hrd) as [Hr _ Hw]. fold top in Hr, Hw.
  set (m0 := push_image (p_mem (vm_paging s)) h ws) in *.
  assert (p_mem (vm_paging s0) = m0) as Em by (by rewrite Evm).
  assert (forall k, 1 <= k <= 8 -> stack_word (cpu0 s0 v0) c0 (top - 8 * k) (h - 8 * k)) as Hw0.
  { intros k Hk. apply (stack_word_step s s0 v v0); [by rewrite Evm|exact Eh0|by apply Hw]. }
  pose proof (push_image_load (p_mem (vm_paging s)) h ws) as Hl. fold m0 in Hl.
  destruct (fault_flow s0 v0 N (h - 64) sregs Ok0) as (t & Eflow); try done.
  - rewrite Rsp. lia.
  - rewrite Rsp. apply (Hw0 8). lia.
  - rewrite Rsp. replace (top - 64 + 8) with (top - 8 * 7) by lia. replace (h - 64 + 8) with (h - 8 * 7) by lia.
    apply Hw0. lia.
  - rewrite Rsp. replace (top - 64 + 16) with (top - 8 * 6) by lia. replace (h - 64 + 16) with (h - 8 * 6) by lia.
    apply Hw0. lia.
  - rewrite Em. apply (Hl 7%nat 2 eq_refl).
  - rewrite Em. replace (h - 64 + 8) with (h - 8 * (Z.of_nat 6 + 1)) by lia. apply (Hl 6%nat 14 eq_refl).
  - by rewrite Evm.
  - rewrite Rsp, Em in Eflow. replace (top - 64 + 24) with (top - 40) in Eflow by lia.
    destruct (grows_write s v N v0 m0 t Hgr Est) as (m' & st' & Eex & Hx & Hext).
    { intros x Hxx. eapply push_image_outside; [|exact Hxx]. intros k Hk.
      destruct (Hw k Hk) as [_ _ Hu]. exact Hu. }
    assert (rm_mem_tlb (hm_rm (v_hm s0)) m0 t = rm_mem_tlb (hm_rm (v_hm s)) m0 t) as Erm by (by rewrite Evm).
    rewrite Erm in Eflow. specialize (Eflow st' m' Eex).
    set (v1 := sregs_of (set_vreg v0 rsp (top - 40)) sregs) in *.
    set (v1' := mkVcpu (is_singlestepping v1) (_kvm_vcpu v1) st') in *. set (s1 := put_cpu0 s0 _) in Eflow.
    assert (cpus s1 !! 0%nat = Some v1') as Hv1 by exact (put_cpu0_lookup s0 (mkCpu v1' m') v0 (vo_cpu _ _ _ _ Ok0)).
    rewrite (finish_hypercall_eq s1 v1') in Eflow; [|exact Hv1|by unfold s1; rewrite Evm].
    change (vreg v1' rip) with (vreg v0 rip) in Eflow. pose proof (rd_handler _ _ _ _ _ _ _ _ Hrd) as Hh.
    rewrite Rip, u64_small in Eflow by lia. replace (handler + 258 + 3) with (handler + 261) in Eflow by lia.
    exists t, m', (put_reg s1 v1' rip (handler + 261)), (set_vreg v1' rip (handler + 261)).
    split; [exact Eflow|]. split; [by apply put_reg_lookup|]. split; [done|]. split; [exact Hx|]. split; [exact Hext|].
    split; [done|]. split; [done|]. intros r Hg Hn. rewrite vreg_set.
    case_decide; [subst; exfalso; apply Hn; reg_in|].
    transitivity (vreg (set_vreg v0 rsp (top - 40)) r); [by destruct r|]. rewrite vreg_set.
    case_decide; [subst; exfalso; apply Hn; reg_in|]. by apply Rr.
Qed.
End Fault.

(** C18. A page fault grows the stack and is retried.  In a sound machine
    whose next 2 MB below the stack are unmapped, with room for another chunk and no
    signal waiting, a page fault above the first page goes
    through gate 14, its stub, the hypercall and [iretq] back to the faulting
    instruction, with the error code taken from the interrupt stack and
    every general register and selector as before; the base of the stack is 2 MB
    lower, all 512 pages below the old base are mapped
    and writeable, no address that was mapped has moved, and no byte outside the page tables and the
    eight words of the interrupt stack has changed.  The address of the fault
    is not looked at: the stack grows by the same 2 MB wherever it lies. *)
Theorem page_fault_roundtrip {os T} `{HostOSLaws os} `{FileOS os} `{KvmOS os} `{MonitorOS os} `{TranslationCacheLaws T}
    (hs : elkvm_handlers os (vm os T)) udis (s : vm os T) v c0 N sr table handler h cs_ ss_ err sregs :
  let pml4 := host_pml4_p (p_pager (vm_paging s)) in
  traps_ready s v c0 N sr table handler h -> regs_wide v -> is_u16 cs_ -> is_u16 ss_ ->
  code_avoids (translate c0 s) handler isr_bin pml4 ELKVM_SYSTEM_MEMSIZE ->
  grows c0 s v N -> _debug s = false -> num_pending_signals s <= 0 ->
  (forall o fd r, io_get_sregs o fd r = ((0, 0, sregs), o)) -> 0x1000 < k_cr2 sregs ->
  exists p1 s2 v2, exception c0 sr 14 (Some err) (mkComputer s cs_ ss_) = Some p1 /\
    rtc (pc_run hs udis c0 sr) p1 (mkComputer s2 cs_ ss_) /\
    cpus s2 !! 0%nat = Some v2 /\ (forall r, gpr r -> vreg v2 r = vreg v r) /\
    Stack.base (stack v2) = Stack.base (stack v) - ELKVM_STACK_GROW /\
    (forall j, 0 <= j < 512 -> exists g, mapped (vm_paging s2) c0 (Stack.base (stack v2) + 4096 * j) g PT_OPT_WRITE) /\
    extends (translate c0 s) (translate c0 s2) /\
    forall x, x < pml4 \/ pml4 + ELKVM_SYSTEM_MEMSIZE <= x -> x < h - 64 \/ h <= x ->
      p_mem (vm_paging s2) x = p_mem (vm_paging s) x.
Proof.
  intros pml4 Hrd Hwide Hcs Hss Hav Hgr Hd Hp Hio Hcr2.
  destruct (exception_enters s v c0 N sr table handler h cs_ ss_ 14 (Some err) Hrd ltac:(lia))
    as (p1 & k & s0 & v0 & cs0 & ss0 & Ex & Eg & Hvm & Rip & Rsp & Est & Rr).
  destruct (fault_handled hs udis c0 s v N sr table handler h cs_ ss_ err s0 v0 cs0 ss0 sregs Hrd Hgr Hd Hp Hio Hcr2
              Hvm Est Rsp Rip Rr) as (t & m' & s1 & v1 & Eh & Hv1 & Erm & Hx & Hext & Rsp1 & Rip1 & Rr1).
  set (ws := fault_words v cs_ ss_ err) in *.
  assert (forall x, x < pml4 \/ pml4 + ELKVM_SYSTEM_MEMSIZE <= x ->
            p_mem (vm_paging s1) x = push_image (p_mem (vm_paging s)) h ws x) as Hmem.
  { intros x Hxx. unfold vm_paging at 1. rewrite Erm. by apply (ex_mem _ _ _ _ _ _ Hx). }
  pose proof (rd_stack _ _ _ _ _ _ _ _ Hrd) as Hroom.
  destruct (iret_back c0 sr h s1 v1 v cs_ ss_ cs0 ss0 Hv1 Hwide Hcs Hss) as (s2 & v2 & Eg2 & Hv2 & R2 & _ & Erm2 & Est2).
  - apply (iretq_current c0 handler); [|apply Hrd|done]. apply (code_at_mono (translate c0 s)); [exact Hext|].
    intros i b Hi. destruct (rd_code _ _ _ _ _ _ _ _ Hrd i b Hi) as (hh & Et & El). exists hh. split; [done|].
    unfold load8 in *. rewrite Hmem by (specialize (Hav i b hh Hi Et); lia).
    rewrite push_image_other; [done|]. pose proof (rd_avoids _ _ _ _ _ _ _ _ Hrd i b hh Hi Et).
    change (Z.of_nat (length ws)) with 8. lia.
  - exact (stack_room_le _ _ _ 8 5 (stack_room_mono _ _ _ _ _ Hext (vm_room_stack _ _ _ _ _ _ Hroom)) ltac:(lia)).
  - done.
  - intros i x Hi. assert (i < 5)%nat as Hi5 by (apply lookup_lt_Some in Hi; exact Hi).
    transitivity (load64 (push_image (p_mem (vm_paging s)) h ws) (h - 8 * (Z.of_nat i + 1))).
    + apply load64_ext. intros y Hy. apply Hmem. destruct (vr_word _ _ _ _ _ _ Hroom (Z.of_nat i + 1) ltac:(lia)) as [_ _ Hu].
      change (paging (cpu0 s v)) with (vm_paging s) in Hu. fold pml4 in Hu. lia.
    + apply push_image_load. unfold ws, fault_words. do 5 (destruct i as [|i]; [exact Hi|]). lia.
  - exact Rr1.
  - exists p1, s2, v2. split; [exact Ex|]. split.
    + eapply rtc_l; [by apply (pc_guest _ _ _ _ k)|].
      eapply rtc_l; [|apply rtc_once, (pc_guest _ _ _ _ 1); exact Eg2].
      apply pc_hypercall. destruct Hvm as [Ok0 _ _ Ecur].
      exact (hypercall_eq hs udis c0 _ v0 _ _ (core_of_eq (mkComputer s0 cs0 ss0) v0 (vo_cpu _ _ _ _ Ok0)) eq_refl Ecur Eh).
    + assert (vm_paging s2 = vm_paging s1) as Ep by (unfold vm_paging; by rewrite Erm2).
      unfold translate. rewrite Ep, Est2. split; [exact Hv2|]. split; [exact R2|]. split; [apply (ex_base _ _ _ _ _ _ Hx)|].
      split; [|split; [exact Hext|]].
      * intros j Hj. destruct (ex_region _ _ _ _ _ _ Hx) as (i & r & _ & _ & _ & _ & _ & _ & _ & Hmap).
        eexists. unfold vm_paging. rewrite Erm. by apply Hmap.
      * intros x Ho Hi. rewrite Hmem by done. apply push_image_other. change (Z.of_nat (length ws)) with 8. lia.
Qed.

(** The machine after boot with one page mapped, which holds the interrupt
    table, the stubs and the interrupt stack as in [trap_vm]; the kernel reports a fault at
    0x5000. *)
Definition fault_pager : pst bump_os TLB.t := after (map_user_page 0x11000000 0x400000 1) (rm_pager HeapTheorems.machine).
Definition fault_rm : rm bump_os TLB.t := put_pager HeapTheorems.machine fault_pager.
Definition fault_vm0 : vm bump_os TLB.t :=
  mkVM [trap_vcpu] false (mkHM [] [] 0 fault_rm) 3 [] (replicate 65 (replicate 152 0)) (mkFlat None 0) (replicate 32 0) 0.
Definition fault_vm : vm bump_os TLB.t := vm_write fault_vm0 trap_vcpu (trap_page (p_mem fault_pager)) (p_tlb (vm_paging fault_vm0)).

Definition fault_sregs : kvm_sregs := w_cr2 zero_sregs 0x5000.
Definition fault_KvmOS : KvmOS bump_os := {|
  io_create_vcpu o _ _ := (5, o);
  io_mmap_run o _ := ((0x7000, mkRun 0 0), o);
  io_get_regs o _ r := ((0, 0, r), o);
  io_set_regs o _ _ := ((0, 0), o);
  io_get_sregs o _ _ := ((0, 0, fault_sregs), o);
  io_set_sregs o _ _ := ((0, 0), o);
  io_get_msr o _ _ := ((1, 0), o);
  io_set_msr o _ _ _ := (1, o);
  io_set_guest_debug o _ _ := (0, o);
  io_run o _ m := (((0, 0, mkRun KVM_EXIT_HYPERCALL 0), m), o);
|}.

Lemma fault_vm0_ok : exists N, N <= 4 /\ mem_inv fault_rm demo_chunk N /\ vm_ok fault_vm0 trap_vcpu demo_chunk N.
Proof.
  assert (map_user_page 0x11000000 0x400000 1 (rm_pager HeapTheorems.machine) = Ok (0, fault_pager)) as E.
  { unfold fault_pager. apply (ok_after (map_user_page 0x11000000 0x400000 1) (rm_pager HeapTheorems.machine) 0).
    vm_compute. reflexivity. }
  destruct (mi_tables _ _ _ machine_mem) as [own Hi].
  pose proof (map_user_page_lemma (rm_pager HeapTheorems.machine) demo_chunk 1 own 0x11000000 0x400000 1
                0x1000000 Hi) as Hw.
  specialize (Hw ltac:(lia) ltac:(lia) ltac:(right; vm_compute; discriminate) eq_refl ltac:(vm_compute; reflexivity) ltac:(lia)).
  destruct (wp_partial_inv _ _ _ _ _ _ Hw E) as (Hm & N' & own' & HN & Hi' & _).
  assert (coherent demo_chunk (rm_pager HeapTheorems.machine)) as Hco by (apply coherent_fresh; vm_compute; reflexivity).
  exists N'. split; [lia|]. assert (tables_ok fault_pager demo_chunk N') as Ht by (by exists own'). split.
  - exact (mem_inv_pager _ _ _ N' fault_pager machine_mem (me_outside _ _ _ _ _ _ _ Hm) Ht).
  - constructor; [reflexivity|]. constructor.
    + exact Ht.
    + destruct (outside_chunks _ _ (me_outside _ _ _ _ _ _ _ Hm)) as [Ec _].
      change (chunks (p_pager (paging (cpu0 fault_vm0 trap_vcpu)))) with (chunks (p_pager fault_pager)). rewrite Ec.
      apply (layout_chunk_ok 0), (mi_chunks _ _ _ machine_mem).
    + apply (map_effect_coherent (rm_pager HeapTheorems.machine) fault_pager demo_chunk 0x400000 0x1000000 1 0);
        [lia|exact Hco|exact Hm].
Qed.

Lemma fault_pml4 : host_pml4_p (p_pager (vm_paging fault_vm0)) = 0x10000000.
Proof. vm_compute. reflexivity. Qed.

Lemma fault_vm_free :
  forallb (fun j => match trans demo_chunk (vm_paging fault_vm) (LINUX_64_STACK_BASE - ELKVM_STACK_GROW + 4096 * j) with
                    | None => true | Some _ => false end) (seqZ 0 512) = true.
Proof. vm_compute. reflexivity. Qed.

Lemma fault_vm_ok N : vm_ok fault_vm0 trap_vcpu demo_chunk N -> vm_ok fault_vm trap_vcpu demo_chunk N.
Proof.
  intros Hok. apply (vm_ok_write fault_vm0 trap_vcpu demo_chunk N); [exact Hok|]. rewrite fault_pml4. apply trap_page_tables.
Qed.

Lemma fault_vm_pml4 : host_pml4_p (p_pager (vm_paging fault_vm)) = 0x10000000.
Proof. vm_compute. reflexivity. Qed.

Lemma fault_vm_mem : p_mem (vm_paging fault_vm) = trap_page (p_mem fault_pager).
Proof. apply vm_write_mem. Qed.

Lemma fault_vm_page : translate demo_chunk fault_vm 0x400000 = Some 0x11000000.
Proof. vm_compute. reflexivity. Qed.

Lemma fault_vm_grows N : N <= 4 -> mem_inv fault_rm demo_chunk N -> grows demo_chunk fault_vm trap_vcpu N.
Proof.
  intros HN Hm. constructor.
  - apply mem_inv_write; [exact Hm|]. rewrite fault_pml4. apply trap_page_tables.
  - vm_compute. discriminate.
  - lia.
  - reflexivity.
  - vm_compute. split; [reflexivity|discriminate].
  - intros j Hj. pose proof fault_vm_free as Hall. rewrite forallb_forall in Hall.
    specialize (Hall j (proj1 (list_elem_of_In _ _) (proj2 (elem_of_seqZ 0 512 j) ltac:(lia)))).
    change (Stack.base (stack trap_vcpu)) with LINUX_64_STACK_BASE. by destruct (trans _ _ _).
  - intros m t. eexists. refine (ok_after (add_chunk _ _) _ 0 _). vm_compute. reflexivity.
Qed.

Lemma page_fault_roundtrip_witness :
  exists p1 s2 v2, exception demo_chunk trap_sysregs 14 (Some 6) (mkComputer fault_vm 0x13 0xb) = Some p1 /\
    rtc (@pc_run bump_os TLB.t _ _ fault_KvmOS _ _ default_handlers false demo_chunk trap_sysregs) p1 (mkComputer s2 0x13 0xb) /\
    cpus s2 !! 0%nat = Some v2 /\ vreg v2 rip = 0x400abc /\ vreg v2 rsp = 0x400f00 /\
    Stack.base (stack v2) = 0x7FFFFFE00000.
Proof.
  destruct fault_vm0_ok as (N & HN & Hm & Hok).
  destruct (@page_fault_roundtrip bump_os TLB.t _ _ _ fault_KvmOS _ _ _ default_handlers false fault_vm trap_vcpu demo_chunk N
              trap_sysregs 0x11000000 0x400400 0x11000800 0x13 0xb 6 fault_sregs)
    as (p1 & s2 & v2 & Ex & Hr & Hv & R & Hb & _).
  - exact (page_ready fault_vm trap_vcpu N _ (fault_vm_ok N Hok) fault_vm_page fault_vm_mem fault_vm_pml4).
  - exact trap_vcpu_wide.
  - split; lia.
  - split; lia.
  - rewrite fault_vm_pml4. exact (page_code_avoids fault_vm trap_vcpu N (fault_vm_ok N Hok) fault_vm_page).
  - exact (fault_vm_grows N HN Hm).
  - reflexivity.
  - by vm_compute.
  - reflexivity.
  - by vm_compute.
  - exists p1, s2, v2. split; [exact Ex|]. split; [exact Hr|]. split; [exact Hv|].
    split; [rewrite R by done; reflexivity|]. split; [rewrite R by done; reflexivity|]. exact Hb.
Defined.
